(* ===== verification/_CoqProject ===== *)
-Q . S2P
Prelude.v
GoStd.v
Sha256.v
Merkle.v
Crypto.v
Protocol.v
Instances.v
Identity.v
Wire.v
Chunker.v
Services.v
FilePath.v
Sender.v
Receiver.v
Transfer.v
Routing.v
Dht.v
Handshake.v
X25519.v
IPExchange.v
Signaling.v
Session.v
Keystore.v
ApiAuth.v
Float.v
Progress.v
Events.v
Chat.v
Connector.v
Peers.v
Presence.v
Tor.v
Provider.v
Pending.v
RegisterService.v
Discovery.v
Contacts.v
ApiEvents.v
Node.v
Api.v
Wiring.v
Daemon.v
Backend.v
Main.v
Screens.v
Views.v
App.v
AppSpec.v
Conversation.v
Delivery.v
Startup.v
Shutdown.v
