(* ===== verification/Prelude.v ===== *)
(** * Ensemble: a verified model of the peer-to-peer daemon

    Ensemble is a daemon that hosts services (a person's node, bots), each with an Ed25519
    key, an address derived from it and a Tor onion.  Peers find each other through a
    Kademlia table, prove their identities in a three-step handshake over Tor, exchange
    their network addresses under a shared key, and then chat and transfer files over
    libp2p streams.  This library translates the Go code under src/internal into
    executable definitions and proves what makes each part correct, and where it is not.

    ** How the code is rendered

    - A Go function that returns an error is a [result]; one constructor per error.
    - Integers are [Z] with Go's wrap-around written out ([u32], [i64], ...).
    - Time is in nanoseconds, durations saturate and wrap as in package time (GoStd.v); a
      function that reads the clock several times takes each reading as an argument.
    - Randomness and the answers of the system (a dial, a write, a directory) are arguments:
      a theorem for all of them is a theorem about every failure.
    - Stateful code passes its state; a conversation over a connection is a process
      ([Signaling.proc]) that sends and receives envelopes.  [Signaling.run] is all it can do
      against any peer, [Signaling.link] runs two processes over a reliable connection.
    - Libraries are classes of operations with the laws the program relies on (Crypto.v):
      Ed25519, RIPEMD-160, Base58, X25519, HKDF, AES-GCM, SHA-512, Argon2 and protobuf.
      Instances.v and [IPExchange.ToyKeys] satisfy every law, so no theorem is vacuous.
      SHA-256 is computed (Sha256.v).
    - Operations hold the code's locks from beginning to end unless the file says otherwise
      (Services.v models what happens between the registry's two critical sections).

    ** The files

    - GoStd.v: time, big-endian integers, channels, sort.Slice, strings.
      FilePath.v: filepath.Join, Clean and Base.
    - Protocol.v, Wire.v: internal/protocol (messages, framing, signed envelopes).
    - Identity.v: keypair.go and address.go.  X25519.v: x25519.go.
      Keystore.v: keystore.go, on a file system of directories and files; it is an instance
      of the interface [Services.KeystoreI] the registry is proved against.
    - Services.v: internal/services, the registry and its rollbacks, against interfaces of
      the keystore, the Tor engine ([Tor.v] gives it) and discovery ([Dht.v] gives it).
    - Tor.v: internal/tor, the engine's onions and their keys over the library that drives
      the Tor process.  Provider.v: provider.go, which fetches the Tor binary.
    - Handshake.v, IPExchange.v, Signaling.v, Session.v: internal/signaling, with
      performClientHandshake and the exchange of transport/connector.go and
      daemon/service_gate.go.
    - Connector.v: transport/nat.go and the connection flows of connector.go.  Peers.v: the
      table of connections and its limit.  Presence.v: presence.go and the reconnection.
    - Routing.v, Dht.v: internal/discovery, the table and the DHT.  Discovery.v: manager.go and
      mdns.go.
    - Merkle.v, Chunker.v, Sender.v, Receiver.v, Transfer.v, Progress.v: internal/filetransfer;
      Float.v has the floating-point numbers.
    - Events.v: internal/node/events.go.  Node.v: node.go.  Chat.v: internal/chat.
      Contacts.v: internal/contacts.
    - ApiAuth.v: internal/api/auth.go.  RegisterService.v: registerservice.go; Pending.v is
      the table of pending decisions it shares with Node.v.  Api.v: server.go.  ApiEvents.v:
      events.go and the client's end of it.
    - Wiring.v: the goroutine of daemon.go that starts once Tor is up, as a step relation with
      the clients of the API; a registration is one step.  Daemon.v: the rest of daemon.go's Start and listen,
      the sockets closed by Stop, and config.go.  Startup.v: the routing table of the last run and
      what the node is handed.  Shutdown.v: Stop, statement by statement, against the wiring and the
      clients.  Main.v: main.go.
    - Backend.v: internal/ui's backend.go, direct.go and grpc.go.  Screens.v: ui/screens and
      ui/components; Views.v: what they draw.  App.v: ui/app.go; AppSpec.v has its theorems.
      Conversation.v: the adapters of daemon.go, and two daemons with their interfaces.
      Delivery.v: the file transfer of daemon.go, and a file from one interface to the other's disk.

    ** What is shown

    - File transfer: a received file is the concatenation of chunks vouched for by the
      Merkle root; over a reliable stream with a working disk every transfer completes;
      the sender's window and counters stay in bounds; a proof binds a chunk up to a
      collision of SHA-256; a file chosen in one interface and accepted in the other is on the
      other's disk and shown as complete (Delivery.v).  Findings: inner nodes pass for leaves, the index is taken
      modulo a power of two, and the file name escapes the directory.  The progress shown is
      within its bounds (Progress.v).
    - Handshake: it succeeds only with the key behind the address, signing this session's
      nonce; a service answers and shows its addresses only after consent; two honest
      peers always finish, with each other's addresses.  Findings: signatures of the two roles
      are interchangeable, and a replay passes at the edge of the cache's lifetime.
    - Identity and storage: addresses, key conversion, and the key files (a key that was
      returned survives a restart and is never replaced).  Finding: a failed write blocks a name.
    - Discovery: the invariant of the table, the contracts of insertion and lookup, the rate
      limit, saving and loading, termination of the iterative lookup.  Findings: own
      announcements escape the limit; a record from the future blocks saving.
    - Services and API: the registry's contract with its rollbacks, the server's life, the
      gate of registered services, the exact condition of API authentication.
    - Events and chat: order and loss on the bus, bounded histories, delivery with
      acknowledgment; a message authenticates its author but no recipient.
    - Connections: a connection attempt ends in one of the listed states with what each
      step requires, the strategies are tried in order, and the table keeps its limit while
      every entry is connected.  Findings: failed entries are never evicted and
      reconnection skips the limit.
    - Tor: the engine implements a map from names to onions, and an onion keeps its address
      across restarts.  Finding: two concurrent first calls change it.
    - User decisions, over gRPC and in the node: each reaches the handler of the latest
      request it names, and no other; the event queue is bounded and drops the oldest.
    - Discovered peers are offered at most once, and a search prefers the local network.
      Contacts survive saving and loading; a save cut short loses them all.
    - The terminal interface: the backend over gRPC agrees with the one in the process
      up to the connection's failures; the interface never crashes, handling a message or
      drawing, unless the contact list shrinks; what is marked on the screen is what a key acts on;
      it leaves the splash screen; a request of a peer is shown and the decision
      reaches its handler (Node.v, Backend.v and App.v together); messages are listed, sent
      and acknowledged, from the one screen to the other (Conversation.v over Chat.v, Node.v, Backend.v and App.v).  Findings: a second request traps the prompt, events lose their types
      over gRPC, a conversation shows nothing before a resize, a peer can draw messages of the user.

    - The daemon: what a start leaves on every path, the sockets, the identity across restarts,
      and the command line with its administrator's key (Main.v over Daemon.v, ApiAuth.v and
      Keystore.v).  Once wired, every registered service is served with its own key on a running
      onion and admits whom its manifest allows (Wiring.v over Services.v, Tor.v and
      Signaling.v).  Findings: two orders of starting leave the daemon without services.
    - Starting and stopping: the routing table of the last run without its stale peers (Startup.v);
      the order in which Stop closes the parts, where it waits, and what it misses when the daemon
      is still being wired (Shutdown.v).
    - The Tor binary: only the binary of an archive with the right digest is run, and a good
      archive is installed.

    ** Bounds and fuel

    [Sender.fill_window] has fuel for every chunk not yet sent, and [Dht]'s lookup for its
    rounds; the theorems show these are enough.  [X25519.egcd] has 600 rounds, two per
    halving of a 256-bit number.  [FormatInt] has twenty digits, enough for 64 bits.  The
    sessions of Session.v and Chat.v end within the fuel their theorems name.

    ** What is not modelled

    libp2p and the Tor process, the generated protobuf code, styles, layout and text
    fields (classes of operations), gRPC itself (a connection that may fail before or
    after a call), the parsing of flags, HTTP, gzip and tar (arguments of Provider.v), and the
    tickers that call the pinger, the reconnection and the announcements, whose single rounds are
    modelled. *)

From Stdlib Require Export ZArith Lia List Permutation Sorted.
From Stdlib Require Export Strings.Byte.
From stdpp Require Export base tactics gmap strings list fin_maps.

#[global] Open Scope Z_scope.

(** ** Outcomes of fallible Go functions

    A Go function returning [(T, error)] is a [result E T]; [E] is the
    inductive type of the errors the function can return. *)

Inductive result (E A : Type) : Type :=
| Ok (a : A)
| Err (e : E).
Arguments Ok {E A} a.
Arguments Err {E A} e.

#[export] Instance result_eq_dec {E A} `{EqDecision E, EqDecision A} :
  EqDecision (result E A).
Proof. solve_decision. Defined.

Definition is_ok {E A} (r : result E A) : bool :=
  match r with Ok _ => true | Err _ => false end.

Definition of_option {E A} (e : E) (o : option A) : result E A :=
  match o with Some a => Ok a | None => Err e end.

Definition rbind {E A B} (r : result E A) (k : A -> result E B) : result E B :=
  match r with Ok a => k a | Err e => Err e end.

Declare Scope go_scope.
Delimit Scope go_scope with go.
Notation "x <-? e ; k" := (rbind e (fun x => k))
  (at level 20, e at level 100, k at level 200) : go_scope.
Notation "' x <-? e ; k" := (rbind e (fun x => k))
  (at level 20, x pattern, e at level 100, k at level 200) : go_scope.
(** [guard b else e; k] is [if !b { return e }; k]. *)
Notation "'guard' b 'else' e ; k" := (if b then k else Err e)
  (at level 20, b at level 100, e at level 100, k at level 200) : go_scope.

(** ** Bytes *)

Abbreviation bytes := (list byte).

Definition b2z (b : byte) : Z := Z.of_N (Byte.to_N b).

(** Go's conversion [byte(x)]: the low eight bits. *)
Definition z2b (z : Z) : byte :=
  match Byte.of_N (Z.to_N (z mod 256)) with Some b => b | None => Byte.x00 end.

#[export] Instance byte_eq_dec : EqDecision byte := Byte.byte_eq_dec.

Lemma b2z_range b : 0 <= b2z b < 256.
Proof. unfold b2z. pose proof (Byte.to_N_bounded b). lia. Qed.

Lemma z2b_b2z b : z2b (b2z b) = b.
Proof.
  unfold z2b. rewrite Z.mod_small by apply b2z_range.
  unfold b2z. rewrite N2Z.id. by rewrite Byte.of_to_N.
Qed.

Lemma b2z_z2b z : b2z (z2b z) = z mod 256.
Proof.
  unfold z2b, b2z. pose proof (Z.mod_pos_bound z 256 eq_refl) as H.
  destruct (Byte.of_N (Z.to_N (z mod 256))) eqn:E.
  - apply Byte.to_of_N in E. rewrite E. lia.
  - apply Byte.of_N_None_iff in E. lia.
Qed.

Lemma b2z_inj a b : b2z a = b2z b -> a = b.
Proof. intros H. by rewrite <- (z2b_b2z a), <- (z2b_b2z b), H. Qed.

#[export] Instance b2z_inj' : Inj (=) (=) b2z := b2z_inj.

#[export] Program Instance byte_countable : Countable byte :=
  inj_countable' Byte.to_N (fun n => default Byte.x00 (Byte.of_N n)) _.
Next Obligation. intros b. simpl. by rewrite Byte.of_to_N. Qed.

(** [string(a) == string(b)] on byte slices. *)
Definition bytes_eqb (a b : bytes) : bool := bool_decide (a = b).

Lemma bytes_eqb_eq a b : bytes_eqb a b = true <-> a = b.
Proof. unfold bytes_eqb. by rewrite bool_decide_eq_true. Qed.
Lemma bytes_eqb_neq a b : bytes_eqb a b = false <-> a <> b.
Proof. unfold bytes_eqb. by rewrite bool_decide_eq_false. Qed.
Lemma bytes_eqb_refl a : bytes_eqb a a = true.
Proof. by apply bytes_eqb_eq. Qed.

(** Byte-wise exclusive or, Go's [x ^ y] on [byte]. *)
Definition bxor (x y : byte) : byte := z2b (Z.lxor (b2z x) (b2z y)).

Lemma lxor_256 x y : 0 <= x < 256 -> 0 <= y < 256 -> 0 <= Z.lxor x y < 256.
Proof.
  intros Hx Hy. split; [apply Z.lxor_nonneg; lia|].
  destruct (decide (Z.lxor x y = 0)) as [->|Hne]; [lia|].
  apply (Z.log2_lt_pow2 _ 8); [apply Z.le_neq; split; [apply Z.lxor_nonneg; lia|done]|].
  pose proof (Z.log2_lxor x y ltac:(lia) ltac:(lia)).
  assert (forall z, 0 <= z < 256 -> Z.log2 z < 8) as Hlog.
  { intros z Hz. destruct (decide (z = 0)) as [->|]; [done|].
    apply Z.log2_lt_pow2; lia. }
  pose proof (Hlog x Hx). pose proof (Hlog y Hy). lia.
Qed.

Lemma b2z_bxor x y : b2z (bxor x y) = Z.lxor (b2z x) (b2z y).
Proof.
  unfold bxor. rewrite b2z_z2b, Z.mod_small; [done|].
  apply lxor_256; apply b2z_range.
Qed.

Lemma bxor_comm x y : bxor x y = bxor y x.
Proof. unfold bxor. by rewrite Z.lxor_comm. Qed.

Lemma bxor_diag x : bxor x x = Byte.x00.
Proof. unfold bxor. by rewrite Z.lxor_nilpotent. Qed.

Lemma bxor_eq_0 x y : bxor x y = Byte.x00 <-> x = y.
Proof.
  split; [|intros ->; apply bxor_diag].
  intros H%(f_equal b2z). rewrite b2z_bxor in H.
  apply b2z_inj, Z.lxor_eq, H.
Qed.

Lemma bxor_inj_r x y z : bxor x z = bxor y z -> x = y.
Proof.
  intros H%(f_equal b2z). rewrite !b2z_bxor in H. apply b2z_inj.
  assert (Z.lxor (Z.lxor (b2z x) (b2z z)) (b2z z)
          = Z.lxor (Z.lxor (b2z y) (b2z z)) (b2z z)) as H' by congruence.
  by rewrite !Z.lxor_assoc, Z.lxor_nilpotent, !Z.lxor_0_r in H'.
Qed.

(** ** Machine integers

    Go's [uintN] and [intN] are elements of [Z] in range; the operations wrap. *)

Definition wrap_u (w : Z) (z : Z) : Z := z mod 2 ^ w.
Definition wrap_s (w : Z) (z : Z) : Z :=
  (z + 2 ^ (w - 1)) mod 2 ^ w - 2 ^ (w - 1).

Abbreviation u32 := (wrap_u 32).
Abbreviation u64 := (wrap_u 64).
Abbreviation i32 := (wrap_s 32).
Abbreviation i64 := (wrap_s 64).

Definition in_u (w z : Z) : Prop := 0 <= z < 2 ^ w.
Definition in_s (w z : Z) : Prop := - 2 ^ (w - 1) <= z < 2 ^ (w - 1).

Lemma wrap_u_small w z : in_u w z -> wrap_u w z = z.
Proof. apply Z.mod_small. Qed.

Lemma wrap_u_range w z : 0 <= w -> in_u w (wrap_u w z).
Proof. intros Hw. apply Z.mod_pos_bound. by apply Z.pow_pos_nonneg. Qed.

Lemma pow2_half w : 0 < w -> 2 ^ w = 2 * 2 ^ (w - 1).
Proof.
  intros Hw. rewrite <- (Z.pow_succ_r 2 (w - 1)) by lia. f_equal. lia.
Qed.

Lemma wrap_s_small w z : 0 < w -> in_s w z -> wrap_s w z = z.
Proof.
  intros Hw Hz. unfold wrap_s, in_s in *. pose proof (pow2_half w Hw).
  rewrite Z.mod_small; lia.
Qed.

Lemma wrap_s_range w z : 0 < w -> in_s w (wrap_s w z).
Proof.
  intros Hw. unfold wrap_s, in_s. pose proof (pow2_half w Hw).
  assert (0 < 2 ^ (w - 1)) by (apply Z.pow_pos_nonneg; lia).
  pose proof (Z.mod_pos_bound (z + 2 ^ (w - 1)) (2 ^ w) ltac:(lia)). lia.
Qed.

(** ** Lists *)

Section list_facts.
Context {A : Type}.
Implicit Types (l : list A) (P : A -> bool).

(** The index of the first element a test accepts: a Go [for i, x := range l]
    that returns at the first hit. *)
Fixpoint find_index P l : option nat :=
  match l with
  | [] => None
  | x :: l => if P x then Some O else S <$> find_index P l
  end.

(** [append(l[:i], l[i+1:]...)] *)
Definition remove_at (i : nat) l : list A := take i l ++ drop (S i) l.

Lemma find_index_Some P l i :
  find_index P l = Some i ->
  exists x, l !! i = Some x /\ P x = true /\
    (forall j y, (j < i)%nat -> l !! j = Some y -> P y = false).
Proof.
  revert i. induction l as [|x l IH]; intros i; simpl; [done|].
  destruct (P x) eqn:Hx.
  - intros [= <-]. exists x. split_and!; [done..|lia].
  - destruct (find_index P l) as [k|]; simpl; [|done].
    intros [= <-]. destruct (IH k eq_refl) as (y & Hk & Hy & Hlt).
    exists y. split_and!; [done..|].
    intros [|j] z Hj Hz; simpl in *; [by simplify_eq|].
    eapply Hlt; [|done]. lia.
Qed.

Lemma find_index_None P l :
  find_index P l = None <-> (forall x, x ∈ l -> P x = false).
Proof.
  induction l as [|x l IH]; simpl.
  - split; [intros _ x Hx; by apply elem_of_nil in Hx|done].
  - destruct (P x) eqn:Hx.
    + split; [done|]. intros H. specialize (H x (list_elem_of_here _ _)). congruence.
    + destruct (find_index P l) as [k|]; simpl; split; try done.
      * intros H. destruct IH as [_ IH]. discriminate IH.
        intros y Hy. apply H. by constructor.
      * intros _ y Hy. apply elem_of_cons in Hy as [->|Hy]; [done|].
        by apply IH.
Qed.

Lemma remove_at_Permutation l i x :
  l !! i = Some x -> l ≡ₚ x :: remove_at i l.
Proof.
  intros Hi. unfold remove_at.
  rewrite <- (take_drop_middle l i x Hi) at 1.
  by rewrite Permutation_middle.
Qed.

Lemma length_remove_at l i x :
  l !! i = Some x -> length l = S (length (remove_at i l)).
Proof. intros Hi. by rewrite (remove_at_Permutation l i x Hi) at 1. Qed.

Lemma elem_of_remove_at l i x : x ∈ remove_at i l -> x ∈ l.
Proof.
  unfold remove_at. rewrite elem_of_app.
  intros [Hx|Hx].
  - rewrite <- (take_drop i l), elem_of_app. by left.
  - rewrite <- (take_drop (S i) l), elem_of_app. by right.
Qed.

(** The last [n] elements: Go's [l[len(l)-n:]]. *)
Definition last_n (n : nat) l : list A := drop (length l - n) l.

Lemma length_last_n n l : length (last_n n l) = Nat.min n (length l).
Proof. unfold last_n. rewrite length_drop. lia. Qed.

Lemma last_n_all n l : (length l <= n)%nat -> last_n n l = l.
Proof. intros H. unfold last_n. by replace (length l - n)%nat with O by lia. Qed.

Lemma last_n_snoc n l x :
  last_n (S n) (l ++ [x]) = last_n n l ++ [x].
Proof.
  unfold last_n. rewrite length_app. simpl.
  replace (length l + 1 - S n)%nat with (length l - n)%nat by lia.
  rewrite drop_app_le; [done|lia].
Qed.
Lemma last_n_last_n l l' n : last_n n (last_n n l ++ l') = last_n n (l ++ l').
Proof.
  unfold last_n. rewrite !length_app, !length_drop.
  destruct (decide (length l <= n)%nat).
  - replace (length l - n)%nat with O by lia. by rewrite !drop_0, Nat.sub_0_r.
  - destruct (decide (length l + length l' - n <= length l)%nat).
    + rewrite !drop_app_le by (rewrite ?length_drop; lia). rewrite drop_drop. f_equal. f_equal. lia.
    + rewrite !drop_app_ge by (rewrite ?length_drop; lia). rewrite length_drop. f_equal. lia.
Qed.
End list_facts.

Lemma with_second {A B} (p : A * B) a : p.1 = a -> p = (a, p.2).
Proof. destruct p. simpl. congruence. Qed.

(** ** Labelled transition sequences *)

Section sequences.
Context {S : Type} (step : S -> S -> Prop).

Inductive star : S -> S -> Prop :=
| star_refl s : star s s
| star_step s1 s2 s3 : step s1 s2 -> star s2 s3 -> star s1 s3.

Lemma star_trans s1 s2 s3 : star s1 s2 -> star s2 s3 -> star s1 s3.
Proof. induction 1; eauto using star. Qed.

Lemma star_invariant (I : S -> Prop) :
  (forall s s', I s -> step s s' -> I s') ->
  forall s s', star s s' -> I s -> I s'.
Proof. intros HI s s'. induction 1; eauto. Qed.
End sequences.

(** ** Automation *)

Create HintDb ensemble.
#[export] Hint Resolve b2z_range wrap_u_range wrap_s_range : ensemble.
Create Rewrite HintDb lengths.
#[export] Hint Rewrite @length_app @length_take @length_drop @length_fmap
  @length_reverse @length_replicate : lengths.

(** Case analysis on every [match] of the goal or a hypothesis. *)
Ltac go_cases :=
  repeat match goal with
  | _ => progress simplify_eq/=
  | H : context [match ?x with _ => _ end] |- _ => destruct x eqn:?
  | |- context [match ?x with _ => _ end] => destruct x eqn:?
  end.

Ltac simpl_length := autorewrite with lengths in *; simpl in *.
