(* ===== verification/GoStd.v ===== *)
(** * The parts of Go's language and standard library the program uses

    [time] instants and durations with their saturating subtraction,
    [encoding/binary]'s big-endian codec, buffered channels with the
    non-blocking [select], [sort.Slice] and the string helpers. *)

From S2P Require Import Prelude.

(** ** Package time

    A [Time] is a number of nanoseconds since the Unix epoch; a [Duration] is
    an [int64] of nanoseconds. *)
Module GoTime.
Definition Nanosecond : Z := 1.
Definition Millisecond : Z := 1000000.
Definition Second : Z := 1000 * Millisecond.
Definition Minute : Z := 60 * Second.
Definition Hour : Z := 60 * Minute.

Definition minDuration : Z := - 2 ^ 63.
Definition maxDuration : Z := 2 ^ 63 - 1.

(** Seconds from January 1, year 1 (the internal epoch) to the Unix epoch. *)
Definition unixToInternal : Z := 62135596800.

(** The zero [Time], January 1, year 1. *)
Definition zero : Z := - unixToInternal * Second.
Definition IsZero (t : Z) : bool := t =? zero.

(** [t.Sub(u)] saturates at the ends of [Duration]. *)
Definition Sub (t u : Z) : Z := Z.max minDuration (Z.min maxDuration (t - u)).
Definition Add (t d : Z) : Z := t + d.
Definition After (t u : Z) : bool := u <? t.
Definition Before (t u : Z) : bool := t <? u.

(** [Unix(sec, 0)]: the seconds are kept in an [int64] counted from year 1. *)
Definition Unix (sec : Z) : Z :=
  (i64 (sec + unixToInternal) - unixToInternal) * Second.

(** [UnixMilli(ms)] and [t.UnixMilli()]. *)
Definition of_UnixMilli (ms : Z) : Z := ms * Millisecond.
Definition UnixMilli (t : Z) : Z := i64 (t / Millisecond).

Lemma Sub_in_range t u : in_s 64 (Sub t u).
Proof. unfold Sub, in_s, minDuration, maxDuration. simpl. lia. Qed.

Lemma Sub_small t u : in_s 64 (t - u) -> Sub t u = t - u.
Proof. unfold Sub, in_s, minDuration, maxDuration. simpl. lia. Qed.

(** A bound below the saturation point is decided as on the integers. *)
Lemma Sub_le t u d : d < maxDuration -> minDuration <= d ->
  (Sub t u <= d <-> t - u <= d).
Proof. unfold Sub, minDuration, maxDuration. lia. Qed.

Lemma of_UnixMilli_UnixMilli ms : in_s 64 ms -> UnixMilli (of_UnixMilli ms) = ms.
Proof.
  intros H. unfold UnixMilli, of_UnixMilli. rewrite Z.div_mul by done.
  by apply wrap_s_small.
Qed.
End GoTime.

(** ** encoding/binary, big endian *)
Module BigEndian.
(** [n] bytes, most significant first. *)
Fixpoint put (n : nat) (z : Z) : bytes :=
  match n with
  | O => []
  | S n => z2b (Z.shiftr z (8 * Z.of_nat n)) :: put n z
  end.

Definition get (l : bytes) : Z := fold_left (fun acc b => acc * 256 + b2z b) l 0.

Definition PutUint32 : Z -> bytes := put 4.
Definition PutUint64 : Z -> bytes := put 8.
Definition Uint32 : bytes -> Z := get.

Lemma length_put n z : length (put n z) = n.
Proof. induction n; simpl; congruence. Qed.

Lemma get_acc l acc :
  fold_left (fun acc b => acc * 256 + b2z b) l acc
  = acc * 256 ^ Z.of_nat (length l) + get l.
Proof.
  unfold get. revert acc. induction l as [|b l IH]; intros acc.
  { simpl. lia. }
  cbn [fold_left length]. rewrite (IH (acc * 256 + b2z b)), (IH (0 * 256 + b2z b)).
  replace (Z.of_nat (S (length l))) with (Z.succ (Z.of_nat (length l))) by lia.
  rewrite Z.pow_succ_r by lia. lia.
Qed.

Lemma get_cons b l : get (b :: l) = b2z b * 256 ^ Z.of_nat (length l) + get l.
Proof. unfold get at 1. cbn [fold_left]. rewrite get_acc. lia. Qed.

Lemma get_put n z : get (put n z) = z mod 256 ^ Z.of_nat n.
Proof.
  induction n as [|n IH]; [by rewrite Z.mod_1_r|].
  cbn [put]. rewrite get_cons, IH, length_put, b2z_z2b.
  rewrite Z.shiftr_div_pow2 by lia.
  replace (2 ^ (8 * Z.of_nat n)) with (256 ^ Z.of_nat n)
    by (rewrite Z.pow_mul_r by lia; done).
  replace (Z.of_nat (S n)) with (Z.succ (Z.of_nat n)) by lia.
  rewrite Z.pow_succ_r, (Z.mul_comm 256) by lia.
  rewrite Z.rem_mul_r; lia.
Qed.

Lemma Uint32_PutUint32 z : in_u 32 z -> Uint32 (PutUint32 z) = z.
Proof. intros Hz. unfold Uint32, PutUint32. rewrite get_put. by apply Z.mod_small. Qed.

Lemma get_range l : 0 <= get l < 256 ^ Z.of_nat (length l).
Proof.
  induction l as [|b l IH]; [done|]. rewrite get_cons.
  pose proof (b2z_range b). cbn [length].
  replace (Z.of_nat (S (length l))) with (Z.succ (Z.of_nat (length l))) by lia.
  rewrite Z.pow_succ_r by lia. nia.
Qed.

Lemma put_inj n z1 z2 :
  put n z1 = put n z2 -> z1 mod 256 ^ Z.of_nat n = z2 mod 256 ^ Z.of_nat n.
Proof. intros H. by rewrite <- !get_put, H. Qed.
End BigEndian.

(** ** Buffered channels

    [closed] is the state after [close(ch)]; a send on a closed channel panics,
    also inside a [select]. *)
Module Chan.
Record t (A : Type) := mk { cap : nat; buf : list A; closed : bool }.
Arguments mk {A}. Arguments cap {A}. Arguments buf {A}. Arguments closed {A}.

Definition make {A} (n : nat) : t A := mk n [] false.

Inductive send_res (A : Type) :=
| Sent (c : t A)
| Full
| SendPanic.
Arguments Sent {A}. Arguments Full {A}. Arguments SendPanic {A}.

(** [select { case ch <- x: ...; default: ... }] *)
Definition try_send {A} (c : t A) (x : A) : send_res A :=
  if closed c then SendPanic
  else if (length (buf c) <? cap c)%nat then Sent (mk (cap c) (buf c ++ [x]) false)
  else Full.

(** [select { case x := <-ch: ...; default: ... }] on the buffered values. *)
Definition try_recv {A} (c : t A) : option (A * t A) :=
  match buf c with
  | [] => None
  | x :: l => Some (x, mk (cap c) l (closed c))
  end.

Definition close {A} (c : t A) : t A := mk (cap c) (buf c) true.

Definition wf {A} (c : t A) : Prop := (length (buf c) <= cap c)%nat.

Lemma try_send_wf {A} (c c' : t A) x : try_send c x = Sent c' -> wf c'.
Proof.
  unfold try_send, wf. intros H. go_cases. simpl.
  apply Nat.ltb_lt in Heqb0. rewrite length_app. simpl. lia.
Qed.
End Chan.

(** ** sort.Slice

    The order of equal elements is unspecified in Go; [sort_slice_unique] says
    that on a list without ties every sorting algorithm gives this result. *)
Section sort_slice.
Context {A : Type} (less : A -> A -> bool).

Fixpoint sort_insert (x : A) (l : list A) : list A :=
  match l with
  | [] => [x]
  | y :: l' => if less y x then y :: sort_insert x l' else x :: l
  end.

Fixpoint sort_slice (l : list A) : list A :=
  match l with
  | [] => []
  | x :: l => sort_insert x (sort_slice l)
  end.

(** [less y x] is false: [x] may stand before [y]. *)
Definition not_after (x y : A) : Prop := less y x = false.

Lemma sort_insert_Permutation x l : sort_insert x l ≡ₚ x :: l.
Proof.
  induction l as [|y l IH]; simpl; [done|]. destruct (less y x); [|done].
  rewrite IH. apply Permutation_swap.
Qed.

Lemma sort_slice_Permutation l : sort_slice l ≡ₚ l.
Proof.
  induction l as [|x l IH]; simpl; [done|]. by rewrite sort_insert_Permutation, IH.
Qed.

(** [less] is a strict weak order. *)
Class StrictWeakOrder : Prop := {
  less_asymm : forall x y, less x y = true -> less y x = false;
  less_negtrans : forall x y z, less x y = false -> less y z = false -> less x z = false
}.
Context `{!StrictWeakOrder}.

Lemma sort_insert_sorted x l :
  StronglySorted not_after l -> StronglySorted not_after (sort_insert x l).
Proof.
  induction 1 as [|y l Hl IH Hy]; simpl; [repeat constructor|].
  destruct (less y x) eqn:Hyx.
  - constructor; [done|]. rewrite sort_insert_Permutation. constructor; [|done].
    by apply less_asymm.
  - constructor; [by constructor|]. constructor; [done|].
    eapply Forall_impl; [done|]. intros z Hz. unfold not_after in *.
    by eapply less_negtrans.
Qed.

Lemma sort_slice_sorted l : StronglySorted not_after (sort_slice l).
Proof. induction l; simpl; [constructor|]. by apply sort_insert_sorted. Qed.

Lemma sorted_unique l1 l2 :
  (forall x y, x ∈ l1 -> y ∈ l1 -> less x y = false -> less y x = false -> x = y) ->
  l1 ≡ₚ l2 ->
  StronglySorted not_after l1 -> StronglySorted not_after l2 -> l1 = l2.
Proof.
  revert l2. induction l1 as [|x l1 IH]; intros l2 Htie Hp H1 H2.
  { apply Permutation_nil_l in Hp. done. }
  destruct l2 as [|y l2]; [by apply Permutation_nil_r in Hp|].
  inversion H1 as [|? ? H1' Hx]; subst. inversion H2 as [|? ? H2' Hy]; subst.
  assert (x = y) as ->.
  { assert (y ∈ x :: l1) as Hy1 by (rewrite Hp; constructor).
    assert (x ∈ y :: l2) as Hx2 by (rewrite <- Hp; constructor).
    apply elem_of_cons in Hy1 as [|Hy1]; [done|].
    apply elem_of_cons in Hx2 as [|Hx2]; [done|].
    rewrite Forall_forall in Hx, Hy.
    apply Htie; [constructor|by constructor|by apply Hy|by apply Hx]. }
  f_equal. apply IH; [|by apply Permutation_cons_inv in Hp|done..].
  intros a b Ha Hb. apply Htie; by constructor.
Qed.

(** Any sorted permutation is [sort_slice] when no two elements tie. *)
Lemma sort_slice_unique l l' :
  (forall x y, x ∈ l -> y ∈ l -> less x y = false -> less y x = false -> x = y) ->
  l ≡ₚ l' -> StronglySorted not_after l' -> l' = sort_slice l.
Proof.
  intros Htie Hp Hs. symmetry. apply sorted_unique; [| |apply sort_slice_sorted|done].
  - intros x y. rewrite !sort_slice_Permutation. apply Htie.
  - by rewrite sort_slice_Permutation.
Qed.
End sort_slice.

(** ** Package strings *)

Fixpoint is_prefix (p s : string) : bool :=
  match p, s with
  | EmptyString, _ => true
  | String a p, String b s => bool_decide (a = b) && is_prefix p s
  | String _ _, EmptyString => false
  end.

Fixpoint str_drop (n : nat) (s : string) : string :=
  match n, s with
  | O, _ => s
  | S n, String _ s => str_drop n s
  | S _, EmptyString => EmptyString
  end.

(** [strings.CutPrefix] *)
Definition CutPrefix (s p : string) : option string :=
  if is_prefix p s then Some (str_drop (String.length p) s) else None.

(** [strings.Contains] *)
Fixpoint Contains (s sub : string) : bool :=
  is_prefix sub s ||
  match s with
  | EmptyString => false
  | String _ s => Contains s sub
  end.

Lemma CutPrefix_Some s p r : CutPrefix s p = Some r -> s = (p +:+ r)%string.
Proof.
  unfold CutPrefix. destruct (is_prefix p s) eqn:Hp; [|done]. intros [= <-].
  revert s Hp. induction p as [|a p IH]; intros s Hp; [done|].
  destruct s as [|b s]; [done|]. simpl in *.
  apply andb_prop in Hp as [->%bool_decide_eq_true Hp].
  by rewrite (IH s Hp) at 1.
Qed.

Lemma CutPrefix_app p r : CutPrefix (p +:+ r) p = Some r.
Proof.
  unfold CutPrefix. replace (is_prefix p (p +:+ r)) with true.
  - f_equal. induction p; [done|]. simpl. done.
  - symmetry. induction p; simpl; [done|]. by rewrite bool_decide_eq_true_2.
Qed.

Lemma list_ascii_app (a b : string) :
  String.list_ascii_of_string (a +:+ b) = String.list_ascii_of_string a ++ String.list_ascii_of_string b.
Proof. induction a as [|ch a IH]; [done|]. exact (f_equal (cons ch) IH). Qed.

(** [strings.HasSuffix] *)
Definition HasSuffix (s suf : string) : bool :=
  (String.length suf <=? String.length s)%nat &&
  bool_decide (str_drop (String.length s - String.length suf) s = suf).

(** The encodings of the characters [unicode.IsSpace] holds of. *)
Definition space_encodings : list string :=
  (fun l => String.string_of_list_ascii (Ascii.ascii_of_nat <$> l)) <$>
  ([[9]; [10]; [11]; [12]; [13]; [32]; [194; 133]; [194; 160]; [225; 154; 128]] ++
   ((fun i => [226; 128; 128 + i]) <$> seq 0 11) ++
   [[226; 128; 168]; [226; 128; 169]; [226; 128; 175]; [226; 129; 159]; [227; 128; 128]])%nat.

Fixpoint trim_left (fuel : nat) (s : string) : string :=
  match fuel with
  | O => s
  | S fuel => match List.find (fun sp => is_prefix sp s) space_encodings with
              | Some sp => trim_left fuel (str_drop (String.length sp) s)
              | None => s
              end
  end.

Definition str_take (n : nat) (s : string) : string := String.substring 0 n s.

Fixpoint trim_right (fuel : nat) (s : string) : string :=
  match fuel with
  | O => s
  | S fuel => match List.find (fun sp => HasSuffix s sp) space_encodings with
              | Some sp => trim_right fuel (str_take (String.length s - String.length sp) s)
              | None => s
              end
  end.

(** [strings.TrimSpace]: every step takes a character away. *)
Definition TrimSpace (s : string) : string :=
  let s := trim_left (String.length s) s in trim_right (String.length s) s.

Example TrimSpace_sample : TrimSpace (" a b" +:+ String.string_of_list_ascii (Ascii.ascii_of_nat <$> [10; 194; 160])%nat) = "a b"%string.
Proof. vm_compute. reflexivity. Qed.
