(* ===== verification/Sha256.v ===== *)
(** * crypto/sha256

    [Sum256] of the Go standard library, executable: FIPS 180-4 on 32-bit
    words.  The test vectors at the end evaluate it. *)

From S2P Require Import Prelude GoStd.

Module Sha256.
Definition w32 (z : Z) : Z := Z.land z 4294967295.
Definition rotr (n x : Z) : Z :=
  w32 (Z.lor (Z.shiftr x n) (Z.shiftl x (32 - n))).

Definition Ch (x y z : Z) : Z := Z.lxor (Z.land x y) (Z.land (Z.lxor x 4294967295) z).
Definition Maj (x y z : Z) : Z :=
  Z.lxor (Z.lxor (Z.land x y) (Z.land x z)) (Z.land y z).
Definition Sigma0 (x : Z) : Z := Z.lxor (Z.lxor (rotr 2 x) (rotr 13 x)) (rotr 22 x).
Definition Sigma1 (x : Z) : Z := Z.lxor (Z.lxor (rotr 6 x) (rotr 11 x)) (rotr 25 x).
Definition sigma0 (x : Z) : Z := Z.lxor (Z.lxor (rotr 7 x) (rotr 18 x)) (Z.shiftr x 3).
Definition sigma1 (x : Z) : Z := Z.lxor (Z.lxor (rotr 17 x) (rotr 19 x)) (Z.shiftr x 10).

(** The constants are the first 32 fractional bits of the cube roots of the first 64
    primes and, for the initial state, of the square roots of the first eight. *)
Definition is_prime (n : nat) : bool :=
  (1 <? n)%nat && forallb (fun k => negb (n mod k =? 0)%nat) (seq 2 (n - 2)).
Definition primes : list Z := Eval vm_compute in Z.of_nat <$> List.filter is_prime (seq 0 312).

(** The largest [r + x] with [x < 2^n] whose cube does not exceed [m]. *)
Fixpoint cbrt_bits (n : nat) (r m : Z) : Z :=
  match n with
  | O => r
  | S n =>
      let r' := r + 2 ^ Z.of_nat n in
      cbrt_bits n (if r' * r' * r' <=? m then r' else r) m
  end.

Definition K : list Z :=
  Eval vm_compute in (fun p => w32 (cbrt_bits 36 0 (p * 2 ^ 96))) <$> primes.

Record hash_state := mk { ha : Z; hb : Z; hc : Z; hd : Z; he : Z; hf : Z; hg : Z; hh : Z }.

Definition H0 : hash_state := Eval vm_compute in
  let r i := w32 (Z.sqrt (nth i primes 0 * 2 ^ 64)) in
  mk (r 0%nat) (r 1%nat) (r 2%nat) (r 3%nat) (r 4%nat) (r 5%nat) (r 6%nat) (r 7%nat).

(** Message schedule; [w] holds the last sixteen words, newest first. *)
Fixpoint schedule (n : nat) (w : list Z) : list Z :=
  match n with
  | O => []
  | S n =>
      let at_ i := nth i w 0 in
      let new := w32 (sigma1 (at_ 1%nat) + at_ 6%nat + sigma0 (at_ 14%nat) + at_ 15%nat) in
      new :: schedule n (new :: take 15 w)
  end.

Definition round (s : hash_state) (kw : Z * Z) : hash_state :=
  let t1 := w32 (hh s + Sigma1 (he s) + Ch (he s) (hf s) (hg s) + kw.1 + kw.2) in
  let t2 := w32 (Sigma0 (ha s) + Maj (ha s) (hb s) (hc s)) in
  mk (w32 (t1 + t2)) (ha s) (hb s) (hc s) (w32 (hd s + t1)) (he s) (hf s) (hg s).

Fixpoint words (l : bytes) (n : nat) : list Z :=
  match n with
  | O => []
  | S n => BigEndian.get (take 4 l) :: words (drop 4 l) n
  end.

Definition compress (s : hash_state) (block : bytes) : hash_state :=
  let w := words block 16 in
  let ws := w ++ schedule 48 (reverse w) in
  let r := fold_left round (zip K ws) s in
  mk (w32 (ha s + ha r)) (w32 (hb s + hb r)) (w32 (hc s + hc r)) (w32 (hd s + hd r))
     (w32 (he s + he r)) (w32 (hf s + hf r)) (w32 (hg s + hg r)) (w32 (hh s + hh r)).

Definition pad (l : bytes) : bytes :=
  let n := length l in
  let zeros := Nat.modulo (119 - Nat.modulo n 64) 64 in
  l ++ z2b 0x80 :: repeat (z2b 0) zeros ++ BigEndian.PutUint64 (8 * Z.of_nat n).

Fixpoint blocks (fuel : nat) (s : hash_state) (l : bytes) : hash_state :=
  match fuel with
  | O => s
  | S fuel =>
      match l with
      | [] => s
      | _ => blocks fuel (compress s (take 64 l)) (drop 64 l)
      end
  end.

Definition digest (s : hash_state) : bytes :=
  BigEndian.PutUint32 (ha s) ++ BigEndian.PutUint32 (hb s) ++
  BigEndian.PutUint32 (hc s) ++ BigEndian.PutUint32 (hd s) ++
  BigEndian.PutUint32 (he s) ++ BigEndian.PutUint32 (hf s) ++
  BigEndian.PutUint32 (hg s) ++ BigEndian.PutUint32 (hh s).

(** [sha256.Sum256]; every block consumes 64 bytes, so [length / 64 + 2]
    rounds of [blocks] exhaust the padded message. *)
Definition Sum256 (l : bytes) : bytes :=
  digest (blocks (length l / 64 + 2) H0 (pad l)).

Definition Size : nat := 32.

Lemma length_Sum256 l : length (Sum256 l) = Size.
Proof. unfold Sum256, digest, BigEndian.PutUint32. rewrite !length_app, !BigEndian.length_put. done. Qed.

#[global] Opaque Sum256.

Lemma Sum256_nonempty l : Sum256 l <> [].
Proof. intros H. pose proof (length_Sum256 l) as Hl. rewrite H in Hl. done. Qed.

(** Enough rounds: the padded message is a whole number of blocks, all of
    which [blocks] consumes. *)
Lemma length_pad l : (length (pad l) mod 64 = 0)%nat /\ (length (pad l) <= 64 * (length l / 64 + 2))%nat.
Proof.
  unfold pad, BigEndian.PutUint64.
  rewrite length_app. cbn [length].
  rewrite length_app, repeat_length, BigEndian.length_put.
  generalize (length l). intros n.
  pose proof (Nat.div_mod_eq n 64). pose proof (Nat.mod_upper_bound n 64 ltac:(lia)).
  set (q := (n / 64)%nat) in *. set (r := (n mod 64)%nat) in *.
  destruct (Nat.le_gt_cases r 55).
  - replace ((119 - r) mod 64)%nat with (55 - r)%nat.
    + split; [|lia]. replace (n + S (55 - r + 8))%nat with ((q + 1) * 64)%nat by lia.
      by rewrite Nat.Div0.mod_mul.
    + apply (Nat.mod_unique _ _ 1); lia.
  - rewrite (Nat.mod_small (119 - r)) by lia. split; [|lia].
    replace (n + S (119 - r + 8))%nat with ((q + 2) * 64)%nat by lia.
    by rewrite Nat.Div0.mod_mul.
Qed.

Example Sum256_empty :
  BigEndian.get (Sum256 []) =
  0xe3b0c44298fc1c149afbf4c8996fb92427ae41e4649b934ca495991b7852b855.
Proof. vm_compute. reflexivity. Qed.

Example Sum256_abc :
  BigEndian.get (Sum256 [z2b 97; z2b 98; z2b 99]) =
  0xba7816bf8f01cfea414140de5dae2223b00361a396177a9cb410ff61f20015ad.
Proof. vm_compute. reflexivity. Qed.

Example Sum256_two_blocks :
  BigEndian.get (Sum256 (String.list_byte_of_string
    "abcdbcdecdefdefgefghfghighijhijkijkljklmklmnlmnomnopnopq")) =
  0x248d6a61d20638b8e5c026930c3e6039a33ce45964ff2167f6ecedd419db06c1.
Proof. vm_compute. reflexivity. Qed.
End Sha256.
