(* ===== verification/Merkle.v ===== *)
(** * internal/filetransfer/merkle.go

    The flat-array Merkle tree over chunk hashes, its proofs and their check. *)

From S2P Require Import Prelude GoStd Sha256.
Import Sha256.

(** src: internal/filetransfer/merkle.go 11-15 MerkleTree *)
Record MerkleTree := mkTree {
  leaves : list bytes;     (* original leaf hashes, before padding *)
  nodes : list bytes;      (* heap order: nodes[1] is the root; nodes[0] is nil *)
  leafStart : nat          (* index of the first leaf in nodes *)
}.

(** src: internal/filetransfer/merkle.go 58-63 hashPair *)
Definition hashPair (left right : bytes) : bytes := Sum256 (left ++ right).

(** [for size < n { size *= 2 }] *)
(** src: internal/filetransfer/merkle.go 26-29 BuildMerkleTree *)
Fixpoint grow_size (fuel size n : nat) : nat :=
  match fuel with
  | O => size
  | S fuel => if (size <? n)%nat then grow_size fuel (2 * size) n else size
  end.

(** [for i ... { nodes[at+i] = hs[i] }] *)
(** src: internal/filetransfer/merkle.go 34-41 BuildMerkleTree *)
Fixpoint fill (at_ : nat) (hs : list bytes) (ns : list bytes) : list bytes :=
  match hs with
  | [] => ns
  | h :: hs => fill (S at_) hs (<[at_ := h]> ns)
  end.

(** [for i := i; i >= 1; i-- { nodes[i] = hashPair(nodes[2*i], nodes[2*i+1]) }] *)
(** src: internal/filetransfer/merkle.go 43-46 BuildMerkleTree *)
Fixpoint build_up (i : nat) (ns : list bytes) : list bytes :=
  match i with
  | O => ns
  | S i' => build_up i' (<[i := hashPair (ns !!! (2 * i)%nat) (ns !!! (2 * i + 1)%nat)]> ns)
  end.

Inductive merkle_err := NoChunkHashes | ProofIndexOutOfRange.

(** src: internal/filetransfer/merkle.go 19-56 BuildMerkleTree *)
Definition BuildMerkleTree (chunkHashes : list bytes) : result merkle_err MerkleTree :=
  match last chunkHashes with
  | None => Err NoChunkHashes
  | Some lastHash =>
      let n := length chunkHashes in
      let size := grow_size n 2 n in
      let ns := replicate (2 * size) [] in
      let ns := fill size chunkHashes ns in
      let ns := fill (size + n) (replicate (size - n) lastHash) ns in
      let ns := build_up (size - 1) ns in
      Ok (mkTree chunkHashes ns size)
  end.

(** src: internal/filetransfer/merkle.go 66-68 MerkleTree.Root *)
Definition Root (t : MerkleTree) : bytes := nodes t !!! 1%nat.

(** src: internal/filetransfer/merkle.go 71-73 MerkleTree.LeafCount *)
Definition LeafCount (t : MerkleTree) : nat := length (leaves t).

(** [for pos > 1 { append(proof, nodes[pos^1]); pos /= 2 }]; [pos] rounds are
    enough, since each one halves [pos]. *)
(** src: internal/filetransfer/merkle.go 82-89 MerkleTree.Proof *)
Fixpoint proof_loop (fuel : nat) (ns : list bytes) (pos : nat) : list bytes :=
  match fuel with
  | O => []
  | S fuel =>
      if (1 <? pos)%nat
      then ns !!! Nat.lxor pos 1 :: proof_loop fuel ns (pos / 2)
      else []
  end.

(** src: internal/filetransfer/merkle.go 77-90 MerkleTree.Proof *)
Definition Proof_ (t : MerkleTree) (chunkIndex : Z) : result merkle_err (list bytes) :=
  if (chunkIndex <? 0) || (Z.of_nat (length (leaves t)) <=? chunkIndex)
  then Err ProofIndexOutOfRange
  else
    let pos := (leafStart t + Z.to_nat chunkIndex)%nat in
    Ok (proof_loop pos (nodes t) pos).

(** One round of the verification loop; [pos] is a Go [int] of 64 bits, whose
    [%] and [/] truncate towards zero. *)
(** src: internal/filetransfer/merkle.go 108-115 VerifyProof *)
Definition verify_step (st : bytes * Z) (sibling : bytes) : bytes * Z :=
  let '(current, pos) := st in
  (if Z.rem pos 2 =? 0 then hashPair current sibling else hashPair sibling current,
   Z.quot pos 2).

(** src: internal/filetransfer/merkle.go 94-118 VerifyProof *)
Definition VerifyProof (chunkHash : bytes) (chunkIndex : Z) (proof : list bytes)
    (root : bytes) : bool :=
  if (length chunkHash =? 0)%nat || (length root =? 0)%nat then false
  else
    let leafStart := fold_left (fun s _ => i64 (s * 2)) proof 1 in
    let pos := i64 (leafStart + chunkIndex) in
    bytes_eqb (fold_left verify_step proof (chunkHash, pos)).1 root.

(** ** The heap array *)

(** Every inner node is the hash of its two children. *)
Definition heap_ok (size : nat) (ns : list bytes) : Prop :=
  length ns = (2 * size)%nat /\
  forall k, (1 <= k < size)%nat ->
    ns !!! k = hashPair (ns !!! (2 * k)%nat) (ns !!! (2 * k + 1)%nat).

Lemma length_fill at_ hs ns : length (fill at_ hs ns) = length ns.
Proof.
  revert at_ ns. induction hs as [|h hs IH]; intros; simpl; [done|].
  by rewrite IH, length_insert.
Qed.

Lemma lookup_fill at_ hs ns k :
  (at_ + length hs <= length ns)%nat ->
  fill at_ hs ns !! k =
    if (at_ <=? k)%nat && (k <? at_ + length hs)%nat then hs !! (k - at_)%nat else ns !! k.
Proof.
  revert at_ ns. induction hs as [|h hs IH]; intros at_ ns Hlen; simpl in *.
  - destruct (at_ <=? k)%nat eqn:E1; [|done]. simpl.
    destruct (k <? at_ + 0)%nat eqn:E2; [|done].
    apply Nat.leb_le in E1. apply Nat.ltb_lt in E2. lia.
  - rewrite IH by (rewrite length_insert; lia).
    destruct (decide (k = at_)) as [->|Hne].
    + replace (S at_ <=? at_)%nat with false by (symmetry; apply Nat.leb_gt; lia).
      replace (at_ <=? at_)%nat with true by (symmetry; apply Nat.leb_le; lia).
      replace (at_ <? at_ + S (length hs))%nat with true by (symmetry; apply Nat.ltb_lt; lia).
      simpl. rewrite Nat.sub_diag. by apply list_lookup_insert_eq; lia.
    + rewrite list_lookup_insert_ne by done.
      destruct (Nat.leb_spec at_ k), (Nat.leb_spec (S at_) k); try lia; simpl; [|done].
      replace (at_ + S (length hs))%nat with (S (at_ + length hs))%nat by lia.
      destruct (Nat.ltb_spec k (S (at_ + length hs))); [|done].
      by replace (k - at_)%nat with (S (k - S at_)) by lia.
Qed.

Lemma length_build_up i ns : length (build_up i ns) = length ns.
Proof.
  revert ns. induction i as [|i IH]; intros; cbn [build_up]; [done|].
  by rewrite IH, length_insert.
Qed.

Lemma lookup_build_up_gt i ns k : (i < k)%nat -> build_up i ns !! k = ns !! k.
Proof.
  revert ns. induction i as [|i IH]; intros ns Hk; cbn [build_up]; [done|].
  rewrite IH by lia. apply list_lookup_insert_ne. lia.
Qed.

Lemma lookup_total_build_up_gt i ns k : (i < k)%nat -> build_up i ns !!! k = ns !!! k.
Proof. intros Hk. by rewrite !list_lookup_total_alt, lookup_build_up_gt. Qed.

Lemma build_up_children i ns k :
  (i < length ns)%nat -> (1 <= k <= i)%nat ->
  build_up i ns !!! k =
    hashPair (build_up i ns !!! (2 * k)%nat) (build_up i ns !!! (2 * k + 1)%nat).
Proof.
  revert ns. induction i as [|i IH]; intros ns Hlen Hk; [lia|].
  destruct (decide (k = S i)) as [->|Hne].
  - cbn [build_up]. rewrite !lookup_total_build_up_gt by lia.
    rewrite list_lookup_total_insert_eq by done.
    rewrite !list_lookup_total_insert_ne by lia. done.
  - cbn [build_up]. apply IH; [rewrite length_insert; lia|lia].
Qed.

(** [grow_size] stops at a power of two that holds every leaf. *)
Lemma grow_size_spec fuel k n :
  (n <= 2 ^ (k + fuel))%nat ->
  exists d, (k <= d)%nat /\ grow_size fuel (2 ^ k) n = (2 ^ d)%nat /\ (n <= 2 ^ d)%nat /\
    (d = k \/ 2 ^ d <= 2 * n)%nat.
Proof.
  revert k. induction fuel as [|fuel IH]; intros k Hn; cbn [grow_size].
  - exists k. rewrite Nat.add_0_r in Hn. split_and!; [lia|done|done|by left].
  - destruct (Nat.ltb_spec (2 ^ k) n) as [Hlt|].
    + rewrite <- Nat.pow_succ_r'. destruct (IH (S k)) as (d & Hd & Hg & Hle & Ht).
      { by replace (S k + fuel)%nat with (k + S fuel)%nat by lia. }
      exists d. split_and!; [lia|done|done|]. right. destruct Ht as [->|]; [|done].
      rewrite Nat.pow_succ_r'. lia.
    + exists k. split_and!; [lia|done|done|by left].
Qed.

Lemma pow2_gt n : (n < 2 ^ n)%nat.
Proof. apply Nat.pow_gt_lin_r. lia. Qed.

(** The padded leaf row: the hashes, then copies of the last one. *)
Definition padded (hs : list bytes) (size : nat) : list bytes :=
  hs ++ replicate (size - length hs) (default [] (last hs)).

(** What [BuildMerkleTree] builds. *)
Record tree_spec (hs : list bytes) (d : nat) (t : MerkleTree) : Prop := {
  ts_depth : (1 <= d)%nat;
  ts_start : leafStart t = (2 ^ d)%nat;
  ts_leaves : leaves t = hs;
  ts_fits : (length hs <= 2 ^ d)%nat;
  ts_tight : (2 ^ d <= 2 * length hs)%nat;
  ts_heap : heap_ok (2 ^ d) (nodes t);
  ts_row : forall i, (i < 2 ^ d)%nat ->
    nodes t !!! (2 ^ d + i)%nat = padded hs (2 ^ d) !!! i
}.

Lemma BuildMerkleTree_spec hs t :
  BuildMerkleTree hs = Ok t -> exists d, tree_spec hs d t.
Proof.
  unfold BuildMerkleTree. destruct (last hs) as [lh|] eqn:Hlast; [|done].
  intros [= <-].
  destruct (grow_size_spec (length hs) 1 (length hs)) as (d & Hd & Hg & Hle & Ht).
  { pose proof (pow2_gt (1 + length hs)). lia. }
  change (2 ^ 1)%nat with 2%nat in Hg. rewrite Hg. exists d.
  assert (0 < 2 ^ d)%nat as Hpos by (apply Nat.neq_0_lt_0, Nat.pow_nonzero; lia).
  assert (1 <= length hs)%nat as Hne by (destruct hs; [done|simpl; lia]).
  constructor; simpl; [done..| | |].
  - destruct Ht as [->|]; [simpl; lia|done].
  - split.
    + by rewrite length_build_up, !length_fill, length_replicate.
    + intros k Hk. apply build_up_children; [|lia].
      rewrite !length_fill, length_replicate. lia.
  - intros i Hi. rewrite lookup_total_build_up_gt by lia.
    rewrite !list_lookup_total_alt. f_equal.
    rewrite lookup_fill by (rewrite length_fill, !length_replicate; lia).
    rewrite lookup_fill by (rewrite length_replicate; lia).
    rewrite length_replicate. unfold padded. rewrite Hlast. simpl.
    destruct (Nat.leb_spec (2 ^ d + length hs) (2 ^ d + i)); simpl.
    + destruct (Nat.ltb_spec (2 ^ d + i) (2 ^ d + length hs + (2 ^ d - length hs))); [|lia].
      rewrite lookup_app_r by lia. f_equal. lia.
    + destruct (Nat.leb_spec (2 ^ d) (2 ^ d + i)); [|lia]. simpl.
      destruct (Nat.ltb_spec (2 ^ d + i) (2 ^ d + length hs)); [|lia].
      rewrite lookup_app_l by lia. f_equal. lia.
Qed.

(** ** Climbing from a leaf to the root *)

Lemma lxor_1_even k : Nat.lxor (2 * k) 1 = (2 * k + 1)%nat.
Proof.
  apply Nat.bits_inj. intros [|m]; rewrite Nat.lxor_spec.
  - by rewrite Nat.testbit_even_0, Nat.testbit_odd_0.
  - rewrite Nat.testbit_even_succ, Nat.testbit_odd_succ by lia.
    change 1%nat with (2 * 0 + 1)%nat at 1. rewrite Nat.testbit_odd_succ by lia.
    by rewrite Nat.bits_0, xorb_false_r.
Qed.

Lemma lxor_1_odd k : Nat.lxor (2 * k + 1) 1 = (2 * k)%nat.
Proof. by rewrite <- lxor_1_even, Nat.lxor_assoc, Nat.lxor_nilpotent, Nat.lxor_0_r. Qed.

Lemma half_even k : (2 * k / 2)%nat = k.
Proof. rewrite Nat.mul_comm. by apply Nat.div_mul. Qed.
Lemma half_odd k : ((2 * k + 1) / 2)%nat = k.
Proof. symmetry. apply (Nat.div_unique _ _ _ 1); lia. Qed.

(** [verify_step] on the two parities of a position. *)
Lemma verify_step_even cur sib k :
  verify_step (cur, 2 * Z.of_nat k) sib = (hashPair cur sib, Z.of_nat k).
Proof.
  unfold verify_step. rewrite Z.rem_mod_nonneg, Z.quot_div_nonneg by lia.
  rewrite Z.mul_comm, Z_mod_mult, Z.div_mul by lia. done.
Qed.

Lemma verify_step_odd cur sib k :
  verify_step (cur, 2 * Z.of_nat k + 1) sib = (hashPair sib cur, Z.of_nat k).
Proof.
  unfold verify_step. rewrite Z.rem_mod_nonneg, Z.quot_div_nonneg by lia.
  replace ((2 * Z.of_nat k + 1) mod 2) with 1 by (apply (Z.mod_unique _ _ (Z.of_nat k)); lia).
  replace ((2 * Z.of_nat k + 1) / 2) with (Z.of_nat k); [done|].
  apply (Z.div_unique _ _ _ 1); lia.
Qed.

(** A position is the left or the right child of its half. *)
Lemma child_cases pos : exists k, pos = (2 * k)%nat \/ pos = (2 * k + 1)%nat.
Proof.
  exists (pos / 2)%nat. pose proof (Nat.div_mod_eq pos 2).
  pose proof (Nat.mod_upper_bound pos 2 ltac:(lia)). lia.
Qed.

Lemma climb_root size ns fuel pos :
  heap_ok size ns -> (1 <= pos < 2 * size)%nat -> (pos <= fuel)%nat ->
  fold_left verify_step (proof_loop fuel ns pos) (ns !!! pos, Z.of_nat pos)
  = (ns !!! 1%nat, 1).
Proof.
  intros [Hlen Hheap]. revert pos. induction fuel as [|fuel IH]; intros pos Hpos Hf; [lia|].
  cbn [proof_loop]. destruct (Nat.ltb_spec 1 pos).
  - destruct (child_cases pos) as [k [->| ->]]; cbn [fold_left].
    + rewrite lxor_1_even, half_even, Nat2Z.inj_mul, verify_step_even.
      rewrite <- Hheap by lia. apply IH; lia.
    + rewrite lxor_1_odd, half_odd, Nat2Z.inj_add, Nat2Z.inj_mul, verify_step_odd.
      rewrite <- Hheap by lia. apply IH; lia.
  - by replace pos with 1%nat by lia.
Qed.

Lemma length_proof_loop fuel ns pos d :
  (2 ^ d <= pos < 2 ^ S d)%nat -> (pos <= fuel)%nat -> length (proof_loop fuel ns pos) = d.
Proof.
  revert fuel pos. induction d as [|d IH]; intros fuel pos Hpos Hf.
  - simpl in Hpos. replace pos with 1%nat by lia. destruct fuel; done.
  - assert (0 < 2 ^ d)%nat by (apply Nat.neq_0_lt_0, Nat.pow_nonzero; lia).
    rewrite !Nat.pow_succ_r' in Hpos. destruct fuel as [|fuel]; [lia|]. cbn [proof_loop].
    destruct (Nat.ltb_spec 1 pos); [|lia]. cbn [length]. f_equal.
    destruct (child_cases pos) as [k [->| ->]]; rewrite ?half_even, ?half_odd;
      apply IH; rewrite ?Nat.pow_succ_r'; lia.
Qed.

(** The leaf row starts at [2 ^ len(proof)], without overflow up to 62 levels. *)
Lemma leafStart_fold (proof : list bytes) k :
  0 <= k -> Z.of_nat (length proof) + k <= 62 ->
  fold_left (fun s (_ : bytes) => i64 (s * 2)) proof (2 ^ k)
  = 2 ^ (Z.of_nat (length proof) + k).
Proof.
  revert k. induction proof as [|x proof IH]; intros k Hk Hlen; [done|].
  cbn [fold_left length] in *. replace (2 ^ k * 2) with (2 ^ Z.succ k)
    by (rewrite Z.pow_succ_r by lia; lia).
  rewrite wrap_s_small; [rewrite IH by lia; f_equal; lia|lia|].
  split; [pose proof (Z.pow_nonneg 2 (Z.succ k) ltac:(lia)); lia|].
  apply Z.pow_lt_mono_r; lia.
Qed.

Lemma leafStart_1 (proof : list bytes) :
  Z.of_nat (length proof) <= 62 ->
  fold_left (fun s (_ : bytes) => i64 (s * 2)) proof 1 = 2 ^ Z.of_nat (length proof).
Proof.
  intros H. pose proof (leafStart_fold proof 0 ltac:(lia) ltac:(lia)) as E.
  by rewrite Z.add_0_r in E.
Qed.

(** The check a verifier makes, once the position is known to be in range. *)
Lemma VerifyProof_eq h i proof root d :
  h <> [] -> root <> [] -> length proof = d -> (d <= 61)%nat -> 0 <= i < 2 ^ Z.of_nat d ->
  VerifyProof h i proof root
  = bytes_eqb (fold_left verify_step proof (h, 2 ^ Z.of_nat d + i)).1 root.
Proof.
  intros Hh Hr Hd Hle Hi. unfold VerifyProof.
  destruct h; [done|]. destruct root; [done|]. cbn [length Nat.eqb orb].
  rewrite leafStart_1, Hd by lia.
  rewrite wrap_s_small; [done|lia|].
  split; [pose proof (Z.pow_nonneg 2 (Z.of_nat d)); lia|].
  apply Z.lt_le_trans with (2 ^ Z.succ (Z.of_nat d)).
  - rewrite Z.pow_succ_r by lia. lia.
  - apply Z.pow_le_mono_r; lia.
Qed.

Section built.
Context (hs : list bytes) (d : nat) (t : MerkleTree) (Ht : tree_spec hs d t).
Context (Hd : (d <= 61)%nat).

Lemma Z_of_nat_pow2 n : Z.of_nat (2 ^ n) = 2 ^ Z.of_nat n.
Proof. by rewrite Nat2Z.inj_pow. Qed.

Lemma Root_nonempty : Root t <> [].
Proof.
  pose proof (ts_heap _ _ _ Ht) as [_ Hheap]. pose proof (ts_depth _ _ _ Ht).
  unfold Root. rewrite Hheap; [apply Sum256_nonempty|].
  split; [lia|]. apply Nat.pow_gt_1; lia.
Qed.

(** A padded leaf and the path of its position verify against the root. *)
Lemma padded_leaf_verifies i h :
  (i < 2 ^ d)%nat -> padded hs (2 ^ d) !!! i = h -> h <> [] ->
  VerifyProof h (Z.of_nat i) (proof_loop (2 ^ d + i) (nodes t) (2 ^ d + i)) (Root t) = true.
Proof.
  intros Hi Hrow Hh.
  rewrite (VerifyProof_eq _ _ _ _ d); [|done|apply Root_nonempty| |done|].
  - apply bytes_eqb_eq. rewrite <- Hrow, <- (ts_row _ _ _ Ht i Hi).
    rewrite <- Z_of_nat_pow2, <- Nat2Z.inj_add.
    rewrite (climb_root (2 ^ d)); [done|apply Ht|lia|lia].
  - apply length_proof_loop; [rewrite Nat.pow_succ_r'; lia|lia].
  - rewrite <- Z_of_nat_pow2. lia.
Qed.
End built.

Lemma tree_depth_bound hs d t :
  tree_spec hs d t -> Z.of_nat (length hs) <= 2 ^ 60 -> (d <= 61)%nat.
Proof.
  intros Ht Hn. pose proof (ts_tight _ _ _ Ht) as Htight.
  destruct (decide (d <= 61)%nat) as [|Hgt]; [done|].
  assert (2 ^ 62 <= 2 ^ Z.of_nat d) by (apply Z.pow_le_mono_r; lia).
  rewrite <- Z_of_nat_pow2 in *. lia.
Qed.

Lemma Proof_Ok hs d t i p :
  tree_spec hs d t -> Proof_ t i = Ok p ->
  0 <= i < Z.of_nat (length hs) /\
  p = proof_loop (2 ^ d + Z.to_nat i) (nodes t) (2 ^ d + Z.to_nat i).
Proof.
  intros Ht. unfold Proof_. rewrite (ts_leaves _ _ _ Ht), (ts_start _ _ _ Ht).
  destruct (Z.ltb_spec i 0), (Z.leb_spec (Z.of_nat (length hs)) i); simpl; try done.
  intros [= <-]. done.
Qed.

(** ** A concrete tree: three chunks, padded to four leaves *)

Definition sample_hashes : list bytes := (fun n => Sum256 [z2b n]) <$> [1; 2; 3].
Definition sample_tree : MerkleTree :=
  match BuildMerkleTree sample_hashes with Ok t => t | Err _ => mkTree [] [] 0 end.
Definition sample_proof (i : Z) : list bytes :=
  match Proof_ sample_tree i with Ok p => p | Err _ => [] end.

Lemma sample_hashes_size : Forall (fun x => length x = Size) sample_hashes.
Proof. apply Forall_fmap, Forall_true. intros n. apply length_Sum256. Qed.

Example sample_tree_shape :
  leafStart sample_tree = 4%nat /\ length (nodes sample_tree) = 8%nat /\
  length (sample_proof 2) = 2%nat /\
  VerifyProof (Sum256 [z2b 9]) 2 (sample_proof 2) (Root sample_tree) = false.
Proof. vm_compute. done. Qed.

Lemma Proof_accepted hs t i p :
  BuildMerkleTree hs = Ok t ->
  Z.of_nat (length hs) <= 2 ^ 60 ->
  Forall (fun h => h <> []) hs ->
  Proof_ t i = Ok p ->
  0 <= i < Z.of_nat (length hs) /\ VerifyProof (hs !!! Z.to_nat i) i p (Root t) = true.
Proof.
  intros [d Ht]%BuildMerkleTree_spec Hn Hhs Hp.
  apply (Proof_Ok _ _ _ _ _ Ht) in Hp as [Hi ->]. split; [done|].
  pose proof (ts_fits _ _ _ Ht) as Hfits.
  destruct (lookup_lt_is_Some_2 hs (Z.to_nat i)) as [h Hh]; [lia|].
  rewrite <- (Z2Nat.id i) at 2 by lia.
  apply (padded_leaf_verifies hs d t Ht); [by eapply tree_depth_bound|lia| |].
  - unfold padded. by rewrite lookup_total_app_l by lia.
  - rewrite (list_lookup_total_correct _ _ _ Hh).
    by eapply (Forall_lookup_1 _ _ _ _ Hhs).
Qed.

Lemma Proof_in_range hs t i :
  BuildMerkleTree hs = Ok t -> 0 <= i < Z.of_nat (length hs) -> exists p, Proof_ t i = Ok p.
Proof.
  intros [d Ht]%BuildMerkleTree_spec Hi. unfold Proof_. rewrite (ts_leaves _ _ _ Ht).
  destruct (Z.ltb_spec i 0), (Z.leb_spec (Z.of_nat (length hs)) i); try lia. by eexists.
Qed.

(** C9. A Merkle proof the sender generates is accepted by the receiver: for every
    chunk of every file of at most 2^60 chunks, [Proof] succeeds exactly on the
    indices of the tree, and [VerifyProof] of the chunk's hash with that proof and
    the tree's root returns true. *)
Theorem VerifyProof_complete hs t i :
  BuildMerkleTree hs = Ok t ->
  Z.of_nat (length hs) <= 2 ^ 60 ->
  Forall (fun h => h <> []) hs ->
  match Proof_ t i with
  | Ok p => 0 <= i < Z.of_nat (length hs) /\
            VerifyProof (hs !!! Z.to_nat i) i p (Root t) = true
  | Err _ => i < 0 \/ Z.of_nat (length hs) <= i
  end.
Proof.
  intros Hb Hn Hhs. destruct (Proof_ t i) as [p|e] eqn:Hp; [by apply Proof_accepted|].
  destruct (decide (0 <= i < Z.of_nat (length hs))) as [Hi|]; [|lia].
  destruct (Proof_in_range _ _ _ Hb Hi). congruence.
Qed.

Lemma VerifyProof_complete_witness :
  match Proof_ sample_tree 2 with
  | Ok p => 0 <= 2 < Z.of_nat (length sample_hashes) /\
            VerifyProof (sample_hashes !!! Z.to_nat 2) 2 p (Root sample_tree) = true
  | Err _ => 2 < 0 \/ Z.of_nat (length sample_hashes) <= 2
  end.
Proof.
  apply VerifyProof_complete; [vm_compute; reflexivity|vm_compute; discriminate|].
  apply Forall_fmap, Forall_true. intros n. apply Sum256_nonempty.
Defined.

Lemma proof_loop_tail ns pos k fuel :
  (1 < pos)%nat -> (pos <= fuel)%nat -> k = (pos / 2)%nat ->
  tail (proof_loop fuel ns pos) = proof_loop (fuel - 1) ns k.
Proof.
  intros Hpos Hf ->. destruct fuel as [|fuel]; [lia|]. cbn [proof_loop].
  destruct (Nat.ltb_spec 1 pos); [|lia]. cbn [tail]. by replace (S fuel - 1)%nat with fuel by lia.
Qed.

(** More rounds than the position needs change nothing. *)
Lemma proof_loop_fuel f1 f2 ns pos :
  (pos <= f1)%nat -> (pos <= f2)%nat -> proof_loop f1 ns pos = proof_loop f2 ns pos.
Proof.
  revert f2 pos. induction f1 as [|f1 IH]; intros [|f2] pos H1 H2; cbn [proof_loop];
    [done|by rewrite (proj2 (Nat.ltb_ge 1 pos)) by lia..|].
  destruct (Nat.ltb_spec 1 pos) as [Hlt|]; [|done]. f_equal.
  pose proof (Nat.div_lt pos 2 ltac:(lia) ltac:(lia)). apply IH; lia.
Qed.

(** ** Binding *)

(** The collision a wrong but accepted hash yields: the first level of the path at
    which the pair that was hashed differs from the pair in the tree although the
    two hashes agree. *)
Fixpoint merkle_collision (ns : list bytes) (proof : list bytes) (current : bytes)
    (pos : nat) : option (bytes * bytes) :=
  match proof with
  | [] => None
  | sibling :: proof =>
      let x := if Nat.even pos then current ++ sibling else sibling ++ current in
      let y := ns !!! (2 * (pos / 2))%nat ++ ns !!! (2 * (pos / 2) + 1)%nat in
      if bool_decide (x <> y) && bytes_eqb (Sum256 x) (Sum256 y) then Some (x, y)
      else merkle_collision ns proof (Sum256 x) (pos / 2)
  end.

Lemma app_inj_tail_len (a b c d : bytes) : length b = length d -> a ++ b = c ++ d -> b = d.
Proof.
  intros Hl H. apply app_inj_2 in H as [_ ?]; [done|done].
Qed.

Section binding.
Context (size : nat) (ns : list bytes) (Hheap : heap_ok size ns).
Context (Hlen : forall k, (1 <= k < 2 * size)%nat -> length (ns !!! k) = Size).

Lemma collision_step cur sib pos x :
  (1 < pos < 2 * size)%nat -> length cur = Size -> cur <> ns !!! pos ->
  x = (if Nat.even pos then cur ++ sib else sib ++ cur) ->
  x <> ns !!! (2 * (pos / 2))%nat ++ ns !!! (2 * (pos / 2) + 1)%nat.
Proof.
  intros Hpos Hcur Hne ->. destruct (child_cases pos) as [k [->| ->]].
  - rewrite half_even, (Nat.mul_comm 2 k), Nat.even_mul, orb_true_r. intros Heq.
    apply app_inj_1 in Heq as [Heq _]; [by rewrite (Nat.mul_comm 2 k) in Hne|].
    rewrite Hcur, Hlen; [done|lia].
  - rewrite half_odd, Nat.even_add, Nat.even_mul. simpl. intros Heq.
    apply app_inj_tail_len in Heq; [done|]. rewrite Hcur, Hlen; [done|lia].
Qed.

Lemma verify_step_half cur sib pos :
  verify_step (cur, Z.of_nat pos) sib =
  (Sum256 (if Nat.even pos then cur ++ sib else sib ++ cur), Z.of_nat (pos / 2)).
Proof.
  destruct (child_cases pos) as [k [->| ->]].
  - rewrite half_even, Nat2Z.inj_mul, verify_step_even, Nat.even_mul. done.
  - rewrite half_odd, Nat2Z.inj_add, Nat2Z.inj_mul, verify_step_odd.
    by rewrite Nat.even_add, Nat.even_mul.
Qed.

Lemma wrong_hash_collides proof cur pos :
  (1 <= pos < 2 * size)%nat -> (2 ^ length proof <= pos < 2 ^ S (length proof))%nat ->
  length cur = Size -> cur <> ns !!! pos ->
  (fold_left verify_step proof (cur, Z.of_nat pos)).1 = ns !!! 1%nat ->
  exists x y, merkle_collision ns proof cur pos = Some (x, y) /\
    x <> y /\ Sum256 x = Sum256 y.
Proof.
  revert cur pos. induction proof as [|sib proof IH]; intros cur pos Hsz Hpos Hcur Hne Hroot.
  - simpl in *. by replace pos with 1%nat in Hne by lia.
  - assert (0 < 2 ^ length proof)%nat by (apply Nat.neq_0_lt_0, Nat.pow_nonzero; lia).
    cbn [length] in Hpos. rewrite !Nat.pow_succ_r' in Hpos.
    cbn [fold_left merkle_collision] in *. rewrite verify_step_half in Hroot.
    set (x := if Nat.even pos then cur ++ sib else sib ++ cur) in *.
    pose proof (collision_step cur sib pos x ltac:(lia) Hcur Hne eq_refl) as Hxy.
    rewrite (bool_decide_eq_true_2 _ Hxy). cbn [andb].
    destruct (bytes_eqb _ _) eqn:Heq.
    + apply bytes_eqb_eq in Heq. eauto.
    + apply bytes_eqb_neq in Heq. destruct (child_cases pos) as [k [Hk|Hk]]; subst pos;
        rewrite ?half_even, ?half_odd in *;
        (apply IH; [lia|rewrite Nat.pow_succ_r'; lia|apply length_Sum256| |done]);
        destruct Hheap as [_ Hh]; rewrite Hh by lia; done.
Qed.
End binding.

Lemma tree_node_lengths hs d t :
  tree_spec hs d t -> Forall (fun h => length h = Size) hs ->
  forall k, (1 <= k < 2 * 2 ^ d)%nat -> length (nodes t !!! k) = Size.
Proof.
  intros Ht Hhs k Hk. destruct (Nat.lt_ge_cases k (2 ^ d)).
  - pose proof (ts_heap _ _ _ Ht) as [_ Hheap]. rewrite Hheap by lia. apply length_Sum256.
  - replace k with (2 ^ d + (k - 2 ^ d))%nat by lia.
    rewrite (ts_row _ _ _ Ht) by lia. unfold padded.
    pose proof (ts_fits _ _ _ Ht) as Hf. pose proof (ts_tight _ _ _ Ht).
    assert (Forall (fun h => length h = Size) (hs ++ replicate (2 ^ d - length hs) (default [] (last hs)))) as Hall.
    { apply Forall_app. split; [done|]. apply Forall_replicate.
      destruct (last hs) as [x|] eqn:Hl.
      - apply last_Some in Hl as [l' ->]. rewrite Forall_app, Forall_singleton in Hhs. tauto.
      - apply last_None in Hl as ->. simpl in *. lia. }
    destruct (lookup_lt_is_Some_2 (hs ++ replicate (2 ^ d - length hs) (default [] (last hs)))
      (k - 2 ^ d)) as [x Hx]; [rewrite length_app, length_replicate; lia|].
    rewrite (list_lookup_total_correct _ _ _ Hx). by eapply (Forall_lookup_1 _ _ _ _ Hall).
Qed.

(** C8. The Merkle root binds the chunk hashes: a 32-byte hash that [VerifyProof] accepts
    at a chunk's index, with a proof as long as the tree is deep, is that chunk's hash, or
    the proof itself exhibits a SHA-256 collision, which [merkle_collision] computes. *)
Theorem VerifyProof_binding hs t i q p h :
  BuildMerkleTree hs = Ok t ->
  Z.of_nat (length hs) <= 2 ^ 60 ->
  Forall (fun x => length x = Size) hs ->
  Proof_ t i = Ok q ->
  length p = length q -> length h = Size ->
  VerifyProof h i p (Root t) = true ->
  h = hs !!! Z.to_nat i \/
  exists x y, merkle_collision (nodes t) p h (leafStart t + Z.to_nat i) = Some (x, y) /\
    x <> y /\ Sum256 x = Sum256 y.
Proof.
  intros [d Ht]%BuildMerkleTree_spec Hn Hhs Hq Hpq Hh Hv.
  apply (Proof_Ok _ _ _ _ _ Ht) in Hq as [Hi ->].
  pose proof (ts_fits _ _ _ Ht) as Hfits.
  pose proof (tree_depth_bound _ _ _ Ht Hn) as Hd.
  rewrite (length_proof_loop _ _ _ d) in Hpq; [|rewrite Nat.pow_succ_r'; lia|lia].
  rewrite (VerifyProof_eq _ _ _ _ d) in Hv; [| |by eapply Root_nonempty|done|done|].
  2: { intros ->. done. }
  2: { rewrite <- Z_of_nat_pow2. lia. }
  apply bytes_eqb_eq in Hv.
  replace (2 ^ Z.of_nat d + i) with (Z.of_nat (2 ^ d + Z.to_nat i)) in Hv
    by (rewrite Nat2Z.inj_add, Z_of_nat_pow2; lia).
  destruct (decide (h = hs !!! Z.to_nat i)) as [|Hne]; [by left|right].
  rewrite (ts_start _ _ _ Ht).
  apply (wrong_hash_collides (2 ^ d)); try done.
  - apply Ht.
  - by eapply tree_node_lengths.
  - lia.
  - rewrite Hpq, Nat.pow_succ_r'. lia.
  - rewrite (ts_row _ _ _ Ht) by lia. unfold padded. by rewrite lookup_total_app_l by lia.
Qed.

Lemma VerifyProof_binding_witness :
  Sum256 [z2b 3] = sample_hashes !!! Z.to_nat 2 \/
  exists x y, merkle_collision (nodes sample_tree) (sample_proof 2) (Sum256 [z2b 3])
      (leafStart sample_tree + Z.to_nat 2) = Some (x, y) /\
    x <> y /\ Sum256 x = Sum256 y.
Proof.
  apply (VerifyProof_binding sample_hashes sample_tree 2 (sample_proof 2));
    [vm_compute; reflexivity|vm_compute; discriminate|apply sample_hashes_size
    |vm_compute; reflexivity|reflexivity|apply length_Sum256|vm_compute; reflexivity].
Defined.

(** Inner nodes are not told apart from leaves: the 64 bytes that are the hashes of
    chunks [2j] and [2j+1], offered as the data of one chunk, hash to a value that
    [VerifyProof] accepts at index [j] with the proof of chunk [2j] shortened by one. *)
Theorem inner_node_accepted hs t j p :
  BuildMerkleTree hs = Ok t ->
  Z.of_nat (length hs) <= 2 ^ 60 ->
  0 <= j -> 2 * j + 1 < Z.of_nat (length hs) ->
  Proof_ t (2 * j) = Ok p ->
  VerifyProof (Sum256 (hs !!! Z.to_nat (2 * j) ++ hs !!! Z.to_nat (2 * j + 1)))
    j (tail p) (Root t) = true.
Proof.
  intros [d Ht]%BuildMerkleTree_spec Hn Hj Hlt Hp.
  apply (Proof_Ok _ _ _ _ _ Ht) in Hp as [Hi ->].
  pose proof (ts_fits _ _ _ Ht) as Hfits. pose proof (ts_depth _ _ _ Ht) as Hd1.
  pose proof (tree_depth_bound _ _ _ Ht Hn) as Hd.
  destruct d as [|d]; [lia|]. set (k := Z.to_nat j).
  replace (Z.to_nat (2 * j)) with (2 * k)%nat in * by lia.
  replace (Z.to_nat (2 * j + 1)) with (2 * k + 1)%nat in * by lia.
  rewrite Nat.pow_succ_r' in *.
  assert (0 < 2 ^ d)%nat by (apply Nat.neq_0_lt_0, Nat.pow_nonzero; lia).
  rewrite (proof_loop_tail _ _ (2 ^ d + k)); [|lia|lia|].
  2: { rewrite <- Nat.mul_add_distr_l. by rewrite half_even. }
  rewrite (proof_loop_fuel _ (2 ^ d + k)) by lia.
  assert (Hrow : forall i, (i < length hs)%nat -> nodes t !!! (2 * 2 ^ d + i)%nat = hs !!! i).
  { intros i Hil. rewrite <- Nat.pow_succ_r', (ts_row _ _ _ Ht) by (rewrite Nat.pow_succ_r'; lia).
    unfold padded. by rewrite lookup_total_app_l by lia. }
  assert (Hk : nodes t !!! (2 ^ d + k)%nat = Sum256 (hs !!! (2 * k)%nat ++ hs !!! (2 * k + 1)%nat)).
  { pose proof (ts_heap _ _ _ Ht) as [_ Hheap]. rewrite Hheap by (rewrite Nat.pow_succ_r'; lia).
    unfold hashPair. rewrite <- (Hrow (2 * k)%nat), <- (Hrow (2 * k + 1)%nat) by lia.
    do 2 f_equal; f_equal; lia. }
  rewrite (VerifyProof_eq _ _ _ _ d); [|apply Sum256_nonempty|by eapply Root_nonempty| |lia|].
  - apply bytes_eqb_eq. rewrite <- Hk.
    replace (2 ^ Z.of_nat d + j) with (Z.of_nat (2 ^ d + k))
      by (rewrite Nat2Z.inj_add, Z_of_nat_pow2; lia).
    pose proof (ts_heap _ _ _ Ht) as Hh.
    rewrite (climb_root (2 ^ S d)); [done|done|rewrite Nat.pow_succ_r'; lia|lia].
  - apply length_proof_loop; [rewrite Nat.pow_succ_r'; lia|lia].
  - rewrite <- Z_of_nat_pow2. lia.
Qed.

Lemma inner_node_accepted_witness :
  VerifyProof (Sum256 (sample_hashes !!! 0%nat ++ sample_hashes !!! 1%nat))
    0 (tail (sample_proof 0)) (Root sample_tree) = true.
Proof.
  apply (inner_node_accepted sample_hashes sample_tree 0 (sample_proof 0));
    [vm_compute; reflexivity|vm_compute; discriminate|lia|vm_compute; reflexivity
    |vm_compute; reflexivity].
Defined.

Lemma verify_fold_mod proof cur pos m :
  0 <= pos -> 0 <= m ->
  (fold_left verify_step proof (cur, pos + m * 2 ^ Z.of_nat (length proof))).1
  = (fold_left verify_step proof (cur, pos)).1.
Proof.
  revert cur pos. induction proof as [|sib proof IH]; intros cur pos Hpos Hm; [done|].
  cbn [length fold_left]. set (P := 2 ^ Z.of_nat (length proof)).
  replace (2 ^ Z.of_nat (S (length proof))) with (2 * P)
    by (unfold P; rewrite <- Z.pow_succ_r by lia; f_equal; lia).
  assert (0 < P) by (unfold P; lia).
  unfold verify_step at 2 4.
  rewrite !Z.rem_mod_nonneg, !Z.quot_div_nonneg by nia.
  replace (pos + m * (2 * P)) with (pos + (m * P) * 2) by lia.
  rewrite Z_mod_plus_full, Z.div_add by lia.
  apply IH; [apply Z.div_pos; lia|done].
Qed.

(** [VerifyProof] checks the index only modulo 2^len(proof): a chunk that verifies at
    index [i] verifies at every index [i + m * 2^len(proof)] an [uint32] can carry. *)
Theorem VerifyProof_index_alias h i m proof root :
  0 <= i < 2 ^ Z.of_nat (length proof) -> 0 <= m ->
  (length proof <= 61)%nat ->
  in_u 32 (i + m * 2 ^ Z.of_nat (length proof)) ->
  VerifyProof h (i + m * 2 ^ Z.of_nat (length proof)) proof root = VerifyProof h i proof root.
Proof.
  intros Hi Hm Hlen [_ Hu]. unfold VerifyProof.
  destruct (_ || _); [done|].
  rewrite leafStart_1 by lia.
  set (P := 2 ^ Z.of_nat (length proof)) in *.
  assert (0 < P <= 2 ^ 61) by (split; [lia|apply Z.pow_le_mono_r; lia]).
  rewrite !wrap_s_small by (unfold in_s; simpl in *; lia).
  rewrite Z.add_assoc. unfold P. by rewrite verify_fold_mod by lia.
Qed.

Lemma VerifyProof_index_alias_witness :
  VerifyProof (Sum256 [z2b 3]) (2 + 5 * 2 ^ Z.of_nat (length (sample_proof 2)))
    (sample_proof 2) (Root sample_tree)
  = VerifyProof (Sum256 [z2b 3]) 2 (sample_proof 2) (Root sample_tree).
Proof.
  apply VerifyProof_index_alias; vm_compute; try split; try reflexivity; discriminate || lia.
Defined.
