(* ===== verification/Crypto.v ===== *)
(** * Interfaces of the code outside the repository

    Each primitive the program calls but does not define is a class of
    operations together with a class of the documented laws the program relies
    on.  [Instances.v] gives concrete instances that satisfy every law. *)

From S2P Require Import Prelude GoStd.

(** ** Protocol Buffers: [proto.Marshal] and [proto.Unmarshal]

    [marshal] fails on messages protobuf cannot encode (a string field that is
    not UTF-8, a message of 2 GiB or more). *)
Class Proto (M : Type) := {
  marshal : M -> option bytes;
  unmarshal : bytes -> option M
}.

Class ProtoOk (M : Type) `{Proto M} : Prop :=
  unmarshal_marshal m b : marshal m = Some b -> unmarshal b = Some m.

(** [payload, _ := proto.Marshal(m)]: the error is dropped, the payload is nil. *)
Definition marshal_or_nil {M} `{Proto M} (m : M) : bytes := default [] (marshal m).

(** ** Ed25519

    A private key is its 32-byte seed followed by the 32-byte public key. *)
Definition SeedSize : nat := 32.
Definition PublicKeySize : nat := 32.
Definition PrivateKeySize : nat := 64.
Definition SignatureSize : nat := 64.

Class Ed25519 := {
  ed_pub_of_seed : bytes -> bytes;
  ed_sign : bytes -> bytes -> bytes;           (* private key, message *)
  ed_verify : bytes -> bytes -> bytes -> bool  (* public key, message, signature *)
}.

(** [ed25519.NewKeyFromSeed], [PrivateKey.Public] and [PrivateKey.Seed]. *)
Definition NewKeyFromSeed `{Ed25519} (seed : bytes) : bytes := seed ++ ed_pub_of_seed seed.
Definition priv_Public (priv : bytes) : bytes := drop SeedSize priv.
Definition priv_Seed (priv : bytes) : bytes := take SeedSize priv.

(** The private keys [GenerateKey] and [NewKeyFromSeed] return. *)
Definition genuine_priv `{Ed25519} (priv : bytes) : Prop :=
  exists seed, length seed = SeedSize /\ priv = NewKeyFromSeed seed.

Class Ed25519Ok `{Ed25519} : Prop := {
  length_ed_pub seed : length (ed_pub_of_seed seed) = PublicKeySize;
  ed_verify_sign priv m :
    genuine_priv priv -> ed_verify (priv_Public priv) m (ed_sign priv m) = true
}.

(** ** RIPEMD-160 and Base58 *)
Class Ripemd160 := { ripemd160 : bytes -> bytes }.
Class Ripemd160Ok `{Ripemd160} : Prop := { length_ripemd160 m : length (ripemd160 m) = 20%nat }.

Class Base58 := {
  b58_encode : bytes -> string;
  b58_decode : string -> option bytes
}.
Class Base58Ok `{Base58} : Prop := {
  b58_decode_encode b : b <> [] -> b58_decode (b58_encode b) = Some b;
  b58_encode_decode s b : b58_decode s = Some b -> b58_encode b = s;
  b58_decode_empty : b58_decode ""%string = None
}.

(** ** X25519 key agreement, HKDF-SHA256 and AES-256-GCM *)
Class X25519 := {
  x25519 : bytes -> bytes -> option bytes;  (* scalar, point; None: low-order point *)
  x25519_base : bytes -> bytes              (* public key of a scalar *)
}.
Class X25519Ok `{X25519} : Prop := {
  x25519_comm a b : x25519 a (x25519_base b) = x25519 b (x25519_base a)
}.

Class HKDF := { hkdf_sha256 : bytes -> bytes -> bytes -> bytes }. (* secret, salt, info *)

Definition gcmNonceSize : nat := 12.
Class AESGCM := {
  gcm_seal : bytes -> bytes -> bytes -> bytes;        (* key, nonce, plaintext *)
  gcm_open : bytes -> bytes -> bytes -> option bytes  (* key, nonce, ciphertext *)
}.
Class AESGCMOk `{AESGCM} : Prop := {
  gcm_open_seal k n m : gcm_open k n (gcm_seal k n m) = Some m
}.

(** SHA-512, used to turn an Ed25519 seed into an X25519 scalar. *)
Class Sha512 := { sha512 : bytes -> bytes }.

(** Argon2id with the parameters the keystore fixes. *)
Class Argon2 := { argon2_IDKey : string -> bytes -> bytes }. (* passphrase, salt *)
