(* ===== verification/Protocol.v ===== *)
(** * internal/protocol: message types, envelopes, framing and signing *)

From S2P Require Import Prelude GoStd Crypto.
Local Open Scope go_scope.

(** ** ids.go and messages.proto *)

(** src: internal/protocol/ids.go 10-10 MaxMessageSize *)
Definition MaxMessageSize : Z := 16 * 1024 * 1024.

(** The values of the [MessageType] enum; an envelope may carry any [int32]. *)
Abbreviation MessageType := Z.
Definition CONN_REQUEST : MessageType := 1.
Definition CONN_RESPONSE : MessageType := 2.
Definition CONN_CONFIRM : MessageType := 3.
Definition IP_EXCHANGE : MessageType := 4.
Definition CHAT_TEXT : MessageType := 10.
Definition CHAT_ACK : MessageType := 11.
Definition FILE_OFFER : MessageType := 20.
Definition FILE_ACCEPT : MessageType := 21.
Definition FILE_REJECT : MessageType := 22.
Definition FILE_CHUNK : MessageType := 23.
Definition FILE_CHUNK_ACK : MessageType := 24.
Definition FILE_COMPLETE : MessageType := 25.
Definition FILE_CANCEL : MessageType := 26.
Definition DHT_FIND_NODE : MessageType := 30.
Definition DHT_NODE_RESPONSE : MessageType := 31.
Definition DHT_PUT_RECORD : MessageType := 32.
Definition PING : MessageType := 40.
Definition PONG : MessageType := 41.

Record Envelope := mkEnvelope {
  env_Type : MessageType;
  env_Payload : bytes;
  env_Timestamp : Z;       (* int64 *)
  env_PubKey : bytes;
  env_Signature : bytes
}.

Record ConnRequest := mkConnRequest {
  req_FromAddress : string; req_TargetAddress : string; req_Nonce : bytes; req_Timestamp : Z }.
Record ConnResponse := mkConnResponse {
  resp_Accepted : bool; resp_PubKey : bytes; resp_Signature : bytes;
  resp_Nonce : bytes; resp_Reason : string }.
Record ConnConfirm := mkConnConfirm { conf_PubKey : bytes; conf_Signature : bytes }.
Record IPExchangeMsg := mkIPExchangeMsg { ipx_Addrs : list string }.
Record ChatText := mkChatText { ct_Id : string; ct_Text : string }.
Record ChatAck := mkChatAck { ca_MessageId : string }.
Record PbFileOffer := mkPbFileOffer {
  fo_TransferId : string; fo_Filename : string; fo_Size : Z; fo_RootHash : bytes;
  fo_ChunkSize : Z; fo_ChunkCount : Z }.
Record FileAccept := mkFileAccept { fa_TransferId : string }.
Record FileReject := mkFileReject { fr_TransferId : string; fr_Reason : string }.
Record FileChunk := mkFileChunk {
  fc_TransferId : string; fc_Index : Z; fc_Data : bytes; fc_Hash : bytes; fc_Proof : list bytes }.
Record FileChunkAck := mkFileChunkAck {
  ack_TransferId : string; ack_Index : Z; ack_Valid : bool }.
Record FileComplete := mkFileComplete { fcomp_TransferId : string }.
Record PeerRecord := mkPeerRecord {
  pr_NodeId : bytes; pr_Address : string; pr_OnionAddress : string; pr_Timestamp : Z }.
Record DHTFindNode := mkDHTFindNode { fn_Target : bytes }.
Record DHTNodeResponse := mkDHTNodeResponse { nr_Peers : list PeerRecord }.
Record DHTPutRecord := mkDHTPutRecord { put_Record : option PeerRecord }.
Record Ping := mkPing { ping_Timestamp : Z }.
Record Pong := mkPong { pong_EchoTimestamp : Z }.

(** ** codec.go: length-prefixed framing *)

Inductive codec_err :=
| ErrMarshalling
| ErrTooLarge (n : Z)
| ErrWritingPrefix
| ErrWritingPayload
| ErrReadingPrefix
| ErrReadingPayload
| ErrUnmarshalling.

(** An [io.Writer]: what it has accepted, and how many more [Write] calls succeed
    ([None]: all of them). *)
Record writer := mkWriter { w_out : bytes; w_budget : option nat }.

Definition Write (w : writer) (p : bytes) : option writer :=
  match w_budget w with
  | None => Some (mkWriter (w_out w ++ p) None)
  | Some (S n) => Some (mkWriter (w_out w ++ p) (Some n))
  | Some O => None
  end.

(** [io.ReadFull(r, buf)] with [len(buf) = n] on a stream holding [r]. *)
Definition ReadFull (n : nat) (r : bytes) : option (bytes * bytes) :=
  if (n <=? length r)%nat then Some (take n r, drop n r) else None.

Section codec.
Context `{Proto Envelope}.

(** src: internal/protocol/codec.go 13-34 WriteMsg *)
Definition WriteMsg (w : writer) (env : Envelope) : result codec_err writer * writer :=
  match marshal env with
  | None => (Err ErrMarshalling, w)
  | Some data =>
      if MaxMessageSize <? Z.of_nat (length data)
      then (Err (ErrTooLarge (Z.of_nat (length data))), w)
      else
        match Write w (BigEndian.PutUint32 (Z.of_nat (length data))) with
        | None => (Err ErrWritingPrefix, w)
        | Some w1 =>
            match Write w1 data with
            | None => (Err ErrWritingPayload, w1)
            | Some w2 => (Ok w2, w2)
            end
        end
  end.

(** The envelope read and the rest of the stream. *)
(** src: internal/protocol/codec.go 37-58 ReadMsg *)
Definition ReadMsg (r : bytes) : result codec_err (Envelope * bytes) :=
  '(lengthBuf, r1) <-? of_option ErrReadingPrefix (ReadFull 4 r);
  let size := BigEndian.Uint32 lengthBuf in
  guard negb (MaxMessageSize <? size) else ErrTooLarge size;
  '(data, r2) <-? of_option ErrReadingPayload (ReadFull (Z.to_nat size) r1);
  env <-? of_option ErrUnmarshalling (unmarshal data);
  Ok (env, r2).
End codec.

(** ** codec.go: signing *)

(** type (4 bytes) || payload || timestamp (8 bytes), big endian. *)
(** src: internal/protocol/codec.go 61-67 signingPayload *)
Definition signingPayload (msgType : MessageType) (payload : bytes) (timestamp : Z) : bytes :=
  BigEndian.PutUint32 (u32 msgType) ++ payload ++ BigEndian.PutUint64 (u64 timestamp).
