(* ===== verification/Instances.v ===== *)
(** * Concrete instances of the external interfaces

    Small executable stand-ins that satisfy every law of [Crypto.v]: the
    hypotheses of the development are consistent, and its theorems can be
    evaluated.  They are not the real primitives. *)

From S2P Require Import Prelude GoStd Sha256 Crypto Protocol.

(** ** A self-delimiting encoding of records *)
Module Toy.

Definition frame (b : bytes) : bytes := BigEndian.put 4 (Z.of_nat (length b)) ++ b.

Definition encode_fields (fs : list bytes) : option bytes :=
  if forallb (fun b => Z.of_nat (length b) <? 2 ^ 32) fs then Some (concat (frame <$> fs)) else None.

Fixpoint decode_fields (fuel : nat) (b : bytes) : option (list bytes) :=
  match fuel, b with
  | _, [] => Some []
  | O, _ => None
  | S fuel, _ =>
      let n := Z.to_nat (BigEndian.get (take 4 b)) in
      if (length b <? 4 + n)%nat then None
      else fs ← decode_fields fuel (drop (4 + n) b); Some (take n (drop 4 b) :: fs)
  end.

Lemma decode_fields_S fuel b : b <> [] ->
  decode_fields (S fuel) b =
    let n := Z.to_nat (BigEndian.get (take 4 b)) in
    if (length b <? 4 + n)%nat then None
    else fs ← decode_fields fuel (drop (4 + n) b); Some (take n (drop 4 b) :: fs).
Proof. by destruct b. Qed.

Lemma decode_encode fs b : encode_fields fs = Some b -> decode_fields (length b) b = Some fs.
Proof.
  unfold encode_fields. destruct (forallb _ fs) eqn:Hall; [|done]. intros [= <-].
  assert (forall fuel, (length (concat (frame <$> fs)) <= fuel)%nat ->
    decode_fields fuel (concat (frame <$> fs)) = Some fs) as Hgen; [|by apply Hgen].
  induction fs as [|f fs IH]; intros fuel Hf; [by destruct fuel|].
  simpl in Hall. apply andb_prop in Hall as [Hlt%Z.ltb_lt Hall].
  rewrite fmap_cons in *. cbn [concat] in *. rewrite length_app in Hf.
  assert (length (frame f) = 4 + length f)%nat as Hfr
    by (unfold frame; by rewrite length_app, BigEndian.length_put).
  destruct fuel as [|fuel]; [lia|].
  assert (frame f ++ concat (frame <$> fs)
    = BigEndian.put 4 (Z.of_nat (length f)) ++ (f ++ concat (frame <$> fs))) as Heq
    by (unfold frame at 1; by rewrite <- app_assoc).
  rewrite decode_fields_S by (rewrite Heq; by destruct f). rewrite Heq. cbv zeta.
  rewrite take_app_length' by (by rewrite BigEndian.length_put).
  rewrite BigEndian.get_put, Z.mod_small, Nat2Z.id by (simpl; lia).
  destruct (Nat.ltb_spec (length (BigEndian.put 4 (Z.of_nat (length f)) ++ f ++ concat (frame <$> fs)))
    (4 + length f)) as [Hbad|_].
  { rewrite !length_app, BigEndian.length_put in Hbad. lia. }
  rewrite <- drop_drop. rewrite (drop_app_length' (BigEndian.put 4 _)) by (by rewrite BigEndian.length_put).
  rewrite drop_app_length, take_app_length.
  rewrite IH; [done|done|]. lia.
Qed.

Definition dec (b : bytes) : option (list bytes) := decode_fields (length b) b.

Definition of_int (z : Z) : option bytes :=
  if (- 2 ^ 127 <=? z) && (z <? 2 ^ 127) then Some (BigEndian.put 16 (z mod 2 ^ 128)) else None.
Definition to_int (b : bytes) : option Z := Some (wrap_s 128 (BigEndian.get b)).
Definition of_bool (b : bool) : bytes := [if b then Byte.x01 else Byte.x00].
Definition to_bool (b : bytes) : option bool := Some (bool_decide (b = [Byte.x01])).
Definition of_str (s : string) : bytes := String.list_byte_of_string s.
Definition to_str (b : bytes) : option string := Some (String.string_of_list_byte b).

Lemma to_of_int z b : of_int z = Some b -> to_int b = Some z.
Proof.
  unfold of_int, to_int.
  destruct (Z.leb_spec (- 2 ^ 127) z), (Z.ltb_spec z (2 ^ 127)); try done. cbn [andb].
  intros <-%(inj Some). f_equal. rewrite BigEndian.get_put.
  change (256 ^ Z.of_nat 16) with (2 ^ 128). rewrite Z.mod_mod by done.
  unfold wrap_s. rewrite Zplus_mod_idemp_l. apply (wrap_s_small 128); [lia|]. split; [done|done].
Qed.
Lemma to_of_bool b : to_bool (of_bool b) = Some b.
Proof. by destruct b. Qed.
Lemma to_of_str s : to_str (of_str s) = Some s.
Proof. unfold to_str, of_str. f_equal. apply String.string_of_list_byte_of_string. Qed.

Definition of_list {A} (f : A -> option bytes) (l : list A) : option bytes :=
  fs ← mapM f l; encode_fields fs.
Definition to_list {A} (g : bytes -> option A) (b : bytes) : option (list A) :=
  fs ← dec b; mapM g fs.

Lemma to_of_list {A} (f : A -> option bytes) (g : bytes -> option A) l b :
  (forall a x, f a = Some x -> g x = Some a) -> of_list f l = Some b -> to_list g b = Some l.
Proof.
  intros Hfg. unfold of_list, to_list. intros Hb.
  destruct (mapM f l) as [fs|] eqn:Hm; [|done]. simpl in Hb. unfold dec.
  rewrite (decode_encode _ _ Hb). simpl. apply mapM_Some in Hm. apply mapM_Some.
  clear -Hfg Hm. induction Hm; constructor; auto.
Qed.

#[local] Opaque to_int.
#[local] Opaque of_int.
#[local] Opaque to_bool.
#[local] Opaque of_bool.
#[local] Opaque to_str.
#[local] Opaque of_str.
#[local] Opaque to_list.
#[local] Opaque of_list.
#[local] Opaque encode_fields.

(** Decoding inverts the encoding of every kind of field. *)
Ltac solve_proto :=
  intros m b Hm; unfold unmarshal, marshal in *; simpl in *;
  repeat match goal with
  | H : (_ ≫= _) = Some _ |- _ => apply bind_Some in H as (? & ? & H)
  end;
  match goal with H : encode_fields _ = Some _ |- _ => unfold dec; rewrite (decode_encode _ _ H) end;
  simpl;
  repeat match goal with
  | H : of_int _ = Some ?b |- context [to_int ?b] => rewrite (to_of_int _ _ H)
  | |- context [to_bool (of_bool _)] => rewrite to_of_bool
  | |- context [to_str (of_str _)] => rewrite to_of_str
  | H : of_list _ _ = Some ?b |- context [to_list _ ?b] =>
      rewrite (to_of_list Some Some _ _ (fun _ _ E => eq_sym E) H)
  end; simpl; try (by destruct m); eauto.

#[export] Instance proto_Envelope : Proto Envelope := {
  marshal m := t ← of_int (env_Type m); ts ← of_int (env_Timestamp m);
    encode_fields [t; env_Payload m; ts; env_PubKey m; env_Signature m];
  unmarshal b := fs ← dec b; match fs with
    | [t; p; ts; k; s] => t ← to_int t; ts ← to_int ts; Some (mkEnvelope t p ts k s)
    | _ => None end }.
#[export] Instance proto_Envelope_ok : ProtoOk Envelope.
Proof. solve_proto. Qed.

#[export] Instance proto_ConnRequest : Proto ConnRequest := {
  marshal m := ts ← of_int (req_Timestamp m);
    encode_fields [of_str (req_FromAddress m); of_str (req_TargetAddress m); req_Nonce m; ts];
  unmarshal b := fs ← dec b; match fs with
    | [f; t; n; ts] => f ← to_str f; t ← to_str t; ts ← to_int ts; Some (mkConnRequest f t n ts)
    | _ => None end }.
#[export] Instance proto_ConnRequest_ok : ProtoOk ConnRequest.
Proof. solve_proto. Qed.

#[export] Instance proto_ConnResponse : Proto ConnResponse := {
  marshal m := encode_fields [of_bool (resp_Accepted m); resp_PubKey m; resp_Signature m;
    resp_Nonce m; of_str (resp_Reason m)];
  unmarshal b := fs ← dec b; match fs with
    | [a; k; s; n; r] => a ← to_bool a; r ← to_str r; Some (mkConnResponse a k s n r)
    | _ => None end }.
#[export] Instance proto_ConnResponse_ok : ProtoOk ConnResponse.
Proof. solve_proto. Qed.

#[export] Instance proto_ConnConfirm : Proto ConnConfirm := {
  marshal m := encode_fields [conf_PubKey m; conf_Signature m];
  unmarshal b := fs ← dec b; match fs with [k; s] => Some (mkConnConfirm k s) | _ => None end }.
#[export] Instance proto_ConnConfirm_ok : ProtoOk ConnConfirm.
Proof. solve_proto. Qed.

#[export] Instance proto_IPExchangeMsg : Proto IPExchangeMsg := {
  marshal m := of_list (fun s => Some (of_str s)) (ipx_Addrs m);
  unmarshal b := mkIPExchangeMsg <$> to_list to_str b }.
#[export] Instance proto_IPExchangeMsg_ok : ProtoOk IPExchangeMsg.
Proof.
  intros [l] b H. unfold unmarshal, marshal in *. simpl in *.
  erewrite to_of_list; [done| |exact H]. intros a x Hx. apply (inj Some) in Hx as <-. apply to_of_str.
Qed.

#[export] Instance proto_FileChunk : Proto FileChunk := {
  marshal m := i ← of_int (fc_Index m); p ← of_list Some (fc_Proof m);
    encode_fields [of_str (fc_TransferId m); i; fc_Data m; fc_Hash m; p];
  unmarshal b := fs ← dec b; match fs with
    | [t; i; d; h; p] => t ← to_str t; i ← to_int i; p ← to_list Some p; Some (mkFileChunk t i d h p)
    | _ => None end }.
#[export] Instance proto_FileChunk_ok : ProtoOk FileChunk.
Proof. solve_proto. Qed.

#[export] Instance proto_FileChunkAck : Proto FileChunkAck := {
  marshal m := i ← of_int (ack_Index m);
    encode_fields [of_str (ack_TransferId m); i; of_bool (ack_Valid m)];
  unmarshal b := fs ← dec b; match fs with
    | [t; i; v] => t ← to_str t; i ← to_int i; v ← to_bool v; Some (mkFileChunkAck t i v)
    | _ => None end }.
#[export] Instance proto_FileChunkAck_ok : ProtoOk FileChunkAck.
Proof. solve_proto. Qed.

#[export] Instance proto_FileComplete : Proto FileComplete := {
  marshal m := encode_fields [of_str (fcomp_TransferId m)];
  unmarshal b := fs ← dec b; match fs with
    | [t] => t ← to_str t; Some (mkFileComplete t) | _ => None end }.
#[export] Instance proto_FileComplete_ok : ProtoOk FileComplete.
Proof. solve_proto. Qed.

#[export] Instance proto_PbFileOffer : Proto PbFileOffer := {
  marshal m := s ← of_int (fo_Size m); c ← of_int (fo_ChunkSize m); n ← of_int (fo_ChunkCount m);
    encode_fields [of_str (fo_TransferId m); of_str (fo_Filename m); s; fo_RootHash m; c; n];
  unmarshal b := fs ← dec b; match fs with
    | [t; f; s; r; c; n] => t ← to_str t; f ← to_str f; s ← to_int s; c ← to_int c; n ← to_int n;
        Some (mkPbFileOffer t f s r c n)
    | _ => None end }.
#[export] Instance proto_PbFileOffer_ok : ProtoOk PbFileOffer.
Proof. solve_proto. Qed.

#[export] Instance proto_PeerRecord : Proto PeerRecord := {
  marshal m := ts ← of_int (pr_Timestamp m);
    encode_fields [pr_NodeId m; of_str (pr_Address m); of_str (pr_OnionAddress m); ts];
  unmarshal b := fs ← dec b; match fs with
    | [i; a; o; ts] => a ← to_str a; o ← to_str o; ts ← to_int ts; Some (mkPeerRecord i a o ts)
    | _ => None end }.
#[export] Instance proto_PeerRecord_ok : ProtoOk PeerRecord.
Proof. solve_proto. Qed.

#[export] Instance proto_FileAccept : Proto FileAccept := {
  marshal m := encode_fields [of_str (fa_TransferId m)];
  unmarshal b := fs ← dec b; match fs with
    | [t] => t ← to_str t; Some (mkFileAccept t) | _ => None end }.
#[export] Instance proto_FileAccept_ok : ProtoOk FileAccept.
Proof. solve_proto. Qed.

#[export] Instance proto_FileReject : Proto FileReject := {
  marshal m := encode_fields [of_str (fr_TransferId m); of_str (fr_Reason m)];
  unmarshal b := fs ← dec b; match fs with
    | [t; r] => t ← to_str t; r ← to_str r; Some (mkFileReject t r) | _ => None end }.
#[export] Instance proto_FileReject_ok : ProtoOk FileReject.
Proof. solve_proto. Qed.

#[export] Instance proto_DHTFindNode : Proto DHTFindNode := {
  marshal m := encode_fields [fn_Target m];
  unmarshal b := fs ← dec b; match fs with [t] => Some (mkDHTFindNode t) | _ => None end }.
#[export] Instance proto_DHTFindNode_ok : ProtoOk DHTFindNode.
Proof. solve_proto. Qed.

#[export] Instance proto_DHTNodeResponse : Proto DHTNodeResponse := {
  marshal m := of_list marshal (nr_Peers m);
  unmarshal b := mkDHTNodeResponse <$> to_list unmarshal b }.
#[export] Instance proto_DHTNodeResponse_ok : ProtoOk DHTNodeResponse.
Proof.
  intros [l] b H. unfold unmarshal, marshal in *. simpl in *.
  erewrite to_of_list; [done| |exact H]. intros a x Hx. exact (proto_PeerRecord_ok a x Hx).
Qed.

#[export] Instance proto_DHTPutRecord : Proto DHTPutRecord := {
  marshal m := match put_Record m with
    | None => encode_fields []
    | Some r => x ← marshal r; encode_fields [x] end;
  unmarshal b := fs ← dec b; match fs with
    | [] => Some (mkDHTPutRecord None)
    | [x] => r ← unmarshal x; Some (mkDHTPutRecord (Some r))
    | _ => None end }.
#[export] Instance proto_DHTPutRecord_ok : ProtoOk DHTPutRecord.
Proof.
  intros [[r|]] b H; cbn [marshal unmarshal proto_DHTPutRecord put_Record] in *.
  - apply bind_Some in H as (x & Hx & H). unfold dec. rewrite (decode_encode _ _ H).
    cbn [mbind option_bind]. by rewrite (proto_PeerRecord_ok r x Hx).
  - unfold dec. by rewrite (decode_encode _ _ H).
Qed.

#[export] Instance proto_ChatText : Proto ChatText := {
  marshal m := encode_fields [of_str (ct_Id m); of_str (ct_Text m)];
  unmarshal b := fs ← dec b; match fs with
    | [t; r] => t ← to_str t; r ← to_str r; Some (mkChatText t r) | _ => None end }.
#[export] Instance proto_ChatText_ok : ProtoOk ChatText.
Proof. solve_proto. Qed.

#[export] Instance proto_ChatAck : Proto ChatAck := {
  marshal m := encode_fields [of_str (ca_MessageId m)];
  unmarshal b := fs ← dec b; match fs with
    | [t] => t ← to_str t; Some (mkChatAck t) | _ => None end }.
#[export] Instance proto_ChatAck_ok : ProtoOk ChatAck.
Proof. solve_proto. Qed.

#[export] Instance proto_Ping : Proto Ping := {
  marshal m := t ← of_int (ping_Timestamp m); encode_fields [t];
  unmarshal b := fs ← dec b; match fs with [t] => t ← to_int t; Some (mkPing t) | _ => None end }.
#[export] Instance proto_Ping_ok : ProtoOk Ping.
Proof. solve_proto. Qed.

#[export] Instance proto_Pong : Proto Pong := {
  marshal m := t ← of_int (pong_EchoTimestamp m); encode_fields [t];
  unmarshal b := fs ← dec b; match fs with [t] => t ← to_int t; Some (mkPong t) | _ => None end }.
#[export] Instance proto_Pong_ok : ProtoOk Pong.
Proof. solve_proto. Qed.

(** ** Cryptography *)

#[export] Instance ed25519 : Ed25519 := {
  ed_pub_of_seed seed := Sha256.Sum256 seed;
  ed_sign priv m := Sha256.Sum256 (priv_Public priv ++ m);
  ed_verify pub m sig := bytes_eqb sig (Sha256.Sum256 (pub ++ m)) }.
#[export] Instance ed25519_ok : Ed25519Ok.
Proof.
  split; [intros; apply Sha256.length_Sum256|]. intros priv m _. apply bytes_eqb_refl.
Qed.

#[export] Instance ripemd : Ripemd160 := { ripemd160 m := take 20 (Sha256.Sum256 m) }.
#[export] Instance ripemd_ok : Ripemd160Ok.
Proof. split. intros m. unfold ripemd160. simpl. by rewrite length_take, Sha256.length_Sum256. Qed.

#[export] Instance base58 : Base58 := {
  b58_encode := String.string_of_list_byte;
  b58_decode s := match s with EmptyString => None | _ => Some (String.list_byte_of_string s) end }.
#[export] Instance base58_ok : Base58Ok.
Proof.
  split.
  - intros [|x b] Hb; [done|]. unfold b58_decode, b58_encode, base58.
    rewrite String.list_byte_of_string_of_list_byte. by destruct (String.string_of_list_byte (x :: b)) eqn:Hs.
  - intros [|c s] b; [done|]. intros [= <-]. exact (String.string_of_list_byte_of_string (String c s)).
  - done.
Qed.

(** Diffie-Hellman in the additive group of byte strings under [bxor]. *)
#[export] Instance x25519_toy : X25519 := {
  x25519 a p := Some (zip_with bxor a p);
  x25519_base a := a }.
#[export] Instance x25519_toy_ok : X25519Ok.
Proof.
  split. intros a b. unfold x25519, x25519_base. simpl. f_equal.
  revert b. induction a as [|x a IH]; intros [|y b]; simpl; [done..|]. by rewrite bxor_comm, IH.
Qed.

#[export] Instance hkdf_toy : HKDF := {
  hkdf_sha256 secret salt info := Sha256.Sum256 (secret ++ salt ++ info) }.

(** The "ciphertext" is the tag of key and nonce followed by the plaintext. *)
#[export] Instance gcm_toy : AESGCM := {
  gcm_seal k n m := Sha256.Sum256 (k ++ n) ++ m;
  gcm_open k n c :=
    if bytes_eqb (take 32 c) (Sha256.Sum256 (k ++ n)) then Some (drop 32 c) else None }.
#[export] Instance gcm_toy_ok : AESGCMOk.
Proof.
  split. intros k n m. unfold gcm_open, gcm_seal. simpl.
  rewrite take_app_length', drop_app_length' by (by rewrite Sha256.length_Sum256).
  by rewrite bytes_eqb_refl.
Qed.

#[export] Instance sha512_toy : Sha512 := { sha512 m := Sha256.Sum256 m ++ Sha256.Sum256 (Sha256.Sum256 m) }.
#[export] Instance argon2_toy : Argon2 := {
  argon2_IDKey pass salt := Sha256.Sum256 (String.list_byte_of_string pass ++ salt) }.

End Toy.
