(* ===== verification/Identity.v ===== *)
(** * internal/identity: keypairs and addresses *)

From S2P Require Import Prelude GoStd Sha256 Crypto Protocol Instances.
Import Sha256.
Local Open Scope go_scope.

(** ** keypair.go *)

(** [kp_priv] is empty in a verify-only keypair. *)
(** src: internal/identity/keypair.go 12-15 Keypair *)
Record Keypair := mkKeypair { kp_pub : bytes; kp_priv : bytes }.

Inductive keypair_err := ErrSeedSize (n : nat) | ErrPrivateKeySize (n : nat) | ErrPublicKeySize (n : nat).

Section keypair.
Context `{Ed25519}.

(** [rand.Reader] supplies the seed; [None] when it fails. *)
(** src: internal/identity/keypair.go 18-24 Generate *)
Definition Generate (rand : option bytes) : option Keypair :=
  seed ← rand;
  Some (mkKeypair (ed_pub_of_seed seed) (NewKeyFromSeed seed)).

(** src: internal/identity/keypair.go 27-34 FromSeed *)
Definition FromSeed (seed : bytes) : result keypair_err Keypair :=
  if (length seed =? SeedSize)%nat
  then let priv := NewKeyFromSeed seed in Ok (mkKeypair (priv_Public priv) priv)
  else Err (ErrSeedSize (length seed)).

(** src: internal/identity/keypair.go 37-39 Keypair.PublicKey *)
Definition PublicKey (k : Keypair) : bytes := kp_pub k.

(** src: internal/identity/keypair.go 42-44 Keypair.Seed *)
Definition Seed (k : Keypair) : bytes := priv_Seed (kp_priv k).

(** src: internal/identity/keypair.go 47-49 Keypair.Sign *)
Definition Sign (k : Keypair) (message : bytes) : bytes := ed_sign (kp_priv k) message.

(** src: internal/identity/keypair.go 52-54 Keypair.Verify *)
Definition Verify (k : Keypair) (message signature : bytes) : bool :=
  ed_verify (kp_pub k) message signature.

(** [make([]byte, 64)] then [copy]: truncated or zero-padded to 64 bytes. *)
(** src: internal/identity/keypair.go 57-61 Keypair.MarshalPrivate *)
Definition MarshalPrivate (k : Keypair) : bytes :=
  let p := take PrivateKeySize (kp_priv k) in
  p ++ repeat Byte.x00 (PrivateKeySize - length p).

(** src: internal/identity/keypair.go 64-72 UnmarshalPrivate *)
Definition UnmarshalPrivate (data : bytes) : result keypair_err Keypair :=
  if (length data =? PrivateKeySize)%nat
  then Ok (mkKeypair (priv_Public data) data)
  else Err (ErrPrivateKeySize (length data)).

(** src: internal/identity/keypair.go 75-82 FromPublicKey *)
Definition FromPublicKey (data : bytes) : result keypair_err Keypair :=
  if (length data =? PublicKeySize)%nat
  then Ok (mkKeypair data [])
  else Err (ErrPublicKeySize (length data)).

(** A keypair that holds a genuine private key and its public key. *)
Definition genuine (k : Keypair) : Prop :=
  genuine_priv (kp_priv k) /\ kp_pub k = priv_Public (kp_priv k).

Lemma NewKeyFromSeed_Public seed :
  length seed = SeedSize -> priv_Public (NewKeyFromSeed seed) = ed_pub_of_seed seed.
Proof. intros Hs. unfold priv_Public, NewKeyFromSeed. by rewrite drop_app_length'. Qed.

Lemma FromSeed_genuine seed k : FromSeed seed = Ok k -> genuine k.
Proof.
  unfold FromSeed. destruct (Nat.eqb_spec (length seed) SeedSize); [|done].
  intros [= <-]. split; [by exists seed|done].
Qed.

Context `{!Ed25519Ok}.

Lemma genuine_pub_length k : genuine k -> length (kp_pub k) = PublicKeySize.
Proof.
  intros [(seed & Hs & Hp) ->]. rewrite Hp, NewKeyFromSeed_Public by done. apply length_ed_pub.
Qed.

Lemma genuine_priv_length k : genuine k -> length (kp_priv k) = PrivateKeySize.
Proof.
  intros [(seed & Hs & ->) _]. unfold NewKeyFromSeed. by rewrite length_app, Hs, length_ed_pub.
Qed.

Lemma FromPublicKey_genuine k :
  genuine k -> FromPublicKey (kp_pub k) = Ok (mkKeypair (kp_pub k) []).
Proof.
  intros Hk. unfold FromPublicKey. by rewrite (genuine_pub_length k Hk).
Qed.

(** What a genuine keypair signs, its public key verifies. *)
Lemma Verify_Sign k m priv' :
  genuine k -> Verify (mkKeypair (kp_pub k) priv') m (Sign k m) = true.
Proof. intros [Hg Hp]. unfold Verify, Sign. simpl. rewrite Hp. by apply ed_verify_sign. Qed.
End keypair.

(** ** address.go *)

(** src: internal/identity/address.go 13-13 VersionByte *)
Definition VersionByte : byte := Byte.x21.

Section address.
Context `{Ripemd160, Base58}.

(** SHA-256 then RIPEMD-160. *)
Definition hash160 (pubKey : bytes) : bytes := ripemd160 (Sum256 pubKey).

(** The first four bytes of the double SHA-256. *)
(** src: internal/identity/address.go 34-37 DeriveAddress *)
Definition checksum (payload : bytes) : bytes := take 4 (Sum256 (Sum256 payload)).

(** src: internal/identity/address.go 20-42 DeriveAddress *)
Definition DeriveAddress (pubKey : bytes) : string :=
  let versioned := VersionByte :: hash160 pubKey in
  b58_encode (versioned ++ checksum versioned).

(** src: internal/identity/address.go 45-68 Validate *)
Definition Validate (addr : string) : bool :=
  match b58_decode addr with
  | None => false
  | Some data =>
      if (length data <? 25)%nat then false
      else if negb (bool_decide (head data = Some VersionByte)) then false
      else
        let payload := take (length data - 4) data in
        bytes_eqb (checksum payload) (drop (length data - 4) data)
  end.

(** src: internal/identity/address.go 71-73 MatchesPublicKey *)
Definition MatchesPublicKey (addr : string) (pubKey : bytes) : bool :=
  Validate addr && bool_decide (addr = DeriveAddress pubKey).

(** [s[:6] + "..." + s[len(s)-4:]] *)
(** src: internal/identity/address.go 76-82 Address.Short *)
Definition Short (a : string) : string :=
  if (String.length a <=? 12)%nat then a
  else (String.substring 0 6 a +:+ "..." +:+ String.substring (String.length a - 4) 4 a)%string.

Lemma length_checksum p : length (checksum p) = 4%nat.
Proof. unfold checksum. by rewrite length_take, length_Sum256. Qed.

Context `{!Ripemd160Ok, !Base58Ok}.

Lemma length_hash160 k : length (hash160 k) = 20%nat.
Proof. apply length_ripemd160. Qed.

Lemma decode_DeriveAddress k :
  b58_decode (DeriveAddress k)
  = Some ((VersionByte :: hash160 k) ++ checksum (VersionByte :: hash160 k)).
Proof. by apply b58_decode_encode. Qed.

Lemma Validate_DeriveAddress k : Validate (DeriveAddress k) = true.
Proof.
  unfold Validate. rewrite decode_DeriveAddress.
  set (v := VersionByte :: hash160 k).
  assert (length v = 21%nat) as Hv by (unfold v; simpl; by rewrite length_hash160).
  rewrite length_app, length_checksum, Hv. change (21 + 4 <? 25)%nat with false.
  change (21 + 4 - 4)%nat with 21%nat. cbn [negb].
  rewrite bool_decide_eq_true_2 by done. cbn [negb].
  rewrite take_app_length', drop_app_length' by done. apply bytes_eqb_refl.
Qed.

Lemma DeriveAddress_nonempty k : DeriveAddress k <> ""%string.
Proof. intros Heq. pose proof (decode_DeriveAddress k) as Hd. by rewrite Heq, b58_decode_empty in Hd. Qed.

Lemma MatchesPublicKey_iff addr k : MatchesPublicKey addr k = true <-> addr = DeriveAddress k.
Proof.
  unfold MatchesPublicKey. split.
  - by intros [_ ?%bool_decide_eq_true]%andb_prop.
  - intros ->. by rewrite Validate_DeriveAddress, bool_decide_eq_true_2.
Qed.

(** Addresses: the address derived from any public key validates, and an address
    matches a public key exactly when it was derived from it; every 25-byte string that
    validates carries the version byte and the checksum of its first 21 bytes. *)
Theorem address_contract :
  (forall k, Validate (DeriveAddress k) = true) /\
  (forall addr k, MatchesPublicKey addr k = true <-> addr = DeriveAddress k) /\
  (forall addr, Validate addr = true -> exists payload,
     addr = b58_encode (payload ++ checksum payload) /\
     (21 <= length payload)%nat /\ head payload = Some VersionByte).
Proof.
  split_and!; [apply Validate_DeriveAddress|apply MatchesPublicKey_iff|].
  intros addr. unfold Validate. destruct (b58_decode addr) as [data|] eqn:Hd; [|done].
  destruct (Nat.ltb_spec (length data) 25); [done|].
  case_bool_decide as Hhead; [|done]. cbn [negb]. intros Hc%bytes_eqb_eq.
  exists (take (length data - 4) data). split_and!.
  - rewrite Hc, take_drop. symmetry. by apply b58_encode_decode.
  - rewrite length_take. lia.
  - destruct data as [|b data]; [done|]. simpl in *. destruct (length data - 3)%nat eqn:E; [lia|].
    by replace (S (length data) - 4)%nat with (S n) by lia.
Qed.
End address.

(** ** Sample keypairs over the concrete instances *)
Section samples.
Import Toy.

Definition sample_seed (n : Z) : bytes := Sum256 [z2b n].
Definition sample_keypair (n : Z) : Keypair :=
  mkKeypair (ed_pub_of_seed (sample_seed n)) (NewKeyFromSeed (sample_seed n)).

Lemma sample_keypair_genuine n : genuine (sample_keypair n).
Proof.
  split; [exists (sample_seed n); split; [apply length_Sum256|done]|].
  symmetry. apply NewKeyFromSeed_Public, length_Sum256.
Qed.

Lemma address_contract_witness :
  (forall k, Validate (DeriveAddress k) = true) /\
  (forall addr k, MatchesPublicKey addr k = true <-> addr = DeriveAddress k) /\
  (forall addr, Validate addr = true -> exists payload,
     addr = b58_encode (payload ++ checksum payload) /\
     (21 <= length payload)%nat /\ head payload = Some VersionByte).
Proof. apply address_contract; apply _. Defined.

Example sample_address_valid :
  Validate (DeriveAddress (kp_pub (sample_keypair 1))) = true /\
  Validate "notanaddress" = false.
Proof. vm_compute. done. Qed.
End samples.
