(* ===== verification/Wire.v ===== *)
(** * internal/protocol/codec.go: what the framing and the signatures guarantee *)

From S2P Require Import Prelude GoStd Crypto Protocol Instances Identity.
Local Open Scope go_scope.

(** ** Signed envelopes *)
Section signed.
Context `{Ed25519}.

(** [now] is [time.Now().UnixMilli()]. *)
(** src: internal/protocol/codec.go 70-83 WrapMessage *)
Definition WrapMessage (msgType : MessageType) (payload : bytes) (kp : Keypair) (now : Z) : Envelope :=
  let data := signingPayload msgType payload now in
  mkEnvelope msgType payload now (PublicKey kp) (Sign kp data).

(** src: internal/protocol/codec.go 86-93 VerifyEnvelope *)
Definition VerifyEnvelope (env : Envelope) : bool :=
  match FromPublicKey (env_PubKey env) with
  | Err _ => false
  | Ok kp => Verify kp (signingPayload (env_Type env) (env_Payload env) (env_Timestamp env))
               (env_Signature env)
  end.
End signed.

(** [wrapUnsigned] of internal/signaling and internal/discovery, [unsignedEnvelope]
    of internal/transport. *)
(** src: internal/signaling/server.go 384-389 wrapUnsigned *)
Definition wrapUnsigned (msgType : MessageType) (payload : bytes) : Envelope :=
  mkEnvelope msgType payload 0 [] [].

(** The fields that are signed. *)
Definition signed_fields (e : Envelope) : MessageType * bytes * Z :=
  (env_Type e, env_Payload e, env_Timestamp e).

(** The field ranges of a decoded envelope: the enum is an [int32], the timestamp
    an [int64]. *)
Definition envelope_ok (e : Envelope) : Prop :=
  in_s 32 (env_Type e) /\ in_s 64 (env_Timestamp e).

Lemma u_of_s_inj w a b : 0 < w -> in_s w a -> in_s w b -> wrap_u w a = wrap_u w b -> a = b.
Proof.
  unfold in_s, wrap_u. intros Hw Ha Hb Heq. pose proof (pow2_half w Hw).
  assert (0 < 2 ^ (w - 1)) by (apply Z.pow_pos_nonneg; lia).
  pose proof (Z.div_mod a (2 ^ w) ltac:(lia)). pose proof (Z.div_mod b (2 ^ w) ltac:(lia)).
  rewrite Heq in *. set (k := a / 2 ^ w - b / 2 ^ w).
  assert (a - b = 2 ^ w * k) by (unfold k; lia).
  destruct (Z.lt_trichotomy k 0) as [|[|]]; [nia| |nia]. subst k. nia.
Qed.

Lemma signingPayload_inj t1 p1 ts1 t2 p2 ts2 :
  in_s 32 t1 -> in_s 32 t2 -> in_s 64 ts1 -> in_s 64 ts2 ->
  signingPayload t1 p1 ts1 = signingPayload t2 p2 ts2 -> (t1, p1, ts1) = (t2, p2, ts2).
Proof.
  intros Ht1 Ht2 Hs1 Hs2. unfold signingPayload, BigEndian.PutUint32, BigEndian.PutUint64.
  intros [H1 H]%app_inj_1; [|by rewrite !BigEndian.length_put].
  apply app_inj_2 in H as [-> H2]; [|by rewrite !BigEndian.length_put].
  apply BigEndian.put_inj in H1, H2.
  change (256 ^ Z.of_nat 4) with (2 ^ 32) in H1. change (256 ^ Z.of_nat 8) with (2 ^ 64) in H2.
  unfold wrap_u in *. rewrite !Z.mod_mod in H1, H2 by done.
  apply (u_of_s_inj 32) in H1; [|done..]. apply (u_of_s_inj 64) in H2; [|done..]. congruence.
Qed.

Section signed_laws.
Context `{Ed25519Ok}.

Lemma VerifyEnvelope_WrapMessage t p kp now :
  genuine kp -> VerifyEnvelope (WrapMessage t p kp now) = true.
Proof.
  intros Hk. unfold VerifyEnvelope, WrapMessage. simpl. unfold PublicKey.
  rewrite FromPublicKey_genuine by done. by apply Verify_Sign.
Qed.

(** C11. Signed envelopes: the receiver accepts every envelope [WrapMessage] makes; and the
    signature covers every field but the key, so two decoded envelopes whose signed bytes
    agree have the same type, payload and timestamp. *)
Theorem envelope_signature_contract :
  (forall t p kp now, genuine kp -> VerifyEnvelope (WrapMessage t p kp now) = true) /\
  (forall e, VerifyEnvelope e = true ->
     length (env_PubKey e) = PublicKeySize /\
     ed_verify (env_PubKey e) (signingPayload (env_Type e) (env_Payload e) (env_Timestamp e))
       (env_Signature e) = true) /\
  (forall e1 e2, envelope_ok e1 -> envelope_ok e2 ->
     signingPayload (env_Type e1) (env_Payload e1) (env_Timestamp e1)
     = signingPayload (env_Type e2) (env_Payload e2) (env_Timestamp e2) ->
     signed_fields e1 = signed_fields e2).
Proof.
  split_and!.
  - apply VerifyEnvelope_WrapMessage.
  - intros e. unfold VerifyEnvelope, FromPublicKey, Verify.
    destruct (Nat.eqb_spec (length (env_PubKey e)) PublicKeySize); done.
  - intros e1 e2 [] [] Heq. unfold signed_fields. by apply signingPayload_inj.
Qed.
End signed_laws.

(** ** Framing *)
Section framing.
Context `{ProtoOk Envelope}.

(** What [WriteMsg] puts on the wire. *)
Definition frame (data : bytes) : bytes :=
  BigEndian.PutUint32 (Z.of_nat (length data)) ++ data.

Lemma WriteMsg_Ok w env w1 w2 :
  WriteMsg w env = (Ok w1, w2) ->
  exists data, marshal env = Some data /\ Z.of_nat (length data) <= MaxMessageSize /\
    w_out w1 = w_out w ++ frame data /\ w1 = w2.
Proof.
  unfold WriteMsg, Write. intros Hw. go_cases; simpl in *;
    (eexists; split_and!; [done|lia|by unfold frame; rewrite <- app_assoc|done]).
Qed.

Lemma ReadFull_app n a b : length a = n -> ReadFull n (a ++ b) = Some (a, b).
Proof.
  intros <-. unfold ReadFull. rewrite length_app.
  destruct (Nat.leb_spec (length a) (length a + length b)); [|lia].
  by rewrite take_app_length, drop_app_length.
Qed.

Lemma ReadMsg_frame env data rest :
  marshal env = Some data -> Z.of_nat (length data) <= MaxMessageSize ->
  ReadMsg (frame data ++ rest) = Ok (env, rest).
Proof.
  intros Hm Hle. unfold ReadMsg, frame. rewrite <- app_assoc.
  rewrite ReadFull_app by apply BigEndian.length_put. cbn [of_option rbind].
  rewrite BigEndian.Uint32_PutUint32 by (unfold in_u, MaxMessageSize in *; lia).
  destruct (Z.ltb_spec MaxMessageSize (Z.of_nat (length data))); [lia|]. cbn [negb].
  rewrite ReadFull_app by lia. cbn [of_option rbind].
  by rewrite (unmarshal_marshal _ _ Hm).
Qed.

(** C12. Framing round trip: whatever [WriteMsg] appends to a stream without error, [ReadMsg]
    reads back as the same envelope, leaving exactly the bytes that follow. *)
Theorem ReadMsg_WriteMsg w env w1 w2 :
  WriteMsg w env = (Ok w1, w2) ->
  exists out, w_out w1 = w_out w ++ out /\
    forall rest, ReadMsg (out ++ rest) = Ok (env, rest).
Proof.
  intros (data & Hm & Hle & Hout & _)%WriteMsg_Ok. exists (frame data). split; [done|].
  intros rest. by apply ReadMsg_frame.
Qed.

(** Framing bounds and errors: on any input whatever, [ReadMsg] fails without reading the
    payload when the announced size exceeds 16 MiB, fails when the stream ends early, and
    otherwise consumes exactly the prefix and the announced number of bytes; [WriteMsg]
    never puts a frame of more than 16 MiB on the wire. *)
Theorem framing_bounds :
  (forall r,
    let size := BigEndian.Uint32 (take 4 r) in
    ReadMsg r =
      if (length r <? 4)%nat then Err ErrReadingPrefix
      else if MaxMessageSize <? size then Err (ErrTooLarge size)
      else if (length r <? 4 + Z.to_nat size)%nat then Err ErrReadingPayload
      else match unmarshal (take (Z.to_nat size) (drop 4 r)) with
           | None => Err ErrUnmarshalling
           | Some env => Ok (env, drop (4 + Z.to_nat size) r)
           end) /\
  (forall w env, exists out,
    w_out (WriteMsg w env).2 = w_out w ++ out /\
    Z.of_nat (length out) <= 4 + MaxMessageSize /\
    (is_ok (WriteMsg w env).1 = false -> (length out = 0 \/ length out = 4)%nat)).
Proof.
  split.
  - intros r size. unfold ReadMsg, ReadFull. fold size.
    destruct (Nat.leb_spec 4 (length r)), (Nat.ltb_spec (length r) 4); try lia; [|done].
    cbn [of_option rbind]. fold size. destruct (MaxMessageSize <? size); [done|]. cbn [negb].
    rewrite length_drop, drop_drop.
    destruct (Nat.leb_spec (Z.to_nat size) (length r - 4)),
      (Nat.ltb_spec (length r) (4 + Z.to_nat size)); try lia; [|done].
    cbn [of_option rbind]. by destruct (unmarshal _).
  - intros w env. unfold WriteMsg, Write, MaxMessageSize.
    assert (forall z, length (BigEndian.PutUint32 z) = 4%nat) as H4
      by (intros; apply BigEndian.length_put).
    assert (exists out : bytes, w_out w = w_out w ++ out /\ Z.of_nat (length out) <= 4 + 16 * 1024 * 1024 /\ length out = 0%nat) as (o & Ho & Hl & Hz)
      by (exists []; by rewrite app_nil_r).
    destruct (marshal env) as [data|]; [|by exists o; auto].
    destruct (Z.ltb_spec (16 * 1024 * 1024) (Z.of_nat (length data))); [by exists o; auto|].
    destruct (w_budget w) as [[|[|n]]|]; cbn [w_out w_budget fst snd is_ok].
    + by exists o; auto.
    + exists (BigEndian.PutUint32 (Z.of_nat (length data))). rewrite H4. split_and!; [done|lia|by right].
    + exists (frame data). unfold frame. rewrite length_app, H4, app_assoc. split_and!; [done|lia|done].
    + exists (frame data). unfold frame. rewrite length_app, H4, app_assoc. split_and!; [done|lia|done].
Qed.
End framing.

Section samples.
Import Toy.

Definition sample_envelope : Envelope :=
  WrapMessage FILE_OFFER [Byte.x01; Byte.x02] (sample_keypair 1) 1700000000000.
Definition sample_writer : writer :=
  match WriteMsg (mkWriter [] None) sample_envelope with (_, w) => w end.

Lemma envelope_signature_contract_witness :
  (forall t p kp now, genuine kp -> VerifyEnvelope (WrapMessage t p kp now) = true) /\
  (forall e, VerifyEnvelope e = true ->
     length (env_PubKey e) = PublicKeySize /\
     ed_verify (env_PubKey e) (signingPayload (env_Type e) (env_Payload e) (env_Timestamp e))
       (env_Signature e) = true) /\
  (forall e1 e2, envelope_ok e1 -> envelope_ok e2 ->
     signingPayload (env_Type e1) (env_Payload e1) (env_Timestamp e1)
     = signingPayload (env_Type e2) (env_Payload e2) (env_Timestamp e2) ->
     signed_fields e1 = signed_fields e2).
Proof. apply envelope_signature_contract; apply _. Defined.

Lemma ReadMsg_WriteMsg_witness :
  exists out, w_out sample_writer = w_out (mkWriter [] None) ++ out /\
    forall rest, ReadMsg (out ++ rest) = Ok (sample_envelope, rest).
Proof.
  apply (ReadMsg_WriteMsg (mkWriter [] None) sample_envelope sample_writer sample_writer).
  vm_compute. reflexivity.
Defined.

Lemma framing_bounds_witness :
  ReadMsg [Byte.xff; Byte.x00; Byte.x00; Byte.x00] = Err (ErrTooLarge 4278190080) /\
  exists out, w_out (WriteMsg (mkWriter [] (Some 1%nat)) sample_envelope).2 = [] ++ out /\
    Z.of_nat (length out) <= 4 + MaxMessageSize.
Proof.
  destruct framing_bounds as [Hread Hwrite]. split.
  - rewrite Hread. vm_compute. reflexivity.
  - destruct (Hwrite (mkWriter [] (Some 1%nat)) sample_envelope) as (out & Ho & Hl & _).
    by exists out.
Defined.
End samples.
