(* ===== verification/Chunker.v ===== *)
(** * internal/filetransfer/chunker.go

    Splitting a file into fixed-size chunks with SHA-256 hashes. *)

From S2P Require Import Prelude GoStd Sha256.
Import Sha256.
Local Open Scope go_scope.

(** ** The file system the chunker reads *)

Inductive fnode := File (content : bytes) | Dir.
Abbreviation filesystem := (gmap string fnode).

(** src: internal/filetransfer/chunker.go 10-10 DefaultChunkSize *)
Definition DefaultChunkSize : Z := 256 * 1024.

(** src: internal/filetransfer/chunker.go 13-17 Chunk *)
Record Chunk := mkChunk { ch_Index : Z; ch_Data : bytes; ch_Hash : bytes }.

(** src: internal/filetransfer/chunker.go 20-25 Chunker *)
Record Chunker := mkChunker {
  ck_path : string; ck_fileSize : Z; ck_chunkSize : Z; ck_total : Z (* uint32 *) }.

Inductive chunk_err :=
| ErrChunkSizeNotPositive | ErrStat | ErrIsDirectory | ErrFileEmpty
| ErrIndexOutOfRange (i total : Z) | ErrOpen | ErrSeek | ErrReadChunk.

(** src: internal/filetransfer/chunker.go 33-57 NewChunkerWithSize *)
Definition NewChunkerWithSize (fs : filesystem) (path : string) (chunkSize : Z) :
    result chunk_err Chunker :=
  if chunkSize <=? 0 then Err ErrChunkSizeNotPositive
  else match fs !! path with
  | None => Err ErrStat
  | Some Dir => Err ErrIsDirectory
  | Some (File content) =>
      let size := Z.of_nat (length content) in
      if size =? 0 then Err ErrFileEmpty
      else
        let total := u32 (Z.quot (i64 (i64 (size + chunkSize) - 1)) chunkSize) in
        Ok (mkChunker path size chunkSize total)
  end.

(** src: internal/filetransfer/chunker.go 28-30 NewChunker *)
Definition NewChunker (fs : filesystem) (path : string) : result chunk_err Chunker :=
  NewChunkerWithSize fs path DefaultChunkSize.

(** [io.ReadFull(f, buf)] at an offset of a file: what is read, and whether the
    read hit the end of the file before the first byte ([io.EOF]). *)
Definition read_at (content : bytes) (offset n : Z) : option bytes :=
  let l := take (Z.to_nat n) (drop (Z.to_nat offset) content) in
  match l with [] => None | _ => Some l end.

(** The file may have changed since the chunker was made: [fs] is its state now.
    Opening a directory succeeds and the read fails. *)
(** src: internal/filetransfer/chunker.go 60-90 Chunker.ReadChunk *)
Definition ReadChunk (fs : filesystem) (c : Chunker) (index : Z) : result chunk_err Chunk :=
  if ck_total c <=? index then Err (ErrIndexOutOfRange index (ck_total c))
  else match fs !! ck_path c with
  | None => Err ErrOpen
  | Some node =>
      let offset := i64 (index * ck_chunkSize c) in
      if offset <? 0 then Err ErrSeek
      else match node with
      | Dir => Err ErrReadChunk
      | File content =>
          match read_at content offset (ck_chunkSize c) with
          | None => Err ErrReadChunk
          | Some buf => Ok (mkChunk index buf (Sum256 buf))
          end
      end
  end.

(** src: internal/filetransfer/chunker.go 93-95 Chunker.TotalChunks *)
Definition TotalChunks (c : Chunker) : Z := ck_total c.

(** [for i := 0; i < total; i++ { hashes[i] = ReadChunk(i).Hash }] *)
(** src: internal/filetransfer/chunker.go 114-122 Chunker.AllChunkHashes *)
Fixpoint chunk_hashes_from (fs : filesystem) (c : Chunker) (i : Z) (n : nat) :
    result chunk_err (list bytes) :=
  match n with
  | O => Ok []
  | S n =>
      chunk <-? ReadChunk fs c i;
      rest <-? chunk_hashes_from fs c (i + 1) n;
      Ok (ch_Hash chunk :: rest)
  end.

(** src: internal/filetransfer/chunker.go 113-123 Chunker.AllChunkHashes *)
Definition AllChunkHashes (fs : filesystem) (c : Chunker) : result chunk_err (list bytes) :=
  chunk_hashes_from fs c 0 (Z.to_nat (ck_total c)).

(** ** Reference: the [i]-th slice of [k] bytes *)

Definition slice (content : bytes) (k i : nat) : bytes := take k (drop (i * k) content).

Lemma concat_slices_from content k n i :
  (length content <= (i + n) * k)%nat ->
  concat ((slice content k) <$> seq i n) = drop (i * k) content.
Proof.
  revert i. induction n as [|n IH]; intros i Hlen.
  - simpl. symmetry. apply drop_ge. lia.
  - rewrite <- cons_seq, fmap_cons. cbn [concat]. rewrite IH by lia. unfold slice.
    rewrite <- (take_drop k (drop (i * k) content)) at 2. rewrite drop_drop.
    do 2 f_equal. lia.
Qed.

Lemma concat_slices content k n :
  (length content <= n * k)%nat -> concat (slice content k <$> seq 0 n) = content.
Proof. intros H. by rewrite concat_slices_from. Qed.

Lemma length_slice_le content k i : (length (slice content k i) <= k)%nat.
Proof. unfold slice. rewrite length_take. lia. Qed.

(** ** A chunker over an unchanged file

    [chunker_ok fs c content]: [c] was made from a non-empty regular file whose content is
    still [content], whose size is below 2^62 and whose chunk count fits [uint32]. *)
Record chunker_ok (fs : filesystem) (c : Chunker) (content : bytes) : Prop := {
  co_file : fs !! ck_path c = Some (File content);
  co_size : 0 < ck_chunkSize c < 2 ^ 62;
  co_len : 0 < Z.of_nat (length content) < 2 ^ 62;
  co_total : ck_total c =
    (Z.of_nat (length content) + ck_chunkSize c - 1) / ck_chunkSize c;
  co_u32 : in_u 32 (ck_total c)
}.

Lemma NewChunkerWithSize_ok fs path k c content :
  fs !! path = Some (File content) ->
  0 < Z.of_nat (length content) < 2 ^ 62 -> k < 2 ^ 62 ->
  (Z.of_nat (length content) + k - 1) / k < 2 ^ 32 ->
  NewChunkerWithSize fs path k = Ok c ->
  chunker_ok fs c content /\ ck_path c = path /\ ck_chunkSize c = k.
Proof.
  intros Hfs Hlen Hk Htot. unfold NewChunkerWithSize. rewrite Hfs.
  destruct (Z.leb_spec k 0); [done|].
  destruct (Z.eqb_spec (Z.of_nat (length content)) 0); [lia|]. intros [= <-].
  assert (u32 (Z.quot (i64 (i64 (Z.of_nat (length content) + k) - 1)) k)
    = (Z.of_nat (length content) + k - 1) / k) as E.
  { rewrite !(wrap_s_small 64) by (rewrite ?(wrap_s_small 64); unfold in_s; simpl; lia).
    rewrite Z.quot_div_nonneg by lia. apply wrap_u_small.
    split; [apply Z.div_pos; lia|done]. }
  split; [|done]. constructor; simpl; [done|lia|lia|done|].
  rewrite E. split; [apply Z.div_pos; lia|done].
Qed.

Section chunker.
Context (fs : filesystem) (c : Chunker) (content : bytes) (Hok : chunker_ok fs c content).

Let k : nat := Z.to_nat (ck_chunkSize c).
Let n : nat := Z.to_nat (ck_total c).

Lemma chunks_cover : (length content <= n * k)%nat.
Proof.
  destruct Hok as [_ Hk Hl Ht Hu]. unfold n, k.
  pose proof (Z.div_mod (Z.of_nat (length content) + ck_chunkSize c - 1) (ck_chunkSize c) ltac:(lia)).
  pose proof (Z.mod_pos_bound (Z.of_nat (length content) + ck_chunkSize c - 1) (ck_chunkSize c) ltac:(lia)).
  rewrite Ht. set (q := (_ / _)) in *. assert (0 <= q) by (apply Z.div_pos; lia).
  apply Nat2Z.inj_le. rewrite Nat2Z.inj_mul, !Z2Nat.id by lia. nia.
Qed.

(** Every chunk below the total starts inside the file. *)
Lemma chunk_starts_inside i : (i < n)%nat -> (i * k < length content)%nat.
Proof.
  destruct Hok as [_ Hk Hl Ht Hu]. unfold n, k. intros Hi.
  pose proof (Z.div_mod (Z.of_nat (length content) + ck_chunkSize c - 1) (ck_chunkSize c) ltac:(lia)).
  pose proof (Z.mod_pos_bound (Z.of_nat (length content) + ck_chunkSize c - 1) (ck_chunkSize c) ltac:(lia)).
  rewrite Ht in *. set (q := (_ / _)) in *.
  apply Nat2Z.inj_lt. rewrite Nat2Z.inj_mul, Z2Nat.id by lia.
  assert (Z.of_nat i + 1 <= q) by lia. nia.
Qed.

Lemma ReadChunk_slice i :
  (i < n)%nat ->
  ReadChunk fs c (Z.of_nat i) =
    Ok (mkChunk (Z.of_nat i) (slice content k i) (Sum256 (slice content k i))).
Proof.
  intros Hi. pose proof (chunk_starts_inside i Hi) as Hin.
  destruct Hok as [Hf Hk Hl Ht Hu]. unfold ReadChunk. rewrite Hf.
  destruct (Z.leb_spec (ck_total c) (Z.of_nat i)); [unfold n in *; lia|].
  assert (Z.of_nat i * ck_chunkSize c = Z.of_nat (i * k)) as Hoff
    by (unfold k; rewrite Nat2Z.inj_mul, Z2Nat.id; lia).
  rewrite wrap_s_small by (unfold in_s; simpl; lia). rewrite Hoff.
  destruct (Z.ltb_spec (Z.of_nat (i * k)) 0); [lia|].
  unfold read_at. rewrite Nat2Z.id. fold k. change (take k (drop (i * k) content)) with (slice content k i).
  destruct (slice content k i) eqn:E; [|done].
  apply (f_equal length) in E. unfold slice in E. rewrite length_take, length_drop in E.
  simpl in E. unfold k in *. lia.
Qed.

Lemma ReadChunk_out_of_range i : Z.of_nat n <= i -> ReadChunk fs c i = Err (ErrIndexOutOfRange i (ck_total c)).
Proof.
  intros Hi. unfold ReadChunk. destruct (Z.leb_spec (ck_total c) i); [done|]. unfold n in *. lia.
Qed.

Lemma chunk_hashes_from_spec i m :
  (i + m <= n)%nat ->
  chunk_hashes_from fs c (Z.of_nat i) m = Ok ((fun j => Sum256 (slice content k j)) <$> seq i m).
Proof.
  revert i. induction m as [|m IH]; intros i Hi; [done|]. cbn [chunk_hashes_from].
  rewrite ReadChunk_slice by lia. cbn [rbind ch_Hash].
  replace (Z.of_nat i + 1) with (Z.of_nat (S i)) by lia. rewrite IH by lia. done.
Qed.

Lemma AllChunkHashes_spec :
  AllChunkHashes fs c = Ok ((fun j => Sum256 (slice content k j)) <$> seq 0 n).
Proof. unfold AllChunkHashes. apply (chunk_hashes_from_spec 0). done. Qed.

Lemma chunker_total_pos : (0 < n)%nat.
Proof.
  pose proof chunks_cover. destruct Hok as [_ _ Hl _ _].
  destruct n; [simpl in *; lia|lia].
Qed.
End chunker.

(** Chunking loses nothing: for every non-empty file whose chunk count fits [uint32],
    [ReadChunk] succeeds exactly on the indices below [TotalChunks], each chunk holds between
    one and [chunkSize] bytes, the chunks concatenate to the file, and [AllChunkHashes] is the
    list of their SHA-256 hashes. *)
Theorem chunker_contract fs path k c content :
  fs !! path = Some (File content) ->
  0 < Z.of_nat (length content) < 2 ^ 62 -> k < 2 ^ 62 ->
  (Z.of_nat (length content) + k - 1) / k < 2 ^ 32 ->
  NewChunkerWithSize fs path k = Ok c ->
  exists chunks : list bytes,
    Z.of_nat (length chunks) = TotalChunks c /\
    concat chunks = content /\
    Forall (fun d => 0 < Z.of_nat (length d) <= k) chunks /\
    AllChunkHashes fs c = Ok (Sum256 <$> chunks) /\
    forall i, 0 <= i ->
      ReadChunk fs c i = match chunks !! Z.to_nat i with
                         | Some d => Ok (mkChunk i d (Sum256 d))
                         | None => Err (ErrIndexOutOfRange i (TotalChunks c))
                         end.
Proof.
  intros Hfs Hlen Hk Htot Hnew.
  destruct (NewChunkerWithSize_ok _ _ _ _ _ Hfs Hlen Hk Htot Hnew) as (Hok & _ & Hck).
  pose proof (co_u32 _ _ _ Hok) as [Hu _]. pose proof (co_size _ _ _ Hok).
  set (kn := Z.to_nat (ck_chunkSize c)). set (n := Z.to_nat (ck_total c)).
  exists (slice content kn <$> seq 0 n). split_and!.
  - rewrite length_fmap, length_seq. unfold n, TotalChunks. lia.
  - apply concat_slices, (chunks_cover fs c content Hok).
  - apply Forall_fmap, Forall_seq. intros j Hj. simpl.
    pose proof (chunk_starts_inside fs c content Hok j ltac:(lia)) as Hin. fold kn in Hin.
    unfold slice. rewrite length_take, length_drop. unfold kn in *. lia.
  - rewrite (AllChunkHashes_spec fs c content Hok). by rewrite <- list_fmap_compose.
  - intros i Hi. destruct (decide (Z.to_nat i < n)%nat) as [Hlt|Hge].
    + pose proof (ReadChunk_slice fs c content Hok _ Hlt) as E.
      rewrite Z2Nat.id in E by done. rewrite E.
      rewrite list_lookup_fmap, lookup_seq_lt by done. simpl. done.
    + rewrite (ReadChunk_out_of_range fs c i) by lia.
      rewrite lookup_ge_None_2; [done|]. rewrite length_fmap, length_seq. lia.
Qed.

(** ** A concrete file of five bytes in chunks of two *)
Definition sample_content : bytes := z2b <$> [10; 20; 30; 40; 50].
Definition sample_fs : filesystem := {[ "f.bin"%string := File sample_content ]}.
Definition sample_chunker : Chunker :=
  match NewChunkerWithSize sample_fs "f.bin" 2 with Ok c => c | Err _ => mkChunker "" 0 0 0 end.

Lemma sample_chunker_ok : chunker_ok sample_fs sample_chunker sample_content.
Proof.
  apply (NewChunkerWithSize_ok sample_fs "f.bin" 2); [reflexivity|split; reflexivity|reflexivity..].
Qed.

Lemma chunker_contract_witness :
  exists chunks : list bytes,
    Z.of_nat (length chunks) = TotalChunks sample_chunker /\
    concat chunks = sample_content /\
    Forall (fun d => 0 < Z.of_nat (length d) <= 2) chunks /\
    AllChunkHashes sample_fs sample_chunker = Ok (Sum256 <$> chunks) /\
    forall i, 0 <= i ->
      ReadChunk sample_fs sample_chunker i = match chunks !! Z.to_nat i with
                         | Some d => Ok (mkChunk i d (Sum256 d))
                         | None => Err (ErrIndexOutOfRange i (TotalChunks sample_chunker))
                         end.
Proof.
  apply (chunker_contract sample_fs "f.bin" 2); [reflexivity|split; reflexivity|reflexivity..].
Defined.
