(* ===== verification/Services.v ===== *)
(** * internal/services

    The registry of the services the daemon hosts.  The keystore, the Tor
    engine and discovery are used through interfaces: [Keystore.v] and [Dht.v] give
    the instances of the keystore and of discovery. *)

From S2P Require Import Prelude GoStd Sha256 Crypto Protocol Instances Identity.

(** ** service.go *)

(** src: internal/services/service.go 13-19 ACL *)
Inductive ACL := ACLPublic | ACLContacts | ACLAllowlist | ACLOther (n : Z).

(** src: internal/services/service.go 22-33 ACL.String *)
Definition ACL_String (a : ACL) : string :=
  match a with
  | ACLPublic => "public"
  | ACLContacts => "contacts"
  | ACLAllowlist => "allowlist"
  | ACLOther _ => "unknown"
  end.

(** src: internal/services/service.go 38-42 Manifest *)
Record Manifest := mkManifest { m_Description : string; m_ACL : ACL; m_Allowlist : list string }.

(** A handler set: the roles the opaque value implements. *)
(** src: internal/services/service.go 55-78 ConnectionHandler, ChatHandler, FileHandler *)
Record HandlerSet := mkHandlers { h_chat : bool; h_file : bool; h_conn : bool }.

(** [Handlers] is [None] when the value is nil. *)
(** src: internal/services/service.go 82-89 Service *)
Record Service := mkService {
  s_Name : string;
  s_Address : string;
  s_OnionAddr : string;
  s_Identity : Keypair;
  s_Manifest : Manifest;
  s_Handlers : option HandlerSet
}.

(** src: internal/services/service.go 92-98 Service.AsChat *)
Definition AsChat (s : option Service) : bool :=
  match s with Some s => match s_Handlers s with Some h => h_chat h | None => false end | None => false end.
(** src: internal/services/service.go 101-107 Service.AsFile *)
Definition AsFile (s : option Service) : bool :=
  match s with Some s => match s_Handlers s with Some h => h_file h | None => false end | None => false end.
(** src: internal/services/service.go 111-117 Service.AsConnection *)
Definition AsConnection (s : option Service) : bool :=
  match s with Some s => match s_Handlers s with Some h => h_conn h | None => false end | None => false end.

(** ** The interfaces the registry depends on *)

(** [OnionEngine]: [running e n] is the address the onion [n] currently has. *)
(** src: internal/services/service.go 122-125 OnionEngine *)
Class OnionEngine (E : Type) := {
  AddOnion : E -> string -> option string * E;      (* None: an error *)
  RemoveOnion : E -> string -> bool * E;            (* false: an error *)
  running : E -> string -> option string
}.
Class OnionEngineOk (E : Type) `{OnionEngine E} : Prop := {
  AddOnion_ok e n a e' : AddOnion e n = (Some a, e') ->
    running e n = None /\ (forall m, running e m <> Some a) /\
    forall m, running e' m = if decide (m = n) then Some a else running e m;
  AddOnion_err e n e' : AddOnion e n = (None, e') -> forall m, running e' m = running e m;
  RemoveOnion_spec e n b e' : RemoveOnion e n = (b, e') ->
    forall m, running e' m = if decide (m = n) then None else running e m
}.

(** [*identity.Keystore], as far as [Register] uses it. *)
Class KeystoreI (K : Type) := {
  ks_GetOrGenerate : K -> string -> option Keypair * K;  (* None: an error *)
  ks_stored : K -> string -> option Keypair
}.
Class KeystoreIOk (K : Type) `{KeystoreI K} : Prop := {
  ks_get_ok k n kp k' : ks_GetOrGenerate k n = (Some kp, k') ->
    ks_stored k' n = Some kp /\
    forall m kp', ks_stored k m = Some kp' -> ks_stored k' m = Some kp';
  ks_get_err k n k' m kp : ks_GetOrGenerate k n = (None, k') ->
    ks_stored k m = Some kp -> ks_stored k' m = Some kp;
  ks_get_stored k n kp : ks_stored k n = Some kp -> (ks_GetOrGenerate k n).1 = Some kp
}.

(** [Discovery]: [advertised d a] is the onion address [a] is advertised under. *)
(** src: internal/services/registry.go 28-31 Discovery *)
Class DiscoveryI (D : Type) := {
  AddLocalIdentity : D -> string -> string -> bool * D;  (* false: an error *)
  RemoveLocalIdentity : D -> string -> D;
  advertised : D -> string -> option string
}.
Class DiscoveryIOk (D : Type) `{DiscoveryI D} (disc_ok : D -> Prop) : Prop := {
  AddLocalIdentity_ok d a o : disc_ok d -> disc_ok (AddLocalIdentity d a o).2;
  RemoveLocalIdentity_ok d a : disc_ok d -> disc_ok (RemoveLocalIdentity d a);
  AddLocalIdentity_err d a o d' : AddLocalIdentity d a o = (false, d') -> d' = d;
  RemoveLocalIdentity_spec d a a' : disc_ok d ->
    advertised (RemoveLocalIdentity d a) a' = if decide (a' = a) then None else advertised d a';
  AddLocalIdentity_frame d a o d' a' : AddLocalIdentity d a o = (true, d') ->
    a' <> a -> advertised d' a' = advertised d a'
}.

(** ** registry.go *)

Inductive registry_err :=
| ErrAlreadyRegistered | ErrNotRegistered
| ErrLoadingIdentity | ErrPublishingOnion | ErrRollbackAfterRace
| ErrAdvertising (rollback_failed : bool) | ErrOnRegisterHook (rollback_failed : bool)
| ErrRemovingOnion.

Section registry.
Context {K E D H : Type} `{KeystoreI K, OnionEngine E, DiscoveryI D} `{Ripemd160, Base58}.

(** The registry with the components it drives: the keystore, the Tor engine, the
    discovery manager ([None]: not wired) and the state [w_host] the daemon's hooks
    act on; a hook may also look at the engine. *)
(** src: internal/services/registry.go 37-46 Registry *)
Record Registry := mkRegistry {
  w_ks : K;
  w_te : E;
  w_disc : option D;
  w_host : H;
  byName : gmap string Service;
  byOnion : gmap string Service;
  onRegister : option (Service -> E -> H -> bool * H);   (* false: the hook returned an error *)
  onUnregister : option (Service -> H -> H)
}.

Definition set_maps (r : Registry) (bn bo : gmap string Service) : Registry :=
  mkRegistry (w_ks r) (w_te r) (w_disc r) (w_host r) bn bo (onRegister r) (onUnregister r).
Definition set_ks (r : Registry) k := mkRegistry k (w_te r) (w_disc r) (w_host r)
  (byName r) (byOnion r) (onRegister r) (onUnregister r).
Definition set_te (r : Registry) e := mkRegistry (w_ks r) e (w_disc r) (w_host r)
  (byName r) (byOnion r) (onRegister r) (onUnregister r).
Definition set_disc (r : Registry) d := mkRegistry (w_ks r) (w_te r) d (w_host r)
  (byName r) (byOnion r) (onRegister r) (onUnregister r).
Definition set_host (r : Registry) h := mkRegistry (w_ks r) (w_te r) (w_disc r) h
  (byName r) (byOnion r) (onRegister r) (onUnregister r).

(** src: internal/services/registry.go 51-58 New *)
Definition New (ks : K) (te : E) (h : H) : Registry := mkRegistry ks te None h ∅ ∅ None None.

(** Undo of the map insertions: [delete(r.byName, name); delete(r.byOnion, onion)]. *)
(** src: internal/services/registry.go 111-114 Registry.Register *)
Definition drop_service (r : Registry) (name onion : string) : Registry :=
  set_maps r (delete name (byName r)) (delete onion (byOnion r)).

(** The [onRegister] hook and its rollback, the last stage of [Register]. *)
(** src: internal/services/registry.go 122-141 Registry.Register *)
Definition run_onRegister (r : Registry) (svc : Service) : result registry_err Service * Registry :=
  match onRegister r with
  | None => (Ok svc, r)
  | Some hook =>
      let '(ok, h) := hook svc (w_te r) (w_host r) in
      let r := set_host r h in
      if ok then (Ok svc, r)
      else
        let r := drop_service r (s_Name svc) (s_OnionAddr svc) in
        let r := set_disc r ((fun d => RemoveLocalIdentity d (s_Address svc)) <$> w_disc r) in
        let '(rem, te) := RemoveOnion (w_te r) (s_Name svc) in
        (Err (ErrOnRegisterHook (negb rem)), set_te r te)
  end.

(** The advertisement and its rollback. *)
(** src: internal/services/registry.go 106-120 Registry.Register *)
Definition advertise (r : Registry) (svc : Service) : result registry_err Service * Registry :=
  match w_disc r with
  | None => run_onRegister r svc
  | Some d =>
      let '(ok, d') := AddLocalIdentity d (s_Address svc) (s_OnionAddr svc) in
      let r := set_disc r (Some d') in
      if ok then run_onRegister r svc
      else
        let r := drop_service r (s_Name svc) (s_OnionAddr svc) in
        let '(rem, te) := RemoveOnion (w_te r) (s_Name svc) in
        (Err (ErrAdvertising (negb rem)), set_te r te)
  end.

(** [other] is what concurrent calls do to the registry while its mutex is released
    for the keystore and Tor work: between the first check and the insertion. *)
(** src: internal/services/registry.go 69-142 Registry.Register *)
Definition Register (other : Registry -> Registry) (r : Registry) (name : string)
    (manifest : Manifest) (handlers : option HandlerSet) : result registry_err Service * Registry :=
  match byName r !! name with
  | Some _ => (Err ErrAlreadyRegistered, r)
  | None =>
      let '(kpo, ks) := ks_GetOrGenerate (w_ks r) name in
      let r := set_ks r ks in
      match kpo with
      | None => (Err ErrLoadingIdentity, r)
      | Some kp =>
          let '(oa, te) := AddOnion (w_te r) name in
          let r := set_te r te in
          match oa with
          | None => (Err ErrPublishingOnion, r)
          | Some onionAddr =>
              let svc := mkService name (DeriveAddress (PublicKey kp)) onionAddr kp
                           manifest handlers in
              let r := other r in
              match byName r !! name with
              | Some _ =>
                  let '(rem, te) := RemoveOnion (w_te r) name in
                  (Err (if rem then ErrAlreadyRegistered else ErrRollbackAfterRace), set_te r te)
              | None =>
                  let r := set_maps r (<[name := svc]> (byName r)) (<[onionAddr := svc]> (byOnion r)) in
                  advertise r svc
              end
          end
      end
  end.

(** src: internal/services/registry.go 147-172 Registry.Unregister *)
Definition Unregister (r : Registry) (name : string) : result registry_err unit * Registry :=
  match byName r !! name with
  | None => (Err ErrNotRegistered, r)
  | Some svc =>
      let r := drop_service r name (s_OnionAddr svc) in
      let r := match onUnregister r with
               | Some hook => set_host r (hook svc (w_host r))
               | None => r end in
      let r := set_disc r ((fun d => RemoveLocalIdentity d (s_Address svc)) <$> w_disc r) in
      let '(rem, te) := RemoveOnion (w_te r) name in
      ((if rem then Ok tt else Err ErrRemovingOnion), set_te r te)
  end.

(** The registered services, in some iteration order of the map. *)
Definition existing (r : Registry) : list Service := (map_to_list (byName r)).*2.

(** Replays the hook over the existing services, ignoring its errors. *)
(** src: internal/services/registry.go 184-204 Registry.SetOnRegister *)
Definition SetOnRegister (r : Registry) (cb : option (Service -> E -> H -> bool * H)) : Registry :=
  let r' := mkRegistry (w_ks r) (w_te r) (w_disc r) (w_host r) (byName r) (byOnion r) cb (onUnregister r) in
  match cb with
  | None => r'
  | Some f => set_host r' (fold_left (fun h svc => (f svc (w_te r) h).2) (existing r) (w_host r))
  end.

(** src: internal/services/registry.go 210-214 Registry.SetOnUnregister *)
Definition SetOnUnregister (r : Registry) (cb : option (Service -> H -> H)) : Registry :=
  mkRegistry (w_ks r) (w_te r) (w_disc r) (w_host r) (byName r) (byOnion r) (onRegister r) cb.

(** src: internal/services/registry.go 221-239 Registry.SetDiscovery *)
Definition SetDiscovery (r : Registry) (d : option D) : Registry :=
  match d with
  | None => set_disc r None
  | Some d => set_disc r (Some (fold_left
      (fun d svc => (AddLocalIdentity d (s_Address svc) (s_OnionAddr svc)).2) (existing r) d))
  end.

(** src: internal/services/registry.go 243-248 Registry.Get *)
Definition Get (r : Registry) (name : string) : option Service := byName r !! name.

(** src: internal/services/registry.go 253-258 Registry.LookupByOnion *)
Definition LookupByOnion (r : Registry) (onionAddr : string) : option Service := byOnion r !! onionAddr.

(** src: internal/services/registry.go 261-272 Registry.List *)
Definition List_ (r : Registry) : list Service :=
  sort_slice (fun a b => String.ltb (s_Name a) (s_Name b)) (existing r).

(** ** The registry invariant

    The two maps describe the same services, and every registered service is a
    running onion of the engine at its recorded address. *)
Record registry_ok (r : Registry) : Prop := {
  ro_name name svc : byName r !! name = Some svc ->
    s_Name svc = name /\ byOnion r !! s_OnionAddr svc = Some svc /\
    running (w_te r) name = Some (s_OnionAddr svc);
  ro_onion onion svc : byOnion r !! onion = Some svc ->
    s_OnionAddr svc = onion /\ byName r !! s_Name svc = Some svc;
  ro_addr svc name : byName r !! name = Some svc ->
    s_Address svc = DeriveAddress (PublicKey (s_Identity svc))
}.

(** What a failed [Register] must leave as it was. *)
Definition same_services (r r' : Registry) : Prop :=
  byName r' = byName r /\ byOnion r' = byOnion r /\
  forall n, running (w_te r') n = running (w_te r) n.

Context `{!OnionEngineOk E}.

Lemma registry_ok_maps r r' :
  registry_ok r -> byName r' = byName r -> byOnion r' = byOnion r ->
  (forall n svc, byName r !! n = Some svc -> running (w_te r') n = running (w_te r) n) ->
  registry_ok r'.
Proof.
  intros [Hn Ho Ha] E1 E2 E3. constructor; rewrite ?E1, ?E2; [|done|done].
  intros name svc Hs. rewrite (E3 _ _ Hs). by apply Hn.
Qed.

(** Inserting a service whose onion was just published. *)
Lemma registry_ok_insert r svc :
  registry_ok r -> byName r !! s_Name svc = None ->
  (forall n s, byName r !! n = Some s -> s_OnionAddr s <> s_OnionAddr svc) ->
  running (w_te r) (s_Name svc) = Some (s_OnionAddr svc) ->
  s_Address svc = DeriveAddress (PublicKey (s_Identity svc)) ->
  registry_ok (set_maps r (<[s_Name svc := svc]> (byName r)) (<[s_OnionAddr svc := svc]> (byOnion r))).
Proof.
  intros [Hn Ho Ha] Hfresh Hnew Hrun Haddr. constructor; simpl.
  - intros name s. rewrite lookup_insert_Some. intros [[<- <-]|[Hne Hs]].
    + by rewrite lookup_insert_eq.
    + destruct (Hn _ _ Hs) as (Hname & Hon & Hr). split_and!; [done| |done].
      rewrite lookup_insert_ne; [done|]. intros Heq. by eapply Hnew.
  - intros onion s. rewrite lookup_insert_Some. intros [[<- <-]|[Hne Hs]].
    + by rewrite lookup_insert_eq.
    + destruct (Ho _ _ Hs) as [? Hs']. split; [done|].
      rewrite lookup_insert_ne; [done|]. congruence.
  - intros s name. rewrite lookup_insert_Some. intros [[<- <-]|[Hne Hs]]; [done|by eapply Ha].
Qed.

(** Dropping a service whose onion is then torn down. *)
Lemma registry_ok_drop r name svc b te :
  registry_ok r -> byName r !! name = Some svc ->
  RemoveOnion (w_te r) name = (b, te) ->
  registry_ok (set_te (drop_service r name (s_OnionAddr svc)) te).
Proof.
  intros [Hn Ho Ha] Hs Hrem. pose proof (RemoveOnion_spec _ _ _ _ Hrem) as Hrun.
  destruct (Hn _ _ Hs) as (Hname & Hon & _). constructor; simpl.
  - intros n s [Hne Hs']%lookup_delete_Some. destruct (Hn _ _ Hs') as (? & Hon' & Hr).
    rewrite lookup_delete_Some, Hrun, decide_False by done. split_and!; [done| |done|done].
    intros Heq. rewrite Heq in Hon. congruence.
  - intros o s [Hne Hs']%lookup_delete_Some. destruct (Ho _ _ Hs') as [? Hs2].
    rewrite lookup_delete_Some. split_and!; [done| |done]. intros Heq. rewrite Heq in *. congruence.
  - intros s n [Hne Hs']%lookup_delete_Some. by eapply Ha.
Qed.

(** Dropping the service that was just inserted restores the maps. *)
Lemma drop_inserted r svc :
  byName r !! s_Name svc = None -> byOnion r !! s_OnionAddr svc = None ->
  byName (drop_service (set_maps r (<[s_Name svc := svc]> (byName r))
    (<[s_OnionAddr svc := svc]> (byOnion r))) (s_Name svc) (s_OnionAddr svc)) = byName r /\
  byOnion (drop_service (set_maps r (<[s_Name svc := svc]> (byName r))
    (<[s_OnionAddr svc := svc]> (byOnion r))) (s_Name svc) (s_OnionAddr svc)) = byOnion r.
Proof. intros. simpl. by rewrite !delete_insert_id. Qed.

(** [advertise] either keeps the inserted service or undoes everything. *)
Lemma advertise_cases r svc :
  (exists r', advertise r svc = (Ok svc, r') /\ byName r' = byName r /\ byOnion r' = byOnion r /\
     w_te r' = w_te r) \/
  (exists e r' b te, advertise r svc = (Err e, set_te r' te) /\
     byName r' = delete (s_Name svc) (byName r) /\ byOnion r' = delete (s_OnionAddr svc) (byOnion r) /\
     w_te r' = w_te r /\ RemoveOnion (w_te r) (s_Name svc) = (b, te)).
Proof.
  assert (forall r, (exists r', run_onRegister r svc = (Ok svc, r') /\ byName r' = byName r /\
      byOnion r' = byOnion r /\ w_te r' = w_te r) \/
    (exists e r' b te, run_onRegister r svc = (Err e, set_te r' te) /\
      byName r' = delete (s_Name svc) (byName r) /\ byOnion r' = delete (s_OnionAddr svc) (byOnion r) /\
      w_te r' = w_te r /\ RemoveOnion (w_te r) (s_Name svc) = (b, te))) as Hrun.
  { intros r0. unfold run_onRegister. destruct (onRegister r0) as [hook|]; [|left; eauto].
    destruct (hook svc (w_te r0) (w_host r0)) as [[] h]; [left; eauto 10|right]. simpl.
    destruct (RemoveOnion (w_te r0) (s_Name svc)) as [b te] eqn:Hr.
    do 4 eexists. split_and!; try done. }
  unfold advertise. destruct (w_disc r) as [d|]; [|apply Hrun].
  destruct (AddLocalIdentity d _ _) as [[] d'].
  - destruct (Hrun (set_disc r (Some d'))) as [(r' & ?)|(e & r' & b & te & ?)]; [left|right]; eauto 10.
  - right. simpl. destruct (RemoveOnion (w_te r) (s_Name svc)) as [b te] eqn:Hr.
    do 4 eexists. split_and!; try done.
Qed.

Lemma Register_sequential_Ok r name manifest handlers svc r' :
  registry_ok r -> Register id r name manifest handlers = (Ok svc, r') ->
  registry_ok r' /\ Get r name = None /\ Get r' name = Some svc /\
  LookupByOnion r' (s_OnionAddr svc) = Some svc /\
  (s_Manifest svc = manifest /\ s_Handlers svc = handlers) /\
  (forall n, n <> name -> Get r' n = Get r n) /\
  exists ks, ks_GetOrGenerate (w_ks r) name = (Some (s_Identity svc), ks).
Proof.
  intros Hok. unfold Register, Get. destruct (byName r !! name) eqn:Hnone; [done|].
  destruct (ks_GetOrGenerate _ _) as [[kp|] ks]; [|done].
  destruct (AddOnion _ _) as [[a|] te] eqn:Hadd; [|done]. simpl in *. rewrite Hnone.
  apply AddOnion_ok in Hadd as (Hnr & Hfresh & Hrun).
  set (s := mkService _ _ _ _ _ _). set (r1 := set_te (set_ks r ks) te).
  assert (registry_ok r1) as Hr1.
  { apply (registry_ok_maps r); [done..|]. intros n s' Hs'. simpl.
    rewrite Hrun, decide_False; [done|congruence]. }
  assert (registry_ok (set_maps r1 (<[s_Name s := s]> (byName r1)) (<[s_OnionAddr s := s]> (byOnion r1)))) as Hr2.
  { apply registry_ok_insert; [done|done| |simpl; by rewrite Hrun, decide_True|done].
    intros n s' Hs' Heq. destruct (ro_name _ Hok _ _ Hs') as (_ & _ & Hr).
    rewrite Heq in Hr. by eapply Hfresh. }
  destruct (advertise_cases (set_maps r1 (<[s_Name s := s]> (byName r1))
    (<[s_OnionAddr s := s]> (byOnion r1))) s) as [(r2 & Ha & E1 & E2 & E3)|(e & r2 & b & te2 & Ha & _)];
    simpl in *; rewrite Ha; [|done].
  intros [= <- <-]. unfold LookupByOnion. rewrite E1, E2. split_and!; try done.
  - apply (registry_ok_maps _ _ Hr2); [done..|]. intros. by rewrite E3.
  - apply lookup_insert_eq.
  - apply lookup_insert_eq.
  - intros n Hn. by apply lookup_insert_ne.
  - by exists ks.
Qed.

Lemma Register_sequential_Err r name manifest handlers e r' :
  registry_ok r -> Register id r name manifest handlers = (Err e, r') -> same_services r r'.
Proof.
  intros Hok. unfold Register. destruct (byName r !! name) eqn:Hnone; [by intros [= <- <-]|].
  destruct (ks_GetOrGenerate _ _) as [[kp|] ks]; [|by intros [= <- <-]].
  destruct (AddOnion _ _) as [[a|] te] eqn:Hadd; simpl in *.
  2: { intros [= <- <-]. split_and!; [done..|]. intros n. simpl. by eapply AddOnion_err. }
  rewrite Hnone. apply AddOnion_ok in Hadd as (Hnr & Hfresh & Hrun).
  set (s := mkService _ _ _ _ _ _). set (r1 := set_te (set_ks r ks) te).
  destruct (advertise_cases (set_maps r1 (<[s_Name s := s]> (byName r1))
    (<[s_OnionAddr s := s]> (byOnion r1))) s)
    as [(r2 & Ha & _)|(e2 & r2 & b & te2 & Ha & E1 & E2 & E3 & Hrem)]; simpl in *; rewrite Ha; [done|].
  intros [= <- <-]. unfold same_services. simpl. rewrite E1, E2. split_and!.
  - by rewrite delete_insert_id.
  - rewrite delete_insert_id; [done|]. destruct (byOnion r !! a) as [s'|] eqn:Ho; [|done].
    destruct (ro_onion _ Hok _ _ Ho) as [Ha' Hs']. destruct (ro_name _ Hok _ _ Hs') as (_ & _ & Hr).
    rewrite Ha' in Hr. by apply Hfresh in Hr.
  - intros n. rewrite (RemoveOnion_spec _ _ _ _ Hrem), Hrun. case_decide; [by subst|done].
Qed.

Lemma Unregister_spec r name e r' :
  registry_ok r -> Unregister r name = (e, r') ->
  registry_ok r' /\
  match byName r !! name with
  | None => e = Err ErrNotRegistered /\ r' = r
  | Some svc => Get r' name = None /\ LookupByOnion r' (s_OnionAddr svc) = None /\
                running (w_te r') name = None /\
                forall n, n <> name -> Get r' n = Get r n
  end.
Proof.
  intros Hok. unfold Unregister. destruct (byName r !! name) as [svc|] eqn:Hs; [|by intros [= <- <-]].
  set (r1 := match onUnregister _ with Some _ => _ | None => _ end).
  assert (byName r1 = delete name (byName r) /\ byOnion r1 = delete (s_OnionAddr svc) (byOnion r) /\
    w_te r1 = w_te r) as (E1 & E2 & E3) by (unfold r1; by destruct (onUnregister _)).
  simpl. rewrite E3. destruct (RemoveOnion (w_te r) name) as [b te] eqn:Hrem. intros [= <- <-].
  split.
  - eapply (registry_ok_maps _ _ (registry_ok_drop r name svc b te Hok Hs Hrem)); simpl; [done..|].
    intros. done.
  - unfold Get, LookupByOnion. simpl. rewrite E1, E2, !lookup_delete_eq.
    split_and!; [done..| |].
    + rewrite (RemoveOnion_spec _ _ _ _ Hrem). by rewrite decide_True.
    + intros n Hn. by apply lookup_delete_ne.
Qed.

Lemma advertise_ks r svc : w_ks (advertise r svc).2 = w_ks r.
Proof.
  assert (forall r, w_ks (run_onRegister r svc).2 = w_ks r) as Hrun.
  { intros r0. unfold run_onRegister. go_cases; done. }
  unfold advertise. destruct (w_disc r) as [d|]; [|apply Hrun].
  destruct (AddLocalIdentity _ _ _) as [[] d']; [by rewrite Hrun|]. simpl.
  by destruct (RemoveOnion _ _).
Qed.

Lemma Register_ks r name m h res r' ks kpo :
  Get r name = None -> Register id r name m h = (res, r') ->
  ks_GetOrGenerate (w_ks r) name = (kpo, ks) -> w_ks r' = ks.
Proof.
  unfold Get, Register. intros Hnone. rewrite Hnone. intros Hreg Hks. rewrite Hks in Hreg.
  destruct kpo as [kp|]; [|by injection Hreg as _ <-].
  destruct (AddOnion _ _) as [[a|] te]; [|by injection Hreg as _ <-].
  simpl in Hreg. rewrite Hnone in Hreg.
  change r' with (res, r').2. by rewrite <- Hreg, advertise_ks.
Qed.

Lemma Unregister_ks r name e r' : Unregister r name = (e, r') -> w_ks r' = w_ks r.
Proof. unfold Unregister. intros. go_cases; done. Qed.

(** What the hooks see: the one of a successful registration succeeded, and nothing else touches
    the host; a failed one called it at most once, and it failed. *)
Lemma run_onRegister_host r svc res r' : run_onRegister r svc = (res, r') ->
  onRegister r' = onRegister r /\ onUnregister r' = onUnregister r /\
  match res with
  | Ok s => s = svc /\ w_te r' = w_te r /\ match onRegister r with
      | None => w_host r' = w_host r
      | Some hook => hook svc (w_te r) (w_host r) = (true, w_host r') end
  | Err _ => exists hook, onRegister r = Some hook /\ hook svc (w_te r) (w_host r) = (false, w_host r')
  end.
Proof.
  unfold run_onRegister. destruct (onRegister r) as [hook|] eqn:Hh; [|by intros [= <- <-]].
  destruct (hook svc (w_te r) (w_host r)) as [[] h] eqn:Hk; [by intros [= <- <-]|].
  cbn. destruct (RemoveOnion _ _). intros [= <- <-]. cbn. split; [done|]. split; [done|]. by exists hook.
Qed.

Lemma advertise_host r svc res r' : advertise r svc = (res, r') ->
  onRegister r' = onRegister r /\ onUnregister r' = onUnregister r /\
  match res with
  | Ok s => s = svc /\ w_te r' = w_te r /\ match onRegister r with
      | None => w_host r' = w_host r
      | Some hook => hook svc (w_te r) (w_host r) = (true, w_host r') end
  | Err _ => w_host r' = w_host r \/
      exists hook, onRegister r = Some hook /\ hook svc (w_te r) (w_host r) = (false, w_host r')
  end.
Proof.
  unfold advertise. destruct (w_disc r) as [d|].
  2: { intros Hr%run_onRegister_host. destruct res; [done|]. destruct Hr as (? & ? & ?). by split_and!; [..|right]. }
  destruct (AddLocalIdentity _ _ _) as [[] d'].
  - intros Hr%run_onRegister_host. destruct res; [done|]. destruct Hr as (? & ? & ?). by split_and!; [..|right].
  - cbn. destruct (RemoveOnion _ _). intros [= <- <-]. cbn. split_and!; try done. by left.
Qed.

Lemma Register_host r name m h res r' : Register id r name m h = (res, r') ->
  onRegister r' = onRegister r /\ onUnregister r' = onUnregister r /\
  match res with
  | Ok svc => match onRegister r with
      | None => w_host r' = w_host r
      | Some hook => exists te, hook svc te (w_host r) = (true, w_host r') /\ w_te r' = te end
  | Err _ => w_host r' = w_host r \/
      exists hook svc te, onRegister r = Some hook /\ hook svc te (w_host r) = (false, w_host r')
  end.
Proof.
  unfold Register. destruct (byName r !! name) eqn:Hn; [intros [= <- <-]; split_and!; try done; by left|].
  destruct (ks_GetOrGenerate _ _) as [[kp|] ks]; [|intros [= <- <-]; split_and!; try done; by left].
  destruct (AddOnion _ _) as [[a|] te]; [|intros [= <- <-]; split_and!; try done; by left].
  simpl. rewrite Hn. intros Ha. pose proof (advertise_host _ _ _ _ Ha) as (Hr & Hu & Hres). cbn in Hr, Hu, Hres.
  split; [done|]. split; [done|]. destruct res as [svc|e].
  - destruct Hres as (-> & Hte & Hh). destruct (onRegister r) as [hook|]; [|done]. by exists te.
  - destruct Hres as [?|(hook & ? & ?)]; [by left|right]. eauto.
Qed.

Lemma Unregister_host r name res r' : Unregister r name = (res, r') ->
  onRegister r' = onRegister r /\ onUnregister r' = onUnregister r /\
  w_host r' = match byName r !! name, onUnregister r with Some svc, Some hook => hook svc (w_host r) | _, _ => w_host r end.
Proof.
  unfold Unregister. destruct (byName r !! name) as [svc|]; [|by intros [= <- <-]].
  destruct (onUnregister r) as [hook|] eqn:Hh; cbn; rewrite ?Hh; cbn; destruct (RemoveOnion _ _); intros [= <- <-]; cbn; by rewrite ?Hh.
Qed.

(** The error of a failed registration tells a duplicate name apart. *)
Lemma Register_err_kind r name m h e r' :
  Register id r name m h = (Err e, r') -> (e = ErrAlreadyRegistered <-> is_Some (Get r name)).
Proof.
  unfold Register, Get. destruct (byName r !! name) as [s|] eqn:Hn.
  { intros [= <- <-]. split; [by eexists|done]. }
  intros Hreg. split; [intros ->|by intros [? ?]]. exfalso.
  destruct (ks_GetOrGenerate _ _) as [[kp|] ks]; [|done].
  destruct (AddOnion _ _) as [[a|] te]; [|done]. simpl in Hreg. rewrite Hn in Hreg.
  unfold advertise, run_onRegister in Hreg. go_cases.
Qed.

(** Registration is all or nothing.  When [Register] succeeds, the service is found by
    name and by onion, its address is the one of its identity, and no other service changed;
    when it fails, at whatever stage (duplicate name, keystore, Tor, discovery, hook), the
    two maps and the set of running onions are what they were.  [Unregister] removes the
    service, its onion and nothing else.  All three keep the two maps and the engine
    consistent. *)
Theorem registry_contract r :
  registry_ok r ->
  (forall name manifest handlers,
     match Register id r name manifest handlers with
     | (Ok svc, r') =>
         registry_ok r' /\ Get r name = None /\ Get r' name = Some svc /\
         LookupByOnion r' (s_OnionAddr svc) = Some svc /\
         (s_Manifest svc = manifest /\ s_Handlers svc = handlers) /\
         s_Address svc = DeriveAddress (PublicKey (s_Identity svc)) /\
         (forall n, n <> name -> Get r' n = Get r n)
     | (Err e, r') => registry_ok r' /\ same_services r r' /\
         (e = ErrAlreadyRegistered <-> is_Some (Get r name))
     end) /\
  (forall name e r', Unregister r name = (e, r') ->
     registry_ok r' /\
     match Get r name with
     | None => e = Err ErrNotRegistered /\ r' = r
     | Some svc => Get r' name = None /\ LookupByOnion r' (s_OnionAddr svc) = None /\
                   running (w_te r') name = None /\ forall n, n <> name -> Get r' n = Get r n
     end).
Proof.
  intros Hok. split; [|intros; by apply Unregister_spec].
  intros name manifest handlers.
  destruct (Register id r name manifest handlers) as [[svc|e] r'] eqn:Hreg.
  - destruct (Register_sequential_Ok _ _ _ _ _ _ Hok Hreg) as (Hok' & Hn & Hg & Hl & Hm & Ho & _).
    destruct Hm. split_and!; try done. by eapply ro_addr.
  - pose proof (Register_sequential_Err _ _ _ _ _ _ Hok Hreg) as Hsame.
    destruct Hsame as (E1 & E2 & E3). split_and!; [|done..|].
    + apply (registry_ok_maps r); [done..|]. intros; apply E3.
    + by apply (Register_err_kind r name manifest handlers e r').
Qed.

Context `{!KeystoreIOk K}.

(** A key that is stored stays. *)
Lemma Register_stored r name m h n kp : ks_stored (w_ks r) n = Some kp ->
  ks_stored (w_ks (Register id r name m h).2) n = Some kp.
Proof.
  intros Hst. destruct (Register id r name m h) as [res r'] eqn:Hr. cbn [snd].
  destruct (Get r name) as [s|] eqn:Hn.
  { unfold Get in Hn. unfold Register in Hr. rewrite Hn in Hr. by injection Hr as _ <-. }
  destruct (ks_GetOrGenerate (w_ks r) name) as [kpo ks] eqn:Hk.
  rewrite (Register_ks r name m h res r' ks kpo Hn Hr Hk). destruct kpo as [kp0|].
  - apply ks_get_ok in Hk as [_ Hk]. by apply Hk.
  - by eapply ks_get_err.
Qed.

(** A name keeps its identity: registering a service, unregistering it and registering
    the name again (as a reconnecting stream does) yields the same ensemble address, because
    the keypair stays in the keystore. *)
Theorem reregister_same_address r name m1 h1 svc1 r1 e r2 m2 h2 svc2 r3 :
  registry_ok r ->
  Register id r name m1 h1 = (Ok svc1, r1) ->
  Unregister r1 name = (e, r2) ->
  Register id r2 name m2 h2 = (Ok svc2, r3) ->
  s_Identity svc2 = s_Identity svc1 /\ s_Address svc2 = s_Address svc1.
Proof.
  intros Hok HR1 HU HR2.
  destruct (Register_sequential_Ok _ _ _ _ _ _ Hok HR1) as (Hok1 & Hn1 & Hg1 & _ & _ & _ & ks1 & Hks1).
  destruct (Unregister_spec _ _ _ _ Hok1 HU) as [Hok2 _].
  destruct (Register_sequential_Ok _ _ _ _ _ _ Hok2 HR2) as (Hok3 & _ & Hg3 & _ & _ & _ & ks2 & Hks2).
  assert (w_ks r1 = ks1) as <- by (by eapply Register_ks).
  assert (w_ks r2 = w_ks r1) as Eks by (by eapply Unregister_ks).
  rewrite Eks in Hks2. apply ks_get_ok in Hks1 as [Hst _].
  apply ks_get_stored in Hst. rewrite Hks2 in Hst. simpl in Hst. injection Hst as Hid.
  split; [done|]. rewrite (ro_addr _ Hok3 _ _ Hg3), (ro_addr _ Hok1 _ _ Hg1). by rewrite Hid.
Qed.
End registry.

(** ** Concrete components: an engine, a keystore and a discovery table that are maps *)
Section samples.
Import Toy.

Definition onion_of (n : string) : string := (n +:+ ".onion")%string.

#[local] Instance sample_engine : OnionEngine (gmap string string) := {
  AddOnion e n :=
    if bool_decide (e !! n = None /\ Forall (fun p => p.2 <> onion_of n) (map_to_list e))
    then (Some (onion_of n), <[n := onion_of n]> e) else (None, e);
  RemoveOnion e n := (bool_decide (is_Some (e !! n)), delete n e);
  running e n := e !! n }.
#[local] Instance sample_engine_ok : OnionEngineOk (gmap string string).
Proof.
  split; unfold AddOnion, RemoveOnion, running; simpl.
  - intros e n a e'. case_bool_decide as Hc; [|done]. intros [= <- <-].
    destruct Hc as [Hn Hall]. split_and!; [done| |].
    + intros m Hm. rewrite Forall_forall in Hall.
      by apply (Hall (m, onion_of n)); [apply elem_of_map_to_list|].
    + intros m. rewrite lookup_insert. by repeat case_decide; simplify_eq.
  - intros e n e'. case_bool_decide; [done|]. by intros [= <-].
  - intros e n b e' [= _ <-] m. rewrite lookup_delete. by repeat case_decide; simplify_eq.
Qed.

#[local] Instance sample_keystore : KeystoreI (gmap string Keypair) := {
  ks_GetOrGenerate k n :=
    match k !! n with
    | Some kp => (Some kp, k)
    | None => let kp := sample_keypair (Z.of_nat (size k)) in (Some kp, <[n := kp]> k)
    end;
  ks_stored k n := k !! n }.
#[local] Instance sample_keystore_ok : KeystoreIOk (gmap string Keypair).
Proof.
  split; unfold ks_GetOrGenerate, ks_stored; simpl.
  - intros k n kp k'. destruct (k !! n) eqn:Hk; intros [= <- <-]; [done|].
    split; [apply lookup_insert_eq|]. intros m kp' Hm. rewrite lookup_insert_ne; [done|congruence].
  - intros k n k' m kp. by destruct (k !! n).
  - intros k n kp ->. done.
Qed.

#[local] Instance sample_disc : DiscoveryI (gmap string string) := {
  AddLocalIdentity d a o := if bool_decide (a = "")%string then (false, d) else (true, <[a := o]> d);
  RemoveLocalIdentity d a := delete a d;
  advertised d a := d !! a }.

Abbreviation sample_registry :=
  (New (D := gmap string string) (H := nat) (∅ : gmap string Keypair) (∅ : gmap string string) O).

Lemma sample_registry_ok : registry_ok sample_registry.
Proof. by constructor. Qed.

Definition sample_manifest : Manifest := mkManifest "echo bot" ACLPublic [].
Definition sample_register (n : string) (r : @Registry (gmap string Keypair) (gmap string string)
    (gmap string string) nat) := Register id r n sample_manifest None.

Lemma registry_contract_witness :
  match sample_register "bot" sample_registry with
  | (Ok svc, r') => Get r' "bot" = Some svc /\ Get r' "other" = None
  | (Err _, _) => False
  end.
Proof.
  destruct (registry_contract sample_registry sample_registry_ok) as [Hreg _].
  specialize (Hreg "bot"%string sample_manifest None). unfold sample_register.
  assert (is_ok (Register id sample_registry "bot" sample_manifest None).1 = true) as Hok by (vm_compute; reflexivity).
  destruct (Register id sample_registry "bot" sample_manifest None) as [[svc|e] r'] eqn:E; [|discriminate Hok].
  destruct Hreg as (_ & _ & Hg & _ & _ & _ & Ho). split; [done|]. by rewrite Ho.
Defined.

Lemma reregister_same_address_witness :
  match sample_register "bot" sample_registry with
  | (Ok svc1, r1) =>
      match sample_register "bot" (Unregister r1 "bot").2 with
      | (Ok svc2, _) => s_Identity svc2 = s_Identity svc1 /\ s_Address svc2 = s_Address svc1
      | (Err _, _) => False
      end
  | (Err _, _) => False
  end.
Proof.
  assert (is_ok (sample_register "bot" sample_registry).1 = true) as Hok1 by (vm_compute; reflexivity).
  assert (is_ok (sample_register "bot" (Unregister (sample_register "bot" sample_registry).2 "bot").2).1 = true) as Hok2
    by (vm_compute; reflexivity).
  destruct (sample_register "bot" sample_registry) as [[svc1|e1] r1] eqn:E1; [|discriminate Hok1]. cbn [snd] in Hok2.
  destruct (sample_register "bot" (Unregister r1 "bot").2) as [[svc2|e2] r3] eqn:E2; [|discriminate Hok2].
  eapply (reregister_same_address sample_registry); [apply sample_registry_ok|exact E1|apply surjective_pairing|exact E2].
Defined.
End samples.
