(* ===== verification/FilePath.v ===== *)
(** * path/filepath on Unix

    [Clean], [Join] and [Base], as the file transfer uses them. *)

From Stdlib Require Import Ascii.
From S2P Require Import Prelude GoStd.

Definition slash : ascii := "/"%char.

(** The components between slashes, empty ones included. *)
Fixpoint split_slash (s : string) : list string :=
  match s with
  | EmptyString => [EmptyString]
  | String a s =>
      if bool_decide (a = slash) then EmptyString :: split_slash s
      else match split_slash s with
           | [] => [String a EmptyString]
           | c :: cs => String a c :: cs
           end
  end.

Fixpoint join_slash (l : list string) : string :=
  match l with
  | [] => EmptyString
  | [c] => c
  | c :: l => (c +:+ String slash (join_slash l))%string
  end.

Definition is_rooted (s : string) : bool :=
  match s with String a _ => bool_decide (a = slash) | EmptyString => false end.

(** One component against the stack of kept components, top first. *)
Definition clean_step (rooted : bool) (stack : list string) (c : string) : list string :=
  if bool_decide (c = "" \/ c = ".")%string then stack
  else if bool_decide (c = "..")%string then
    match stack with
    | [] => if rooted then [] else [c]
    | top :: rest => if bool_decide (top = "..")%string then c :: stack else rest
    end
  else c :: stack.

Definition clean_stack (path : string) : list string :=
  fold_left (clean_step (is_rooted path)) (split_slash path) [].

Definition render (rooted : bool) (stack : list string) : string :=
  match rooted, stack with
  | true, _ => String slash (join_slash (reverse stack))
  | false, [] => "."
  | false, _ => join_slash (reverse stack)
  end.

Definition Clean (path : string) : string := render (is_rooted path) (clean_stack path).

Definition Join (a b : string) : string :=
  if bool_decide (a = EmptyString)
  then if bool_decide (b = EmptyString) then EmptyString else Clean b
  else Clean (a +:+ String slash b).

(** Drop trailing slashes, then keep what follows the last one. *)
Definition Base (path : string) : string :=
  if bool_decide (path = EmptyString) then "."
  else match List.filter (fun c => negb (bool_decide (c = EmptyString))) (split_slash path) with
       | [] => "/"
       | cs => default "/"%string (last cs)
       end.

(** A component that names a file in the directory it is joined to. *)
Definition plain (c : string) : Prop :=
  c <> ""%string /\ c <> "."%string /\ c <> ".."%string /\ split_slash c = [c].

Lemma split_slash_cons s : exists c cs, split_slash s = c :: cs.
Proof.
  destruct s as [|a s]; simpl; [eauto|]. case_bool_decide; [eauto|].
  destruct (split_slash s); eauto.
Qed.

Lemma split_slash_app a b : split_slash (a +:+ String slash b) = split_slash a ++ split_slash b.
Proof.
  induction a as [|x a IH]; simpl; [done|].
  case_bool_decide; rewrite IH; [done|].
  destruct (split_slash_cons a) as (c & cs & ->). done.
Qed.

Lemma is_rooted_app a b : a <> EmptyString -> is_rooted (a +:+ b) = is_rooted a.
Proof. by destruct a. Qed.

Lemma Join_stack a b :
  a <> EmptyString ->
  Join a b = render (is_rooted a) (fold_left (clean_step (is_rooted a)) (split_slash b) (clean_stack a)).
Proof.
  intros Ha. unfold Join. rewrite bool_decide_eq_false_2 by done.
  unfold Clean, clean_stack. rewrite is_rooted_app by done.
  by rewrite split_slash_app, fold_left_app.
Qed.

Lemma clean_step_plain r st c : plain c -> clean_step r st c = c :: st.
Proof.
  intros (H1 & H2 & H3 & _). unfold clean_step.
  rewrite bool_decide_eq_false_2 by tauto. by rewrite bool_decide_eq_false_2.
Qed.

(** Joining a plain name stays in the directory. *)
Lemma Join_plain dir name :
  dir <> EmptyString -> plain name ->
  Join dir name = render (is_rooted dir) (name :: clean_stack dir).
Proof.
  intros Hd Hp. rewrite Join_stack by done. pose proof Hp as (_ & _ & _ & ->).
  simpl. by rewrite clean_step_plain.
Qed.

(** In a rooted path every [..] removes a component or does nothing. *)
Definition no_dotdot (st : list string) : Prop := Forall (fun c => c <> ".."%string) st.

Lemma clean_step_no_dotdot st c : no_dotdot st -> no_dotdot (clean_step true st c).
Proof.
  intros Hst. unfold clean_step. case_bool_decide; [done|].
  case_bool_decide as Hc.
  - destruct Hst as [|top rest Htop Hrest]; [constructor|].
    by rewrite bool_decide_eq_false_2.
  - by constructor.
Qed.

Lemma fold_no_dotdot l st : no_dotdot st -> no_dotdot (fold_left (clean_step true) l st).
Proof.
  revert st. induction l; intros st Hst; simpl; [done|].
  apply IHl. by apply clean_step_no_dotdot.
Qed.

Lemma fold_dotdots n st :
  no_dotdot st -> (length st <= n)%nat ->
  fold_left (clean_step true) (replicate n ".."%string) st = [].
Proof.
  revert st. induction n as [|n IH]; intros st Hst Hn.
  - destruct st; [done|simpl in *; lia].
  - simpl. apply IH.
    + by apply clean_step_no_dotdot.
    + unfold clean_step. rewrite bool_decide_eq_false_2 by (by intros [?|?]).
      rewrite bool_decide_eq_true_2 by done. destruct Hst as [|top rest Htop Hrest]; simpl in *; [lia|].
      rewrite bool_decide_eq_false_2 by done. lia.
Qed.

Lemma fold_plain r l st : Forall plain l -> fold_left (clean_step r) l st = reverse l ++ st.
Proof.
  intros Hl. revert st. induction Hl as [|c l Hc Hl IH]; intros st; [done|].
  simpl. rewrite clean_step_plain, IH by done. by rewrite reverse_cons, <- app_assoc.
Qed.

Lemma split_join l :
  l <> [] -> Forall (fun c => split_slash c = [c]) l -> split_slash (join_slash l) = l.
Proof.
  intros Hne Hl. induction Hl as [|c l Hc Hl IH]; [done|].
  destruct l as [|c2 l]; [done|].
  change (join_slash (c :: c2 :: l)) with (c +:+ String slash (join_slash (c2 :: l)))%string.
  rewrite split_slash_app, Hc, IH by done. done.
Qed.

(** A relative path with enough [..] reaches any absolute path. *)
Lemma Join_escape dir target n :
  is_rooted dir = true -> Forall plain target -> target <> [] ->
  (length (clean_stack dir) <= n)%nat ->
  Join dir (join_slash (replicate n ".."%string ++ target)) = String slash (join_slash target).
Proof.
  intros Hr Ht Hne Hn. rewrite Join_stack by (by destruct dir). rewrite Hr.
  rewrite split_join.
  - rewrite fold_left_app, fold_dotdots, fold_plain by
      (done || (unfold clean_stack; rewrite Hr; apply fold_no_dotdot; constructor)).
    unfold render. by rewrite app_nil_r, reverse_involutive.
  - destruct target; [done|]. by destruct n.
  - apply Forall_app. split; [by apply Forall_replicate|].
    eapply Forall_impl; [done|]. by intros c (_ & _ & _ & ?).
Qed.

(** *** Cleaning twice

    A stack that [Clean] leaves: names, below them the [..] that had nothing to remove. *)

Definition component (c : string) : Prop := c <> ""%string /\ c <> "."%string /\ split_slash c = [c].

Definition normal (r : bool) (st : list string) : Prop :=
  Forall component st /\
  exists names n, st = names ++ replicate n ".."%string /\ Forall (fun c => c <> ".."%string) names /\ (r = true -> n = 0%nat).

Lemma clean_step_normal r st c : split_slash c = [c] -> normal r st -> normal r (clean_step r st c).
Proof.
  intros Hc [Hst (names & n & -> & Hnames & Hn)]. unfold clean_step. case_bool_decide as Hskip.
  { split; [done|]. by exists names, n. }
  assert (component c) as Hcomp by (split_and!; tauto). case_bool_decide as Hdd.
  2: { split; [by constructor|]. exists (c :: names), n. split; [done|]. split; [by constructor|done]. }
  destruct names as [|top rest]; cbn [app].
  - destruct n as [|n]; cbn [replicate].
    + destruct r; [by split; [|exists [], 0%nat]|]. split; [by constructor|]. exists [], 1%nat. by rewrite Hdd.
    + rewrite bool_decide_eq_true_2 by done. split; [by constructor|]. exists [], (S (S n)). rewrite Hdd. split; [done|].
      split; [done|]. intros Hr. by specialize (Hn Hr).
  - apply Forall_cons in Hnames as [Ht Hrest]. rewrite bool_decide_eq_false_2 by done. cbn [app] in Hst.
    apply Forall_cons in Hst as [_ Hst]. split; [exact Hst|]. by exists rest, n.
Qed.

Lemma split_slash_parts s : Forall (fun c => split_slash c = [c]) (split_slash s).
Proof.
  induction s as [|a s IH]; simpl; [by constructor|]. case_bool_decide as Ha; [by constructor|].
  destruct (split_slash_cons s) as (c & cs & Hs). rewrite Hs in *. inversion IH as [|? ? Hc Hcs]; subst.
  constructor; [|done]. simpl. rewrite bool_decide_eq_false_2 by done. by rewrite Hc.
Qed.

Lemma clean_stack_normal path : normal (is_rooted path) (clean_stack path).
Proof.
  unfold clean_stack. generalize (is_rooted path) as r. intros r.
  assert (normal r []) as H0 by (split; [constructor|by exists [], 0%nat]).
  revert H0. generalize (@nil string). induction (split_slash_parts path) as [|c l Hc Hl IH]; intros st Hst; [done|].
  cbn [fold_left]. apply IH. by apply clean_step_normal.
Qed.

Lemma clean_step_name r st c : component c -> c <> ".."%string -> clean_step r st c = c :: st.
Proof. intros (H1 & H2 & H3) Hd. by apply clean_step_plain. Qed.

Lemma fold_normal r st : normal r st -> fold_left (clean_step r) (reverse st) [] = st.
Proof.
  intros [Hst (names & n & -> & Hnames & Hn)]. rewrite reverse_app, fold_left_app, reverse_replicate.
  assert (fold_left (clean_step r) (replicate n ".."%string) [] = replicate n ".."%string) as ->.
  { destruct r; [by rewrite Hn|]. clear Hst. assert (forall k, fold_left (clean_step false) (replicate n ".."%string) (replicate k ".."%string)
      = replicate (n + k) ".."%string) as Hk; [|pose proof (Hk 0%nat) as Hk0; by rewrite Nat.add_0_r in Hk0].
    induction n as [|n IH]; intros k; [done|]. cbn [replicate fold_left].
    replace (clean_step false (replicate k ".."%string) "..") with (replicate (S k) ".."%string) by (by destruct k).
    rewrite IH by done. by rewrite Nat.add_succ_r. }
  apply Forall_app in Hst as [Hst _]. generalize (replicate n ".."%string) as base. clear Hn. intros base.
  induction names as [|c names IH]; [done|]. apply Forall_cons in Hst as [Hc Hst]. apply Forall_cons in Hnames as [Hd Hnames].
  rewrite reverse_cons, fold_left_app. rewrite IH by done. by apply clean_step_name.
Qed.

Lemma is_rooted_component c s : component c -> is_rooted (c +:+ s) = false.
Proof.
  intros (Hne & _ & Hs). destruct c as [|a c]; [done|]. cbn [is_rooted String.append]. apply bool_decide_eq_false. intros ->.
  cbn [split_slash] in Hs. by rewrite bool_decide_eq_true_2 in Hs.
Qed.

(** What [Clean] renders is read back. *)
Lemma clean_stack_render r st : normal r st -> is_rooted (render r st) = r /\ clean_stack (render r st) = st.
Proof.
  intros Hn. pose proof (fold_normal r st Hn) as Hf. destruct Hn as [Hst _].
  assert (Forall (fun c => split_slash c = [c]) (reverse st)) as Hsp.
  { apply Forall_reverse. eapply Forall_impl; [exact Hst|]. by intros c (_ & _ & ?). }
  destruct r; cbn [render].
  - split; [done|]. unfold clean_stack. change (is_rooted (String slash _)) with true.
    change (split_slash (String slash ?x)) with (""%string :: split_slash x). cbn [fold_left].
    destruct st as [|c st]; [done|]. rewrite split_join; [exact Hf| |exact Hsp]. rewrite reverse_cons. by destruct (reverse st).
  - destruct st as [|c st]; [done|].
    assert (is_rooted (join_slash (reverse (c :: st))) = false) as Hr.
    { apply Forall_reverse in Hst. destruct (reverse (c :: st)) as [|x [|y l]]; [done|..]; apply Forall_cons in Hst as [Hx _].
      - destruct x; [done|by apply (is_rooted_component _ "") in Hx].
      - by apply is_rooted_component. }
    split; [exact Hr|]. unfold clean_stack. rewrite Hr. rewrite split_join; [exact Hf| |exact Hsp].
    rewrite reverse_cons. by destruct (reverse st).
Qed.

Lemma Clean_Clean path : Clean (Clean path) = Clean path.
Proof. unfold Clean. destruct (clean_stack_render _ _ (clean_stack_normal path)) as [-> ->]. done. Qed.

Lemma render_nonempty r st : Forall component st -> render r st <> ""%string.
Proof.
  intros Hst. destruct r; [done|]. destruct st as [|c st]; [done|]. cbn [render]. apply Forall_reverse in Hst.
  rewrite reverse_cons in *. destruct (reverse st) as [|x [|y l]]; apply Forall_cons in Hst as [(Hx & _) _]; [done| |]; by destruct x.
Qed.

Lemma Clean_nonempty path : Clean path <> ""%string.
Proof. unfold Clean. apply render_nonempty. by destruct (clean_stack_normal path). Qed.

(** Joining a cleaned path, name by name. *)
Lemma Clean_stack_join dir b c : dir <> ""%string -> plain b -> plain c ->
  Join (Join dir b) c = Clean (dir +:+ String slash (b +:+ String slash c)).
Proof.
  intros Hd Hb Hc. rewrite (Join_plain dir b) by done.
  assert (normal (is_rooted dir) (b :: clean_stack dir)) as Hn.
  { rewrite <- (clean_step_plain (is_rooted dir)) by done. apply clean_step_normal; [by destruct Hb as (_ & _ & _ & ?)|apply clean_stack_normal]. }
  destruct (clean_stack_render _ _ Hn) as [Hr Hs]. rewrite Join_plain; [|apply render_nonempty; by destruct Hn|done].
  rewrite Hr, Hs. unfold Clean, clean_stack. rewrite is_rooted_app by done. rewrite !split_slash_app, !fold_left_app.
  destruct Hb as (Hb1 & Hb2 & Hb3 & Hb4), Hc as (Hc1 & Hc2 & Hc3 & Hc4). rewrite Hb4, Hc4. cbn [fold_left].
  by rewrite !clean_step_plain.
Qed.

Example Join_examples :
  Join "/data/received" "a.txt" = "/data/received/a.txt"%string /\
  Join "/data/received/" "./x//y/../z" = "/data/received/x/z"%string /\
  Join "rel" "../../up" = "../up"%string /\ Clean "" = "."%string /\ Clean "/.." = "/"%string /\
  Base "/a/b.txt" = "b.txt"%string /\ Base "a/b/" = "b"%string /\ Base "///" = "/"%string.
Proof. done. Qed.
