(* ===== verification/Sender.v ===== *)
(** * internal/filetransfer/sender.go

    The sending side of a file transfer: the offer and the sliding-window chunk
    loop. *)

From S2P Require Import Prelude GoStd Sha256 Crypto Protocol Instances Identity Wire Merkle Chunker FilePath Services.
Local Open Scope go_scope.

(** src: internal/filetransfer/sender.go 23-27 WindowSize, MaxRetries *)
Definition WindowSize : Z := 8.
Definition MaxRetries : Z := 3.

(** src: internal/filetransfer/sender.go 29-45 Transfer *)
Record Transfer := mkTransfer {
  x_ID : string; x_Filename : string; x_FileSize : Z; x_ChunkSize : Z; x_Total : Z;
  x_RootHash : bytes; x_PeerAddr : string; x_Direction : string;
  x_acked : Z;        (* uint32 *)
  x_failed : bool;
  x_cancelled : bool  (* cancelFn was called *)
}.

Definition set_acked (x : Transfer) (n : Z) : Transfer :=
  mkTransfer (x_ID x) (x_Filename x) (x_FileSize x) (x_ChunkSize x) (x_Total x) (x_RootHash x)
    (x_PeerAddr x) (x_Direction x) n (x_failed x) (x_cancelled x).
Definition set_failed (x : Transfer) : Transfer :=
  mkTransfer (x_ID x) (x_Filename x) (x_FileSize x) (x_ChunkSize x) (x_Total x) (x_RootHash x)
    (x_PeerAddr x) (x_Direction x) (x_acked x) true (x_cancelled x).
Definition set_cancelled (x : Transfer) : Transfer :=
  mkTransfer (x_ID x) (x_Filename x) (x_FileSize x) (x_ChunkSize x) (x_Total x) (x_RootHash x)
    (x_PeerAddr x) (x_Direction x) (x_acked x) (x_failed x) true.

(** src: internal/filetransfer/sender.go 48-52 Transfer.Acked *)
Definition Acked (x : Transfer) : Z := x_acked x.
(** src: internal/filetransfer/sender.go 55-59 Transfer.Failed *)
Definition Failed (x : Transfer) : bool := x_failed x.

Inductive send_err :=
| ErrNoRegistry | ErrServiceNotRegistered | ErrPeerNotConnected
| ErrChunker (e : chunk_err) | ErrHashes (e : chunk_err) | ErrTree (e : merkle_err)
| ErrOpeningStream | ErrMarshalingOffer | ErrSendingOffer
| ErrReadingResponse | ErrRejectedByPeer | ErrUnexpectedResponse (t : MessageType)
| ErrContext
| ErrReadingChunk (e : chunk_err) | ErrGeneratingProof (e : merkle_err)
| ErrMarshalingChunk | ErrWritingChunk
| ErrSendingComplete | ErrReadingAck | ErrCancelledByPeer
| ErrUnexpectedMessage (t : MessageType) | ErrUnmarshalingAck | ErrRetries (index : Z).

(** [select]-style lookup of the service the sender and receiver dispatch under:
    [None] is a nil lookup. *)
(** internal/filetransfer/sender.go 66-70 ServiceLookup *)
Abbreviation ServiceLookup := (option (string -> option Service)).

(** src: internal/filetransfer/sender.go 75-88 StaticLookup *)
Definition StaticLookup (svc : option Service) : ServiceLookup :=
  Some (fun name =>
    match svc with
    | Some s => if bool_decide (s_Name s = name) then Some s else None
    | None => None
    end).

(** src: internal/filetransfer/sender.go 127-136 Sender.resolveService *)
Definition resolveService (lookup : ServiceLookup) (serviceName : string) : result send_err Service :=
  match lookup with
  | None => Err ErrNoRegistry
  | Some get => of_option ErrServiceNotRegistered (get serviceName)
  end.

(** What a loop iteration decides. *)
Inductive verdict (E A : Type) := Continue | Return (r : result E A).
Arguments Continue {E A}.
Arguments Return {E A} r.

(** The local variables of [sendChunks], the transfer, the envelopes written to the
    stream and the progress callbacks made. *)
(** src: internal/filetransfer/sender.go 284-288 Sender.sendChunks *)
Record send_st := mkSend {
  retries : gmap Z Z;      (* chunk index -> retry count *)
  nextToSend : Z;          (* uint32 *)
  inFlight : Z;            (* uint32 *)
  acked : gset Z;          (* map[uint32]bool, only ever set to true *)
  s_xfer : Transfer;
  s_out : list Envelope;
  s_progress : list (Z * Z)
}.

Definition send_init (x : Transfer) : send_st := mkSend ∅ 0 0 ∅ x [] [].

Section send_chunks.
Context `{Proto FileChunk, Proto FileChunkAck, Proto FileComplete, Ed25519}.

(** The file system (fixed for the duration of the loop), the chunker, the tree, the
    signing keypair, whether a progress callback is set, and the stream: [writes n] is
    [None] when the [n]-th [WriteMsg] fails and otherwise the time its envelope carries. *)
Context (fs : filesystem) (chunker : Chunker) (tree : MerkleTree) (kp : Keypair)
  (hasProgress : bool) (writes : nat -> option Z).

Definition write_env (t : MessageType) (payload : bytes) (st : send_st) : option send_st :=
  match writes (length (s_out st)) with
  | None => None
  | Some now => Some (mkSend (retries st) (nextToSend st) (inFlight st) (acked st) (s_xfer st)
      (s_out st ++ [WrapMessage t payload kp now]) (s_progress st))
  end.

(** src: internal/filetransfer/sender.go 370-400 Sender.sendOneChunk *)
Definition sendOneChunk (st : send_st) (index : Z) : result send_err unit * send_st :=
  match ReadChunk fs chunker index with
  | Err e => (Err (ErrReadingChunk e), st)
  | Ok chunk =>
      match Proof_ tree index with
      | Err e => (Err (ErrGeneratingProof e), st)
      | Ok proof =>
          match marshal (mkFileChunk (x_ID (s_xfer st)) index (ch_Data chunk) (ch_Hash chunk) proof) with
          | None => (Err ErrMarshalingChunk, st)
          | Some payload =>
              match write_env FILE_CHUNK payload st with
              | None => (Err ErrWritingChunk, st)
              | Some st' => (Ok tt, st')
              end
          end
      end
  end.

Definition set_window (st : send_st) (next flight : Z) : send_st :=
  mkSend (retries st) next flight (acked st) (s_xfer st) (s_out st) (s_progress st).

(** [for inFlight < WindowSize && nextToSend < total { ... }]: each round advances
    [nextToSend], so [total - nextToSend] rounds are enough. *)
(** src: internal/filetransfer/sender.go 297-310 Sender.sendChunks *)
Fixpoint fill_window (fuel : nat) (st : send_st) : result send_err unit * send_st :=
  match fuel with
  | O => (Ok tt, st)
  | S fuel =>
      if (inFlight st <? WindowSize) && (nextToSend st <? TotalChunks chunker) then
        if bool_decide (nextToSend st ∈ acked st)
        then fill_window fuel (set_window st (u32 (nextToSend st + 1)) (inFlight st))
        else
          match sendOneChunk st (nextToSend st) with
          | (Err e, st') => (Err e, st')
          | (Ok _, st') =>
              fill_window fuel (set_window st' (u32 (nextToSend st' + 1)) (u32 (inFlight st' + 1)))
          end
      else (Ok tt, st)
  end.

Definition fill_fuel (st : send_st) : nat := Z.to_nat (TotalChunks chunker - nextToSend st).

(** An iteration up to the read of an ACK. *)
(** src: internal/filetransfer/sender.go 290-322 Sender.sendChunks *)
Definition sender_head (ctxDone : bool) (st : send_st) : verdict send_err unit * send_st :=
  if ctxDone then (Return (Err ErrContext), st)
  else
    match fill_window (fill_fuel st) st with
    | (Err e, st) => (Return (Err e), st)
    | (Ok _, st) =>
        if TotalChunks chunker <=? Z.of_nat (size (acked st)) then
          let payload := marshal_or_nil (mkFileComplete (x_ID (s_xfer st))) in
          match write_env FILE_COMPLETE payload st with
          | None => (Return (Err ErrSendingComplete), st)
          | Some st => (Return (Ok tt), st)
          end
        else (Continue, st)
    end.

Definition set_retry (st : send_st) (i n : Z) : send_st :=
  mkSend (<[i := n]> (retries st)) (nextToSend st) (inFlight st) (acked st) (s_xfer st)
    (s_out st) (s_progress st).

(** The rest of the iteration, on the outcome of [ReadMsg] ([None]: an error). *)
(** src: internal/filetransfer/sender.go 324-366 Sender.sendChunks *)
Definition sender_ack (r : option Envelope) (st : send_st) : verdict send_err unit * send_st :=
  match r with
  | None => (Return (Err ErrReadingAck), st)
  | Some ackEnv =>
      if env_Type ackEnv =? FILE_CANCEL then (Return (Err ErrCancelledByPeer), st)
      else if negb (env_Type ackEnv =? FILE_CHUNK_ACK)
      then (Return (Err (ErrUnexpectedMessage (env_Type ackEnv))), st)
      else
        match unmarshal (env_Payload ackEnv) with
        | None => (Return (Err ErrUnmarshalingAck), st)
        | Some chunkAck =>
            let i := ack_Index chunkAck in
            let st := set_window st (nextToSend st) (u32 (inFlight st - 1)) in
            if ack_Valid chunkAck then
              let acked' := {[i]} ∪ acked st in
              let xfer := set_acked (s_xfer st) (u32 (x_acked (s_xfer st) + 1)) in
              let progress := if hasProgress
                then s_progress st ++ [(u32 (Z.of_nat (size acked')), TotalChunks chunker)]
                else s_progress st in
              (Continue, mkSend (retries st) (nextToSend st) (inFlight st) acked' xfer (s_out st) progress)
            else
              let n := default 0 (retries st !! i) + 1 in
              let st := set_retry st i n in
              if MaxRetries <? n then (Return (Err (ErrRetries i)), st)
              else
                match sendOneChunk st i with
                | (Err e, st') => (Return (Err e), st')
                | (Ok _, st') => (Continue, set_window st' (nextToSend st') (u32 (inFlight st' + 1)))
                end
        end
  end.

(** One iteration of the [for {}] loop from the read on, up to the next read. *)
Definition sender_turn (r : option Envelope) (ctxDone : bool) (st : send_st) :=
  match sender_ack r st with
  | (Continue, st') => sender_head ctxDone st'
  | ret => ret
  end.

(** The loop, on the outcomes of its reads and of its context checks; every read has a
    deadline, so a stream that stays silent is a read error. *)
(** src: internal/filetransfer/sender.go 277-368 Sender.sendChunks *)
Fixpoint sender_loop (evs : list (option Envelope * bool)) (st : send_st) :
    result send_err unit * send_st :=
  match evs with
  | [] => (Err ErrReadingAck, st)
  | (r, ctxDone) :: evs =>
      match sender_turn r ctxDone st with
      | (Continue, st') => sender_loop evs st'
      | (Return res, st') => (res, st')
      end
  end.

(** src: internal/filetransfer/sender.go 284-368 Sender.sendChunks *)
Definition sendChunks (ctxDone : bool) (evs : list (option Envelope * bool)) (x : Transfer) :
    result send_err unit * send_st :=
  match sender_head ctxDone (send_init x) with
  | (Continue, st) => sender_loop evs st
  | (Return res, st) => (res, st)
  end.
End send_chunks.

(** ** OfferFile *)

(** What the network and the peer do during one [OfferFile]. *)
Record offer_env := mkOfferEnv {
  oe_transferID : string;              (* generateTransferID *)
  oe_stream_ok : bool;                 (* OpenStream *)
  oe_offer_ts : option Z;              (* WriteMsg of the offer: None fails *)
  oe_response : option Envelope;       (* the reply read; None: a read error *)
  oe_cancelled_first : bool;           (* ctx.Done() won the select *)
  oe_ctxDone : bool;                   (* the first context check of the loop *)
  oe_writes : nat -> option Z;
  oe_reads : list (option Envelope * bool)
}.

Section sender.
Context `{Proto FileChunk, Proto FileChunkAck, Proto FileComplete, Proto PbFileOffer, Ed25519}.

(** src: internal/filetransfer/sender.go 96-105 Sender *)
Record Sender := mkSender {
  sn_resolver : string -> bool;      (* GetPeer(addr) is not nil *)
  sn_lookup : ServiceLookup;
  sn_serviceName : string;
  sn_onProgress : bool;              (* a callback is installed *)
  sn_transfers : gmap string Transfer
}.

(** src: internal/filetransfer/sender.go 109-117 NewSender *)
Definition NewSender (resolver : string -> bool) (lookup : ServiceLookup) (name : string) : Sender :=
  mkSender resolver lookup name false ∅.

(** src: internal/filetransfer/sender.go 120-122 Sender.SetProgressCallback *)
Definition SetProgressCallback (s : Sender) (set : bool) : Sender :=
  mkSender (sn_resolver s) (sn_lookup s) (sn_serviceName s) set (sn_transfers s).

Definition put_transfer (s : Sender) (id : string) (x : Transfer) : Sender :=
  mkSender (sn_resolver s) (sn_lookup s) (sn_serviceName s) (sn_onProgress s)
    (<[id := x]> (sn_transfers s)).

(** The chunker, the hashes and the tree of the offered file. *)
(** src: internal/filetransfer/sender.go 152-165 Sender.OfferFile *)
Definition prepare (fs : filesystem) (filePath : string) : result send_err (Chunker * MerkleTree) :=
  match NewChunker fs filePath with
  | Err e => Err (ErrChunker e)
  | Ok chunker =>
      match AllChunkHashes fs chunker with
      | Err e => Err (ErrHashes e)
      | Ok hashes =>
          match BuildMerkleTree hashes with
          | Err e => Err (ErrTree e)
          | Ok tree => Ok (chunker, tree)
          end
      end
  end.

(** src: internal/filetransfer/sender.go 194-201 Sender.OfferFile *)
Definition offer_of (x : Transfer) : PbFileOffer :=
  mkPbFileOffer (x_ID x) (x_Filename x) (u64 (x_FileSize x)) (x_RootHash x)
    (u32 (x_ChunkSize x)) (x_Total x).

(** The error or the finished transfer, the sender, and what was written. *)
(** src: internal/filetransfer/sender.go 140-274 Sender.OfferFile *)
Definition OfferFile (fs : filesystem) (s : Sender) (peerAddr filePath : string) (oe : offer_env) :
    result send_err Transfer * Sender * list Envelope :=
  match resolveService (sn_lookup s) (sn_serviceName s) with
  | Err e => (Err e, s, [])
  | Ok svc =>
      let kp := s_Identity svc in
      if negb (sn_resolver s peerAddr) then (Err ErrPeerNotConnected, s, [])
      else match prepare fs filePath with
      | Err e => (Err e, s, [])
      | Ok (chunker, tree) =>
          let x := mkTransfer (oe_transferID oe) (Base filePath) (ck_fileSize chunker)
            (ck_chunkSize chunker) (TotalChunks chunker) (Root tree) peerAddr "send" 0 false false in
          let s := put_transfer s (oe_transferID oe) x in
          let cancelled e out := (Err e, put_transfer s (oe_transferID oe) (set_cancelled x), out) in
          if negb (oe_stream_ok oe) then cancelled ErrOpeningStream []
          else match marshal (offer_of x) with
          | None => cancelled ErrMarshalingOffer []
          | Some payload =>
              match oe_offer_ts oe with
              | None => cancelled ErrSendingOffer []
              | Some now =>
                  let out := [WrapMessage FILE_OFFER payload kp now] in
                  if oe_cancelled_first oe then cancelled ErrContext out
                  else match oe_response oe with
                  | None => cancelled ErrReadingResponse out
                  | Some resp =>
                      if env_Type resp =? FILE_REJECT then cancelled ErrRejectedByPeer out
                      else if negb (env_Type resp =? FILE_ACCEPT)
                      then cancelled (ErrUnexpectedResponse (env_Type resp)) out
                      else
                        let '(res, st) := sendChunks fs chunker tree kp (sn_onProgress s)
                          (oe_writes oe) (oe_ctxDone oe) (oe_reads oe) x in
                        let x := set_cancelled (s_xfer st) in
                        let out := out ++ s_out st in
                        match res with
                        | Err e => (Err e, put_transfer s (oe_transferID oe) (set_failed x), out)
                        | Ok _ => (Ok x, put_transfer s (oe_transferID oe) x, out)
                        end
                  end
              end
          end
      end
  end.

(** src: internal/filetransfer/sender.go 403-411 Sender.CancelTransfer *)
Definition CancelTransfer (s : Sender) (id : string) : Sender :=
  match sn_transfers s !! id with
  | Some x => put_transfer s id (set_cancelled x)
  | None => s
  end.

(** src: internal/filetransfer/sender.go 414-418 Sender.GetTransfer *)
Definition GetTransfer (s : Sender) (id : string) : option Transfer := sn_transfers s !! id.
End sender.
