(* ===== verification/Receiver.v ===== *)
(** * internal/filetransfer/receiver.go

    The receiving side of a file transfer: parked offers and the user's decision,
    the chunk loop with its two checks, reassembly on disk. *)

From S2P Require Import Prelude GoStd Sha256 Crypto Protocol Instances Identity Wire Merkle Chunker FilePath Services Sender.
Local Open Scope go_scope.

(** src: internal/filetransfer/receiver.go 37-41 FileDecision *)
Record FileDecision := mkDecision { fd_Accept : bool; fd_SavePath : string; fd_Reason : string }.

(** The offer an event carries; [Decision] is a channel of capacity one. *)
(** src: internal/filetransfer/receiver.go 25-34 FileOffer *)
Record FileOffer := mkFileOffer {
  of_TransferID : string; of_Filename : string; of_Size : Z; of_RootHash : bytes;
  of_ChunkSize : Z; of_ChunkCount : Z; of_FromAddr : string;
  of_Decision : Chan.t FileDecision
}.

Definition set_decision (fo : FileOffer) (c : Chan.t FileDecision) : FileOffer :=
  mkFileOffer (of_TransferID fo) (of_Filename fo) (of_Size fo) (of_RootHash fo)
    (of_ChunkSize fo) (of_ChunkCount fo) (of_FromAddr fo) c.

Inductive recv_err :=
| ErrNoPendingOffer | ErrResolve (e : send_err)
| ErrReadingChunk | ErrUnmarshalingChunk | ErrSendingAck | ErrCancelledBySender
| ErrUnexpectedType (t : MessageType)
| ErrIncomplete (got total : Z) | ErrMkdir | ErrCreate | ErrMissingChunk (i : Z)
| ErrWritingFile (i : Z).

(** ** Parked offers

    Offers are shared by pointer between the handler that waits, the pending map and
    the event bus: [rv_offers] is the store, and a [nat] is a pointer into it. *)
(** src: internal/filetransfer/receiver.go 48-60 Receiver *)
Record Receiver := mkReceiver {
  rv_saveDir : string;
  rv_lookup : ServiceLookup;
  rv_serviceName : string;
  rv_onProgress : bool;
  rv_transfers : gmap string Transfer;
  rv_pending : gmap string nat;
  rv_offers : list FileOffer;
  rv_published : list nat      (* the EventFileOffer payloads, in order *)
}.

(** src: internal/filetransfer/receiver.go 65-77 NewReceiver *)
Definition NewReceiver (saveDir : string) (lookup : ServiceLookup) (serviceName : string) : Receiver :=
  mkReceiver saveDir lookup serviceName false ∅ ∅ [] [].

Definition set_pending (r : Receiver) (p : gmap string nat) : Receiver :=
  mkReceiver (rv_saveDir r) (rv_lookup r) (rv_serviceName r) (rv_onProgress r)
    (rv_transfers r) p (rv_offers r) (rv_published r).
Definition set_offers (r : Receiver) (l : list FileOffer) : Receiver :=
  mkReceiver (rv_saveDir r) (rv_lookup r) (rv_serviceName r) (rv_onProgress r)
    (rv_transfers r) (rv_pending r) l (rv_published r).
Definition store_transfer (r : Receiver) (id : string) (x : Transfer) : Receiver :=
  mkReceiver (rv_saveDir r) (rv_lookup r) (rv_serviceName r) (rv_onProgress r)
    (<[id := x]> (rv_transfers r)) (rv_pending r) (rv_offers r) (rv_published r).

(** What a blocking operation does when it is called. *)
Inductive outcome (E A : Type) := Returns (r : result E A) | Blocks.
Arguments Returns {E A} r.
Arguments Blocks {E A}.

(** The common body of [AcceptFile] and [RejectFile]: a send on the offer's channel,
    which blocks while an earlier decision is still buffered. *)
(** src: internal/filetransfer/receiver.go 90-101 Receiver.AcceptFile *)
Definition decide_offer (r : Receiver) (transferID : string) (d : FileDecision) :
    outcome recv_err unit * Receiver :=
  match rv_pending r !! transferID with
  | None => (Returns (Err ErrNoPendingOffer), r)
  | Some p =>
      match rv_offers r !! p with
      | None => (Blocks, r)                    (* unreachable: pending points into the store *)
      | Some fo =>
          match Chan.try_send (of_Decision fo) d with
          | Chan.Sent c => (Returns (Ok tt), set_offers r (<[p := set_decision fo c]> (rv_offers r)))
          | _ => (Blocks, r)
          end
      end
  end.

(** src: internal/filetransfer/receiver.go 90-101 Receiver.AcceptFile *)
Definition AcceptFile (r : Receiver) (transferID savePath : string) :=
  decide_offer r transferID (mkDecision true savePath "").
(** src: internal/filetransfer/receiver.go 104-115 Receiver.RejectFile *)
Definition RejectFile (r : Receiver) (transferID reason : string) :=
  decide_offer r transferID (mkDecision false "" reason).

(** src: internal/filetransfer/receiver.go 118-122 Receiver.GetTransfer *)
Definition Receiver_GetTransfer (r : Receiver) (id : string) : option Transfer := rv_transfers r !! id.

(** src: internal/filetransfer/receiver.go 127-136 Receiver.resolveService *)
Definition Receiver_resolveService (r : Receiver) : result send_err Service :=
  resolveService (rv_lookup r) (rv_serviceName r).

(** Allocate the offer, park it under its transfer ID and publish it. *)
(** src: internal/filetransfer/receiver.go 203-223 Receiver.handleIncoming *)
Definition park (r : Receiver) (fo : FileOffer) : nat * Receiver :=
  let p := length (rv_offers r) in
  (p, mkReceiver (rv_saveDir r) (rv_lookup r) (rv_serviceName r) (rv_onProgress r)
    (rv_transfers r) (<[of_TransferID fo := p]> (rv_pending r)) (rv_offers r ++ [fo])
    (rv_published r ++ [p])).

(** src: internal/filetransfer/receiver.go 148-170 Receiver.OnFileOffer *)
Definition OnFileOffer (r : Receiver) (fromAddr id filename : string) (size : Z) :
    result recv_err unit * Receiver :=
  match Receiver_resolveService r with
  | Err e => (Err (ErrResolve e), r)
  | Ok _ =>
      (Ok tt, (park r (mkFileOffer id filename (u64 size) [] 0 0 fromAddr (Chan.make 1))).2)
  end.

(** [select { case decision = <-decisionCh: ; case <-time.After(2 min): }], then the
    removal from the pending map; [timeout] says the timer won or nothing is buffered. *)
(** src: internal/filetransfer/receiver.go 225-235 Receiver.handleIncoming *)
Definition await_decision (r : Receiver) (p : nat) (transferId : string) (timeout : bool) :
    FileDecision * Receiver :=
  let timed_out := mkDecision false "" "timed out" in
  let '(d, r) :=
    match rv_offers r !! p with
    | Some fo =>
        match Chan.try_recv (of_Decision fo) with
        | Some (d, c) =>
            if timeout then (timed_out, r)
            else (d, set_offers r (<[p := set_decision fo c]> (rv_offers r)))
        | None => (timed_out, r)
        end
    | None => (timed_out, r)
    end in
  (d, set_pending r (delete transferId (rv_pending r))).

(** ** Writing the file *)

(** The disk during one [reassemble]: whether [MkdirAll] and [Create] succeed, and for
    each [Write] whether it succeeds ([None]) or fails after writing some bytes. *)
Record disk := mkDisk { d_mkdir : bool; d_create : bool; d_write : Z -> option nat }.

Definition good_disk : disk := mkDisk true true (fun _ => None).

(** [os.Create] on an existing regular file truncates it; on a directory it fails. *)
Definition Create (d : disk) (fs : filesystem) (path : string) : option filesystem :=
  if negb (d_create d) then None
  else match fs !! path with
       | Some Dir => None
       | _ => Some (<[path := File []]> fs)
       end.

Definition append_file (fs : filesystem) (path : string) (data : bytes) : filesystem :=
  match fs !! path with
  | Some (File c) => <[path := File (c ++ data)]> fs
  | _ => fs
  end.

(** [for i := 0; i < xfer.Total; i++]: [n] more rounds from [i]. *)
(** src: internal/filetransfer/receiver.go 363-373 Receiver.reassemble *)
Fixpoint write_chunks (d : disk) (chunks : gmap Z bytes) (path : string) (i : Z) (n : nat)
    (fs : filesystem) : result recv_err unit * filesystem :=
  match n with
  | O => (Ok tt, fs)
  | S n =>
      match chunks !! i with
      | None => (Err (ErrMissingChunk i), fs)
      | Some data =>
          match d_write d i with
          | Some k => (Err (ErrWritingFile i), append_file fs path (take k data))
          | None => write_chunks d chunks path (i + 1) n (append_file fs path data)
          end
      end
  end.

(** src: internal/filetransfer/receiver.go 347-376 Receiver.reassemble *)
Definition reassemble (d : disk) (fs : filesystem) (x : Transfer) (chunks : gmap Z bytes)
    (saveDir : string) : result recv_err unit * filesystem :=
  let got := Z.of_nat (size chunks) in
  if negb (u32 got =? x_Total x) then (Err (ErrIncomplete got (x_Total x)), fs)
  else if negb (d_mkdir d) then (Err ErrMkdir, fs)
  else
    let outPath := Join saveDir (x_Filename x) in
    match Create d fs outPath with
    | None => (Err ErrCreate, fs)
    | Some fs => write_chunks d chunks outPath 0 (Z.to_nat (x_Total x)) fs
    end.

(** ** Receiving chunks *)

(** The chunks kept, the transfer, what was written to the stream, the callbacks. *)
Record recv_st := mkRecv {
  r_chunks : gmap Z bytes;
  r_xfer : Transfer;
  r_out : list Envelope;
  r_progress : list (Z * Z)
}.

Definition recv_init (x : Transfer) : recv_st := mkRecv ∅ x [] [].

Section receive.
Context `{Proto FileChunk, Proto FileChunkAck, Ed25519}.
Context (kp : Keypair) (hasProgress : bool) (writes : nat -> option Z)
  (d : disk) (saveDir : string).

(** The two checks on a chunk: its own hash, then the Merkle proof ([int(fc.Index)]
    keeps a uint32 as it is). *)
(** src: internal/filetransfer/receiver.go 301-308 Receiver.receiveChunks *)
Definition chunk_valid (x : Transfer) (fc : FileChunk) : bool :=
  let hashValid := bytes_eqb (Sha256.Sum256 (fc_Data fc)) (fc_Hash fc) in
  hashValid && VerifyProof (fc_Hash fc) (fc_Index fc) (fc_Proof fc) (x_RootHash x).

(** src: internal/filetransfer/receiver.go 323-332 Receiver.receiveChunks *)
Definition keep_chunk (st : recv_st) (fc : FileChunk) : recv_st :=
  let chunks := <[fc_Index fc := fc_Data fc]> (r_chunks st) in
  let x := set_acked (r_xfer st) (u32 (x_acked (r_xfer st) + 1)) in
  mkRecv chunks x (r_out st)
    (if hasProgress then r_progress st ++ [(u32 (Z.of_nat (size chunks)), x_Total x)]
     else r_progress st).

(** One iteration, on the outcome of [ReadMsg] ([None]: an error). *)
(** src: internal/filetransfer/receiver.go 287-344 Receiver.receiveChunks *)
Definition recv_step (r : option Envelope) (st : recv_st) (fs : filesystem) :
    verdict recv_err unit * recv_st * filesystem :=
  match r with
  | None => (Return (Err ErrReadingChunk), st, fs)
  | Some env =>
      if env_Type env =? FILE_CHUNK then
        match unmarshal (env_Payload env) with
        | None => (Return (Err ErrUnmarshalingChunk), st, fs)
        | Some fc =>
            let valid := chunk_valid (r_xfer st) fc in
            let ackPayload := marshal_or_nil (mkFileChunkAck (x_ID (r_xfer st)) (fc_Index fc) valid) in
            match writes (length (r_out st)) with
            | None => (Return (Err ErrSendingAck), st, fs)
            | Some now =>
                let st := mkRecv (r_chunks st) (r_xfer st)
                  (r_out st ++ [WrapMessage FILE_CHUNK_ACK ackPayload kp now]) (r_progress st) in
                (Continue, if valid then keep_chunk st fc else st, fs)
            end
        end
      else if env_Type env =? FILE_COMPLETE then
        let '(res, fs) := reassemble d fs (r_xfer st) (r_chunks st) saveDir in (Return res, st, fs)
      else if env_Type env =? FILE_CANCEL then (Return (Err ErrCancelledBySender), st, fs)
      else (Return (Err (ErrUnexpectedType (env_Type env))), st, fs)
  end.

(** The loop on the outcomes of its reads; every read has a deadline, so a silent
    stream is a read error. *)
(** src: internal/filetransfer/receiver.go 284-345 Receiver.receiveChunks *)
Fixpoint receiveChunks (evs : list (option Envelope)) (st : recv_st) (fs : filesystem) :
    result recv_err unit * recv_st * filesystem :=
  match evs with
  | [] => (Err ErrReadingChunk, st, fs)
  | r :: evs =>
      match recv_step r st fs with
      | (Continue, st', fs') => receiveChunks evs st' fs'
      | (Return res, st', fs') => (res, st', fs')
      end
  end.
End receive.

(** ** handleIncoming *)

(** What the peer, the user and the disk do during one incoming stream.  [ie_meanwhile]
    is what happens to the receiver while the handler waits for the decision: calls of
    [AcceptFile] and [RejectFile], other streams. *)
Record incoming_env := mkIncoming {
  ie_first : option Envelope;             (* the first message; None: a read error *)
  ie_meanwhile : Receiver -> Receiver;
  ie_timeout : bool;
  ie_reply_ts : option Z;                 (* WriteMsg of accept or reject: None fails *)
  ie_reads : list (option Envelope);
  ie_writes : nat -> option Z;
  ie_disk : disk
}.

Section incoming.
Context `{Proto FileChunk, Proto FileChunkAck, Proto PbFileOffer, Proto FileAccept,
  Proto FileReject, Ed25519, Ripemd160, Base58}.

(** The guards before an offer is parked. *)
(** src: internal/filetransfer/receiver.go 175-214 Receiver.handleIncoming *)
Definition admit_offer (r : Receiver) (first : option Envelope) :
    option (Service * PbFileOffer * FileOffer) :=
  match first with
  | None => None
  | Some env =>
      if negb (env_Type env =? FILE_OFFER) then None
      else if negb (VerifyEnvelope env) then None
      else match Receiver_resolveService r with
      | Err _ => None
      | Ok svc =>
          if negb (AsFile (Some svc)) then None
          else match unmarshal (env_Payload env) with
          | None => None
          | Some offer =>
              Some (svc, offer,
                mkFileOffer (fo_TransferId offer) (fo_Filename offer) (fo_Size offer)
                  (fo_RootHash offer) (fo_ChunkSize offer) (fo_ChunkCount offer)
                  (DeriveAddress (env_PubKey env)) (Chan.make 1))
          end
      end
  end.

(** src: internal/filetransfer/receiver.go 261-270 Receiver.handleIncoming *)
Definition transfer_of (offer : PbFileOffer) (fromAddr : string) : Transfer :=
  mkTransfer (fo_TransferId offer) (fo_Filename offer) (i64 (fo_Size offer)) (fo_ChunkSize offer)
    (fo_ChunkCount offer) (fo_RootHash offer) fromAddr "receive" 0 false false.

(** The receiver, the file system and the envelopes written. *)
(** src: internal/filetransfer/receiver.go 172-282 Receiver.handleIncoming *)
Definition handleIncoming (ie : incoming_env) (r : Receiver) (fs : filesystem) :
    Receiver * filesystem * list Envelope :=
  match admit_offer r (ie_first ie) with
  | None => (r, fs, [])
  | Some (svc, offer, fo) =>
      let '(p, r) := park r fo in
      let r := ie_meanwhile ie r in
      let '(decision, r) := await_decision r p (fo_TransferId offer) (ie_timeout ie) in
      let kp := s_Identity svc in
      if negb (fd_Accept decision) then
        let payload := marshal_or_nil (mkFileReject (fo_TransferId offer) (fd_Reason decision)) in
        match ie_reply_ts ie with
        | None => (r, fs, [])
        | Some now => (r, fs, [WrapMessage FILE_REJECT payload kp now])
        end
      else
        let payload := marshal_or_nil (mkFileAccept (fo_TransferId offer)) in
        match ie_reply_ts ie with
        | None => (r, fs, [])
        | Some now =>
            let out := [WrapMessage FILE_ACCEPT payload kp now] in
            let saveDir := if bool_decide (fd_SavePath decision = ""%string)
                           then rv_saveDir r else fd_SavePath decision in
            let x := transfer_of offer (of_FromAddr fo) in
            let r := store_transfer r (fo_TransferId offer) x in
            let '(res, st, fs) := receiveChunks kp (rv_onProgress r) (ie_writes ie)
              (ie_disk ie) saveDir (ie_reads ie) (recv_init x) fs in
            let x := if is_ok res then r_xfer st else set_failed (r_xfer st) in
            (store_transfer r (fo_TransferId offer) x, fs, out ++ r_out st)
        end
  end.
End incoming.
