(* ===== verification/Transfer.v ===== *)
(** * internal/filetransfer: the sender and the receiver together

    What the receiver guarantees against any sender, and what the two loops achieve
    over a reliable stream. *)

From S2P Require Import Prelude GoStd Sha256 Crypto Protocol Instances Identity Wire Merkle Chunker FilePath Services Sender Receiver.
Local Open Scope go_scope.

(** ** The receiver against any sender *)

(** The first [n] chunks in order. *)
Definition chunk_list (chunks : gmap Z bytes) (n : nat) : list bytes :=
  (fun i => chunks !!! Z.of_nat i) <$> seq 0 n.

Lemma append_file_other fs path data p : p <> path -> append_file fs path data !! p = fs !! p.
Proof.
  intros Hp. unfold append_file. destruct (fs !! path) as [[c|]|]; [|done..].
  by rewrite lookup_insert_ne.
Qed.

Lemma append_file_at fs path c data :
  fs !! path = Some (File c) -> append_file fs path data !! path = Some (File (c ++ data)).
Proof. intros Hf. unfold append_file. rewrite Hf. by rewrite lookup_insert_eq. Qed.

Lemma write_chunks_frame d chunks path i n fs res fs' p :
  write_chunks d chunks path i n fs = (res, fs') -> p <> path -> fs' !! p = fs !! p.
Proof.
  intros Hw Hp. revert i fs Hw. induction n as [|n IH]; intros i fs Hw; simpl in Hw; [by simplify_eq|].
  destruct (chunks !! i) as [data|]; [|by simplify_eq].
  destruct (d_write d i); [simplify_eq; by apply append_file_other|].
  rewrite (IH _ _ Hw). by apply append_file_other.
Qed.

Lemma write_chunks_Ok d chunks path i n fs fs' c :
  write_chunks d chunks path (Z.of_nat i) n fs = (Ok tt, fs') -> fs !! path = Some (File c) ->
  fs' !! path = Some (File (c ++ concat ((fun j => chunks !!! Z.of_nat j) <$> seq i n))) /\
  forall j, (i <= j < i + n)%nat -> is_Some (chunks !! Z.of_nat j).
Proof.
  revert i fs c. induction n as [|n IH]; intros i fs c Hw Hf; simpl in Hw.
  { simplify_eq. simpl. rewrite app_nil_r. split; [done|lia]. }
  destruct (chunks !! Z.of_nat i) as [data|] eqn:Hc; [|done].
  destruct (d_write d (Z.of_nat i)); [done|].
  replace (Z.of_nat i + 1) with (Z.of_nat (S i)) in Hw by lia.
  apply (IH _ _ (c ++ data)) in Hw as [Hf' Hall]; [|by apply append_file_at].
  split.
  - rewrite Hf'. simpl. rewrite (lookup_total_correct _ _ _ Hc). by rewrite <- app_assoc.
  - intros j Hj. destruct (decide (j = i)) as [->|]; [by rewrite Hc|]. apply Hall. lia.
Qed.

(** Every chunk present and a good disk: the writes succeed. *)
Lemma write_chunks_total chunks path i n fs c :
  (forall j, (i <= j < i + n)%nat -> is_Some (chunks !! Z.of_nat j)) ->
  fs !! path = Some (File c) ->
  exists fs', write_chunks good_disk chunks path (Z.of_nat i) n fs = (Ok tt, fs').
Proof.
  revert i fs c. induction n as [|n IH]; intros i fs c Hall Hf; simpl; [by eexists|].
  destruct (Hall i ltac:(lia)) as [data Hd]. rewrite Hd.
  replace (Z.of_nat i + 1) with (Z.of_nat (S i)) by lia.
  eapply IH; [intros; apply Hall; lia|by apply append_file_at].
Qed.

Lemma Create_at d fs path fs' : Create d fs path = Some fs' -> fs' !! path = Some (File []).
Proof.
  unfold Create. intros H. go_cases; by rewrite lookup_insert_eq.
Qed.
Lemma Create_other d fs path fs' p : Create d fs path = Some fs' -> p <> path -> fs' !! p = fs !! p.
Proof.
  unfold Create. intros H Hp. go_cases; by rewrite lookup_insert_ne.
Qed.

Lemma reassemble_frame d fs x chunks saveDir res fs' p :
  reassemble d fs x chunks saveDir = (res, fs') ->
  p <> Join saveDir (x_Filename x) -> fs' !! p = fs !! p.
Proof.
  unfold reassemble. intros Hr Hp.
  destruct (negb (_ =? _)); [by simplify_eq|]. destruct (negb _); [by simplify_eq|].
  destruct (Create d fs _) as [fs1|] eqn:Hc; [|by simplify_eq].
  rewrite (write_chunks_frame _ _ _ _ _ _ _ _ _ Hr Hp). by eapply Create_other.
Qed.

Lemma reassemble_Ok d fs x chunks saveDir fs' :
  reassemble d fs x chunks saveDir = (Ok tt, fs') ->
  fs' !! Join saveDir (x_Filename x) =
    Some (File (concat (chunk_list chunks (Z.to_nat (x_Total x))))) /\
  (forall i, 0 <= i < x_Total x -> is_Some (chunks !! i)) /\
  u32 (Z.of_nat (size chunks)) = x_Total x.
Proof.
  unfold reassemble. destruct (Z.eqb_spec (u32 (Z.of_nat (size chunks))) (x_Total x)) as [Hsz|]; [|done].
  cbn [negb]. destruct (d_mkdir d); [|done]. cbn [negb].
  destruct (Create d fs _) as [fs1|] eqn:Hc; [|done]. intros Hw.
  apply (write_chunks_Ok _ _ _ 0 _ _ _ []) in Hw as [Hf Hall]; [|by eapply Create_at].
  split; [exact Hf|]. split; [|done]. intros i Hi. rewrite <- (Z2Nat.id i) by lia. apply Hall. lia.
Qed.

Section receiver.
Context `{Proto FileChunk, Proto FileChunkAck, Ed25519}.
Context (kp : Keypair) (hasProgress : bool) (writes : nat -> option Z)
  (d : disk) (saveDir : string).

(** [x]'s stream [evs] carried a chunk message for index [i] with data [c] that passed
    both checks. *)
Definition vouched (x : Transfer) (evs : list (option Envelope)) (i : Z) (c : bytes) : Prop :=
  exists env fc, Some env ∈ evs /\ env_Type env = FILE_CHUNK /\
    unmarshal (env_Payload env) = Some fc /\
    fc_Index fc = i /\ fc_Data fc = c /\ chunk_valid x fc = true.

(** The fields of a transfer the loop never changes. *)
Definition same_offer (x y : Transfer) : Prop :=
  x_ID x = x_ID y /\ x_RootHash x = x_RootHash y /\ x_Total x = x_Total y /\
  x_Filename x = x_Filename y.

Definition all_vouched (x : Transfer) (evs : list (option Envelope)) (st : recv_st) : Prop :=
  same_offer (r_xfer st) x /\
  forall i c, r_chunks st !! i = Some c -> vouched x evs i c.

Lemma vouched_mono x evs evs' i c :
  vouched x evs i c -> (forall e, e ∈ evs -> e ∈ evs') -> vouched x evs' i c.
Proof. intros (env & fc & Hin & Hrest) Hsub. exists env, fc. split; [by apply Hsub|done]. Qed.

Lemma recv_step_vouched x seen r st fs v st' fs' :
  all_vouched x seen st -> r ∈ seen ->
  recv_step kp hasProgress writes d saveDir r st fs = (v, st', fs') ->
  all_vouched x seen st' /\
  match v with
  | Continue => fs' = fs
  | Return res =>
      (forall p, p <> Join saveDir (x_Filename x) -> fs' !! p = fs !! p) /\
      (res = Ok tt -> reassemble d fs (r_xfer st) (r_chunks st) saveDir = (Ok tt, fs') /\ st' = st)
  end.
Proof.
  intros [Hx Hv] Hin. unfold recv_step. destruct r as [env|]; [|by intros; simplify_eq].
  destruct (Z.eqb_spec (env_Type env) FILE_CHUNK) as [Ht|_].
  - destruct (unmarshal (env_Payload env)) as [fc|] eqn:Hu; [|by intros; simplify_eq].
    destruct (writes _); [|by intros; simplify_eq].
    intros ?; simplify_eq. split; [|done].
    destruct (chunk_valid (r_xfer st) fc) eqn:Hval; [|by split].
    split; [done|]. simpl. intros i c. rewrite lookup_insert_Some.
    intros [[<- <-]|[_ Hc]]; [|by apply Hv]. exists env, fc. split_and!; [done..|].
    unfold chunk_valid in *. destruct Hx as (_ & <- & _). done.
  - destruct (_ =? FILE_COMPLETE).
    + destruct (reassemble _ _ _ _ _) as [res fs1] eqn:Hr. intros ?; simplify_eq.
      split; [done|]. split; [|by intros ->].
      intros p Hp. eapply reassemble_frame; [done|]. by destruct Hx as (_ & _ & _ & ->).
    + destruct (_ =? FILE_CANCEL); by intros; simplify_eq.
Qed.

Lemma receiveChunks_vouched x seen evs st fs res st' fs' :
  all_vouched x seen st -> (forall e, e ∈ evs -> e ∈ seen) ->
  receiveChunks kp hasProgress writes d saveDir evs st fs = (res, st', fs') ->
  all_vouched x seen st' /\
  (forall p, p <> Join saveDir (x_Filename x) -> fs' !! p = fs !! p) /\
  (res = Ok tt -> reassemble d fs (r_xfer st') (r_chunks st') saveDir = (Ok tt, fs')).
Proof.
  revert st fs. induction evs as [|r evs IH]; intros st fs Hst Hsub Hrun; simpl in Hrun.
  { by simplify_eq. }
  destruct (recv_step _ _ _ _ _ _ _ _) as [[v st1] fs1] eqn:Hs.
  apply (recv_step_vouched x seen) in Hs as [Hst1 Hv]; [|done|apply Hsub; by left].
  destruct v as [|res1].
  - subst fs1. eapply IH; [done| |done]. intros e He. apply Hsub. by right.
  - simplify_eq. destruct Hv as [Hf Hok]. split_and!; [done..|].
    intros ->. by destruct (Hok eq_refl) as [? ->].
Qed.

End receiver.

(** ** The two loops over a reliable stream

    Both directions are FIFO and nothing is lost: the sender reads the receiver's
    envelopes in the order they were written and the other way round.  Either side may
    move whenever a message is waiting for it. *)

(** Both sides, with what each has read and, once it returned, its outcome. *)
Record net := mkNet {
  n_snd : send_st; n_sres : option (result send_err unit); n_sread : nat;
  n_rcv : recv_st; n_rres : option (result recv_err unit); n_rread : nat;
  n_fs : filesystem
}.

Definition outcome_of {E A} (v : verdict E A) : option (result E A) :=
  match v with Continue => None | Return r => Some r end.

Section transfer.
Context `{ProtoOk FileChunk, ProtoOk FileChunkAck, Proto FileComplete, Ed25519}.
Context (fs_s : filesystem) (chunker : Chunker) (tree : MerkleTree) (kp_s kp_r : Keypair)
  (prog_s prog_r : bool) (ts_s ts_r : nat -> Z) (saveDir : string) (x_s x_r : Transfer).

Definition sender_moves := sender_turn fs_s chunker tree kp_s prog_s (fun n => Some (ts_s n)).
Definition receiver_moves := recv_step kp_r prog_r (fun n => Some (ts_r n)) good_disk saveDir.

Definition net_init (fs : filesystem) : net :=
  let '(v, st) := sender_head fs_s chunker tree kp_s (fun n => Some (ts_s n)) false (send_init x_s) in
  mkNet st (outcome_of v) 0 (recv_init x_r) None 0 fs.

Inductive net_step : net -> net -> Prop :=
| step_sender n e v st :
    n_sres n = None -> r_out (n_rcv n) !! n_sread n = Some e ->
    sender_moves (Some e) false (n_snd n) = (v, st) ->
    net_step n (mkNet st (outcome_of v) (S (n_sread n)) (n_rcv n) (n_rres n) (n_rread n) (n_fs n))
| step_receiver n e v st fs' :
    n_rres n = None -> s_out (n_snd n) !! n_rread n = Some e ->
    receiver_moves (Some e) (n_rcv n) (n_fs n) = (v, st, fs') ->
    net_step n (mkNet (n_snd n) (n_sres n) (n_sread n) st (outcome_of v) (S (n_rread n)) fs').

Section honest.
Context (content : bytes) (Hck : chunker_ok fs_s chunker content).
Context (Htree : exists hs, AllChunkHashes fs_s chunker = Ok hs /\ BuildMerkleTree hs = Ok tree).
Context (Hid : x_ID x_r = x_ID x_s) (Hroot : x_RootHash x_r = Root tree)
  (Htot : x_Total x_r = TotalChunks chunker).

Let k : nat := Z.to_nat (ck_chunkSize chunker).
Let n : nat := Z.to_nat (TotalChunks chunker).
Let piece (i : nat) : bytes := slice content k i.

Definition proof_of (i : nat) : list bytes :=
  match Proof_ tree (Z.of_nat i) with Ok p => p | Err _ => [] end.
Definition chunk_msg (i : nat) : FileChunk :=
  mkFileChunk (x_ID x_s) (Z.of_nat i) (piece i) (Sha256.Sum256 (piece i)) (proof_of i).
Definition ack_msg (i : nat) : FileChunkAck := mkFileChunkAck (x_ID x_s) (Z.of_nat i) true.

(** Protobuf can encode the messages of this transfer. *)
Definition encodable : Prop := forall i, (i < n)%nat ->
  is_Some (marshal (chunk_msg i)) /\ is_Some (marshal (ack_msg i)).
Context (Henc : encodable).

Definition chunk_env (i : nat) : Envelope :=
  WrapMessage FILE_CHUNK (marshal_or_nil (chunk_msg i)) kp_s (ts_s i).
Definition ack_env (i : nat) : Envelope :=
  WrapMessage FILE_CHUNK_ACK (marshal_or_nil (ack_msg i)) kp_r (ts_r i).
Definition complete_env : Envelope :=
  WrapMessage FILE_COMPLETE (marshal_or_nil (mkFileComplete (x_ID x_s))) kp_s (ts_s n).

Lemma n_u32 : Z.of_nat n = TotalChunks chunker /\ 0 < Z.of_nat n < 2 ^ 32.
Proof.
  pose proof (chunker_total_pos _ _ _ Hck) as Hp. destruct (co_u32 _ _ _ Hck).
  unfold n, TotalChunks in *. lia.
Qed.

Lemma proof_of_ok i : (i < n)%nat ->
  Proof_ tree (Z.of_nat i) = Ok (proof_of i) /\
  VerifyProof (Sha256.Sum256 (piece i)) (Z.of_nat i) (proof_of i) (Root tree) = true.
Proof.
  intros Hi. destruct Htree as (hs & Hhs & Hb). destruct n_u32 as [_ [_ Hn]].
  rewrite (AllChunkHashes_spec _ _ _ Hck) in Hhs. change (Z.to_nat (ck_total chunker)) with n in Hhs.
  injection Hhs as <-.
  destruct (Proof_in_range _ _ (Z.of_nat i) Hb) as [p Hp]; [rewrite length_fmap, length_seq; lia|].
  unfold proof_of. rewrite Hp. split; [done|].
  apply (Proof_accepted _ _ _ _ Hb) in Hp as [_ Hv].
  - rewrite Nat2Z.id in Hv.
    rewrite (list_lookup_total_correct _ i (Sha256.Sum256 (piece i))) in Hv; [done|].
    by rewrite list_lookup_fmap, lookup_seq_lt.
  - rewrite length_fmap, length_seq. lia.
  - apply Forall_fmap, Forall_true. intros j. apply Sha256.Sum256_nonempty.
Qed.

Lemma sendOneChunk_honest st i : (i < n)%nat -> x_ID (s_xfer st) = x_ID x_s ->
  length (s_out st) = i ->
  sendOneChunk fs_s chunker tree kp_s (fun m => Some (ts_s m)) st (Z.of_nat i) =
    (Ok tt, mkSend (retries st) (nextToSend st) (inFlight st) (acked st) (s_xfer st)
      (s_out st ++ [chunk_env i]) (s_progress st)).
Proof.
  intros Hi Hx Hl. unfold sendOneChunk.
  rewrite (ReadChunk_slice _ _ _ Hck) by done. rewrite (proj1 (proof_of_ok i Hi)). simpl.
  rewrite Hx. fold k. change (slice content k i) with (piece i).
  change (mkFileChunk _ _ _ _ _) with (chunk_msg i).
  destruct (proj1 (Henc i Hi)) as [b Hb]. rewrite Hb. unfold write_env. rewrite Hl.
  unfold chunk_env, marshal_or_nil. by rewrite Hb.
Qed.

Context (Hacked_s : x_acked x_s = 0) (Hacked_r : x_acked x_r = 0).

Definition acked_set (a : nat) : gset Z := list_to_set (Z.of_nat <$> seq 0 a).
Definition progress_to (on : bool) (a : nat) : list (Z * Z) :=
  if on then (fun i => (Z.of_nat (S i), TotalChunks chunker)) <$> seq 0 a else [].

(** The sender after [a] acknowledgements, [j] chunks written. *)
Definition snd_at (a j : nat) : send_st :=
  mkSend ∅ (Z.of_nat j) (Z.of_nat (j - a)) (acked_set a) (set_acked x_s (Z.of_nat a))
    (chunk_env <$> seq 0 j) (progress_to prog_s a).
(** The right edge of the window. *)
Definition edge (a : nat) : nat := Nat.min n (a + 8).

Lemma elem_of_acked_set i a : Z.of_nat i ∈ acked_set a <-> (i < a)%nat.
Proof.
  unfold acked_set. rewrite elem_of_list_to_set, list_elem_of_fmap. setoid_rewrite elem_of_seq.
  split; [intros (j & ? & ?); lia|]. intros. exists i. lia.
Qed.
Lemma size_acked_set a : size (acked_set a) = a.
Proof.
  unfold acked_set. rewrite size_list_to_set, length_fmap, length_seq; [done|].
  apply NoDup_fmap_2; [apply _|apply NoDup_seq].
Qed.
Lemma acked_set_S a : {[Z.of_nat a]} ∪ acked_set a = acked_set (S a).
Proof.
  unfold acked_set. rewrite seq_S, fmap_app, list_to_set_app_L. simpl. rewrite union_empty_r_L.
  apply union_comm_L.
Qed.
Lemma progress_to_S on a :
  progress_to on (S a) =
    if on then progress_to on a ++ [(Z.of_nat (S a), TotalChunks chunker)] else progress_to on a.
Proof. unfold progress_to. destruct on; [|done]. by rewrite seq_S, fmap_app. Qed.
Lemma envs_S (f : nat -> Envelope) j : f <$> seq 0 (S j) = (f <$> seq 0 j) ++ [f j].
Proof. by rewrite seq_S, fmap_app. Qed.
Lemma lookup_envs (f : nat -> Envelope) j i e :
  (f <$> seq 0 j) !! i = Some e -> (i < j)%nat /\ e = f i.
Proof.
  rewrite list_lookup_fmap. intros (m & Hm & ->)%fmap_Some. apply lookup_seq in Hm as [-> ?]. done.
Qed.

Lemma fill_window_honest a j fuel :
  (a <= j <= edge a)%nat -> (edge a - j <= fuel)%nat ->
  fill_window fs_s chunker tree kp_s (fun m => Some (ts_s m)) fuel (snd_at a j) =
    (Ok tt, snd_at a (edge a)).
Proof.
  destruct n_u32 as [Hn Hr]. revert j. induction fuel as [|fuel IH]; intros j Hj Hf; simpl.
  { assert (j = edge a) as -> by lia. done. }
  unfold edge, WindowSize in *. rewrite <- Hn.
  destruct (Z.ltb_spec (Z.of_nat (j - a)) 8), (Z.ltb_spec (Z.of_nat j) (Z.of_nat n));
    cbn [andb]; [|assert (j = Nat.min n (a + 8)) as -> by lia; done..].
  rewrite bool_decide_eq_false_2 by (rewrite elem_of_acked_set; lia).
  rewrite sendOneChunk_honest by (cbn [s_out snd_at]; rewrite ?length_fmap, ?length_seq; done || lia).
  cbn [nextToSend inFlight set_window retries acked s_xfer s_out s_progress snd_at].
  rewrite !wrap_u_small by (unfold in_u; lia).
  replace (Z.of_nat j + 1) with (Z.of_nat (S j)) by lia.
  replace (Z.of_nat (j - a) + 1) with (Z.of_nat (S j - a)) by lia.
  rewrite <- envs_S. apply IH; lia.
Qed.

Lemma sender_head_honest a j :
  (a <= j <= edge a)%nat -> (a <= n)%nat ->
  sender_head fs_s chunker tree kp_s (fun m => Some (ts_s m)) false (snd_at a j) =
    if decide (a = n)
    then (Return (Ok tt), mkSend ∅ (Z.of_nat n) 0 (acked_set n) (set_acked x_s (Z.of_nat n))
           ((chunk_env <$> seq 0 n) ++ [complete_env]) (progress_to prog_s n))
    else (Continue, snd_at a (edge a)).
Proof.
  intros Hj Ha. destruct n_u32 as [Hn Hr]. unfold sender_head.
  rewrite fill_window_honest; [|done|unfold fill_fuel, edge; simpl; lia].
  rewrite <- Hn. cbn [acked snd_at]. rewrite size_acked_set. destruct (decide (a = n)) as [->|Hne].
  - destruct (Z.leb_spec (Z.of_nat n) (Z.of_nat n)); [|lia].
    assert (edge n = n) as He by (unfold edge; lia). rewrite He.
    unfold write_env, complete_env. cbn [s_out s_xfer retries nextToSend inFlight acked s_progress snd_at].
    rewrite length_fmap, length_seq. by rewrite Nat.sub_diag.
  - destruct (Z.leb_spec (Z.of_nat n) (Z.of_nat a)); [lia|]. done.
Qed.

Lemma sender_ack_honest a j : (a < n)%nat -> (a < j)%nat -> (j <= a + 8)%nat ->
  sender_ack fs_s chunker tree kp_s prog_s (fun m => Some (ts_s m)) (Some (ack_env a)) (snd_at a j) =
    (Continue, snd_at (S a) j).
Proof.
  intros Ha Hj Hw. destruct n_u32 as [Hn Hr]. destruct (Henc a Ha) as [_ [b Hb]].
  unfold sender_ack, ack_env, WrapMessage, marshal_or_nil. cbn [env_Type env_Payload].
  rewrite Hb. simpl default. rewrite (unmarshal_marshal _ _ Hb).
  change (FILE_CHUNK_ACK =? FILE_CANCEL) with false.
  change (negb (FILE_CHUNK_ACK =? FILE_CHUNK_ACK)) with false. cbv iota.
  cbn [ack_Index ack_Valid ack_msg set_window nextToSend inFlight retries acked s_xfer s_out
    s_progress snd_at].
  rewrite acked_set_S, size_acked_set. cbn [x_acked set_acked].
  rewrite !wrap_u_small by (unfold in_u; lia).
  unfold snd_at. rewrite progress_to_S.
  replace (Z.of_nat (j - a) - 1) with (Z.of_nat (j - S a)) by lia.
  replace (Z.of_nat a + 1) with (Z.of_nat (S a)) by lia. done.
Qed.

Definition chunk_map (r : nat) : gmap Z bytes :=
  list_to_map ((fun i => (Z.of_nat i, piece i)) <$> reverse (seq 0 r)).
(** The receiver after [r] chunks. *)
Definition rcv_at (r : nat) : recv_st :=
  mkRecv (chunk_map r) (set_acked x_r (Z.of_nat r)) (ack_env <$> seq 0 r) (progress_to prog_r r).

Lemma chunk_map_S r : chunk_map (S r) = <[Z.of_nat r := piece r]> (chunk_map r).
Proof. unfold chunk_map. by rewrite seq_S, reverse_app. Qed.
Lemma lookup_chunk_map r i : (i < r)%nat -> chunk_map r !! Z.of_nat i = Some (piece i).
Proof.
  induction r as [|r IH]; [lia|]. intros Hi. rewrite chunk_map_S.
  destruct (decide (i = r)) as [->|]; [by rewrite lookup_insert_eq|].
  rewrite lookup_insert_ne by lia. apply IH. lia.
Qed.
Lemma lookup_chunk_map_None r i : (r <= i)%nat -> chunk_map r !! Z.of_nat i = None.
Proof.
  induction r as [|r IH]; [done|]. intros Hi. rewrite chunk_map_S, lookup_insert_ne by lia.
  apply IH. lia.
Qed.
Lemma size_chunk_map r : size (chunk_map r) = r.
Proof.
  induction r as [|r IH]; [done|]. rewrite chunk_map_S, map_size_insert_None, IH; [done|].
  by apply lookup_chunk_map_None.
Qed.
Lemma chunk_list_map : concat (chunk_list (chunk_map n) n) = content.
Proof.
  rewrite <- (concat_slices content k n (chunks_cover _ _ _ Hck)). f_equal.
  unfold chunk_list. apply list_fmap_ext. intros i j [-> Hj]%lookup_seq. simpl.
  by rewrite (lookup_total_correct _ _ _ (lookup_chunk_map n i Hj)).
Qed.

Lemma receiver_chunk r fs : (r < n)%nat ->
  receiver_moves (Some (chunk_env r)) (rcv_at r) fs = (Continue, rcv_at (S r), fs).
Proof.
  intros Hr. destruct n_u32 as [Hn Hu]. destruct (proof_of_ok r Hr) as [_ Hv].
  destruct (Henc r Hr) as [[b Hb] _].
  unfold receiver_moves, recv_step, chunk_env, WrapMessage, marshal_or_nil. cbn [env_Type env_Payload].
  rewrite Hb. simpl default. rewrite (unmarshal_marshal _ _ Hb).
  change (FILE_CHUNK =? FILE_CHUNK) with true. cbv iota.
  assert (chunk_valid (set_acked x_r (Z.of_nat r)) (chunk_msg r) = true) as Hval.
  { unfold chunk_valid. cbn [set_acked x_RootHash chunk_msg fc_Data fc_Hash fc_Index fc_Proof].
    by rewrite bytes_eqb_refl, Hroot, Hv. }
  cbn [rcv_at r_xfer]. rewrite Hval. unfold keep_chunk. cbn [fc_Index fc_Data chunk_msg rcv_at r_chunks r_xfer r_out r_progress].
  rewrite length_fmap, length_seq, <- chunk_map_S, size_chunk_map.
  cbn [set_acked x_ID x_acked x_Total]. rewrite Hid, Htot, !wrap_u_small by (unfold in_u; lia).
  unfold rcv_at. rewrite envs_S, progress_to_S.
  replace (Z.of_nat r + 1) with (Z.of_nat (S r)) by lia. done.
Qed.

Lemma receiver_complete fs : fs !! Join saveDir (x_Filename x_r) <> Some Dir ->
  exists fs', receiver_moves (Some complete_env) (rcv_at n) fs = (Return (Ok tt), rcv_at n, fs') /\
    fs' !! Join saveDir (x_Filename x_r) = Some (File content) /\
    forall p, p <> Join saveDir (x_Filename x_r) -> fs' !! p = fs !! p.
Proof.
  intros Hdir. destruct n_u32 as [Hn Hu]. set (path := Join _ _) in *.
  assert (exists fs', reassemble good_disk fs (r_xfer (rcv_at n)) (r_chunks (rcv_at n)) saveDir = (Ok tt, fs'))
    as [fs' Hre].
  { unfold reassemble. cbn [rcv_at r_chunks r_xfer set_acked x_Total x_Filename].
    rewrite size_chunk_map, wrap_u_small, Htot, Hn, Z.eqb_refl by (unfold in_u; lia).
    cbn [negb good_disk d_mkdir]. fold path. unfold Create. cbn [d_create good_disk negb].
    assert (forall fs1, fs1 !! path = Some (File []) -> exists fs',
      write_chunks good_disk (chunk_map n) path 0 (Z.to_nat (TotalChunks chunker)) fs1 = (Ok tt, fs')) as Hw.
    { intros fs1 Hf. eapply (write_chunks_total _ _ 0); [|done].
      intros j Hj. rewrite lookup_chunk_map; [done|]. unfold n. lia. }
    destruct (fs !! path) as [[c|]|]; [|done|]; apply Hw, lookup_insert_eq. }
  exists fs'. unfold receiver_moves, recv_step, complete_env, WrapMessage. cbn [env_Type env_Payload].
  change (FILE_COMPLETE =? FILE_CHUNK) with false. change (FILE_COMPLETE =? FILE_COMPLETE) with true.
  cbv iota. rewrite Hre. split_and!; [done| |].
  - apply reassemble_Ok in Hre as [Hf _]. cbn [rcv_at r_chunks r_xfer set_acked x_Total x_Filename] in Hf.
    rewrite Htot in Hf. rewrite <- chunk_list_map. exact Hf.
  - intros q Hq. by eapply reassemble_frame.
Qed.

Definition snd_done : send_st :=
  mkSend ∅ (Z.of_nat n) 0 (acked_set n) (set_acked x_s (Z.of_nat n))
    ((chunk_env <$> seq 0 n) ++ [complete_env]) (progress_to prog_s n).

Let path := Join saveDir (x_Filename x_r).
Context (fs0 : filesystem) (Hdir : fs0 !! path <> Some Dir).

(** The sender with [a] acknowledgements read; the receiver with [r] messages read. *)
Definition sender_at (a : nat) (st : send_st) (res : option (result send_err unit)) : Prop :=
  (a < n)%nat /\ st = snd_at a (edge a) /\ res = None \/
  a = n /\ st = snd_done /\ res = Some (Ok tt).
Definition receiver_at (r : nat) (st : recv_st) (res : option (result recv_err unit))
    (fs : filesystem) : Prop :=
  (r <= n)%nat /\ st = rcv_at r /\ res = None /\ fs = fs0 \/
  r = S n /\ st = rcv_at n /\ res = Some (Ok tt) /\
    fs !! path = Some (File content) /\ forall p, p <> path -> fs !! p = fs0 !! p.
Definition net_inv (N : net) : Prop :=
  sender_at (n_sread N) (n_snd N) (n_sres N) /\
  receiver_at (n_rread N) (n_rcv N) (n_rres N) (n_fs N) /\
  (n_sread N <= n_rread N <= length (s_out (n_snd N)))%nat.

Lemma length_s_out_at a st res : sender_at a st res ->
  length (s_out st) = (if decide (a = n) then S n else edge a)%nat.
Proof.
  intros [(? & -> & _)|(-> & -> & _)].
  - rewrite decide_False by lia. cbn [s_out snd_at]. by rewrite length_fmap, length_seq.
  - rewrite decide_True by done. cbn [s_out snd_done].
    rewrite length_app, length_fmap, length_seq. simpl. lia.
Qed.

Lemma set_acked_0 x : x_acked x = 0 -> set_acked x (Z.of_nat 0) = x.
Proof. intros Hx. unfold set_acked. change (Z.of_nat 0) with 0. rewrite <- Hx. by destruct x. Qed.

Lemma sender_head_at a j : (a <= j <= edge a)%nat -> (a <= n)%nat ->
  forall v st, sender_head fs_s chunker tree kp_s (fun m => Some (ts_s m)) false (snd_at a j) = (v, st) ->
  sender_at a st (outcome_of v).
Proof.
  intros Hj Ha v st. rewrite sender_head_honest by done.
  destruct (decide (a = n)) as [->|]; intros [= <- <-]; [by right|left]. split; [lia|done].
Qed.

Lemma net_inv_init : net_inv (net_init fs0).
Proof.
  unfold net_init. destruct (sender_head _ _ _ _ _ _ _) as [v st] eqn:Hh.
  assert (send_init x_s = snd_at 0 0) as Hi.
  { unfold send_init, snd_at, progress_to. rewrite set_acked_0 by done. by destruct prog_s. }
  rewrite Hi in Hh. apply sender_head_at in Hh; [|unfold edge; lia|lia].
  split; [done|]. split; [|simpl; lia]. left. split; [simpl; lia|]. split; [|done]. simpl.
  unfold recv_init, rcv_at, progress_to. rewrite set_acked_0 by done. by destruct prog_r.
Qed.

Lemma net_inv_step N N' : net_inv N -> net_step N N' -> net_inv N'.
Proof.
  intros HN Hst. destruct Hst as [N1 e v st Hnone Hmsg Hmv|N1 e v st fs' Hnone Hmsg Hmv];
    destruct HN as (Hs & Hr & Hle).
  - destruct Hs as [(Ha & Est & _)|(_ & _ & ?)]; [|congruence].
    assert (exists r, r_out (n_rcv N1) = ack_env <$> seq 0 r /\ (r <= n_rread N1)%nat) as (r & Hro & Hrr).
    { destruct Hr as [(? & -> & _)|(-> & -> & _)]; (eexists; split; [done|lia]). }
    rewrite Hro in Hmsg. apply lookup_envs in Hmsg as [Hlt ->].
    rewrite Est in Hmv. unfold sender_moves, sender_turn in Hmv.
    rewrite sender_ack_honest in Hmv by (unfold edge; lia).
    apply sender_head_at in Hmv; [|unfold edge; lia|lia].
    assert (sender_at (n_sread N1) (n_snd N1) (n_sres N1)) as Hs by (left; done).
    apply length_s_out_at in Hs. pose proof (length_s_out_at _ _ _ Hmv) as Hl.
    split; [done|]. split; [done|]. simpl. rewrite Hl. rewrite decide_False in Hs by lia.
    unfold edge in *. destruct (decide _); lia.
  - pose proof (lookup_lt_Some _ _ _ Hmsg).
    destruct Hr as [(Hrn & Est & _ & Hfs)|(_ & _ & ? & _)]; [|congruence]. rewrite Est, Hfs in Hmv.
    assert ((n_rread N1 < n)%nat /\ e = chunk_env (n_rread N1) \/
            n_rread N1 = n /\ e = complete_env) as [[Hlt ->]|[Heq ->]].
    { destruct Hs as [(Ha & E & _)|(_ & E & _)]; rewrite E in Hmsg; simpl in Hmsg.
      - apply lookup_envs in Hmsg as [? ->]. unfold edge in *. left. split; [lia|done].
      - apply lookup_app_Some in Hmsg as [Hmsg|[Hge Hmsg]].
        + apply lookup_envs in Hmsg as [? ->]. left. split; [lia|done].
        + rewrite length_fmap, length_seq in *.
          apply list_lookup_singleton_Some in Hmsg as [? <-]. right. split; [lia|done]. }
    + rewrite receiver_chunk in Hmv by done. simplify_eq.
      split; [done|]. split; [left; simpl; split; [lia|done]|simpl; lia].
    + rewrite Heq in Hmv. destruct (receiver_complete fs0 Hdir) as (fs1 & Hrc & Hf & Ho).
      rewrite Hrc in Hmv. simplify_eq. split; [done|]. split; [|simpl; lia].
      right. simpl. by rewrite Heq.
Qed.

Lemma net_inv_reachable m N : nsteps net_step m (net_init fs0) N ->
  net_inv N /\ (n_sread N + n_rread N = m)%nat.
Proof.
  intros Hrun.
  assert (forall M, net_inv M -> nsteps net_step m M N ->
    net_inv N /\ (n_sread N + n_rread N = m + (n_sread M + n_rread M))%nat) as Hgen.
  { clear Hrun. intros M HM Hrun. induction Hrun as [M|m M M' N Hstep Hrun IH]; [done|].
    destruct (IH (net_inv_step _ _ HM Hstep)) as [HN Heq]. split; [done|].
    destruct Hstep; simpl in *; lia. }
  destruct (Hgen _ net_inv_init Hrun) as [HN Heq]. split; [done|]. rewrite Heq.
  unfold net_init. destruct (sender_head _ _ _ _ _ _ _). simpl. lia.
Qed.

Lemma net_progress N : net_inv N -> n_sres N = None \/ n_rres N = None -> exists N', net_step N N'.
Proof.
  intros (Hs & Hr & Hle) Hrun.
  destruct Hr as [(Hrn & Er & Hrr & Hfs)|(Hrn & _ & Hrr & _)].
  - assert (is_Some (s_out (n_snd N) !! n_rread N) \/ exists e, n_sres N = None /\
      r_out (n_rcv N) !! n_sread N = Some e) as [[e He]|(e & Hsr & He)].
    { destruct Hs as [(Ha & Es & Esr)|(Ha & Es & Esr)]; rewrite Es, Er; simpl.
      - destruct (decide (n_rread N < edge (n_sread N))%nat); [left|right].
        + rewrite list_lookup_fmap, lookup_seq_lt by done. by eexists.
        + exists (ack_env (n_sread N)). split; [done|].
          unfold edge in *. rewrite list_lookup_fmap, lookup_seq_lt by lia. done.
      - left. apply lookup_lt_is_Some_2. rewrite length_app, length_fmap, length_seq. simpl. lia. }
    + destruct (receiver_moves (Some e) (n_rcv N) (n_fs N)) as [[v st] fs'] eqn:Hm.
      eexists. by eapply step_receiver.
    + destruct (sender_moves (Some e) false (n_snd N)) as [v st] eqn:Hm.
      eexists. by eapply step_sender.
  - destruct Hs as [(Ha & Es & Esr)|(_ & _ & Esr)].
    + exfalso. rewrite Es in Hle. cbn [s_out snd_at] in Hle.
      rewrite length_fmap, length_seq in Hle. unfold edge in Hle. lia.
    + destruct Hrun; congruence.
Qed.


(** C7. The sliding window: in every state such a transfer can reach, at most [WindowSize]
    chunks are in flight, [inFlight] is exactly the number of chunks written and not yet
    acknowledged, [acked] counts each chunk once, neither loop has failed, every chunk is
    written exactly once and in order before the completion message, and every chunk is
    acknowledged exactly once. *)
Theorem window_invariant m N :
  nsteps net_step m (net_init fs0) N ->
  0 <= inFlight (n_snd N) <= WindowSize /\
  inFlight (n_snd N) = nextToSend (n_snd N) - Z.of_nat (size (acked (n_snd N))) /\
  Acked (s_xfer (n_snd N)) = Z.of_nat (size (acked (n_snd N))) /\
  (forall e, n_sres N <> Some (Err e)) /\ (forall e, n_rres N <> Some (Err e)) /\
  s_out (n_snd N) `prefix_of` (chunk_env <$> seq 0 (Z.to_nat (TotalChunks chunker))) ++ [complete_env] /\
  r_out (n_rcv N) `prefix_of` (ack_env <$> seq 0 (Z.to_nat (TotalChunks chunker))).
Proof.
  intros [(Hs & Hr & _) _]%net_inv_reachable. fold n.
  assert (forall (f : nat -> Envelope) j, (j <= n)%nat -> f <$> seq 0 j `prefix_of` f <$> seq 0 n) as Hpre.
  { intros f j Hj. replace n with (j + (n - j))%nat by lia. rewrite seq_app, fmap_app. by apply prefix_app_r. }
  assert (r_out (n_rcv N) `prefix_of` (ack_env <$> seq 0 n) /\ (forall e, n_rres N <> Some (Err e)))
    as [Hro Hre].
  { destruct Hr as [(? & -> & -> & _)|(? & -> & -> & _)]; cbn [r_out rcv_at]; (split; [by apply Hpre|done]). }
  destruct Hs as [(Ha & -> & ->)|(Ha & -> & ->)];
    cbn [inFlight nextToSend acked s_xfer s_out snd_at snd_done];
    rewrite size_acked_set; unfold WindowSize, edge, Acked; cbn [x_acked set_acked].
  - split_and!; try done; try lia. apply prefix_app_r, Hpre. lia.
  - split_and!; try done; lia.
Qed.

(** ** The two loops as functions of what they read *)

Lemma sender_loop_honest a : (a < n)%nat ->
  sender_loop fs_s chunker tree kp_s prog_s (fun m => Some (ts_s m))
    ((fun i => (Some (ack_env i), false)) <$> seq a (n - a)) (snd_at a (edge a)) = (Ok tt, snd_done).
Proof.
  remember (n - a)%nat as d eqn:Hd. revert a Hd. induction d as [|d IH]; intros a Hd Ha; [lia|].
  cbn [seq fmap list_fmap sender_loop]. unfold sender_turn. rewrite sender_ack_honest by (unfold edge; lia).
  rewrite sender_head_honest by (unfold edge; lia). destruct (decide (S a = n)) as [He|]; [done|]. apply IH; lia.
Qed.

(** With every acknowledgment read, the sender writes the chunks and the completion. *)
Lemma sendChunks_honest :
  sendChunks fs_s chunker tree kp_s prog_s (fun m => Some (ts_s m)) false
    ((fun i => (Some (ack_env i), false)) <$> seq 0 n) x_s = (Ok tt, snd_done).
Proof.
  pose proof n_u32. unfold sendChunks.
  assert (send_init x_s = snd_at 0 0) as ->.
  { unfold send_init, snd_at, progress_to. rewrite set_acked_0 by done. by destruct prog_s. }
  rewrite sender_head_honest by (unfold edge; lia). rewrite decide_False by lia.
  rewrite <- (Nat.sub_0_r n). apply sender_loop_honest. lia.
Qed.

Lemma receiveChunks_from r rest fs : (r <= n)%nat ->
  receiveChunks kp_r prog_r (fun m => Some (ts_r m)) good_disk saveDir
    (((fun i => Some (chunk_env i)) <$> seq r (n - r)) ++ rest) (rcv_at r) fs =
  receiveChunks kp_r prog_r (fun m => Some (ts_r m)) good_disk saveDir rest (rcv_at n) fs.
Proof.
  remember (n - r)%nat as d eqn:Hd. revert r Hd. induction d as [|d IH]; intros r Hd Hr.
  { assert (r = n) as -> by lia. done. }
  cbn [seq fmap list_fmap app receiveChunks]. pose proof (receiver_chunk r fs ltac:(lia)) as Hc. unfold receiver_moves in Hc.
  rewrite Hc. apply IH; lia.
Qed.

(** With every chunk and the completion read, the receiver acknowledges each and the file is there. *)
Lemma receiveChunks_honest : exists fs',
  receiveChunks kp_r prog_r (fun m => Some (ts_r m)) good_disk saveDir
    (((fun i => Some (chunk_env i)) <$> seq 0 n) ++ [Some complete_env]) (recv_init x_r) fs0 = (Ok tt, rcv_at n, fs') /\
  fs' !! path = Some (File content) /\ forall p, p <> path -> fs' !! p = fs0 !! p.
Proof.
  assert (recv_init x_r = rcv_at 0) as ->.
  { unfold recv_init, rcv_at, progress_to. rewrite set_acked_0 by done. by destruct prog_r. }
  destruct (receiver_complete fs0 Hdir) as (fs' & Hc & Hf & Ho). exists fs'. split; [|done].
  pose proof (receiveChunks_from 0 [Some complete_env] fs0 ltac:(lia)) as Hr. rewrite Nat.sub_0_r in Hr. rewrite Hr.
  cbn [receiveChunks]. unfold receiver_moves in Hc. by rewrite Hc.
Qed.
End honest.

(** A scheduler: the receiver moves while it can, then the sender. *)
Definition receiver_next (N : net) : option net :=
  if bool_decide (n_rres N = None) then
    e ← s_out (n_snd N) !! n_rread N;
    let '(v, st, fs') := receiver_moves (Some e) (n_rcv N) (n_fs N) in
    Some (mkNet (n_snd N) (n_sres N) (n_sread N) st (outcome_of v) (S (n_rread N)) fs')
  else None.
Definition sender_next (N : net) : option net :=
  if bool_decide (n_sres N = None) then
    e ← r_out (n_rcv N) !! n_sread N;
    let '(v, st) := sender_moves (Some e) false (n_snd N) in
    Some (mkNet st (outcome_of v) (S (n_sread N)) (n_rcv N) (n_rres N) (n_rread N) (n_fs N))
  else None.
Definition net_next (N : net) : option net :=
  match receiver_next N with Some N' => Some N' | None => sender_next N end.

Lemma net_next_sound N N' : net_next N = Some N' -> net_step N N'.
Proof.
  unfold net_next. destruct (receiver_next N) as [N1|] eqn:Hr.
  - intros [= <-]. unfold receiver_next in Hr. case_bool_decide as Hn; [|done].
    apply bind_Some in Hr as (e & He & Hr).
    destruct (receiver_moves _ _ _) as [[v st] fs'] eqn:Hm. injection Hr as <-. by eapply step_receiver.
  - intros Hs. unfold sender_next in Hs. case_bool_decide as Hn; [|done].
    apply bind_Some in Hs as (e & He & Hs).
    destruct (sender_moves _ _ _) as [v st] eqn:Hm. injection Hs as <-. by eapply step_sender.
Qed.

Lemma net_next_complete N : net_next N = None -> forall N', ~ net_step N N'.
Proof.
  unfold net_next, receiver_next, sender_next. intros Hnext N' Hstep.
  destruct Hstep as [N e v st Hn He Hm|N e v st fs' Hn He Hm].
  - destruct (if bool_decide (n_rres N = None) then _ else None); [done|].
    rewrite bool_decide_eq_true_2, He in Hnext by done. cbn [mbind option_bind] in Hnext. by rewrite Hm in Hnext.
  - rewrite bool_decide_eq_true_2, He in Hnext by done. cbn [mbind option_bind] in Hnext. by rewrite Hm in Hnext.
Qed.

Fixpoint net_exec (m : nat) (N : net) : option net :=
  match m with O => Some N | S m => N' ← net_next N; net_exec m N' end.

Lemma net_exec_sound m N N' : net_exec m N = Some N' -> nsteps net_step m N N'.
Proof.
  revert N. induction m as [|m IH]; intros N; simpl; [intros [= ->]; constructor|].
  intros (N1 & Hn & He)%bind_Some. apply (nsteps_l _ _ _ N1); [by apply net_next_sound|by apply IH].
Qed.
End transfer.

(** ** Where the file is written *)

(** C10. The offered file name decides the path: a plain name is written inside the save
    directory; but the name is used as it arrives, so for every absolute save directory and
    every absolute target there are names (enough [..] and then the target) for which a
    completed transfer writes the target, outside the save directory. *)
Theorem save_path_contract d fs x chunks saveDir fs' :
  is_rooted saveDir = true ->
  reassemble d fs x chunks saveDir = (Ok tt, fs') ->
  (plain (x_Filename x) ->
    fs' !! render true (x_Filename x :: clean_stack saveDir) =
      Some (File (concat (chunk_list chunks (Z.to_nat (x_Total x)))))) /\
  (forall target up, Forall plain target -> target <> [] ->
    (length (clean_stack saveDir) <= up)%nat ->
    x_Filename x = join_slash (replicate up ".."%string ++ target) ->
    fs' !! String slash (join_slash target) =
      Some (File (concat (chunk_list chunks (Z.to_nat (x_Total x)))))).
Proof.
  intros Hroot (Hf & _)%reassemble_Ok. split.
  - intros Hp. rewrite Join_plain in Hf; [by rewrite Hroot in Hf|by destruct saveDir|done].
  - intros target up Ht Hne Hup Hname. rewrite Hname, Join_escape in Hf; done.
Qed.

Section samples.
Import Toy.

Definition sample_chunk_hashes : list bytes :=
  match AllChunkHashes sample_fs sample_chunker with Ok hs => hs | Err _ => [] end.
Definition sample_chunk_tree : MerkleTree :=
  match BuildMerkleTree sample_chunk_hashes with Ok t => t | Err _ => mkTree [] [] 0 end.
Definition sample_transfer (dir : string) : Transfer :=
  mkTransfer "t1" "f.bin" 5 2 (TotalChunks sample_chunker) (Root sample_chunk_tree) "peer" dir 0 false false.
Definition sample_net_init : net :=
  net_init sample_fs sample_chunker sample_chunk_tree (sample_keypair 1)
    (fun n => 1700000000000 + Z.of_nat n) (sample_transfer "send") (sample_transfer "receive") ∅.
Definition sample_net_step := net_step sample_fs sample_chunker sample_chunk_tree (sample_keypair 1)
  (sample_keypair 2) true true (fun n => 1700000000000 + Z.of_nat n)
  (fun n => 1700000000000 + Z.of_nat n) "/in".
Definition sample_net_final : net := default sample_net_init
  (net_exec sample_fs sample_chunker sample_chunk_tree (sample_keypair 1) (sample_keypair 2) true true
    (fun n => 1700000000000 + Z.of_nat n) (fun n => 1700000000000 + Z.of_nat n) "/in" 7 sample_net_init).

Lemma sample_tree_ok : exists hs,
  AllChunkHashes sample_fs sample_chunker = Ok hs /\ BuildMerkleTree hs = Ok sample_chunk_tree.
Proof. exists sample_chunk_hashes. split; vm_compute; reflexivity. Qed.

Lemma sample_encodable :
  encodable sample_chunker sample_chunk_tree (sample_transfer "send") sample_content.
Proof.
  intros i Hi. change (i < 3)%nat in Hi.
  destruct i as [|[|[|]]]; [..|lia]; split; vm_compute; eexists; reflexivity.
Qed.

Lemma sample_run : nsteps sample_net_step 7 sample_net_init sample_net_final.
Proof. apply net_exec_sound. vm_compute. reflexivity. Qed.

Lemma sample_run_stuck N' : ~ sample_net_step sample_net_final N'.
Proof. apply net_next_complete. vm_compute. reflexivity. Qed.

Lemma no_dir_in_empty p : (∅ : filesystem) !! p <> Some Dir.
Proof. by rewrite lookup_empty. Qed.


Lemma window_invariant_witness :
  0 <= inFlight (n_snd sample_net_final) <= WindowSize /\
  Acked (s_xfer (n_snd sample_net_final)) = 3.
Proof.
  destruct (window_invariant sample_fs sample_chunker sample_chunk_tree (sample_keypair 1)
    (sample_keypair 2) true true (fun n => 1700000000000 + Z.of_nat n)
    (fun n => 1700000000000 + Z.of_nat n) "/in" (sample_transfer "send") (sample_transfer "receive")
    sample_content sample_chunker_ok sample_tree_ok eq_refl eq_refl eq_refl sample_encodable
    eq_refl eq_refl ∅ (no_dir_in_empty _) 7 sample_net_final sample_run) as (H & _). split; [exact H|].
  vm_compute. reflexivity.
Defined.

(** An offer named so that the file lands in [/etc]. *)
Definition hostile_transfer : Transfer :=
  mkTransfer "t2" "../../etc/passwd" 1 1 1 [] "peer" "receive" 0 false false.
Definition hostile_fs : filesystem :=
  (reassemble good_disk ∅ hostile_transfer {[ 0 := [Byte.x41] ]} "/home/ensemble").2.

Lemma save_path_contract_witness :
  hostile_fs !! "/etc/passwd"%string = Some (File [Byte.x41]).
Proof.
  destruct (save_path_contract good_disk ∅ hostile_transfer {[ 0 := [Byte.x41] ]}
    "/home/ensemble" hostile_fs) as [_ H]; [reflexivity|vm_compute; reflexivity|].
  assert ("/etc/passwd"%string = String slash (join_slash ["etc"; "passwd"]%string)) as Hp by reflexivity.
  rewrite Hp, (H ["etc"; "passwd"]%string 2%nat); [reflexivity| |done|vm_compute; lia|reflexivity].
  repeat constructor; done.
Defined.
End samples.
