(* ===== verification/Routing.v ===== *)
(** * internal/discovery/routing.go

    Node identifiers, the XOR metric and the Kademlia routing table with its
    anti-Sybil insertion limits. *)

From stdpp Require Import sorting.
From S2P Require Import Prelude GoStd Sha256 Crypto Protocol Instances.
Import Sha256.
Local Open Scope go_scope.

(** ** Node identifiers *)

Definition IDLength : nat := 20.
Definition NumBuckets : nat := 160.
Definition K : nat := 20.

(** A [NodeID] is an array of [IDLength] bytes; [at_ a i] is [a[i]]. *)
Abbreviation NodeID := bytes.
Definition at_ (a : NodeID) (i : nat) : byte := default Byte.x00 (a !! i).

Definition zero_id : NodeID := replicate IDLength Byte.x00.

(** [var id NodeID; copy(id[:], src)] *)
Definition copy_id (src : bytes) : NodeID :=
  take IDLength src ++ replicate (IDLength - length src) Byte.x00.

Section ids.
Context `{Ripemd160, Base58}.

(** src: internal/discovery/routing.go 39-46 NodeIDFromPublicKey *)
Definition NodeIDFromPublicKey (pubKey : bytes) : NodeID := copy_id (ripemd160 (Sum256 pubKey)).

(** src: internal/discovery/routing.go 49-61 NodeIDFromAddress *)
Definition NodeIDFromAddress (addr : string) : option NodeID :=
  data ← b58_decode addr;
  if (length data <? 25)%nat then None else Some (copy_id (take 20 (drop 1 data))).
End ids.

(** src: internal/discovery/routing.go 64-70 Distance *)
Definition Distance (a b : NodeID) : NodeID := (fun i => bxor (at_ a i) (at_ b i)) <$> seq 0 IDLength.

(** [for bit := 7; bit >= 0; bit--], entered with [bit = n - 1]. *)
(** src: internal/discovery/routing.go 79-83 CommonPrefixLen *)
Fixpoint first_bit (x : byte) (n : nat) : option nat :=
  match n with
  | O => None
  | S bit =>
      if negb (Z.land (b2z x) (Z.shiftl 1 (Z.of_nat bit)) =? 0) then Some (7 - bit)%nat
      else first_bit x bit
  end.

(** src: internal/discovery/routing.go 74-86 CommonPrefixLen *)
Fixpoint cpl_loop (idx : list nat) (a b : NodeID) : nat :=
  match idx with
  | [] => NumBuckets
  | i :: idx =>
      let x := bxor (at_ a i) (at_ b i) in
      if bool_decide (x = Byte.x00) then cpl_loop idx a b
      else match first_bit x 8 with
           | Some k => (i * 8 + k)%nat
           | None => cpl_loop idx a b
           end
  end.

(** src: internal/discovery/routing.go 73-86 CommonPrefixLen *)
Definition CommonPrefixLen (a b : NodeID) : nat := cpl_loop (seq 0 IDLength) a b.

(** src: internal/discovery/routing.go 476-484 compareDist *)
Fixpoint compare_loop (idx : list nat) (a b : NodeID) : Z :=
  match idx with
  | [] => 0
  | i :: idx =>
      if b2z (at_ a i) <? b2z (at_ b i) then -1
      else if b2z (at_ b i) <? b2z (at_ a i) then 1
      else compare_loop idx a b
  end.

(** src: internal/discovery/routing.go 475-485 compareDist *)
Definition compareDist (a b : NodeID) : Z := compare_loop (seq 0 IDLength) a b.

(** ** The table *)

(** src: internal/discovery/routing.go 89-103 PeerInfo *)
Record PeerInfo := mkPeer {
  p_ID : NodeID; p_Address : string; p_OnionAddr : string;
  p_LastSeen : Z; (* time.Time *)
  p_Failures : Z
}.

(** src: internal/discovery/routing.go 111-114 sourceTracker *)
Record sourceTracker := mkTracker { st_count : Z; st_times : list Z }.

(** src: internal/discovery/routing.go 117-129 RoutingTable *)
Record RoutingTable := mkRT {
  rt_local : NodeID;
  rt_buckets : list (list PeerInfo);
  rt_MaxPerSource : Z;
  rt_RateLimit : Z;
  rt_RateWindow : Z;
  rt_sources : gmap NodeID sourceTracker
}.

(** src: internal/discovery/routing.go 132-140 NewRoutingTable *)
Definition NewRoutingTable (local : NodeID) : RoutingTable :=
  mkRT local (replicate NumBuckets []) 50 10 GoTime.Minute ∅.

Definition set_buckets (rt : RoutingTable) (bs : list (list PeerInfo)) : RoutingTable :=
  mkRT (rt_local rt) bs (rt_MaxPerSource rt) (rt_RateLimit rt) (rt_RateWindow rt) (rt_sources rt).
Definition set_sources (rt : RoutingTable) (s : gmap NodeID sourceTracker) : RoutingTable :=
  mkRT (rt_local rt) (rt_buckets rt) (rt_MaxPerSource rt) (rt_RateLimit rt) (rt_RateWindow rt) s.

(** src: internal/discovery/routing.go 424-446 RoutingTable.checkRateLimit *)
Definition checkRateLimit (rt : RoutingTable) (source : NodeID) (now : Z) : bool :=
  match rt_sources rt !! source with
  | None => true
  | Some tracker =>
      if rt_MaxPerSource rt <=? st_count tracker then false
      else
        let cutoff := GoTime.Add now (- rt_RateWindow rt) in
        let recent := length (List.filter (fun t => GoTime.After t cutoff) (st_times tracker)) in
        Z.of_nat recent <? rt_RateLimit rt
  end.

(** src: internal/discovery/routing.go 449-472 RoutingTable.recordInsertion *)
Definition recordInsertion (rt : RoutingTable) (source : NodeID) (now : Z) : RoutingTable :=
  let tracker := default (mkTracker 0 []) (rt_sources rt !! source) in
  let cutoff := GoTime.Add now (- rt_RateWindow rt) in
  let times := List.filter (fun t => GoTime.After t cutoff) (st_times tracker ++ [now]) in
  set_sources rt (<[source := mkTracker (st_count tracker + 1) times]> (rt_sources rt)).

(** The two clock readings are those of [checkRateLimit] and [recordInsertion]. *)
(** src: internal/discovery/routing.go 145-186 RoutingTable.AddPeer *)
Definition AddPeer (rt : RoutingTable) (peer : PeerInfo) (source : NodeID) (now1 now2 : Z) :
    bool * RoutingTable :=
  if bool_decide (p_ID peer = rt_local rt) then (false, rt)
  else
    let cpl := CommonPrefixLen (rt_local rt) (p_ID peer) in
    if (NumBuckets <=? cpl)%nat then (false, rt)
    else
      let bucket := default [] (rt_buckets rt !! cpl) in
      match find_index (fun p => bool_decide (p_ID p = p_ID peer)) bucket with
      | Some i =>
          let p := nth i bucket peer in
          let entry := mkPeer (p_ID p) (p_Address p) (p_OnionAddr peer) (p_LastSeen peer) (p_Failures p) in
          (true, set_buckets rt (<[cpl := remove_at i bucket ++ [entry]]> (rt_buckets rt)))
      | None =>
          if negb (checkRateLimit rt source now1) then (false, rt)
          else if (length bucket <? K)%nat then
            (true, recordInsertion
              (set_buckets rt (<[cpl := bucket ++ [peer]]> (rt_buckets rt))) source now2)
          else (false, rt)
      end.

(** The two nested loops that act on the first peer a test accepts: [f] is what
    becomes of it, [None] removes it. *)
Fixpoint on_first (P : PeerInfo -> bool) (f : PeerInfo -> option PeerInfo) (bs : list (list PeerInfo)) :
    option (PeerInfo * list (list PeerInfo)) :=
  match bs with
  | [] => None
  | b :: bs =>
      match find_index P b with
      | Some j =>
          p ← b !! j;
          Some (p, match f p with
                   | None => remove_at j b
                   | Some p' => <[j := p']> b
                   end :: bs)
      | None => '(p, bs') ← on_first P f bs; Some (p, b :: bs')
      end
  end.

(** src: internal/discovery/routing.go 189-203 RoutingTable.RemovePeer *)
Definition RemovePeer (rt : RoutingTable) (addr : string) : bool * RoutingTable :=
  match on_first (fun p => bool_decide (p_Address p = addr)) (fun _ => None) (rt_buckets rt) with
  | Some (_, bs) => (true, set_buckets rt bs)
  | None => (false, rt)
  end.

(** src: internal/discovery/routing.go 213-230 RoutingTable.Evict *)
Definition stale (maxAge now : Z) (p : PeerInfo) : bool :=
  GoTime.IsZero (p_LastSeen p) || ((0 <? maxAge) && (maxAge <? GoTime.Sub now (p_LastSeen p))).

(** Keep the peers a test rejects, bucket by bucket, in order. *)
Definition drop_peers (P : PeerInfo -> bool) (bs : list (list PeerInfo)) : list (list PeerInfo) :=
  List.filter (fun p => negb (P p)) <$> bs.

(** src: internal/discovery/routing.go 208-238 RoutingTable.Evict *)
Definition Evict (rt : RoutingTable) (maxAge now : Z) : nat * RoutingTable :=
  (length (List.filter (stale maxAge now) (concat (rt_buckets rt))),
   set_buckets rt (drop_peers (stale maxAge now) (rt_buckets rt))).

(** src: internal/discovery/routing.go 243-256 RoutingTable.RecordFailure *)
Definition RecordFailure (rt : RoutingTable) (onionAddr : string) : Z * RoutingTable :=
  match on_first (fun p => bool_decide (p_OnionAddr p = onionAddr))
          (fun p => Some (mkPeer (p_ID p) (p_Address p) (p_OnionAddr p) (p_LastSeen p)
                            (i64 (p_Failures p + 1)))) (rt_buckets rt) with
  | Some (p, bs) => (i64 (p_Failures p + 1), set_buckets rt bs)
  | None => (0, rt)
  end.

(** src: internal/discovery/routing.go 260-272 RoutingTable.RecordSuccess *)
Definition RecordSuccess (rt : RoutingTable) (onionAddr : string) : RoutingTable :=
  match on_first (fun p => bool_decide (p_OnionAddr p = onionAddr))
          (fun p => Some (mkPeer (p_ID p) (p_Address p) (p_OnionAddr p) (p_LastSeen p) 0))
          (rt_buckets rt) with
  | Some (_, bs) => set_buckets rt bs
  | None => rt
  end.

(** src: internal/discovery/routing.go 277-302 RoutingTable.EvictByFailures *)
Definition EvictByFailures (rt : RoutingTable) (threshold : Z) : list PeerInfo * RoutingTable :=
  if threshold <=? 0 then ([], rt)
  else
    let failing p := threshold <=? p_Failures p in
    (List.filter failing (concat (rt_buckets rt)),
     set_buckets rt (drop_peers failing (rt_buckets rt))).

(** The comparison function of [FindClosest]'s [sort.Slice]. *)
(** src: internal/discovery/routing.go 317-321 RoutingTable.FindClosest *)
Definition closer (target : NodeID) (p q : PeerInfo) : bool :=
  compareDist (Distance (p_ID p) target) (Distance (p_ID q) target) <? 0.

(** src: internal/discovery/routing.go 347-359 RoutingTable.AllPeers *)
Definition AllPeers (rt : RoutingTable) : list PeerInfo := concat (rt_buckets rt).

(** src: internal/discovery/routing.go 305-327 RoutingTable.FindClosest *)
Definition FindClosest (rt : RoutingTable) (target : NodeID) (count : nat) : list PeerInfo :=
  let all := sort_slice (closer target) (AllPeers rt) in
  if (count <? length all)%nat then take count all else all.

(** src: internal/discovery/routing.go 330-339 RoutingTable.Size *)
Definition Size_ (rt : RoutingTable) : nat :=
  fold_left (fun n b => (n + length b)%nat) (rt_buckets rt) 0%nat.

(** ** Persistence

    A saved table is a JSON array of peers without their failure counters.  [utf8]
    is what JSON makes of a string (invalid UTF-8 is replaced); [Time.MarshalJSON]
    fails outside the years 0 to 9999. *)
Definition minJSONTime : Z := - 62167219200 * GoTime.Second.
Definition maxJSONTime : Z := 253402300800 * GoTime.Second.

Definition json_time_ok (t : Z) : bool := (minJSONTime <=? t) && (t <? maxJSONTime).

Inductive file_state := NotExist | Unreadable | Malformed | Saved (peers : list PeerInfo).

Section persistence.
Context (utf8 : string -> string).

Definition json_peer (p : PeerInfo) : PeerInfo :=
  mkPeer (p_ID p) (utf8 (p_Address p)) (utf8 (p_OnionAddr p)) (p_LastSeen p) 0.

Definition json_peers (ps : list PeerInfo) : option (list PeerInfo) :=
  if forallb (fun p => json_time_ok (p_LastSeen p)) ps then Some (json_peer <$> ps) else None.

(** [disk_ok]: [MkdirAll] and [WriteFile] succeed. *)
(** src: internal/discovery/routing.go 362-380 RoutingTable.Save *)
Definition Save (rt : RoutingTable) (disk_ok : bool) (file : file_state) : bool * file_state :=
  match json_peers (AllPeers rt) with
  | None => (false, file)
  | Some doc => if disk_ok then (true, Saved doc) else (false, file)
  end.
End persistence.

(** src: internal/discovery/routing.go 406-418 RoutingTable.Load *)
Definition load_peer (rt : RoutingTable) (p : PeerInfo) : RoutingTable :=
  if bool_decide (p_ID p = rt_local rt) then rt
  else
    let cpl := CommonPrefixLen (rt_local rt) (p_ID p) in
    if (NumBuckets <=? cpl)%nat then rt
    else
      let bucket := default [] (rt_buckets rt !! cpl) in
      if (length bucket <? K)%nat
      then set_buckets rt (<[cpl := bucket ++ [p]]> (rt_buckets rt))
      else rt.

(** src: internal/discovery/routing.go 384-421 RoutingTable.Load *)
Definition Load_ (rt : RoutingTable) (file : file_state) : bool * RoutingTable :=
  match file with
  | NotExist => (true, rt)
  | Unreadable | Malformed => (false, rt)
  | Saved peers =>
      let peers := sort_slice (fun p q => GoTime.After (p_LastSeen p) (p_LastSeen q)) peers in
      (true, fold_left load_peer peers rt)
  end.

(** ** The XOR metric as a number *)

(** The bytes the loops read, and the distance as a 160-bit number. *)
Definition read (idx : list nat) (a : NodeID) : bytes := at_ a <$> idx.
Definition dist (a b : NodeID) : Z := BigEndian.get (Distance a b).

Lemma dist_eq a b : dist a b = BigEndian.get (Distance a b).
Proof. reflexivity. Qed.

Lemma dist_nonneg a b : 0 <= dist a b.
Proof. rewrite dist_eq. apply BigEndian.get_range. Qed.

Lemma length_Distance a b : length (Distance a b) = IDLength.
Proof. unfold Distance. by rewrite length_fmap, length_seq. Qed.

Lemma at_Distance a b i : (i < IDLength)%nat -> at_ (Distance a b) i = bxor (at_ a i) (at_ b i).
Proof. intros Hi. unfold Distance, at_ at 1. by rewrite list_lookup_fmap, lookup_seq_lt. Qed.

Lemma compare_loop_spec idx a b :
  compare_loop idx a b =
    match BigEndian.get (read idx a) ?= BigEndian.get (read idx b) with
    | Lt => -1 | Gt => 1 | Eq => 0
    end.
Proof.
  induction idx as [|i idx IH]; [done|]. cbn [compare_loop]. unfold read in *. rewrite !fmap_cons.
  rewrite !BigEndian.get_cons, !length_fmap, IH.
  pose proof (BigEndian.get_range (at_ a <$> idx)) as Ha. rewrite length_fmap in Ha.
  pose proof (BigEndian.get_range (at_ b <$> idx)) as Hb. rewrite length_fmap in Hb.
  set (m := 256 ^ _) in *.
  destruct (Z.ltb_spec (b2z (at_ a i)) (b2z (at_ b i))).
  { rewrite (proj2 (Z.compare_lt_iff _ _)); [done|nia]. }
  destruct (Z.ltb_spec (b2z (at_ b i)) (b2z (at_ a i))).
  { rewrite (proj2 (Z.compare_gt_iff _ _)); [done|nia]. }
  replace (b2z (at_ b i)) with (b2z (at_ a i)) by lia.
  by rewrite Z.add_compare_mono_l.
Qed.

Lemma read_full a : length a = IDLength -> read (seq 0 IDLength) a = a.
Proof.
  intros Ha. apply list_eq. intros i. unfold read. rewrite list_lookup_fmap.
  destruct (decide (i < IDLength)%nat).
  - rewrite lookup_seq_lt by done. simpl. unfold at_.
    destruct (lookup_lt_is_Some_2 a i) as [x Hx]; [lia|]. by rewrite Hx.
  - rewrite (lookup_ge_None_2 (seq _ _)) by (rewrite length_seq; lia). simpl.
    by rewrite lookup_ge_None_2 by lia.
Qed.

Lemma compareDist_Distance a b c :
  compareDist (Distance a c) (Distance b c) =
    match dist a c ?= dist b c with Lt => -1 | Gt => 1 | Eq => 0 end.
Proof.
  unfold compareDist, dist. rewrite compare_loop_spec, !read_full; [done|..]; apply length_Distance.
Qed.

Lemma closer_spec target p q : closer target p q = (dist (p_ID p) target <? dist (p_ID q) target).
Proof.
  unfold closer. rewrite compareDist_Distance. unfold Z.ltb.
  by destruct (dist (p_ID p) target ?= dist (p_ID q) target).
Qed.

#[export] Instance closer_order target : StrictWeakOrder (closer target).
Proof.
  split; intros *; rewrite !closer_spec.
  - intros ?%Z.ltb_lt. apply Z.ltb_ge. lia.
  - intros ?%Z.ltb_ge ?%Z.ltb_ge. apply Z.ltb_ge. lia.
Qed.

Lemma get_inj l1 l2 : length l1 = length l2 -> BigEndian.get l1 = BigEndian.get l2 -> l1 = l2.
Proof.
  revert l2. induction l1 as [|x l1 IH]; intros [|y l2]; try done. intros [= Hl].
  rewrite !BigEndian.get_cons, Hl. intros Heq.
  pose proof (BigEndian.get_range l1) as H1. rewrite Hl in H1.
  pose proof (BigEndian.get_range l2) as H2. set (m := 256 ^ _) in *.
  assert (b2z x = b2z y) as Hxy by nia. f_equal; [by apply b2z_inj|]. apply IH; [done|nia].
Qed.

(** Distinct identifiers are at distinct distances from every target. *)
Lemma dist_inj a b c : length a = IDLength -> length b = IDLength -> dist a c = dist b c -> a = b.
Proof.
  rewrite !dist_eq. intros Ha Hb H%get_inj; [|by rewrite !length_Distance].
  rewrite <- (read_full a), <- (read_full b) by done. unfold read.
  apply list_fmap_ext. intros i j [-> Hi]%lookup_seq.
  change (at_ a i = at_ b i). assert (at_ (Distance a c) i = at_ (Distance b c) i) as Heq by congruence.
  rewrite !at_Distance in Heq by done. by eapply bxor_inj_r.
Qed.

Lemma first_bit_spec x : x <> Byte.x00 ->
  exists k, first_bit x 8 = Some k /\ (k < 8)%nat /\
    2 ^ (7 - Z.of_nat k) <= b2z x < 2 ^ (8 - Z.of_nat k).
Proof.
  intros Hx.
  assert (forall y, y = Byte.x00 \/ exists k, first_bit y 8 = Some k /\ (k < 8)%nat /\
    2 ^ (7 - Z.of_nat k) <= b2z y < 2 ^ (8 - Z.of_nat k)) as Hall.
  { intros []; (by left) || (right; eexists; split; [vm_compute; reflexivity|]; split; [lia|split; vm_compute; congruence]). }
  destruct (Hall x); [congruence|done].
Qed.

Lemma get_xor_cons i idx a b :
  BigEndian.get ((fun j => bxor (at_ a j) (at_ b j)) <$> i :: idx) =
    b2z (bxor (at_ a i) (at_ b i)) * 256 ^ Z.of_nat (length idx)
    + BigEndian.get ((fun j => bxor (at_ a j) (at_ b j)) <$> idx).
Proof. rewrite fmap_cons, BigEndian.get_cons. by rewrite length_fmap. Qed.

Lemma cpl_loop_spec m i a b :
  (i + m = IDLength)%nat ->
  let d := BigEndian.get ((fun j => bxor (at_ a j) (at_ b j)) <$> seq i m) in
  if decide (d = 0) then cpl_loop (seq i m) a b = NumBuckets
  else exists c, cpl_loop (seq i m) a b = c /\ (c < NumBuckets)%nat /\
    2 ^ (159 - Z.of_nat c) <= d < 2 ^ (160 - Z.of_nat c).
Proof.
  revert i. induction m as [|m IH]; intros i Hi; [done|]. cbv zeta. cbn [seq].
  rewrite get_xor_cons, length_seq. cbn [cpl_loop]. specialize (IH (S i) ltac:(lia)). cbv zeta in IH.
  set (d := BigEndian.get (_ <$> seq (S i) m)) in *.
  assert (0 <= d < 256 ^ Z.of_nat m) as Hd.
  { pose proof (BigEndian.get_range ((fun j => bxor (at_ a j) (at_ b j)) <$> seq (S i) m)) as Hr.
    by rewrite length_fmap, length_seq in Hr. }
  case_bool_decide as Hx.
  { rewrite Hx. exact IH. }
  destruct (first_bit_spec _ Hx) as (k & -> & Hk & Hlo & Hhi).
  set (x := b2z _) in *. assert (256 ^ Z.of_nat m = 2 ^ (8 * Z.of_nat m)) as Hm
    by (rewrite Z.pow_mul_r by lia; done).
  assert (0 < 2 ^ (7 - Z.of_nat k)) by (apply Z.pow_pos_nonneg; lia).
  assert (0 < 2 ^ (8 * Z.of_nat m)) by (apply Z.pow_pos_nonneg; lia).
  rewrite decide_False by nia.
  eexists. split; [done|]. unfold IDLength, NumBuckets in *. split; [lia|].
  replace (159 - Z.of_nat (i * 8 + k)) with (7 - Z.of_nat k + 8 * Z.of_nat m) by lia.
  replace (160 - Z.of_nat (i * 8 + k)) with (8 - Z.of_nat k + 8 * Z.of_nat m) by lia.
  rewrite !Z.pow_add_r by lia. rewrite Hm in *. nia.
Qed.

Lemma CommonPrefixLen_dist a b :
  if decide (dist a b = 0) then CommonPrefixLen a b = NumBuckets
  else (CommonPrefixLen a b < NumBuckets)%nat /\
    2 ^ (159 - Z.of_nat (CommonPrefixLen a b)) <= dist a b < 2 ^ (160 - Z.of_nat (CommonPrefixLen a b)).
Proof.
  pose proof (cpl_loop_spec IDLength 0 a b eq_refl) as H. cbv zeta in H.
  rewrite dist_eq. unfold Distance, CommonPrefixLen. destruct (decide _); [done|].
  by destruct H as (c & <- & ?).
Qed.

Lemma dist_self a : dist a a = 0.
Proof.
  rewrite dist_eq. unfold Distance.
  rewrite (list_fmap_ext _ (fun _ => Byte.x00)) by (intros; apply bxor_diag). reflexivity.
Qed.

Lemma dist_0 a b : length a = IDLength -> length b = IDLength -> dist a b = 0 <-> a = b.
Proof.
  intros Ha Hb. split.
  - intros H. apply (dist_inj a b b Ha Hb). by rewrite dist_self.
  - intros ->. apply dist_self.
Qed.

#[global] Opaque dist CommonPrefixLen Distance.

(** The bucket index is the metric's logarithm: [CommonPrefixLen] of two identifiers is
    160 exactly when they are equal, and otherwise the one [c < 160] for which their XOR
    distance, read as a 160-bit number, has its highest bit at position [159 - c]; and
    [compareDist] orders distances as these numbers, so that of two identifiers the one that
    shares the longer prefix with the target is strictly closer to it. *)
Theorem prefix_length_is_log_distance a b c :
  length a = IDLength -> length b = IDLength -> length c = IDLength ->
  (CommonPrefixLen a b = NumBuckets <-> a = b) /\
  (a <> b -> (CommonPrefixLen a b < NumBuckets)%nat /\
     2 ^ (159 - Z.of_nat (CommonPrefixLen a b)) <= dist a b < 2 ^ (160 - Z.of_nat (CommonPrefixLen a b))) /\
  (compareDist (Distance a c) (Distance b c) < 0 <-> dist a c < dist b c) /\
  (compareDist (Distance a c) (Distance b c) = 0 <-> a = b) /\
  ((CommonPrefixLen b c < CommonPrefixLen a c)%nat -> dist a c < dist b c).
Proof.
  intros Ha Hb Hc. pose proof (dist_0 a b Ha Hb) as H0.
  pose proof (CommonPrefixLen_dist a b) as Hab. pose proof (CommonPrefixLen_dist a c) as Hac.
  pose proof (CommonPrefixLen_dist b c) as Hbc.
  rewrite compareDist_Distance. split_and!.
  - destruct (decide _); [tauto|]. split; [lia|]. tauto.
  - intros Hne. destruct (decide _); [tauto|done].
  - destruct (Z.compare_spec (dist a c) (dist b c)); lia.
  - destruct (Z.compare_spec (dist a c) (dist b c)) as [E|E|E]; split; try done.
    + intros _. by apply (dist_inj a b c).
    + intros ->. lia.
    + intros ->. lia.
  - intros Hlt.
    pose proof (dist_nonneg b c).
    destruct (decide (dist b c = 0)) as [Hz|Hz]; [unfold NumBuckets in *; destruct (decide (dist a c = 0)); lia|].
    destruct (decide (dist a c = 0)); [lia|].
    assert (2 ^ (160 - Z.of_nat (CommonPrefixLen a c)) <= 2 ^ (159 - Z.of_nat (CommonPrefixLen b c)))
      by (apply Z.pow_le_mono_r; lia). lia.
Qed.

(** ** The table invariant *)

(** The identifiers a bucket may hold. *)
Definition bucket_ok (local : NodeID) (i : nat) (ids : list NodeID) : Prop :=
  (length ids <= K)%nat /\ NoDup ids /\
  Forall (fun id => length id = IDLength /\ CommonPrefixLen local id = i) ids.

Record rt_ok (rt : RoutingTable) : Prop := {
  ro_local : length (rt_local rt) = IDLength;
  ro_buckets : length (rt_buckets rt) = NumBuckets;
  ro_bucket : forall i b, rt_buckets rt !! i = Some b -> bucket_ok (rt_local rt) i (p_ID <$> b)
}.

Lemma bucket_ok_sublist local i ids ids' :
  sublist ids' ids -> bucket_ok local i ids -> bucket_ok local i ids'.
Proof.
  intros Hsub (Hl & Hn & Hf). split_and!.
  - apply sublist_length in Hsub. lia.
  - by eapply sublist_NoDup.
  - rewrite Forall_forall in *. intros x Hx. apply Hf. by eapply elem_of_sublist.
Qed.

Lemma bucket_ok_Permutation local i ids ids' :
  ids ≡ₚ ids' -> bucket_ok local i ids -> bucket_ok local i ids'.
Proof. unfold bucket_ok. by intros ->. Qed.

Lemma rt_ok_set rt i b b' :
  rt_ok rt -> rt_buckets rt !! i = Some b ->
  (bucket_ok (rt_local rt) i (p_ID <$> b) -> bucket_ok (rt_local rt) i (p_ID <$> b')) ->
  rt_ok (set_buckets rt (<[i := b']> (rt_buckets rt))).
Proof.
  intros [Hlo Hl Hb] Hi Hb'. constructor; simpl; [done|by rewrite length_insert|].
  intros j c. rewrite list_lookup_insert_Some. intros [(-> & -> & _)|[_ Hj]]; [|by apply Hb].
  by apply Hb', Hb.
Qed.

(** An operation that shrinks or relabels buckets keeps the invariant. *)
Lemma rt_ok_shrink rt bs :
  rt_ok rt -> Forall2 (fun b b' => sublist (p_ID <$> b') (p_ID <$> b)) (rt_buckets rt) bs ->
  rt_ok (set_buckets rt bs).
Proof.
  intros [Hlo Hl Hb] Hf. constructor; simpl; [done|by rewrite <- (Forall2_length _ _ _ Hf)|].
  intros i b' Hi. destruct (Forall2_lookup_r _ _ _ _ _ Hf Hi) as (b & Hb0 & Hsub).
  eapply bucket_ok_sublist; [done|by apply Hb].
Qed.

Lemma rt_ok_sources rt s : rt_ok rt -> rt_ok (set_sources rt s).
Proof. intros []. by constructor. Qed.

Lemma sublist_remove_at {A} i (l : list A) : sublist (remove_at i l) l.
Proof.
  unfold remove_at. rewrite <- (take_drop i l) at 3. apply sublist_app; [done|].
  replace (S i) with (i + 1)%nat by lia. rewrite <- drop_drop. apply sublist_drop.
Qed.

Lemma fmap_sublist {A B} (f : A -> B) l l' : sublist l l' -> sublist (f <$> l) (f <$> l').
Proof. induction 1; simpl; by constructor. Qed.

Lemma on_first_shrinks P f bs p bs' :
  (forall q q', f q = Some q' -> p_ID q' = p_ID q) ->
  on_first P f bs = Some (p, bs') ->
  p ∈ concat bs /\ P p = true /\
  Forall2 (fun b b' => sublist (p_ID <$> b') (p_ID <$> b)) bs bs'.
Proof.
  intros Hf. revert bs'. induction bs as [|b bs IH]; intros bs' Hon; simpl in Hon; [done|].
  destruct (find_index P b) as [j|] eqn:Hfi.
  - apply find_index_Some in Hfi as (q & Hj & HP & _). rewrite Hj in Hon. simpl in Hon.
    injection Hon as <- <-. split_and!; [|done|].
    { simpl. apply elem_of_app. left. by eapply list_elem_of_lookup_2. }
    constructor; [|by apply Forall2_same_length_lookup_2; [done|intros; simplify_eq]].
    destruct (f q) as [q'|] eqn:Hq.
    + rewrite list_fmap_insert, (Hf _ _ Hq), list_insert_id; [done|]. by rewrite list_lookup_fmap, Hj.
    + apply fmap_sublist, sublist_remove_at.
  - destruct (on_first P f bs) as [[q bs1]|] eqn:Hon1; [|done]. simpl in Hon. injection Hon as <- <-.
    destruct (IH _ eq_refl) as (Hin & HP & HF). split_and!; [|done|by constructor].
    simpl. apply elem_of_app. by right.
Qed.

Lemma on_first_None P f bs : on_first P f bs = None <-> forall p, p ∈ concat bs -> P p = false.
Proof.
  induction bs as [|b bs IH]; simpl; [split; [intros _ p Hp; by apply elem_of_nil in Hp|done]|].
  setoid_rewrite elem_of_app. destruct (find_index P b) as [j|] eqn:Hfi.
  - pose proof (find_index_Some _ _ _ Hfi) as (q & Hj & HP & _). rewrite Hj. simpl.
    split; [done|]. intros Hall. assert (P q = false); [|congruence].
    apply Hall. left. by eapply list_elem_of_lookup_2.
  - rewrite find_index_None in Hfi. destruct (on_first P f bs) as [[q bs1]|]; simpl.
    + split; [done|]. intros Hall. destruct IH as [_ IH]. discriminate IH. intros p Hp. apply Hall. by right.
    + split; [|done]. intros _ p [Hp|Hp]; [by apply Hfi|by apply IH].
Qed.

Lemma sublist_List_filter {A} (P : A -> bool) l : sublist (List.filter P l) l.
Proof. induction l; simpl; [done|]. destruct (P a); by constructor. Qed.

Lemma drop_peers_shrinks P bs :
  Forall2 (fun b b' => sublist (p_ID <$> b') (p_ID <$> b)) bs (drop_peers P bs).
Proof.
  unfold drop_peers. induction bs as [|b bs IH]; [constructor|]. constructor; [|exact IH].
  apply fmap_sublist, sublist_List_filter.
Qed.

(** ** AddPeer *)

Lemma rt_bucket rt i : rt_ok rt -> (i < NumBuckets)%nat -> exists b, rt_buckets rt !! i = Some b.
Proof. intros [_ Hl _] Hi. apply lookup_lt_is_Some_2. lia. Qed.

(** Every peer is in the bucket of its prefix length. *)
Lemma in_table_bucket rt p : rt_ok rt -> p ∈ AllPeers rt ->
  exists b, rt_buckets rt !! CommonPrefixLen (rt_local rt) (p_ID p) = Some b /\ p ∈ b /\
    length (p_ID p) = IDLength /\ p_ID p <> rt_local rt.
Proof.
  intros Hok Hp. unfold AllPeers in Hp. apply list_elem_of_In, in_concat in Hp as (b & Hb & Hp).
  apply list_elem_of_In in Hb, Hp. apply list_elem_of_lookup_1 in Hb as [i Hi].
  destruct (ro_bucket _ Hok _ _ Hi) as (_ & _ & Hf). rewrite Forall_fmap, Forall_forall in Hf.
  destruct (Hf p Hp) as [Hl Hc]. rewrite Hc. exists b. split_and!; [done..|].
  intros Heq. rewrite Heq in Hc. apply lookup_lt_Some in Hi.
  rewrite (ro_buckets _ Hok) in Hi. pose proof (CommonPrefixLen_dist (rt_local rt) (rt_local rt)) as H.
  rewrite dist_self in H. simpl in H. rewrite H in Hc. lia.
Qed.

Lemma bucket_in_table rt i b p : rt_buckets rt !! i = Some b -> p ∈ b -> p ∈ AllPeers rt.
Proof.
  intros Hi Hp. unfold AllPeers. apply list_elem_of_In, in_concat. exists b.
  split; [|by apply list_elem_of_In]. apply list_elem_of_In. by eapply list_elem_of_lookup_2.
Qed.

(** No identifier is in the table twice. *)
Lemma table_unique rt p q : rt_ok rt -> p ∈ AllPeers rt -> q ∈ AllPeers rt -> p_ID p = p_ID q -> p = q.
Proof.
  intros Hok (b & Hb & Hp & _)%in_table_bucket (c & Hc & Hq & _)%in_table_bucket Heq; [|done..].
  rewrite Heq, Hc in Hb. injection Hb as ->.
  destruct (ro_bucket _ Hok _ _ Hc) as (_ & Hn & _).
  apply list_elem_of_lookup_1 in Hp as [i Hi], Hq as [j Hj].
  assert (i = j) as ->; [|congruence].
  apply (NoDup_lookup _ _ _ (p_ID q) Hn); rewrite list_lookup_fmap; [rewrite Hi|rewrite Hj]; simpl; congruence.
Qed.

(** The entry of a known peer after it is heard of again. *)
Definition refreshed (p peer : PeerInfo) : PeerInfo :=
  mkPeer (p_ID p) (p_Address p) (p_OnionAddr peer) (p_LastSeen peer) (p_Failures p).

Lemma AddPeer_cases rt peer source now1 now2 :
  rt_ok rt -> length (p_ID peer) = IDLength ->
  let c := CommonPrefixLen (rt_local rt) (p_ID peer) in
  (p_ID peer = rt_local rt /\ AddPeer rt peer source now1 now2 = (false, rt)) \/
  (p_ID peer <> rt_local rt /\ exists b, rt_buckets rt !! c = Some b /\
    ((exists i p, b !! i = Some p /\ p_ID p = p_ID peer /\
        AddPeer rt peer source now1 now2 =
          (true, set_buckets rt (<[c := remove_at i b ++ [refreshed p peer]]> (rt_buckets rt)))) \/
     ((forall p, p ∈ b -> p_ID p <> p_ID peer) /\
        AddPeer rt peer source now1 now2 =
          if checkRateLimit rt source now1 && (length b <? K)%nat
          then (true, recordInsertion (set_buckets rt (<[c := b ++ [peer]]> (rt_buckets rt))) source now2)
          else (false, rt)))).
Proof.
  intros Hok Hlen c. unfold AddPeer. fold c. case_bool_decide as Hloc; [by left|right]. split; [done|].
  destruct (Nat.leb_spec NumBuckets c) as [Hge|Hlt].
  { pose proof (CommonPrefixLen_dist (rt_local rt) (p_ID peer)) as Hd. fold c in Hd.
    destruct (decide _) as [H0|]; [|lia].
    apply dist_0 in H0; [congruence|apply Hok|done]. }
  destruct (rt_bucket _ _ Hok Hlt) as [b Hb]. exists b. split; [done|]. rewrite Hb.
  change (default [] (Some b)) with b. cbv zeta.
  destruct (find_index (fun p => bool_decide (p_ID p = p_ID peer)) b) as [i|] eqn:Hfi.
  - left. apply find_index_Some in Hfi as (p & Hi & Hp%bool_decide_eq_true & _).
    exists i, p. split_and!; [done..|]. by rewrite (nth_lookup_Some _ _ _ _ Hi).
  - right. rewrite find_index_None in Hfi. split.
    { intros p Hp Heq. apply Hfi in Hp. rewrite bool_decide_eq_false in Hp. done. }
    by destruct (checkRateLimit rt source now1), (length b <? K)%nat.
Qed.

Lemma AddPeer_ok rt peer source now1 now2 :
  rt_ok rt -> length (p_ID peer) = IDLength -> rt_ok (AddPeer rt peer source now1 now2).2.
Proof.
  intros Hok Hlen.
  destruct (AddPeer_cases rt peer source now1 now2 Hok Hlen)
    as [[_ ->]|(_ & b & Hb & [(i & p & Hi & Hp & ->)|[Hfresh ->]])]; [done|..].
  - eapply rt_ok_set; [done|done|]. apply bucket_ok_Permutation.
    rewrite (remove_at_Permutation _ _ _ Hi) at 1. rewrite Permutation_app_comm. done.
  - destruct (checkRateLimit rt source now1); [|done]. destruct (Nat.ltb_spec (length b) K); [|done].
    apply rt_ok_sources. eapply rt_ok_set; [done|done|]. intros (_ & Hn & Hf). split_and!.
    + rewrite length_fmap, length_app. simpl. lia.
    + rewrite fmap_app. apply NoDup_app. split_and!; [done| |apply NoDup_singleton].
      intros id Hid ->%list_elem_of_singleton.
      apply list_elem_of_fmap in Hid as (p & Hid & Hp). by eapply Hfresh.
    + rewrite fmap_app, Forall_app. split; [done|]. by repeat constructor.
Qed.

Lemma RemovePeer_ok rt addr : rt_ok rt -> rt_ok (RemovePeer rt addr).2.
Proof.
  intros Hok. unfold RemovePeer. destruct (on_first _ _ _) as [[p bs]|] eqn:Hon; [|done].
  apply on_first_shrinks in Hon as (_ & _ & HF); [by apply rt_ok_shrink|done].
Qed.
Lemma Evict_ok rt maxAge now : rt_ok rt -> rt_ok (Evict rt maxAge now).2.
Proof. intros Hok. apply rt_ok_shrink; [done|]. apply drop_peers_shrinks. Qed.
Lemma RecordFailure_ok rt o : rt_ok rt -> rt_ok (RecordFailure rt o).2.
Proof.
  intros Hok. unfold RecordFailure. destruct (on_first _ _ _) as [[p bs]|] eqn:Hon; [|done].
  apply on_first_shrinks in Hon as (_ & _ & HF); [by apply rt_ok_shrink|by intros ?? [= <-]].
Qed.
Lemma RecordSuccess_ok rt o : rt_ok rt -> rt_ok (RecordSuccess rt o).
Proof.
  intros Hok. unfold RecordSuccess. destruct (on_first _ _ _) as [[p bs]|] eqn:Hon; [|done].
  apply on_first_shrinks in Hon as (_ & _ & HF); [by apply rt_ok_shrink|by intros ?? [= <-]].
Qed.
Lemma EvictByFailures_ok rt n : rt_ok rt -> rt_ok (EvictByFailures rt n).2.
Proof.
  intros Hok. unfold EvictByFailures. destruct (n <=? 0); [done|].
  apply rt_ok_shrink; [done|]. apply drop_peers_shrinks.
Qed.
Lemma NewRoutingTable_ok local : length local = IDLength -> rt_ok (NewRoutingTable local).
Proof.
  intros Hl. constructor; cbn [rt_local rt_buckets NewRoutingTable]; [done|by rewrite length_replicate|].
  intros i b [-> _]%lookup_replicate. split_and!; [simpl; lia|constructor|constructor].
Qed.

Lemma Size_concat bs n : fold_left (fun n b => (n + length b)%nat) bs n = (n + length (concat bs : list PeerInfo))%nat.
Proof.
  revert n. induction bs as [|b bs IH]; intros n; simpl; [lia|]. rewrite IH, length_app. lia.
Qed.

Lemma concat_bound k (bs : list (list PeerInfo)) :
  (forall i b, bs !! i = Some b -> (length b <= k)%nat) -> (length (concat bs) <= length bs * k)%nat.
Proof.
  induction bs as [|b bs IH]; intros Hb; simpl; [lia|]. rewrite length_app.
  pose proof (Hb O b eq_refl). specialize (IH (fun i => Hb (S i))). lia.
Qed.

Inductive rt_op :=
| OpAdd (peer : PeerInfo) (source : NodeID) (now1 now2 : Z)
| OpRemove (addr : string) | OpEvict (maxAge now : Z)
| OpFailure (onion : string) | OpSuccess (onion : string) | OpEvictFailures (threshold : Z).

Definition rt_apply (rt : RoutingTable) (op : rt_op) : RoutingTable :=
  match op with
  | OpAdd p s n1 n2 => (AddPeer rt p s n1 n2).2
  | OpRemove a => (RemovePeer rt a).2
  | OpEvict m n => (Evict rt m n).2
  | OpFailure o => (RecordFailure rt o).2
  | OpSuccess o => RecordSuccess rt o
  | OpEvictFailures n => (EvictByFailures rt n).2
  end.

(** A [NodeID] in an argument has its 20 bytes. *)
Definition op_ok (op : rt_op) : Prop :=
  match op with OpAdd p _ _ _ => length (p_ID p) = IDLength | _ => True end.

Lemma rt_apply_ok rt op : rt_ok rt -> op_ok op -> rt_ok (rt_apply rt op).
Proof.
  intros Hok Hop. destruct op; cbn [rt_apply op_ok] in *; eauto using AddPeer_ok, RemovePeer_ok, Evict_ok,
    RecordFailure_ok, RecordSuccess_ok, EvictByFailures_ok.
Qed.

Lemma concat_NoDup local (bs : list (list PeerInfo)) k :
  (forall i b, bs !! i = Some b -> bucket_ok local (k + i) (p_ID <$> b)) -> NoDup (p_ID <$> concat bs).
Proof.
  revert k. induction bs as [|b bs IH]; intros k Hb; simpl; [constructor|].
  rewrite fmap_app. apply NoDup_app. split_and!.
  - apply (Hb O b eq_refl).
  - intros id Hid (p & -> & Hp)%list_elem_of_fmap.
    apply list_elem_of_In, in_concat in Hp as (c & Hc & Hp). apply list_elem_of_In in Hc, Hp.
    apply list_elem_of_lookup_1 in Hc as [j Hj].
    destruct (Hb (S j) c Hj) as (_ & _ & Hf). rewrite Forall_fmap, Forall_forall in Hf.
    destruct (Hb O b eq_refl) as (_ & _ & Hf0). rewrite Forall_forall in Hf0.
    destruct (Hf0 _ Hid), (Hf p Hp) as [_ Hcpl]. simpl in *. lia.
  - apply (IH (S k)). intros i c Hi. replace (S k + i)%nat with (k + S i)%nat by lia. by apply Hb.
Qed.

Lemma table_NoDup rt : rt_ok rt -> NoDup (p_ID <$> AllPeers rt).
Proof. intros Hok. eapply (concat_NoDup _ _ 0). apply (ro_bucket _ Hok). Qed.


(** ** What AddPeer does on each path *)

Lemma concat_replace {A} (bs : list (list A)) i b b' :
  bs !! i = Some b ->
  exists rest, concat bs ≡ₚ b ++ rest /\ concat (<[i := b']> bs) ≡ₚ b' ++ rest.
Proof.
  intros Hi. exists (concat (take i bs) ++ concat (drop (S i) bs)).
  assert (forall c : list A, concat (take i bs ++ c :: drop (S i) bs)
    ≡ₚ c ++ concat (take i bs) ++ concat (drop (S i) bs)) as Hc.
  { intros c. rewrite concat_app. simpl. rewrite !app_assoc. by rewrite (Permutation_app_comm (concat _) c). }
  split; [rewrite <- (take_drop_middle bs i b Hi) at 1; apply Hc|].
  rewrite insert_take_drop by (by eapply lookup_lt_Some). apply Hc.
Qed.

Definition known (rt : RoutingTable) (id : NodeID) : option PeerInfo :=
  find (fun p => bool_decide (p_ID p = id)) (AllPeers rt).

(** What [AddPeer] does on every path: the local node is refused; a known peer gets the new
    onion address and time and keeps its address and failure count, without touching the
    rate limits; an unknown peer is added exactly when its source is under its limits and
    its bucket has room, and otherwise nothing changes. *)
Theorem AddPeer_contract rt peer source now1 now2 :
  rt_ok rt -> length (p_ID peer) = IDLength ->
  let (ok, rt') := AddPeer rt peer source now1 now2 in
  let c := CommonPrefixLen (rt_local rt) (p_ID peer) in
  let room := (length (default [] (rt_buckets rt !! c)) <? K)%nat in
  if bool_decide (p_ID peer = rt_local rt) then ok = false /\ rt' = rt
  else if bool_decide (p_ID peer ∈ (p_ID <$> AllPeers rt)) then
    ok = true /\ rt_sources rt' = rt_sources rt /\
    exists p rest, p_ID p = p_ID peer /\ AllPeers rt ≡ₚ p :: rest /\
      AllPeers rt' ≡ₚ refreshed p peer :: rest
  else if checkRateLimit rt source now1 && room then
    ok = true /\ AllPeers rt' ≡ₚ peer :: AllPeers rt /\
    rt_sources rt' = rt_sources (recordInsertion rt source now2)
  else ok = false /\ rt' = rt.
Proof.
  intros Hok Hlen. pose proof (AddPeer_cases rt peer source now1 now2 Hok Hlen) as Hc. cbv zeta in Hc.
  destruct (AddPeer rt peer source now1 now2) as [ok rt']. cbv zeta.
  destruct Hc as [[Heq Hr]|(Hne & b & Hb & [(i & p & Hi & Hp & Hr)|[Hfresh Hr]])].
  - rewrite bool_decide_eq_true_2 by done. by injection Hr as -> ->.
  - rewrite bool_decide_eq_false_2 by done. injection Hr as -> ->.
    assert (p ∈ AllPeers rt) as Hin
      by (eapply bucket_in_table; [done|by eapply list_elem_of_lookup_2]).
    rewrite bool_decide_eq_true_2 by (rewrite <- Hp; by apply list_elem_of_fmap_2).
    split; [done|]. split; [done|].
    destruct (concat_replace _ _ b (remove_at i b ++ [refreshed p peer]) Hb) as (rest & H1 & H2).
    exists p, (remove_at i b ++ rest). split; [done|]. unfold AllPeers. split.
    + rewrite H1, (remove_at_Permutation b i p Hi) at 1. done.
    + cbn [rt_buckets set_buckets]. rewrite H2, <- app_assoc. simpl. by rewrite <- Permutation_middle.
  - rewrite bool_decide_eq_false_2 by done. rewrite Hb. cbn [default from_option].
    rewrite bool_decide_eq_false_2.
    2: { intros (p & Heq & Hp)%list_elem_of_fmap.
         destruct (in_table_bucket rt p Hok Hp) as (b' & Hb' & Hpb & _).
         rewrite <- Heq, Hb in Hb'. injection Hb' as <-. by apply (Hfresh p). }
    change (id b) with b. destruct (checkRateLimit rt source now1 && (length b <? K)%nat); [|by injection Hr as -> ->].
    injection Hr as -> ->. split; [done|]. split; [|done].
    destruct (concat_replace _ _ b (b ++ [peer]) Hb) as (rest & H1 & H2).
    unfold AllPeers. cbn [rt_buckets set_buckets recordInsertion set_sources].
    rewrite H1, H2, <- app_assoc. simpl. by rewrite <- Permutation_middle.
Qed.

(** ** FindClosest *)

(** [FindClosest] returns the closest peers: at most [count] of them, all of the table when it
    holds no more, sorted by XOR distance to the target, and no peer left out is closer than
    one returned; on a table that satisfies the invariant any sorting algorithm gives this
    very list. *)
Theorem FindClosest_contract rt target count :
  rt_ok rt -> length target = IDLength ->
  let res := FindClosest rt target count in
  length res = Nat.min count (Size_ rt) /\
  StronglySorted (fun p q => dist (p_ID p) target < dist (p_ID q) target) res /\
  (exists rest, AllPeers rt ≡ₚ res ++ rest /\
    forall p q, p ∈ res -> q ∈ rest -> dist (p_ID p) target < dist (p_ID q) target) /\
  (forall sorted, AllPeers rt ≡ₚ sorted ->
    StronglySorted (not_after (closer target)) sorted -> take count sorted = res).
Proof.
  intros Hok Ht res. set (all := sort_slice (closer target) (AllPeers rt)).
  assert (all ≡ₚ AllPeers rt) as Hperm by apply sort_slice_Permutation.
  assert (res = take count all) as Hres.
  { unfold res, FindClosest. fold all. destruct (Nat.ltb_spec count (length all)); [done|].
    by rewrite take_ge. }
  assert (forall p q, p ∈ AllPeers rt -> q ∈ AllPeers rt ->
    dist (p_ID p) target = dist (p_ID q) target -> p = q) as Huniq.
  { intros p q Hp Hq Hd. apply (table_unique rt); [done..|].
    destruct (in_table_bucket _ _ Hok Hp) as (_ & _ & _ & Hl1 & _).
    destruct (in_table_bucket _ _ Hok Hq) as (_ & _ & _ & Hl2 & _). by eapply dist_inj. }
  assert (NoDup all) as Hnd.
  { rewrite Hperm. eapply NoDup_fmap_1. by apply table_NoDup. }
  assert (StronglySorted (fun p q => dist (p_ID p) target < dist (p_ID q) target) all) as Hs.
  { pose proof (sort_slice_sorted (closer target) (AllPeers rt)) as Hsort. fold all in Hsort.
    assert (forall x, x ∈ all -> x ∈ AllPeers rt) as Hin by (intros x; by rewrite Hperm).
    clear -Hsort Hnd Hin Huniq. induction Hsort as [|p l Hl IH Hp]; [constructor|].
    apply NoDup_cons in Hnd as [Hpl Hnd]. constructor.
    - apply IH; [done|]. intros x Hx. apply Hin. by right.
    - rewrite Forall_forall in *. intros q Hq. specialize (Hp q Hq). unfold not_after in Hp.
      rewrite closer_spec in Hp. apply Z.ltb_ge in Hp.
      destruct (decide (dist (p_ID p) target = dist (p_ID q) target)) as [Heq|]; [|lia].
      apply Huniq in Heq as ->; [done|apply Hin; by left|apply Hin; by right]. }
  split_and!.
  - rewrite Hres, length_take, Hperm. unfold Size_. by rewrite Size_concat.
  - rewrite Hres. rewrite <- (take_drop count all) in Hs. by apply StronglySorted_app_1_l in Hs.
  - exists (drop count all). rewrite Hres, take_drop. split; [done|].
    rewrite <- (take_drop count all) in Hs. intros p q Hp Hq.
    by apply (StronglySorted_app_1_elem_of _ _ _ p q Hs).
  - intros sorted Hp Hsort. rewrite Hres. f_equal. unfold all. apply sort_slice_unique; [| |exact Hp|exact Hsort]. { apply _. } 
    intros x y Hx Hy. rewrite !closer_spec. intros ?%Z.ltb_ge ?%Z.ltb_ge. apply Huniq; [done..|lia].
Qed.

(** ** The anti-Sybil limits over time *)

Record add_call := mkCall { ac_peer : PeerInfo; ac_source : NodeID; ac_check : Z; ac_record : Z }.

(** Run a sequence of [AddPeer] calls; the log holds the source and the time of each
    insertion (a call that makes the table grow). *)
Fixpoint add_all (rt : RoutingTable) (log : list (NodeID * Z)) (calls : list add_call) :
    RoutingTable * list (NodeID * Z) :=
  match calls with
  | [] => (rt, log)
  | c :: calls =>
      let rt' := (AddPeer rt (ac_peer c) (ac_source c) (ac_check c) (ac_record c)).2 in
      let log' := if (Size_ rt <? Size_ rt')%nat then log ++ [(ac_source c, ac_record c)] else log in
      add_all rt' log' calls
  end.

(** The clock does not run backwards between its readings, from time [t] on. *)
Fixpoint clock_ok (t : Z) (calls : list add_call) : Prop :=
  match calls with
  | [] => True
  | c :: calls => t <= ac_check c <= ac_record c /\ clock_ok (ac_record c) calls
  end.

Definition times_of (source : NodeID) (log : list (NodeID * Z)) : list Z :=
  (filter (fun e => e.1 = source) log).*2.
Definition after (c : Z) (h : list Z) : list Z := List.filter (fun t => GoTime.After t c) h.
(** The insertions in the window of length [w] that ends at [t]. *)
Definition in_window (w t : Z) (h : list Z) : list Z := List.filter (fun x => (t - w <? x) && (x <=? t)) h.

Lemma after_after c c' h : c <= c' -> after c' (after c h) = after c' h.
Proof.
  intros Hc. unfold after, GoTime.After. induction h as [|x h IH]; simpl; [done|].
  destruct (Z.ltb_spec c x); simpl; [by rewrite IH|].
  destruct (Z.ltb_spec c' x); [lia|done].
Qed.
Lemma after_app c h h' : after c (h ++ h') = after c h ++ after c h'.
Proof. apply List.filter_app. Qed.

Lemma in_window_after w t h : Forall (fun x => x <= t) h -> in_window w t h = after (t - w) h.
Proof.
  induction 1 as [|x h Hx Hh IH]; [done|]. simpl. rewrite IH. unfold GoTime.After.
  destruct (Z.leb_spec x t); [|lia]. by rewrite andb_true_r.
Qed.

Lemma length_after_mono c c' h : c <= c' -> (length (after c' h) <= length (after c h))%nat.
Proof.
  intros Hc. unfold after, GoTime.After. induction h as [|x h IH]; simpl; [done|].
  destruct (Z.ltb_spec c x), (Z.ltb_spec c' x); simpl; lia.
Qed.

(** The trackers agree with the log; [now] is the latest clock reading. *)
Record rate_inv (rt : RoutingTable) (log : list (NodeID * Z)) (now : Z) : Prop := {
  ri_past : forall s, Forall (fun x => x <= now) (times_of s log);
  ri_none : forall s, rt_sources rt !! s = None -> times_of s log = [];
  ri_some : forall s tr, rt_sources rt !! s = Some tr ->
    st_count tr = Z.of_nat (length (times_of s log)) /\
    exists c, c <= now - rt_RateWindow rt /\ st_times tr = after c (times_of s log);
  ri_total : forall s, Z.of_nat (length (times_of s log)) <= rt_MaxPerSource rt;
  ri_window : forall s t, Z.of_nat (length (in_window (rt_RateWindow rt) t (times_of s log))) <= rt_RateLimit rt
}.

Lemma times_of_snoc s log s' t :
  times_of s (log ++ [(s', t)]) = if decide (s' = s) then times_of s log ++ [t] else times_of s log.
Proof.
  unfold times_of. rewrite filter_app, fmap_app, filter_cons, filter_nil.
  cbn [fst]. destruct (decide (s' = s)); simpl; [done|by rewrite app_nil_r].
Qed.

Lemma rate_inv_later rt log now now' : now <= now' -> rate_inv rt log now -> rate_inv rt log now'.
Proof.
  intros Hle [Hp Hn Hs Ht Hw]. constructor; try done.
  - intros s. eapply Forall_impl; [apply Hp|]. simpl. lia.
  - intros s tr Htr. destruct (Hs s tr Htr) as [Hc (c & Hcc & Hti)]. split; [done|].
    exists c. split; [lia|done].
Qed.

Lemma rate_inv_buckets rt log now bs : rate_inv rt log now -> rate_inv (set_buckets rt bs) log now.
Proof. intros []. by constructor. Qed.

(** What [checkRateLimit] found, in terms of the log. *)
Lemma checkRateLimit_log rt log now s now1 :
  rate_inv rt log now -> now <= now1 -> 1 <= rt_MaxPerSource rt -> 1 <= rt_RateLimit rt ->
  checkRateLimit rt s now1 = true ->
  Z.of_nat (length (times_of s log)) < rt_MaxPerSource rt /\
  Z.of_nat (length (after (now1 - rt_RateWindow rt) (times_of s log))) < rt_RateLimit rt.
Proof.
  intros [Hp Hn Hs Ht Hw] Hle Hmax Hlim. unfold checkRateLimit, GoTime.Add.
  destruct (rt_sources rt !! s) as [tr|] eqn:Htr; [|rewrite (Hn s Htr); simpl; lia].
  destruct (Hs s tr Htr) as [Hc (c & Hcc & ->)].
  destruct (Z.leb_spec (rt_MaxPerSource rt) (st_count tr)); [done|].
  change (List.filter _ (after c (times_of s log)))
    with (after (now1 + - rt_RateWindow rt) (after c (times_of s log))).
  rewrite after_after by lia. rewrite Z.add_opp_r. intros ?%Z.ltb_lt. lia.
Qed.

Lemma recordInsertion_inv rt log now s now1 now2 :
  rate_inv rt log now -> now <= now1 <= now2 -> 0 <= rt_RateWindow rt ->
  1 <= rt_MaxPerSource rt -> 1 <= rt_RateLimit rt -> checkRateLimit rt s now1 = true ->
  rate_inv (recordInsertion rt s now2) (log ++ [(s, now2)]) now2.
Proof.
  intros Hinv Hle Hwin Hmax Hlim Hcheck.
  destruct (checkRateLimit_log rt log now s now1) as [Hcount Hrecent]; [done|lia|done..|].
  destruct Hinv as [Hp Hn Hs Ht Hw].
  assert (forall s', Forall (fun x => x <= now2) (times_of s' log)) as Hp2.
  { intros s'. eapply Forall_impl; [apply Hp|]. simpl. lia. }
  constructor; intros s'; rewrite ?times_of_snoc; cbn [rt_sources recordInsertion set_sources rt_RateWindow
    rt_MaxPerSource rt_RateLimit].
  - destruct (decide (s = s')) as [<-|]; [|done]. apply Forall_app. split; [done|]. by repeat constructor.
  - rewrite lookup_insert_None. intros [? ?]. rewrite decide_False by done. by apply Hn.
  - intros tr. rewrite lookup_insert_Some. intros [[<- <-]|[Hne Htr]].
    + rewrite decide_True by done. simpl. split.
      * destruct (rt_sources rt !! s) as [t0|] eqn:Ht0; simpl.
        -- destruct (Hs s t0 Ht0) as [-> _]. rewrite length_app. simpl. lia.
        -- by rewrite (Hn s Ht0).
      * exists (now2 - rt_RateWindow rt). split; [lia|]. unfold GoTime.Add. rewrite Z.add_opp_r.
        change (List.filter _ ?l) with (after (now2 - rt_RateWindow rt) l). rewrite !after_app. f_equal.
        destruct (rt_sources rt !! s) as [t0|] eqn:Ht0; simpl.
        -- destruct (Hs s t0 Ht0) as [_ (c & Hc & ->)]. apply after_after. lia.
        -- by rewrite (Hn s Ht0).
    + rewrite decide_False by done. destruct (Hs s' tr Htr) as [Hc (c & Hcc & Hti)]. split; [done|].
      exists c. split; [lia|done].
  - destruct (decide (s = s')) as [<-|]; [|done]. rewrite length_app. simpl. lia.
  - intros t. destruct (decide (s = s')) as [<-|]; [|done].
    destruct (Z.leb_spec now2 t).
    + rewrite in_window_after.
      * rewrite after_app, length_app.
        pose proof (length_after_mono (now1 - rt_RateWindow rt) (t - rt_RateWindow rt) (times_of s log) ltac:(lia)).
        assert (length (after (t - rt_RateWindow rt) [now2]) <= 1)%nat
          by (unfold after; simpl; destruct (GoTime.After _ _); simpl; lia). lia.
      * apply Forall_app. split; [eapply Forall_impl; [apply Hp2|simpl; lia]|]. by repeat constructor.
    + unfold in_window. rewrite List.filter_app, length_app. simpl.
      destruct (Z.leb_spec now2 t); [lia|]. rewrite andb_false_r. simpl. rewrite Nat.add_0_r. apply Hw.
Qed.

Lemma Size_All rt : Size_ rt = length (AllPeers rt).
Proof. unfold Size_. by rewrite Size_concat. Qed.

Lemma Size_set_bucket rt i b b' : rt_buckets rt !! i = Some b ->
  (Size_ (set_buckets rt (<[i := b']> (rt_buckets rt))) + length b = Size_ rt + length b')%nat.
Proof.
  intros Hi. destruct (concat_replace _ _ b b' Hi) as (rest & H1 & H2). rewrite !Size_All.
  unfold AllPeers. cbn [rt_buckets set_buckets]. rewrite H1, H2, !length_app. lia.
Qed.

Lemma add_all_inv calls : forall rt log now,
  rt_ok rt -> rate_inv rt log now -> clock_ok now calls ->
  Forall (fun c => length (p_ID (ac_peer c)) = IDLength) calls ->
  0 <= rt_RateWindow rt -> 1 <= rt_MaxPerSource rt -> 1 <= rt_RateLimit rt ->
  let '(rt', log') := add_all rt log calls in
  exists now', rate_inv rt' log' now' /\ rt_MaxPerSource rt' = rt_MaxPerSource rt /\
    rt_RateLimit rt' = rt_RateLimit rt /\ rt_RateWindow rt' = rt_RateWindow rt.
Proof.
  induction calls as [|c calls IH]; intros rt log now Hok Hinv Hclk Hids Hw Hm Hl; simpl.
  { by exists now. }
  destruct Hclk as [Hle Hclk]. apply Forall_cons in Hids as [Hid Hids].
  pose proof (AddPeer_ok rt (ac_peer c) (ac_source c) (ac_check c) (ac_record c) Hok Hid) as Hok'.
  destruct (AddPeer_cases rt (ac_peer c) (ac_source c) (ac_check c) (ac_record c) Hok Hid)
    as [[_ Heq]|(_ & b & Hb & [(i & p & Hi & _ & Heq)|[_ Heq]])]; rewrite Heq in *; cbn [snd] in *.
  - rewrite Nat.ltb_irrefl. apply (IH _ _ (ac_record c)); try done. apply (rate_inv_later _ _ now); [lia|done].
  - pose proof (Size_set_bucket rt _ b (remove_at i b ++ [refreshed p (ac_peer c)]) Hb) as Hsz.
    rewrite length_app, (length_remove_at b i p Hi) in Hsz. simpl in Hsz.
    destruct (Nat.ltb_spec (Size_ rt) (Size_ (set_buckets rt
      (<[CommonPrefixLen (rt_local rt) (p_ID (ac_peer c)) := remove_at i b ++ [refreshed p (ac_peer c)]]>
        (rt_buckets rt))))); [lia|].
    apply (IH (set_buckets rt _) log (ac_record c)); try done.
    apply rate_inv_buckets, (rate_inv_later _ _ now); [lia|done].
  - destruct (checkRateLimit rt (ac_source c) (ac_check c)) eqn:Hc;
      [destruct (Nat.ltb_spec (length b) K)|]; cbn [andb snd] in *.
    + pose proof (Size_set_bucket rt _ b (b ++ [ac_peer c]) Hb) as Hsz. rewrite length_app in Hsz. simpl in Hsz.
      assert (Size_ (recordInsertion (set_buckets rt (<[CommonPrefixLen (rt_local rt) (p_ID (ac_peer c))
        := b ++ [ac_peer c]]> (rt_buckets rt))) (ac_source c) (ac_record c)) = S (Size_ rt)) as Hsz'
        by (change (Size_ (recordInsertion ?r _ _)) with (Size_ r); lia).
      rewrite Hsz'. destruct (Nat.ltb_spec (Size_ rt) (S (Size_ rt))); [|lia].
      apply (IH (recordInsertion (set_buckets rt _) _ _) _ (ac_record c)); try done.
      apply (recordInsertion_inv _ _ now _ (ac_check c)); try done. by apply rate_inv_buckets.
    + rewrite Nat.ltb_irrefl. apply (IH _ _ (ac_record c)); try done. apply (rate_inv_later _ _ now); [lia|done].
    + rewrite Nat.ltb_irrefl. apply (IH _ _ (ac_record c)); try done. apply (rate_inv_later _ _ now); [lia|done].
Qed.

(** The anti-Sybil limits hold over time: in every sequence of [AddPeer] calls on a table with
    no history and a clock that does not run backwards, each source gets at most
    [MaxPerSource] peers into the table, and at most [RateLimit] within any window of
    [RateWindow], although [recordInsertion] forgets the older times. *)
Theorem insertion_rate_limit rt calls t0 :
  rt_ok rt -> rt_sources rt = ∅ ->
  0 <= rt_RateWindow rt -> 1 <= rt_MaxPerSource rt -> 1 <= rt_RateLimit rt ->
  Forall (fun c => length (p_ID (ac_peer c)) = IDLength) calls -> clock_ok t0 calls ->
  let log := (add_all rt [] calls).2 in
  forall source,
    Z.of_nat (length (times_of source log)) <= rt_MaxPerSource rt /\
    forall t, Z.of_nat (length (in_window (rt_RateWindow rt) t (times_of source log))) <= rt_RateLimit rt.
Proof.
  intros Hok Hsrc Hw Hm Hl Hids Hclk log.
  assert (rate_inv rt [] t0) as Hinv.
  { constructor; try (intros; rewrite ?Hsrc in *; simplify_map_eq; simpl; done || lia). }
  pose proof (add_all_inv calls rt [] t0 Hok Hinv Hclk Hids Hw Hm Hl) as H.
  unfold log. destruct (add_all rt [] calls) as [rt' log'].
  destruct H as (now' & [_ _ _ Ht Hwin] & E1 & E2 & E3). simpl. rewrite E1, E2, E3 in *.
  intros source. split; [apply Ht|apply Hwin].
Qed.

(** The limits are counted per source, and a self-announcement is its own source: a record
    whose identifier has not been a source before is never refused for the rate, whatever
    number of other records came in before it. *)
Theorem fresh_source_unlimited rt peer now1 now2 :
  rt_ok rt -> length (p_ID peer) = IDLength -> p_ID peer <> rt_local rt ->
  rt_sources rt !! p_ID peer = None ->
  (AddPeer rt peer (p_ID peer) now1 now2).1 = true \/
  exists b, rt_buckets rt !! CommonPrefixLen (rt_local rt) (p_ID peer) = Some b /\ (K <= length b)%nat.
Proof.
  intros Hok Hlen Hne Hfresh.
  destruct (AddPeer_cases rt peer (p_ID peer) now1 now2 Hok Hlen)
    as [[? _]|(_ & b & Hb & [(i & p & _ & _ & ->)|[_ ->]])]; [done|by left|].
  unfold checkRateLimit. rewrite Hfresh. cbn [andb].
  destruct (Nat.ltb_spec (length b) K); [by left|right; by exists b].
Qed.

(** ** Save and Load *)

Definition in_bucket (local : NodeID) (i : nat) (p : PeerInfo) : Prop := CommonPrefixLen local (p_ID p) = i.
#[export] Instance in_bucket_dec local i p : Decision (in_bucket local i p).
Proof. unfold in_bucket. apply _. Defined.

(** Loading peers that all fit appends them to their buckets. *)
Lemma load_all l : forall rt,
  length (rt_buckets rt) = NumBuckets ->
  Forall (fun p => p_ID p <> rt_local rt /\ (CommonPrefixLen (rt_local rt) (p_ID p) < NumBuckets)%nat) l ->
  (forall i b, rt_buckets rt !! i = Some b ->
    (length b + length (filter (in_bucket (rt_local rt) i) l) <= K)%nat) ->
  forall i b, rt_buckets rt !! i = Some b ->
    rt_buckets (fold_left load_peer l rt) !! i = Some (b ++ filter (in_bucket (rt_local rt) i) l) /\
    rt_local (fold_left load_peer l rt) = rt_local rt.
Proof.
  induction l as [|p l IH]; intros rt Hlen Hl Hroom i b Hb; simpl.
  { rewrite filter_nil, app_nil_r. done. }
  apply Forall_cons in Hl as [[Hne Hlt] Hl].
  destruct (lookup_lt_is_Some_2 (rt_buckets rt) (CommonPrefixLen (rt_local rt) (p_ID p))) as [c Hc]; [lia|].
  assert (load_peer rt p = set_buckets rt (<[CommonPrefixLen (rt_local rt) (p_ID p) := c ++ [p]]> (rt_buckets rt))) as Hload.
  { unfold load_peer. rewrite bool_decide_eq_false_2 by done.
    destruct (Nat.leb_spec NumBuckets (CommonPrefixLen (rt_local rt) (p_ID p))); [lia|].
    rewrite Hc. change (default [] (Some c)) with c.
    specialize (Hroom _ _ Hc). rewrite filter_cons_True in Hroom by done. simpl in Hroom.
    destruct (Nat.ltb_spec (length c) K); [done|lia]. }
  rewrite Hload.
  destruct (decide (CommonPrefixLen (rt_local rt) (p_ID p) = i)) as [Hi|Hi].
  - rewrite <- Hi in Hb. rewrite Hc in Hb. injection Hb as <-.
    rewrite filter_cons_True by done. rewrite <- Hi at 1.
    destruct (IH (set_buckets rt (<[CommonPrefixLen (rt_local rt) (p_ID p) := c ++ [p]]> (rt_buckets rt)))) with
      (i := CommonPrefixLen (rt_local rt) (p_ID p)) (b := c ++ [p]) as [H1 H2];
      [cbn [rt_buckets set_buckets]; by rewrite length_insert|done| |apply list_lookup_insert_eq; by eapply lookup_lt_Some|].
    + intros j d. cbn [rt_buckets set_buckets rt_local]. rewrite list_lookup_insert_Some.
      intros [(<- & <- & _)|[Hj Hd]].
      * specialize (Hroom _ _ Hc). rewrite filter_cons_True in Hroom by done. rewrite length_app. simpl in *. lia.
      * specialize (Hroom _ _ Hd). by rewrite filter_cons_False in Hroom.
    + cbn [rt_local set_buckets] in *. rewrite H1, H2, <- app_assoc, Hi. done.
  - rewrite filter_cons_False by done.
    destruct (IH (set_buckets rt (<[CommonPrefixLen (rt_local rt) (p_ID p) := c ++ [p]]> (rt_buckets rt)))) with
      (i := i) (b := b) as [H1 H2];
      [cbn [rt_buckets set_buckets]; by rewrite length_insert|done| |cbn [rt_buckets set_buckets]; by rewrite list_lookup_insert_ne|done].
    intros j d. cbn [rt_buckets set_buckets rt_local]. rewrite list_lookup_insert_Some.
    intros [(<- & <- & _)|[Hj Hd]].
    + specialize (Hroom _ _ Hc). rewrite filter_cons_True in Hroom by done. rewrite length_app. simpl in *. lia.
    + specialize (Hroom _ _ Hd). by rewrite filter_cons_False in Hroom.
Qed.

Lemma filter_all {A} (P : A -> Prop) `{!forall x, Decision (P x)} (l : list A) :
  (forall x, x ∈ l -> P x) -> filter P l = l.
Proof.
  induction l as [|x l IH]; intros Hl; [done|]. rewrite filter_cons_True by (apply Hl; by left).
  f_equal. apply IH. intros y Hy. apply Hl. by right.
Qed.
Lemma filter_none {A} (P : A -> Prop) `{!forall x, Decision (P x)} (l : list A) :
  (forall x, x ∈ l -> ~ P x) -> filter P l = [].
Proof.
  induction l as [|x l IH]; intros Hl; [done|]. rewrite filter_cons_False by (apply Hl; by left).
  apply IH. intros y Hy. apply Hl. by right.
Qed.

(** The peers of a bucket are the peers of the table with that prefix length. *)
Lemma filter_bucket rt i b : rt_ok rt -> rt_buckets rt !! i = Some b ->
  filter (in_bucket (rt_local rt) i) (AllPeers rt) = b.
Proof.
  intros Hok Hi. unfold AllPeers.
  assert (forall j c p, rt_buckets rt !! j = Some c -> p ∈ c -> in_bucket (rt_local rt) j p) as Hb.
  { intros j c p Hj Hp. destruct (ro_bucket _ Hok _ _ Hj) as (_ & _ & Hf).
    rewrite Forall_fmap, Forall_forall in Hf. by apply Hf. }
  assert (forall l, (forall c, c ∈ l -> exists j, j <> i /\ rt_buckets rt !! j = Some c) ->
    filter (in_bucket (rt_local rt) i) (concat l) = []) as Hother.
  { intros l Hl. apply filter_none. intros p Hp Hin.
    apply list_elem_of_In, in_concat in Hp as (c & Hc & Hp). apply list_elem_of_In in Hc, Hp.
    destruct (Hl c Hc) as (j & Hj & Hjc). pose proof (Hb j c p Hjc Hp). unfold in_bucket in *. congruence. }
  rewrite <- (take_drop_middle _ i b Hi) at 1. rewrite concat_app, filter_app. simpl. rewrite filter_app.
  rewrite Hother, filter_all, Hother, app_nil_r; [done|..].
  - intros c [j Hj]%list_elem_of_lookup_1. rewrite lookup_drop in Hj. exists (S i + j)%nat. split; [lia|done].
  - intros p Hp. by eapply Hb.
  - intros c [j Hj]%list_elem_of_lookup_1. apply lookup_take_Some in Hj as [Hj Hlt].
    exists j. split; [lia|done].
Qed.


Lemma filter_fmap_same {A} (P : A -> Prop) `{!forall x, Decision (P x)} (f : A -> A) (l : list A) :
  (forall x, P (f x) <-> P x) -> filter P (f <$> l) = f <$> filter P l.
Proof.
  intros Hf. induction l as [|x l IH]; [done|]. rewrite fmap_cons.
  destruct (decide (P x)).
  - rewrite (filter_cons_True _ (f x)) by (by apply Hf). rewrite filter_cons_True by done. by rewrite IH.
  - rewrite (filter_cons_False _ (f x)) by (by rewrite Hf). rewrite filter_cons_False by done. by rewrite IH.
Qed.

(** Saving and loading a table: [Save] succeeds exactly when the disk does and every peer's
    [LastSeen] lies in the years JSON can write, it never changes the file otherwise, and
    loading a saved table into a new one for the same node restores every bucket's peers
    (their order by recency), with the failure counters cleared. *)
Theorem save_load_roundtrip utf8 rt disk_ok file :
  rt_ok rt ->
  (forall p, p ∈ AllPeers rt -> utf8 (p_Address p) = p_Address p /\ utf8 (p_OnionAddr p) = p_OnionAddr p) ->
  let (ok, file') := Save utf8 rt disk_ok file in
  ok = disk_ok && forallb (fun p => json_time_ok (p_LastSeen p)) (AllPeers rt) /\
  (ok = false -> file' = file) /\
  (ok = true -> exists rt',
    Load_ (NewRoutingTable (rt_local rt)) file' = (true, rt') /\ length (rt_buckets rt') = NumBuckets /\
    forall i b, rt_buckets rt !! i = Some b -> exists b', rt_buckets rt' !! i = Some b' /\
      b' ≡ₚ (fun p => mkPeer (p_ID p) (p_Address p) (p_OnionAddr p) (p_LastSeen p) 0) <$> b).
Proof.
  intros Hok Hutf. unfold Save, json_peers.
  destruct (forallb _ (AllPeers rt)); [|split_and!; [by rewrite andb_false_r|done|done]].
  destruct disk_ok; [|done]. split; [done|]. split; [done|]. intros _. unfold Load_.
  set (sorted := sort_slice _ _). set (new := NewRoutingTable (rt_local rt)).
  assert (sorted ≡ₚ json_peer utf8 <$> AllPeers rt) as Hperm by apply sort_slice_Permutation.
  assert (forall i b, rt_buckets rt !! i = Some b ->
    filter (in_bucket (rt_local rt) i) sorted ≡ₚ json_peer utf8 <$> b) as Hfilter.
  { intros i b Hi. rewrite Hperm, filter_fmap_same by done. by rewrite (filter_bucket rt i b Hok Hi). }
  assert (length (rt_buckets new) = NumBuckets) as Hnew by apply length_replicate.
  assert (Forall (fun p => p_ID p <> rt_local new /\ (CommonPrefixLen (rt_local new) (p_ID p) < NumBuckets)%nat) sorted) as Hall.
  { rewrite Hperm, Forall_fmap, Forall_forall. intros p Hp.
    destruct (in_table_bucket rt p Hok Hp) as (b & Hb & _ & _ & Hne). simpl. split; [done|].
    apply lookup_lt_Some in Hb. by rewrite (ro_buckets _ Hok) in Hb. }
  assert (forall i, rt_buckets new !! i = Some [] \/ (NumBuckets <= i)%nat) as Hempty.
  { intros i. destruct (decide (i < NumBuckets)%nat); [left|right; lia]. by apply lookup_replicate_2. }
  assert (forall i b, rt_buckets new !! i = Some b ->
    (length b + length (filter (in_bucket (rt_local new) i) sorted) <= K)%nat) as Hroom.
  { intros i b [-> Hi]%lookup_replicate. destruct (rt_bucket rt i Hok Hi) as [b Hb].
    simpl. rewrite (Hfilter i b Hb), length_fmap.
    destruct (ro_bucket _ Hok _ _ Hb) as (Hl & _). by rewrite length_fmap in Hl. }
  pose proof (load_all sorted new Hnew Hall Hroom) as Hload.
  exists (fold_left load_peer sorted new). split; [done|].
  assert (forall l r, length (rt_buckets (fold_left load_peer l r)) = length (rt_buckets r)) as Hlen.
  { induction l as [|p l IH]; intros r; simpl; [done|]. rewrite IH. unfold load_peer.
    repeat case_match; cbn [rt_buckets set_buckets]; by rewrite ?length_insert. }
  split; [by rewrite Hlen|]. intros i b Hb.
  destruct (Hempty i) as [Hi|Hge]; [|apply lookup_lt_Some in Hb; rewrite (ro_buckets _ Hok) in Hb; lia].
  destruct (Hload i [] Hi) as [Hl _]. eexists. split; [exact Hl|]. rewrite app_nil_l.
  change (rt_local new) with (rt_local rt). rewrite (Hfilter i b Hb).
  erewrite (list_fmap_ext (json_peer utf8)); [reflexivity|]. intros j p Hj. unfold json_peer.
  destruct (Hutf p) as [-> ->]; [|done]. eapply bucket_in_table; [done|by eapply list_elem_of_lookup_2].
Qed.

Section samples.
Definition sample_id (n : Z) : NodeID := replicate 19 Byte.x00 ++ [z2b n].
Definition sample_peer (n : Z) : PeerInfo :=
  mkPeer (sample_id n) "Ea1" "abc.onion" (1700000000 * GoTime.Second) 0.
Definition t0 : Z := 1700000100 * GoTime.Second.
Definition sample_ops : list rt_op :=
  [OpAdd (sample_peer 1) (sample_id 9) t0 t0; OpAdd (sample_peer 6) (sample_id 9) t0 t0;
   OpAdd (sample_peer 7) (sample_id 7) t0 t0; OpAdd (sample_peer 0) (sample_id 7) t0 t0;
   OpFailure "abc.onion"].
Definition sample_rt : RoutingTable := fold_left rt_apply sample_ops (NewRoutingTable (sample_id 0)).

Lemma sample_ops_ok : Forall op_ok sample_ops.
Proof. repeat constructor. Qed.
Lemma sample_rt_ok : rt_ok sample_rt.
Proof.
  unfold sample_rt. assert (rt_ok (NewRoutingTable (sample_id 0))) as Hok by (by apply NewRoutingTable_ok).
  revert Hok. generalize (NewRoutingTable (sample_id 0)). generalize sample_ops_ok.
  induction 1 as [|op ops Hop Hops IH]; intros rt Hok; simpl; [done|]. apply IH. by apply rt_apply_ok.
Qed.

Lemma prefix_length_is_log_distance_witness :
  compareDist (Distance (sample_id 1) (sample_id 3)) (Distance (sample_id 4) (sample_id 3)) < 0 <->
  dist (sample_id 1) (sample_id 3) < dist (sample_id 4) (sample_id 3).
Proof.
  destruct (prefix_length_is_log_distance (sample_id 1) (sample_id 4) (sample_id 3)
    eq_refl eq_refl eq_refl) as (_ & _ & H & _). exact H.
Defined.


Lemma AddPeer_contract_witness :
  (AddPeer sample_rt (sample_peer 6) (sample_id 6) t0 t0).1 = true.
Proof.
  pose proof (AddPeer_contract sample_rt (sample_peer 6) (sample_id 6) t0 t0 sample_rt_ok eq_refl) as H.
  destruct (AddPeer sample_rt (sample_peer 6) (sample_id 6) t0 t0) as [ok rt']. cbv zeta in H.
  assert (bool_decide (p_ID (sample_peer 6) = rt_local sample_rt) = false) as E1 by (vm_compute; reflexivity).
  assert (bool_decide (p_ID (sample_peer 6) ∈ (p_ID <$> AllPeers sample_rt)) = true) as E2
    by (vm_compute; reflexivity).
  rewrite E1, E2 in H. exact (proj1 H).
Defined.

Lemma FindClosest_contract_witness :
  length (FindClosest sample_rt (sample_id 5) 2) = Nat.min 2 (Size_ sample_rt) /\
  p_ID <$> FindClosest sample_rt (sample_id 5) 2 = [sample_id 7; sample_id 6].
Proof.
  destruct (FindClosest_contract sample_rt (sample_id 5) 2 sample_rt_ok eq_refl) as (H & _).
  split; [exact H|]. vm_compute. reflexivity.
Defined.

Definition sample_calls : list add_call :=
  (fun n => mkCall (sample_peer n) (sample_id 200) t0 t0) <$> [1; 2; 3; 4; 5; 6; 7; 8; 9; 10; 11; 12].

Lemma insertion_rate_limit_witness :
  Z.of_nat (length (times_of (sample_id 200)
    (add_all (NewRoutingTable (sample_id 0)) [] sample_calls).2)) <= 50 /\
  Z.of_nat (length (in_window GoTime.Minute t0 (times_of (sample_id 200)
    (add_all (NewRoutingTable (sample_id 0)) [] sample_calls).2))) <= 10.
Proof.
  destruct (insertion_rate_limit (NewRoutingTable (sample_id 0)) sample_calls t0
    (NewRoutingTable_ok (sample_id 0) eq_refl) eq_refl ltac:(done) ltac:(done) ltac:(done)
    ltac:(repeat constructor) ltac:(vm_compute; repeat split; discriminate) (sample_id 200)) as [H1 H2].
  split; [exact H1|exact (H2 t0)].
Defined.

Lemma fresh_source_unlimited_witness :
  (AddPeer sample_rt (sample_peer 99) (sample_id 99) t0 t0).1 = true \/
  exists b, rt_buckets sample_rt !! CommonPrefixLen (rt_local sample_rt) (sample_id 99) = Some b /\ (K <= length b)%nat.
Proof.
  apply (fresh_source_unlimited sample_rt (sample_peer 99)); [apply sample_rt_ok|reflexivity|
    vm_compute; discriminate|vm_compute; reflexivity].
Defined.

Lemma save_load_roundtrip_witness :
  exists file, Save id sample_rt true NotExist = (true, file) /\
    exists rt', Load_ (NewRoutingTable (sample_id 0)) file = (true, rt') /\ length (rt_buckets rt') = NumBuckets.
Proof.
  pose proof (save_load_roundtrip id sample_rt true NotExist sample_rt_ok (fun p _ => conj eq_refl eq_refl)) as H.
  destruct (Save id sample_rt true NotExist) as [ok file'].
  assert (forallb (fun p => json_time_ok (p_LastSeen p)) (AllPeers sample_rt) = true) as E
    by (vm_compute; reflexivity).
  rewrite E in H. destruct H as (Hok & _ & Hrt). simpl in Hok. exists file'.
  rewrite Hok. split; [reflexivity|]. destruct (Hrt Hok) as (rt' & H1 & H2 & _).
  assert (rt_local sample_rt = sample_id 0) as El by (vm_compute; reflexivity). rewrite El in H1.
  exists rt'. split; assumption.
Defined.
End samples.
