(* ===== verification/Dht.v ===== *)
(** * internal/discovery/dht.go

    Announcement, iterative lookup and the server side of the DHT.  The network is
    an oracle: what each dial does, in the order the dials are made. *)

From stdpp Require Import sorting.
From S2P Require Import Prelude GoStd Sha256 Crypto Protocol Instances Services Routing.
Local Open Scope go_scope.

(** src: internal/discovery/dht.go 16-26 RecordTTL, LookupMaxIterations, AnnounceFailureThreshold *)
Definition RecordTTL : Z := 24 * GoTime.Hour.
Definition LookupMaxIterations : nat := 20.
Definition AnnounceFailureThreshold : Z := 3.

(** src: internal/discovery/dht.go 35-50 DHTDiscovery *)
Record DHT := mkDHT {
  d_rt : RoutingTable;
  d_localPeer : PeerInfo;
  d_recordTTL : Z;
  d_identities : list PeerInfo;
  d_failureThreshold : Z
}.

(** src: internal/discovery/dht.go 53-61 NewDHTDiscovery *)
Definition NewDHTDiscovery (rt : RoutingTable) (localPeer : PeerInfo) : DHT :=
  mkDHT rt localPeer RecordTTL [] AnnounceFailureThreshold.

(** src: internal/discovery/dht.go 65-67 DHTDiscovery.SetFailureThreshold *)
Definition SetFailureThreshold (d : DHT) (n : Z) : DHT :=
  mkDHT (d_rt d) (d_localPeer d) (d_recordTTL d) (d_identities d) n.

Definition set_rt (d : DHT) (rt : RoutingTable) : DHT :=
  mkDHT rt (d_localPeer d) (d_recordTTL d) (d_identities d) (d_failureThreshold d).
Definition set_identities (d : DHT) (l : list PeerInfo) : DHT :=
  mkDHT (d_rt d) (d_localPeer d) (d_recordTTL d) l (d_failureThreshold d).
Definition set_localPeer (d : DHT) (p : PeerInfo) : DHT :=
  mkDHT (d_rt d) p (d_recordTTL d) (d_identities d) (d_failureThreshold d).
Definition seen_at (p : PeerInfo) (now : Z) : PeerInfo :=
  mkPeer (p_ID p) (p_Address p) (p_OnionAddr p) now (p_Failures p).

(** ** Local identities *)
Section identities.
Context `{Base58} (now : Z).

Definition has_address (addr : string) (p : PeerInfo) : bool := bool_decide (p_Address p = addr).

(** src: internal/discovery/dht.go 79-103 DHTDiscovery.AddLocalIdentity *)
Definition dht_AddLocalIdentity (d : DHT) (addr onion : string) : bool * DHT :=
  match NodeIDFromAddress addr with
  | None => (false, d)
  | Some id =>
      if has_address addr (d_localPeer d) then (true, d)
      else
        let p := mkPeer id addr onion now 0 in
        match find_index (has_address addr) (d_identities d) with
        | Some i => (true, set_identities d (<[i := p]> (d_identities d)))
        | None => (true, set_identities d (d_identities d ++ [p]))
        end
  end.

(** src: internal/discovery/dht.go 107-117 DHTDiscovery.RemoveLocalIdentity *)
Definition dht_RemoveLocalIdentity (d : DHT) (addr : string) : bool * DHT :=
  match find_index (has_address addr) (d_identities d) with
  | Some i => (true, set_identities d (remove_at i (d_identities d)))
  | None => (false, d)
  end.

(** src: internal/discovery/dht.go 121-135 DHTDiscovery.localIdentitiesSnapshot *)
Definition localIdentitiesSnapshot (d : DHT) : list PeerInfo :=
  (fun p => seen_at p now) <$> d_identities d.
End identities.

(** ** Records *)

(** src: internal/discovery/dht.go 437-444 peerInfoToRecord *)
Definition peerInfoToRecord (p : PeerInfo) : PeerRecord :=
  mkPeerRecord (p_ID p) (p_Address p) (p_OnionAddr p) (GoTime.UnixMilli (p_LastSeen p)).

(** src: internal/discovery/dht.go 446-458 recordToPeerInfo *)
Definition recordToPeerInfo (r : option PeerRecord) : option PeerInfo :=
  match r with
  | None => None
  | Some r =>
      if (length (pr_NodeId r) <? IDLength)%nat then None
      else Some (mkPeer (copy_id (pr_NodeId r)) (pr_Address r) (pr_OnionAddress r)
                   (GoTime.of_UnixMilli (pr_Timestamp r)) 0)
  end.

(** src: internal/discovery/dht.go 460-466 peersToResponse *)
Definition peersToResponse (peers : list PeerInfo) : DHTNodeResponse :=
  mkDHTNodeResponse (peerInfoToRecord <$> peers).

(** src: internal/discovery/dht.go 431-433 DHTDiscovery.isExpired *)
Definition isExpired (d : DHT) (now : Z) (p : PeerInfo) : bool :=
  d_recordTTL d <? GoTime.Sub now (p_LastSeen p).

(** src: internal/discovery/dht.go 468-474 wrapUnsigned *)
Definition dht_wrapUnsigned (msgType : MessageType) (payload : bytes) (now : Z) : Envelope :=
  mkEnvelope msgType payload (GoTime.UnixMilli now) [] [].

(** What one dial of an onion address does. *)
Inductive dialed := DialError | WriteError | ReadError | Replied (env : Envelope).

Inductive dht_err :=
| ErrDialing | ErrMarshal | ErrWriting | ErrReading | ErrUnmarshal
| ErrInvalidAddress | ErrPeerNotFound | ErrCancelled
| ErrNoPeers | ErrAllUnreachable (n : nat).

Section dht.
Context `{Proto DHTFindNode, Proto DHTNodeResponse, Proto DHTPutRecord, Base58}.

(** ** Requests *)

(** src: internal/discovery/dht.go 357-391 DHTDiscovery.sendFindNode *)
Definition sendFindNode (d : DHT) (now : Z) (reply : dialed) (target : NodeID) :
    result dht_err (list PeerInfo) :=
  match reply with
  | DialError => Err ErrDialing
  | _ =>
      match marshal (mkDHTFindNode target) with
      | None => Err ErrMarshal
      | Some _ =>
          match reply with
          | Replied env =>
              match unmarshal (env_Payload env) with
              | None => Err ErrUnmarshal
              | Some resp =>
                  Ok (List.filter (fun p => negb (isExpired d now p))
                        (omap (fun r => recordToPeerInfo (Some r)) (nr_Peers resp)))
              end
          | ReadError => Err ErrReading
          | _ => Err ErrWriting
          end
      end
  end.

(** Success, and the table with the peers of the answer. *)
(** src: internal/discovery/dht.go 393-429 DHTDiscovery.sendPutRecord *)
Definition sendPutRecord (d : DHT) (now : Z) (reply : dialed) (target ident : PeerInfo) :
    result dht_err unit * DHT :=
  match reply with
  | DialError => (Err ErrDialing, d)
  | _ =>
      match marshal (mkDHTPutRecord (Some (peerInfoToRecord ident))) with
      | None => (Err ErrMarshal, d)
      | Some _ =>
          match reply with
          | Replied env =>
              match unmarshal (env_Payload env) with
              | None => (Ok tt, d)
              | Some resp =>
                  let peers := omap (fun r => recordToPeerInfo (Some r)) (nr_Peers resp) in
                  (Ok tt, set_rt d (fold_left
                     (fun rt p => (AddPeer rt p (p_ID target) now now).2) peers (d_rt d)))
              end
          | ReadError => (Ok tt, d)
          | _ => (Err ErrWriting, d)
          end
      end
  end.

(** src: internal/discovery/dht.go 140-153 DHTDiscovery.Bootstrap *)
Definition Bootstrap (d : DHT) (now : Z) (reply : dialed) : result dht_err nat * DHT :=
  match sendFindNode d now reply (p_ID (d_localPeer d)) with
  | Err e => (Err e, d)
  | Ok peers =>
      (Ok (length peers),
       set_rt d (fold_left (fun rt p => (AddPeer rt p (p_ID p) now now).2) peers (d_rt d)))
  end.

(** ** Announce *)

(** One put per peer; [net i] is the outcome of the [i]-th dial. *)
(** src: internal/discovery/dht.go 175-184 DHTDiscovery.Announce *)
Fixpoint announce_to (net : nat -> dialed) (now : Z) (ident : PeerInfo) (closest : list PeerInfo)
    (d : DHT) (i succeeded : nat) : DHT * nat * nat :=
  match closest with
  | [] => (d, i, succeeded)
  | peer :: closest =>
      match sendPutRecord d now (net i) peer ident with
      | (Ok _, d) =>
          announce_to net now ident closest (set_rt d (RecordSuccess (d_rt d) (p_OnionAddr peer)))
            (S i) (S succeeded)
      | (Err _, d) =>
          announce_to net now ident closest (set_rt d (RecordFailure (d_rt d) (p_OnionAddr peer)).2)
            (S i) succeeded
      end
  end.

(** src: internal/discovery/dht.go 167-191 DHTDiscovery.Announce *)
Fixpoint announce_all (net : nat -> dialed) (now : Z) (idents : list PeerInfo) (d : DHT) (i : nat)
    (any : bool) (lastErr : option dht_err) : DHT * bool * option dht_err :=
  match idents with
  | [] => (d, any, lastErr)
  | ident :: idents =>
      let closest := FindClosest (d_rt d) (p_ID ident) K in
      match closest with
      | [] => announce_all net now idents d i any (Some ErrNoPeers)
      | _ =>
          let '(d, i, succeeded) := announce_to net now ident closest d i 0 in
          if (0 <? succeeded)%nat then announce_all net now idents d i true lastErr
          else announce_all net now idents d i any (Some (ErrAllUnreachable (length closest)))
      end
  end.

(** src: internal/discovery/dht.go 159-209 DHTDiscovery.Announce *)
Definition Announce (d : DHT) (now : Z) (net : nat -> dialed) : result dht_err unit * DHT :=
  let d := set_localPeer d (seen_at (d_localPeer d) now) in
  let identities := d_localPeer d :: localIdentitiesSnapshot now d in
  let '(d, anySucceeded, lastErr) := announce_all net now identities d 0 false None in
  let d := set_rt d (EvictByFailures (d_rt d) (d_failureThreshold d)).2 in
  if anySucceeded then (Ok tt, d) else (Err (default ErrNoPeers lastErr), d).

(** ** Lookup *)

(** The state of a lookup: the table, the nodes queried so far in order, and how
    many candidates were looked at. *)
Record lookup_st := mkLookup { lk_rt : RoutingTable; lk_queried : list NodeID; lk_looked : nat }.

Section lookup.
(** The outcome of the [i]-th dial and the time its answer is handled; whether the
    context is done at the [i]-th look. *)
Context (d : DHT) (addr : string) (target : NodeID) (net : nat -> dialed) (clock : nat -> Z)
  (ctxDone : nat -> bool).

Definition hit (now : Z) (p : PeerInfo) : bool := has_address addr p && negb (isExpired d now p).

(** src: internal/discovery/dht.go 253-259 DHTDiscovery.Lookup *)
Fixpoint scan_found (now : Z) (source : NodeID) (found : list PeerInfo) (rt : RoutingTable) :
    option PeerInfo * RoutingTable :=
  match found with
  | [] => (None, rt)
  | p :: found =>
      if hit now p then (Some p, rt)
      else scan_found now source found (AddPeer rt p source now now).2
  end.

(** src: internal/discovery/dht.go 235-260 DHTDiscovery.Lookup *)
Fixpoint query_candidates (candidates : list PeerInfo) (progressed : bool) (st : lookup_st) :
    option (result dht_err PeerInfo) * bool * lookup_st :=
  match candidates with
  | [] => (None, progressed, st)
  | peer :: candidates =>
      if ctxDone (lk_looked st) then (Some (Err ErrCancelled), progressed, st)
      else
        let st := mkLookup (lk_rt st) (lk_queried st) (S (lk_looked st)) in
        if bool_decide (p_ID peer ∈ lk_queried st)
        then query_candidates candidates progressed st
        else
          let i := length (lk_queried st) in
          let queried := lk_queried st ++ [p_ID peer] in
          match sendFindNode d (clock i) (net i) target with
          | Err _ => query_candidates candidates true (mkLookup (lk_rt st) queried (lk_looked st))
          | Ok peers =>
              match scan_found (clock i) (p_ID peer) peers (lk_rt st) with
              | (Some p, rt) => (Some (Ok p), true, mkLookup rt queried (lk_looked st))
              | (None, rt) => query_candidates candidates true (mkLookup rt queried (lk_looked st))
              end
          end
  end.

(** src: internal/discovery/dht.go 231-265 DHTDiscovery.Lookup *)
Fixpoint lookup_rounds (rounds : nat) (st : lookup_st) : result dht_err PeerInfo * lookup_st :=
  match rounds with
  | O => (Err ErrPeerNotFound, st)
  | S rounds =>
      let candidates := FindClosest (lk_rt st) target K in
      match query_candidates candidates false st with
      | (Some res, _, st) => (res, st)
      | (None, true, st) => lookup_rounds rounds st
      | (None, false, st) => (Err ErrPeerNotFound, st)
      end
  end.
End lookup.

(** [now] is the time of the check of the local table. *)
(** src: internal/discovery/dht.go 213-269 DHTDiscovery.Lookup *)
Definition Lookup_ (d : DHT) (addr : string) (now : Z) (net : nat -> dialed) (clock : nat -> Z)
    (ctxDone : nat -> bool) : result dht_err PeerInfo * lookup_st :=
  let st := mkLookup (d_rt d) [] 0 in
  match NodeIDFromAddress addr with
  | None => (Err ErrInvalidAddress, st)
  | Some target =>
      match find (hit d addr now) (FindClosest (d_rt d) target K) with
      | Some p => (Ok p, st)
      | None => lookup_rounds d addr target net clock ctxDone LookupMaxIterations st
      end
  end.

(** ** The server side *)

(** The reply written, if any. *)
(** src: internal/discovery/dht.go 293-325 DHTDiscovery.handleFindNode *)
Definition handleFindNode (d : DHT) (now : Z) (env : Envelope) : option Envelope :=
  msg ← unmarshal (env_Payload env);
  let target := if (IDLength <=? length (fn_Target msg))%nat then copy_id (fn_Target msg) else zero_id in
  let closest := FindClosest (d_rt d) target K ++ [seen_at (d_localPeer d) now]
                 ++ localIdentitiesSnapshot now d in
  payload ← marshal (peersToResponse closest);
  Some (dht_wrapUnsigned DHT_NODE_RESPONSE payload now).

(** src: internal/discovery/dht.go 327-355 DHTDiscovery.handlePutRecord *)
Definition handlePutRecord (d : DHT) (now : Z) (env : Envelope) : option Envelope * DHT :=
  match unmarshal (env_Payload env) with
  | None => (None, d)
  | Some msg =>
      match recordToPeerInfo (put_Record msg) with
      | None => (None, d)
      | Some peer =>
          if isExpired d now peer then (None, d)
          else
            let d := set_rt d (AddPeer (d_rt d) peer (p_ID peer) now now).2 in
            let closest := FindClosest (d_rt d) (p_ID peer) K in
            match marshal (peersToResponse closest) with
            | None => (None, d)
            | Some payload => (Some (dht_wrapUnsigned DHT_NODE_RESPONSE payload now), d)
            end
      end
  end.

(** src: internal/discovery/dht.go 284-291 DHTDiscovery.HandleEnvelope *)
Definition HandleEnvelope (d : DHT) (now : Z) (env : Envelope) : option Envelope * DHT :=
  if env_Type env =? DHT_FIND_NODE then (handleFindNode d now env, d)
  else if env_Type env =? DHT_PUT_RECORD then handlePutRecord d now env
  else (None, d).

(** [None]: the message could not be read. *)
(** src: internal/discovery/dht.go 272-281 DHTDiscovery.HandleConn *)
Definition HandleConn (d : DHT) (now : Z) (env : option Envelope) : option Envelope * DHT :=
  match env with None => (None, d) | Some env => HandleEnvelope d now env end.
End dht.

(** ** Every answer of the network leaves the table well formed *)

Lemma length_copy_id b : length (copy_id b) = IDLength.
Proof. unfold copy_id, IDLength. rewrite length_app, length_take, length_replicate. lia. Qed.

Lemma recordToPeerInfo_id r p : recordToPeerInfo r = Some p -> length (p_ID p) = IDLength.
Proof.
  unfold recordToPeerInfo. destruct r as [r|]; [|done].
  destruct (_ <? _)%nat; [done|]. intros [= <-]. apply length_copy_id.
Qed.

Definition ids_ok (l : list PeerInfo) : Prop := Forall (fun p => length (p_ID p) = IDLength) l.

Lemma decoded_ids_ok l : ids_ok (omap (fun r => recordToPeerInfo (Some r)) l).
Proof.
  unfold ids_ok. apply Forall_forall. intros p (r & _ & Hr)%list_elem_of_omap. by eapply recordToPeerInfo_id.
Qed.
Lemma filter_ids_ok f l : ids_ok l -> ids_ok (List.filter f l).
Proof.
  unfold ids_ok. rewrite !Forall_forall. intros Hl p Hp. apply Hl. eapply elem_of_sublist; [done|].
  apply sublist_List_filter.
Qed.

Lemma add_peers_ok (src : PeerInfo -> NodeID) now l rt : rt_ok rt -> ids_ok l ->
  rt_ok (fold_left (fun rt p => (AddPeer rt p (src p) now now).2) l rt).
Proof.
  intros Hok Hl. revert rt Hok. induction Hl as [|p l Hp Hl IH]; intros rt Hok; simpl; [done|].
  apply IH. by apply AddPeer_ok.
Qed.

Section dht_laws.
Context `{Proto DHTFindNode, Proto DHTNodeResponse, Proto DHTPutRecord, Base58}.

Lemma sendFindNode_ids d now reply target peers : sendFindNode d now reply target = Ok peers -> ids_ok peers.
Proof.
  unfold sendFindNode. intros Hs. destruct reply; try done; destruct (marshal _); try done.
  destruct (unmarshal _); [|done]. injection Hs as <-. apply filter_ids_ok, decoded_ids_ok.
Qed.

Lemma sendPutRecord_ok d now reply t i :
  rt_ok (d_rt d) -> rt_ok (d_rt (sendPutRecord d now reply t i).2).
Proof.
  intros Hok. unfold sendPutRecord. destruct reply; try done; destruct (marshal _); try done.
  destruct (unmarshal _); [|done]. apply add_peers_ok; [done|]. apply decoded_ids_ok.
Qed.

Lemma announce_to_ok net now ident l d i s :
  rt_ok (d_rt d) -> rt_ok (d_rt (announce_to net now ident l d i s).1.1).
Proof.
  revert d i s. induction l as [|p l IH]; intros d i s Hok; cbn [announce_to]; [done|].
  pose proof (sendPutRecord_ok d now (net i) p ident Hok) as Hok'.
  destruct (sendPutRecord d now (net i) p ident) as [[u|e] d1]; cbn [snd] in Hok'; apply IH.
  - by apply RecordSuccess_ok.
  - by apply RecordFailure_ok.
Qed.

Lemma announce_all_ok net now idents d i any le :
  rt_ok (d_rt d) -> rt_ok (d_rt (announce_all net now idents d i any le).1.1).
Proof.
  revert d i any le. induction idents as [|ident l IH]; intros d i any le Hok; cbn [announce_all]; [done|].
  destruct (FindClosest (d_rt d) (p_ID ident) K) as [|c cs] eqn:Hc; [by apply IH|].
  pose proof (announce_to_ok net now ident (c :: cs) d i 0 Hok) as Hok'.
  destruct (announce_to net now ident (c :: cs) d i 0) as [[d1 i1] s1]. cbn [fst] in Hok'.
  destruct (0 <? s1)%nat; by apply IH.
Qed.

Lemma Announce_ok d now net : rt_ok (d_rt d) ->
  rt_ok (d_rt (Announce d now net).2) /\
  (0 < d_failureThreshold (Announce d now net).2 ->
    forall p, p ∈ AllPeers (d_rt (Announce d now net).2) ->
      p_Failures p < d_failureThreshold (Announce d now net).2).
Proof.
  intros Hok. unfold Announce.
  pose proof (announce_all_ok net now (d_localPeer (set_localPeer d (seen_at (d_localPeer d) now))
    :: localIdentitiesSnapshot now (set_localPeer d (seen_at (d_localPeer d) now)))
    (set_localPeer d (seen_at (d_localPeer d) now)) 0 false None Hok) as Hok'.
  destruct (announce_all _ _ _ _ _ _ _) as [[d1 any] le]. cbn [fst] in Hok'.
  assert (forall r : result dht_err unit, rt_ok (d_rt (r, set_rt d1 (EvictByFailures (d_rt d1) (d_failureThreshold d1)).2).2) /\
    (0 < d_failureThreshold (r, set_rt d1 (EvictByFailures (d_rt d1) (d_failureThreshold d1)).2).2 ->
     forall p, p ∈ AllPeers (EvictByFailures (d_rt d1) (d_failureThreshold d1)).2 ->
       p_Failures p < d_failureThreshold d1)) as Hfin; [|destruct any; apply Hfin].
  intros r. split; [by apply EvictByFailures_ok|]. cbn [snd set_rt d_failureThreshold]. intros Hpos p.
  unfold EvictByFailures. destruct (Z.leb_spec (d_failureThreshold d1) 0); [lia|].
  unfold AllPeers, drop_peers. cbn [snd rt_buckets set_buckets].
  intros (l & Hl & Hp)%list_elem_of_In%in_concat.
  apply list_elem_of_In, list_elem_of_fmap in Hl as (b & -> & _).
  apply filter_In in Hp as [_ Hp%negb_true_iff%Z.leb_gt]. done.
Qed.

Lemma scan_found_ok d addr now source found rt :
  rt_ok rt -> ids_ok found -> rt_ok (scan_found d addr now source found rt).2.
Proof.
  intros Hok Hf. revert rt Hok. induction Hf as [|p l Hp Hl IH]; intros rt Hok; cbn [scan_found]; [done|].
  destruct (hit d addr now p); [done|]. apply IH. by apply AddPeer_ok.
Qed.

Lemma scan_found_hit d addr now source found rt p rt' :
  scan_found d addr now source found rt = (Some p, rt') -> p ∈ found /\ hit d addr now p = true.
Proof.
  revert rt. induction found as [|q l IH]; intros rt; cbn [scan_found]; [done|].
  destruct (hit d addr now q) eqn:Hq.
  - intros [= <- <-]. split; [by left|done].
  - intros Hs. destruct (IH _ Hs). split; [by right|done].
Qed.
End dht_laws.

(** ** What a lookup returns and how much it asks *)
Section lookup_laws.
Context `{Proto DHTFindNode, Proto DHTNodeResponse, Proto DHTPutRecord, Base58}.
Context (d : DHT) (addr : string) (target : NodeID) (net : nat -> dialed) (clock : nat -> Z)
  (ctxDone : nat -> bool).

(** [p] was in the answer to the [i]-th dial. *)
Definition answered (i : nat) (p : PeerInfo) : Prop :=
  exists peers, sendFindNode d (clock i) (net i) target = Ok peers /\ p ∈ peers.

Record lk_inv (st : lookup_st) : Prop := {
  li_ok : rt_ok (lk_rt st);
  li_nodup : NoDup (lk_queried st);
  li_local : rt_local (lk_rt st) = rt_local (d_rt d)
}.

Definition good_answer (st : lookup_st) (res : result dht_err PeerInfo) : Prop :=
  match res with
  | Ok p => exists i, (i < length (lk_queried st))%nat /\ answered i p /\ hit d addr (clock i) p = true
  | Err e => e = ErrCancelled
  end.

(** What a round did to the state, when [n] candidates were left to look at. *)
Record round_spec (n : nat) (cands : list PeerInfo) (progressed : bool) (st : lookup_st)
    (res : option (result dht_err PeerInfo)) (progressed' : bool) (st' : lookup_st) : Prop := {
  rs_inv : lk_inv st';
  rs_more : exists more, lk_queried st' = lk_queried st ++ more /\ (length more <= n)%nat /\
    (res = None -> progressed = false -> progressed' = true -> more <> []);
  rs_mono : progressed = true -> progressed' = true;
  rs_same : progressed' = false -> lk_rt st' = lk_rt st;
  rs_res : match res with
           | Some r => good_answer st' r
           | None => forall p, p ∈ cands -> p_ID p ∈ lk_queried st'
           end
}.

(** A candidate was asked and the rest of the round went on from there. *)
Lemma round_spec_asked n cands peer progressed st rt k res progressed' st' :
  round_spec n cands true (mkLookup rt (lk_queried st ++ [p_ID peer]) k) res progressed' st' ->
  round_spec (S n) (peer :: cands) progressed st res progressed' st'.
Proof.
  intros [Hinv (more & Hm & Hl & _) Hmono _ Hres]. cbn [lk_queried] in Hm. rewrite <- app_assoc in Hm.
  specialize (Hmono eq_refl). constructor; [done| |done|congruence|].
  - exists ([p_ID peer] ++ more). split; [done|]. split; [simpl; lia|done].
  - destruct res; [done|]. intros p [->|Hp]%elem_of_cons; [|by apply Hres].
    rewrite Hm, !elem_of_app. right. left. by left.
Qed.

Lemma lk_inv_asked st peer rt k : lk_inv st -> rt_ok rt -> rt_local rt = rt_local (d_rt d) ->
  p_ID peer ∉ lk_queried st -> lk_inv (mkLookup rt (lk_queried st ++ [p_ID peer]) k).
Proof.
  intros [_ Hn _] Hrt Hloc Hq. constructor; [done| |done]. cbn [lk_queried].
  apply NoDup_app. split_and!; [done| |apply NoDup_singleton].
  by intros x Hx ->%list_elem_of_singleton.
Qed.

Lemma scan_found_local now source found rt :
  rt_local (scan_found d addr now source found rt).2 = rt_local rt.
Proof.
  revert rt. induction found as [|p l IH]; intros rt; cbn [scan_found]; [done|].
  destruct (hit d addr now p); [done|]. rewrite IH. unfold AddPeer. by repeat case_match.
Qed.

Lemma query_candidates_spec cands : forall progressed st,
  lk_inv st ->
  let '(res, progressed', st') := query_candidates d addr target net clock ctxDone cands progressed st in
  round_spec (length cands) cands progressed st res progressed' st'.
Proof.
  induction cands as [|peer cands IH]; intros progressed st Hinv; cbn [query_candidates length].
  { constructor; [done| |done|done|intros p Hp; by apply elem_of_nil in Hp].
    exists []. rewrite app_nil_r. split; [done|]. split; [done|]. intros _ -> ?. done. }
  destruct (ctxDone (lk_looked st)).
  { constructor; [done| |done|done|done]. exists []. rewrite app_nil_r. split; [done|]. split; [simpl; lia|done]. }
  cbn [lk_queried lk_rt lk_looked]. case_bool_decide as Hq.
  { specialize (IH progressed (mkLookup (lk_rt st) (lk_queried st) (S (lk_looked st)))).
    destruct (query_candidates _ _ _ _ _ _ _ _ _) as [[res pr] st'].
    destruct IH as [Hinv' (more & Hm & Hl & Hpr) Hmono Hsame Hres]; [by destruct Hinv|].
    cbn [lk_queried lk_rt] in *. constructor; [done| |done|done|].
    - exists more. split; [done|]. split; [lia|done].
    - destruct res; [done|]. intros p [->|Hp]%elem_of_cons; [|by apply Hres]. rewrite Hm, elem_of_app. by left. }
  destruct (sendFindNode d (clock _) (net _) target) as [peers|e] eqn:Hs.
  - pose proof (sendFindNode_ids _ _ _ _ _ Hs) as Hids.
    pose proof (scan_found_ok d addr (clock (length (lk_queried st))) (p_ID peer) peers (lk_rt st)
      (li_ok _ Hinv) Hids) as Hrt.
    pose proof (scan_found_local (clock (length (lk_queried st))) (p_ID peer) peers (lk_rt st)) as Hloc.
    destruct (scan_found _ _ _ _ _ _) as [[p|] rt] eqn:Hscan; cbn [snd] in *; rewrite (li_local _ Hinv) in Hloc.
    + apply scan_found_hit in Hscan as [Hin Hhit].
      apply (round_spec_asked _ _ _ _ _ rt (S (lk_looked st))).
      constructor; [by apply lk_inv_asked| |done|done|].
      * exists []. rewrite app_nil_r. split; [done|]. split; [simpl; lia|done].
      * exists (length (lk_queried st)). cbn [lk_queried]. rewrite length_app. simpl. split; [lia|].
        split; [|done]. by exists peers.
    + specialize (IH true (mkLookup rt (lk_queried st ++ [p_ID peer]) (S (lk_looked st)))).
      destruct (query_candidates _ _ _ _ _ _ _ _ _) as [[res pr] st'].
      eapply round_spec_asked, IH. by apply lk_inv_asked.
  - specialize (IH true (mkLookup (lk_rt st) (lk_queried st ++ [p_ID peer]) (S (lk_looked st)))).
    destruct (query_candidates _ _ _ _ _ _ _ _ _) as [[res pr] st'].
    eapply round_spec_asked, IH. apply lk_inv_asked; [done|apply Hinv|apply Hinv|done].
Qed.

Lemma length_FindClosest rt t n : (length (FindClosest rt t n) <= n)%nat.
Proof.
  unfold FindClosest. destruct (Nat.ltb_spec n (length (sort_slice (closer t) (AllPeers rt)))); [|lia].
  rewrite length_take. lia.
Qed.

Lemma lookup_rounds_spec rounds : forall st res st',
  lk_inv st -> lookup_rounds d addr target net clock ctxDone rounds st = (res, st') ->
  lk_inv st' /\ (length (lk_queried st') <= length (lk_queried st) + rounds * K)%nat /\
  match res with
  | Err ErrPeerNotFound =>
      (forall p, p ∈ FindClosest (lk_rt st') target K -> p_ID p ∈ lk_queried st') \/
      (length (lk_queried st) + rounds <= length (lk_queried st'))%nat
  | r => good_answer st' r
  end.
Proof.
  induction rounds as [|rounds IH]; intros st res st' Hinv; cbn [lookup_rounds].
  { intros [= <- <-]. split; [done|]. split; [lia|]. right. lia. }
  pose proof (query_candidates_spec (FindClosest (lk_rt st) target K) false st Hinv) as Hc.
  pose proof (length_FindClosest (lk_rt st) target K) as Hlen.
  destruct (query_candidates _ _ _ _ _ _ _ _ _) as [[res1 pr] st1].
  destruct Hc as [Hinv1 (more & Hm & Hl & Hpr) _ Hsame Hres].
  assert (length (lk_queried st1) = length (lk_queried st) + length more)%nat as Hlq
    by (by rewrite Hm, length_app).
  destruct res1 as [r|]; [|destruct pr].
  - intros [= <- <-]. split; [done|]. split; [lia|]. destruct r as [p|e]; [done|]. by simpl in Hres; subst e.
  - intros Hr. destruct (IH _ _ _ Hinv1 Hr) as (Hinv' & Hlen' & Hres').
    split; [done|]. split; [lia|]. destruct res as [p|[]]; try done. destruct Hres' as [|Hge]; [by left|right].
    specialize (Hpr eq_refl eq_refl eq_refl). destruct more; [done|]. simpl in *. lia.
  - intros [= <- <-]. split; [done|]. split; [lia|]. left. by rewrite Hsame.
Qed.
End lookup_laws.

Section dht_contracts.
Context `{Proto DHTFindNode, Proto DHTNodeResponse, Proto DHTPutRecord, Base58}.

Lemma Bootstrap_ok d now reply : rt_ok (d_rt d) -> rt_ok (d_rt (Bootstrap d now reply).2).
Proof.
  intros Hok. unfold Bootstrap. destruct (sendFindNode _ _ _ _) as [peers|e] eqn:Hs; [|done].
  apply (add_peers_ok p_ID); [done|]. by eapply sendFindNode_ids.
Qed.

Lemma HandleConn_ok d now env : rt_ok (d_rt d) -> rt_ok (d_rt (HandleConn d now env).2).
Proof.
  intros Hok. unfold HandleConn, HandleEnvelope. destruct env as [env|]; [|done].
  destruct (env_Type env =? DHT_FIND_NODE); [done|]. destruct (env_Type env =? DHT_PUT_RECORD); [|done].
  unfold handlePutRecord. destruct (unmarshal (env_Payload env)) as [msg|]; [|done].
  destruct (recordToPeerInfo (put_Record msg)) as [p|] eqn:Hr; [|done].
  destruct (isExpired d now p); [done|]. apply recordToPeerInfo_id in Hr.
  assert (rt_ok (AddPeer (d_rt d) p (p_ID p) now now).2) by (by apply AddPeer_ok).
  by destruct (marshal _).
Qed.


(** No behaviour of the network breaks the routing table: bootstrapping from a seed,
    announcing, looking a peer up and serving a connection keep the table's invariant for
    every answer and every request; and after an announcement no peer is left whose
    failures reached the threshold. *)
Theorem dht_keeps_table d now :
  rt_ok (d_rt d) ->
  (forall reply, rt_ok (d_rt (Bootstrap d now reply).2)) /\
  (forall addr net clock ctxDone, rt_ok (lk_rt (Lookup_ d addr now net clock ctxDone).2)) /\
  (forall env, rt_ok (d_rt (HandleConn d now env).2)) /\
  (forall net, rt_ok (d_rt (Announce d now net).2) /\
    (0 < d_failureThreshold (Announce d now net).2 ->
     forall p, p ∈ AllPeers (d_rt (Announce d now net).2) ->
       p_Failures p < d_failureThreshold (Announce d now net).2)).
Proof.
  intros Hok. split_and!.
  - intros. by apply Bootstrap_ok.
  - intros addr net clock ctxDone. destruct (Lookup_ d addr now net clock ctxDone) as [res st] eqn:Hl.
    unfold Lookup_ in Hl. destruct (NodeIDFromAddress addr) as [t|]; [|by injection Hl as <- <-].
    destruct (find _ _); [by injection Hl as <- <-|].
    apply lookup_rounds_spec in Hl; [by apply Hl|]. constructor; [done|apply NoDup_nil_2|done].
  - intros. by apply HandleConn_ok.
  - intros. by apply Announce_ok.
Qed.

(** A record dated in the future never leaves: one unsigned put of a record whose time lies
    beyond the year 9999 is stored like any other; from then on, until that time, the peer is
    neither expired nor evicted by age, and every attempt to save the routing table fails. *)
Theorem future_record_blocks_save utf8 d now env msg r p :
  rt_ok (d_rt d) -> 0 <= d_recordTTL d ->
  unmarshal (env_Payload env) = Some msg -> put_Record msg = Some r ->
  recordToPeerInfo (Some r) = Some p ->
  maxJSONTime <= p_LastSeen p -> now <= p_LastSeen p ->
  p_ID p <> rt_local (d_rt d) -> rt_sources (d_rt d) !! p_ID p = None ->
  (forall b, rt_buckets (d_rt d) !! CommonPrefixLen (rt_local (d_rt d)) (p_ID p) = Some b -> (length b < K)%nat) ->
  let d' := (handlePutRecord d now env).2 in
  (exists q, q ∈ AllPeers (d_rt d') /\ p_ID q = p_ID p /\ p_LastSeen q = p_LastSeen p /\
    forall later, later <= p_LastSeen p ->
      isExpired d' later q = false /\ forall maxAge, q ∈ AllPeers (Evict (d_rt d') maxAge later).2) /\
  forall disk file, Save utf8 (d_rt d') disk file = (false, file).
Proof.
  intros Hok Httl Hu Hm Hr Hfut Hnow Hne Hsrc Hroom d'.
  pose proof (recordToPeerInfo_id _ _ Hr) as Hid.
  assert (forall later, later <= p_LastSeen p -> forall q, p_LastSeen q = p_LastSeen p ->
    isExpired d later q = false) as Hexp.
  { intros later Hl q Hq. unfold isExpired, GoTime.Sub. rewrite Hq. apply Z.ltb_ge.
    unfold GoTime.minDuration, GoTime.maxDuration. lia. }
  assert (d_rt d' = (AddPeer (d_rt d) p (p_ID p) now now).2 /\ d_recordTTL d' = d_recordTTL d) as [Hd' Httl'].
  { unfold d', handlePutRecord. rewrite Hu, Hm, Hr, (Hexp now Hnow p eq_refl). by destruct (marshal _). }
  assert (exists q, q ∈ AllPeers (d_rt d') /\ p_ID q = p_ID p /\ p_LastSeen q = p_LastSeen p) as (q & Hq & Hqi & Hqt).
  { rewrite Hd'.
    destruct (AddPeer_cases (d_rt d) p (p_ID p) now now Hok Hid)
      as [[? _]|(_ & b & Hb & [(i & q & Hi & Hq & ->)|[_ ->]])]; [done| |].
    - exists (refreshed q p). split; [|done]. cbn [snd].
      eapply (bucket_in_table _ (CommonPrefixLen (rt_local (d_rt d)) (p_ID p))).
      { cbn [rt_buckets set_buckets]. apply list_lookup_insert_eq. by eapply lookup_lt_Some. }
      apply elem_of_app. right. by left.
    - unfold checkRateLimit. rewrite Hsrc. cbn [andb]. specialize (Hroom b Hb).
      destruct (Nat.ltb_spec (length b) K); [|lia]. exists p. split; [|done]. cbn [snd].
      eapply (bucket_in_table _ (CommonPrefixLen (rt_local (d_rt d)) (p_ID p))).
      { cbn [rt_buckets set_buckets recordInsertion set_sources]. apply list_lookup_insert_eq. by eapply lookup_lt_Some. }
      apply elem_of_app. right. by left. }
  split.
  - exists q. split_and!; [done..|]. intros later Hl. split.
    { unfold isExpired in *. rewrite Httl'. by apply Hexp. }
    intros maxAge. unfold Evict, AllPeers, drop_peers. cbn [snd rt_buckets set_buckets].
    unfold AllPeers in Hq. apply list_elem_of_In, in_concat in Hq as (b & Hb & Hq).
    apply list_elem_of_In, in_concat. exists (List.filter (fun p => negb (stale maxAge later p)) b).
    split; [apply list_elem_of_In, list_elem_of_fmap_2; by apply list_elem_of_In|].
    apply filter_In. split; [done|]. apply negb_true_iff. unfold stale, GoTime.IsZero, GoTime.Sub.
    rewrite Hqt. apply orb_false_intro.
    + apply Z.eqb_neq. assert (GoTime.zero < maxJSONTime) by reflexivity. lia.
    + unfold GoTime.minDuration, GoTime.maxDuration. destruct (Z.ltb_spec 0 maxAge); [|done].
      cbn [andb]. apply Z.ltb_ge. lia.
  - intros disk file. unfold Save, json_peers.
    destruct (forallb _ (AllPeers (d_rt d'))) eqn:Hall; [|done]. exfalso.
    rewrite forallb_forall in Hall. specialize (Hall q (proj1 (list_elem_of_In _ _) Hq)).
    unfold json_time_ok in Hall. rewrite Hqt in Hall.
    apply andb_prop in Hall as [_ ?%Z.ltb_lt]. lia.
Qed.
End dht_contracts.

(** ** The DHT as the registry's discovery backend *)

Definition identities_ok (d : DHT) : Prop := NoDup (p_Address <$> d_identities d).

Definition dht_advertised (d : DHT) (addr : string) : option string :=
  p_OnionAddr <$> find (has_address addr) (d_identities d).

#[export] Instance dht_discovery `{Base58} (now : Z) : DiscoveryI DHT := {
  AddLocalIdentity := dht_AddLocalIdentity now;
  RemoveLocalIdentity d a := (dht_RemoveLocalIdentity d a).2;
  advertised := dht_advertised
}.

Lemma find_app {A} (f : A -> bool) l1 l2 :
  find f (l1 ++ l2) = match find f l1 with Some x => Some x | None => find f l2 end.
Proof. induction l1 as [|x l1 IH]; simpl; [done|]. by destruct (f x). Qed.

Lemma find_none_address l a : a ∉ (p_Address <$> l) -> find (has_address a) l = None.
Proof.
  induction l as [|p l IH]; [done|]. rewrite fmap_cons, not_elem_of_cons. intros [Hne Hl]. simpl.
  unfold has_address at 1. rewrite bool_decide_eq_false_2 by congruence. by apply IH.
Qed.

(** Splitting the list at the identity with an address. *)
Lemma identity_split l a i : find_index (has_address a) l = Some i ->
  exists p, l = take i l ++ p :: drop (S i) l /\ p_Address p = a /\ (i < length l)%nat.
Proof.
  intros (p & Hi & Hp%bool_decide_eq_true & _)%find_index_Some. exists p.
  split; [by rewrite take_drop_middle|]. split; [done|]. by eapply lookup_lt_Some.
Qed.

Lemma find_skip l1 p l2 a : p_Address p <> a ->
  find (has_address a) (l1 ++ p :: l2) = find (has_address a) (l1 ++ l2).
Proof.
  intros Hne. rewrite !find_app. destruct (find _ l1); [done|]. simpl. unfold has_address at 1.
  by rewrite bool_decide_eq_false_2.
Qed.

#[export] Instance dht_discovery_ok `{Base58} (now : Z) : @DiscoveryIOk DHT (dht_discovery now) identities_ok.
Proof.
  split; unfold AddLocalIdentity, RemoveLocalIdentity, advertised; cbn [dht_discovery].
  - intros d a o Hok. unfold dht_AddLocalIdentity. destruct (NodeIDFromAddress a); [|done].
    destruct (has_address a (d_localPeer d)); [done|].
    destruct (find_index (has_address a) (d_identities d)) as [i|] eqn:Hi.
    + apply identity_split in Hi as (p & Heq & Hp & Hlt).
      unfold identities_ok in *. cbn [snd set_identities d_identities].
      rewrite insert_take_drop by done. rewrite Heq in Hok. rewrite fmap_app, fmap_cons in *. simpl.
      by rewrite <- Hp.
    + unfold identities_ok in *. cbn [snd set_identities d_identities]. rewrite fmap_app.
      apply NoDup_app. split_and!; [done| |apply NoDup_singleton].
      intros x Hx ->%list_elem_of_singleton. apply list_elem_of_fmap in Hx as (p & Hp & Hin).
      rewrite find_index_None in Hi. apply Hi in Hin. unfold has_address in Hin.
      rewrite bool_decide_eq_false in Hin. simpl in Hp. congruence.
  - intros d a Hok. unfold dht_RemoveLocalIdentity.
    destruct (find_index (has_address a) (d_identities d)) as [i|]; [|done].
    unfold identities_ok in *. cbn [snd set_identities d_identities].
    eapply sublist_NoDup; [exact Hok|]. apply fmap_sublist, sublist_remove_at.
  - intros d a o d' Ha. unfold dht_AddLocalIdentity in Ha. by repeat case_match; simplify_eq.
  - intros d a a' Hok. unfold dht_RemoveLocalIdentity, dht_advertised.
    destruct (find_index (has_address a) (d_identities d)) as [i|] eqn:Hi.
    + apply identity_split in Hi as (p & Heq & Hp & _). cbn [snd set_identities d_identities].
      unfold identities_ok in Hok. unfold remove_at. destruct (decide (a' = a)) as [->|Hne].
      * rewrite find_none_address; [done|]. rewrite Heq, fmap_app, fmap_cons, Hp in Hok.
        apply NoDup_app in Hok as (_ & H1 & [H2 _]%NoDup_cons).
        rewrite fmap_app, not_elem_of_app. split; [|done]. intros Hin. apply (H1 a Hin). by left.
      * rewrite Heq at 3. rewrite find_skip; [done|congruence].
    + destruct (decide (a' = a)) as [->|]; [|done]. rewrite find_index_None in Hi. cbn [snd].
      rewrite find_none_address; [done|]. intros (p & Hp & Hin)%list_elem_of_fmap.
      apply Hi in Hin. unfold has_address in Hin. rewrite bool_decide_eq_false in Hin. congruence.
  - intros d a o d' a' Ha Hne. unfold dht_AddLocalIdentity in Ha. unfold dht_advertised.
    destruct (NodeIDFromAddress a) as [id|]; [|done]. destruct (has_address a (d_localPeer d)); [by simplify_eq|].
    destruct (find_index (has_address a) (d_identities d)) as [i|] eqn:Hi; injection Ha as <-;
      cbn [set_identities d_identities].
    + apply identity_split in Hi as (p & Heq & Hp & Hlt). rewrite insert_take_drop by done.
      rewrite Heq at 3. rewrite !find_skip; [done|congruence|simpl; congruence].
    + rewrite find_app. destruct (find _ _); [done|]. simpl. unfold has_address. simpl.
      by rewrite bool_decide_eq_false_2.
Qed.

Section samples.
Import Toy.

Definition sample_dht : DHT := NewDHTDiscovery sample_rt (sample_peer 0).
(** An address whose bytes carry the node identifier 1. *)
Definition sample_address : string := b58_encode (Byte.x21 :: sample_id 5 ++ replicate 4 Byte.x00).
Definition sample_record : PeerRecord := mkPeerRecord (sample_id 5) sample_address "five.onion" 1700000099000.
Definition sample_reply : Envelope :=
  mkEnvelope DHT_NODE_RESPONSE (marshal_or_nil (mkDHTNodeResponse [sample_record])) 0 [] [].
Definition sample_net (i : nat) : dialed := if (i =? 1)%nat then Replied sample_reply else DialError.
Abbreviation sample_lookup := (Lookup_ sample_dht sample_address t0 sample_net (fun _ => t0) (fun _ => false)).


Lemma dht_keeps_table_witness :
  rt_ok (d_rt (Bootstrap sample_dht t0 (Replied sample_reply)).2) /\
  (Bootstrap sample_dht t0 (Replied sample_reply)).1 = Ok 1%nat.
Proof.
  destruct (dht_keeps_table sample_dht t0 sample_rt_ok) as [H _].
  split; [exact (H (Replied sample_reply))|]. vm_compute. reflexivity.
Defined.

(** A record of the year 10000. *)
Definition late_record : PeerRecord := mkPeerRecord (sample_id 77) "Ex" "evil.onion" 253402300800000.
Definition late_put : Envelope :=
  mkEnvelope DHT_PUT_RECORD (marshal_or_nil (mkDHTPutRecord (Some late_record))) 0 [] [].

Definition late_peer : PeerInfo :=
  mkPeer (sample_id 77) "Ex" "evil.onion" (GoTime.of_UnixMilli 253402300800000) 0.

Lemma late_bucket_empty :
  rt_buckets (d_rt sample_dht) !! CommonPrefixLen (rt_local (d_rt sample_dht)) (p_ID late_peer) = Some [].
Proof. vm_compute. reflexivity. Qed.

Lemma late_bucket_room b :
  rt_buckets (d_rt sample_dht) !! CommonPrefixLen (rt_local (d_rt sample_dht)) (p_ID late_peer) = Some b ->
  (length b < K)%nat.
Proof. rewrite late_bucket_empty. intros [= <-]. unfold K. simpl. lia. Qed.

Lemma late_put_decodes :
  unmarshal (env_Payload late_put) = Some (mkDHTPutRecord (Some late_record)) /\
  recordToPeerInfo (Some late_record) = Some late_peer /\
  maxJSONTime <= p_LastSeen late_peer /\ t0 <= p_LastSeen late_peer /\ 0 <= d_recordTTL sample_dht /\
  p_ID late_peer <> rt_local (d_rt sample_dht) /\ rt_sources (d_rt sample_dht) !! p_ID late_peer = None.
Proof. split_and!; vm_compute; congruence. Qed.

Lemma future_record_blocks_save_witness :
  Save id (d_rt (handlePutRecord sample_dht t0 late_put).2) true NotExist = (false, NotExist).
Proof.
  destruct late_put_decodes as (H1 & H2 & H3 & H4 & H5 & H6 & H7).
  exact (proj2 (future_record_blocks_save id sample_dht t0 late_put (mkDHTPutRecord (Some late_record))
    late_record late_peer sample_rt_ok H5 H1 eq_refl H2 H3 H4 H6 H7 late_bucket_room) true NotExist).
Defined.
End samples.
