(* ===== verification/Handshake.v ===== *)
(** * internal/signaling/handshake.go

    The three messages of the handshake and the cache that protects requests
    against replay. *)

From S2P Require Import Prelude GoStd Sha256 Crypto Protocol Instances Identity.
Local Open Scope go_scope.

(** src: internal/signaling/handshake.go 15-24 NonceSize, TimestampFreshness, NonceCacheTTL *)
Definition NonceSize : nat := 32.
Definition TimestampFreshness : Z := 5 * GoTime.Minute.
Definition NonceCacheTTL : Z := 10 * GoTime.Minute.

(** ** The nonce cache: a nonce and the time it was recorded *)

(** internal/signaling/handshake.go 27-30 NonceCache *)
Abbreviation NonceCache := (gmap bytes Z).

(** src: internal/signaling/handshake.go 33-37 NewNonceCache *)
Definition NewNonceCache : NonceCache := ∅.

(** src: internal/signaling/handshake.go 51-57 NonceCache.Check *)
Definition prune (nc : NonceCache) (now : Z) : NonceCache :=
  filter (fun '(_, t) => GoTime.Sub now t <= NonceCacheTTL) nc.

(** src: internal/signaling/handshake.go 41-64 NonceCache.Check *)
Definition Check_ (nc : NonceCache) (nonce : bytes) (now : Z) : bool * NonceCache :=
  if negb (length nonce =? NonceSize)%nat then (false, nc)
  else
    let nc := prune nc now in
    match nc !! nonce with
    | Some _ => (false, nc)
    | None => (true, <[nonce := now]> nc)
    end.

Inductive handshake_err :=
| ErrNonce | ErrMarshalMsg | ErrUnmarshalMsg | ErrTooOld | ErrInFuture | ErrNonceLength (n : nat)
| ErrReplayed | ErrWrongKey | ErrBadKey | ErrBadSignature.

(** [rand.Read] into a nonce; [None]: the source failed. *)
(** src: internal/signaling/handshake.go 67-73 GenerateNonce *)
Definition GenerateNonce (rand : option bytes) : result handshake_err bytes := of_option ErrNonce rand.

Section messages.
Context `{Proto ConnRequest, Proto ConnResponse, Proto ConnConfirm}.
Context `{Ed25519, Ripemd160, Base58}.

(** The message and its nonce; [now] in milliseconds. *)
(** src: internal/signaling/handshake.go 77-95 CreateConnRequest *)
Definition CreateConnRequest (fromAddr targetAddr : string) (rand : option bytes) (now : Z) :
    result handshake_err (bytes * bytes) :=
  nonce <-? GenerateNonce rand;
  data <-? of_option ErrMarshalMsg (marshal (mkConnRequest fromAddr targetAddr nonce (GoTime.UnixMilli now)));
  Ok (data, nonce).

(** The clock is read for the age, for the future bound and in [Check]. *)
(** src: internal/signaling/handshake.go 98-124 ValidateConnRequest *)
Definition ValidateConnRequest (data : bytes) (nc : NonceCache) (now1 now2 now3 : Z) :
    result handshake_err ConnRequest * NonceCache :=
  match unmarshal data with
  | None => (Err ErrUnmarshalMsg, nc)
  | Some msg =>
      let ts := GoTime.of_UnixMilli (req_Timestamp msg) in
      if TimestampFreshness <? GoTime.Sub now1 ts then (Err ErrTooOld, nc)
      else if GoTime.After ts (GoTime.Add now2 TimestampFreshness) then (Err ErrInFuture, nc)
      else if negb (length (req_Nonce msg) =? NonceSize)%nat
      then (Err (ErrNonceLength (length (req_Nonce msg))), nc)
      else
        let '(fresh, nc) := Check_ nc (req_Nonce msg) now3 in
        if fresh then (Ok msg, nc) else (Err ErrReplayed, nc)
  end.

(** A nil keypair is passed only for a rejection. *)
(** src: internal/signaling/handshake.go 128-153 CreateConnResponse *)
Definition CreateConnResponse (accepted : bool) (kp : Keypair) (requestNonce : bytes) (reason : string)
    (rand : option bytes) : result handshake_err (bytes * bytes) :=
  if accepted then
    respNonce <-? GenerateNonce rand;
    data <-? of_option ErrMarshalMsg
      (marshal (mkConnResponse true (PublicKey kp) (Sign kp requestNonce) respNonce ""));
    Ok (data, respNonce)
  else
    data <-? of_option ErrMarshalMsg (marshal (mkConnResponse false [] [] [] reason));
    Ok (data, []).

(** The proof of identity of both answers: a key that hashes to the address and its
    signature over a nonce. *)
(** src: internal/signaling/handshake.go 167-179 ValidateConnResponse *)
Definition verify_identity (pubKey nonce signature : bytes) (addr : string) : result handshake_err unit :=
  if negb (MatchesPublicKey addr pubKey) then Err ErrWrongKey
  else match FromPublicKey pubKey with
       | Err _ => Err ErrBadKey
       | Ok verifier => if Verify verifier nonce signature then Ok tt else Err ErrBadSignature
       end.

(** src: internal/signaling/handshake.go 157-187 ValidateConnResponse *)
Definition ValidateConnResponse (data requestNonce : bytes) (targetAddr : string) :
    result handshake_err ConnResponse :=
  msg <-? of_option ErrUnmarshalMsg (unmarshal data);
  if negb (resp_Accepted msg) then Ok msg
  else
    _ <-? verify_identity (resp_PubKey msg) requestNonce (resp_Signature msg) targetAddr;
    guard (length (resp_Nonce msg) =? NonceSize)%nat else ErrNonceLength (length (resp_Nonce msg));
    Ok msg.

(** src: internal/signaling/handshake.go 191-202 CreateConnConfirm *)
Definition CreateConnConfirm (kp : Keypair) (responderNonce : bytes) : result handshake_err bytes :=
  of_option ErrMarshalMsg (marshal (mkConnConfirm (PublicKey kp) (Sign kp responderNonce))).

(** src: internal/signaling/handshake.go 206-227 ValidateConnConfirm *)
Definition ValidateConnConfirm (data responderNonce : bytes) (fromAddr : string) :
    result handshake_err ConnConfirm :=
  msg <-? of_option ErrUnmarshalMsg (unmarshal data);
  _ <-? verify_identity (conf_PubKey msg) responderNonce (conf_Signature msg) fromAddr;
  Ok msg.

(** What [verify_identity] establishes. *)
Definition proves_identity (pubKey nonce signature : bytes) (addr : string) : Prop :=
  addr = DeriveAddress pubKey /\ length pubKey = PublicKeySize /\ ed_verify pubKey nonce signature = true.
End messages.

Section message_laws.
Context `{ProtoOk ConnRequest, ProtoOk ConnResponse, ProtoOk ConnConfirm}.
Context `{Ed25519Ok, Ripemd160Ok, Base58Ok}.

Lemma verify_identity_Ok pk nonce sig addr :
  verify_identity pk nonce sig addr = Ok tt <-> proves_identity pk nonce sig addr.
Proof.
  unfold verify_identity, proves_identity.
  destruct (MatchesPublicKey addr pk) eqn:Hm; cbn [negb].
  - apply MatchesPublicKey_iff in Hm. unfold FromPublicKey, Verify.
    destruct (Nat.eqb_spec (length pk) PublicKeySize) as [Hl|Hl]; cbn [negb].
    + cbn. destruct (ed_verify pk nonce sig); split; (done || intros (_ & _ & ?); done).
    + split; [done|]. by intros (_ & ? & _).
  - split; [done|]. intros (Ha & _). apply MatchesPublicKey_iff in Ha. congruence.
Qed.

Lemma verify_identity_genuine kp nonce :
  genuine kp -> verify_identity (kp_pub kp) nonce (Sign kp nonce) (DeriveAddress (kp_pub kp)) = Ok tt.
Proof.
  intros Hg. apply verify_identity_Ok. split; [done|]. split; [by apply genuine_pub_length|].
  exact (Verify_Sign kp nonce [] Hg).
Qed.

Lemma ValidateConnResponse_Ok data nonce addr msg :
  ValidateConnResponse data nonce addr = Ok msg ->
  unmarshal data = Some msg /\
  (resp_Accepted msg = true ->
     proves_identity (resp_PubKey msg) nonce (resp_Signature msg) addr /\ length (resp_Nonce msg) = NonceSize).
Proof.
  unfold ValidateConnResponse. destruct (unmarshal data) as [m|]; [|done]. simpl.
  destruct (resp_Accepted m) eqn:Ha; simpl.
  - destruct (verify_identity _ _ _ _) as [[]|e] eqn:Hv; [|done]. simpl.
    destruct (Nat.eqb_spec (length (resp_Nonce m)) NonceSize); [|done].
    intros [= <-]. split; [done|]. intros _. split; [by apply verify_identity_Ok|done].
  - intros [= <-]. split; [done|]. congruence.
Qed.

Lemma ValidateConnConfirm_Ok data nonce addr msg :
  ValidateConnConfirm data nonce addr = Ok msg ->
  unmarshal data = Some msg /\ proves_identity (conf_PubKey msg) nonce (conf_Signature msg) addr.
Proof.
  unfold ValidateConnConfirm. destruct (unmarshal data) as [m|]; [|done]. simpl.
  destruct (verify_identity _ _ _ _) as [[]|e] eqn:Hv; [|done]. simpl.
  intros [= <-]. split; [done|]. by apply verify_identity_Ok.
Qed.
End message_laws.

(** ** Replay *)

Section replay.
Context `{Proto ConnRequest}.

(** One validation: the data and the three clock readings. *)
Record validation := mkValidation { vl_data : bytes; vl_now1 : Z; vl_now2 : Z; vl_now3 : Z }.

(** The cache after a sequence of validations, one after the other. *)
Fixpoint validate_all (nc : NonceCache) (vs : list validation) : NonceCache :=
  match vs with
  | [] => nc
  | v :: vs => validate_all (ValidateConnRequest (vl_data v) nc (vl_now1 v) (vl_now2 v) (vl_now3 v)).2 vs
  end.

(** The clock does not run backwards, from time [t] on. *)
Fixpoint readings_ok (t : Z) (vs : list validation) : Prop :=
  match vs with
  | [] => True
  | v :: vs => t <= vl_now1 v <= vl_now2 v /\ vl_now2 v <= vl_now3 v /\ readings_ok (vl_now3 v) vs
  end.

Lemma lookup_prune nc now n t :
  prune nc now !! n = Some t <-> nc !! n = Some t /\ now - t <= NonceCacheTTL.
Proof.
  unfold prune. rewrite map_lookup_filter_Some.
  rewrite (GoTime.Sub_le now t NonceCacheTTL) by done. done.
Qed.

(** The nonce [n] accepted at time [t] is remembered, or the clock has passed its
    expiry. *)
Definition remembered (n : bytes) (t now : Z) (nc : NonceCache) : Prop :=
  (exists t', t <= t' /\ nc !! n = Some t') \/ t + NonceCacheTTL < now.

Lemma Check_remembered n t now0 now nc m ok nc' :
  remembered n t now0 nc -> now0 <= now -> t <= now -> Check_ nc m now = (ok, nc') -> remembered n t now nc'.
Proof.
  unfold Check_, remembered. intros Hrem Hle Ht.
  destruct (negb _); [intros [= <- <-]; destruct Hrem; [by left|right; lia]|].
  assert ((exists t', t <= t' /\ prune nc now !! n = Some t') \/ t + NonceCacheTTL < now) as Hp.
  { destruct Hrem as [(t' & Htt & Hl)|]; [|right; lia].
    destruct (decide (now - t' <= NonceCacheTTL)); [|right; lia]. left. exists t'. by rewrite lookup_prune. }
  destruct (prune nc now !! m) as [u|] eqn:Hm; intros [= <- <-]; [done|].
  destruct Hp as [(t' & Htt & Hl)|]; [|by right]. left. exists t'. split; [done|].
  rewrite lookup_insert_ne; [done|congruence].
Qed.

Lemma Validate_remembered n t now0 v nc :
  remembered n t now0 nc -> t <= now0 -> now0 <= vl_now1 v <= vl_now2 v -> vl_now2 v <= vl_now3 v ->
  remembered n t (vl_now3 v) (ValidateConnRequest (vl_data v) nc (vl_now1 v) (vl_now2 v) (vl_now3 v)).2.
Proof.
  intros Hrem Ht H1 H2. assert (remembered n t (vl_now3 v) nc) as Hlater
    by (destruct Hrem; [by left|right; lia]).
  unfold ValidateConnRequest. destruct (unmarshal (vl_data v)) as [msg|]; [|done].
  destruct (_ <? _); [done|]. destruct (GoTime.After _ _); [done|]. destruct (negb _); [done|].
  destruct (Check_ nc (req_Nonce msg) (vl_now3 v)) as [fresh nc'] eqn:Hc.
  assert (remembered n t (vl_now3 v) nc') by (eapply Check_remembered; [exact Hrem| | |exact Hc]; lia).
  by destruct fresh.
Qed.

(** An accepted request: fresh on both sides, its nonce new and now recorded. *)
Lemma Validate_accepted v nc req nc' :
  ValidateConnRequest (vl_data v) nc (vl_now1 v) (vl_now2 v) (vl_now3 v) = (Ok req, nc') ->
  unmarshal (vl_data v) = Some req /\
  vl_now1 v - GoTime.of_UnixMilli (req_Timestamp req) <= TimestampFreshness /\
  GoTime.of_UnixMilli (req_Timestamp req) <= vl_now2 v + TimestampFreshness /\
  prune nc (vl_now3 v) !! req_Nonce req = None /\ nc' !! req_Nonce req = Some (vl_now3 v).
Proof.
  unfold ValidateConnRequest. destruct (unmarshal (vl_data v)) as [msg|]; [|done].
  destruct (Z.ltb_spec TimestampFreshness (GoTime.Sub (vl_now1 v) (GoTime.of_UnixMilli (req_Timestamp msg)))) as [|Hage]; [done|].
  destruct (GoTime.After _ _) eqn:Hfut; [done|].
  unfold Check_. destruct (negb _); [done|].
  destruct (prune nc (vl_now3 v) !! req_Nonce msg) eqn:Hp; [done|]. intros [= <- <-].
  apply (GoTime.Sub_le _ _ TimestampFreshness) in Hage; [|done..].
  unfold GoTime.After, GoTime.Add in Hfut. apply Z.ltb_ge in Hfut.
  split_and!; [done|done|done|done|apply lookup_insert_eq].
Qed.

Lemma validate_all_remembered n t vs : forall now0 nc,
  remembered n t now0 nc -> t <= now0 -> readings_ok now0 vs ->
  exists now', remembered n t now' (validate_all nc vs) /\ t <= now' /\
    forall vs', readings_ok now0 (vs ++ vs') -> readings_ok now' vs'.
Proof.
  induction vs as [|v vs IH]; intros now0 nc Hrem Ht Hclk; simpl.
  { exists now0. done. }
  destruct Hclk as (H1 & H2 & Hclk).
  destruct (IH (vl_now3 v) (ValidateConnRequest (vl_data v) nc (vl_now1 v) (vl_now2 v) (vl_now3 v)).2)
    as (now' & Hr & Htn & Hrest); [by apply (Validate_remembered n t now0)|lia|done|].
  exists now'. split_and!; [done|done|]. intros vs' (_ & _ & Hv). by apply Hrest.
Qed.

(** No replay within the cache's lifetime: over any sequence of requests and a clock that does
    not run backwards, the same request is accepted a second time only in a call whose age
    check reads the clock at most ten minutes after the first acceptance and whose cache check
    reads it more than ten minutes after; in particular never when a call takes no time. *)
Theorem nonce_replay nc t0 first between second req nc1 req2 nc2 :
  vl_data second = vl_data first ->
  readings_ok t0 (first :: between ++ [second]) ->
  ValidateConnRequest (vl_data first) nc (vl_now1 first) (vl_now2 first) (vl_now3 first) = (Ok req, nc1) ->
  ValidateConnRequest (vl_data second) (validate_all nc1 between)
    (vl_now1 second) (vl_now2 second) (vl_now3 second) = (Ok req2, nc2) ->
  req2 = req /\ vl_now1 second <= vl_now3 first + NonceCacheTTL < vl_now3 second.
Proof.
  intros Hsame (H1 & H2 & Hclk) Hfirst Hsecond.
  apply Validate_accepted in Hfirst as (Hu & _ & Hfut & _ & Hrec).
  apply Validate_accepted in Hsecond as (Hu2 & Hage & _ & Hfresh & _).
  assert (req2 = req) as -> by congruence. split; [done|].
  assert (remembered (req_Nonce req) (vl_now3 first) (vl_now3 first) nc1) as Hrem by (left; by exists (vl_now3 first)).
  assert (readings_ok (vl_now3 first) between) as Hb.
  { clear -Hclk. revert Hclk. generalize (vl_now3 first) as t. induction between as [|v vs IH]; intros t; simpl; [done|].
    intros (? & ? & ?). split_and!; [lia..|]. by apply IH. }
  destruct (validate_all_remembered _ _ between _ _ Hrem ltac:(lia) Hb) as (now' & Hr & Hge & Hrest).
  destruct (Hrest [second] Hclk) as (H3 & H4 & _).
  assert (vl_now1 second <= vl_now3 first + NonceCacheTTL) as Hlow.
  { unfold NonceCacheTTL, TimestampFreshness in *. lia. }
  split; [done|]. destruct Hr as [(t' & Htt & Hl)|]; [|lia].
  destruct (decide (vl_now3 second - t' <= NonceCacheTTL)) as [Hin|]; [|lia].
  assert (prune (validate_all nc1 between) (vl_now3 second) !! req_Nonce req = Some t') by (by rewrite lookup_prune).
  congruence.
Qed.
End replay.

Section samples.
Import Toy.

Definition sample_now : Z := 1700000000 * GoTime.Second.
Definition sample_nonce : bytes := replicate 32 Byte.x07.
(** A request dated five minutes ahead. *)
Definition sample_request : bytes :=
  marshal_or_nil (mkConnRequest "Ea" "Eb" sample_nonce 1700000300000).
Definition first_validation : validation := mkValidation sample_request sample_now sample_now sample_now.
(** Ten minutes later, reading the clock again a nanosecond after the age check. *)
Definition late_validation : validation :=
  mkValidation sample_request (sample_now + NonceCacheTTL) (sample_now + NonceCacheTTL)
    (sample_now + NonceCacheTTL + 1).

Definition validated (v : validation) (nc : NonceCache) : result handshake_err ConnRequest * NonceCache :=
  ValidateConnRequest (vl_data v) nc (vl_now1 v) (vl_now2 v) (vl_now3 v).

Definition sample_conn_request : ConnRequest := mkConnRequest "Ea" "Eb" sample_nonce 1700000300000.
Definition cache1 : NonceCache := (validated first_validation ∅).2.

Lemma first_accepted : (validated first_validation ∅).1 = Ok sample_conn_request.
Proof. vm_compute. reflexivity. Qed.
Lemma late_accepted : (validated late_validation cache1).1 = Ok sample_conn_request.
Proof. vm_compute. reflexivity. Qed.
Lemma sample_readings : readings_ok 0 (first_validation :: [] ++ [late_validation]).
Proof. vm_compute. repeat split; discriminate. Qed.

Lemma nonce_replay_witness :
  (validated late_validation cache1).1 = Ok sample_conn_request /\
  vl_now1 late_validation <= vl_now3 first_validation + NonceCacheTTL < vl_now3 late_validation.
Proof.
  split; [exact late_accepted|].
  exact (proj2 (nonce_replay ∅ 0 first_validation [] late_validation sample_conn_request cache1
    sample_conn_request (validated late_validation cache1).2 eq_refl sample_readings
    (with_second _ _ first_accepted) (with_second _ _ late_accepted))).
Defined.
End samples.
