(* ===== verification/X25519.v ===== *)
(** * internal/identity/x25519.go

    The conversion of Ed25519 keys to X25519 keys, with its field arithmetic. *)

From S2P Require Import Prelude GoStd Crypto Identity.
Local Open Scope go_scope.

(** src: internal/identity/x25519.go 11-12 fieldPrime *)
Definition fieldPrime : Z := 2 ^ 255 - 19.

Definition byte_at (b : bytes) (i : nat) : byte := default Byte.x00 (b !! i).
Definition and_byte (x : byte) (m : Z) : byte := z2b (Z.land (b2z x) m).
Definition or_byte (x : byte) (m : Z) : byte := z2b (Z.lor (b2z x) m).

(** [big.Int.ModInverse] by the extended Euclidean algorithm: [a * x + b * y = g]. *)
Fixpoint egcd (fuel : nat) (a b : Z) : Z * Z * Z :=
  match fuel with
  | O => (a, 1, 0)
  | S fuel =>
      if b =? 0 then (a, 1, 0)
      else let '(g, x, y) := egcd fuel b (a mod b) in (g, y, x - (a / b) * y)
  end.

(** Every two rounds halve the smaller argument: 600 rounds are enough for 256 bits. *)
Definition ModInverse (g n : Z) : option Z :=
  let '(d, x, _) := egcd 600 (g mod n) n in
  if d =? 1 then Some (x mod n) else None.

Lemma egcd_bezout fuel a b : let '(g, x, y) := egcd fuel a b in a * x + b * y = g.
Proof.
  revert a b. induction fuel as [|fuel IH]; intros a b; simpl; [lia|].
  destruct (Z.eqb_spec b 0); [lia|]. specialize (IH b (a mod b)).
  destruct (egcd fuel b (a mod b)) as [[g x] y].
  pose proof (Z.div_mod a b ltac:(done)). nia.
Qed.

Lemma ModInverse_spec g n z : 1 < n -> ModInverse g n = Some z -> 0 <= z < n /\ (g * z) mod n = 1.
Proof.
  intros Hn. unfold ModInverse. pose proof (egcd_bezout 600 (g mod n) n) as Hb.
  destruct (egcd 600 (g mod n) n) as [[d x] y]. destruct (Z.eqb_spec d 1) as [->|]; [|done].
  intros [= <-]. split; [apply Z.mod_pos_bound; lia|].
  rewrite Zmult_mod_idemp_r, <- (Zmult_mod_idemp_l g).
  replace (g mod n * x) with (1 + (- y) * n) by lia.
  rewrite Z_mod_plus_full. by apply Z.mod_small.
Qed.

Section conversion.
Context `{Sha512}.

(** src: internal/identity/x25519.go 16-27 Keypair.ToX25519PrivateKey *)
Definition ToX25519PrivateKey (k : Keypair) : bytes :=
  let out := take 32 (sha512 (Seed k)) in
  let out := <[0%nat := and_byte (byte_at out 0) 248]> out in
  let out := <[31%nat := and_byte (byte_at out 31) 127]> out in
  <[31%nat := or_byte (byte_at out 31) 64]> out.

(** src: internal/identity/x25519.go 36-74 Ed25519PublicKeyToX25519 *)
Definition Ed25519PublicKeyToX25519 (pub : bytes) : option bytes :=
  if negb (length pub =? PublicKeySize)%nat then None
  else
    let yBytes := <[31%nat := and_byte (byte_at pub 31) 127]> pub in
    let y := BigEndian.get (reverse yBytes) in
    let num := 1 + y in
    let den := 1 - y in
    match ModInverse den fieldPrime with
    | None => None
    | Some denInv =>
        let u := (num * denInv) mod fieldPrime in
        Some (reverse (BigEndian.put 32 u))
    end.

(** src: internal/identity/x25519.go 31-33 Keypair.ToX25519PublicKey *)
Definition ToX25519PublicKey (k : Keypair) : option bytes := Ed25519PublicKeyToX25519 (kp_pub k).
End conversion.

(** The converted coordinate solves [u * (1 - y) = 1 + y] in the field. *)
Lemma Ed25519PublicKeyToX25519_birational pub out :
  Ed25519PublicKeyToX25519 pub = Some out ->
  let y := BigEndian.get (reverse (<[31%nat := and_byte (byte_at pub 31) 127]> pub)) in
  length out = 32%nat /\
  BigEndian.get (reverse out) * (1 - y) mod fieldPrime = (1 + y) mod fieldPrime.
Proof.
  unfold Ed25519PublicKeyToX25519. destruct (negb _); [done|]. cbv zeta.
  set (y := BigEndian.get _). destruct (ModInverse (1 - y) fieldPrime) as [z|] eqn:Hz; [|done].
  intros <-%(inj Some). apply ModInverse_spec in Hz as [_ Hz]; [|done].
  split; [by rewrite length_reverse, BigEndian.length_put|].
  rewrite reverse_involutive, BigEndian.get_put.
  rewrite (Z.mod_small (((1 + y) * z) mod fieldPrime)).
  - rewrite Zmult_mod_idemp_l.
    replace ((1 + y) * z * (1 - y)) with ((1 + y) * ((1 - y) * z)) by lia.
    by rewrite <- Zmult_mod_idemp_r, Hz, Z.mul_1_r.
  - pose proof (Z.mod_pos_bound ((1 + y) * z) fieldPrime eq_refl).
    assert (fieldPrime < 256 ^ Z.of_nat 32) by done. lia.
Qed.

(** RFC 8032's base point: [y = 4/5] goes to [u = 9]. *)
Example base_point_conversion :
  Ed25519PublicKeyToX25519 (z2b 88 :: replicate 31 (z2b 102)) = Some (z2b 9 :: replicate 31 (z2b 0)).
Proof. vm_compute. reflexivity. Qed.
