(* ===== verification/IPExchange.v ===== *)
(** * internal/signaling/ipexchange.go

    The encrypted exchange of network addresses after a handshake. *)

From S2P Require Import Prelude GoStd Sha256 Crypto Protocol Instances Identity Wire X25519.
Local Open Scope go_scope.

(** internal/signaling/ipexchange.go 25-27 IPInfo *)
Abbreviation IPInfo := (list string).

(** src: internal/signaling/ipexchange.go 29-29 hkdfInfo *)
Definition hkdfInfo : bytes := String.list_byte_of_string "ensemble-ip-exchange-v1".

Inductive ipx_err :=
| ErrConvertKey | ErrECDH | ErrMarshalIP | ErrUnmarshalIP | ErrNonceRand | ErrTooShort | ErrDecrypt
| ErrSendIP | ErrReceiveIP | ErrIPType (t : MessageType).

(** [for i := ...; a[i] > b[i] { swap } else if a[i] < b[i] { break }]: whether the
    loop swaps. *)
(** src: internal/signaling/ipexchange.go 144-151 sortedConcat *)
Fixpoint swap_loop (a b : bytes) : bool :=
  match a, b with
  | x :: a, y :: b =>
      if b2z y <? b2z x then true else if b2z x <? b2z y then false else swap_loop a b
  | _, _ => false
  end.

(** src: internal/signaling/ipexchange.go 139-157 sortedConcat *)
Definition sortedConcat (a b : bytes) : bytes :=
  let swap :=
    match a, b with
    | x :: _, y :: _ =>
        if b2z y <? b2z x then true
        else if b2z x =? b2z y then swap_loop a b else false
    | _, _ => false
    end in
  if swap then b ++ a else a ++ b.

Section ipexchange.
Context `{Proto IPExchangeMsg, Ed25519, X25519, Sha512, HKDF, AESGCM}.

(** src: internal/signaling/ipexchange.go 116-136 deriveSharedKey *)
Definition deriveSharedKey (kp : Keypair) (peerPub : bytes) : result ipx_err bytes :=
  xPub <-? of_option ErrConvertKey (Ed25519PublicKeyToX25519 peerPub);
  shared <-? of_option ErrECDH (x25519 (ToX25519PrivateKey kp) xPub);
  Ok (hkdf_sha256 shared (sortedConcat (PublicKey kp) peerPub) hkdfInfo).

(** [rand.Read] of the nonce; [None]: the source failed. *)
(** src: internal/signaling/ipexchange.go 160-174 encryptGCM *)
Definition encryptGCM (rand : option bytes) (key plaintext : bytes) : result ipx_err bytes :=
  nonce <-? of_option ErrNonceRand rand;
  Ok (nonce ++ gcm_seal key nonce plaintext).

(** src: internal/signaling/ipexchange.go 177-195 decryptGCM *)
Definition decryptGCM (key ciphertext : bytes) : result ipx_err bytes :=
  guard negb (length ciphertext <? gcmNonceSize)%nat else ErrTooShort;
  of_option ErrDecrypt (gcm_open key (take gcmNonceSize ciphertext) (drop gcmNonceSize ciphertext)).

(** src: internal/signaling/ipexchange.go 34-47 EncryptIPInfo *)
Definition EncryptIPInfo (rand : option bytes) (info : IPInfo) (kp : Keypair) (peerPub : bytes) :
    result ipx_err bytes :=
  key <-? deriveSharedKey kp peerPub;
  plaintext <-? of_option ErrMarshalIP (marshal (mkIPExchangeMsg info));
  encryptGCM rand key plaintext.

(** src: internal/signaling/ipexchange.go 50-66 DecryptIPInfo *)
Definition DecryptIPInfo (ciphertext : bytes) (kp : Keypair) (peerPub : bytes) : result ipx_err IPInfo :=
  key <-? deriveSharedKey kp peerPub;
  plaintext <-? decryptGCM key ciphertext;
  msg <-? of_option ErrUnmarshalIP (unmarshal plaintext);
  Ok (ipx_Addrs msg).

(** The conversion of a public key agrees with the scalar of its seed: the birational
    map carries Ed25519's base point to X25519's. *)
Class KeyConversionOk : Prop :=
  key_conversion kp : genuine kp ->
    Ed25519PublicKeyToX25519 (kp_pub kp) = Some (x25519_base (ToX25519PrivateKey kp)).
End ipexchange.

Lemma swap_loop_swap a b : swap_loop a b = true -> swap_loop b a = false.
Proof.
  revert b. induction a as [|x a IH]; intros [|y b]; simpl; try done.
  destruct (Z.ltb_spec (b2z y) (b2z x)), (Z.ltb_spec (b2z x) (b2z y)); try done; [lia|]. apply IH.
Qed.

Lemma swap_loop_eq a b : length a = length b -> swap_loop a b = false -> swap_loop b a = false -> a = b.
Proof.
  revert b. induction a as [|x a IH]; intros [|y b] Hl; simpl; try done.
  destruct (Z.ltb_spec (b2z y) (b2z x)), (Z.ltb_spec (b2z x) (b2z y)); try done.
  intros. f_equal; [apply b2z_inj; lia|]. apply IH; [by injection Hl|done..].
Qed.

(** Both peers build the same salt. *)
Lemma sortedConcat_comm a b : length a = length b -> sortedConcat a b = sortedConcat b a.
Proof.
  intros Hl. unfold sortedConcat. destruct a as [|x a], b as [|y b]; try done.
  rewrite (Z.eqb_sym (b2z y)).
  destruct (Z.ltb_spec (b2z y) (b2z x)), (Z.ltb_spec (b2z x) (b2z y)), (Z.eqb_spec (b2z x) (b2z y));
    try lia; try done.
  destruct (swap_loop (x :: a) (y :: b)) eqn:H1; [by rewrite (swap_loop_swap _ _ H1)|].
  destruct (swap_loop (y :: b) (x :: a)) eqn:H2; [done|].
  by rewrite (swap_loop_eq _ _ Hl H1 H2).
Qed.

Section roundtrip.
Context `{ProtoOk IPExchangeMsg, Ed25519Ok, X25519Ok, Sha512, HKDF, AESGCMOk, !KeyConversionOk}.

Lemma deriveSharedKey_agrees a b :
  genuine a -> genuine b -> deriveSharedKey a (kp_pub b) = deriveSharedKey b (kp_pub a).
Proof.
  intros Ha Hb. unfold deriveSharedKey, PublicKey.
  rewrite (key_conversion a Ha), (key_conversion b Hb). cbn [of_option rbind].
  rewrite (x25519_comm (ToX25519PrivateKey a)).
  rewrite (sortedConcat_comm (kp_pub a)); [done|].
  by rewrite (genuine_pub_length a Ha), (genuine_pub_length b Hb).
Qed.

Lemma Decrypt_Encrypt a b rand info c :
  genuine a -> genuine b -> (forall n, rand = Some n -> length n = gcmNonceSize) ->
  EncryptIPInfo rand info a (kp_pub b) = Ok c -> DecryptIPInfo c b (kp_pub a) = Ok info.
Proof.
  intros Ha Hb Hn. unfold EncryptIPInfo, DecryptIPInfo. rewrite (deriveSharedKey_agrees b a Hb Ha).
  destruct (deriveSharedKey a (kp_pub b)) as [key|e]; [|done]. cbn [rbind].
  destruct (marshal (mkIPExchangeMsg info)) as [m|] eqn:Hm; [|done]. cbn [of_option rbind].
  unfold encryptGCM. destruct rand as [n|]; [|done]. cbn [of_option rbind]. intros [= <-].
  specialize (Hn n eq_refl). unfold decryptGCM. rewrite length_app, Hn.
  destruct (Nat.ltb_spec (gcmNonceSize + length (gcm_seal key n m)) gcmNonceSize); [lia|]. cbn [negb].
  rewrite take_app_length', drop_app_length' by done. rewrite gcm_open_seal. cbn [of_option rbind].
  by rewrite (unmarshal_marshal _ _ Hm).
Qed.

(** The exchange of addresses: both peers derive the same key; what one encrypts the other
    decrypts to the same addresses; and a ciphertext too short to hold a nonce, or one
    under a nonce and key the cipher rejects, is an error. *)
Theorem ip_exchange_contract a b :
  genuine a -> genuine b ->
  deriveSharedKey a (kp_pub b) = deriveSharedKey b (kp_pub a) /\
  (forall nonce info c, length nonce = gcmNonceSize ->
     EncryptIPInfo (Some nonce) info a (kp_pub b) = Ok c -> DecryptIPInfo c b (kp_pub a) = Ok info) /\
  (forall c, (length c < gcmNonceSize)%nat -> is_ok (DecryptIPInfo c b (kp_pub a)) = false) /\
  (forall c key, deriveSharedKey b (kp_pub a) = Ok key -> (gcmNonceSize <= length c)%nat ->
     gcm_open key (take gcmNonceSize c) (drop gcmNonceSize c) = None ->
     DecryptIPInfo c b (kp_pub a) = Err ErrDecrypt).
Proof.
  intros Ha Hb. split_and!.
  - by apply deriveSharedKey_agrees.
  - intros nonce info c Hn. apply (Decrypt_Encrypt a b); [done..|]. by intros ? [= <-].
  - intros c Hc. unfold DecryptIPInfo, decryptGCM. destruct (deriveSharedKey _ _); [|done]. cbn [rbind].
    by destruct (Nat.ltb_spec (length c) gcmNonceSize); [|lia].
  - intros c key Hk Hc Ho. unfold DecryptIPInfo, decryptGCM. rewrite Hk. cbn [rbind].
    destruct (Nat.ltb_spec (length c) gcmNonceSize); [lia|]. cbn [negb]. by rewrite Ho.
Qed.
End roundtrip.

(** ** Key material on which every law holds

    Two public keys, chosen by the first byte of the seed; the scalar of a seed keeps
    that byte, and the base point of a scalar is the conversion of its key. *)
Module ToyKeys.
Import Toy.

Definition is_odd (b : bytes) : bool := Z.odd (b2z (byte_at b 0)).
Definition pub_of (odd : bool) : bytes := (if odd then Byte.x02 else Byte.x00) :: replicate 31 Byte.x00.

#[export] Instance ed25519_keys : Ed25519 := {
  ed_pub_of_seed seed := pub_of (is_odd seed);
  ed_sign priv m := Sha256.Sum256 (priv_Public priv ++ m);
  ed_verify pub m sig := bytes_eqb sig (Sha256.Sum256 (pub ++ m)) }.
#[export] Instance ed25519_keys_ok : Ed25519Ok.
Proof. split; [intros seed; by cbn; destruct (is_odd seed)|]. intros priv m _. apply bytes_eqb_refl. Qed.

#[export] Instance sha512_keys : Sha512 := { sha512 m := Byte.x00 :: byte_at m 0 :: replicate 62 Byte.x00 }.

Definition point_of (odd : bool) : bytes := default [] (Ed25519PublicKeyToX25519 (pub_of odd)).
Definition base_of (scalar : bytes) : bytes := point_of (is_odd (drop 1 scalar)).

#[export] Instance x25519_keys : X25519 := {
  x25519 a p := Some (zip_with bxor (base_of a) p);
  x25519_base := base_of }.
#[export] Instance x25519_keys_ok : X25519Ok.
Proof.
  split. intros a b. unfold x25519, x25519_base. simpl. f_equal.
  generalize (base_of b) as y. generalize (base_of a) as x. clear.
  induction x as [|x a IH]; intros [|y b]; simpl; [done..|]. by rewrite bxor_comm, IH.
Qed.

Lemma conversion_defined odd : is_Some (Ed25519PublicKeyToX25519 (pub_of odd)).
Proof. destruct odd; eexists; vm_compute; reflexivity. Qed.

#[export] Instance key_conversion_keys : KeyConversionOk.
Proof.
  intros kp [(seed & Hl & Hp) Hpub].
  assert (kp_pub kp = pub_of (is_odd seed)) as ->.
  { rewrite Hpub, Hp. by rewrite NewKeyFromSeed_Public. }
  unfold x25519_base. cbn [x25519_keys]. unfold base_of.
  assert (is_odd (drop 1 (ToX25519PrivateKey kp)) = is_odd seed) as ->.
  { unfold ToX25519PrivateKey, Seed. rewrite Hp. unfold NewKeyFromSeed, priv_Seed.
    rewrite take_app_length' by done. by destruct seed as [|x seed]. }
  unfold point_of. by destruct (conversion_defined (is_odd seed)) as [p ->].
Qed.

Definition key_of (n : Z) : Keypair :=
  let seed := z2b n :: replicate 31 Byte.x00 in mkKeypair (ed_pub_of_seed seed) (NewKeyFromSeed seed).
Lemma key_of_genuine n : genuine (key_of n).
Proof.
  split; [exists (z2b n :: replicate 31 Byte.x00); by split|]. unfold key_of. cbn [kp_pub kp_priv]. by rewrite NewKeyFromSeed_Public.
Qed.

Lemma ip_exchange_contract_witness :
  genuine (key_of 1) /\ genuine (key_of 2) /\ kp_pub (key_of 1) <> kp_pub (key_of 2) /\
  deriveSharedKey (key_of 1) (kp_pub (key_of 2)) = deriveSharedKey (key_of 2) (kp_pub (key_of 1)).
Proof.
  split; [apply key_of_genuine|]. split; [apply key_of_genuine|]. split; [by vm_compute|].
  exact (proj1 (ip_exchange_contract (key_of 1) (key_of 2) (key_of_genuine 1) (key_of_genuine 2))).
Defined.
End ToyKeys.
