(* ===== verification/Signaling.v ===== *)
(** * internal/signaling: the server and the client of the handshake

    Both sides are processes over one connection: they send and receive envelopes
    and end with an outcome. *)

From S2P Require Import Prelude GoStd Sha256 Crypto Protocol Instances Identity Wire X25519 IPExchange Handshake Services.
Local Open Scope go_scope.

(** ** Processes over a connection

    [Send e k]: [WriteMsg] of [e], which succeeds or fails; [Recv k]: [ReadMsg], [None] is
    an error (the peer closed, a deadline passed, the bytes do not parse). *)
Inductive proc (A : Type) : Type :=
| Done (a : A)
| Send (e : Envelope) (k : bool -> proc A)
| Recv (k : option Envelope -> proc A).
Arguments Done {A} a.
Arguments Send {A} e k.
Arguments Recv {A} k.

Fixpoint pbind {A B} (p : proc A) (f : A -> proc B) : proc B :=
  match p with
  | Done a => f a
  | Send e k => Send e (fun ok => pbind (k ok) f)
  | Recv k => Recv (fun r => pbind (k r) f)
  end.

(** What happened on the connection. *)
Inductive io := Sent (e : Envelope) (ok : bool) | Received (r : option Envelope).

(** [run p tr p']: with the peer and the network behaving as in [tr], [p] becomes [p']. *)
Inductive run {A} : proc A -> list io -> proc A -> Prop :=
| run_stop p : run p [] p
| run_send e k ok tr p : run (k ok) tr p -> run (Send e k) (Sent e ok :: tr) p
| run_recv k r tr p : run (k r) tr p -> run (Recv k) (Received r :: tr) p.

(** The envelopes handed to the network. *)
Definition sent (tr : list io) : list Envelope :=
  omap (fun i => match i with Sent e _ => Some e | Received _ => None end) tr.

(** Two processes over a reliable connection, with what is under way in each direction;
    when one side has returned, the other reads an error. *)
Fixpoint link {A B} (fuel : nat) (c : proc A) (s : proc B) (c2s s2c : list Envelope) :
    option (A * B) :=
  match fuel with
  | O => None
  | S fuel =>
      match c, s2c, s, c2s with
      | Done a, _, Done b, _ => Some (a, b)
      | Send e k, _, _, _ => link fuel (k true) s (c2s ++ [e]) s2c
      | _, _, Send e k, _ => link fuel c (k true) c2s (s2c ++ [e])
      | Recv k, e :: s2c, _, _ => link fuel (k (Some e)) s c2s s2c
      | _, _, Recv k, e :: c2s => link fuel c (k (Some e)) c2s s2c
      | Recv k, [], Done _, _ => link fuel (k None) s c2s s2c
      | Done _, _, Recv k, [] => link fuel c (k None) c2s s2c
      | Recv _, [], Recv _, [] => None
      end
  end.

(** ** The client *)

(** src: internal/signaling/client.go 32-35 HandshakeResult *)
Record HandshakeResult := mkHandshake { PeerPubKey : bytes; PeerAddr : string }.

Inductive client_err :=
| ErrDial | ErrCreatingRequest (e : handshake_err) | ErrSendingRequest | ErrReadingResp
| ErrRespType (t : MessageType) | ErrValidatingResp (e : handshake_err) | ErrRejected (reason : string)
| ErrCreatingConfirm (e : handshake_err) | ErrSendingConfirm.

(** src: internal/signaling/client.go 16-25 MaxRetries *)
Definition HandshakeMaxRetries : nat := 3.

Section signaling.
Context `{Proto ConnRequest, Proto ConnResponse, Proto ConnConfirm, Proto IPExchangeMsg}.
Context `{Ed25519, Ripemd160, Base58, X25519, Sha512, HKDF, AESGCM}.

(** The handshake on an open connection: [attemptHandshake] after the dial, and the
    connector's [performClientHandshake]. *)
(** src: internal/transport/connector.go 618-662 performClientHandshake *)
Definition performClientHandshake (kp : Keypair) (ourAddr targetAddr : string) (rand : option bytes)
    (now : Z) : proc (result client_err HandshakeResult) :=
  match CreateConnRequest ourAddr targetAddr rand now with
  | Err e => Done (Err (ErrCreatingRequest e))
  | Ok (reqData, reqNonce) =>
      Send (wrapUnsigned CONN_REQUEST reqData) (fun ok =>
      if negb ok then Done (Err ErrSendingRequest)
      else Recv (fun r =>
        match r with
        | None => Done (Err ErrReadingResp)
        | Some respEnv =>
            if negb (env_Type respEnv =? CONN_RESPONSE) then Done (Err (ErrRespType (env_Type respEnv)))
            else match ValidateConnResponse (env_Payload respEnv) reqNonce targetAddr with
            | Err e => Done (Err (ErrValidatingResp e))
            | Ok resp =>
                if negb (resp_Accepted resp) then
                  let reason := if bool_decide (resp_Reason resp = ""%string) then "rejected"%string
                                else resp_Reason resp in
                  Done (Err (ErrRejected reason))
                else match CreateConnConfirm kp (resp_Nonce resp) with
                | Err e => Done (Err (ErrCreatingConfirm e))
                | Ok confirmData =>
                    Send (wrapUnsigned CONN_CONFIRM confirmData) (fun ok =>
                      if ok then Done (Ok (mkHandshake (resp_PubKey resp) targetAddr))
                      else Done (Err ErrSendingConfirm))
                end
            end
        end))
  end.

(** src: internal/signaling/client.go 37-42 Client *)
Record Client := mkClient { cl_keypair : Keypair; cl_address : string }.

(** src: internal/signaling/client.go 94-157 Client.attemptHandshake *)
Definition attemptHandshake (c : Client) (dial_ok : bool) (targetAddr : string) (rand : option bytes)
    (now : Z) : proc (result client_err HandshakeResult) :=
  if negb dial_ok then Done (Err ErrDial)
  else performClientHandshake (cl_keypair c) (cl_address c) targetAddr rand now.

Definition is_rejection (e : client_err) : bool := match e with ErrRejected _ => true | _ => false end.

(** The retry loop on the outcomes of its attempts: [ctxErr i] and [ctxDone i] say that the
    context is over after attempt [i], or during the wait that follows it.  With the number
    of attempts made. *)
(** src: internal/signaling/client.go 60-91 Client.RequestConnection *)
Fixpoint retry_loop (attempts : list (result client_err HandshakeResult)) (ctxErr ctxDone : nat -> bool)
    (i : nat) (last : client_err) : result client_err HandshakeResult * nat :=
  match attempts with
  | [] => (Err last, i)
  | Ok r :: _ => (Ok r, S i)
  | Err e :: attempts =>
      if is_rejection e then (Err e, S i)
      else if ctxErr i then (Err e, S i)
      else if ctxDone i then (Err e, S i)
      else retry_loop attempts ctxErr ctxDone (S i) e
  end.

(** src: internal/signaling/client.go 60-91 Client.RequestConnection *)
Definition RequestConnection (attempt : nat -> result client_err HandshakeResult)
    (ctxErr ctxDone : nat -> bool) : result client_err HandshakeResult * nat :=
  retry_loop (attempt <$> seq 0 HandshakeMaxRetries) ctxErr ctxDone 0 ErrDial.

(** ** The exchange of addresses

    The read runs next to the write; [ctxDone]: the context ended before the answer. *)
(** src: internal/signaling/ipexchange.go 71-111 ExchangeIPs *)
Definition ExchangeIPs (ourInfo : IPInfo) (kp : Keypair) (peerPub : bytes) (rand : option bytes)
    (ctxDone : bool) : proc (result ipx_err IPInfo) :=
  match EncryptIPInfo rand ourInfo kp peerPub with
  | Err e => Done (Err e)
  | Ok encrypted =>
      Send (wrapUnsigned IP_EXCHANGE encrypted) (fun ok =>
      if negb ok then Done (Err ErrSendIP)
      else Recv (fun r =>
        if ctxDone then Done (Err ErrReceiveIP)
        else match r with
        | None => Done (Err ErrReceiveIP)
        | Some e =>
            if negb (env_Type e =? IP_EXCHANGE) then Done (Err (ErrIPType (env_Type e)))
            else Done (DecryptIPInfo (env_Payload e) kp peerPub)
        end))
  end.

(** ** The server *)

(** src: internal/signaling/server.go 19-22 ConnectionDecision *)
Record ConnectionDecision := mkConnDecision { cd_Accepted : bool; cd_Reason : string }.

(** The contacts are those [Contacts.Get] finds; [OnRequest] gives the decision that reaches
    the channel, [None] when the context ends first; [LocalAddrs] its current value. *)
(** src: internal/signaling/server.go 39-47 ServiceConfig *)
Record ServiceConfig := mkConfig {
  cfg_Name : string;
  cfg_Keypair : option Keypair;
  cfg_Address : string;
  cfg_Contacts : option (string -> bool);
  cfg_OnRequest : option (string -> option ConnectionDecision);
  cfg_Listener : bool;
  cfg_LocalAddrs : option (list string)
}.

(** src: internal/signaling/server.go 361-382 Server.askUser *)
Definition askUser (cfg : ServiceConfig) (fromAddr : string) : ConnectionDecision :=
  match cfg_OnRequest cfg with
  | None => mkConnDecision false "no handler"
  | Some cb => default (mkConnDecision false "timeout") (cb fromAddr)
  end.

(** The decision on a valid request, and the reason of a refusal. *)
(** src: internal/signaling/server.go 298-314 Server.handleEnvelopeForService *)
Definition admission (cfg : ServiceConfig) (fromAddr : string) : bool * string :=
  let known := match cfg_Contacts cfg with Some get => get fromAddr | None => false end in
  if known then (true, ""%string)
  else let d := askUser cfg fromAddr in (cd_Accepted d, cd_Reason d).

Inductive server_end :=
| Ignored | Invalid (e : handshake_err) | NotForUs | Rejected | Failed_
| ConfirmInvalid (e : handshake_err)
| Confirmed (pubKey : bytes) (ip : option (result ipx_err IPInfo)).

(** The three clock readings and the two random draws of one request. *)
Record req_env := mkReqEnv {
  rq_now1 : Z; rq_now2 : Z; rq_now3 : Z;
  rq_nonce : option bytes; rq_iv : option bytes; rq_ctxDone : bool
}.

(** After the confirmation: the exchange of addresses when the service has any to give. *)
(** src: internal/signaling/server.go 350-358 Server.handleEnvelopeForService *)
Definition after_confirm (cfg : ServiceConfig) (kp : Keypair) (rq : req_env) (pubKey : bytes) :
    proc server_end :=
  match cfg_LocalAddrs cfg with
  | Some addrs =>
      if (length pubKey =? 0)%nat then Done (Confirmed pubKey None)
      else pbind (ExchangeIPs addrs kp pubKey (rq_iv rq) (rq_ctxDone rq))
             (fun r => Done (Confirmed pubKey (Some r)))
  | None => Done (Confirmed pubKey None)
  end.

(** The answer to a valid request for this service, and what follows it. *)
(** src: internal/signaling/server.go 316-358 Server.handleEnvelopeForService *)
Definition answer (cfg : ServiceConfig) (kp : Keypair) (rq : req_env) (req : ConnRequest)
    (accepted : bool) (reason : string) : proc server_end :=
  if accepted then
    match CreateConnResponse true kp (req_Nonce req) "" (rq_nonce rq) with
    | Err _ => Done Failed_
    | Ok (respData, respNonce) =>
        Send (wrapUnsigned CONN_RESPONSE respData) (fun ok =>
        if negb ok then Done Failed_
        else Recv (fun r =>
          match r with
          | None => Done Failed_
          | Some confirmEnv =>
              if negb (env_Type confirmEnv =? CONN_CONFIRM) then Done Failed_
              else match ValidateConnConfirm (env_Payload confirmEnv) respNonce (req_FromAddress req) with
              | Err e => Done (ConfirmInvalid e)
              | Ok conf => after_confirm cfg kp rq (conf_PubKey conf)
              end
          end))
    end
  else
    match CreateConnResponse false kp [] reason None with
    | Err _ => Done Failed_
    | Ok (respData, _) => Send (wrapUnsigned CONN_RESPONSE respData) (fun _ => Done Rejected)
    end.

(** The cache after the request, and the process that answers it.  [AddService] requires a
    keypair. *)
(** src: internal/signaling/server.go 278-359 Server.handleEnvelopeForService *)
Definition handleEnvelopeForService (nc : NonceCache) (cfg : ServiceConfig) (kp : Keypair) (rq : req_env)
    (env : Envelope) : NonceCache * proc server_end :=
  if negb (env_Type env =? CONN_REQUEST) then (nc, Done Ignored)
  else
    match ValidateConnRequest (env_Payload env) nc (rq_now1 rq) (rq_now2 rq) (rq_now3 rq) with
    | (Err e, nc) => (nc, Done (Invalid e))
    | (Ok req, nc) =>
        if negb (bool_decide (req_TargetAddress req = cfg_Address cfg)) then (nc, Done NotForUs)
        else
          let '(accepted, reason) := admission cfg (req_FromAddress req) in
          (nc, answer cfg kp rq req accepted reason)
    end.

(** A connection on a service's listener: the first envelope is read, requests are
    answered and everything else goes to the envelope handler if there is one. *)
Inductive conn_end := ConnClosed | ToHandler (e : Envelope) | Served (s : server_end).

(** src: internal/signaling/server.go 240-261 Server.handleConn *)
Definition handleConn (other : bool) (nc : NonceCache) (cfg : ServiceConfig) (kp : Keypair) (rq : req_env)
    (first : option Envelope) : NonceCache * proc conn_end :=
  match first with
  | None => (nc, Done ConnClosed)
  | Some env =>
      if env_Type env =? CONN_REQUEST then
        let '(nc, p) := handleEnvelopeForService nc cfg kp rq env in
        (nc, pbind p (fun s => Done (Served s)))
      else (nc, Done (if other then ToHandler env else ConnClosed))
  end.
End signaling.

(** ** The server's services *)

(** Whether the accept loop runs, and whether its context was cancelled. *)
(** src: internal/signaling/server.go 61-65 serviceState *)
Record serviceState := mkState { ss_cfg : ServiceConfig; ss_accepting : bool; ss_cancelled : bool }.

(** src: internal/signaling/server.go 71-81 Server *)
Record Server := mkServer {
  sv_nc : NonceCache;
  sv_started : bool;
  sv_stopped : bool;
  sv_services : gmap string serviceState;
  sv_other : bool;
  sv_loops : list string          (* the accept loops launched, by service name *)
}.

Inductive server_err :=
| ErrServerStopped | ErrNoName | ErrNoKeypair | ErrNoAddress | ErrNoListener | ErrServiceExists | ErrServiceNotFound.

(** src: internal/signaling/server.go 85-90 NewServer *)
Definition NewServer : Server := mkServer NewNonceCache false false ∅ false [].

(** src: internal/signaling/server.go 95-99 Server.SetEnvelopeHandler *)
Definition SetEnvelopeHandler (s : Server) (h : bool) : Server :=
  mkServer (sv_nc s) (sv_started s) (sv_stopped s) (sv_services s) h (sv_loops s).

(** src: internal/signaling/server.go 218-223 Server.startAcceptLocked *)
Definition startAcceptLocked (st : serviceState) : serviceState := mkState (ss_cfg st) true (ss_cancelled st).

(** src: internal/signaling/server.go 104-124 Server.Start *)
Definition Start (s : Server) : result server_err unit * Server :=
  if sv_started s then (Ok tt, s)
  else if sv_stopped s then (Err ErrServerStopped, s)
  else (Ok tt, mkServer (sv_nc s) true false (startAcceptLocked <$> sv_services s) (sv_other s)
                 (sv_loops s ++ (map_to_list (sv_services s)).*1)).

(** src: internal/signaling/server.go 129-157 Server.AddService *)
Definition AddService (s : Server) (cfg : ServiceConfig) : result server_err unit * Server :=
  if bool_decide (cfg_Name cfg = ""%string) then (Err ErrNoName, s)
  else match cfg_Keypair cfg with
  | None => (Err ErrNoKeypair, s)
  | Some _ =>
      if bool_decide (cfg_Address cfg = ""%string) then (Err ErrNoAddress, s)
      else if negb (cfg_Listener cfg) then (Err ErrNoListener, s)
      else if sv_stopped s then (Err ErrServerStopped, s)
      else match sv_services s !! cfg_Name cfg with
      | Some _ => (Err ErrServiceExists, s)
      | None =>
          let st := mkState cfg false false in
          let st := if sv_started s then startAcceptLocked st else st in
          (Ok tt, mkServer (sv_nc s) (sv_started s) (sv_stopped s) (<[cfg_Name cfg := st]> (sv_services s))
                    (sv_other s) (if sv_started s then sv_loops s ++ [cfg_Name cfg] else sv_loops s))
      end
  end.

(** src: internal/signaling/server.go 164-178 Server.RemoveService *)
Definition RemoveService (s : Server) (name : string) : result server_err unit * Server :=
  match sv_services s !! name with
  | None => (Err ErrServiceNotFound, s)
  | Some _ => (Ok tt, mkServer (sv_nc s) (sv_started s) (sv_stopped s) (delete name (sv_services s))
                        (sv_other s) (sv_loops s))
  end.

(** src: internal/signaling/server.go 182-191 Server.SetOnConnectionRequest *)
Definition SetOnConnectionRequest (s : Server) (name : string)
    (cb : option (string -> option ConnectionDecision)) : result server_err unit * Server :=
  match sv_services s !! name with
  | None => (Err ErrServiceNotFound, s)
  | Some st =>
      let c := ss_cfg st in
      let cfg := mkConfig (cfg_Name c) (cfg_Keypair c) (cfg_Address c) (cfg_Contacts c) cb
                   (cfg_Listener c) (cfg_LocalAddrs c) in
      (Ok tt, mkServer (sv_nc s) (sv_started s) (sv_stopped s)
                (<[name := mkState cfg (ss_accepting st) (ss_cancelled st)]> (sv_services s))
                (sv_other s) (sv_loops s))
  end.

(** src: internal/signaling/server.go 198-215 Server.Stop *)
Definition Stop (s : Server) : Server :=
  if sv_stopped s then s
  else mkServer (sv_nc s) (sv_started s) true ∅ (sv_other s) (sv_loops s).

(** A request that was already read, for a named service; a service has a keypair. *)
(** src: internal/signaling/server.go 267-276 Server.HandleEnvelope *)
Definition HandleEnvelope `{Proto ConnRequest, Proto ConnResponse, Proto ConnConfirm, Proto IPExchangeMsg, Ed25519, Ripemd160, Base58, X25519, Sha512, HKDF, AESGCM}
    (s : Server) (svcName : string) (rq : req_env) (env : Envelope) : NonceCache * proc server_end :=
  match sv_services s !! svcName with
  | None => (sv_nc s, Done Ignored)
  | Some st =>
      match cfg_Keypair (ss_cfg st) with
      | Some kp => handleEnvelopeForService (sv_nc s) (ss_cfg st) kp rq env
      | None => (sv_nc s, Done Ignored)
      end
  end.

(** ** daemon/service_gate.go: the decision for a registered service *)

(** src: internal/daemon/service_gate.go 25-54 serviceConnectionGate *)
Definition serviceConnectionGate (m : Manifest) (fromAddr : string) : option ConnectionDecision :=
  let allowlist : gset string :=
    list_to_set (List.filter (fun a => negb (bool_decide (a = ""%string))) (m_Allowlist m)) in
  Some (match m_ACL m with
  | ACLPublic => mkConnDecision true ""
  | ACLAllowlist =>
      if bool_decide (fromAddr ∈ allowlist) then mkConnDecision true ""
      else mkConnDecision false "not on allowlist"
  | ACLContacts => mkConnDecision false "no per-service contacts configured"
  | ACLOther _ => mkConnDecision false "unknown ACL"
  end).

(** ** The server's life *)

Inductive server_op :=
| OpStart | OpAdd (cfg : ServiceConfig) | OpRemove (name : string)
| OpSetCallback (name : string) (cb : option (string -> option ConnectionDecision))
| OpSetHandler (h : bool) | OpStop.

Definition server_apply (s : Server) (op : server_op) : Server :=
  match op with
  | OpStart => (Start s).2
  | OpAdd cfg => (AddService s cfg).2
  | OpRemove name => (RemoveService s name).2
  | OpSetCallback name cb => (SetOnConnectionRequest s name cb).2
  | OpSetHandler h => SetEnvelopeHandler s h
  | OpStop => Stop s
  end.

Definition server_run (ops : list server_op) : Server := foldl server_apply NewServer ops.

(** A service can be served: it has its name, a key, an address and a listener. *)
Definition servable (name : string) (c : ServiceConfig) : Prop :=
  cfg_Name c = name /\ name <> ""%string /\ is_Some (cfg_Keypair c) /\ cfg_Address c <> ""%string /\
  cfg_Listener c = true.

Definition server_inv (s : Server) : Prop :=
  (forall name st, sv_services s !! name = Some st ->
     servable name (ss_cfg st) /\ (sv_started s = true -> ss_accepting st = true /\ name ∈ sv_loops s)
     /\ (sv_started s = false -> ss_accepting st = false)) /\
  (sv_stopped s = true -> sv_services s = ∅) /\ (sv_started s = false -> sv_loops s = []).

Lemma Start_inv s : server_inv s -> server_inv (Start s).2.
Proof.
  intros Hinv. pose proof Hinv as (Hs & Hstop & Hl). unfold Start. destruct (sv_started s) eqn:Hst; [done|].
  destruct (sv_stopped s) eqn:Hsp; [done|].
  split_and!; cbn; [|done|done]. intros name st Hn. rewrite lookup_fmap in Hn.
  destruct (sv_services s !! name) as [st0|] eqn:Hn0; [|done]. injection Hn as <-.
  destruct (Hs name st0 Hn0) as (Hsv & _). split_and!; [done| |done]. intros _. split; [done|].
  rewrite elem_of_app. right. apply list_elem_of_fmap. exists (name, st0). split; [done|].
  by apply elem_of_map_to_list.
Qed.

Lemma AddService_inv s cfg : server_inv s -> server_inv (AddService s cfg).2.
Proof.
  intros Hinv. pose proof Hinv as (Hs & Hstop & Hl). unfold AddService.
  case_bool_decide as Hname; [done|]. destruct (cfg_Keypair cfg) eqn:Hk; [|done].
  case_bool_decide as Haddr; [done|]. destruct (cfg_Listener cfg) eqn:Hli; [|done]. cbn [negb].
  destruct (sv_stopped s) eqn:Hsp; [done|]. destruct (sv_services s !! cfg_Name cfg) eqn:Hn; [done|].
  split_and!; cbn.
  - intros name st Hst. destruct (decide (name = cfg_Name cfg)) as [->|Hne].
    + rewrite lookup_insert_eq in Hst. injection Hst as <-.
      split_and!; destruct (sv_started s); cbn; try done.
      all: try (split_and!; [done|done|by rewrite Hk|done|done]).
      intros _. split; [done|]. rewrite elem_of_app, list_elem_of_singleton. by right.
    + rewrite lookup_insert_ne in Hst by done. destruct (Hs name st Hst) as (H1 & H2 & H3).
      split_and!; [done| |done]. intros Hst'. destruct (H2 Hst') as [Ha Hb]. split; [done|].
      rewrite Hst'. rewrite elem_of_app. by left.
  - done.
  - intros Hst. rewrite Hst. auto.
Qed.

Lemma server_apply_inv s op : server_inv s -> server_inv (server_apply s op).
Proof.
  intros Hinv. pose proof Hinv as (Hs & Hstop & Hl). destruct op as [|cfg|name|name cb|h|]; cbn [server_apply].
  - by apply Start_inv.
  - by apply AddService_inv.
  - unfold RemoveService. destruct (sv_services s !! name); [|done]. split_and!; cbn; [|..|done].
    + intros n st Hn. apply lookup_delete_Some in Hn as [_ Hn]. auto.
    + intros Hsp. rewrite Hstop by done. apply delete_empty.
  - unfold SetOnConnectionRequest. destruct (sv_services s !! name) as [st0|] eqn:Hn0; [|done].
    split_and!; cbn; [| |done].
    + intros n st Hn. destruct (decide (n = name)) as [->|Hne].
      * rewrite lookup_insert_eq in Hn. injection Hn as <-. exact (Hs name st0 Hn0).
      * rewrite lookup_insert_ne in Hn by done. auto.
    + intros Hsp. rewrite (Hstop Hsp) in Hn0. done.
  - done.
  - unfold Stop. destruct (sv_stopped s); [done|]. split_and!; cbn; [|done|done].
    intros name st Hn. by rewrite lookup_empty in Hn.
Qed.

(** The server's life, over every sequence of operations: a registered service has its
    name, a key, an address and a listener; it is served by an accept loop once the
    server has started, and not before; a stopped server has no service, accepts none and,
    if it had never started, never starts. *)
Theorem server_lifecycle ops :
  let s := server_run ops in
  server_inv s /\
  (sv_stopped s = true -> forall cfg, is_ok (AddService s cfg).1 = false /\ (AddService s cfg).2 = s) /\
  (sv_stopped s = true -> sv_started s = false -> Start s = (Err ErrServerStopped, s)) /\
  (forall cfg, is_ok (AddService s cfg).1 = true ->
     exists st, sv_services (AddService s cfg).2 !! cfg_Name cfg = Some st /\ ss_cfg st = cfg /\
       is_ok (AddService (AddService s cfg).2 cfg).1 = false).
Proof.
  cbv zeta. unfold server_run.
  assert (server_inv (foldl server_apply NewServer ops)) as Hinv.
  { assert (server_inv NewServer) as H0 by (split_and!; [intros ? ? Hn; cbn in Hn; by apply lookup_empty_Some in Hn|done|done]).
    revert H0. generalize NewServer. induction ops as [|op ops IH]; intros s Hs; [done|].
    cbn [foldl]. by apply IH, server_apply_inv. }
  set (s := foldl server_apply NewServer ops) in *. split_and!; [done| | |].
  - intros Hsp cfg. unfold AddService. rewrite Hsp. by go_cases.
  - intros Hsp Hst. unfold Start. by rewrite Hst, Hsp.
  - intros cfg. unfold AddService at 1 2. case_bool_decide as Hname; [done|].
    destruct (cfg_Keypair cfg) eqn:Hk; [|done]. case_bool_decide as Haddr; [done|].
    destruct (cfg_Listener cfg) eqn:Hli; [|done]. cbn [negb].
    destruct (sv_stopped s) eqn:Hsp; [done|]. destruct (sv_services s !! cfg_Name cfg) eqn:Hn; [done|].
    intros _. eexists. cbn. rewrite lookup_insert_eq. split; [done|].
    split; [by destruct (sv_started s)|].
    assert (forall s', is_Some (sv_services s' !! cfg_Name cfg) -> is_ok (AddService s' cfg).1 = false) as Hdup.
    { intros s' [st Hst]. unfold AddService. rewrite Hst. by go_cases. }
    apply Hdup. unfold AddService. rewrite !bool_decide_eq_false_2, Hk, Hli, Hsp, Hn by done. cbn.
    rewrite lookup_insert_eq. by eexists.
Qed.

(** A registered service's gate, followed by the server's admission: with no contacts of
    its own, a service admits exactly everybody when its ACL is public, and exactly the
    listed non-empty addresses when it is an allowlist; under any other ACL nobody. *)
Theorem service_gate_contract m cfg fromAddr :
  cfg_Contacts cfg = None -> cfg_OnRequest cfg = Some (serviceConnectionGate m) ->
  ((admission cfg fromAddr).1 = true <->
     m_ACL m = ACLPublic \/ m_ACL m = ACLAllowlist /\ fromAddr ∈ m_Allowlist m /\ fromAddr <> ""%string) /\
  ((admission cfg fromAddr).1 = false -> (admission cfg fromAddr).2 <> ""%string).
Proof.
  intros Hc Hr. unfold admission. rewrite Hc. unfold askUser. rewrite Hr. unfold serviceConnectionGate.
  cbn [default]. destruct (m_ACL m) eqn:Ha; cbn [cd_Accepted cd_Reason fst snd].
  - split; [|done]. split; [by left|done].
  - split; [|done]. split; [done|]. by intros [|[]].
  - case_bool_decide as Hin; cbn [cd_Accepted cd_Reason fst snd]; (split; [|done]); split; try done.
    + intros _. right. apply elem_of_list_to_set, list_elem_of_In, filter_In in Hin as [Hin Hne].
      split; [done|]. split; [by apply list_elem_of_In|]. by apply negb_true_iff, bool_decide_eq_false in Hne.
    + intros [|(_ & Hm & Hne)]; [done|]. destruct Hin. apply elem_of_list_to_set, list_elem_of_In, filter_In.
      split; [by apply list_elem_of_In|]. by rewrite bool_decide_eq_false_2.
  - split; [|done]. split; [done|]. by intros [|[]].
Qed.

Section samples.
Import Toy.

Definition gated : ServiceConfig :=
  mkConfig "echo" None "Eecho" None
    (Some (serviceConnectionGate (mkManifest "echo bot" ACLAllowlist ["Eada"%string; ""%string]))) true None.

Lemma service_gate_contract_witness :
  ((admission gated "Eada").1 = true <->
     ACLAllowlist = ACLPublic \/
     ACLAllowlist = ACLAllowlist /\ "Eada"%string ∈ ["Eada"%string; ""%string] /\ "Eada"%string <> ""%string) /\
  (admission gated "Eada").1 = true /\ (admission gated "").1 = false.
Proof.
  split; [exact (proj1 (service_gate_contract _ gated "Eada" eq_refl eq_refl))|].
  split; vm_compute; reflexivity.
Defined.
End samples.
