(* ===== verification/Session.v ===== *)
(** * The handshake between two peers

    A session of the connector's client (transport/connector.go) with a service of
    the server (signaling/server.go): completeness, authenticity, consent, and the
    relay of signatures the protocol allows. *)

From S2P Require Import Prelude GoStd Sha256 Crypto Protocol Instances Identity Wire X25519 IPExchange Handshake Services Signaling.
Local Open Scope go_scope.

Inductive session_err := ErrHandshake (e : client_err) | ErrIPExchange (e : ipx_err).

Section session.
Context `{Proto ConnRequest, Proto ConnResponse, Proto ConnConfirm, Proto IPExchangeMsg}.
Context `{Ed25519, Ripemd160, Base58, X25519, Sha512, HKDF, AESGCM}.

(** The client's part on the open connection; [iv] and [ctxDone] are the randomness and
    the context of the exchange. *)
(** src: internal/transport/connector.go 302-319 Connector.connectFlow *)
Definition clientSession (kp : Keypair) (ourAddr targetAddr : string) (nonce : option bytes) (now : Z)
    (ourInfo : IPInfo) (iv : option bytes) (ctxDone : bool) :
    proc (result session_err (HandshakeResult * IPInfo)) :=
  pbind (performClientHandshake kp ourAddr targetAddr nonce now) (fun r =>
    match r with
    | Err e => Done (Err (ErrHandshake e))
    | Ok hsResult =>
        pbind (ExchangeIPs ourInfo kp (PeerPubKey hsResult) iv ctxDone) (fun r =>
          match r with
          | Err e => Done (Err (ErrIPExchange e))
          | Ok peerIPInfo => Done (Ok (hsResult, peerIPInfo))
          end)
    end).

(** The server's part, from the first envelope on. *)
Definition serverSession (other : bool) (nc : NonceCache) (cfg : ServiceConfig) (kp : Keypair) (rq : req_env) :
    proc conn_end :=
  Recv (fun first => (handleConn other nc cfg kp rq first).2).

(** The envelopes of a trace that carry a key, a signature, a nonce or ciphertext. *)
Definition refusal (e : Envelope) : Prop :=
  exists reason payload, e = wrapUnsigned CONN_RESPONSE payload /\
    marshal (mkConnResponse false [] [] [] reason) = Some payload.

(** An attacker without any key: the response of one service becomes the confirmation
    sent to another. *)
Definition relay_response (e : Envelope) : option Envelope :=
  resp ← unmarshal (env_Payload e);
  payload ← marshal (mkConnConfirm (resp_PubKey resp) (resp_Signature resp));
  Some (wrapUnsigned CONN_CONFIRM payload).
End session.

(** ** What a process can do *)
Section runs.
Context {A : Type}.

Lemma run_Done (a : A) tr p : run (Done a) tr p -> tr = [] /\ p = Done a.
Proof. intros Hr. by inversion Hr; subst. Qed.

Lemma run_Send_inv (e : Envelope) (k : bool -> proc A) tr p :
  run (Send e k) tr p -> (tr = [] /\ p = Send e k) \/ exists ok tr', tr = Sent e ok :: tr' /\ run (k ok) tr' p.
Proof. intros Hr. inversion Hr; subst; [by left|]. right. by eexists _, _. Qed.

Lemma run_Recv_inv (k : option Envelope -> proc A) tr p :
  run (Recv k) tr p -> (tr = [] /\ p = Recv k) \/ exists r tr', tr = Received r :: tr' /\ run (k r) tr' p.
Proof. intros Hr. inversion Hr; subst; [by left|]. right. by eexists _, _. Qed.
End runs.

(** A run of a sequence stays in its first part or reaches the second. *)
Lemma run_pbind {A B} (p : proc A) (f : A -> proc B) tr q :
  run (pbind p f) tr q ->
  (exists p', run p tr p') \/
  exists a tr1 tr2, tr = tr1 ++ tr2 /\ run p tr1 (Done a) /\ run (f a) tr2 q.
Proof.
  revert tr. induction p as [a|e k IH|k IH]; intros tr Hr; cbn [pbind] in Hr.
  - right. exists a, [], tr. split_and!; [done|constructor|done].
  - apply run_Send_inv in Hr as [[-> _]|(ok & tr' & -> & Hr)]; [left; eexists; constructor|].
    destruct (IH ok tr' Hr) as [(p' & Hp)|(a & t1 & t2 & -> & H1 & H2)].
    + left. exists p'. by constructor.
    + right. exists a, (Sent e ok :: t1), t2. split_and!; [done|by constructor|done].
  - apply run_Recv_inv in Hr as [[-> _]|(r & tr' & -> & Hr)]; [left; eexists; constructor|].
    destruct (IH r tr' Hr) as [(p' & Hp)|(a & t1 & t2 & -> & H1 & H2)].
    + left. exists p'. by constructor.
    + right. exists a, (Received r :: t1), t2. split_and!; [done|by constructor|done].
Qed.

(** The steps of two linked processes. *)
Section links.
Context {A B : Type}.
Implicit Types (c : proc A) (s : proc B).

Lemma link_send_c f e k s up down : link (S f) (@Send A e k) s up down = link f (k true) s (up ++ [e]) down.
Proof. by destruct s, down. Qed.
Lemma link_recv_s f (kc : option Envelope -> proc A) k e up :
  link (S f) (Recv kc) (@Recv B k) (e :: up) [] = link f (Recv kc) (k (Some e)) up [].
Proof. done. Qed.
Lemma link_send_s f (kc : option Envelope -> proc A) e k up down :
  link (S f) (Recv kc) (@Send B e k) up down = link f (Recv kc) (k true) up (down ++ [e]).
Proof. by destruct down. Qed.
Lemma link_recv_c f (k : option Envelope -> proc A) (ks : option Envelope -> proc B) e up down :
  link (S f) (Recv k) (Recv ks) up (e :: down) = link f (k (Some e)) (Recv ks) up down.
Proof. by destruct up. Qed.
Lemma link_recv_s_done f (a : A) (k : option Envelope -> proc B) e up :
  link (S f) (Done a) (Recv k) (e :: up) [] = link f (Done a) (k (Some e)) up [].
Proof. done. Qed.
Lemma link_done f (a : A) (b : B) up down : link (S f) (Done a) (Done b) up down = Some (a, b).
Proof. by destruct down. Qed.
End links.
(** Follows a run through one process: every way it can stop or go on. *)
Ltac follow H :=
  cbn beta iota zeta delta [negb pbind] in H;
  lazymatch type of H with
  | run (Done _) _ _ => apply run_Done in H as [-> H]
  | run (Send _ _) _ _ =>
      apply run_Send_inv in H as [[-> H]|(? & ? & -> & H)]; cbn beta iota in H
  | run (Recv _) _ _ =>
      apply run_Recv_inv in H as [[-> H]|(? & ? & -> & H)]; cbn beta iota in H
  end.

Section claims.
Context `{ProtoOk ConnRequest, ProtoOk ConnResponse, ProtoOk ConnConfirm, ProtoOk IPExchangeMsg}.
Context `{Ed25519Ok, Ripemd160Ok, Base58Ok, X25519Ok, Sha512, HKDF, AESGCMOk, !KeyConversionOk}.

(** The decision on a request: what is answered, and when. *)
Lemma handleEnvelope_inv nc cfg kp rq env nc' p :
  handleEnvelopeForService nc cfg kp rq env = (nc', p) ->
  (exists r, p = Done r /\ forall pk ip, r <> Confirmed pk ip) \/
  exists req, env_Type env = CONN_REQUEST /\
    ValidateConnRequest (env_Payload env) nc (rq_now1 rq) (rq_now2 rq) (rq_now3 rq) = (Ok req, nc') /\
    req_TargetAddress req = cfg_Address cfg /\
    p = answer cfg kp rq req (admission cfg (req_FromAddress req)).1 (admission cfg (req_FromAddress req)).2.
Proof.
  unfold handleEnvelopeForService. destruct (Z.eqb_spec (env_Type env) CONN_REQUEST); cbn [negb].
  2: { intros [= <- <-]. left. by eexists. }
  destruct (ValidateConnRequest _ _ _ _ _) as [[req|e'] nc1] eqn:Hv.
  2: { intros [= <- <-]. left. by eexists. }
  case_bool_decide; cbn [negb]. 2: { intros [= <- <-]. left. by eexists. }
  destruct (admission cfg (req_FromAddress req)) as [acc reason] eqn:Ha.
  intros [= <- <-]. right. exists req. split_and!; [done..|]. by rewrite Ha.
Qed.

Lemma CreateConnRequest_Ok from target rand now data nonce :
  CreateConnRequest from target rand now = Ok (data, nonce) ->
  rand = Some nonce /\ marshal (mkConnRequest from target nonce (GoTime.UnixMilli now)) = Some data.
Proof.
  unfold CreateConnRequest, GenerateNonce. destruct rand as [n|]; [|done]. simpl.
  destruct (marshal _) eqn:Hm; [|done]. simpl. by intros [= <- <-].
Qed.

(** An accepting response. *)
Lemma CreateConnResponse_Ok kp rn reason rand data nonce :
  CreateConnResponse true kp rn reason rand = Ok (data, nonce) ->
  rand = Some nonce /\
  marshal (mkConnResponse true (kp_pub kp) (Sign kp rn) nonce "") = Some data.
Proof.
  unfold CreateConnResponse, GenerateNonce. destruct rand as [n|]; [|done]. simpl.
  destruct (marshal _) eqn:Hm; [|done]. simpl. by intros [= <- <-].
Qed.

Lemma after_confirm_end cfg kp rq pk tr r :
  run (after_confirm cfg kp rq pk) tr (Done r) -> exists ip, r = Confirmed pk ip.
Proof.
  unfold after_confirm. intros Hr. destruct (cfg_LocalAddrs cfg) as [addrs|].
  - destruct (_ =? _)%nat; [follow Hr; injection Hr as ->; eauto|].
    unfold ExchangeIPs in Hr. destruct (EncryptIPInfo _ _ _ _) as [enc|]; cbn [pbind] in Hr.
    + follow Hr; [done|]. destruct x; cbn [negb pbind] in Hr; follow Hr; try done.
      * go_cases; follow Hr; injection Hr as ->; eauto.
      * injection Hr as ->; eauto.
    + follow Hr. injection Hr as ->. eauto.
  - follow Hr. injection Hr as ->. eauto.
Qed.

(** C4. Authentication, over every behaviour of the peer and of the network: a client's
    handshake succeeds only with a key that hashes to the address asked for and whose
    holder signed the client's own nonce; a service ends confirmed only for a request
    addressed to it that it admitted, with a key that hashes to the requester's address
    and signed the service's nonce. *)
Theorem handshake_authenticates :
  (forall kp our target rand now tr hs,
     run (performClientHandshake kp our target rand now) tr (Done (Ok hs)) ->
     PeerAddr hs = target /\
     exists nonce e msg, rand = Some nonce /\ Received (Some e) ∈ tr /\
       unmarshal (env_Payload e) = Some msg /\ resp_Accepted msg = true /\
       PeerPubKey hs = resp_PubKey msg /\
       proves_identity (PeerPubKey hs) nonce (resp_Signature msg) target) /\
  (forall nc cfg kp rq env nc' p tr pk ip,
     handleEnvelopeForService nc cfg kp rq env = (nc', p) ->
     run p tr (Done (Confirmed pk ip)) ->
     exists req nonce signature,
       unmarshal (env_Payload env) = Some req /\ req_TargetAddress req = cfg_Address cfg /\
       (admission cfg (req_FromAddress req)).1 = true /\ rq_nonce rq = Some nonce /\
       proves_identity pk nonce signature (req_FromAddress req)).
Proof.
  split.
  - intros kp our target rand now tr hs Hr. unfold performClientHandshake in Hr.
    destruct (CreateConnRequest _ _ _ _) as [[data nonce]|] eqn:Hreq; [|by follow Hr].
    apply CreateConnRequest_Ok in Hreq as [-> _].
    follow Hr; [done|]. destruct x; [|by follow Hr]. follow Hr; [done|].
    destruct x as [e|]; [|by follow Hr]. destruct (_ =? _); [|by follow Hr]. cbn [negb] in Hr.
    destruct (ValidateConnResponse _ _ _) as [msg|] eqn:Hv; [|by follow Hr].
    apply ValidateConnResponse_Ok in Hv as [Hu Hid].
    destruct (resp_Accepted msg) eqn:Ha; [|by follow Hr]. cbn [negb] in Hr.
    destruct (CreateConnConfirm _ _); [|by follow Hr]. follow Hr; [done|].
    destruct x; [|by follow Hr]. follow Hr. injection Hr as ->. split; [done|].
    exists nonce, e, msg. split_and!; try done; [|by apply Hid].
    apply list_elem_of_further, list_elem_of_here.
  - intros nc cfg kp rq env nc' p tr pk ip Hh Hr.
    apply handleEnvelope_inv in Hh as [(r & -> & Hnc)|(req & _ & Hv & Ht & ->)].
    { follow Hr. injection Hr as Hr. by destruct (Hnc pk ip). }
    assert (unmarshal (env_Payload env) = Some req) as Hu.
    { unfold ValidateConnRequest in Hv. by go_cases. }
    unfold answer in Hr. destruct (admission cfg (req_FromAddress req)) as [[] reason] eqn:Ha; cbn [fst snd] in Hr.
    2: { destruct (CreateConnResponse _ _ _ _ _) as [[]|]; [|by follow Hr]. follow Hr; [done|]. by follow Hr. }
    destruct (CreateConnResponse _ _ _ _ _) as [[respData respNonce]|] eqn:Hc; [|by follow Hr].
    apply CreateConnResponse_Ok in Hc as [Hn _].
    follow Hr; [done|]. destruct x; [|by follow Hr]. follow Hr; [done|].
    destruct x as [c|]; [|by follow Hr]. destruct (_ =? _); [|by follow Hr]. cbn [negb] in Hr.
    destruct (ValidateConnConfirm _ _ _) as [conf|] eqn:Hconf; [|by follow Hr].
    apply ValidateConnConfirm_Ok in Hconf as [_ Hid].
    apply after_confirm_end in Hr as (ip' & Hr). injection Hr as -> ->.
    exists req, respNonce, (conf_Signature conf). by rewrite Ha.
Qed.

(** The exchange sends at most its own ciphertext. *)
Lemma ExchangeIPs_sends info kp pk iv ctxDone tr q :
  run (ExchangeIPs info kp pk iv ctxDone) tr q ->
  (length (sent tr) <= 1)%nat /\ forall e, e ∈ sent tr -> env_Type e = IP_EXCHANGE.
Proof.
  intros Hr. unfold ExchangeIPs in Hr. destruct (EncryptIPInfo _ _ _ _) as [enc|].
  2: { follow Hr. split; [simpl; lia|set_solver]. }
  follow Hr; [split; [simpl; lia|set_solver]|].
  assert (sent x0 = []) as Hx.
  { destruct x; [|by follow Hr]. follow Hr; [done|].
    destruct ctxDone; [by follow Hr|]. destruct x as [e'|]; [|by follow Hr].
    destruct (_ =? _) in Hr; by follow Hr. }
  unfold sent in *. cbn [omap list_omap]. rewrite Hx. split; [simpl; lia|].
  intros e ->%list_elem_of_singleton. done.
Qed.

Lemma after_confirm_sends cfg kp rq pk tr q :
  run (after_confirm cfg kp rq pk) tr q ->
  (length (sent tr) <= 1)%nat /\ forall e, e ∈ sent tr -> env_Type e = IP_EXCHANGE.
Proof.
  unfold after_confirm. intros Hr. destruct (cfg_LocalAddrs cfg) as [addrs|]; [destruct (_ =? _)%nat|].
  1, 3: follow Hr; split; [simpl; lia|set_solver].
  apply run_pbind in Hr as [(p' & Hr)|(a & t1 & t2 & -> & Hr1 & Hr2)]; [by eapply ExchangeIPs_sends|].
  follow Hr2. rewrite app_nil_r. by eapply ExchangeIPs_sends.
Qed.

(** The runs of an accepting answer. *)
Lemma answer_accept_run cfg kp rq req reason tr q :
  run (answer cfg kp rq req true reason) tr q ->
  tr = [] \/ exists resp ok tr', tr = Sent resp ok :: tr' /\ env_Type resp = CONN_RESPONSE /\
    (sent tr' = [] \/
     exists c conf nonce tr'', tr' = Received (Some c) :: tr'' /\ rq_nonce rq = Some nonce /\
       unmarshal (env_Payload c) = Some conf /\
       proves_identity (conf_PubKey conf) nonce (conf_Signature conf) (req_FromAddress req) /\
       (length (sent tr'') <= 1)%nat /\ forall e, e ∈ sent tr'' -> env_Type e = IP_EXCHANGE).
Proof.
  unfold answer. intros Hr.
  destruct (CreateConnResponse _ _ _ _ _) as [[respData respNonce]|] eqn:Hc; [|follow Hr; by left].
  apply CreateConnResponse_Ok in Hc as [Hn _].
  follow Hr; [by left|]. right. eexists _, _, _. split; [done|]. split; [done|].
  destruct x; [|follow Hr; by left]. follow Hr; [by left|].
  destruct x as [c|]; [|follow Hr; by left]. destruct (_ =? _); [|follow Hr; by left].
  cbn [negb] in Hr. destruct (ValidateConnConfirm _ _ _) as [conf|] eqn:Hconf; [|follow Hr; by left].
  apply ValidateConnConfirm_Ok in Hconf as [Hu Hid]. apply after_confirm_sends in Hr as [Hl Ht].
  right. exists c, conf, respNonce, x1. by split_and!.
Qed.

Lemma sent_middle pre e ok post : e ∈ sent (pre ++ Sent e ok :: post).
Proof. unfold sent. rewrite omap_app, elem_of_app. right. left. Qed.

(** C5. Consent, over every behaviour of the requester and of the network: a service
    sends at most two envelopes, and each of them either is a refusal that carries no
    key, nonce or signature, or answers a request that is fresh, addressed to the
    service and admitted (a contact or an accepted decision); its addresses go out only
    after a confirmation signed over its own nonce. *)
Theorem service_reveals_on_consent nc cfg kp rq env nc' p tr q :
  handleEnvelopeForService nc cfg kp rq env = (nc', p) -> run p tr q ->
  (length (sent tr) <= 2)%nat /\
  forall pre e ok post, tr = pre ++ Sent e ok :: post ->
    refusal e \/
    exists req, ValidateConnRequest (env_Payload env) nc (rq_now1 rq) (rq_now2 rq) (rq_now3 rq) = (Ok req, nc') /\
      req_TargetAddress req = cfg_Address cfg /\ (admission cfg (req_FromAddress req)).1 = true /\
      (env_Type e = CONN_RESPONSE \/
       env_Type e = IP_EXCHANGE /\
       exists c conf nonce, Received (Some c) ∈ pre /\ rq_nonce rq = Some nonce /\
         unmarshal (env_Payload c) = Some conf /\
         proves_identity (conf_PubKey conf) nonce (conf_Signature conf) (req_FromAddress req)).
Proof.
  intros Hh Hr. apply handleEnvelope_inv in Hh as [(r & -> & _)|(req & _ & Hv & Ht & ->)].
  { follow Hr. split; [simpl; lia|]. by intros []. }
  destruct (admission cfg (req_FromAddress req)) as [acc reason] eqn:Ha; cbn [fst snd] in Hr.
  destruct acc.
  - apply answer_accept_run in Hr as [->|(resp & ok' & tr' & -> & Hresp & Hrest)].
    { split; [simpl; lia|]. by intros []. }
    split.
    { destruct Hrest as [Hs|(c & conf & nonce & tr'' & -> & _ & _ & _ & Hl & _)];
        unfold sent in *; cbn [omap list_omap]; [rewrite Hs|]; simpl; lia. }
    intros [|i pre] e ok post; intros [= <- Heq]; right; exists req; rewrite Ha.
    { by split_and!; [..|left]. }
    destruct Hrest as [Hs|(c & conf & nonce & tr'' & -> & Hn & Hu & Hid & _ & Hip)].
    { subst tr'. pose proof (sent_middle pre e ok post) as He. rewrite Hs in He. by apply elem_of_nil in He. }
    destruct pre as [|j pre]; [done|]. injection Heq as <- ->.
    split_and!; [done..|]. right. split; [apply Hip, sent_middle|].
    exists c, conf, nonce. split_and!; [|done..]. apply list_elem_of_further, list_elem_of_here.
  - unfold answer, CreateConnResponse in Hr.
    destruct (marshal _) as [payload|] eqn:Hm; cbn [of_option rbind] in Hr.
    2: { follow Hr. split; [simpl; lia|]. by intros []. }
    follow Hr; [split; [simpl; lia|by intros []]|]. follow Hr.
    split; [simpl; lia|]. intros pre e ok post Heq. left.
    destruct pre as [|? [|]]; simplify_eq/=. by exists reason, payload.
Qed.

(** The run of a service that accepts a valid request, up to its response. *)
Lemma accepting_response nc cfg kp rq env req nonce payload nc' :
  env_Type env = CONN_REQUEST ->
  ValidateConnRequest (env_Payload env) nc (rq_now1 rq) (rq_now2 rq) (rq_now3 rq) = (Ok req, nc') ->
  req_TargetAddress req = cfg_Address cfg -> (admission cfg (req_FromAddress req)).1 = true ->
  rq_nonce rq = Some nonce ->
  marshal (mkConnResponse true (kp_pub kp) (Sign kp (req_Nonce req)) nonce "") = Some payload ->
  exists k, handleEnvelopeForService nc cfg kp rq env =
    (nc', Send (wrapUnsigned CONN_RESPONSE payload) k) /\
    forall c conf, env_Type c = CONN_CONFIRM ->
      ValidateConnConfirm (env_Payload c) nonce (req_FromAddress req) = Ok conf ->
      exists k', k true = Recv k' /\ k' (Some c) = after_confirm cfg kp rq (conf_PubKey conf).
Proof.
  intros Hty Hv Ht Ha Hn Hm. unfold handleEnvelopeForService. rewrite Hty, Hv. cbn [negb Z.eqb].
  rewrite Z.eqb_refl. cbn [negb]. rewrite bool_decide_eq_true_2 by done. cbn [negb].
  destruct (admission cfg (req_FromAddress req)) as [acc reason]. cbn [fst] in Ha. subst acc.
  unfold answer, CreateConnResponse, GenerateNonce. rewrite Hn. cbn [of_option rbind].
  unfold PublicKey. rewrite Hm. cbn [of_option rbind]. eexists. split; [done|].
  intros c conf Hc Hconf. cbn [negb]. eexists. split; [done|]. cbn beta iota.
  rewrite Hc. rewrite Z.eqb_refl. cbn [negb]. by rewrite Hconf.
Qed.

(** C17. The signatures of the two roles are interchangeable: whoever connects to a service
    [S] under the address of [V] and obtains [S]'s nonce can have [V] sign it, by asking
    [V] for a connection with that nonce as the request's own, and [V]'s response,
    repackaged as a confirmation, ends the handshake with [S] as authenticated for [V].  The attacker
    holds no key; [V] must only be reachable and admission some request. *)
Theorem handshake_relay cfgS kpS rqS ncS envS reqS nonceS payloadS ncS'
    cfgV kpV rqV ncV envV reqV nonceV payloadV ncV' confirm :
  genuine kpV -> env_Type envS = CONN_REQUEST -> env_Type envV = CONN_REQUEST ->
  (* S admits a request that claims to come from V *)
  ValidateConnRequest (env_Payload envS) ncS (rq_now1 rqS) (rq_now2 rqS) (rq_now3 rqS) = (Ok reqS, ncS') ->
  req_TargetAddress reqS = cfg_Address cfgS -> req_FromAddress reqS = DeriveAddress (kp_pub kpV) ->
  (admission cfgS (req_FromAddress reqS)).1 = true -> rq_nonce rqS = Some nonceS ->
  marshal (mkConnResponse true (kp_pub kpS) (Sign kpS (req_Nonce reqS)) nonceS "") = Some payloadS ->
  (* V admits a request whose nonce is the one S chose *)
  ValidateConnRequest (env_Payload envV) ncV (rq_now1 rqV) (rq_now2 rqV) (rq_now3 rqV) = (Ok reqV, ncV') ->
  req_TargetAddress reqV = cfg_Address cfgV -> (admission cfgV (req_FromAddress reqV)).1 = true ->
  req_Nonce reqV = nonceS -> rq_nonce rqV = Some nonceV ->
  marshal (mkConnResponse true (kp_pub kpV) (Sign kpV nonceS) nonceV "") = Some payloadV ->
  relay_response (wrapUnsigned CONN_RESPONSE payloadV) = Some confirm ->
  (exists q, run (handleEnvelopeForService ncV cfgV kpV rqV envV).2
     [Sent (wrapUnsigned CONN_RESPONSE payloadV) true] q) /\
  run (handleEnvelopeForService ncS cfgS kpS rqS envS).2
    [Sent (wrapUnsigned CONN_RESPONSE payloadS) true; Received (Some confirm)]
    (after_confirm cfgS kpS rqS (kp_pub kpV)).
Proof.
  intros Hg HtyS HtyV HvS HtS HfS HaS HnS HmS HvV HtV HaV Hn HnV HmV Hrelay. subst nonceS.
  destruct (accepting_response ncV cfgV kpV rqV envV reqV nonceV payloadV ncV') as (kV & -> & _); try done.
  destruct (accepting_response ncS cfgS kpS rqS envS reqS (req_Nonce reqV) payloadS ncS') as (kS & -> & HkS); try done.
  split; [exists (kV true); repeat constructor|]. cbn [snd].
  unfold relay_response in Hrelay. cbn [wrapUnsigned env_Payload] in Hrelay.
  rewrite (unmarshal_marshal _ _ HmV) in Hrelay. cbn [mbind option_bind resp_PubKey resp_Signature] in Hrelay.
  apply bind_Some in Hrelay as (payload & Hmc & [= <-]).
  destruct (HkS (wrapUnsigned CONN_CONFIRM payload) (mkConnConfirm (kp_pub kpV) (Sign kpV (req_Nonce reqV))))
    as (k' & Hk' & Hend); [done| |].
  { unfold ValidateConnConfirm. cbn [wrapUnsigned env_Payload]. rewrite (unmarshal_marshal _ _ Hmc).
    cbn [of_option rbind conf_PubKey conf_Signature]. rewrite HfS.
    by rewrite (verify_identity_genuine kpV _ Hg). }
  apply run_send. rewrite Hk'. apply run_recv. rewrite Hend. constructor.
Qed.

(** What the two sides of a session draw and read: nonces of their sizes, a clock on which
    the request is fresh, and messages the encoder accepts. *)
Record session_inputs (kpC kpS : Keypair) (cfg : ServiceConfig) (nc : NonceCache) (rq : req_env)
    (now : Z) (nonceC nonceS ivC ivS : bytes) (infoC infoS : IPInfo) : Prop := mkInputs {
  si_genuineC : genuine kpC;
  si_genuineS : genuine kpS;
  si_address : cfg_Address cfg = DeriveAddress (kp_pub kpS);
  si_addrs : cfg_LocalAddrs cfg = Some infoS;
  si_admit : (admission cfg (DeriveAddress (kp_pub kpC))).1 = true;
  si_nonceC : length nonceC = NonceSize;
  si_nonceS : length nonceS = NonceSize;
  si_ivC : length ivC = gcmNonceSize;
  si_ivS : length ivS = gcmNonceSize;
  si_rq : rq_nonce rq = Some nonceS /\ rq_iv rq = Some ivS /\ rq_ctxDone rq = false;
  si_now : in_s 64 (now / GoTime.Millisecond);
  si_fresh1 : rq_now1 rq <= now + TimestampFreshness - GoTime.Millisecond;
  si_fresh2 : now - TimestampFreshness <= rq_now2 rq;
  si_fresh3 : nc !! nonceC = None;
  si_request : is_Some (marshal (mkConnRequest (DeriveAddress (kp_pub kpC)) (cfg_Address cfg) nonceC
                 (GoTime.UnixMilli now)));
  si_response : is_Some (marshal (mkConnResponse true (kp_pub kpS) (Sign kpS nonceC) nonceS ""));
  si_confirm : is_Some (marshal (mkConnConfirm (kp_pub kpC) (Sign kpC nonceS)));
  si_encryptC : is_ok (EncryptIPInfo (Some ivC) infoC kpC (kp_pub kpS)) = true;
  si_encryptS : is_ok (EncryptIPInfo (Some ivS) infoS kpS (kp_pub kpC)) = true
}.

Lemma fresh_request_valid data nc n1 n2 n3 from target nonce now :
  unmarshal data = Some (mkConnRequest from target nonce (GoTime.UnixMilli now)) ->
  length nonce = NonceSize -> in_s 64 (now / GoTime.Millisecond) -> nc !! nonce = None ->
  n1 <= now + TimestampFreshness - GoTime.Millisecond -> now - TimestampFreshness <= n2 ->
  exists nc', ValidateConnRequest data nc n1 n2 n3 =
    (Ok (mkConnRequest from target nonce (GoTime.UnixMilli now)), nc').
Proof.
  intros Hu Hl Hr Hnew Hn1 Hn2. unfold ValidateConnRequest. rewrite Hu. cbn [req_Timestamp req_Nonce].
  unfold GoTime.UnixMilli. rewrite (wrap_s_small 64) by (lia || done).
  unfold GoTime.of_UnixMilli. set (ts := now / GoTime.Millisecond * GoTime.Millisecond).
  assert (now - GoTime.Millisecond < ts <= now) as Hts.
  { pose proof (Z.div_mod now GoTime.Millisecond ltac:(done)).
    pose proof (Z.mod_pos_bound now GoTime.Millisecond eq_refl). unfold ts. lia. }
  destruct (Z.ltb_spec TimestampFreshness (GoTime.Sub n1 ts)) as [Hbad|_].
  { assert (GoTime.Sub n1 ts <= TimestampFreshness); [|lia]. apply GoTime.Sub_le; [done|done|]. lia. }
  unfold GoTime.After, GoTime.Add. destruct (Z.ltb_spec (n2 + TimestampFreshness) ts); [lia|].
  rewrite Hl. cbn [negb Nat.eqb]. unfold Check_. rewrite Hl. rewrite Nat.eqb_refl. cbn [negb].
  assert (prune nc n3 !! nonce = None) as ->.
  { unfold prune. apply map_lookup_filter_None. by left. }
  by eexists.
Qed.

(** The client after the server's response, and the server after the client's request. *)
Lemma client_first kp our target nonce now data k :
  marshal (mkConnRequest our target nonce (GoTime.UnixMilli now)) = Some data ->
  exists k', pbind (performClientHandshake kp our target (Some nonce) now) k =
      Send (wrapUnsigned CONN_REQUEST data) k' /\
    exists k'', k' true = Recv k'' /\
    forall e resp confirm, env_Type e = CONN_RESPONSE ->
      ValidateConnResponse (env_Payload e) nonce target = Ok resp -> resp_Accepted resp = true ->
      CreateConnConfirm kp (resp_Nonce resp) = Ok confirm ->
      exists k3, k'' (Some e) = Send (wrapUnsigned CONN_CONFIRM confirm) k3 /\
        k3 true = k (Ok (mkHandshake (resp_PubKey resp) target)) :> proc (result session_err (HandshakeResult * IPInfo)).
Proof.
  intros Hm. unfold performClientHandshake, CreateConnRequest. cbn [GenerateNonce of_option rbind].
  rewrite Hm. cbn [of_option rbind pbind]. eexists. split; [done|]. cbn [negb pbind]. eexists. split; [done|].
  intros e resp confirm Hty Hv Ha Hc. cbn beta iota. rewrite Hty, Z.eqb_refl. cbn [negb].
  rewrite Hv, Ha. cbn [negb]. rewrite Hc. cbn [pbind]. eexists. split; [done|]. done.
Qed.

Lemma exchange_first info kp pk iv enc :
  EncryptIPInfo (Some iv) info kp pk = Ok enc ->
  exists k', ExchangeIPs info kp pk (Some iv) false = Send (wrapUnsigned IP_EXCHANGE enc) k' /\
    exists k'', k' true = Recv k'' /\
    forall e, env_Type e = IP_EXCHANGE -> k'' (Some e) = Done (DecryptIPInfo (env_Payload e) kp pk).
Proof.
  intros He. unfold ExchangeIPs. rewrite He. eexists. split; [done|]. cbn [negb].
  eexists. split; [done|]. intros e Hty. cbn beta iota. rewrite Hty, Z.eqb_refl. done.
Qed.

End claims.

(** ** A concrete session *)
Section samples.
Import Toy ToyKeys.

Definition kp1 : Keypair := key_of 1.
Definition kp2 : Keypair := key_of 2.
Definition addr1 : string := DeriveAddress (kp_pub kp1).
Definition addr2 : string := DeriveAddress (kp_pub kp2).
Definition nonce1 : bytes := replicate 32 Byte.x11.
Definition nonce2 : bytes := replicate 32 Byte.x22.
Definition iv1 : bytes := replicate 12 Byte.x31.
Definition iv2 : bytes := replicate 12 Byte.x32.
Definition info1 : IPInfo := ["/ip4/10.0.0.1/udp/4001/quic-v1"%string].
Definition info2 : IPInfo := ["/ip4/10.0.0.2/udp/4001/quic-v1"%string; "/ip4/192.168.0.2/tcp/9"%string].

(** Service 2 knows peer 1 and is asked by nobody else. *)
Definition cfg2 (addrs : option IPInfo) : ServiceConfig :=
  mkConfig "node" (Some kp2) addr2 (Some (fun a => bool_decide (a = addr1))) None true addrs.
Definition rq2 : req_env := mkReqEnv sample_now sample_now sample_now (Some nonce2) (Some iv2) false.

Definition request1 : ConnRequest := mkConnRequest addr1 addr2 nonce1 (GoTime.UnixMilli sample_now).
Definition response2 : ConnResponse := mkConnResponse true (kp_pub kp2) (Sign kp2 nonce1) nonce2 "".
Definition confirm1 : ConnConfirm := mkConnConfirm (kp_pub kp1) (Sign kp1 nonce2).
Definition request_env : Envelope := wrapUnsigned CONN_REQUEST (marshal_or_nil request1).
Definition response_env : Envelope := wrapUnsigned CONN_RESPONSE (marshal_or_nil response2).
Definition confirm_env : Envelope := wrapUnsigned CONN_CONFIRM (marshal_or_nil confirm1).

Lemma sample_inputs : session_inputs kp1 kp2 (cfg2 (Some info2)) ∅ rq2 sample_now nonce1 nonce2 iv1 iv2 info1 info2.
Proof.
  split; try apply key_of_genuine; try reflexivity; try (vm_compute; done).
  all: try (eexists; vm_compute; reflexivity).
Qed.


Lemma request1_valid : exists nc',
  ValidateConnRequest (env_Payload request_env) ∅ sample_now sample_now sample_now = (Ok request1, nc').
Proof. eexists. apply with_second. vm_compute. reflexivity. Qed.
Lemma response2_marshals : marshal response2 = Some (env_Payload response_env).
Proof. vm_compute. reflexivity. Qed.
Lemma confirm1_valid : ValidateConnConfirm (env_Payload confirm_env) nonce2 addr1 = Ok confirm1.
Proof. vm_compute. reflexivity. Qed.
Lemma cfg2_admits addrs : (admission (cfg2 addrs) (req_FromAddress request1)).1 = true.
Proof. unfold admission, cfg2. cbn [cfg_Contacts]. by rewrite bool_decide_eq_true_2. Qed.

(** The service without addresses, through to its end. *)
Lemma sample_service_run : exists nc' p,
  handleEnvelopeForService ∅ (cfg2 None) kp2 rq2 request_env = (nc', p) /\
  run p [Sent response_env true; Received (Some confirm_env)] (Done (Confirmed (kp_pub kp1) None)).
Proof.
  destruct request1_valid as (nc' & Hv).
  destruct (accepting_response ∅ (cfg2 None) kp2 rq2 request_env request1 nonce2 _ nc'
    eq_refl Hv eq_refl (cfg2_admits None) eq_refl response2_marshals) as (k & Hh & Hk).
  destruct (Hk confirm_env confirm1 eq_refl confirm1_valid) as (k' & Hk1 & Hk2).
  eexists _, _. split; [exact Hh|]. apply run_send. rewrite Hk1. apply run_recv. rewrite Hk2. constructor.
Qed.

Lemma handshake_authenticates_witness :
  exists req nonce signature,
    unmarshal (env_Payload request_env) = Some req /\ req_TargetAddress req = addr2 /\
    (admission (cfg2 None) (req_FromAddress req)).1 = true /\ rq_nonce rq2 = Some nonce /\
    proves_identity (kp_pub kp1) nonce signature (req_FromAddress req).
Proof.
  destruct sample_service_run as (nc' & p & Hh & Hr).
  exact (proj2 handshake_authenticates ∅ (cfg2 None) kp2 rq2 request_env nc' p _ (kp_pub kp1) None Hh Hr).
Defined.

Lemma service_reveals_on_consent_witness : exists nc' p,
  handleEnvelopeForService ∅ (cfg2 None) kp2 rq2 request_env = (nc', p) /\
  (length (sent [Sent response_env true; Received (Some confirm_env)]) <= 2)%nat /\
  (refusal response_env \/ env_Type response_env = CONN_RESPONSE).
Proof.
  destruct sample_service_run as (nc' & p & Hh & Hr). exists nc', p. split; [exact Hh|].
  destruct (service_reveals_on_consent ∅ (cfg2 None) kp2 rq2 request_env nc' p _ _ Hh Hr) as [Hl Hall].
  split; [exact Hl|].
  destruct (Hall [] response_env true [Received (Some confirm_env)] eq_refl) as [Hf|(_ & _)]; [by left|by right].
Defined.

(** Service 3 admits everybody; the attacker asks it to sign the nonce of service 2. *)
Definition kp3 : Keypair := kp1.
Definition cfg3 : ServiceConfig :=
  mkConfig "public" (Some kp3) addr1 None (Some (fun _ => Some (mkConnDecision true ""))) true None.
Definition nonce3 : bytes := replicate 32 Byte.x33.
Definition rq3 : req_env := mkReqEnv sample_now sample_now sample_now (Some nonce3) None false.
Definition attack_request : ConnRequest := mkConnRequest "Eattacker" addr1 nonce2 (GoTime.UnixMilli sample_now).
Definition attack_env : Envelope := wrapUnsigned CONN_REQUEST (marshal_or_nil attack_request).
Definition signed_by_victim : ConnResponse := mkConnResponse true (kp_pub kp3) (Sign kp3 nonce2) nonce3 "".

Lemma attack_valid : exists nc',
  ValidateConnRequest (env_Payload attack_env) ∅ sample_now sample_now sample_now = (Ok attack_request, nc').
Proof. eexists. apply with_second. vm_compute. reflexivity. Qed.
Lemma victim_marshals : marshal signed_by_victim = Some (marshal_or_nil signed_by_victim).
Proof. vm_compute. reflexivity. Qed.
Lemma relay_sample : relay_response (wrapUnsigned CONN_RESPONSE (marshal_or_nil signed_by_victim)) = Some confirm_env.
Proof. vm_compute. reflexivity. Qed.

Lemma handshake_relay_witness :
  (exists q, run (handleEnvelopeForService ∅ cfg3 kp3 rq3 attack_env).2
     [Sent (wrapUnsigned CONN_RESPONSE (marshal_or_nil signed_by_victim)) true] q) /\
  run (handleEnvelopeForService ∅ (cfg2 None) kp2 rq2 request_env).2
    [Sent response_env true; Received (Some confirm_env)] (after_confirm (cfg2 None) kp2 rq2 (kp_pub kp1)).
Proof.
  destruct request1_valid as (nc2 & Hv2). destruct attack_valid as (nc3 & Hv3).
  exact (handshake_relay (cfg2 None) kp2 rq2 ∅ request_env request1 nonce2 (env_Payload response_env) nc2
    cfg3 kp3 rq3 ∅ attack_env attack_request nonce3 (marshal_or_nil signed_by_victim) nc3 confirm_env
    (key_of_genuine 1) eq_refl eq_refl Hv2 eq_refl eq_refl (cfg2_admits None) eq_refl response2_marshals
    Hv3 eq_refl eq_refl eq_refl eq_refl victim_marshals relay_sample).
Defined.
End samples.
