(* ===== verification/Keystore.v ===== *)
(** * internal/identity/keystore.go

    The encrypted key files of the services: [<dir>/services/<name>/identity.key]. *)

From Stdlib Require Import Ascii.
From S2P Require Import Prelude GoStd Sha256 Crypto Protocol Instances Identity Chunker FilePath Services.
Local Open Scope go_scope.

(** ** Paths *)

(** [filepath.Join] of any number of elements. *)
Definition JoinAll (l : list string) : string :=
  match List.filter (fun c => negb (bool_decide (c = EmptyString))) l with
  | [] => EmptyString
  | l => Clean (join_slash l)
  end.

(** [filepath.Dir]: everything before the last slash, cleaned. *)
Definition DirOf (path : string) : string :=
  match reverse (split_slash path) with
  | _ :: ((_ :: _) as rest) => Clean (if bool_decide (rest = [EmptyString]) then "/" else join_slash (reverse rest))
  | _ => "."
  end.

(** The directories [os.MkdirAll(path)] makes, outermost first. *)
Definition ancestors (path : string) : list string :=
  let comps := split_slash path in
  List.filter (fun p => negb (bool_decide (p = EmptyString)))
    ((fun i => join_slash (take i comps)) <$> seq 1 (length comps)).

(** ** Directories and files

    Reads and [os.Stat] see the file system as it is; a write may fail. *)

(** How far a [WriteFile] gets: it fails to open, or after some bytes. *)
Inductive write_outcome := WriteOk | OpenFails | WriteFails (n : nat).

Definition existsOnDisk (fs : filesystem) (path : string) : bool := bool_decide (is_Some (fs !! path)).

Definition mkdir_one (fs : filesystem) (p : string) : filesystem :=
  match fs !! p with Some _ => fs | None => <[p := Dir]> fs end.

(** [limit]: how many of the directories are made before a failure; [None]: no failure. *)
Definition MkdirAll (fs : filesystem) (path : string) (limit : option nat) : bool * filesystem :=
  let dirs := ancestors path in
  if existsb (fun p => match fs !! p with Some (File _) => true | _ => false end) dirs then (false, fs)
  else match limit with
       | None => (true, foldl mkdir_one fs dirs)
       | Some n => (false, foldl mkdir_one fs (take n dirs))
       end.

Definition WriteFile (fs : filesystem) (path : string) (data : bytes) (o : write_outcome) : bool * filesystem :=
  match fs !! path with
  | Some Dir => (false, fs)
  | _ => match o with
         | WriteOk => (true, <[path := File data]> fs)
         | OpenFails => (false, fs)
         | WriteFails n => (false, <[path := File (take n data)]> fs)
         end
  end.

(** What is below a directory. *)
Definition below (fs : filesystem) (dir : string) : list string :=
  List.filter (is_prefix (dir +:+ "/")%string) (map_to_list fs).*1.

Inductive remove_outcome := Removed | NotExist | RemoveFails.

(** [os.Remove]: a file, or an empty directory; [ok] is false when the system refuses. *)
Definition os_Remove (fs : filesystem) (path : string) (ok : bool) : remove_outcome * filesystem :=
  match fs !! path with
  | None => (NotExist, fs)
  | Some Dir => if ok && bool_decide (below fs path = []) then (Removed, delete path fs) else (RemoveFails, fs)
  | Some (File _) => if ok then (Removed, delete path fs) else (RemoveFails, fs)
  end.

(** [os.Rename] to a path that does not exist: a directory moves with what is below it. *)
Definition Rename (fs : filesystem) (old new : string) : filesystem :=
  match fs !! old with
  | None => fs
  | Some (File c) => <[new := File c]> (delete old fs)
  | Some Dir =>
      list_to_map ((fun '(p, node) =>
        (if bool_decide (p = old) then new
         else match CutPrefix p (old +:+ "/")%string with
              | Some r => (new +:+ "/" +:+ r)%string
              | None => p
              end, node)) <$> map_to_list fs)
  end.

(** ** Names *)

Definition is_alnum (c : ascii) : bool :=
  let n := Z.of_nat (nat_of_ascii c) in ((97 <=? n) && (n <=? 122)) || ((48 <=? n) && (n <=? 57)).
Definition is_slug (c : ascii) : bool :=
  is_alnum c || bool_decide (c = "_"%char) || bool_decide (c = "-"%char).

(** src: internal/identity/keystore.go 44-44 nameRegexp *)
Definition nameRegexp (s : list ascii) : bool :=
  match s with
  | [] => false
  | c :: rest =>
      is_alnum c &&
      match rest with
      | [] => true
      | _ => forallb is_slug (removelast rest) && is_alnum (List.last rest c)
      end
  end.

(** src: internal/identity/keystore.go 353-361 validateName *)
Definition validateName (name : string) : bool :=
  negb (bool_decide (name = EmptyString)) && nameRegexp (String.list_ascii_of_string name).

(** ** The keystore *)

(** src: internal/identity/keystore.go 20-36 saltSize, nonceSize, NodeService, servicesDir, keyFileName, legacyKey *)
Definition saltSize : nat := 16.
Definition nonceSize : nat := 12.
Definition NodeService : string := "node".
Definition servicesDir : string := "services".
Definition keyFileName : string := "identity.key".
Definition legacyKey : string := "identity.key".

(** src: internal/identity/keystore.go 54-60 Keystore *)
Record Keystore := mkKeystore { kst_dir : string; kst_passphrase : string; kst_cache : gmap string Keypair }.

Inductive ks_err :=
| ErrName | ErrNotFound | ErrAlreadyExists | ErrReadKey | ErrKeyTooShort | ErrDecryptKey
| ErrPrivate (e : keypair_err) | ErrGenerateKey | ErrSalt | ErrKeyNonce | ErrKeyDir | ErrKeyWrite
| ErrRemoveKey | ErrMigrateDir | ErrMigrateRename.

(** The randomness and the system's answers during one call. *)
Record ks_env := mkKsEnv {
  ke_seed : option bytes; ke_salt : option bytes; ke_nonce : option bytes;
  ke_mkdir : option nat; ke_write : write_outcome;
  ke_rename : bool; ke_remove : bool; ke_rmdir : bool
}.

(** src: internal/identity/keystore.go 246-248 Keystore.keyPath *)
Definition keyPath (ks : Keystore) (name : string) : string :=
  JoinAll [kst_dir ks; servicesDir; name; keyFileName].

Definition cache_key (ks : Keystore) (name : string) (kp : Keypair) : Keystore :=
  mkKeystore (kst_dir ks) (kst_passphrase ks) (<[name := kp]> (kst_cache ks)).

Section keystore.
Context `{Ed25519, Argon2, AESGCM}.

(** src: internal/identity/keystore.go 275-310 Keystore.loadFromDisk *)
Definition loadFromDisk (ks : Keystore) (fs : filesystem) (name : string) : result ks_err Keypair :=
  match fs !! keyPath ks name with
  | None => Err ErrNotFound
  | Some Dir => Err ErrReadKey
  | Some (File data) =>
      guard negb (length data <? saltSize + nonceSize)%nat else ErrKeyTooShort;
      let salt := take saltSize data in
      let nonce := take nonceSize (drop saltSize data) in
      let ciphertext := drop (saltSize + nonceSize) data in
      let aesKey := argon2_IDKey (kst_passphrase ks) salt in
      plaintext <-? of_option ErrDecryptKey (gcm_open aesKey nonce ciphertext);
      match UnmarshalPrivate plaintext with Ok kp => Ok kp | Err e => Err (ErrPrivate e) end
  end.

(** src: internal/identity/keystore.go 314-350 Keystore.saveToDisk *)
Definition saveToDisk (env : ks_env) (ks : Keystore) (fs : filesystem) (name : string) (kp : Keypair) :
    result ks_err unit * filesystem :=
  match ke_salt env with
  | None => (Err ErrSalt, fs)
  | Some salt =>
      match ke_nonce env with
      | None => (Err ErrKeyNonce, fs)
      | Some nonce =>
          let aesKey := argon2_IDKey (kst_passphrase ks) salt in
          let out := salt ++ nonce ++ gcm_seal aesKey nonce (MarshalPrivate kp) in
          let path := keyPath ks name in
          let '(ok, fs) := MkdirAll fs (DirOf path) (ke_mkdir env) in
          if negb ok then (Err ErrKeyDir, fs)
          else let '(ok, fs) := WriteFile fs path out (ke_write env) in
               if ok then (Ok tt, fs) else (Err ErrKeyWrite, fs)
      end
  end.

(** src: internal/identity/keystore.go 252-271 Keystore.migrateLegacy *)
Definition migrateLegacy (env : ks_env) (ks : Keystore) (fs : filesystem) : result ks_err unit * filesystem :=
  let legacy := JoinAll [kst_dir ks; legacyKey] in
  let target := keyPath ks NodeService in
  if negb (existsOnDisk fs legacy) then (Ok tt, fs)
  else if existsOnDisk fs target then (Ok tt, fs)
  else
    let '(ok, fs) := MkdirAll fs (DirOf target) (ke_mkdir env) in
    if negb ok then (Err ErrMigrateDir, fs)
    else if ke_rename env then (Ok tt, Rename fs legacy target) else (Err ErrMigrateRename, fs).

(** src: internal/identity/keystore.go 66-76 NewKeystore *)
Definition NewKeystore (env : ks_env) (fs : filesystem) (dir passphrase : string) :
    result ks_err Keystore * filesystem :=
  let ks := mkKeystore dir passphrase ∅ in
  match migrateLegacy env ks fs with
  | (Err e, fs) => (Err e, fs)
  | (Ok _, fs) => (Ok ks, fs)
  end.

(** src: internal/identity/keystore.go 80-105 Keystore.Get *)
Definition Get (ks : Keystore) (fs : filesystem) (name : string) : result ks_err Keypair * Keystore :=
  if negb (validateName name) then (Err ErrName, ks)
  else match kst_cache ks !! name with
  | Some kp => (Ok kp, ks)
  | None =>
      match loadFromDisk ks fs name with
      | Err e => (Err e, ks)
      | Ok kp => (Ok kp, cache_key ks name kp)
      end
  end.

(** A new keypair, saved before it is cached. *)
(** src: internal/identity/keystore.go 125-134 Keystore.Generate *)
Definition generate_and_save (env : ks_env) (ks : Keystore) (fs : filesystem) (name : string) :
    result ks_err Keypair * Keystore * filesystem :=
  match Identity.Generate (ke_seed env) with
  | None => (Err ErrGenerateKey, ks, fs)
  | Some kp =>
      match saveToDisk env ks fs name kp with
      | (Err e, fs) => (Err e, ks, fs)
      | (Ok _, fs) => (Ok kp, cache_key ks name kp, fs)
      end
  end.

(** src: internal/identity/keystore.go 110-135 Keystore.Generate *)
Definition Generate (env : ks_env) (ks : Keystore) (fs : filesystem) (name : string) :
    result ks_err Keypair * Keystore * filesystem :=
  if negb (validateName name) then (Err ErrName, ks, fs)
  else match kst_cache ks !! name with
  | Some _ => (Err ErrAlreadyExists, ks, fs)
  | None =>
      if existsOnDisk fs (keyPath ks name) then (Err ErrAlreadyExists, ks, fs)
      else generate_and_save env ks fs name
  end.

(** src: internal/identity/keystore.go 139-169 Keystore.GetOrGenerate *)
Definition GetOrGenerate (env : ks_env) (ks : Keystore) (fs : filesystem) (name : string) :
    result ks_err Keypair * Keystore * filesystem :=
  if negb (validateName name) then (Err ErrName, ks, fs)
  else match kst_cache ks !! name with
  | Some kp => (Ok kp, ks, fs)
  | None =>
      if existsOnDisk fs (keyPath ks name) then
        match loadFromDisk ks fs name with
        | Err e => (Err e, ks, fs)
        | Ok kp => (Ok kp, cache_key ks name kp, fs)
        end
      else generate_and_save env ks fs name
  end.

(** src: internal/identity/keystore.go 173-184 Keystore.Has *)
Definition Has (ks : Keystore) (fs : filesystem) (name : string) : bool :=
  if negb (validateName name) then false
  else match kst_cache ks !! name with
  | Some _ => true
  | None => existsOnDisk fs (keyPath ks name)
  end.

(** src: internal/identity/keystore.go 220-243 Keystore.Remove *)
Definition Remove (env : ks_env) (ks : Keystore) (fs : filesystem) (name : string) :
    result ks_err unit * Keystore * filesystem :=
  if negb (validateName name) then (Err ErrName, ks, fs)
  else
    let path := keyPath ks name in
    if negb (existsOnDisk fs path) && negb (bool_decide (is_Some (kst_cache ks !! name)))
    then (Err ErrNotFound, ks, fs)
    else match os_Remove fs path (ke_remove env) with
    | (RemoveFails, fs) => (Err ErrRemoveKey, ks, fs)
    | (_, fs) =>
        (Ok tt, mkKeystore (kst_dir ks) (kst_passphrase ks) (delete name (kst_cache ks)),
         (os_Remove fs (DirOf path) (ke_rmdir env)).2)
    end.
End keystore.

(** [sort.Strings] on names; the entries [os.ReadDir] gives are the children of the
    directory. *)
Definition string_ltb (a b : string) : bool := match String.compare a b with Lt => true | _ => false end.

Definition children (fs : filesystem) (dir : string) : list string :=
  List.filter (fun n => match split_slash n with [_] => true | _ => false end)
    (omap (fun p => CutPrefix p (dir +:+ "/")%string) (map_to_list fs).*1).

(** src: internal/identity/keystore.go 187-216 Keystore.List *)
Definition List_ (ks : Keystore) (fs : filesystem) : list string :=
  let root := JoinAll [kst_dir ks; servicesDir] in
  match fs !! root with
  | Some Dir =>
      sort_slice string_ltb (List.filter (fun name =>
        match fs !! (root +:+ "/" +:+ name)%string with Some Dir => true | _ => false end &&
        validateName name && existsOnDisk fs (JoinAll [root; name; keyFileName])) (children fs root))
  | _ => []
  end.

(** ** Names and paths *)

Lemma str_app_assoc (a b c : string) : ((a +:+ b) +:+ c = a +:+ b +:+ c)%string.
Proof. induction a as [|x a IH]; [done|]. exact (f_equal (String x) IH). Qed.
Lemma str_app_inj (a b c : string) : (a +:+ b = a +:+ c)%string -> b = c.
Proof. induction a as [|x a IH]; [done|]. intros Heq. injection Heq as Heq. auto. Qed.

Lemma join_slash_app a b : a <> [] -> b <> [] ->
  join_slash (a ++ b) = (join_slash a +:+ String slash (join_slash b))%string.
Proof.
  intros Ha Hb. induction a as [|x a IH]; [done|]. destruct a as [|y a]; [by destruct b|].
  change (join_slash ((x :: y :: a) ++ b)) with (x +:+ String slash (join_slash ((y :: a) ++ b)))%string.
  rewrite IH by done.
  change (join_slash (x :: y :: a)) with (x +:+ String slash (join_slash (y :: a)))%string.
  by rewrite str_app_assoc.
Qed.

Lemma split_no_slash s :
  Forall (fun c => c <> slash) (String.list_ascii_of_string s) -> split_slash s = [s].
Proof.
  induction s as [|a s IH]; simpl; [done|]. intros Hs. inversion Hs; subst.
  rewrite bool_decide_eq_false_2 by done. by rewrite IH.
Qed.

Lemma is_slug_not c d : is_slug c = true -> is_slug d = false -> c <> d.
Proof. congruence. Qed.

Lemma nameRegexp_slugs l : nameRegexp l = true ->
  Forall (fun c => is_slug c = true) l /\ exists c rest, l = c :: rest /\ is_alnum c = true.
Proof.
  assert (forall c, is_alnum c = true -> is_slug c = true) as Has by (unfold is_slug; by intros c ->).
  unfold nameRegexp. destruct l as [|c rest]; [done|]. intros [Hc Hrest]%andb_prop.
  split; [|by eexists _, _]. constructor; [auto|].
  destruct rest as [|d rest]; [constructor|]. apply andb_prop in Hrest as [Hmid Hlast].
  rewrite (app_removelast_last c (l := d :: rest)) by done. apply Forall_app.
  split; [|constructor; [auto|constructor]]. apply List.Forall_forall. intros x Hx.
  by apply (proj1 (forallb_forall _ _) Hmid).
Qed.

Lemma validateName_plain n : validateName n = true -> plain n.
Proof.
  unfold validateName. intros [Hne%negb_true_iff%bool_decide_eq_false Hre]%andb_prop.
  apply nameRegexp_slugs in Hre as [Hs (c & rest & Hn & Hc)].
  assert (forall s d, is_alnum d = false -> n <> String d s) as Hfirst.
  { intros s d Hd ->. simpl in Hn. injection Hn as -> _. congruence. }
  split_and!; [done|by apply Hfirst|by apply Hfirst|]. apply split_no_slash.
  eapply Forall_impl; [exact Hs|]. intros a Ha. by apply is_slug_not.
Qed.

Lemma JoinAll_filter d l : l <> [] -> Forall (fun c => c <> EmptyString) l ->
  JoinAll (d :: l) = if bool_decide (d = EmptyString) then Clean (join_slash l) else Clean (join_slash (d :: l)).
Proof.
  intros Hne Hl. unfold JoinAll. cbn [List.filter].
  assert (List.filter (fun c => negb (bool_decide (c = EmptyString))) l = l) as ->.
  { clear Hne. induction Hl as [|c l Hc Hl IH]; [done|]. cbn [List.filter].
    rewrite bool_decide_eq_false_2 by done. cbn [negb]. by rewrite IH. }
  case_bool_decide; cbn [negb]; by destruct l.
Qed.

(** A file of a service: [<dir>/services/<name>/<file>]. *)
Definition service_path (dir name file : string) : string := JoinAll [dir; servicesDir; name; file].

(** The path of a file of a service is the name and the file after a fixed string. *)
Lemma service_path_shape dir : exists prefix, forall n f, plain n -> plain f ->
  service_path dir n f = (prefix +:+ String slash (n +:+ String slash f))%string.
Proof.
  set (base := if bool_decide (dir = EmptyString) then [] else clean_stack dir).
  exists ((if is_rooted dir then String slash EmptyString else EmptyString) +:+
     join_slash (reverse base ++ [servicesDir]))%string.
  intros n f Hn Hkf. unfold service_path.
  assert (plain servicesDir) as Hsv by (by split_and!).
  pose proof Hn as (Hn0 & _ & _ & Hns). pose proof Hkf as (Hf0 & _ & _ & Hfs).
  assert (split_slash (join_slash [servicesDir; n; f]) = [servicesDir; n; f]) as Hsplit.
  { apply split_join; [done|]. apply Forall_cons; split; [done|].
    apply Forall_cons; split; [exact Hns|]. by apply Forall_singleton. }
  assert (JoinAll [dir; servicesDir; n; f] = render (is_rooted dir) (f :: n :: servicesDir :: base)) as ->.
  { rewrite JoinAll_filter by (done || by repeat (apply Forall_cons; split)). unfold base. case_bool_decide as Hd.
    - rewrite Hd. unfold Clean, clean_stack. rewrite Hsplit.
      change (is_rooted (join_slash [servicesDir; n; f])) with false.
      cbn [fold_left]. by rewrite !clean_step_plain.
    - assert (Clean (join_slash (dir :: [servicesDir; n; f])) = Join dir (join_slash [servicesDir; n; f])) as ->.
      { unfold Join. by rewrite bool_decide_eq_false_2. }
      rewrite Join_stack by done. rewrite Hsplit. cbn [fold_left]. by rewrite !clean_step_plain. }
  assert (reverse (f :: n :: servicesDir :: base) = (reverse base ++ [servicesDir]) ++ [n; f]) as Hrev.
  { rewrite !reverse_cons. by rewrite <- !app_assoc. }
  assert (forall A, A <> [] -> join_slash (A ++ [n; f])
    = (join_slash A +:+ String slash (n +:+ String slash f))%string) as Hj.
  { intros A HA. by rewrite join_slash_app. }
  assert (reverse base ++ [servicesDir] <> []) as HA by (by destruct (reverse base)).
  unfold render. rewrite Hrev, (Hj _ HA), !str_app_assoc. by destruct (is_rooted dir).
Qed.

Lemma service_path_inj dir n m f g : plain n -> plain m -> plain f -> plain g ->
  service_path dir n f = service_path dir m g -> n = m /\ f = g.
Proof.
  intros Hn Hm Hf Hg. destruct (service_path_shape dir) as (prefix & Hp).
  rewrite !Hp by done. intros Heq%str_app_inj. injection Heq as Heq. apply (f_equal split_slash) in Heq.
  rewrite !split_slash_app in Heq. destruct Hn as (_ & _ & _ & Hn), Hm as (_ & _ & _ & Hm), Hf as (_ & _ & _ & Hf), Hg as (_ & _ & _ & Hg).
  rewrite Hn, Hm, Hf, Hg in Heq. by injection Heq.
Qed.

(** The path of a name is the name between two fixed strings. *)
Lemma keyPath_shape ks : exists prefix, forall n, plain n ->
  keyPath ks n = (prefix +:+ String slash (n +:+ String slash keyFileName))%string.
Proof. destruct (service_path_shape (kst_dir ks)) as (prefix & Hp). exists prefix. intros n Hn. by apply Hp. Qed.

Lemma keyPath_inj ks n m : validateName n = true -> validateName m = true ->
  keyPath ks n = keyPath ks m -> n = m.
Proof. intros Hn%validateName_plain Hm%validateName_plain Heq. by apply service_path_inj in Heq as [-> _]. Qed.

Definition last_component (p : string) : option string := last (split_slash p).

Lemma last_component_app a n : plain n -> last_component (a +:+ String slash n) = Some n.
Proof. intros (_ & _ & _ & Hn). unfold last_component. rewrite split_slash_app, Hn. apply last_snoc. Qed.

Lemma last_component_render r n st : plain n -> last_component (render r (n :: st)) = Some n.
Proof.
  intros Hn. assert (forall a, last_component (a +:+ join_slash (reverse st ++ [n]))%string = Some n \/ st = []) as Hj.
  { intros a. destruct st as [|x st]; [by right|]. left.
    assert (reverse (x :: st) <> []) as Hne by (rewrite reverse_cons; by destruct (reverse st)).
    rewrite join_slash_app, <- str_app_assoc by done. by apply last_component_app. }
  unfold render. rewrite reverse_cons. destruct r.
  - destruct (Hj (String slash EmptyString)) as [Hl|Hst]; [exact Hl|]. subst st.
    exact (last_component_app EmptyString n Hn).
  - destruct (Hj EmptyString) as [Hl|Hst]; [exact Hl|]. subst st.
    destruct Hn as (_ & _ & _ & Hn). unfold last_component. simpl. by rewrite Hn.
Qed.

(** The directory of a key file is not a key file. *)
Lemma DirOf_keyPath ks n m : validateName n = true -> validateName m = true ->
  DirOf (keyPath ks n) <> keyPath ks m.
Proof.
  intros Hvn Hvm Heq. pose proof (validateName_plain n Hvn) as Hn. pose proof (validateName_plain m Hvm) as Hm.
  destruct (keyPath_shape ks) as (prefix & Hp). rewrite (Hp n Hn), (Hp m Hm) in Heq.
  apply (f_equal last_component) in Heq.
  assert (last_component (prefix +:+ String slash (m +:+ String slash keyFileName)) = Some keyFileName) as Hlast.
  { rewrite <- (last_component_app (prefix +:+ String slash m) keyFileName) by (by split_and!).
    by rewrite str_app_assoc. }
  rewrite Hlast in Heq.
  unfold DirOf in Heq. rewrite !split_slash_app in Heq. pose proof Hn as (Hn0 & _ & _ & Hns). rewrite Hns in Heq.
  change (split_slash keyFileName) with [keyFileName] in Heq.
  rewrite !reverse_app, !reverse_singleton in Heq. cbn [app] in Heq.
  rewrite bool_decide_eq_false_2 in Heq by congruence.
  replace (reverse (n :: reverse (split_slash prefix))) with (split_slash prefix ++ [n]) in Heq
    by (by rewrite reverse_cons, reverse_involutive).
  unfold Clean, clean_stack in Heq. rewrite split_join in Heq.
  2: { by destruct (split_slash prefix). }
  2: { apply Forall_app. split; [apply split_slash_parts|by apply Forall_singleton]. }
  rewrite fold_left_app in Heq. cbn [fold_left] in Heq. rewrite clean_step_plain in Heq by done.
  rewrite last_component_render in Heq by done. injection Heq as ->. done.
Qed.

(** ** The file system under the operations *)

(** Nothing there is lost, and every file there was there. *)
Definition only_dirs_added (fs fs' : filesystem) : Prop :=
  (forall p node, fs !! p = Some node -> fs' !! p = Some node) /\
  (forall p c, fs' !! p = Some (File c) -> fs !! p = Some (File c)).

#[export] Instance only_dirs_added_preorder : PreOrder only_dirs_added.
Proof. split; [done|]. intros a b c [H1 H2] [H3 H4]. split; eauto. Qed.

Lemma mkdir_one_added fs p : only_dirs_added fs (mkdir_one fs p).
Proof.
  unfold mkdir_one. destruct (fs !! p) eqn:Hp; [done|]. split; intros q x Hq.
  - rewrite lookup_insert_ne; [done|congruence].
  - apply lookup_insert_Some in Hq as [[_ ?]|[_ ?]]; done.
Qed.

Lemma mkdirs_added l : forall fs, only_dirs_added fs (foldl mkdir_one fs l).
Proof.
  induction l as [|p l IH]; intros fs; [done|]. cbn [foldl].
  etransitivity; [apply mkdir_one_added|apply IH].
Qed.

Lemma MkdirAll_added fs p limit : only_dirs_added fs (MkdirAll fs p limit).2.
Proof. unfold MkdirAll. destruct (existsb _ _); [done|]. destruct limit; apply mkdirs_added. Qed.

(** A call touches one file and adds directories. *)
Definition touches (path : string) (fs fs' : filesystem) : Prop :=
  forall p, p <> path ->
    (forall node, fs !! p = Some node -> fs' !! p = Some node) /\
    (forall c, fs' !! p = Some (File c) -> fs !! p = Some (File c)).

Lemma WriteFile_touches fs path data o : touches path fs (WriteFile fs path data o).2.
Proof.
  intros p Hp. unfold WriteFile. destruct (fs !! path) as [[c|]|], o; cbn [snd];
    rewrite ?lookup_insert_ne by done; done.
Qed.

Section laws.
Context `{Ed25519Ok, Argon2, AESGCMOk}.

Lemma saveToDisk_touches env ks fs n kp : touches (keyPath ks n) fs (saveToDisk env ks fs n kp).2.
Proof.
  unfold saveToDisk. destruct (ke_salt env), (ke_nonce env); try done.
  pose proof (MkdirAll_added fs (DirOf (keyPath ks n)) (ke_mkdir env)) as [Ha Hb].
  destruct (MkdirAll _ _ _) as [[] fs1]; cbn [negb snd] in *; [|by split; auto].
  match goal with |- context [WriteFile fs1 ?p ?d ?o] => pose proof (WriteFile_touches fs1 p d o) as Hw;
    destruct (WriteFile fs1 p d o) as [ok fs2] end.
  destruct ok; cbn [snd] in *; intros p Hp; destruct (Hw p Hp) as [H1' H2']; split; eauto.
Qed.

(** A keystore reads the file it names: the rest of its state and of the disk do not matter. *)
Lemma load_frame ks ks' fs fs' n kp :
  kst_dir ks' = kst_dir ks -> kst_passphrase ks' = kst_passphrase ks ->
  (forall node, fs !! keyPath ks n = Some node -> fs' !! keyPath ks n = Some node) ->
  loadFromDisk ks fs n = Ok kp -> loadFromDisk ks' fs' n = Ok kp.
Proof.
  intros Hd Hp Hfs. unfold loadFromDisk. assert (keyPath ks' n = keyPath ks n) as -> by (unfold keyPath; by rewrite Hd).
  destruct (fs !! keyPath ks n) as [node|]; [|done]. rewrite (Hfs node eq_refl), Hp. done.
Qed.

(** What is saved is loaded. *)
Lemma load_after_save env ks ks' fs fs' n kp :
  genuine kp -> (forall s, ke_salt env = Some s -> length s = saltSize) ->
  (forall s, ke_nonce env = Some s -> length s = nonceSize) ->
  kst_dir ks' = kst_dir ks -> kst_passphrase ks' = kst_passphrase ks ->
  saveToDisk env ks fs n kp = (Ok tt, fs') -> loadFromDisk ks' fs' n = Ok kp.
Proof.
  intros Hg Hs Hn Hd Hp. unfold saveToDisk.
  destruct (ke_salt env) as [salt|]; [|done]. destruct (ke_nonce env) as [nonce|]; [|done].
  specialize (Hs salt eq_refl). specialize (Hn nonce eq_refl).
  destruct (MkdirAll _ _ _) as [[] fs1]; [|done]. cbn [negb]. set (out := salt ++ _).
  assert (forall r, WriteFile fs1 (keyPath ks n) out (ke_write env) = (true, r) ->
    r !! keyPath ks n = Some (File out)) as Hw.
  { intros r. unfold WriteFile. destruct (fs1 !! keyPath ks n) as [[]|], (ke_write env); try done;
      intros [= <-]; apply lookup_insert_eq. }
  destruct (WriteFile _ _ _ _) as [[] fs2]; [|done]. intros [= <-].
  unfold loadFromDisk. assert (keyPath ks' n = keyPath ks n) as -> by (unfold keyPath; by rewrite Hd).
  rewrite (Hw fs2 eq_refl), Hp. unfold out.
  assert ((length (salt ++ nonce ++ gcm_seal (argon2_IDKey (kst_passphrase ks) salt) nonce (MarshalPrivate kp))
    <? saltSize + nonceSize)%nat = false) as ->.
  { apply Nat.ltb_ge. rewrite !length_app, Hs, Hn. lia. }
  cbn [negb]. rewrite (take_app_length' salt), (drop_app_length' salt) by done.
  rewrite take_app_length' by done. rewrite <- drop_drop, (drop_app_length' salt), drop_app_length' by done.
  rewrite gcm_open_seal. cbn [of_option rbind].
  unfold MarshalPrivate. pose proof (genuine_priv_length kp Hg) as Hl.
  rewrite take_ge, Hl, Nat.sub_diag, app_nil_r by (rewrite Hl; done).
  unfold UnmarshalPrivate. rewrite Hl, Nat.eqb_refl. destruct Hg as [_ Hg]. rewrite <- Hg. by destruct kp.
Qed.

(** The randomness has its documented sizes. *)
Definition env_ok (env : ks_env) : Prop :=
  (forall s, ke_seed env = Some s -> length s = SeedSize) /\
  (forall s, ke_salt env = Some s -> length s = saltSize) /\
  (forall s, ke_nonce env = Some s -> length s = nonceSize).

(** The cache holds what the disk holds. *)
Definition ks_agrees (ks : Keystore) (fs : filesystem) : Prop :=
  forall n kp, kst_cache ks !! n = Some kp -> validateName n = true /\ loadFromDisk ks fs n = Ok kp.

Lemma Generate_genuine rand kp :
  (forall s, rand = Some s -> length s = SeedSize) -> Identity.Generate rand = Some kp -> genuine kp.
Proof.
  unfold Identity.Generate. destruct rand as [seed|]; [|done]. intros Hs [= <-].
  specialize (Hs seed eq_refl). split; [by exists seed|]. by rewrite <- NewKeyFromSeed_Public.
Qed.

Lemma cache_key_agrees ks fs n kp :
  ks_agrees ks fs -> validateName n = true -> loadFromDisk ks fs n = Ok kp -> ks_agrees (cache_key ks n kp) fs.
Proof.
  intros Hag Hn Hl m kp' Hm. unfold cache_key in Hm. cbn [kst_cache] in Hm.
  assert (loadFromDisk ks fs m = Ok kp' /\ validateName m = true) as [Hl' Hv].
  { apply lookup_insert_Some in Hm as [[<- <-]|[_ Hm]]; [done|]. by destruct (Hag m kp' Hm). }
  split; [done|]. exact Hl'.
Qed.

Lemma agrees_touches ks fs fs' n :
  ks_agrees ks fs -> kst_cache ks !! n = None -> validateName n = true -> touches (keyPath ks n) fs fs' ->
  ks_agrees ks fs'.
Proof.
  intros Hag Hn Hv Ht m kp Hm. destruct (Hag m kp Hm) as [Hvm Hl]. split; [done|].
  eapply load_frame; [done|done| |exact Hl]. apply (Ht (keyPath ks m)).
  intros Heq%keyPath_inj; [congruence|done..].
Qed.

(** What one call of [GetOrGenerate] or [Generate] does when it has to make a key. *)
Lemma generate_and_save_spec env ks fs n r ks' fs' :
  env_ok env -> validateName n = true -> ks_agrees ks fs -> kst_cache ks !! n = None ->
  generate_and_save env ks fs n = (r, ks', fs') ->
  ks_agrees ks' fs' /\ touches (keyPath ks n) fs fs' /\
  match r with
  | Ok kp => genuine kp /\ ks' = cache_key ks n kp /\ loadFromDisk ks fs' n = Ok kp
  | Err _ => ks' = ks
  end.
Proof.
  intros (Hseed & Hsalt & Hnon) Hv Hag Hn. unfold generate_and_save.
  destruct (Identity.Generate (ke_seed env)) as [kp|] eqn:Hg; [|by intros [= <- <- <-]].
  apply (Generate_genuine _ _ Hseed) in Hg.
  pose proof (saveToDisk_touches env ks fs n kp) as Ht.
  destruct (saveToDisk env ks fs n kp) as [[[]|e] fs1] eqn:Hs; intros [= <- <- <-]; cbn [snd] in Ht.
  - assert (loadFromDisk ks fs1 n = Ok kp) as Hl by (by eapply load_after_save).
    split_and!; [|done..]. apply cache_key_agrees; [by eapply agrees_touches|done|done].
  - split_and!; [by eapply agrees_touches|done|done].
Qed.

Lemma os_Remove_frame fs p ok q c : q <> p -> fs !! q = Some (File c) -> (os_Remove fs p ok).2 !! q = Some (File c).
Proof.
  intros Hq Hf. unfold os_Remove. destruct (fs !! p) as [[|]|]; [|destruct (_ && _)|];
    [destruct ok| | |]; cbn [snd]; by rewrite ?lookup_delete_ne by done.
Qed.

(** The keys readable before stay readable. *)
Definition keeps_keys (ks ks' : Keystore) (fs fs' : filesystem) : Prop :=
  forall m kp, validateName m = true -> loadFromDisk ks fs m = Ok kp -> loadFromDisk ks' fs' m = Ok kp.

Lemma touches_keeps ks fs fs' n :
  fs !! keyPath ks n = None -> touches (keyPath ks n) fs fs' -> keeps_keys ks ks fs fs'.
Proof.
  intros Hnone Ht m kp Hv Hl. eapply load_frame; [done|done| |exact Hl]. intros node Hnode.
  apply Ht; [|done]. congruence.
Qed.

Lemma agreed_load ks fs n kp : ks_agrees ks fs -> kst_cache ks !! n = Some kp -> loadFromDisk ks fs n = Ok kp.
Proof. intros Hag Hc. by destruct (Hag n kp Hc). Qed.

Lemma exists_None fs p : existsOnDisk fs p = false -> fs !! p = None.
Proof. unfold existsOnDisk. intros Hf%bool_decide_eq_false. by apply eq_None_not_Some. Qed.

Lemma keeps_refl ks fs : keeps_keys ks ks fs fs.
Proof. by intros m kp. Qed.

Lemma GetOrGenerate_spec env ks fs n r ks' fs' :
  env_ok env -> ks_agrees ks fs -> GetOrGenerate env ks fs n = (r, ks', fs') ->
  ks_agrees ks' fs' /\ keeps_keys ks ks' fs fs' /\
  match r with
  | Ok kp => validateName n = true /\ kst_dir ks' = kst_dir ks /\ kst_passphrase ks' = kst_passphrase ks /\
      loadFromDisk ks' fs' n = Ok kp /\
      (fs' = fs /\ loadFromDisk ks fs n = Ok kp \/ loadFromDisk ks fs n = Err ErrNotFound /\ genuine kp)
  | Err _ => ks' = ks
  end.
Proof.
  intros Henv Hag. unfold GetOrGenerate. destruct (validateName n) eqn:Hv; cbn [negb]; [|intros [= <- <- <-]; by split_and!; [|apply keeps_refl|]].
  destruct (kst_cache ks !! n) as [kp0|] eqn:Hc.
  { intros [= <- <- <-]. pose proof (agreed_load ks fs n kp0 Hag Hc). split_and!; try done; [apply keeps_refl|by left]. }
  destruct (existsOnDisk fs (keyPath ks n)) eqn:Hex.
  - destruct (loadFromDisk ks fs n) as [kp0|e] eqn:Hl; intros [= <- <- <-]; [|by split_and!; [|apply keeps_refl|]].
    split_and!; try done; [by apply cache_key_agrees|exact (keeps_refl ks fs)|by left].
  - apply exists_None in Hex. intros Hgen.
    destruct (generate_and_save_spec env ks fs n r ks' fs' Henv Hv Hag Hc Hgen) as (Hag' & Ht & Hr).
    pose proof (touches_keeps ks fs fs' n Hex Ht) as Hkeep.
    destruct r as [kp|e]; [|by subst ks'; split_and!].
    destruct Hr as (Hg & -> & Hl). split_and!; try done. right. split; [|done].
    unfold loadFromDisk. by rewrite Hex.
Qed.

Lemma Remove_spec env ks fs n r ks' fs' :
  ks_agrees ks fs -> Remove env ks fs n = (r, ks', fs') ->
  ks_agrees ks' fs' /\
  (forall m kp, m <> n -> validateName m = true -> loadFromDisk ks fs m = Ok kp -> loadFromDisk ks' fs' m = Ok kp) /\
  (r = Ok tt -> loadFromDisk ks' fs' n = Err ErrNotFound /\ kst_cache ks' !! n = None).
Proof.
  intros Hag. unfold Remove. destruct (validateName n) eqn:Hv; cbn [negb]; [|by intros [= <- <- <-]].
  destruct (negb (existsOnDisk _ _) && _); [by intros [= <- <- <-]|].
  destruct (os_Remove fs (keyPath ks n) (ke_remove env)) as [o fs1] eqn:Ho.
  assert (o = RemoveFails -> fs1 = fs) as Hfail.
  { intros ->. unfold os_Remove in Ho. by go_cases. }
  set (fs2 := (os_Remove fs1 (DirOf (keyPath ks n)) (ke_rmdir env)).2).
  set (ks2 := mkKeystore (kst_dir ks) (kst_passphrase ks) (delete n (kst_cache ks))).
  assert (forall m kp, m <> n -> validateName m = true -> loadFromDisk ks fs m = Ok kp ->
    loadFromDisk ks2 fs2 m = Ok kp) as Hother.
  { intros m kp Hm Hvm Hl. assert (exists c, fs !! keyPath ks m = Some (File c)) as [c Hc].
    { unfold loadFromDisk in Hl. destruct (fs !! keyPath ks m) as [[c|]|]; [by exists c|done..]. }
    eapply (load_frame ks); [done|done| |exact Hl]. intros node Hnode. rewrite Hc in Hnode. injection Hnode as <-.
    apply os_Remove_frame; [by intros Heq; destruct (DirOf_keyPath ks n m Hv Hvm)|].
    replace fs1 with (os_Remove fs (keyPath ks n) (ke_remove env)).2 by (by rewrite Ho).
    apply os_Remove_frame; [|done]. by intros Heq%keyPath_inj. }
  assert (o <> RemoveFails -> fs2 !! keyPath ks n = None) as Hgone.
  { intros Hok. assert (fs1 !! keyPath ks n = None) as H1n.
    { unfold os_Remove in Ho. destruct (fs !! keyPath ks n) as [[]|] eqn:Hk;
        go_cases; by rewrite ?lookup_delete_eq. }
    unfold fs2, os_Remove. destruct (fs1 !! DirOf _) as [[]|]; [destruct (ke_rmdir env)|destruct (_ && _)|];
      cbn [snd]; try done; by rewrite lookup_delete_ne by (by intros ?; destruct (DirOf_keyPath ks n n)). }
  assert (ks_agrees ks2 fs2) as Hag2.
  { intros m kp Hm. unfold ks2 in Hm. cbn [kst_cache] in Hm.
    apply lookup_delete_Some in Hm as [Hne Hm]. destruct (Hag m kp Hm) as [Hvm Hl].
    split; [done|]. by apply Hother. }
  intros Hres. destruct o; injection Hres as <- <- <-.
  3: { rewrite Hfail by done. by split_and!. }
  all: split_and!; [done|done|]; intros _; split; [|apply lookup_delete_eq];
    unfold loadFromDisk; change (keyPath ks2 n) with (keyPath ks n); by rewrite Hgone.
Qed.


(** A key file is written in place: when the write of a new key stops before its
    salt and nonce are complete, the call fails but the file remains; from then on, with
    a working disk, the name can neither be generated nor read, and [Has] says that it
    has a key, until it is removed. *)
Theorem failed_save_blocks_name env env' ks fs n k :
  validateName n = true -> kst_cache ks !! n = None -> fs !! keyPath ks n = None ->
  env_ok env -> is_Some (ke_seed env) -> is_Some (ke_salt env) -> is_Some (ke_nonce env) ->
  (MkdirAll fs (DirOf (keyPath ks n)) (ke_mkdir env)).1 = true ->
  (MkdirAll fs (DirOf (keyPath ks n)) (ke_mkdir env)).2 !! keyPath ks n = None ->
  ke_write env = WriteFails k -> (k < saltSize + nonceSize)%nat ->
  let '(r, ks1, fs1) := GetOrGenerate env ks fs n in
  r = Err ErrKeyWrite /\ ks1 = ks /\
  GetOrGenerate env' ks1 fs1 n = (Err ErrKeyTooShort, ks1, fs1) /\
  Generate env' ks1 fs1 n = (Err ErrAlreadyExists, ks1, fs1) /\
  (Get ks1 fs1 n).1 = Err ErrKeyTooShort /\ Has ks1 fs1 n = true.
Proof.
  intros Hv Hc Hfs (_ & Hsalt & Hnon) [seed Hseed] [salt Hs] [nonce Hn] Hmk Hmk2 Hw Hk.
  unfold GetOrGenerate at 1. rewrite Hv, Hc. cbn [negb].
  assert (existsOnDisk fs (keyPath ks n) = false) as -> by (apply bool_decide_eq_false; rewrite Hfs; by intros []).
  unfold generate_and_save, Identity.Generate. rewrite Hseed. cbn [mbind option_bind].
  unfold saveToDisk. rewrite Hs, Hn. destruct (MkdirAll _ _ _) as [ok fs1]. cbn [fst snd] in *. subst ok. cbn [negb].
  unfold WriteFile. rewrite Hmk2, Hw. set (out := take k _).
  assert (length out < saltSize + nonceSize)%nat as Hlen by (unfold out; rewrite length_take; lia).
  set (fs2 := <[keyPath ks n := File out]> fs1).
  assert (fs2 !! keyPath ks n = Some (File out)) as Hl by apply lookup_insert_eq.
  assert (loadFromDisk ks fs2 n = Err ErrKeyTooShort) as Hload.
  { unfold loadFromDisk. rewrite Hl. by destruct (Nat.ltb_spec (length out) (saltSize + nonceSize)); [|lia]. }
  assert (existsOnDisk fs2 (keyPath ks n) = true) as Hex by (apply bool_decide_eq_true; rewrite Hl; by eexists).
  unfold GetOrGenerate, Generate, Get, Has. rewrite Hv, Hc, Hex, Hload. by cbn [negb].
Qed.
End laws.

(** ** The keystore keeps its promise to the registry

    A keystore with its disk, and what the system will answer to its next calls. *)
Record KsHost := mkHost { kh_ks : Keystore; kh_fs : filesystem; kh_envs : list ks_env }.

Definition dead_env : ks_env := mkKsEnv None None None None OpenFails false false false.

Section registry_instance.
Context `{Ed25519, Argon2, AESGCM}.

Definition host_GetOrGenerate (h : KsHost) (n : string) : option Keypair * KsHost :=
  let env := default dead_env (head (kh_envs h)) in
  let '(r, ks, fs) := GetOrGenerate env (kh_ks h) (kh_fs h) n in
  (match r with Ok kp => Some kp | Err _ => None end, mkHost ks fs (tail (kh_envs h))).

(** The key a name has: cached, or readable. *)
Definition host_stored (h : KsHost) (n : string) : option Keypair :=
  if validateName n then
    match kst_cache (kh_ks h) !! n with
    | Some kp => Some kp
    | None => match loadFromDisk (kh_ks h) (kh_fs h) n with Ok kp => Some kp | Err _ => None end
    end
  else None.

#[export] Instance host_keystore : KeystoreI KsHost := {
  ks_GetOrGenerate := host_GetOrGenerate; ks_stored := host_stored }.

Lemma host_stored_frame ks ks' fs fs' envs envs' n m kp :
  host_stored (mkHost ks fs envs) m = Some kp -> m <> n -> validateName n = true ->
  kst_dir ks' = kst_dir ks -> kst_passphrase ks' = kst_passphrase ks ->
  kst_cache ks' !! m = kst_cache ks !! m -> touches (keyPath ks n) fs fs' ->
  host_stored (mkHost ks' fs' envs') m = Some kp.
Proof.
  unfold host_stored. cbn [kh_ks kh_fs]. destruct (validateName m) eqn:Hvm; [|done].
  intros Hst Hm Hvn Hd Hp Hc Ht. rewrite Hc. destruct (kst_cache ks !! m); [done|].
  destruct (loadFromDisk ks fs m) as [kp'|] eqn:Hl; [|done].
  rewrite (load_frame ks ks' fs fs' m kp' Hd Hp); [done| |done].
  apply (Ht (keyPath ks m)). by intros Heq%keyPath_inj.
Qed.

(** Any call, in terms of what was stored. *)
Lemma host_call h n o h' : host_GetOrGenerate h n = (o, h') ->
  (forall m kp, host_stored h m = Some kp -> host_stored h' m = Some kp) /\
  (forall kp, o = Some kp -> host_stored h' n = Some kp) /\
  (forall kp, host_stored h n = Some kp -> o = Some kp).
Proof.
  destruct h as [ks fs envs]. unfold host_GetOrGenerate. cbn [kh_ks kh_fs kh_envs].
  set (env := default dead_env (head envs)). unfold GetOrGenerate.
  destruct (validateName n) eqn:Hv; cbn [negb].
  2: { intros [= <- <-]. split_and!; [done|done|]. unfold host_stored. by rewrite Hv. }
  destruct (kst_cache ks !! n) as [kp0|] eqn:Hc.
  { intros [= <- <-]. unfold host_stored. cbn [kh_ks kh_fs]. rewrite Hv, Hc. done. }
  destruct (existsOnDisk fs (keyPath ks n)) eqn:Hex.
  - destruct (loadFromDisk ks fs n) as [kp0|e] eqn:Hl; intros [= <- <-].
    2: { split_and!; [done|done|]. unfold host_stored. cbn [kh_ks kh_fs]. by rewrite Hv, Hc, Hl. }
    split_and!.
    + intros m kp Hm. destruct (decide (m = n)) as [->|Hne].
      * unfold host_stored in *. cbn [kh_ks kh_fs cache_key kst_cache] in *.
        rewrite Hv, lookup_insert_eq. by rewrite Hv, Hc, Hl in Hm.
      * eapply (host_stored_frame ks _ fs fs); [exact Hm|done..|by apply lookup_insert_ne|done].
    + intros kp [= <-]. unfold host_stored. cbn [kh_ks cache_key kst_cache]. by rewrite Hv, lookup_insert_eq.
    + intros kp. unfold host_stored. cbn [kh_ks kh_fs]. by rewrite Hv, Hc, Hl.
  - apply exists_None in Hex.
    assert (forall kp, host_stored (mkHost ks fs envs) n <> Some kp) as Hno.
    { intros kp. unfold host_stored. cbn [kh_ks kh_fs]. rewrite Hv, Hc. unfold loadFromDisk. by rewrite Hex. }
    unfold generate_and_save. destruct (Identity.Generate (ke_seed env)) as [kp0|].
    2: { intros [= <- <-]. split_and!; [done|done|]. intros kp Hkp. by destruct (Hno kp). }
    pose proof (saveToDisk_touches env ks fs n kp0) as Ht.
    destruct (saveToDisk env ks fs n kp0) as [[[]|e] fs1]; cbn [snd] in Ht; intros [= <- <-]; split_and!;
      try (intros kp Hkp; by destruct (Hno kp)); try done.
    + intros m kp Hm. destruct (decide (m = n)) as [->|Hne]; [by destruct (Hno kp)|].
      eapply (host_stored_frame ks _ fs fs1); [exact Hm|done..|by apply lookup_insert_ne|done].
    + intros kp [= <-]. unfold host_stored. cbn [kh_ks cache_key kst_cache]. by rewrite Hv, lookup_insert_eq.
    + intros m kp Hm. destruct (decide (m = n)) as [->|Hne]; [by destruct (Hno kp)|].
      by eapply (host_stored_frame ks _ fs fs1).
Qed.

#[export] Instance host_keystore_ok : KeystoreIOk KsHost.
Proof.
  split; unfold ks_GetOrGenerate, ks_stored; cbn [host_keystore].
  - intros h n kp h' Hc. apply host_call in Hc as (Hk & Ho & _). split; [by apply Ho|exact Hk].
  - intros h n h' m kp Hc. apply host_call in Hc as (Hk & _ & _). apply Hk.
  - intros h n kp Hs. destruct (host_GetOrGenerate h n) as [o h'] eqn:Hc. apply host_call in Hc as (_ & _ & Hr).
    cbn. by apply Hr.
Qed.
End registry_instance.

Section samples.
Import Toy.

Definition good_env : ks_env :=
  mkKsEnv (Some (replicate 32 Byte.x05)) (Some (replicate 16 Byte.x06)) (Some (replicate 12 Byte.x07)) None WriteOk
    true true true.
(** The disk is full after twenty bytes of the key file. *)
Definition full_disk_env : ks_env :=
  mkKsEnv (ke_seed good_env) (ke_salt good_env) (ke_nonce good_env) None (WriteFails 20) true true true.
Lemma good_env_ok : env_ok good_env.
Proof. split_and!; by intros s [= <-]. Qed.
Lemma full_disk_env_ok : env_ok full_disk_env.
Proof. exact good_env_ok. Qed.

Definition empty_ks : Keystore := mkKeystore "/home/ada/.ensemble" "correct horse" ∅.
Definition empty_fs : filesystem := {[ "/home"%string := Dir ]}.

Example sample_names :
  validateName "node" = true /\ validateName "jeff-2_b" = true /\ validateName "-x" = false /\
  validateName "Node" = false /\ validateName "a/b" = false /\ validateName ".." = false /\ validateName "" = false.
Proof. vm_compute. done. Qed.
Example sample_key_path : keyPath empty_ks "node" = "/home/ada/.ensemble/services/node/identity.key"%string.
Proof. vm_compute. reflexivity. Qed.
Example sample_generate :
  let '(r, ks, fs) := GetOrGenerate good_env empty_ks empty_fs "node" in
  is_ok r = true /\ List_ ks fs = ["node"%string] /\ Has ks fs "node" = true.
Proof. vm_compute. done. Qed.


Lemma failed_save_blocks_name_witness :
  let '(r, ks1, fs1) := GetOrGenerate full_disk_env empty_ks empty_fs "node" in
  r = Err ErrKeyWrite /\ (GetOrGenerate good_env ks1 fs1 "node").1.1 = Err ErrKeyTooShort /\
  Has ks1 fs1 "node" = true.
Proof.
  pose proof (failed_save_blocks_name full_disk_env good_env empty_ks empty_fs "node" 20 eq_refl eq_refl eq_refl
    full_disk_env_ok ltac:(by eexists) ltac:(by eexists) ltac:(by eexists) ltac:(vm_compute; reflexivity)
    ltac:(vm_compute; reflexivity) eq_refl ltac:(vm_compute; lia)) as Hf.
  destruct (GetOrGenerate full_disk_env empty_ks empty_fs "node") as [[r ks1] fs1].
  destruct Hf as (-> & -> & Hg & _ & _ & Hh). rewrite Hg. split; [reflexivity|]. split; [reflexivity|exact Hh].
Defined.
End samples.
