(* ===== verification/ApiAuth.v ===== *)
(** * internal/api/auth.go

    Requests of the gRPC API carry a timestamp signed with the administrator's key. *)

From Stdlib Require Import Ascii.
From S2P Require Import Prelude GoStd Sha256 Crypto Protocol Instances Identity.
Local Open Scope go_scope.

(** ** encoding/hex *)

Definition hex_digit (z : Z) : ascii := ascii_of_nat (Z.to_nat (if z <? 10 then 48 + z else 87 + z)).

Definition from_hex (c : ascii) : option Z :=
  let n := Z.of_nat (nat_of_ascii c) in
  if (48 <=? n) && (n <=? 57) then Some (n - 48)
  else if (97 <=? n) && (n <=? 102) then Some (n - 87)
  else if (65 <=? n) && (n <=? 70) then Some (n - 55)
  else None.

Fixpoint hex_encode (b : bytes) : string :=
  match b with
  | [] => EmptyString
  | x :: b => String (hex_digit (b2z x / 16)) (String (hex_digit (b2z x mod 16)) (hex_encode b))
  end.

Fixpoint hex_decode (s : string) : option bytes :=
  match s with
  | EmptyString => Some []
  | String a (String b s) =>
      hi ← from_hex a; lo ← from_hex b; rest ← hex_decode s; Some (z2b (hi * 16 + lo) :: rest)
  | String _ EmptyString => None
  end.

(** ** strconv, base 10 *)

Fixpoint digits (fuel : nat) (n : Z) : list ascii :=
  match fuel with
  | O => []
  | S fuel => if n <? 10 then [hex_digit n] else digits fuel (n / 10) ++ [hex_digit (n mod 10)]
  end.

(** Twenty digits are enough for 64 bits. *)
Definition FormatInt (z : Z) : string :=
  String.string_of_list_ascii (if z <? 0 then "-"%char :: digits 20 (- z) else digits 20 z).

Definition digit_value (c : ascii) : option Z :=
  let n := Z.of_nat (nat_of_ascii c) in if (48 <=? n) && (n <=? 57) then Some (n - 48) else None.

Definition parse_digits (l : list ascii) : option Z :=
  fold_left (fun acc c => v ← acc; d ← digit_value c; Some (v * 10 + d)) l (Some 0).

Definition split_sign (l : list ascii) : bool * list ascii :=
  match l with
  | [] => (false, [])
  | c :: ds => if bool_decide (c = "-"%char) then (true, ds)
               else if bool_decide (c = "+"%char) then (false, ds) else (false, l)
  end.

(** [strconv.ParseInt(s, 10, 64)]: an optional sign and at least one digit, in range. *)
Definition ParseInt (s : string) : option Z :=
  let '(neg, ds) := split_sign (String.list_ascii_of_string s) in
  match ds with
  | [] => None
  | _ => v ← parse_digits ds;
      let z := if neg : bool then - v else v in
      if (- 2 ^ 63 <=? z) && (z <? 2 ^ 63) then Some z else None
  end.

(** ** auth.go *)

(** src: internal/api/auth.go 16-23 headerPubKey, headerTimestamp, headerSignature, authFreshness *)
Definition headerPubKey : string := "x-auth-pubkey".
Definition headerTimestamp : string := "x-auth-timestamp".
Definition headerSignature : string := "x-auth-signature".
Definition authFreshness : Z := 5 * GoTime.Minute.

(** [metadata.MD] with its keys in lower case. *)
Abbreviation metadata := (gmap string (list string)).

(** src: internal/api/auth.go 95-101 mdGet *)
Definition mdGet (md : metadata) (key : string) : string :=
  match md !! key with Some (v :: _) => v | _ => EmptyString end.

Inductive auth_err :=
| ErrMissingMetadata | ErrMissingHeaders | ErrInvalidPublicKey | ErrUnauthorizedKey | ErrInvalidTimestamp
| ErrTimestampTooOld | ErrSignatureEncoding | ErrInvalidSignature.

(** Negation on [int64] wraps. *)
(** src: internal/api/auth.go 75-78 verifyAuth *)
Definition auth_age (now ts : Z) : Z :=
  let age := GoTime.Sub now (GoTime.Unix ts) in
  if age <? 0 then i64 (- age) else age.

Section auth.
Context `{Ed25519}.

(** src: internal/api/auth.go 47-93 verifyAuth *)
Definition verifyAuth (md : option metadata) (adminPubKey : bytes) (now : Z) : result auth_err unit :=
  match md with
  | None => Err ErrMissingMetadata
  | Some md =>
      let pubHex := mdGet md headerPubKey in
      let tsStr := mdGet md headerTimestamp in
      let sigHex := mdGet md headerSignature in
      guard negb (bool_decide (pubHex = "" \/ tsStr = "" \/ sigHex = "")%string) else ErrMissingHeaders;
      pubBytes <-? of_option ErrInvalidPublicKey (hex_decode pubHex);
      guard (length pubBytes =? PublicKeySize)%nat else ErrInvalidPublicKey;
      guard bytes_eqb pubBytes adminPubKey else ErrUnauthorizedKey;
      ts <-? of_option ErrInvalidTimestamp (ParseInt tsStr);
      guard negb (authFreshness <? auth_age now ts) else ErrTimestampTooOld;
      sig <-? of_option ErrSignatureEncoding (hex_decode sigHex);
      guard ed_verify adminPubKey (String.list_byte_of_string tsStr) sig else ErrInvalidSignature;
      Ok tt
  end.

(** The handler runs only after the check; [R] is what it returns. *)
(** src: internal/api/auth.go 27-45 AdminKeyUnaryInterceptor, AdminKeyStreamInterceptor *)
Definition interceptor {R} (adminPubKey : bytes) (md : option metadata) (now : Z) (handler : R) :
    result auth_err R :=
  _ <-? verifyAuth md adminPubKey now;
  Ok handler.

(** [now] is the client's clock. *)
(** src: internal/api/auth.go 109-119 SignedCredentials.GetRequestMetadata *)
Definition GetRequestMetadata (privKey : bytes) (now : Z) : gmap string string :=
  let ts := FormatInt (now / GoTime.Second) in
  let sig := ed_sign privKey (String.list_byte_of_string ts) in
  {[ headerPubKey := hex_encode (priv_Public privKey); headerTimestamp := ts; headerSignature := hex_encode sig ]}.
End auth.

(** gRPC delivers each header as the one value of its key. *)
Definition delivered (headers : gmap string string) : metadata := (fun v => [v]) <$> headers.

(** ** Round trips of the encodings *)

Lemma from_hex_digit z : 0 <= z < 16 -> from_hex (hex_digit z) = Some z.
Proof.
  intros Hz. assert (forall n : nat, (n < 16)%nat -> from_hex (hex_digit (Z.of_nat n)) = Some (Z.of_nat n)) as Hall.
  { intros n Hn. do 16 (destruct n as [|n]; [reflexivity|]). lia. }
  rewrite <- (Z2Nat.id z) by lia. apply Hall. lia.
Qed.

Lemma hex_decode_encode b : hex_decode (hex_encode b) = Some b.
Proof.
  induction b as [|x b IH]; [done|]. cbn [hex_encode hex_decode]. pose proof (b2z_range x).
  rewrite (from_hex_digit (b2z x / 16)) by (split; [apply Z.div_pos; lia|apply Z.div_lt_upper_bound; lia]).
  rewrite (from_hex_digit (b2z x mod 16)) by (apply Z.mod_pos_bound; lia).
  cbn [mbind option_bind]. rewrite IH. cbn [mbind option_bind].
  replace (b2z x / 16 * 16 + b2z x mod 16) with (b2z x) by (rewrite (Z.div_mod (b2z x) 16) at 1; lia).
  by rewrite z2b_b2z.
Qed.

Lemma digit_value_digit z : 0 <= z < 10 -> digit_value (hex_digit z) = Some z.
Proof.
  intros Hz. assert (forall n : nat, (n < 10)%nat -> digit_value (hex_digit (Z.of_nat n)) = Some (Z.of_nat n)) as Hall.
  { intros n Hn. do 10 (destruct n as [|n]; [reflexivity|]). lia. }
  rewrite <- (Z2Nat.id z) by lia. apply Hall. lia.
Qed.

Lemma parse_digits_digits fuel n : 0 <= n < 10 ^ Z.of_nat fuel -> parse_digits (digits fuel n) = Some n.
Proof.
  revert n. induction fuel as [|fuel IH]; intros n Hn; [simpl in Hn; by replace n with 0 by lia|].
  rewrite Nat2Z.inj_succ, Z.pow_succ_r in Hn by lia. cbn [digits].
  destruct (Z.ltb_spec n 10).
  - unfold parse_digits. cbn [fold_left mbind option_bind]. rewrite digit_value_digit by lia. reflexivity.
  - unfold parse_digits. rewrite fold_left_app. fold (parse_digits (digits fuel (n / 10))).
    pose proof (Z.mod_pos_bound n 10 ltac:(lia)).
    rewrite IH by (split; [apply Z.div_pos; lia|apply Z.div_lt_upper_bound; lia]).
    cbn [fold_left mbind option_bind]. rewrite digit_value_digit by done. cbn. f_equal.
    rewrite (Z.div_mod n 10) at 3 by done. lia.
Qed.

Lemma digits_head fuel n : (0 < fuel)%nat -> 0 <= n ->
  exists d ds, digits fuel n = hex_digit d :: ds /\ 0 <= d < 10.
Proof.
  revert n. induction fuel as [|fuel IH]; intros n Hf Hn; [lia|]. cbn [digits].
  destruct (Z.ltb_spec n 10); [eexists _, _; split; [done|lia]|].
  destruct fuel as [|fuel].
  { exists (n mod 10), []. split; [done|]. apply Z.mod_pos_bound. lia. }
  destruct (IH (n / 10)) as (d & ds & -> & Hd); [lia|apply Z.div_pos; lia|]. by eexists _, _.
Qed.

Lemma int64_range z : - 2 ^ 63 <= z < 2 ^ 63 -> (- 2 ^ 63 <=? z) && (z <? 2 ^ 63) = true.
Proof. intros [H1 H2]. apply andb_true_intro. by rewrite Z.leb_le, Z.ltb_lt. Qed.

Lemma ParseInt_FormatInt z : in_s 64 z -> ParseInt (FormatInt z) = Some z.
Proof.
  unfold in_s. change (2 ^ (64 - 1)) with (2 ^ 63). intros Hz. unfold ParseInt, FormatInt.
  rewrite String.list_ascii_of_string_of_list_ascii.
  assert (2 ^ 63 < 10 ^ Z.of_nat 20) as Hbig by done.
  destruct (Z.ltb_spec z 0).
  - unfold split_sign. rewrite bool_decide_eq_true_2 by done. rewrite parse_digits_digits by lia. destruct (digits_head 20 (- z)) as (d & ds & -> & _); [lia..|].
    cbn [mbind option_bind]. rewrite Z.opp_involutive.
    by rewrite (int64_range z Hz).
  - pose proof (parse_digits_digits 20 z ltac:(lia)) as Hp.
    destruct (digits_head 20 z) as (d & ds & Hd & Hr); [lia..|]. rewrite Hd in *.
    assert (hex_digit d <> "-"%char /\ hex_digit d <> "+"%char) as [Hm Hpl].
    { split; intros Heq; apply (f_equal digit_value) in Heq; rewrite digit_value_digit in Heq by done; done. }
    unfold split_sign. rewrite !bool_decide_eq_false_2 by done.
    rewrite Hp. cbn [mbind option_bind].
    by rewrite (int64_range z Hz).
Qed.

(** ** What is accepted *)

(** The age is within the bound, or the difference left the range of a duration. *)
Lemma auth_age_fresh now ts :
  auth_age now ts <= authFreshness <->
  Z.abs (now - GoTime.Unix ts) <= authFreshness \/ now - GoTime.Unix ts <= - 2 ^ 63.
Proof.
  unfold auth_age, authFreshness, GoTime.Minute, GoTime.Second, GoTime.Millisecond.
  generalize (GoTime.Unix ts) as u. intros u. set (d := now - u).
  assert (GoTime.Sub now u = Z.max (- 2 ^ 63) (Z.min (2 ^ 63 - 1) d)) as -> by done.
  destruct (Z.ltb_spec (Z.max (- 2 ^ 63) (Z.min (2 ^ 63 - 1) d)) 0) as [Hneg|Hpos].
  - destruct (Z.le_gt_cases d (- 2 ^ 63)).
    + rewrite Z.max_l by lia. change (i64 (- - 2 ^ 63)) with (- 2 ^ 63). lia.
    + rewrite Z.min_r, Z.max_r by lia. rewrite (wrap_s_small 64) by (lia || (unfold in_s; simpl; lia)). lia.
  - lia.
Qed.

Section claims.
Context `{Ed25519Ok}.

Lemma Unix_small ts : 0 <= ts < 2 ^ 62 -> GoTime.Unix ts = ts * GoTime.Second.
Proof.
  intros Hts. unfold GoTime.Unix. rewrite (wrap_s_small 64); [f_equal; lia|lia|].
  unfold in_s, GoTime.unixToInternal. change (2 ^ (64 - 1)) with (2 * 2 ^ 62).
  assert (62135596800 < 2 ^ 62) by done. lia.
Qed.

Lemma verifyAuth_iff admin now md : verifyAuth (Some md) admin now = Ok tt <->
    exists ts sig,
      hex_decode (mdGet md headerPubKey) = Some admin /\ length admin = PublicKeySize /\
      ParseInt (mdGet md headerTimestamp) = Some ts /\
      mdGet md headerSignature <> ""%string /\ hex_decode (mdGet md headerSignature) = Some sig /\
      ed_verify admin (String.list_byte_of_string (mdGet md headerTimestamp)) sig = true /\
      (Z.abs (now - GoTime.Unix ts) <= authFreshness \/ now - GoTime.Unix ts <= - 2 ^ 63).
Proof.
  unfold verifyAuth. split.
  - case_bool_decide as Hempty; cbn [negb]; [done|].
    destruct (hex_decode (mdGet md headerPubKey)) as [pub|]; [|done]. cbn [of_option rbind].
    destruct (Nat.eqb_spec (length pub) PublicKeySize); [|done].
    destruct (bytes_eqb pub admin) eqn:Hp; [|done]. apply bytes_eqb_eq in Hp as ->.
    destruct (ParseInt _) as [ts|]; [|done]. cbn [of_option rbind].
    destruct (Z.ltb_spec authFreshness (auth_age now ts)); [done|]. cbn [negb].
    destruct (hex_decode (mdGet md headerSignature)) as [sig|]; [|done]. cbn [of_option rbind].
    destruct (ed_verify _ _ _) eqn:Hv; [|done]. intros _. exists ts, sig. split_and!; try done.
    + tauto.
    + by apply auth_age_fresh.
  - intros (ts & sig & Hp & Hl & Hts & Hs0 & Hs & Hv & Hfresh).
    rewrite bool_decide_eq_false_2.
    2: { intros [Hb|[Hb|Hb]]; [rewrite Hb in Hp|rewrite Hb in Hts|by destruct Hs0]; [|done].
         injection Hp as <-. done. }
    cbn [negb]. rewrite Hp. cbn [of_option rbind]. rewrite Hl, Nat.eqb_refl, bytes_eqb_refl, Hts.
    cbn [of_option rbind]. apply auth_age_fresh in Hfresh.
    destruct (Z.ltb_spec authFreshness (auth_age now ts)); [lia|]. cbn [negb].
    rewrite Hs. cbn [of_option rbind]. by rewrite Hv.
Qed.

Lemma credentials_accepted admin now priv clock : genuine_priv priv -> priv_Public priv = admin ->
  0 <= clock / GoTime.Second < 2 ^ 62 -> clock <= now <= clock + authFreshness - GoTime.Second ->
  (forall m, ed_sign priv m <> []) ->
  verifyAuth (Some (delivered (GetRequestMetadata priv clock))) admin now = Ok tt.
Proof.
  intros Hg Hpub Hclock Hnow Hsig. apply verifyAuth_iff.
  exists (clock / GoTime.Second), (ed_sign priv (String.list_byte_of_string (FormatInt (clock / GoTime.Second)))).
  assert (forall k v, GetRequestMetadata priv clock !! k = Some v ->
    mdGet (delivered (GetRequestMetadata priv clock)) k = v) as Hget.
  { intros k v Hk. unfold mdGet, delivered. by rewrite lookup_fmap, Hk. }
  rewrite (Hget headerPubKey _ eq_refl), (Hget headerTimestamp _ eq_refl), (Hget headerSignature _ eq_refl).
  rewrite !hex_decode_encode, <- Hpub.
  assert (forall b, b <> [] -> hex_encode b <> ""%string) as Hne by (by intros []).
  split_and!; [done| | |by apply Hne|done| |].
  - destruct Hg as (seed & Hs & ->). rewrite NewKeyFromSeed_Public by done. apply length_ed_pub.
  - apply ParseInt_FormatInt. unfold in_s. change (2 ^ (64 - 1)) with (2 * 2 ^ 62). lia.
  - by apply ed_verify_sign.
  - left. rewrite Unix_small by done. pose proof (Z.div_mod clock GoTime.Second ltac:(done)).
    pose proof (Z.mod_pos_bound clock GoTime.Second eq_refl). lia.
Qed.

(** C14. The API's authentication, exactly: a request is accepted if and only if it names
    the administrator's key, its timestamp parses and carries the administrator's
    signature, and the timestamp is within five minutes of the clock - or so far in the
    future that the difference overflows a duration (some 292 years); the credentials a
    client signs are accepted within five minutes of its clock. *)
Theorem auth_contract admin now :
  (forall md, verifyAuth (Some md) admin now = Ok tt <->
    exists ts sig,
      hex_decode (mdGet md headerPubKey) = Some admin /\ length admin = PublicKeySize /\
      ParseInt (mdGet md headerTimestamp) = Some ts /\
      mdGet md headerSignature <> ""%string /\ hex_decode (mdGet md headerSignature) = Some sig /\
      ed_verify admin (String.list_byte_of_string (mdGet md headerTimestamp)) sig = true /\
      (Z.abs (now - GoTime.Unix ts) <= authFreshness \/ now - GoTime.Unix ts <= - 2 ^ 63)) /\
  verifyAuth None admin now = Err ErrMissingMetadata /\
  (forall priv clock, genuine_priv priv -> priv_Public priv = admin ->
     0 <= clock / GoTime.Second < 2 ^ 62 -> clock <= now <= clock + authFreshness - GoTime.Second ->
     (forall m, ed_sign priv m <> []) ->
     verifyAuth (Some (delivered (GetRequestMetadata priv clock))) admin now = Ok tt).
Proof. split; [intros md; apply verifyAuth_iff|split; [done|intros priv clock; apply credentials_accepted]]. Qed.
End claims.

Section samples.
Import Toy.

Definition admin_keypair : Keypair := sample_keypair 9.
Definition sample_clock : Z := 1700000000 * GoTime.Second + 5.

Example formats : FormatInt 1700000000 = "1700000000"%string /\ FormatInt (-42) = "-42"%string /\
  ParseInt "+7" = Some 7 /\ ParseInt "9223372036854775808" = None /\ ParseInt "1_0" = None /\
  hex_encode [z2b 255; z2b 10] = "ff0a"%string /\ hex_decode "FF0a" = Some [z2b 255; z2b 10].
Proof. vm_compute. done. Qed.

Lemma auth_contract_witness :
  verifyAuth (Some (delivered (GetRequestMetadata (kp_priv admin_keypair) sample_clock)))
    (kp_pub admin_keypair) (sample_clock + 60 * GoTime.Second) = Ok tt.
Proof.
  apply (proj2 (proj2 (auth_contract (kp_pub admin_keypair) (sample_clock + 60 * GoTime.Second)))
    (kp_priv admin_keypair) sample_clock (proj1 (sample_keypair_genuine 9))
    (eq_sym (proj2 (sample_keypair_genuine 9)))); [split; vm_compute; done|split; vm_compute; done|].
  intros m Hm. apply (f_equal length) in Hm. discriminate Hm.
Defined.
End samples.
