(* ===== verification/Float.v ===== *)
(** * float32 and float64

    A number is a rational; every operation rounds it to the nearest number of 24 or 53 bits, ties to
    even.  The values of the program are between 2^-64 and 2^100, or zero, so that neither overflow nor
    subnormal numbers occur. *)

From Stdlib Require Import QArith Qround Lqa.
From S2P Require Import Prelude GoStd Sha256 Crypto Protocol Instances ApiAuth.
Open Scope Z_scope.

(** ** Rounding to a number of bits *)

(** The integer nearest to [n / d], ties to even. *)
Definition half_even (n d : Z) : Z :=
  let q := n / d in
  match 2 * (n mod d) ?= d with
  | Lt => q
  | Gt => q + 1
  | Eq => if Z.even q then q else q + 1
  end.

(** [m * 2^e] *)
Definition scale (m e : Z) : Q := if e <=? 0 then Qmake m (Z.to_pos (2 ^ (- e))) else inject_Z (m * 2 ^ e).

(** The nearest number of [p] bits to [n / d], for positive [n]. *)
Definition round_pos (p n d : Z) : Q :=
  let at_exp e := if e <=? 0 then (n * 2 ^ (- e), d) else (n, d * 2 ^ e) in
  let e0 := Z.log2 n - Z.log2 d - p in
  let e := if (at_exp e0).1 <? 2 ^ p * (at_exp e0).2 then e0 else e0 + 1 in
  scale (half_even (at_exp e).1 (at_exp e).2) e.

Definition fl (p : Z) (x : Q) : Q :=
  match Qnum x with
  | Z0 => 0
  | Zpos n => round_pos p (Zpos n) (Zpos (Qden x))
  | Zneg n => - round_pos p (Zpos n) (Zpos (Qden x))
  end%Q.

Definition f32 : Q -> Q := fl 24.
Definition f64 : Q -> Q := fl 53.

Definition float64 (z : Z) : Q := f64 (inject_Z z).

(** [int64(x)]: towards zero; out of range as on amd64. *)
Definition int64_of (x : Q) : Z :=
  let z := Z.quot (Qnum x) (Zpos (Qden x)) in if (- 2 ^ 63 <=? z) && (z <? 2 ^ 63) then z else - 2 ^ 63.

(** [d.Seconds()], [d.Minutes()] and [d.Hours()]. *)
Definition in_units (unit d : Z) : Q :=
  f64 (float64 (Z.quot d unit) + f64 (float64 (Z.rem d unit) / float64 unit))%Q.

(** [%.0f] and [%.1f] of a number that is not negative. *)
Definition format0 (x : Q) : string := FormatInt (half_even (Qnum x) (Zpos (Qden x))).
Definition format1 (x : Q) : string :=
  let t := half_even (10 * Qnum x) (Zpos (Qden x)) in (FormatInt (t / 10) +:+ "." +:+ FormatInt (t mod 10))%string.

(** ** Bounds *)

Lemma half_even_le n d k : 0 < d -> n <= k * d -> half_even n d <= k.
Proof.
  intros Hd Hn. unfold half_even. pose proof (Z.div_mod n d ltac:(lia)). pose proof (Z.mod_pos_bound n d Hd).
  assert (n / d <= k) by (apply Z.div_le_upper_bound; lia).
  destruct (Z.compare_spec (2 * (n mod d)) d); [destruct (Z.even _)|..]; try lia; nia.
Qed.

Lemma half_even_ge n d k : 0 < d -> k * d <= n -> k <= half_even n d.
Proof.
  intros Hd Hn. unfold half_even. assert (k <= n / d) by (apply Z.div_le_lower_bound; lia).
  destruct (_ ?= _); [destruct (Z.even _)|..]; lia.
Qed.

Lemma half_even_exact k d : 0 < d -> half_even (k * d) d = k.
Proof. intros Hd. pose proof (half_even_le (k * d) d k Hd). pose proof (half_even_ge (k * d) d k Hd). lia. Qed.

(** The exponent, and the mantissa at it. *)
Lemma round_pos_at p n d : exists e, (e = Z.log2 n - Z.log2 d - p \/ e = Z.log2 n - Z.log2 d - p + 1) /\
  round_pos p n d = if e <=? 0 then Qmake (half_even (n * 2 ^ (- e)) d) (Z.to_pos (2 ^ (- e))) else inject_Z (half_even n (d * 2 ^ e) * 2 ^ e).
Proof.
  unfold round_pos, scale. cbn zeta. set (e0 := Z.log2 n - Z.log2 d - p).
  exists (if (if e0 <=? 0 then (n * 2 ^ (- e0), d) else (n, d * 2 ^ e0)).1 <? 2 ^ p * (if e0 <=? 0 then (n * 2 ^ (- e0), d) else (n, d * 2 ^ e0)).2
          then e0 else e0 + 1).
  destruct (_ <? _); (split; [lia|]); by destruct (_ <=? 0).
Qed.

(** A number of at most 52 bits bounds what is rounded below it. *)
Lemma round_pos_le n d k : 0 < n -> 0 < d -> 0 < k <= 2 ^ 52 -> n <= k * d -> (0 <= round_pos 53 n d <= inject_Z k)%Q.
Proof.
  intros Hn Hd Hk Hnk. destruct (round_pos_at 53 n d) as (e & He & ->).
  assert (Z.log2 n - Z.log2 d - 53 <= -1) as He0.
  { pose proof (Z.log2_spec n Hn). pose proof (Z.log2_spec d Hd). pose proof (Z.log2_nonneg n). pose proof (Z.log2_nonneg d).
    destruct (Z.le_gt_cases (Z.log2 n - Z.log2 d - 53) (-1)) as [|Hbig]; [done|exfalso].
    assert (2 ^ (53 + Z.log2 d) <= 2 ^ Z.log2 n) by (apply Z.pow_le_mono_r; lia). rewrite Z.pow_add_r in * by lia.
    rewrite Z.pow_succ_r in * by lia. nia. }
  rewrite (proj2 (Z.leb_le e 0)) by lia. assert (0 < 2 ^ (- e)) as Hp by (apply Z.pow_pos_nonneg; lia).
  assert (half_even (n * 2 ^ (- e)) d <= k * 2 ^ (- e)) by (apply half_even_le; nia).
  assert (0 <= half_even (n * 2 ^ (- e)) d) by (apply half_even_ge; nia).
  unfold Qle, inject_Z. cbn [Qnum Qden]. rewrite Z2Pos.id by done. lia.
Qed.

Lemma f64_le x k : (0 <= x)%Q -> 0 < k <= 2 ^ 52 -> (x <= inject_Z k)%Q -> (0 <= f64 x <= inject_Z k)%Q.
Proof.
  intros H0 Hk Hx. unfold f64, fl, Qle, inject_Z in *. cbn [Qnum Qden] in *. destruct (Qnum x) as [|n|n] eqn:Hn; [cbn; lia| |lia].
  pose proof (round_pos_le (Zpos n) (Zpos (Qden x)) k) as Hr. unfold Qle, inject_Z in Hr. cbn [Qnum Qden] in Hr. apply Hr; lia.
Qed.

(** Rounding keeps the sign. *)
Lemma fl_nonneg p x : (0 <= x)%Q -> (0 <= fl p x)%Q.
Proof.
  unfold fl, Qle. cbn [Qnum Qden]. destruct (Qnum x) as [|n|n]; [cbn; lia| |lia]. intros _.
  destruct (round_pos_at p (Zpos n) (Zpos (Qden x))) as (e & _ & ->). destruct (Z.leb_spec e 0); cbn [inject_Z Qnum Qden].
  - assert (0 < 2 ^ (- e)) by (apply Z.pow_pos_nonneg; lia).
    assert (0 <= half_even (Zpos n * 2 ^ (- e)) (Zpos (Qden x))) by (apply half_even_ge; lia). lia.
  - assert (0 < 2 ^ e) by (apply Z.pow_pos_nonneg; lia).
    assert (0 <= half_even (Zpos n) (Zpos (Qden x) * 2 ^ e)) by (apply half_even_ge; lia). nia.
Qed.

Lemma f64_nonneg x : (0 <= x)%Q -> (0 <= f64 x)%Q.
Proof. apply fl_nonneg. Qed.

Lemma f64_exact k : 0 < k <= 2 ^ 52 -> (f64 (inject_Z k) == inject_Z k)%Q.
Proof.
  intros Hk. unfold f64, fl, inject_Z. cbn [Qnum Qden]. destruct k as [|p|]; [lia| |lia].
  destruct (round_pos_at 53 (Zpos p) 1) as (e & He & ->). change (Z.log2 1) with 0 in He.
  assert (Z.log2 (Zpos p) <= 52) by (replace 52 with (Z.log2 (2 ^ 52)) by reflexivity; apply Z.log2_le_mono; lia).
  rewrite (proj2 (Z.leb_le e 0)) by lia. assert (0 < 2 ^ (- e)) by (apply Z.pow_pos_nonneg; lia).
  replace (Zpos p * 2 ^ (- e)) with (Zpos p * 2 ^ (- e) * 1) by lia. rewrite half_even_exact by lia.
  unfold Qeq. cbn [Qnum Qden]. rewrite Z2Pos.id by done. lia.
Qed.

Lemma f64_ge x k : 0 < k <= 2 ^ 52 -> (inject_Z k <= x)%Q -> (inject_Z k <= f64 x)%Q.
Proof.
  intros Hk Hx. unfold f64, fl. unfold Qle, inject_Z in Hx. cbn [Qnum Qden] in Hx. destruct (Qnum x) as [|n|n]; [lia| |lia].
  destruct (round_pos_at 53 (Zpos n) (Zpos (Qden x))) as (e & He & ->). set (d := Zpos (Qden x)) in *.
  pose proof (Z.log2_spec (Zpos n) ltac:(lia)) as Hn. pose proof (Z.log2_spec d ltac:(lia)) as Hd.
  pose proof (Z.log2_nonneg (Zpos n)). pose proof (Z.log2_nonneg d).
  destruct (Z.leb_spec e 0) as [Hle|Hgt]; unfold Qle, inject_Z; cbn [Qnum Qden].
  - assert (0 < 2 ^ (- e)) by (apply Z.pow_pos_nonneg; lia). rewrite Z2Pos.id by done.
    assert (k * 2 ^ (- e) <= half_even (Zpos n * 2 ^ (- e)) d) by (apply half_even_ge; nia). lia.
  - assert (0 < 2 ^ e) by (apply Z.pow_pos_nonneg; lia). assert (2 ^ 51 <= half_even (Zpos n) (d * 2 ^ e)) as Hm.
    { apply half_even_ge; [nia|]. assert (2 ^ 51 * 2 ^ Z.succ (Z.log2 d) * 2 ^ e <= 2 ^ Z.log2 (Zpos n)) as Hp.
      { rewrite <- !Z.pow_add_r by lia. apply Z.pow_le_mono_r; lia. }
      assert (2 ^ 51 * d * 2 ^ e <= 2 ^ 51 * 2 ^ Z.succ (Z.log2 d) * 2 ^ e) by nia. nia. }
    assert (2 <= 2 ^ e) by (replace e with (e - 1 + 1) by lia; rewrite Z.pow_add_r by lia; assert (0 < 2 ^ (e - 1)) by (apply Z.pow_pos_nonneg; lia); lia).
    nia.
Qed.

Lemma f64_eq x k : 0 < k <= 2 ^ 52 -> (x == inject_Z k)%Q -> (f64 x == inject_Z k)%Q.
Proof.
  intros Hk Hx. assert (0 <= x)%Q by (rewrite Hx; unfold Qle, inject_Z; cbn; lia).
  pose proof (f64_le x k ltac:(done) Hk ltac:(rewrite Hx; apply Qle_refl)). pose proof (f64_ge x k Hk ltac:(rewrite Hx; apply Qle_refl)). lra.
Qed.

Lemma f64_nonpos x : (x <= 0)%Q -> (f64 x <= 0)%Q.
Proof.
  intros Hx. pose proof (f64_nonneg (Qopp x)) as Hn. unfold f64, fl in *. unfold Qle in Hx. cbn [Qnum Qden] in Hx.
  destruct (Qnum x) as [|n|n] eqn:Hq; [apply Qle_refl|exfalso; cbn in Hx; lia|]. destruct x as [xn xd]. cbn [Qnum Qden Qopp] in *. subst xn. cbn [Z.opp] in Hn.
  assert (0 <= round_pos 53 (Zpos n) (Zpos xd))%Q by (apply Hn; unfold Qle; cbn; lia). lra.
Qed.

Lemma float64_small z : 0 <= z <= 2 ^ 52 -> (float64 z == inject_Z z)%Q.
Proof. intros Hz. destruct (Z.eq_dec z 0) as [->|]; [reflexivity|]. apply f64_exact. lia. Qed.

Lemma float64_nonneg z : 0 <= z -> (0 <= float64 z)%Q.
Proof. intros Hz. apply f64_nonneg. unfold Qle, inject_Z. cbn. lia. Qed.
