(* ===== verification/Progress.v ===== *)
(** * internal/filetransfer/progress.go

    The counters of a transfer and what is shown of them. *)

From Stdlib Require Import QArith Qround Lqa.
From S2P Require Import Prelude GoStd Sha256 Crypto Protocol Instances ApiAuth Float.
Open Scope Z_scope.

(** ** progress.go *)

(** src: internal/filetransfer/progress.go 19-22 sample *)
Record sample := mkSample { sm_bytes : Z; sm_time : Z }.

(** src: internal/filetransfer/progress.go 10-17 Progress *)
Record Progress := mkProgress {
  pg_totalBytes : Z; pg_sentBytes : Z; pg_startTime : Z; pg_samples : list sample; pg_windowSize : nat }.

(** src: internal/filetransfer/progress.go 24-24 defaultWindowSize *)
Definition defaultWindowSize : nat := 20.

(** src: internal/filetransfer/progress.go 27-33 NewProgress *)
Definition NewProgress (totalBytes now : Z) : Progress := mkProgress totalBytes 0 now [] defaultWindowSize.

(** src: internal/filetransfer/progress.go 36-49 Progress.Update *)
Definition Update (p : Progress) (bytes now : Z) : Progress :=
  let samples := pg_samples p ++ [mkSample bytes now] in
  let samples := if (pg_windowSize p <? length samples)%nat then drop (length samples - pg_windowSize p) samples else samples in
  mkProgress (pg_totalBytes p) (u64 (pg_sentBytes p + bytes)) (pg_startTime p) samples (pg_windowSize p).

(** src: internal/filetransfer/progress.go 52-60 Progress.Percent *)
Definition Percent (p : Progress) : Q :=
  if pg_totalBytes p =? 0 then 100
  else f64 (f64 (float64 (pg_sentBytes p) / float64 (pg_totalBytes p)) * 100)%Q.

(** src: internal/filetransfer/progress.go 70-89 Progress.bytesPerSecondLocked *)
Definition bytesPerSecondLocked (p : Progress) : Q :=
  match pg_samples p with
  | first :: ((_ :: _) as rest) =>
      let elapsed := in_units GoTime.Second (GoTime.Sub (default (sm_time first) (sm_time <$> last rest)) (sm_time first)) in
      if Qle_bool elapsed 0 then 0
      else f64 (float64 (fold_left (fun t s => u64 (t + sm_bytes s)%Z) rest 0%Z) / elapsed)
  | _ => 0
  end%Q.

(** src: internal/filetransfer/progress.go 63-68 Progress.BytesPerSecond *)
Definition BytesPerSecond (p : Progress) : Q := bytesPerSecondLocked p.

(** [float64(total) - float64(sent)] *)
(** src: internal/filetransfer/progress.go 101-101 Progress.ETA *)
Definition remaining (p : Progress) : Q := f64 (float64 (pg_totalBytes p) - float64 (pg_sentBytes p))%Q.

(** src: internal/filetransfer/progress.go 106-106 Progress.ETA *)
Definition seconds_left (p : Progress) : Z := i64 (int64_of (f64 (remaining p / bytesPerSecondLocked p))%Q * GoTime.Second).

(** src: internal/filetransfer/progress.go 92-107 Progress.ETA *)
Definition ETA (p : Progress) : Z :=
  if Qle_bool (bytesPerSecondLocked p) 0 then 0
  else if Qle_bool (remaining p) 0 then 0
  else seconds_left p.

(** src: internal/filetransfer/progress.go 110-114 Progress.SentBytes *)
Definition SentBytes (p : Progress) : Z := pg_sentBytes p.
(** src: internal/filetransfer/progress.go 117-119 Progress.TotalBytes *)
Definition TotalBytes (p : Progress) : Z := pg_totalBytes p.
(** src: internal/filetransfer/progress.go 122-126 Progress.Complete *)
Definition Complete (p : Progress) : bool := pg_totalBytes p <=? pg_sentBytes p.

(** src: internal/filetransfer/progress.go 154-165 formatSpeed *)
Definition formatSpeed (s : Q) : string :=
  (if Qle_bool 1073741824 s then format1 (f64 (s / 1073741824)) +:+ " GB/s"
   else if Qle_bool 1048576 s then format1 (f64 (s / 1048576)) +:+ " MB/s"
   else if Qle_bool 1024 s then format1 (f64 (s / 1024)) +:+ " KB/s"
   else format0 s +:+ " B/s")%string.

(** src: internal/filetransfer/progress.go 167-175 formatDuration *)
Definition formatDuration (d : Z) : string :=
  if d <? GoTime.Minute then (FormatInt (int64_of (in_units GoTime.Second d)) +:+ "s")%string
  else if d <? GoTime.Hour then (FormatInt (int64_of (in_units GoTime.Minute d)) +:+ "m")%string
  else (FormatInt (int64_of (in_units GoTime.Hour d)) +:+ "h" +:+
        FormatInt (Z.rem (int64_of (in_units GoTime.Minute d)) 60) +:+ "m")%string.

(** src: internal/filetransfer/progress.go 129-152 Progress.String *)
Definition String_ (p : Progress) : string :=
  let pct := if 0 <? pg_totalBytes p then f64 (f64 (float64 (pg_sentBytes p) / float64 (pg_totalBytes p)) * 100)%Q else 0%Q in
  let speed := bytesPerSecondLocked p in
  let speedStr := formatSpeed speed in
  if pg_totalBytes p <=? pg_sentBytes p then ("100% (" +:+ speedStr +:+ ")")%string
  else if negb (Qle_bool speed 0)
  then (format0 pct +:+ "% (" +:+ speedStr +:+ ", ~" +:+ formatDuration (seconds_left p) +:+ " left)")%string
  else (format0 pct +:+ "% (" +:+ speedStr +:+ ")")%string.

(** ** The counters *)

Definition updates (p : Progress) (ups : list (Z * Z)) : Progress := fold_left (fun p '(b, t) => Update p b t) ups p.

(** The last [n] elements. *)
Definition last_n {A} (n : nat) (l : list A) : list A := drop (length l - n) l.

Lemma updates_spec total start ups :
  let p := updates (NewProgress total start) ups in
  pg_totalBytes p = total /\ pg_windowSize p = defaultWindowSize /\
  pg_sentBytes p = u64 (fold_right Z.add 0 ups.*1) /\
  pg_samples p = last_n defaultWindowSize ((fun '(b, t) => mkSample b t) <$> ups).
Proof.
  induction ups as [|[b t] ups IH] using rev_ind; [done|]. unfold updates in *. rewrite fold_left_app. cbn [fold_left]. cbn zeta in IH.
  set (p := fold_left _ _ _) in *. destruct IH as (Ht & Hw & Hs & Hl). unfold Update. cbn [pg_totalBytes pg_windowSize pg_sentBytes pg_samples].
  split; [done|]. split; [done|]. split.
  - rewrite Hs, fmap_app, foldr_app. cbn [fmap list_fmap fold_right foldr fst].
    assert (forall l z, foldr Z.add z l = foldr Z.add 0 l + z) as Hf by (induction l as [|x l IHl]; intros z; cbn; [lia|rewrite IHl; lia]).
    rewrite (Hf _ (b + 0)). unfold wrap_u. rewrite Z.add_mod_idemp_l by done. f_equal. lia.
  - rewrite Hw, Hl, fmap_app. unfold last_n. set (q := (fun '(b, t) => mkSample b t) <$> ups). cbn [fmap list_fmap].
    rewrite !length_app, length_drop. cbn [length]. set (k := length q). change defaultWindowSize with 20%nat.
    destruct (Nat.ltb_spec 20 (k - (k - 20) + 1)).
    + rewrite drop_app_le by (rewrite length_drop; fold k; lia). rewrite drop_drop. rewrite drop_app_le by (fold k; lia). f_equal. f_equal. lia.
    + replace (k + 1 - 20)%nat with 0%nat by lia. replace (k - 20)%nat with 0%nat by lia. done.
Qed.

Lemma in_units_nonneg u d : 0 < u -> 0 <= d -> (0 <= in_units u d)%Q.
Proof.
  intros Hu Hd. unfold in_units. apply f64_nonneg.
  assert (0 <= float64 (Z.quot d u))%Q by (apply float64_nonneg, Z.quot_pos; lia).
  assert (0 <= f64 (float64 (Z.rem d u) / float64 u))%Q.
  { apply f64_nonneg. assert (0 <= float64 (Z.rem d u))%Q by (apply float64_nonneg; pose proof (Z.rem_bound_pos d u); lia).
    assert (0 <= float64 u)%Q by (apply float64_nonneg; lia). unfold Qdiv. apply Qmult_le_0_compat; [done|]. by apply Qinv_le_0_compat. }
  lra.
Qed.

Lemma in_units_nonpos u d : 0 < u -> d <= 0 -> (in_units u d <= 0)%Q.
Proof.
  intros Hu Hd. unfold in_units. apply f64_nonpos. assert (forall z : Z, (z <= 0)%Z -> (float64 z <= 0)%Q) as Hf.
  { intros z Hz. apply f64_nonpos. unfold Qle, inject_Z. cbn. lia. }
  assert (Z.quot d u <= 0 /\ Z.rem d u <= 0) as [Hq Hr].
  { rewrite <- (Z.opp_involutive d), Z.quot_opp_l, Z.rem_opp_l by lia.
    pose proof (Z.quot_pos (- d) u). pose proof (Z.rem_bound_pos (- d) u). lia. }
  assert (f64 (float64 (Z.rem d u) / float64 u) <= 0)%Q.
  { apply f64_nonpos. pose proof (Hf _ Hr). assert (0 <= float64 u)%Q as Hn by (apply float64_nonneg; lia). apply Qinv_le_0_compat in Hn.
    unfold Qdiv. assert (float64 (Z.rem d u) * / float64 u == - (- float64 (Z.rem d u) * / float64 u))%Q as -> by ring.
    assert (0 <= - float64 (Z.rem d u) * / float64 u)%Q by (apply Qmult_le_0_compat; [lra|done]). lra. }
  pose proof (Hf _ Hq). lra.
Qed.

Lemma speed_nonneg p : (0 <= bytesPerSecondLocked p)%Q.
Proof.
  unfold bytesPerSecondLocked. destruct (pg_samples p) as [|s0 [|s1 rest]]; [apply Qle_refl..|]. cbn zeta.
  set (el := in_units _ _). destruct (Qle_bool el 0) eqn:He; [apply Qle_refl|]. apply f64_nonneg.
  assert (0 <= el)%Q as Hel by (destruct (Qlt_le_dec 0 el) as [Hl|Hl]; [lra|apply Qle_bool_iff in Hl; congruence]).
  apply Qinv_le_0_compat in Hel. unfold Qdiv. apply Qmult_le_0_compat; [|done]. apply float64_nonneg.
  assert (forall l z, 0 <= z -> 0 <= fold_left (fun t s => u64 (t + sm_bytes s)) l z) as Hfl; [|by apply Hfl].
  induction l as [|s l IH]; intros z Hz; [done|]. cbn [fold_left]. apply IH. apply Z.mod_pos_bound. done.
Qed.

Lemma int64_of_pos x : (0 <= x)%Q -> (x <= inject_Z 9223372036)%Q -> 0 <= int64_of x <= 9223372036.
Proof.
  unfold Qle, inject_Z, int64_of. cbn [Qnum Qden]. intros H0 Hx.
  assert (0 <= Z.quot (Qnum x) (Zpos (Qden x)) <= 9223372036) as Hq.
  { split; [apply Z.quot_pos; lia|]. rewrite Z.quot_div_nonneg by lia. apply Z.div_le_upper_bound; lia. }
  rewrite (proj2 (Z.leb_le _ _)), (proj2 (Z.ltb_lt _ _)) by lia. exact Hq.
Qed.

Lemma complete_remaining p : 0 <= pg_totalBytes p <= 2 ^ 52 -> Complete p = true -> (remaining p <= 0)%Q.
Proof.
  intros Ht Hc%Z.leb_le. unfold remaining. apply f64_nonpos. rewrite (float64_small (pg_totalBytes p)) by done.
  assert (inject_Z (pg_totalBytes p) <= float64 (pg_sentBytes p))%Q; [|lra].
  destruct (Z.eq_dec (pg_totalBytes p) 0) as [->|]; [apply float64_nonneg; lia|].
  apply f64_ge; [lia|]. unfold Qle, inject_Z. cbn. lia.
Qed.

Lemma Percent_range p : 0 < pg_totalBytes p <= 2 ^ 52 -> 0 <= pg_sentBytes p <= pg_totalBytes p ->
  (0 <= Percent p <= 100)%Q /\ (pg_sentBytes p = pg_totalBytes p -> Percent p == 100)%Q.
Proof.
  intros Ht Hs. unfold Percent. rewrite (proj2 (Z.eqb_neq (pg_totalBytes p) 0)) by lia.
  set (r := (float64 (pg_sentBytes p) / float64 (pg_totalBytes p))%Q).
  assert (r == inject_Z (pg_sentBytes p) / inject_Z (pg_totalBytes p))%Q as Hr by (unfold r; rewrite !float64_small by lia; reflexivity).
  assert (0 < inject_Z (pg_totalBytes p))%Q as Hp by (unfold Qlt, inject_Z; cbn; lia).
  assert (0 <= inject_Z (pg_sentBytes p) <= inject_Z (pg_totalBytes p))%Q as [Hs0 Hs1] by (unfold Qle, inject_Z; cbn; lia).
  assert (0 <= r <= inject_Z 1)%Q as [Hr0 Hr1].
  { rewrite Hr. split; [apply Qle_shift_div_l; [done|lra]|apply Qle_shift_div_r; [done|change (inject_Z 1) with 1%Q; lra]]. }
  pose proof (f64_le r 1 Hr0 ltac:(lia) Hr1) as [Hf0 Hf1]. change (inject_Z 1) with 1%Q in *. split.
  - change 100%Q with (inject_Z 100). apply f64_le; [change (inject_Z 100) with 100%Q; lra|lia|change (inject_Z 100) with 100%Q; lra].
  - intros Heq. change 100%Q with (inject_Z 100). apply f64_eq; [lia|]. assert (f64 r == inject_Z 1)%Q as ->; [|reflexivity].
    apply f64_eq; [lia|]. rewrite Hr, Heq. change (inject_Z 1) with 1%Q. field. intros H0. rewrite H0 in Hp. by apply Qlt_irrefl in Hp.
Qed.

(** The progress of a transfer.  The bytes are summed modulo 2^64, and the speed is that of the last
    twenty updates: zero before the second of them or when the clock has not advanced.  Up to
    the total the percentage is between 0 and 100, and 100 at the end; a complete transfer has no time left, and the
    time left of another is a number of whole seconds, not negative, unless it is more than 292
    years, when it overflows. *)
Theorem progress_contract total start ups (Htotal : 0 < total <= 2 ^ 52) :
  let p := updates (NewProgress total start) ups in
  let window := last_n defaultWindowSize ups in
  (SentBytes p = u64 (fold_right Z.add 0 ups.*1) /\ (Complete p = true <-> total <= SentBytes p)) /\
  (SentBytes p <= total -> (0 <= Percent p <= 100)%Q /\ (SentBytes p = total -> Percent p == 100)%Q) /\
  (0 <= BytesPerSecond p)%Q /\
  (forall b1 t1 b2 t2, head window = Some (b1, t1) -> last window = Some (b2, t2) -> t2 <= t1 -> BytesPerSecond p = 0%Q) /\
  (Complete p = true -> ETA p = 0) /\
  ((f64 (remaining p / BytesPerSecond p) <= inject_Z 9223372036)%Q -> 0 <= ETA p /\ (GoTime.Second | ETA p)).
Proof.
  cbn zeta. set (p := updates _ ups). destruct (updates_spec total start ups) as (Ht & _ & Hs & Hl). fold p in Ht, Hs, Hl.
  assert (0 <= pg_sentBytes p) as Hsent by (rewrite Hs; by apply Z.mod_pos_bound).
  unfold SentBytes, BytesPerSecond. split; [split; [done|unfold Complete; rewrite Ht; apply Z.leb_le]|]. split.
  { intros Hle. rewrite <- Ht in *. apply Percent_range; lia. }
  split; [apply speed_nonneg|]. split; [|split].
  - intros b1 t1 b2 t2 Hhd Hlst Hle. unfold bytesPerSecondLocked. rewrite Hl. unfold last_n in *. rewrite length_fmap, <- fmap_drop.
    destruct (drop _ ups) as [|[b t] [|[b' t'] rest]]; [done..|]. cbn [fmap list_fmap sm_time]. cbn zeta.
    injection Hhd as -> ->. set (f := fun '(b, t) => mkSample b t).
    assert (last (f (b', t') :: (f <$> rest)) = Some (f (b2, t2))) as Hlast.
    { change (f (b', t') :: (f <$> rest)) with (f <$> ((b', t') :: rest)). rewrite fmap_last.
      change (last ((b', t') :: rest) = Some (b2, t2)) in Hlst. by rewrite Hlst. }
    change (mkSample b' t') with (f (b', t')). rewrite Hlast. cbn [fmap option_fmap option_map default f sm_time].
    rewrite (proj2 (Qle_bool_iff _ _)); [done|]. apply in_units_nonpos; [done|]. unfold id, GoTime.Sub, GoTime.minDuration, GoTime.maxDuration. lia.
  - intros Hc. unfold ETA. destruct (Qle_bool _ 0); [done|]. rewrite (proj2 (Qle_bool_iff _ _)); [done|]. apply complete_remaining; [lia|done].
  - intros Hover. unfold ETA. destruct (Qle_bool (bytesPerSecondLocked p) 0); [split; [done|by exists 0]|].
    destruct (Qle_bool (remaining p) 0) eqn:Hr; [split; [done|by exists 0]|]. unfold seconds_left.
    assert (0 <= f64 (remaining p / bytesPerSecondLocked p))%Q as Hpos.
    { apply f64_nonneg. unfold Qdiv. apply Qmult_le_0_compat; [|by apply Qinv_le_0_compat, speed_nonneg].
      destruct (Qlt_le_dec 0 (remaining p)) as [|Hneg]; [by apply Qlt_le_weak|]. apply Qle_bool_iff in Hneg. congruence. }
    pose proof (int64_of_pos _ Hpos Hover) as Hi. rewrite (wrap_s_small 64).
    + split; [unfold GoTime.Second, GoTime.Millisecond; lia|by eexists].
    + done.
    + unfold in_s, GoTime.Second, GoTime.Millisecond. cbn. lia.
Qed.

(** Two faults of the text: a percentage that is rounded to 100 before the end, and a time left that has overflowed. *)
Example rounded_up :
  String_ (updates (NewProgress 1000 0) [(996, 0)]) = "100% (0 B/s)"%string /\ Complete (updates (NewProgress 1000 0) [(996, 0)]) = false.
Proof. vm_compute. done. Qed.
Example time_overflows :
  let p := updates (NewProgress 10000000002 0) [(1, 0); (1, GoTime.Second)] in
  ETA p = -8446744073709551616 /\ String_ p = "0% (1 B/s, ~-8446744073s left)"%string.
Proof. vm_compute. done. Qed.
Example sample_text :
  String_ (updates (NewProgress (10 * 1048576) 0) [(1048576, 0); (1048576, GoTime.Second); (2621440, 2 * GoTime.Second)])
  = "45% (1.8 MB/s, ~3s left)"%string.
Proof. vm_compute. reflexivity. Qed.

Lemma progress_contract_witness :
  let p := updates (NewProgress 1000 0) [(400, 0); (600, GoTime.Second)] in
  (SentBytes p = 1000 /\ (Percent p == 100)%Q /\ ETA p = 0).
Proof.
  destruct (progress_contract 1000 0 [(400, 0); (600, GoTime.Second)] ltac:(split; vm_compute; done)) as ((Hs & Hc) & Hp & _ & _ & He & _).
  assert (SentBytes (updates (NewProgress 1000 0) [(400, 0); (600, GoTime.Second)]) = 1000) as Hsent by reflexivity.
  split; [exact Hsent|]. split; [apply Hp; [rewrite Hsent; lia|exact Hsent]|]. apply He, Hc. rewrite Hsent. lia.
Defined.
