(* ===== verification/Events.v ===== *)
(** * internal/node/events.go

    The event bus: buffered channels per event type, dropping on overflow. *)

From S2P Require Import Prelude GoStd.

(** internal/node/events.go 9-22 EventType *)
Abbreviation EventType := Z.
Definition EventTorBootstrap : EventType := 1.
Definition EventTorReady : EventType := 2.
Definition EventPeerDiscovered : EventType := 3.
Definition EventConnectionReq : EventType := 4.
Definition EventConnectionState : EventType := 5.
Definition EventChatMessage : EventType := 6.
Definition EventFileOffer : EventType := 7.
Definition EventFileProgress : EventType := 8.
Definition EventPeerOnline : EventType := 9.
Definition EventError : EventType := 10.

(** src: internal/node/events.go 55-66 allEventTypes *)
Definition allEventTypes : list EventType :=
  [EventTorBootstrap; EventTorReady; EventPeerDiscovered; EventConnectionReq; EventConnectionState;
   EventChatMessage; EventFileOffer; EventFileProgress; EventPeerOnline; EventError].

(** src: internal/node/events.go 30-30 subscriberBuffer *)
Definition subscriberBuffer : nat := 64.

Section bus.
Context {P : Type}.

(** src: internal/node/events.go 25-28 Event *)
Record Event := mkEvent { ev_Type : EventType; ev_Payload : P }.

(** A subscriber holds the only receiving end of its channel: it is known by its event
    type and its place in the list. *)
(** internal/node/events.go 33-36 EventBus *)
Abbreviation EventBus := (gmap EventType (list (Chan.t Event))).

(** src: internal/node/events.go 39-43 NewEventBus *)
Definition NewEventBus : EventBus := ∅.

Definition subscribers (eb : EventBus) (t : EventType) : list (Chan.t Event) := default [] (eb !! t).

(** src: internal/node/events.go 46-52 EventBus.Subscribe *)
Definition Subscribe (eb : EventBus) (t : EventType) : nat * EventBus :=
  let chans := subscribers eb t in
  (length chans, <[t := chans ++ [Chan.make subscriberBuffer]]> eb).

(** One [select] of [Publish]. *)
(** src: internal/node/events.go 104-108 EventBus.Publish *)
Definition offer_event (e : Event) (ch : Chan.t Event) : Chan.t Event :=
  match Chan.try_send ch e with Chan.Sent ch => ch | _ => ch end.

(** src: internal/node/events.go 99-110 EventBus.Publish *)
Definition Publish (eb : EventBus) (e : Event) : EventBus :=
  match eb !! ev_Type e with
  | None => eb
  | Some chans => <[ev_Type e := offer_event e <$> chans]> eb
  end.

(** A subscriber takes the next event, if there is one. *)
Definition Receive (eb : EventBus) (t : EventType) (i : nat) : option Event * EventBus :=
  match subscribers eb t !! i with
  | None => (None, eb)
  | Some ch =>
      match Chan.try_recv ch with
      | None => (None, eb)
      | Some (e, ch) => (Some e, <[t := <[i := ch]> (subscribers eb t)]> eb)
      end
  end.

(** [SubscribeAll]: one subscription and one forwarder per type, into one channel. *)
(** src: internal/node/events.go 70-77 EventBus.SubscribeAll *)
Definition SubscribeAll (eb : EventBus) : list (EventType * nat) * Chan.t Event * EventBus :=
  let '(subs, eb) := foldl (fun '(subs, eb) et => let '(i, eb) := Subscribe eb et in (subs ++ [(et, i)], eb))
                       ([], eb) allEventTypes in
  (subs, Chan.make subscriberBuffer, eb).

(** A forwarder: waiting for its source, or holding an event until the merged channel has
    room.  It ends when the context is done; nothing closes the merged channel. *)
(** src: internal/node/events.go 79-95 forwardUntilDone *)
Inductive forwarder := Waiting | Holding (e : Event) | Ended.

(** src: internal/node/events.go 79-95 forwardUntilDone *)
Inductive forward_step : forwarder * Chan.t Event * Chan.t Event ->
    forwarder * Chan.t Event * Chan.t Event -> Prop :=
| forward_take src src' dst e : Chan.try_recv src = Some (e, src') ->
    forward_step (Waiting, src, dst) (Holding e, src', dst)
| forward_put src dst dst' e : Chan.try_send dst e = Chan.Sent dst' ->
    forward_step (Holding e, src, dst) (Waiting, src, dst')
| forward_done f src dst : forward_step (f, src, dst) (Ended, src, dst).

(** ** Delivery *)

Inductive bus_op := OpSubscribe (t : EventType) | OpPublish (e : Event) | OpReceive (t : EventType) (i : nat).

(** The bus after the operations, and what the subscriber [(t, i)] received. *)
Fixpoint bus_run (t : EventType) (i : nat) (eb : EventBus) (ops : list bus_op) : EventBus * list Event :=
  match ops with
  | [] => (eb, [])
  | OpSubscribe t' :: ops => bus_run t i (Subscribe eb t').2 ops
  | OpPublish e :: ops => bus_run t i (Publish eb e) ops
  | OpReceive t' j :: ops =>
      let '(o, eb) := Receive eb t' j in
      let '(eb, got) := bus_run t i eb ops in
      (eb, match o with Some e => if bool_decide (t' = t /\ j = i) then e :: got else got | None => got end)
  end.

(** The events of a type published by the operations. *)
Definition published (t : EventType) (ops : list bus_op) : list Event :=
  omap (fun op => match op with OpPublish e => if bool_decide (ev_Type e = t) then Some e else None | _ => None end) ops.

Definition subscriber (eb : EventBus) (t : EventType) (i : nat) : option (Chan.t Event) := subscribers eb t !! i.

Lemma subscriber_Subscribe eb t t' i ch :
  subscriber eb t i = Some ch -> subscriber (Subscribe eb t').2 t i = Some ch.
Proof.
  unfold subscriber, Subscribe. cbn [snd]. unfold subscribers. intros Hch.
  destruct (decide (t' = t)) as [->|Hne]; [|by rewrite lookup_insert_ne].
  rewrite lookup_insert_eq. simpl. by apply lookup_app_l_Some.
Qed.

Lemma subscriber_Publish eb e t i ch :
  subscriber eb t i = Some ch ->
  subscriber (Publish eb e) t i = Some (if bool_decide (ev_Type e = t) then offer_event e ch else ch).
Proof.
  unfold subscriber, Publish, subscribers. intros Hch. case_bool_decide as Ht.
  - subst t. destruct (eb !! ev_Type e) as [chans|] eqn:Hc; [|done]. rewrite lookup_insert_eq. simpl in *.
    by rewrite list_lookup_fmap, Hch.
  - destruct (eb !! ev_Type e); [|done]. by rewrite lookup_insert_ne.
Qed.

Lemma subscriber_Receive eb t' j t i ch o eb' :
  subscriber eb t i = Some ch -> Receive eb t' j = (o, eb') ->
  (t' = t /\ j = i /\
     ((o = None /\ Chan.buf ch = [] /\ subscriber eb' t i = Some ch) \/
      exists e l, o = Some e /\ Chan.buf ch = e :: l /\
        subscriber eb' t i = Some (Chan.mk (Chan.cap ch) l (Chan.closed ch)))) \/
  ((t' <> t \/ j <> i) /\ subscriber eb' t i = Some ch).
Proof.
  unfold Receive, subscriber. intros Hch Hr. destruct (decide (t' = t /\ j = i)) as [[-> ->]|Hne].
  - left. split; [done|]. split; [done|]. rewrite Hch in Hr. unfold Chan.try_recv in Hr.
    destruct (Chan.buf ch) as [|e l] eqn:Hb; injection Hr as <- <-; [by left|]. right. exists e, l.
    split_and!; [done..|]. unfold subscribers at 1. rewrite lookup_insert_eq. simpl.
    apply list_lookup_insert_eq. by eapply lookup_lt_Some.
  - right. split; [destruct (decide (t' = t)); [right; naive_solver|by left]|].
    destruct (subscribers eb t' !! j) as [ch'|] eqn:Hj; [|congruence].
    destruct (Chan.try_recv ch') as [[e ch2]|]; [|congruence]. injection Hr as <- <-.
    unfold subscribers at 1. destruct (decide (t' = t)) as [->|Ht].
    + rewrite lookup_insert_eq. simpl. rewrite list_lookup_insert_ne by naive_solver. done.
    + rewrite lookup_insert_ne by done. exact Hch.
Qed.

Lemma offer_event_open e ch : Chan.closed ch = false ->
  offer_event e ch = if (length (Chan.buf ch) <? Chan.cap ch)%nat
    then Chan.mk (Chan.cap ch) (Chan.buf ch ++ [e]) false else ch.
Proof. unfold offer_event, Chan.try_send. intros ->. by destruct (_ <? _)%nat. Qed.

(** The event bus, for every interleaving of subscriptions, publications and reads by
    anybody: what a subscriber has received and what still waits for it are, in order, a
    subsequence of the events of its type published since; and all of them when at most
    64 were published or waiting. *)
Theorem event_delivery t i ops eb ch :
  subscriber eb t i = Some ch -> Chan.closed ch = false -> Chan.cap ch = subscriberBuffer ->
  exists ch', subscriber (bus_run t i eb ops).1 t i = Some ch' /\
    Chan.closed ch' = false /\ Chan.cap ch' = subscriberBuffer /\
    (bus_run t i eb ops).2 ++ Chan.buf ch' `sublist_of` Chan.buf ch ++ published t ops /\
    (Chan.wf ch -> Chan.wf ch') /\
    ((length (Chan.buf ch ++ published t ops) <= subscriberBuffer)%nat ->
       (bus_run t i eb ops).2 ++ Chan.buf ch' = Chan.buf ch ++ published t ops).
Proof.
  revert eb ch. induction ops as [|op ops IH]; intros eb ch Hch Ho Hc.
  { exists ch. unfold published. cbn. rewrite app_nil_r. by split_and!. }
  destruct op as [t'|e|t' j]; cbn [bus_run].
  - apply IH; [by apply subscriber_Subscribe|done..].
  - apply (subscriber_Publish _ e) in Hch. unfold published. cbn [omap list_omap].
    fold (published t ops). case_bool_decide as Ht; [|by apply IH].
    rewrite (offer_event_open e ch Ho) in Hch. destruct (Nat.ltb_spec (length (Chan.buf ch)) (Chan.cap ch)).
    + destruct (IH _ _ Hch eq_refl Hc) as (ch' & H1 & H2 & H3 & H4 & H5 & H6). exists ch'.
      cbn [Chan.buf] in *. rewrite <- app_assoc in *. split_and!; try done.
      intros Hwf. apply H5. unfold Chan.wf in *. cbn. rewrite length_app. simpl. lia.
    + destruct (IH _ _ Hch Ho Hc) as (ch' & H1 & H2 & H3 & H4 & H5 & H6). exists ch'. split_and!; try done.
      * etransitivity; [exact H4|]. apply sublist_app; [done|]. by apply sublist_cons.
      * rewrite length_app. cbn [length]. rewrite Hc in *. intros Hl. lia.
  - destruct (Receive eb t' j) as [o eb1] eqn:Hr.
    change (published t (OpReceive t' j :: ops)) with (published t ops).
    destruct (subscriber_Receive _ _ _ _ _ _ _ _ Hch Hr)
      as [(-> & -> & [(-> & Hb & Hch1)|(e & l & -> & Hb & Hch1)])|(Hne & Hch1)].
    + destruct (IH _ _ Hch1 Ho Hc) as (ch' & Hrest). exists ch'. by destruct (bus_run t i eb1 ops).
    + destruct (IH _ _ Hch1 Ho Hc) as (ch' & H1 & H2 & H3 & H4 & H5 & H6). exists ch'.
      destruct (bus_run t i eb1 ops) as [eb2 got]. cbn [fst snd Chan.buf] in *.
      rewrite bool_decide_eq_true_2 by done. rewrite Hb. cbn [app]. split_and!; try done.
      * by apply sublist_skip.
      * intros Hwf. apply H5. unfold Chan.wf in *. rewrite Hb in Hwf. simpl in *. lia.
      * intros Hl. f_equal. apply H6. simpl in Hl. lia.
    + destruct (IH _ _ Hch1 Ho Hc) as (ch' & Hrest). exists ch'.
      destruct (bus_run t i eb1 ops) as [eb2 got]. destruct o; [|done].
      rewrite bool_decide_eq_false_2 by (intros [Ht Hj]; by destruct Hne). done.
Qed.
End bus.
Arguments Event : clear implicits.

Section samples.
Definition bus0 : gmap EventType (list (Chan.t (Event nat))) := (Subscribe NewEventBus EventChatMessage).2.
Definition bus_ops : list (@bus_op nat) :=
  [OpPublish (mkEvent EventChatMessage 1%nat); OpPublish (mkEvent EventError 2%nat); OpReceive EventChatMessage 0;
   OpSubscribe EventChatMessage; OpPublish (mkEvent EventChatMessage 3%nat)].

Lemma event_delivery_witness : exists ch',
  subscriber (bus_run EventChatMessage 0 bus0 bus_ops).1 EventChatMessage 0 = Some ch' /\
  (bus_run EventChatMessage 0 bus0 bus_ops).2 ++ Chan.buf ch' =
    [mkEvent EventChatMessage 1%nat; mkEvent EventChatMessage 3%nat].
Proof.
  destruct (event_delivery EventChatMessage 0 bus_ops bus0 (Chan.make subscriberBuffer) eq_refl eq_refl eq_refl)
    as (ch' & Hch & _ & _ & _ & _ & Hall).
  exists ch'. split; [exact Hch|]. apply Hall. vm_compute. lia.
Defined.
End samples.
