(* ===== verification/Chat.v ===== *)
(** * internal/chat: conversations and their delivery *)

From S2P Require Import Prelude GoStd Sha256 Crypto Protocol Instances Identity Wire Services Signaling ApiAuth Events.
Local Open Scope go_scope.

(** ** service.go: messages *)

(** src: internal/chat/service.go 24-29 Direction *)
Inductive Direction := Outgoing | Incoming.

(** src: internal/chat/service.go 32-40 Message *)
Record Message := mkMessage {
  msg_ID : string; msg_From : string; msg_To : string; msg_Text : string;
  msg_SentAt : Z; msg_AckedAt : option Z; msg_Direction : Direction
}.

(** ** history.go *)
Module History.
(** src: internal/chat/history.go 5-5 maxMessagesPerPeer *)
Definition maxMessagesPerPeer : nat := 1000.

(** internal/chat/history.go 8-11 History *)
Abbreviation t := (gmap string (list Message)).

(** src: internal/chat/history.go 14-18 NewHistory *)
Definition New : t := ∅.

(** src: internal/chat/history.go 22-32 History.Append *)
Definition Append (h : t) (peerAddr : string) (msg : Message) : t :=
  let msgs := default [] (h !! peerAddr) ++ [msg] in
  let msgs := if (maxMessagesPerPeer <? length msgs)%nat then drop (length msgs - maxMessagesPerPeer) msgs else msgs in
  <[peerAddr := msgs]> h.

(** src: internal/chat/history.go 36-47 History.GetConversation *)
Definition GetConversation (h : t) (peerAddr : string) : list Message := default [] (h !! peerAddr).

(** [None]: [make] panics on a negative length. *)
(** src: internal/chat/history.go 51-67 History.GetLatest *)
Definition GetLatest (h : t) (peerAddr : string) (n : Z) : option (list Message) :=
  match h !! peerAddr with
  | None => Some []
  | Some msgs =>
      if Z.of_nat (length msgs) <=? n then Some msgs
      else if n <? 0 then None
      else Some (drop (length msgs - Z.to_nat n) msgs)
  end.

(** src: internal/chat/history.go 70-74 History.Clear *)
Definition Clear (h : t) (peerAddr : string) : t := delete peerAddr h.

(** Appends to several conversations, in order. *)
Definition append_all (h : t) (l : list (string * Message)) : t := foldl (fun h '(p, m) => Append h p m) h l.

Definition sent_to (p : string) (l : list (string * Message)) : list Message :=
  omap (fun '(q, m) => if bool_decide (q = p) then Some m else None) l.

Lemma lookup_Append h p q m :
  default [] (Append h p m !! q) = if bool_decide (p = q)
    then last_n maxMessagesPerPeer (default [] (h !! q) ++ [m]) else default [] (h !! q).
Proof.
  unfold Append. case_bool_decide as Hq.
  - subst q. rewrite lookup_insert_eq. simpl. set (l := default [] (h !! p) ++ [m]).
    destruct (Nat.ltb_spec maxMessagesPerPeer (length l)); [done|]. by rewrite last_n_all.
  - by rewrite lookup_insert_ne.
Qed.

(** The history: after any sequence of messages to any peers, a conversation holds the
    last thousand of its own messages, in order; [GetLatest] gives its last [n], and on a
    negative [n] panics exactly when there is a conversation. *)
Theorem history_contract l p n :
  GetConversation (append_all New l) p = last_n maxMessagesPerPeer (sent_to p l) /\
  (0 <= n -> GetLatest (append_all New l) p n
     = Some (last_n (Z.to_nat n) (last_n maxMessagesPerPeer (sent_to p l)))) /\
  (n < 0 -> (GetLatest (append_all New l) p n = None <-> sent_to p l <> [])).
Proof.
  assert (forall h l0, default [] (h !! p) = last_n maxMessagesPerPeer l0 ->
    default [] (append_all h l !! p) = last_n maxMessagesPerPeer (l0 ++ sent_to p l)) as Hgen.
  { induction l as [|[q m] l IH]; intros h l0 Hh; [by rewrite app_nil_r|].
    cbn [append_all foldl]. fold (append_all (Append h q m) l).
    unfold sent_to. cbn [omap list_omap]. fold (sent_to p l). case_bool_decide as Hq.
    - rewrite (IH _ (l0 ++ [m])); [by rewrite <- app_assoc|].
      rewrite lookup_Append, bool_decide_eq_true_2 by done. by rewrite Hh, last_n_last_n.
    - apply IH. by rewrite lookup_Append, bool_decide_eq_false_2. }
  specialize (Hgen New [] eq_refl). rewrite app_nil_l in Hgen.
  assert (append_all New l !! p = None -> last_n maxMessagesPerPeer (sent_to p l) = []) as Hnone
    by (intros Hn; rewrite Hn in Hgen; by rewrite <- Hgen).
  assert (forall ms, append_all New l !! p = Some ms -> ms = last_n maxMessagesPerPeer (sent_to p l)) as Hsome
    by (intros ms Hm; rewrite Hm in Hgen; by rewrite <- Hgen).
  split; [exact Hgen|]. unfold GetLatest. split; intros Hn.
  - destruct (append_all New l !! p) as [ms|]; [|by rewrite Hnone].
    rewrite <- (Hsome ms eq_refl). destruct (Z.leb_spec (Z.of_nat (length ms)) n).
    + by rewrite last_n_all by lia.
    + by destruct (Z.ltb_spec n 0); [lia|].
  - assert (sent_to p l <> [] <-> append_all New l !! p <> None) as ->.
    { clear -Hnone. revert Hnone. intros Hnone. split.
      - intros Hne Heq. apply Hne. specialize (Hnone Heq). destruct (sent_to p l) as [|m ms] eqn:Hs; [done|].
        apply (f_equal length) in Hnone. rewrite length_last_n in Hnone. unfold maxMessagesPerPeer in Hnone.
        simpl in Hnone. lia.
      - intros Hne Heq. apply Hne. clear Hne Hnone.
        assert (forall h, h !! p = None -> append_all h l !! p = None) as Hg; [|by apply Hg].
        induction l as [|[q m] l IH]; intros h Hh; [done|].
        unfold sent_to in Heq. cbn [omap list_omap] in Heq. case_bool_decide as Hq; [done|].
        cbn [append_all foldl]. apply IH; [done|]. unfold Append. by rewrite lookup_insert_ne. }
    destruct (append_all New l !! p) as [ms|]; [|done].
    destruct (Z.leb_spec (Z.of_nat (length ms)) n); [lia|]. by destruct (Z.ltb_spec n 0); [|lia].
Qed.

Lemma history_contract_witness :
  GetConversation (append_all New [("a"%string, mkMessage "1" "x" "a" "hi" 0 None Outgoing);
    ("b"%string, mkMessage "2" "x" "b" "yo" 0 None Outgoing)]) "a" = [mkMessage "1" "x" "a" "hi" 0 None Outgoing].
Proof. rewrite (proj1 (history_contract _ _ 0)). vm_compute. reflexivity. Defined.
End History.

(** ** The chat service *)

Inductive chat_err :=
| ErrNoRegistry | ErrServiceMissing | ErrPeerNotConnected | ErrMarshalText | ErrOpenStream | ErrSendText
| ErrReadAck | ErrAckType (t : MessageType) | ErrAckSignature | ErrUnmarshalAck | ErrAckID (got : string).

Section chat.
Context `{Proto ChatText, Proto ChatAck, Ed25519, Ripemd160, Base58}.

(** [lookup] is [Get] of the registry; [None]: no registry is configured. *)
(** src: internal/chat/service.go 74-81 Service *)
Record ChatService := mkChat {
  ch_lookup : option (string -> option Service);
  ch_serviceName : string;
  ch_history : option History.t;
  ch_bus : gmap EventType (list (Chan.t (Event Message)))
}.

(** src: internal/chat/service.go 56-69 StaticLookup *)
Definition StaticLookup (svc : option Service) (name : string) : option Service :=
  match svc with
  | Some s => if bool_decide (s_Name s = name) then Some s else None
  | None => None
  end.

(** src: internal/chat/service.go 113-122 Service.resolveService *)
Definition resolveService (s : ChatService) : result chat_err Service :=
  match ch_lookup s with
  | None => Err ErrNoRegistry
  | Some get => of_option ErrServiceMissing (get (ch_serviceName s))
  end.

Definition set_history (s : ChatService) (h : option History.t) : ChatService :=
  mkChat (ch_lookup s) (ch_serviceName s) h (ch_bus s).

(** src: internal/chat/service.go 164-172 Service.ingest *)
Definition ingest (s : ChatService) (msg : Message) : ChatService :=
  mkChat (ch_lookup s) (ch_serviceName s)
    ((fun h => History.Append h (msg_From msg) msg) <$> ch_history s)
    (Publish (ch_bus s) (mkEvent EventChatMessage msg)).

(** The identifier of a message: sixteen random bytes; a failing source leaves them zero. *)
(** src: internal/chat/service.go 296-300 generateID *)
Definition generateID (rand : option bytes) : string := hex_encode (default (replicate 16 Byte.x00) rand).

(** src: internal/chat/service.go 145-161 Service.OnChatMessage *)
Definition OnChatMessage (s : ChatService) (rand : option bytes) (now : Z) (fromAddr text : string) :
    result chat_err unit * ChatService :=
  match resolveService s with
  | Err e => (Err e, s)
  | Ok svc => (Ok tt, ingest s (mkMessage (generateID rand) fromAddr (s_Address svc) text now (Some now) Incoming))
  end.

(** The acknowledgment of a message. *)
(** src: internal/chat/service.go 206-219 Service.sendTo *)
Definition check_ack (msgID : string) (ackEnv : Envelope) : result chat_err unit :=
  guard (env_Type ackEnv =? CHAT_ACK) else ErrAckType (env_Type ackEnv);
  guard VerifyEnvelope ackEnv else ErrAckSignature;
  ack <-? of_option ErrUnmarshalAck (unmarshal (env_Payload ackEnv));
  guard bool_decide (ca_MessageId ack = msgID) else ErrAckID (ca_MessageId ack);
  Ok tt.

(** [now] in milliseconds is what [WrapMessage] reads, [acked] the clock at the end. *)
(** src: internal/chat/service.go 175-236 Service.sendTo *)
Definition sendTo (svc : Service) (opened : bool) (peerAddr text : string) (rand : option bytes) (now acked : Z) :
    proc (result chat_err Message) :=
  let msgID := generateID rand in
  match marshal (mkChatText msgID text) with
  | None => Done (Err ErrMarshalText)
  | Some payload =>
      let env := WrapMessage CHAT_TEXT payload (s_Identity svc) now in
      if negb opened then Done (Err ErrOpenStream)
      else Send env (fun ok =>
        if negb ok then Done (Err ErrSendText)
        else Recv (fun r =>
          match r with
          | None => Done (Err ErrReadAck)
          | Some ackEnv =>
              Done (_ <-? check_ack msgID ackEnv;
                    Ok (mkMessage msgID (s_Address svc) peerAddr text (GoTime.of_UnixMilli (env_Timestamp env))
                          (Some acked) Outgoing))
          end))
  end.

(** The whole call: an acknowledged message goes into the history.  [connected] is what
    the resolver finds. *)
(** src: internal/chat/service.go 127-138 Service.SendMessage *)
Definition SendMessage (s : ChatService) (connected opened : bool) (peerAddr text : string) (rand : option bytes)
    (now acked : Z) : proc (result chat_err Message * ChatService) :=
  match resolveService s with
  | Err e => Done (Err e, s)
  | Ok svc =>
      if negb connected then Done (Err ErrPeerNotConnected, s)
      else pbind (sendTo svc opened peerAddr text rand now acked) (fun r =>
        Done (r, match r with
                 | Ok msg => set_history s ((fun h => History.Append h peerAddr msg) <$> ch_history s)
                 | Err _ => s
                 end))
  end.

(** The message an envelope carries for a service, if it is accepted. *)
(** src: internal/chat/service.go 251-281 Service.handleIncoming *)
Definition incoming_message (s : ChatService) (env : Envelope) (now : Z) : option (Service * Message) :=
  if negb (env_Type env =? CHAT_TEXT) then None
  else if negb (VerifyEnvelope env) then None
  else match resolveService s with
  | Err _ => None
  | Ok svc =>
      if negb (AsChat (Some svc)) then None
      else chatText ← unmarshal (env_Payload env);
        Some (svc, mkMessage (ct_Id chatText) (DeriveAddress (env_PubKey env)) (s_Address svc) (ct_Text chatText)
                     (GoTime.of_UnixMilli (env_Timestamp env)) (Some now) Incoming)
  end.

(** src: internal/chat/service.go 242-294 Service.handleIncoming *)
Definition handleIncoming (s : ChatService) (now ackNow : Z) : proc ChatService :=
  Recv (fun r =>
    match r with
    | None => Done s
    | Some env =>
        match incoming_message s env now with
        | None => Done s
        | Some (svc, msg) =>
            let s := ingest s msg in
            match marshal (mkChatAck (msg_ID msg)) with
            | None => Done s
            | Some ackPayload => Send (WrapMessage CHAT_ACK ackPayload (s_Identity svc) ackNow) (fun _ => Done s)
            end
        end
    end).
End chat.

Section claims.
Context `{ProtoOk ChatText, ProtoOk ChatAck, Ed25519Ok, Ripemd160, Base58}.

Lemma incoming_message_Some s env now svc msg :
  incoming_message s env now = Some (svc, msg) <->
  env_Type env = CHAT_TEXT /\ VerifyEnvelope env = true /\ resolveService s = Ok svc /\ AsChat (Some svc) = true /\
  exists ct, unmarshal (env_Payload env) = Some ct /\
    msg = mkMessage (ct_Id ct) (DeriveAddress (env_PubKey env)) (s_Address svc) (ct_Text ct)
            (GoTime.of_UnixMilli (env_Timestamp env)) (Some now) Incoming.
Proof.
  unfold incoming_message. split.
  - destruct (Z.eqb_spec (env_Type env) CHAT_TEXT); cbn [negb]; [|done].
    destruct (VerifyEnvelope env); cbn [negb]; [|done]. destruct (resolveService s) as [svc'|]; [|done].
    destruct (AsChat (Some svc')) eqn:Ha; cbn [negb]; [|done].
    destruct (unmarshal (env_Payload env)) as [ct|]; [|done]. cbn [mbind option_bind]. intros [= <- <-].
    split_and!; try done. by exists ct.
  - intros (-> & -> & -> & Ha & ct & -> & ->). cbn [negb]. rewrite Z.eqb_refl. cbn [negb]. by rewrite Ha.
Qed.

(** Delivery: over a reliable stream between a service and a chat service that its
    registry resolves, a message is acknowledged, recorded by the sender as sent to the
    peer, and recorded and announced by the receiver with the same identifier, text and
    time, as coming from the address of the sender's key. *)
Theorem chat_delivery sA sB svcA svcB peerAddr text rand now acked nowB ackNow p1 p2 :
  resolveService sA = Ok svcA -> resolveService sB = Ok svcB -> AsChat (Some svcB) = true ->
  genuine (s_Identity svcA) -> genuine (s_Identity svcB) ->
  marshal (mkChatText (generateID rand) text) = Some p1 -> marshal (mkChatAck (generateID rand)) = Some p2 ->
  let out := mkMessage (generateID rand) (s_Address svcA) peerAddr text (GoTime.of_UnixMilli now) (Some acked) Outgoing in
  let inc := mkMessage (generateID rand) (DeriveAddress (kp_pub (s_Identity svcA))) (s_Address svcB) text
               (GoTime.of_UnixMilli now) (Some nowB) Incoming in
  link 10 (SendMessage sA true true peerAddr text rand now acked) (handleIncoming sB nowB ackNow) [] [] =
    Some ((Ok out, set_history sA ((fun h => History.Append h peerAddr out) <$> ch_history sA)), ingest sB inc).
Proof.
  intros HA HB Hchat HgA HgB Hm1 Hm2 out inc.
  set (textEnv := WrapMessage CHAT_TEXT p1 (s_Identity svcA) now).
  set (ackEnv := WrapMessage CHAT_ACK p2 (s_Identity svcB) ackNow).
  assert (incoming_message sB textEnv nowB = Some (svcB, inc)) as Hin.
  { apply incoming_message_Some. split_and!; try done; [by apply VerifyEnvelope_WrapMessage|].
    exists (mkChatText (generateID rand) text). split; [|done]. by apply unmarshal_marshal. }
  assert (check_ack (generateID rand) ackEnv = Ok tt) as Hack.
  { unfold check_ack. change (env_Type ackEnv) with CHAT_ACK. rewrite Z.eqb_refl.
    unfold ackEnv. rewrite (VerifyEnvelope_WrapMessage CHAT_ACK p2 _ ackNow HgB).
    cbn [WrapMessage env_Payload]. rewrite (unmarshal_marshal _ _ Hm2). cbn. by rewrite bool_decide_eq_true_2. }
  unfold SendMessage, handleIncoming. rewrite HA. cbn [negb]. unfold sendTo. rewrite Hm1. fold textEnv.
  cbn [negb pbind link app]. rewrite Hin. cbn [msg_ID]. change (msg_ID inc) with (generateID rand). rewrite Hm2.
  fold ackEnv. cbn [link app pbind negb]. rewrite Hack. done.
Qed.

(** C16. What a chat message proves, and what it does not.  A message is recorded only when
    its envelope is signed by a key, and under that key's address; but the signature names
    no recipient: an envelope one service accepted is accepted with the same sender, text
    and time by every chat service it is forwarded to, and again by the same one.  An
    acknowledgment is accepted from any key whatever, of the peer or not. *)
Theorem chat_authenticity s env now svc msg :
  incoming_message s env now = Some (svc, msg) ->
  (length (env_PubKey env) = PublicKeySize /\ msg_From msg = DeriveAddress (env_PubKey env) /\
   ed_verify (env_PubKey env) (signingPayload (env_Type env) (env_Payload env) (env_Timestamp env))
     (env_Signature env) = true) /\
  (forall s' svc' now', resolveService s' = Ok svc' -> AsChat (Some svc') = true ->
     exists msg', incoming_message s' env now' = Some (svc', msg') /\
       msg_ID msg' = msg_ID msg /\ msg_From msg' = msg_From msg /\ msg_Text msg' = msg_Text msg /\
       msg_SentAt msg' = msg_SentAt msg /\ msg_To msg' = s_Address svc') /\
  (forall stranger payload t, genuine stranger -> marshal (mkChatAck (msg_ID msg)) = Some payload ->
     check_ack (msg_ID msg) (WrapMessage CHAT_ACK payload stranger t) = Ok tt).
Proof.
  intros (Hty & Hv & Hr & Ha & ct & Hu & ->)%incoming_message_Some. split_and!.
  - unfold VerifyEnvelope, FromPublicKey in Hv. by destruct (Nat.eqb_spec (length (env_PubKey env)) PublicKeySize).
  - done.
  - unfold VerifyEnvelope, FromPublicKey, Verify in Hv.
    by destruct (Nat.eqb_spec (length (env_PubKey env)) PublicKeySize).
  - intros s' svc' now' Hr' Ha'.
    exists (mkMessage (ct_Id ct) (DeriveAddress (env_PubKey env)) (s_Address svc') (ct_Text ct)
      (GoTime.of_UnixMilli (env_Timestamp env)) (Some now') Incoming). split; [|split_and!; reflexivity].
    apply incoming_message_Some. split_and!; [done..|]. exists ct. split; [done|reflexivity].
  - intros stranger payload t Hg Hm. unfold check_ack. change (env_Type (WrapMessage CHAT_ACK payload stranger t)) with CHAT_ACK.
    rewrite Z.eqb_refl, (VerifyEnvelope_WrapMessage CHAT_ACK payload _ t Hg).
    cbn [WrapMessage env_Payload]. rewrite (unmarshal_marshal _ _ Hm). cbn. by rewrite bool_decide_eq_true_2.
Qed.
End claims.

Section samples.
Import Toy.

Definition chat_service_of (n : Z) (name : string) : Service :=
  mkService name (DeriveAddress (kp_pub (sample_keypair n))) "x.onion" (sample_keypair n) (mkManifest "" ACLPublic [])
    (Some (mkHandlers true false false)).
Definition chat_of (n : Z) (name : string) : ChatService :=
  mkChat (Some (StaticLookup (Some (chat_service_of n name)))) name (Some History.New) NewEventBus.
Definition text_payload : bytes := marshal_or_nil (mkChatText (generateID None) "hello").
Definition ack_payload : bytes := marshal_or_nil (mkChatAck (generateID None)).

Lemma text_marshals : marshal (mkChatText (generateID None) "hello") = Some text_payload.
Proof. vm_compute. reflexivity. Qed.
Lemma ack_marshals : marshal (mkChatAck (generateID None)) = Some ack_payload.
Proof. vm_compute. reflexivity. Qed.

Lemma sample_resolves n name : resolveService (chat_of n name) = Ok (chat_service_of n name).
Proof. unfold resolveService, chat_of. cbn [ch_lookup ch_serviceName]. unfold StaticLookup. by rewrite bool_decide_eq_true_2. Qed.

Lemma chat_delivery_witness :
  let out := mkMessage (generateID None) (s_Address (chat_service_of 1 "ada")) "Ebob" "hello" 7000000 (Some 9) Outgoing in
  let inc := mkMessage (generateID None) (s_Address (chat_service_of 1 "ada")) (s_Address (chat_service_of 2 "bob")) "hello"
               7000000 (Some 8) Incoming in
  link 10 (SendMessage (chat_of 1 "ada") true true "Ebob" "hello" None 7 9) (handleIncoming (chat_of 2 "bob") 8 8) [] [] =
    Some ((Ok out, set_history (chat_of 1 "ada") ((fun h => History.Append h "Ebob" out) <$> ch_history (chat_of 1 "ada"))),
          ingest (chat_of 2 "bob") inc).
Proof.
  exact (chat_delivery (chat_of 1 "ada") (chat_of 2 "bob") _ _ "Ebob" "hello" None 7 9 8 8 text_payload ack_payload
    (sample_resolves 1 "ada") (sample_resolves 2 "bob") eq_refl (sample_keypair_genuine 1) (sample_keypair_genuine 2)
    text_marshals ack_marshals).
Defined.

Definition text_env : Envelope := WrapMessage CHAT_TEXT text_payload (sample_keypair 1) 7.
Lemma text_env_accepted : exists msg, incoming_message (chat_of 2 "bob") text_env 8 = Some (chat_service_of 2 "bob", msg).
Proof.
  eexists. apply incoming_message_Some. split_and!; [done| |apply sample_resolves|done|].
  - apply VerifyEnvelope_WrapMessage, sample_keypair_genuine.
  - exists (mkChatText (generateID None) "hello"). split; [vm_compute; reflexivity|reflexivity].
Qed.

(** Bob forwards Ada's message to Carol. *)
Lemma chat_authenticity_witness : exists msg',
  incoming_message (chat_of 3 "carol") text_env 9 = Some (chat_service_of 3 "carol", msg') /\
  msg_To msg' = s_Address (chat_service_of 3 "carol").
Proof.
  destruct text_env_accepted as (msg & Hm).
  destruct (proj1 (proj2 (chat_authenticity (chat_of 2 "bob") text_env 8 _ msg Hm)) (chat_of 3 "carol")
    (chat_service_of 3 "carol") 9 (sample_resolves 3 "carol") eq_refl) as (msg' & Hi & _ & _ & _ & _ & Ht).
  exists msg'. split; [exact Hi|exact Ht].
Defined.
End samples.
