(* ===== verification/Connector.v ===== *)
(** * internal/transport: the connection table, the flow of a connection, NAT strategies

    connector.go, nat.go and the ping of presence.go.  One operation of the connector at a
    time; libp2p's answers (parsing of multiaddrs, connections, peer IDs) are arguments. *)

From S2P Require Import Prelude GoStd Sha256 Crypto Protocol Instances Identity Wire IPExchange Signaling Session.
Local Open Scope go_scope.

(** ** States and strategies *)

(** src: internal/transport/connector.go 24-36 ConnState *)
Inductive ConnState :=
| StateDiscovering | StateSignaling | StateExchangingIPs | StateNATTraversal | StateConnected | StateConnectedTor
| StateDisconnected | StateFailed | StateReconnecting.
#[export] Instance ConnState_eq_dec : EqDecision ConnState.
Proof. solve_decision. Defined.

(** src: internal/transport/connector.go 38-61 ConnState.String *)
Definition ConnState_String (s : ConnState) : string :=
  match s with
  | StateDiscovering => "discovering" | StateSignaling => "signaling" | StateExchangingIPs => "exchanging-ips"
  | StateNATTraversal => "nat-traversal" | StateConnected => "connected" | StateConnectedTor => "connected-tor"
  | StateDisconnected => "disconnected" | StateFailed => "failed" | StateReconnecting => "reconnecting"
  end.

(** src: internal/transport/nat.go 13-20 NATStrategy *)
Inductive NATStrategy := StrategyDirect | StrategyHolePunch | StrategyRelay | StrategyTorOnly.
#[export] Instance NATStrategy_eq_dec : EqDecision NATStrategy.
Proof. solve_decision. Defined.

(** src: internal/transport/nat.go 22-35 NATStrategy.String *)
Definition NATStrategy_String (s : NATStrategy) : string :=
  match s with
  | StrategyDirect => "direct" | StrategyHolePunch => "holepunch" | StrategyRelay => "relay"
  | StrategyTorOnly => "tor-only"
  end.

(** [from <= s] on the underlying integers. *)
Definition rank (s : NATStrategy) : Z :=
  match s with StrategyDirect => 0 | StrategyHolePunch => 1 | StrategyRelay => 2 | StrategyTorOnly => 3 end.

(** src: internal/transport/nat.go 38-42 NATResult *)
Record NATResult := mkNAT { nat_Strategy : NATStrategy; nat_Addrs : list string; nat_Latency : Z }.

(** ** nat.go *)

(** What libp2p does with a connection attempt: [na_direct] and [na_relay] the outcome of
    [Connect] with the addresses and the latency, [na_upgrade] whether a direct connection
    appears before the hole-punching timeout. *)
Record nat_env := mkNatEnv {
  na_direct : option (list string * Z);
  na_relay_first : bool;
  na_upgrade : option (list string * Z);
  na_relay : option (list string * Z)
}.

(** The addresses are the strings of parsed multiaddrs. *)
(** src: internal/transport/nat.go 196-204 filterNonRelay *)
Definition filterNonRelay (addrs : list string) : list string :=
  List.filter (fun a => negb (Contains a "/p2p-circuit")) addrs.
(** src: internal/transport/nat.go 207-215 filterRelay *)
Definition filterRelay (addrs : list string) : list string :=
  List.filter (fun a => Contains a "/p2p-circuit") addrs.

(** src: internal/transport/nat.go 107-128 tryDirect *)
Definition tryDirect (addrs : list string) (env : nat_env) : option NATResult :=
  match filterNonRelay addrs with
  | [] => None
  | _ => '(a, l) ← na_direct env; Some (mkNAT StrategyDirect a l)
  end.

(** src: internal/transport/nat.go 133-170 tryHolePunch *)
Definition tryHolePunch (addrs : list string) (env : nat_env) : option NATResult :=
  match filterRelay addrs with
  | [] => None
  | _ => if negb (na_relay_first env) then None
         else '(a, l) ← na_upgrade env; Some (mkNAT StrategyHolePunch a l)
  end.

(** src: internal/transport/nat.go 173-193 tryRelay *)
Definition tryRelay (addrs : list string) (env : nat_env) : option NATResult :=
  match filterRelay addrs with
  | [] => None
  | _ => '(a, l) ← na_relay env; Some (mkNAT StrategyRelay a l)
  end.

Definition tor_only : NATResult := mkNAT StrategyTorOnly [] 0.

(** src: internal/transport/nat.go 62-79 NATTraverseFrom *)
Definition NATTraverseFrom (addrs : list string) (env : nat_env) (from : NATStrategy) : NATResult :=
  let try s f k := match (if rank from <=? rank s then f addrs env else None) with Some r => r | None => k end in
  try StrategyDirect tryDirect (try StrategyHolePunch tryHolePunch (try StrategyRelay tryRelay tor_only)).

(** src: internal/transport/nat.go 84-104 NATTraverse *)
Definition NATTraverse (addrs : list string) (env : nat_env) : NATResult :=
  match tryDirect addrs env with
  | Some r => r
  | None =>
      match tryHolePunch addrs env with
      | Some r => r
      | None => match tryRelay addrs env with Some r => r | None => tor_only end
      end
  end.

(** ** connector.go: data *)

(** src: internal/transport/connector.go 64-72 PeerConnection *)
Record PeerConnection := mkPC {
  pc_Address : string; pc_State : ConnState; pc_Strategy : NATStrategy; pc_Latency : Z; pc_PeerID : string;
  pc_Addrs : list string; pc_LastActivity : Z
}.

Inductive conn_err :=
| ErrDiscovering | ErrDialing | ErrHandshaking (e : client_err) | ErrExchanging (e : ipx_err) | ErrPeerID
| ErrNoMultiaddrs | ErrContext | ErrRetries (last : conn_err) | ErrExhausted
| NilHost.   (* a method call on a nil host: a panic *)

(** [se_Error]: the error whose text the event carries; [None]: the empty text. *)
(** src: internal/transport/connector.go 75-79 StateEvent *)
Record StateEvent := mkStateEvent { se_PeerAddr : string; se_State : ConnState; se_Error : option conn_err }.

(** src: internal/transport/connector.go 87-90 PeerLookupResult *)
Record PeerLookupResult := mkLookup { lk_Address : string; lk_OnionAddr : string }.

(** src: internal/transport/connector.go 98-108 CachedLookupMaxAge, ReconnectMaxRetries, cachedLookup *)
Definition ReconnectMaxRetries : nat := 3.
Definition CachedLookupMaxAge : Z := GoTime.Hour.
Record cachedLookup := mkCached { cl_Result : PeerLookupResult; cl_CachedAt : Z }.

(** [cn_events]: what [OnState] was called with.  [cn_host]: the libp2p host is configured;
    [cn_closed]: the peers whose libp2p connections were closed. *)
(** src: internal/transport/connector.go 123-138 Connector *)
Record Connector := mkConnector {
  cn_host : bool; cn_maxPeers : Z; cn_maxXfers : Z;
  cn_peers : gmap string PeerConnection;
  cn_lookupCache : gmap string cachedLookup;
  cn_activeXfers : Z;
  cn_events : list StateEvent;
  cn_closed : list string
}.

(** src: internal/transport/connector.go 141-167 NewConnector *)
Definition NewConnector (host : bool) (maxPeers maxXfers : Z) : Connector :=
  mkConnector host (if maxPeers <=? 0 then 50 else maxPeers) (if maxXfers <=? 0 then 5 else maxXfers) ∅ ∅ 0 [] [].

Definition set_peers (c : Connector) (p : gmap string PeerConnection) : Connector :=
  mkConnector (cn_host c) (cn_maxPeers c) (cn_maxXfers c) p (cn_lookupCache c) (cn_activeXfers c) (cn_events c) (cn_closed c).
Definition set_cache (c : Connector) (m : gmap string cachedLookup) : Connector :=
  mkConnector (cn_host c) (cn_maxPeers c) (cn_maxXfers c) (cn_peers c) m (cn_activeXfers c) (cn_events c) (cn_closed c).
Definition set_xfers (c : Connector) (n : Z) : Connector :=
  mkConnector (cn_host c) (cn_maxPeers c) (cn_maxXfers c) (cn_peers c) (cn_lookupCache c) n (cn_events c) (cn_closed c).
Definition close_peer (c : Connector) (id : string) : Connector :=
  mkConnector (cn_host c) (cn_maxPeers c) (cn_maxXfers c) (cn_peers c) (cn_lookupCache c) (cn_activeXfers c) (cn_events c)
    (cn_closed c ++ [id]).
Definition emit (c : Connector) (e : StateEvent) : Connector :=
  mkConnector (cn_host c) (cn_maxPeers c) (cn_maxXfers c) (cn_peers c) (cn_lookupCache c) (cn_activeXfers c)
    (cn_events c ++ [e]) (cn_closed c).

Definition connected (s : ConnState) : bool :=
  bool_decide (s = StateConnected) || bool_decide (s = StateConnectedTor).

(** src: internal/transport/connector.go 605-614 Connector.setState *)
Definition setState (c : Connector) (pc : PeerConnection) (state : ConnState) (err : option conn_err) : Connector * PeerConnection :=
  (emit c (mkStateEvent (pc_Address pc) state err),
   mkPC (pc_Address pc) state (pc_Strategy pc) (pc_Latency pc) (pc_PeerID pc) (pc_Addrs pc) (pc_LastActivity pc)).

(** A connection just allocated. *)
Definition new_pc (addr : string) (now : Z) : PeerConnection := mkPC addr StateDiscovering StrategyDirect 0 "" [] now.

Definition touch (pc : PeerConnection) (now : Z) : PeerConnection :=
  mkPC (pc_Address pc) (pc_State pc) (pc_Strategy pc) (pc_Latency pc) (pc_PeerID pc) (pc_Addrs pc) now.

(** ** connector.go: the table *)

(** src: internal/transport/connector.go 258-266 Connector.GetPeer *)
Definition GetPeer (c : Connector) (addr : string) : option PeerConnection := cn_peers c !! addr.

(** src: internal/transport/connector.go 269-280 Connector.ActivePeers *)
Definition ActivePeers (c : Connector) : list PeerConnection :=
  List.filter (fun pc => connected (pc_State pc)) (map_to_list (cn_peers c)).*2.

(** The loop over the map: the least recently active connected peer. *)
(** src: internal/transport/connector.go 501-511 Connector.evictIfNeededLocked *)
Definition older (best : option (string * PeerConnection)) (e : string * PeerConnection) :
    option (string * PeerConnection) :=
  if negb (connected (pc_State e.2)) then best
  else match best with
       | None => Some e
       | Some b => if GoTime.Before (pc_LastActivity e.2) (pc_LastActivity b.2) then Some e else best
       end.

(** src: internal/transport/connector.go 497-518 Connector.evictIfNeededLocked *)
Definition evictIfNeededLocked (c : Connector) : Connector :=
  if Z.of_nat (size (cn_peers c)) <? cn_maxPeers c then c
  else match fold_left older (map_to_list (cn_peers c)) None with
  | None => c
  | Some (oldestAddr, oldest) =>
      let c := if cn_host c && negb (bool_decide (pc_PeerID oldest = ""%string)) then close_peer c (pc_PeerID oldest) else c in
      if bool_decide (oldestAddr = ""%string) then c else set_peers c (delete oldestAddr (cn_peers c))
  end.

(** src: internal/transport/connector.go 522-532 Connector.AcquireTransferSlot *)
Definition AcquireTransferSlot (c : Connector) : bool * Connector :=
  if cn_maxXfers c <=? cn_activeXfers c then (false, c) else (true, set_xfers c (i32 (cn_activeXfers c + 1))).

(** src: internal/transport/connector.go 535-537 Connector.ReleaseTransferSlot *)
Definition ReleaseTransferSlot (c : Connector) : Connector := set_xfers c (i32 (cn_activeXfers c - 1)).

(** ** connector.go: the flow *)

(** The answers to one flow: the clock at the cache check and after the lookup, the
    lookup, the dial, the conversation on the connection (Session.v), the peer ID of a
    key, the parsed form of a multiaddr, the NAT attempts and the clock at the end. *)
Record flow_env := mkFlow {
  fe_now : Z; fe_find : option PeerLookupResult; fe_found : Z;
  fe_dial : bool;
  fe_handshake : result client_err HandshakeResult;
  fe_exchange : result ipx_err IPInfo;
  fe_peerID : bytes -> option string;
  fe_parse : string -> option string;
  fe_nat : nat_env;
  fe_done : Z
}.

(** src: internal/transport/connector.go 470-493 Connector.cachedOrFreshLookup *)
Definition cachedOrFreshLookup (c : Connector) (addr : string) (env : flow_env) : option PeerLookupResult * Connector :=
  let cached := cn_lookupCache c !! addr in
  match cached with
  | Some cl => if GoTime.Sub (fe_now env) (cl_CachedAt cl) <? CachedLookupMaxAge then (Some (cl_Result cl), c)
               else match fe_find env with
                    | None => (Some (cl_Result cl), c)
                    | Some r => (Some r, set_cache c (<[addr := mkCached r (fe_found env)]> (cn_lookupCache c)))
                    end
  | None => match fe_find env with
            | None => (None, c)
            | Some r => (Some r, set_cache c (<[addr := mkCached r (fe_found env)]> (cn_lookupCache c)))
            end
  end.

(** src: internal/transport/connector.go 676-689 buildPeerAddrInfo *)
Definition buildPeerAddrInfo (parse : string -> option string) (addrs : list string) : option (list string) :=
  match omap parse addrs with [] => None | l => Some l end.

(** The end of a flow: a direct path, or Tor. *)
(** src: internal/transport/connector.go 328-354 Connector.connectFlow *)
Definition finish (c : Connector) (pc : PeerConnection) (env : flow_env) (addrs : IPInfo)
    (traverse : list string -> nat_env -> NATResult) : result conn_err unit * Connector * PeerConnection :=
  let over_tor (c : Connector) (pc : PeerConnection) :=
    let pc := mkPC (pc_Address pc) (pc_State pc) StrategyTorOnly (pc_Latency pc) (pc_PeerID pc) (pc_Addrs pc) (fe_done env) in
    let '(c, pc) := setState c pc StateConnectedTor None in (Ok tt, c, pc) in
  match addrs with
  | [] => over_tor c pc
  | _ =>
      let '(c, pc) := setState c pc StateNATTraversal None in
      match buildPeerAddrInfo (fe_parse env) addrs with
      | None => (Err ErrNoMultiaddrs, c, pc)
      | Some l =>
          let r := traverse l (fe_nat env) in
          let pc := mkPC (pc_Address pc) (pc_State pc) (nat_Strategy r) (nat_Latency r) (pc_PeerID pc) (nat_Addrs r)
                      (pc_LastActivity pc) in
          if negb (bool_decide (nat_Strategy r = StrategyTorOnly)) then
            let '(c, pc) := setState c (touch pc (fe_done env)) StateConnected None in (Ok tt, c, pc)
          else over_tor c pc
      end
  end.

(** [connectFlow] and [connectFlowFromStrategy] differ in the traversal only.  The host's
    addresses are read without a check that there is a host. *)
(** src: internal/transport/connector.go 282-355 Connector.connectFlow *)
Definition flow (c : Connector) (pc : PeerConnection) (env : flow_env)
    (traverse : list string -> nat_env -> NATResult) : result conn_err unit * Connector * PeerConnection :=
  let '(c, pc) := setState c pc StateDiscovering None in
  match cachedOrFreshLookup c (pc_Address pc) env with
  | (None, c) => (Err ErrDiscovering, c, pc)
  | (Some _, c) =>
      let '(c, pc) := setState c pc StateSignaling None in
      if negb (fe_dial env) then (Err ErrDialing, c, pc)
      else match fe_handshake env with
      | Err e => (Err (ErrHandshaking e), c, pc)
      | Ok hsResult =>
          let '(c, pc) := setState c pc StateExchangingIPs None in
          if negb (cn_host c) then (Err NilHost, c, pc)
          else match fe_exchange env with
          | Err e => (Err (ErrExchanging e), c, pc)
          | Ok peerIPInfo =>
              match fe_peerID env (PeerPubKey hsResult) with
              | None => (Err ErrPeerID, c, pc)
              | Some id =>
                  let pc := mkPC (pc_Address pc) (pc_State pc) (pc_Strategy pc) (pc_Latency pc) id (pc_Addrs pc)
                              (pc_LastActivity pc) in
                  finish c pc env peerIPInfo traverse
              end
          end
      end
  end.

(** src: internal/transport/connector.go 282-355 Connector.connectFlow *)
Definition connectFlow (c : Connector) (pc : PeerConnection) (env : flow_env) := flow c pc env NATTraverse.

(** src: internal/transport/connector.go 398-467 Connector.connectFlowFromStrategy *)
Definition connectFlowFromStrategy (c : Connector) (pc : PeerConnection) (env : flow_env) (start : NATStrategy) :=
  flow c pc env (fun a e => NATTraverseFrom a e start).

(** The table holds the connection itself: what happens to it shows there. *)
Definition put (c : Connector) (pc : PeerConnection) : Connector :=
  set_peers c (<[pc_Address pc := pc]> (cn_peers c)).

Definition live (c : Connector) (addr : string) : option PeerConnection :=
  match cn_peers c !! addr with
  | Some pc => if connected (pc_State pc) then Some pc else None
  | None => None
  end.

(** src: internal/transport/connector.go 171-191 Connector.Connect *)
Definition Connect (c : Connector) (peerAddr : string) (now : Z) (env : flow_env) :
    result conn_err PeerConnection * Connector :=
  match live c peerAddr with
  | Some existing => (Ok existing, c)
  | None =>
      let pc := new_pc peerAddr now in
      let c := put (evictIfNeededLocked c) pc in
      match connectFlow c pc env with
      | (Err e, c, pc) => let '(c, pc) := setState c pc StateFailed (Some e) in (Err e, put c pc)
      | (Ok _, c, pc) => let pc := touch pc (fe_done env) in (Ok pc, put c pc)
      end
  end.

(** The attempts of [Reconnect]: whether the context ends during the wait before an
    attempt, and the answers to it. *)
(** src: internal/transport/connector.go 213-234 Connector.Reconnect *)
Fixpoint reconnect_loop (attempts : list (bool * flow_env)) (first : bool) (last : conn_err) (c : Connector)
    (pc : PeerConnection) : result conn_err PeerConnection * Connector * PeerConnection :=
  match attempts with
  | [] => let '(c, pc) := setState c pc StateFailed (Some last) in (Err (ErrRetries last), c, pc)
  | (ctxDone, env) :: attempts =>
      if negb first && ctxDone then let '(c, pc) := setState c pc StateFailed (Some ErrContext) in (Err ErrContext, c, pc)
      else match connectFlow c pc env with
           | (Err e, c, pc) => reconnect_loop attempts false e c pc
           | (Ok _, c, pc) => let pc := touch pc (fe_done env) in (Ok pc, c, pc)
           end
  end.

Definition close_stale (c : Connector) (peerAddr : string) : Connector :=
  match cn_peers c !! peerAddr with
  | Some pc => if negb (bool_decide (pc_PeerID pc = ""%string)) && cn_host c then close_peer c (pc_PeerID pc) else c
  | None => c
  end.

(** src: internal/transport/connector.go 195-235 Connector.Reconnect *)
Definition Reconnect (c : Connector) (peerAddr : string) (now : Z) (attempt : nat -> bool * flow_env) :
    result conn_err PeerConnection * Connector :=
  match live c peerAddr with
  | Some existing => (Ok existing, c)
  | None =>
      let pc := new_pc peerAddr now in
      let c := put (close_stale c peerAddr) pc in
      let '(c, pc) := setState c pc StateReconnecting None in
      let '(r, c, pc) := reconnect_loop (attempt <$> seq 0 ReconnectMaxRetries) true ErrContext c pc in
      (r, put c pc)
  end.

(** The strategies after one, in order. *)
Definition lower_strategies (s : NATStrategy) : list NATStrategy :=
  List.filter (fun s' => rank s <? rank s') [StrategyDirect; StrategyHolePunch; StrategyRelay; StrategyTorOnly].

(** src: internal/transport/connector.go 379-393 Connector.ReconnectWithFallback *)
Fixpoint fallback_loop (strategies : list NATStrategy) (env : nat -> flow_env) (i : nat) (c : Connector)
    (pc : PeerConnection) : result conn_err PeerConnection * Connector * PeerConnection :=
  match strategies with
  | [] => let '(c, pc) := setState c pc StateFailed (Some ErrExhausted) in (Err ErrExhausted, c, pc)
  | s :: strategies =>
      match connectFlowFromStrategy c pc (env i) s with
      | (Ok _, c, pc) => (Ok pc, c, pc)
      | (Err _, c, pc) => fallback_loop strategies env (S i) c pc
      end
  end.

(** src: internal/transport/connector.go 359-394 Connector.ReconnectWithFallback *)
Definition ReconnectWithFallback (c : Connector) (peerAddr : string) (now : Z) (env : nat -> flow_env) :
    result conn_err PeerConnection * Connector :=
  let prevStrategy := match cn_peers c !! peerAddr with Some prev => pc_Strategy prev | None => StrategyDirect end in
  let pc := new_pc peerAddr now in
  let c := put (close_stale c peerAddr) pc in
  let '(c, pc) := setState c pc StateReconnecting None in
  let '(r, c, pc) := fallback_loop (prevStrategy :: lower_strategies prevStrategy) env 0 c pc in
  (r, put c pc).

(** [None]: the call of a method on a nil host panics. *)
(** src: internal/transport/connector.go 238-255 Connector.Disconnect *)
Definition Disconnect (c : Connector) (peerAddr : string) : option Connector :=
  match cn_peers c !! peerAddr with
  | None => Some c
  | Some pc =>
      let has_id := negb (bool_decide (pc_PeerID pc = ""%string)) in
      if has_id && negb (cn_host c) then None
      else
        let c := if has_id then close_peer c (pc_PeerID pc) else c in
        let '(c, _) := setState c pc StateDisconnected None in
        Some (set_peers c (delete peerAddr (cn_peers c)))
  end.

(** ** The states of a flow *)

(** The transitions the connector announces. *)
Definition next_state (a b : ConnState) : bool :=
  match a, b with
  | StateDiscovering, StateSignaling | StateSignaling, StateExchangingIPs
  | StateExchangingIPs, StateNATTraversal | StateExchangingIPs, StateConnectedTor
  | StateNATTraversal, StateConnected | StateNATTraversal, StateConnectedTor => true
  | (StateDiscovering | StateSignaling | StateExchangingIPs | StateNATTraversal), StateFailed => true
  | _, _ => false
  end.

Fixpoint path_from (a : ConnState) (l : list ConnState) : bool :=
  match l with [] => true | b :: l => next_state a b && path_from b l end.

(** A path that starts with discovery. *)
Definition flow_path (l : list ConnState) : Prop :=
  exists rest, l = StateDiscovering :: rest /\ path_from StateDiscovering rest = true.

Lemma path_from_snoc a l b c :
  path_from a l = true -> last (a :: l) = Some b -> next_state b c = true -> path_from a (l ++ [c]) = true.
Proof.
  revert a. induction l as [|x l IH]; intros a Hp Hl Hn.
  - injection Hl as <-. cbn. by rewrite Hn.
  - cbn in *. apply andb_prop in Hp as [-> Hp]. by apply IH.
Qed.

(** Only the event of a failure carries an error. *)
Definition state_event (addr : string) (err : option conn_err) (s : ConnState) : StateEvent :=
  mkStateEvent addr s (match s with StateFailed => err | _ => None end).

Definition announced (c c' : Connector) (addr : string) (path : list ConnState) (err : option conn_err) : Prop :=
  cn_events c' = cn_events c ++ (state_event addr err <$> path).

(** The parts of the connector a flow leaves alone. *)
Definition same_table (c c' : Connector) : Prop :=
  cn_peers c' = cn_peers c /\ cn_host c' = cn_host c /\ cn_maxPeers c' = cn_maxPeers c /\ cn_closed c' = cn_closed c.

Lemma cachedOrFreshLookup_table c addr env r c' :
  cachedOrFreshLookup c addr env = (r, c') -> same_table c c' /\ cn_events c' = cn_events c.
Proof. unfold cachedOrFreshLookup, same_table. intros Hl. go_cases; by split_and!. Qed.

(** The direct strategies are tried only with addresses. *)
Definition strategy_state (pc : PeerConnection) : Prop :=
  connected (pc_State pc) = true /\ (pc_State pc = StateConnected <-> pc_Strategy pc <> StrategyTorOnly).

Lemma announced_emit c c1 addr path err st :
  announced c c1 addr path err -> announced c (emit c1 (state_event addr err st)) addr (path ++ [st]) err.
Proof. unfold announced. cbn [emit cn_events]. intros ->. by rewrite fmap_app, app_assoc. Qed.

Lemma same_table_emit c c1 e : same_table c c1 -> same_table c (emit c1 e).
Proof. done. Qed.

Lemma same_table_trans c1 c2 c3 : same_table c1 c2 -> same_table c2 c3 -> same_table c1 c3.
Proof. unfold same_table. intros (-> & -> & -> & ->) (-> & -> & -> & ->). done. Qed.

(** The end of a flow that reached the exchange. *)
Lemma finish_spec c c3 pc env addrs traverse r c' pc' path err :
  same_table c c3 -> announced c c3 (pc_Address pc) path err -> pc_State pc = StateExchangingIPs ->
  finish c3 pc env addrs traverse = (r, c', pc') ->
  same_table c c' /\ pc_Address pc' = pc_Address pc /\ pc_PeerID pc' = pc_PeerID pc /\
  exists rest, announced c c' (pc_Address pc) (path ++ rest) err /\ path_from StateExchangingIPs rest = true /\
    last (StateExchangingIPs :: rest) = Some (pc_State pc') /\
    match r with Ok _ => strategy_state pc' | Err _ => next_state (pc_State pc') StateFailed = true end.
Proof.
  intros Hst Ha Hex Hf. unfold finish in Hf. cbn [setState] in Hf.
  destruct addrs as [|a addrs].
  { injection Hf as <- <- <-. split_and!; [done..|]. exists [StateConnectedTor].
    split_and!; [exact (announced_emit _ _ _ _ err StateConnectedTor Ha)|done|done|by split]. }
  pose proof (announced_emit _ _ _ _ _ StateNATTraversal Ha) as Ha1.
  destruct (buildPeerAddrInfo _ _) as [l|].
  2: { injection Hf as <- <- <-. split_and!; [done..|]. exists [StateNATTraversal]. by split_and!. }
  destruct (decide (nat_Strategy (traverse l (fe_nat env)) = StrategyTorOnly)) as [Ht|Ht].
  - rewrite bool_decide_eq_true_2 in Hf by done. cbn [negb] in Hf. injection Hf as <- <- <-.
    split_and!; [done..|]. exists ([StateNATTraversal] ++ [StateConnectedTor]). rewrite app_assoc.
    split_and!; [exact (announced_emit _ _ _ _ _ StateConnectedTor Ha1)|done|done|by split].
  - rewrite bool_decide_eq_false_2 in Hf by done. cbn [negb] in Hf. injection Hf as <- <- <-.
    split_and!; [done..|]. exists ([StateNATTraversal] ++ [StateConnected]). rewrite app_assoc.
    split_and!; [exact (announced_emit _ _ _ _ _ StateConnected Ha1)|done|done|by split].
Qed.

Lemma flow_spec err c pc env traverse r c' pc' :
  flow c pc env traverse = (r, c', pc') ->
  same_table c c' /\ pc_Address pc' = pc_Address pc /\
  exists path, announced c c' (pc_Address pc) path err /\ flow_path path /\ last path = Some (pc_State pc') /\
    match r with
    | Ok _ => strategy_state pc' /\ exists hs info, fe_handshake env = Ok hs /\ fe_exchange env = Ok info /\
        fe_peerID env (PeerPubKey hs) = Some (pc_PeerID pc')
    | Err _ => next_state (pc_State pc') StateFailed = true
    end.
Proof.
  unfold flow. cbn [setState]. intros Hf.
  set (c0 := emit c (mkStateEvent (pc_Address pc) StateDiscovering None)) in *.
  assert (announced c c0 (pc_Address pc) [StateDiscovering] err) as Ha0 by done.
  assert (same_table c c0) as Ht0 by done. clearbody c0. cbn [pc_Address] in Hf.
  destruct (cachedOrFreshLookup c0 (pc_Address pc) env) as [o c1] eqn:Hl.
  apply cachedOrFreshLookup_table in Hl as [Ht1 He1]. pose proof (same_table_trans _ _ _ Ht0 Ht1) as Ht.
  assert (announced c c1 (pc_Address pc) [StateDiscovering] err) as Ha1 by (unfold announced in *; by rewrite He1).
  clear Ht0 Ht1 Ha0 He1. destruct o as [lk|].
  2: { injection Hf as <- <- <-. split_and!; [done..|]. exists [StateDiscovering].
       split_and!; [done|by exists []|done|done]. }
  pose proof (announced_emit _ _ _ _ _ StateSignaling Ha1) as Ha2.
  set (c2 := emit c1 _) in *. assert (same_table c c2) as Ht2 by done. clearbody c2. clear Ha1 Ht c1.
  cbn [app] in Ha2. destruct (fe_dial env); cbn [negb] in Hf.
  2: { injection Hf as <- <- <-. split_and!; [done..|]. exists [StateDiscovering; StateSignaling].
       split_and!; [done|by eexists|done|done]. }
  destruct (fe_handshake env) as [hs|e] eqn:Hhs.
  2: { injection Hf as <- <- <-. split_and!; [done..|]. exists [StateDiscovering; StateSignaling].
       split_and!; [done|by eexists|done|done]. }
  pose proof (announced_emit _ _ _ _ _ StateExchangingIPs Ha2) as Ha3.
  set (c3 := emit c2 _) in *. assert (same_table c c3) as Ht3 by done. clearbody c3. clear Ha2 Ht2 c2.
  cbn [app] in Ha3.
  assert (flow_path [StateDiscovering; StateSignaling; StateExchangingIPs]) as Hp3 by (by eexists).
  destruct (cn_host c3); cbn [negb] in Hf.
  2: { injection Hf as <- <- <-. split_and!; [done..|]. eexists. by split_and!. }
  destruct (fe_exchange env) as [info|e] eqn:Hx.
  2: { injection Hf as <- <- <-. split_and!; [done..|]. eexists. by split_and!. }
  destruct (fe_peerID env (PeerPubKey hs)) as [id|] eqn:Hid.
  2: { injection Hf as <- <- <-. split_and!; [done..|]. eexists. by split_and!. }
  eapply finish_spec in Hf as (Ht & Haddr & Hpid & rest & Ha & Hpath & Hlast & Hr); [|exact Ht3|exact Ha3|done].
  split_and!; [done|done|]. exists ([StateDiscovering; StateSignaling; StateExchangingIPs] ++ rest).
  split_and!; [exact Ha| |exact Hlast|].
  - exists ([StateSignaling; StateExchangingIPs] ++ rest). split; [done|exact Hpath].
  - destruct r; [|exact Hr]. split; [exact Hr|]. exists hs, info. split_and!; [done..|]. by rewrite Hpid.
Qed.

(** ** The operations *)

(** What [Connect] does, over the table the eviction leaves. *)
Lemma Connect_spec c addr now env :
  match live c addr with
  | Some existing => Connect c addr now env = (Ok existing, c)
  | None =>
      exists path pc, let '(r, c') := Connect c addr now env in
        announced c c' addr path (match r with Ok _ => None | Err e => Some e end) /\ flow_path path /\ last path = Some (pc_State pc) /\
        pc_Address pc = addr /\ cn_peers c' = <[addr := pc]> (cn_peers (evictIfNeededLocked c)) /\
        match r with
        | Ok pc' => pc' = pc /\ strategy_state pc /\
            exists hs info, fe_handshake env = Ok hs /\ fe_exchange env = Ok info /\
              fe_peerID env (PeerPubKey hs) = Some (pc_PeerID pc)
        | Err _ => pc_State pc = StateFailed
        end
  end.
Proof.
  unfold Connect. destruct (live c addr) as [pc|]; [done|].
  destruct (connectFlow _ _ _) as [[r c2] pc2] eqn:Hf.
  apply (flow_spec (match r with Ok _ => None | Err e => Some e end)) in Hf
    as ((Hp & _) & Haddr & path & Ha & (rest & -> & Hpath) & Hlast & Hr).
  assert (cn_events (put (evictIfNeededLocked c) (new_pc addr now)) = cn_events c) as He.
  { unfold evictIfNeededLocked. go_cases; done. }
  unfold announced in Ha. rewrite He in Ha.
  cbn [pc_Address new_pc put set_peers cn_peers] in *. destruct r as [u|e].
  - exists (StateDiscovering :: rest), (touch pc2 (fe_done env)). cbn. rewrite Haddr, Hp, insert_insert_eq.
    split; [exact Ha|]. split; [by exists rest|]. do 4 (split; [done|]). exact Hr.
  - exists (StateDiscovering :: rest ++ [StateFailed]), (setState c2 pc2 StateFailed (Some e)).2. cbn [setState snd]. cbv beta iota.
    cbn [put set_peers cn_peers emit pc_Address]. rewrite Haddr, Hp, insert_insert_eq.
    split; [exact (announced_emit c c2 addr (StateDiscovering :: rest) (Some e) StateFailed Ha)|].
    split; [exists (rest ++ [StateFailed]); split; [done|by eapply path_from_snoc]|].
    split; [exact (last_snoc StateFailed (StateDiscovering :: rest))|done].
Qed.

(** ** The strategies *)

(** One strategy, tried. *)
Definition try_strategy (addrs : list string) (env : nat_env) (s : NATStrategy) : option NATResult :=
  match s with
  | StrategyDirect => tryDirect addrs env
  | StrategyHolePunch => tryHolePunch addrs env
  | StrategyRelay => tryRelay addrs env
  | StrategyTorOnly => None
  end.

(** The strategies of the network from one on, best first. *)
Definition strategies_from (from : NATStrategy) : list NATStrategy :=
  List.filter (fun s => rank from <=? rank s) [StrategyDirect; StrategyHolePunch; StrategyRelay].

Lemma elem_strategies_from from s : s ∈ strategies_from from <-> rank from <= rank s < 3.
Proof.
  unfold strategies_from. rewrite list_elem_of_In, filter_In, Z.leb_le. split.
  - intros [Hin Hle]. split; [done|]. destruct s; try done. cbn in Hin. intuition discriminate.
  - intros [Hle Hlt]. split; [|done]. destruct s; cbn in *; [tauto|tauto|tauto|lia].
Qed.

Lemma try_strategy_Some addrs env s r : try_strategy addrs env s = Some r ->
  nat_Strategy r = s /\
  match s with StrategyDirect => filterNonRelay addrs <> [] | _ => filterRelay addrs <> [] end.
Proof.
  destruct s; cbn; unfold tryDirect, tryHolePunch, tryRelay; [| | |done].
  - destruct (filterNonRelay addrs); [done|]. by intros ([? ?] & _ & [= <-])%bind_Some.
  - destruct (filterRelay addrs), (na_relay_first env); try done. by intros ([? ?] & _ & [= <-])%bind_Some.
  - destruct (filterRelay addrs); [done|]. by intros ([? ?] & _ & [= <-])%bind_Some.
Qed.

(** The search as a reference definition. *)
Definition best_strategy (addrs : list string) (env : nat_env) (from : NATStrategy) : NATResult :=
  default tor_only (head (omap (try_strategy addrs env) (strategies_from from))).

Lemma NATTraverseFrom_best addrs env from : NATTraverseFrom addrs env from = best_strategy addrs env from.
Proof.
  unfold NATTraverseFrom, best_strategy. destruct from; cbn [rank strategies_from List.filter Z.leb Z.compare Pos.compare
    Pos.compare_cont omap list_omap try_strategy];
  destruct (tryDirect addrs env), (tryHolePunch addrs env), (tryRelay addrs env); reflexivity.
Qed.

(** NAT traversal tries direct, hole punching and relay in this order, from the first
    strategy allowed, and takes the first that works, or Tor when none does; [NATTraverse]
    starts from the beginning.  The result is never better than the first strategy allowed,
    and a relay or hole punching is used only when the peer has a relay address, a direct
    path only when it has another. *)
Theorem NATTraverse_contract addrs env from :
  let r := NATTraverseFrom addrs env from in
  r = best_strategy addrs env from /\
  NATTraverse addrs env = best_strategy addrs env StrategyDirect /\
  rank from <= rank (nat_Strategy r) /\
  match nat_Strategy r with
  | StrategyDirect => filterNonRelay addrs <> []
  | StrategyHolePunch | StrategyRelay => filterRelay addrs <> []
  | StrategyTorOnly => forall s, rank from <= rank s -> try_strategy addrs env s = None
  end.
Proof.
  intros r. split; [apply NATTraverseFrom_best|]. split; [by rewrite <- NATTraverseFrom_best|].
  subst r. rewrite NATTraverseFrom_best. unfold best_strategy.
  destruct (head (omap (try_strategy addrs env) (strategies_from from))) as [r|] eqn:Hh.
  - change (default tor_only (Some r)) with r. apply head_Some in Hh as [l Hl].
    assert (r ∈ omap (try_strategy addrs env) (strategies_from from)) as Hin by (rewrite Hl; left).
    apply list_elem_of_omap in Hin as (s & Hs%elem_strategies_from & Ht).
    destruct (try_strategy_Some _ _ _ _ Ht) as [-> Hf]. split; [lia|]. by destruct s.
  - split; [by destruct from|]. cbn. intros s Hs. destruct (try_strategy addrs env s) as [r|] eqn:Ht; [|done].
    destruct (decide (rank s < 3)); [|by destruct s].
    assert (r ∈ omap (try_strategy addrs env) (strategies_from from)) as Hin.
    { apply list_elem_of_omap. exists s. by rewrite elem_strategies_from. }
    apply head_None in Hh. rewrite Hh in Hin. by apply elem_of_nil in Hin.
Qed.
