(* ===== verification/Peers.v ===== *)
(** * The limit on connected peers

    What [evictIfNeededLocked] (connector.go) keeps of its limit: [Connect] and
    [Disconnect] never leave more connected peers than [maxPeers], the one evicted is the
    least recently active, but entries that are not connected are never evicted. *)

From S2P Require Import Prelude GoStd Sha256 Crypto Protocol Instances Identity Wire IPExchange Signaling Session Connector.
Local Open Scope go_scope.

(** ** The connected entries *)

Definition connected_peers (m : gmap string PeerConnection) : gmap string PeerConnection :=
  filter (fun e => connected (pc_State e.2) = true) m.

Definition live_count (c : Connector) : nat := size (connected_peers (cn_peers c)).

Lemma lookup_connected m a pc :
  connected_peers m !! a = Some pc <-> m !! a = Some pc /\ connected (pc_State pc) = true.
Proof. unfold connected_peers. by rewrite map_lookup_filter_Some. Qed.

Lemma live_Some c a pc : live c a = Some pc <-> connected_peers (cn_peers c) !! a = Some pc.
Proof.
  rewrite lookup_connected. unfold live. destruct (cn_peers c !! a) as [p|]; [|split; [done|by intros [? _]]].
  destruct (connected (pc_State p)) eqn:Hp; split; [intros [= ->]|intros [[= ->] ?]|done|intros [[= ->] ?]]; congruence || done.
Qed.

Lemma live_None c a : live c a = None <-> connected_peers (cn_peers c) !! a = None.
Proof. rewrite !eq_None_not_Some. unfold is_Some. by setoid_rewrite live_Some. Qed.

Lemma connected_delete m a : connected_peers (delete a m) = delete a (connected_peers m).
Proof. apply map_filter_delete. Qed.

Lemma connected_insert m a pc : connected_peers (<[a := pc]> m) =
  if connected (pc_State pc) then <[a := pc]> (connected_peers m) else delete a (connected_peers m).
Proof.
  unfold connected_peers. rewrite map_filter_insert. cbn [snd]. destruct (connected (pc_State pc)).
  - by rewrite decide_True.
  - rewrite decide_False by done. by rewrite map_filter_delete.
Qed.

Lemma size_connected m : (size (connected_peers m) <= size m)%nat.
Proof. apply map_size_filter. Qed.

(** ** The victim *)

(** [e] is the least recently active connected entry of [l]. *)
Definition least_active (l : list (string * PeerConnection)) (e : string * PeerConnection) : Prop :=
  e ∈ l /\ connected (pc_State e.2) = true /\
  forall e', e' ∈ l -> connected (pc_State e'.2) = true -> pc_LastActivity e.2 <= pc_LastActivity e'.2.

Lemma least_active_cons l x e :
  (connected (pc_State x.2) = true -> pc_LastActivity e.2 <= pc_LastActivity x.2) ->
  least_active l e -> least_active (x :: l) e.
Proof.
  intros Hx (He & Hc & Hmin). split_and!; [by right|done|].
  intros e' [->|He']%elem_of_cons; [done|]. by apply Hmin.
Qed.

Lemma least_active_perm l l' e : l ≡ₚ l' -> least_active l e -> least_active l' e.
Proof. unfold least_active. intros Hp. by setoid_rewrite Hp. Qed.

Lemma fold_older_Some l best e :
  (forall b, best = Some b -> connected (pc_State b.2) = true) ->
  fold_left older l best = Some e -> least_active (option_list best ++ l) e.
Proof.
  revert best. induction l as [|x l IH]; intros best Hb; cbn [fold_left].
  { intros ->. specialize (Hb e eq_refl). split_and!; [by left|done|].
    intros e' [->|[]%elem_of_nil]%elem_of_cons _. lia. }
  unfold older at 2. destruct (connected (pc_State x.2)) eqn:Hx; cbn [negb].
  2: { intros Hf. apply (least_active_perm (x :: option_list best ++ l)); [by apply Permutation_middle|].
       apply least_active_cons; [by rewrite Hx|by apply IH]. }
  assert (forall b, Some x = Some b -> connected (pc_State b.2) = true) as Hbx by (by intros ? [= <-]).
  destruct best as [b|]; [|by apply IH]. cbn [option_list app].
  unfold GoTime.Before. destruct (Z.ltb_spec (pc_LastActivity x.2) (pc_LastActivity b.2)); intros Hf.
  - apply IH in Hf; [|done]. apply least_active_cons; [|done]. intros _.
    destruct Hf as (_ & _ & Hmin). specialize (Hmin x ltac:(left) Hx). lia.
  - apply IH in Hf; [|done]. apply (least_active_perm (x :: b :: l)); [apply Permutation_swap|].
    apply least_active_cons; [|done]. intros _.
    destruct Hf as (_ & _ & Hmin). specialize (Hmin b ltac:(left) (Hb b eq_refl)). lia.
Qed.

Lemma fold_older_None l best :
  fold_left older l best = None -> best = None /\ forall e, e ∈ l -> connected (pc_State e.2) = false.
Proof.
  revert best. induction l as [|x l IH]; intros best; cbn [fold_left].
  { intros ->. split; [done|]. by intros e []%elem_of_nil. }
  intros [Ho Hall]%IH. unfold older in Ho. destruct (connected (pc_State x.2)) eqn:Hx; cbn [negb] in Ho.
  { destruct best; go_cases. }
  split; [done|]. intros e [->|He]%elem_of_cons; [done|by apply Hall].
Qed.

(** Who is evicted: nobody below the limit or when no entry is connected; otherwise the least
    recently active connected entry. *)
Definition evicted (c : Connector) (v : option (string * PeerConnection)) : Prop :=
  match v with
  | None => Z.of_nat (size (cn_peers c)) < cn_maxPeers c \/ connected_peers (cn_peers c) = ∅
  | Some e => cn_maxPeers c <= Z.of_nat (size (cn_peers c)) /\ least_active (map_to_list (cn_peers c)) e
  end.

Lemma evictIfNeededLocked_spec c :
  cn_peers c !! ""%string = None ->
  exists v, evicted c v /\ cn_maxPeers (evictIfNeededLocked c) = cn_maxPeers c /\
    cn_host (evictIfNeededLocked c) = cn_host c /\
    match v with
    | None => evictIfNeededLocked c = c
    | Some (a, pc) => cn_peers (evictIfNeededLocked c) = delete a (cn_peers c) /\
        (cn_host c = true -> pc_PeerID pc <> ""%string -> cn_closed (evictIfNeededLocked c) = cn_closed c ++ [pc_PeerID pc])
    end.
Proof.
  intros Hempty. unfold evictIfNeededLocked.
  destruct (Z.ltb_spec (Z.of_nat (size (cn_peers c))) (cn_maxPeers c)) as [Hlt|Hge].
  { exists None. by split_and!; [left|..]. }
  destruct (fold_left older (map_to_list (cn_peers c)) None) as [[a pc]|] eqn:Hf.
  - apply fold_older_Some in Hf; [|done]. exists (Some (a, pc)). cbn [option_list app] in Hf.
    destruct Hf as (Hin & Hc & Hmin). pose proof Hin as Ha%elem_of_map_to_list.
    rewrite (bool_decide_eq_false_2 (a = ""%string)) by (intros ->; by rewrite Hempty in Ha).
    split; [by split|]. do 3 (split; [by destruct (cn_host c && _)|]). intros -> Hid. by rewrite bool_decide_eq_false_2.
  - apply fold_older_None in Hf as [_ Hall]. exists None. split_and!; [right|done..].
    apply map_empty. intros a. apply eq_None_not_Some. intros [pc [Hpc Hc]%lookup_connected].
    specialize (Hall (a, pc)). rewrite elem_of_map_to_list in Hall. cbn in Hall. rewrite Hall in Hc; done.
Qed.

(** ** The operations *)

(** An entry other than the one [Connect] is about, after the eviction. *)
Definition kept (c : Connector) (v : option (string * PeerConnection)) (a : string) : option PeerConnection :=
  if decide (fst <$> v = Some a) then None else cn_peers c !! a.


(** The table after [Connect] on an address that is not connected. *)
Lemma Connect_peers c addr now env : live c addr = None ->
  exists pc, pc_Address pc = addr /\
    cn_peers (Connect c addr now env).2 = <[addr := pc]> (cn_peers (evictIfNeededLocked c)).
Proof.
  intros Hl. pose proof (Connect_spec c addr now env) as Hs. rewrite Hl in Hs.
  destruct Hs as (path & pc & Hs). exists pc. destruct (Connect c addr now env) as [r c'].
  by destruct Hs as (_ & _ & _ & ? & ? & _).
Qed.

Lemma Connect_max c addr now env : cn_maxPeers (Connect c addr now env).2 = cn_maxPeers c.
Proof.
  unfold Connect. destruct (live c addr); [done|].
  destruct (connectFlow _ _ _) as [[r c2] pc2] eqn:Hf. apply (flow_spec None) in Hf as ((_ & _ & Hm & _) & _).
  unfold evictIfNeededLocked in Hm. destruct r; cbn [snd setState put set_peers emit cn_maxPeers] in *; rewrite Hm; go_cases; done.
Qed.

Lemma live_count_delete c c' a : cn_peers c' = delete a (cn_peers c) -> (live_count c' <= live_count c)%nat.
Proof.
  unfold live_count. intros ->. rewrite connected_delete, map_size_delete. destruct (_ !! a); cbn; lia.
Qed.

Lemma live_count_insert m a pc :
  (size (connected_peers (<[a := pc]> m)) <= S (size (connected_peers m)))%nat.
Proof.
  rewrite connected_insert. destruct (connected _).
  - rewrite map_size_insert. destruct (_ !! a); cbn; lia.
  - rewrite map_size_delete. destruct (_ !! a); cbn; lia.
Qed.

(** After the eviction there is room for one more connected peer. *)
Lemma evict_room c : cn_peers c !! ""%string = None -> 1 <= cn_maxPeers c ->
  Z.of_nat (live_count c) <= cn_maxPeers c ->
  Z.of_nat (S (live_count (evictIfNeededLocked c))) <= cn_maxPeers c.
Proof.
  intros He H1 Hle. destruct (evictIfNeededLocked_spec c He) as (v & Hv & _ & _ & Hp).
  destruct v as [[a pc]|].
  - destruct Hp as [Hp _]. unfold live_count in *. rewrite Hp, connected_delete.
    destruct Hv as (_ & Hin%elem_of_map_to_list & Hc & _).
    assert (connected_peers (cn_peers c) !! a = Some pc) as Ha by (by apply lookup_connected).
    rewrite map_size_delete, Ha. pose proof (map_size_ne_0_lookup_2 _ _ (mk_is_Some _ _ Ha)).
    cbn [Nat.pred]. destruct (size (connected_peers (cn_peers c))); [done|]. cbn. lia.
  - rewrite Hp. destruct Hv as [Hlt|Hnone].
    + unfold live_count. pose proof (size_connected (cn_peers c)). lia.
    + unfold live_count. rewrite Hnone, map_size_empty. lia.
Qed.

Lemma evict_no_empty c : cn_peers c !! ""%string = None -> cn_peers (evictIfNeededLocked c) !! ""%string = None.
Proof.
  intros He. destruct (evictIfNeededLocked_spec c He) as (v & _ & _ & _ & Hp). destruct v as [[a pc]|].
  - destruct Hp as [-> _]. by rewrite lookup_delete_None; right.
  - by rewrite Hp.
Qed.

(** One call from outside.  The empty string is not an address. *)
Inductive peer_step (c : Connector) : Connector -> Prop :=
| step_connect addr now env : addr <> ""%string -> peer_step c (Connect c addr now env).2
| step_disconnect addr c' : Disconnect c addr = Some c' -> peer_step c c'.

(** Within the limit. *)
Record within_limit (c : Connector) : Prop := {
  wl_empty : cn_peers c !! ""%string = None;
  wl_max : 1 <= cn_maxPeers c;
  wl_live : Z.of_nat (live_count c) <= cn_maxPeers c
}.

Lemma within_limit_new host maxPeers maxXfers : within_limit (NewConnector host maxPeers maxXfers).
Proof.
  assert (1 <= cn_maxPeers (NewConnector host maxPeers maxXfers)) as Hm.
  { cbn. destruct (Z.leb_spec maxPeers 0); lia. }
  split; [done|done|]. unfold live_count. change (cn_peers (NewConnector host maxPeers maxXfers)) with (∅ : gmap string PeerConnection).
  unfold connected_peers. rewrite map_filter_empty, map_size_empty. lia.
Qed.

Lemma within_limit_step c c' : within_limit c -> peer_step c c' -> within_limit c'.
Proof.
  intros [He Hm Hl] [addr now env Hne|addr c2 Hd].
  - destruct (live c addr) as [pc|] eqn:Hlive.
    { unfold Connect. rewrite Hlive. by split. }
    destruct (Connect_peers c addr now env Hlive) as (pc & Haddr & Hp).
    split; [|by rewrite Connect_max|].
    + rewrite Hp, lookup_insert_ne by done. by apply evict_no_empty.
    + rewrite Connect_max. unfold live_count. rewrite Hp.
      pose proof (live_count_insert (cn_peers (evictIfNeededLocked c)) addr pc) as Hi.
      pose proof (evict_room c He Hm Hl) as Hr. unfold live_count in Hr. lia.
  - unfold Disconnect in Hd. destruct (cn_peers c !! addr) as [pc|]; [|injection Hd as <-; by split].
    destruct (negb _ && negb _); [done|]. apply (inj Some) in Hd. cbn [setState] in Hd.
    assert (cn_peers c2 = delete addr (cn_peers c)) as Hp by (subst c2; by destruct (negb _)).
    assert (cn_maxPeers c2 = cn_maxPeers c) as Hmx by (subst c2; by destruct (negb _)).
    split; rewrite ?Hmx; [|done|].
    + rewrite Hp. by rewrite lookup_delete_None; right.
    + pose proof (live_count_delete c c2 addr Hp). lia.
Qed.


(** ** Failed peers are never evicted *)

Definition connect_all (c : Connector) (calls : list (string * Z * flow_env)) : Connector :=
  fold_left (fun c '(addr, now, env) => (Connect c addr now env).2) calls c.

(** The table is full of entries of [F] that are not connected; at most one peer is. *)
Record starved (F : gset string) (c : Connector) : Prop := {
  st_empty : cn_peers c !! ""%string = None;
  st_full : cn_maxPeers c <= Z.of_nat (size F);
  st_failed a : a ∈ F -> exists pc, cn_peers c !! a = Some pc /\ connected (pc_State pc) = false;
  st_live : (live_count c <= 1)%nat
}.

Lemma starved_size F c : starved F c -> (size F <= size (cn_peers c))%nat.
Proof.
  intros [_ _ Hf _]. rewrite <- size_dom. apply subseteq_size. intros a (pc & Ha & _)%Hf. by apply elem_of_dom.
Qed.

Lemma starved_Connect F c addr now env :
  starved F c -> addr ∉ F -> addr <> ""%string -> starved F (Connect c addr now env).2.
Proof.
  intros Hst Hnin Hne. pose proof (starved_size F c Hst) as Hsz. destruct Hst as [He Hm Hf Hl].
  destruct (live c addr) as [pc|] eqn:Hlive.
  { unfold Connect. rewrite Hlive. by split. }
  destruct (Connect_peers c addr now env Hlive) as (pc & Haddr & Hp).
  destruct (evictIfNeededLocked_spec c He) as (v & Hv & _ & _ & Hev).
  assert (live_count (evictIfNeededLocked c) = 0%nat /\
    forall a, a ∈ F -> cn_peers (evictIfNeededLocked c) !! a = cn_peers c !! a) as [Hzero Hkeep].
  { destruct v as [[b p]|].
    - destruct Hev as [Hev _], Hv as (_ & Hin%elem_of_map_to_list & Hc & _). cbn in Hin, Hc.
      assert (connected_peers (cn_peers c) !! b = Some p) as Hb by (by apply lookup_connected). split.
      + unfold live_count in *. rewrite Hev, connected_delete, map_size_delete, Hb. lia.
      + intros a Ha. rewrite Hev, lookup_delete_ne; [done|]. intros <-.
        destruct (Hf _ Ha) as (q & Hq & Hqc). congruence.
    - rewrite Hev. destruct Hv as [Hlt|Hnone]; [lia|]. unfold live_count. by rewrite Hnone, map_size_empty. }
  split; [|by rewrite Connect_max| |].
  - rewrite Hp, lookup_insert_ne by done. by apply evict_no_empty.
  - intros a Ha. rewrite Hp, lookup_insert_ne by (by intros ->). rewrite Hkeep by done. by apply Hf.
  - unfold live_count in *. rewrite Hp. pose proof (live_count_insert (cn_peers (evictIfNeededLocked c)) addr pc). lia.
Qed.

(** Entries that are not connected are never evicted: once as many attempts have failed as
    there may be peers, every further [Connect] keeps all of them and first drops the only
    connection, so from then on at most one peer is connected at a time. *)
Theorem failed_peers_starve (F : gset string) c calls
  (Hempty : cn_peers c !! ""%string = None)
  (Hfull : cn_maxPeers c <= Z.of_nat (size F))
  (Hfailed : forall a, a ∈ F -> exists pc, cn_peers c !! a = Some pc /\ connected (pc_State pc) = false)
  (Hlive : le (live_count c) 1)
  (Hcalls : Forall (fun '(addr, _, _) => not (addr ∈ F) /\ addr <> ""%string) calls) :
  (live_count (connect_all c calls) <= 1)%nat /\ (size F <= size (cn_peers (connect_all c calls)))%nat.
Proof.
  assert (starved F (connect_all c calls)) as Hst; [|by split; [apply (st_live F)|apply starved_size]].
  assert (starved F c) as Hst by (by split). clear Hempty Hfull Hfailed Hlive. revert c Hst.
  induction calls as [|[[addr now] env] calls IH]; intros c Hst; [done|].
  apply Forall_cons in Hcalls as [[Hnin Hne] Hcalls]. apply IH; [done|]. by apply starved_Connect.
Qed.

(** ** Examples *)

Definition sample_nat : nat_env := mkNatEnv (Some (["/ip4/10.0.0.1/udp/9/quic-v1"%string], 5)) false None None.
(** A flow in which everything works. *)
Definition good_flow (t : Z) : flow_env :=
  mkFlow t (Some (mkLookup "peer" "onion")) t true (Ok (mkHandshake [Byte.x01] "peer"))
    (Ok ["/ip4/10.0.0.1/udp/9/quic-v1"%string]) (fun _ => Some "id"%string) Some sample_nat (t + 1).
(** A peer nobody finds. *)
Definition lost_flow (t : Z) : flow_env :=
  mkFlow t None t true (Ok (mkHandshake [] "")) (Ok []) (fun _ => None) Some sample_nat t.

Definition small : Connector := NewConnector true 2 5.
Definition after_failures : Connector :=
  connect_all small [("a"%string, 1, lost_flow 1); ("b"%string, 2, lost_flow 2)].

Definition one_connected : Connector := connect_all small [("a"%string, 1, good_flow 1)].



(** Two failures with room for two peers, then two reachable peers: only the second stays. *)
Lemma failed_peers_starve_witness :
  (live_count after_failures = 0%nat /\ cn_maxPeers after_failures = 2) /\
  le (live_count (connect_all after_failures [("c"%string, 3, good_flow 3); ("d"%string, 4, good_flow 4)])) 1.
Proof.
  split; [by split; vm_compute|].
  refine (proj1 (failed_peers_starve {["a"%string; "b"%string]} after_failures
    [("c"%string, 3, good_flow 3); ("d"%string, 4, good_flow 4)] _ _ _ _ _)).
  - vm_compute. reflexivity.
  - vm_compute. discriminate.
  - intros a Ha. apply elem_of_union in Ha as [->%elem_of_singleton| ->%elem_of_singleton]; eexists; by split; vm_compute.
  - vm_compute. lia.
  - apply Forall_cons; split; [|apply Forall_cons; split; [|by apply Forall_nil]]; (split; [set_solver|done]).
Defined.
