(* ===== verification/Presence.v ===== *)
(** * internal/transport/presence.go: who is online, and when to reconnect

    The ping as a process over a stream, the table of who is online, and the loop of
    [StartAutoReconnect] (connector.go), one tick at a time. *)

From S2P Require Import Prelude GoStd Crypto Protocol Instances Identity Wire Signaling Session Connector.
Local Open Scope go_scope.

(** ** Ping and pong *)

(** src: internal/transport/presence.go 19-23 presenceProto, pingTimeout, defaultPingEvery *)
Definition pingTimeout : Z := 5 * GoTime.Second.

Inductive ping_err :=
| ErrOpeningStream | ErrMarshalingPing | ErrSendingPing | ErrReadingPong | ErrResponseType (t : MessageType).

Section ping.
Context `{Proto Ping, Proto Pong, Ed25519}.

(** [now], [wrapped] and [ended]: the readings of the clock, before the ping, in
    [WrapMessage] and at the answer. *)
(** src: internal/transport/presence.go 69-106 Presence.PingPeer *)
Definition PingPeer (kp : Keypair) (opened : bool) (now wrapped ended : Z) : proc (result ping_err Z) :=
  if negb opened then Done (Err ErrOpeningStream)
  else match marshal (mkPing (GoTime.UnixMilli now)) with
  | None => Done (Err ErrMarshalingPing)
  | Some payload =>
      Send (WrapMessage PING payload kp wrapped) (fun ok =>
        if negb ok then Done (Err ErrSendingPing)
        else Recv (fun r =>
          match r with
          | None => Done (Err ErrReadingPong)
          | Some respEnv =>
              if negb (env_Type respEnv =? PONG) then Done (Err (ErrResponseType (env_Type respEnv)))
              else Done (Ok (GoTime.Sub ended now))
          end))
  end.

(** The answer to an envelope, if there is one. *)
(** src: internal/transport/presence.go 152-167 Presence.handlePing *)
Definition pong_of (kp : Keypair) (env : Envelope) (wrapped : Z) : option Envelope :=
  if negb (env_Type env =? PING) then None
  else ping ← unmarshal (env_Payload env);
       pongPayload ← marshal (mkPong (ping_Timestamp ping));
       Some (WrapMessage PONG pongPayload kp wrapped).

(** src: internal/transport/presence.go 143-171 Presence.handlePing *)
Definition handlePing (kp : Keypair) (wrapped : Z) : proc unit :=
  Recv (fun r =>
    match r with
    | None => Done tt
    | Some env => match pong_of kp env wrapped with
                  | None => Done tt
                  | Some pongEnv => Send pongEnv (fun _ => Done tt)
                  end
    end).
End ping.

(** ** The table *)

(** src: internal/transport/presence.go 26-29 OnlineStatus *)
Record OnlineStatus := mkStatus { os_Address : string; os_Online : bool }.

(** [p.online]: a missing key reads as false. *)
(** internal/transport/presence.go 37-43 Presence *)
Abbreviation online_table := (gmap string bool).

(** src: internal/transport/presence.go 62-66 Presence.IsOnline *)
Definition IsOnline (online : online_table) (addr : string) : bool := default false (online !! addr).

(** One peer of a round: [nowOnline] says that its ping succeeded. *)
(** src: internal/transport/presence.go 127-139 Presence.pingAll *)
Definition ping_one (s : online_table * list OnlineStatus) (p : string * bool) : online_table * list OnlineStatus :=
  let '(online, changes) := s in
  let '(addr, nowOnline) := p in
  let wasOnline := IsOnline online addr in
  (<[addr := nowOnline]> online, if bool_decide (nowOnline = wasOnline) then changes else changes ++ [mkStatus addr nowOnline]).

(** A round: the addresses of the active peers with the outcomes of their pings, in the
    order of the pings; with the calls of [onChange]. *)
(** src: internal/transport/presence.go 125-140 Presence.pingAll *)
Definition pingAll (online : online_table) (pings : list (string * bool)) : online_table * list OnlineStatus :=
  fold_left ping_one pings (online, []).

(** ** StartAutoReconnect *)

Definition maxMissed : Z := 3.

(** One peer of a tick: the counters, and the addresses [ReconnectWithFallback] is started
    for.  [None]: slicing an address shorter than twelve bytes panics. *)
(** src: internal/transport/connector.go 576-600 Connector.StartAutoReconnect *)
Definition check_peer (s : gmap string Z * list string) (p : PeerConnection * bool) : option (gmap string Z * list string) :=
  let '(failures, starts) := s in
  let '(pc, pinged) := p in
  if bool_decide (pc_PeerID pc = ""%string) then Some (failures, starts)
  else if pinged then Some (delete (pc_Address pc) failures, starts)
  else
    let n := default 0 (failures !! pc_Address pc) + 1 in
    if n <? maxMissed then Some (<[pc_Address pc := n]> failures, starts)
    else if (String.length (pc_Address pc) <? 12)%nat then None
    else Some (delete (pc_Address pc) failures, starts ++ [pc_Address pc]).

(** A tick: the snapshot of the connected peers, each with the outcome of its ping. *)
(** src: internal/transport/connector.go 564-602 Connector.StartAutoReconnect *)
Definition reconnect_tick (failures : gmap string Z) (peers : list (PeerConnection * bool)) :
    option (gmap string Z * list string) :=
  fold_left (fun s p => s ← s; check_peer s p) peers (Some (failures, [])).

(** ** What a ping shows *)

Section claims.
Context `{ProtoOk Ping, ProtoOk Pong, Ed25519Ok}.

(** A ping over a reliable stream to a node is answered, with the round-trip time.  The
    answer is not checked beyond its type: any envelope of type PONG counts, whoever made it and
    whatever it holds, and a node answers exactly the pings that parse, signed or not, with
    their timestamp. *)
Theorem ping_contract kpA kpB now w1 w2 ended p1 p2 :
  marshal (mkPing (GoTime.UnixMilli now)) = Some p1 -> marshal (mkPong (GoTime.UnixMilli now)) = Some p2 ->
  link 10 (PingPeer kpA true now w1 ended) (handlePing kpB w2) [] [] = Some (Ok (GoTime.Sub ended now), tt) /\
  (forall e, env_Type e = PONG ->
     run (PingPeer kpA true now w1 ended) [Sent (WrapMessage PING p1 kpA w1) true; Received (Some e)]
       (Done (Ok (GoTime.Sub ended now)))) /\
  (forall e r, pong_of kpB e w2 = Some r <->
     env_Type e = PING /\ exists ping payload, unmarshal (env_Payload e) = Some ping /\
       marshal (mkPong (ping_Timestamp ping)) = Some payload /\ r = WrapMessage PONG payload kpB w2).
Proof.
  intros Hm1 Hm2. split_and!.
  - unfold PingPeer, handlePing. cbn [negb]. rewrite Hm1. cbn [link app negb].
    unfold pong_of. change (env_Type (WrapMessage PING p1 kpA w1)) with PING. rewrite Z.eqb_refl. cbn [negb].
    change (env_Payload (WrapMessage PING p1 kpA w1)) with p1. rewrite (unmarshal_marshal _ _ Hm1). cbn [mbind option_bind ping_Timestamp].
    rewrite Hm2. reflexivity.
  - intros e He. unfold PingPeer. cbn [negb]. rewrite Hm1. apply run_send. cbn [negb]. apply run_recv.
    rewrite He, Z.eqb_refl. apply run_stop.
  - intros e r. unfold pong_of. destruct (Z.eqb_spec (env_Type e) PING) as [He|He]; cbn [negb].
    2: { split; [done|]. by intros [? _]. }
    split.
    + intros (ping & Hp & (payload & Hm & [= <-])%bind_Some)%bind_Some. split; [done|]. by exists ping, payload.
    + intros (_ & ping & payload & -> & Hm & ->). cbn. by rewrite Hm.
Qed.
End claims.

(** ** Who is online *)

(** The state a client of [onChange] keeps. *)
Definition replay (online : online_table) (changes : list OnlineStatus) : online_table :=
  fold_left (fun o c => <[os_Address c := os_Online c]> o) changes online.

(** Every notification is a change. *)
Fixpoint all_changes (online : online_table) (changes : list OnlineStatus) : Prop :=
  match changes with
  | [] => True
  | c :: changes => IsOnline online (os_Address c) <> os_Online c /\
      all_changes (<[os_Address c := os_Online c]> online) changes
  end.

Definition same_online (o1 o2 : online_table) : Prop := forall a, IsOnline o1 a = IsOnline o2 a.
#[export] Instance same_online_equiv : Equivalence same_online.
Proof. split; [by intros ? ?|by intros ? ? ? ?|]. intros o1 o2 o3 H12 H23 a. by rewrite H12. Qed.

Lemma IsOnline_insert o a b x : IsOnline (<[a := b]> o) x = if decide (x = a) then b else IsOnline o x.
Proof.
  unfold IsOnline. destruct (decide (x = a)) as [->|]; [by rewrite lookup_insert_eq|by rewrite lookup_insert_ne].
Qed.

#[export] Instance insert_same_online a b : Proper (same_online ==> same_online) (insert a b).
Proof. intros o1 o2 Ho x. rewrite !IsOnline_insert. by destruct (decide _). Qed.

#[export] Instance replay_same_online : Proper (same_online ==> eq ==> same_online) replay.
Proof.
  intros o1 o2 Ho l ? <-. revert o1 o2 Ho. induction l as [|c l IH]; intros o1 o2 Ho; [done|].
  cbn. apply IH. by rewrite Ho.
Qed.

Lemma all_changes_snoc o l c :
  all_changes o (l ++ [c]) <-> all_changes o l /\ IsOnline (replay o l) (os_Address c) <> os_Online c.
Proof.
  revert o. induction l as [|x l IH]; intros o; cbn.
  - split; [by intros [? _]|by intros [_ ?]].
  - rewrite IH. cbn. tauto.
Qed.

Lemma ping_one_spec o0 s p :
  same_online (replay o0 s.2) s.1 -> all_changes o0 s.2 ->
  same_online (replay o0 (ping_one s p).2) (ping_one s p).1 /\ all_changes o0 (ping_one s p).2 /\
  (ping_one s p).1 = <[p.1 := p.2]> s.1.
Proof.
  destruct s as [o l], p as [addr now]. cbn [fst snd]. intros Hr Ha. cbn. case_bool_decide as Hn; cbn.
  - split_and!; [|done|done]. rewrite Hr. intros x. rewrite IsOnline_insert. by destruct (decide (x = addr)) as [->|].
  - split_and!; [|apply all_changes_snoc; split; [done|cbn; rewrite (Hr addr); congruence]|done].
    unfold replay. rewrite fold_left_app. cbn. by rewrite <- Hr.
Qed.

(** The outcome of the last ping to each address. *)
Definition last_pings (pings : list (string * bool)) : gmap string bool := list_to_map (reverse pings).

(** Presence: after a round every peer that was pinged is online exactly when its ping
    succeeded, and nobody else changes; every notification is a change of the state it
    reports; and a client that applies the notifications always knows who is online. *)
Theorem pingAll_contract online pings :
  let '(online', changes) := pingAll online pings in
  (forall a, IsOnline online' a = default (IsOnline online a) (last_pings pings !! a)) /\
  all_changes online changes /\
  same_online (replay online changes) online'.
Proof.
  unfold pingAll.
  assert (forall s, same_online (replay online s.2) s.1 -> all_changes online s.2 ->
    let s' := fold_left ping_one pings s in
    (forall a, IsOnline s'.1 a = default (IsOnline s.1 a) (last_pings pings !! a)) /\
    all_changes online s'.2 /\ same_online (replay online s'.2) s'.1) as Hgen.
  { induction pings as [|[addr now] pings IH]; intros s Hr Ha; [by split_and!|]. cbn [fold_left].
    destruct (ping_one_spec online s (addr, now) Hr Ha) as (Hr' & Ha' & Heq).
    destruct (IH _ Hr' Ha') as (Hl & Hc & Hs). split_and!; [|done|done]. intros a. rewrite Hl, Heq.
    unfold last_pings. cbn [fst snd]. rewrite reverse_cons, list_to_map_app, lookup_union.
    destruct (list_to_map (reverse pings) !! a) as [b|]; cbn; [by destruct (_ !! a)|].
    rewrite IsOnline_insert, lookup_insert. by destruct (decide (addr = a)), (decide (a = addr)). }
  specialize (Hgen (online, [])). destruct (fold_left ping_one pings (online, [])) as [o' l'].
  apply Hgen; [|done]. by cbn.
Qed.

(** ** When to reconnect *)

(** The ticks of one connected peer: the outcomes of its pings, and whether a reconnection
    starts at each. *)
Fixpoint missed (count : Z) (pings : list bool) : list bool :=
  match pings with
  | [] => []
  | true :: pings => false :: missed 0 pings
  | false :: pings => if count + 1 <? maxMissed then false :: missed (count + 1) pings else true :: missed 0 pings
  end.

(** The ticks of the loop: what each pings, and the reconnections it starts. *)
Fixpoint ticks (failures : gmap string Z) (l : list (list (PeerConnection * bool))) : option (list (list string)) :=
  match l with
  | [] => Some []
  | peers :: l => '(failures, starts) ← reconnect_tick failures peers;
                  rest ← ticks failures l; Some (starts :: rest)
  end.

Definition addresses (l : list (PeerConnection * bool)) : list string := (fun p => pc_Address p.1) <$> l.

(** The addresses can be logged. *)
Definition loggable (l : list (PeerConnection * bool)) : Prop :=
  Forall (fun p => (12 <= String.length (pc_Address p.1))%nat) l.

Definition tick_from (s : gmap string Z * list string) (l : list (PeerConnection * bool)) :=
  fold_left (fun s p => s ← s; check_peer s p) l (Some s).

Lemma check_peer_other a f s p : (12 <= String.length (pc_Address p.1))%nat -> pc_Address p.1 <> a ->
  exists f' s', check_peer (f, s) p = Some (f', s') /\ f' !! a = f !! a /\ (a ∈ s' <-> a ∈ s).
Proof.
  destruct p as [pc o]. cbn [fst]. intros Hlen Hne. unfold check_peer.
  case_bool_decide; [by eexists _, _|]. destruct o; [eexists _, _; split_and!; [done|by rewrite lookup_delete_ne|done]|].
  destruct (_ <? maxMissed); [eexists _, _; split_and!; [done|by rewrite lookup_insert_ne|done]|].
  destruct (Nat.ltb_spec (String.length (pc_Address pc)) 12); [lia|].
  eexists _, _. split_and!; [done|by rewrite lookup_delete_ne|]. rewrite elem_of_app, list_elem_of_singleton. intuition (congruence || lia).
Qed.

Lemma tick_others a l f s : loggable l -> a ∉ addresses l ->
  exists f' s', tick_from (f, s) l = Some (f', s') /\ f' !! a = f !! a /\ (a ∈ s' <-> a ∈ s).
Proof.
  revert f s. induction l as [|p l IH]; intros f s Hlog Hnin; [by eexists _, _|].
  apply Forall_cons in Hlog as [Hp Hlog]. cbn in Hnin. apply not_elem_of_cons in Hnin as [Hne Hnin].
  destruct (check_peer_other a f s p Hp (not_eq_sym Hne)) as (f1 & s1 & Hc & Hf1 & Hs1).
  destruct (IH f1 s1 Hlog Hnin) as (f2 & s2 & Ht & Hf2 & Hs2). exists f2, s2.
  unfold tick_from in *. cbn [fold_left mbind option_bind]. rewrite Hc. split; [exact Ht|]. split; [congruence|tauto].
Qed.

(** One tick, for a peer pinged in it. *)
Lemma tick_peer a pc o peers f : loggable peers -> NoDup (addresses peers) ->
  (pc, o) ∈ peers -> pc_Address pc = a -> pc_PeerID pc <> ""%string ->
  let n := default 0 (f !! a) in
  exists f' starts, reconnect_tick f peers = Some (f', starts) /\
    (a ∈ starts <-> o = false /\ maxMissed <= n + 1) /\
    default 0 (f' !! a) = if o then 0 else if n + 1 <? maxMissed then n + 1 else 0.
Proof.
  intros Hlog Hnd (l1 & l2 & ->)%list_elem_of_split Ha Hid n.
  unfold loggable in Hlog. rewrite Forall_app, Forall_cons in Hlog. destruct Hlog as (Hl1 & Hp & Hl2).
  unfold addresses in Hnd. rewrite fmap_app, fmap_cons in Hnd. apply NoDup_app in Hnd as (_ & Hx & Hnd).
  apply NoDup_cons in Hnd as [Hn2 _]. cbn [fst] in *. rewrite Ha in *.
  assert (a ∉ addresses l1) as Hn1 by (intros Hin; apply (Hx a Hin); by left).
  destruct (tick_others a l1 f [] Hl1 Hn1) as (f1 & s1 & Ht1 & Hf1 & Hs1).
  assert (exists f2 s2, check_peer (f1, s1) (pc, o) = Some (f2, s2) /\
    (a ∈ s2 <-> o = false /\ maxMissed <= n + 1) /\
    default 0 (f2 !! a) = if o then 0 else if n + 1 <? maxMissed then n + 1 else 0) as (f2 & s2 & Hc & Hs2 & Hf2).
  { unfold check_peer. rewrite bool_decide_eq_false_2 by done. rewrite Ha, Hf1. fold n.
    assert (a ∉ s1) as Hns1 by (rewrite Hs1; apply not_elem_of_nil).
    destruct o; [eexists _, _; split_and!; [done|intuition (congruence || lia)|by rewrite lookup_delete_eq]|].
    destruct (Z.ltb_spec (n + 1) maxMissed).
    - eexists _, _. split_and!; [done|split; [done|lia]|by rewrite lookup_insert_eq].
    - destruct (Nat.ltb_spec (String.length a) 12); [lia|]. eexists _, _. split_and!; [done| |by rewrite lookup_delete_eq].
      rewrite elem_of_app, list_elem_of_singleton. intuition (congruence || lia). }
  destruct (tick_others a l2 f2 s2 Hl2 Hn2) as (f3 & s3 & Ht3 & Hf3 & Hs3). exists f3, s3.
  split_and!; [|tauto|congruence]. unfold reconnect_tick, tick_from in *. rewrite fold_left_app, Ht1.
  cbn [fold_left mbind option_bind]. by rewrite Hc.
Qed.

(** C23. Auto-reconnection: over the ticks in which a connected peer is pinged, a
    reconnection to it starts exactly when three pings in a row have failed since the last
    success, the last start, or the beginning; the other peers' pings have no influence. *)
Theorem reconnect_contract a pings peers
  (Hlog : Forall loggable peers)
  (Hpeers : Forall2 (fun o l => NoDup (addresses l) /\
     exists pc, (pc, o) ∈ l /\ pc_Address pc = a /\ pc_PeerID pc <> ""%string) pings peers) :
  exists starts, ticks ∅ peers = Some starts /\ ((fun s => bool_decide (a ∈ s)) <$> starts) = missed 0 pings.
Proof.
  assert (forall f, exists starts, ticks f peers = Some starts /\
    ((fun s => bool_decide (a ∈ s)) <$> starts) = missed (default 0 (f !! a)) pings) as Hgen; [|specialize (Hgen ∅); by rewrite lookup_empty in Hgen].
  induction Hpeers as [|o l pings peers (Hnd & pc & Hin & Ha & Hid) Hpeers IH]; intros f; [by eexists|].
  apply Forall_cons in Hlog as [Hl Hlog].
  destruct (tick_peer a pc o l f Hl Hnd Hin Ha Hid) as (f' & s & Ht & Hs & Hf').
  destruct (IH Hlog f') as (starts & Hts & Hm). exists (s :: starts). cbn [ticks]. rewrite Ht. cbn [mbind option_bind].
  rewrite Hts. split; [done|]. rewrite fmap_cons, Hm, Hf'. cbn [missed]. destruct o.
  - rewrite bool_decide_eq_false_2; [done|]. rewrite Hs. intuition (congruence || lia).
  - destruct (Z.ltb_spec (default 0 (f !! a) + 1) maxMissed).
    + rewrite bool_decide_eq_false_2; [done|]. rewrite Hs. lia.
    + by rewrite bool_decide_eq_true_2 by (by apply Hs).
Qed.

(** ** Examples *)
Section samples.
Import Toy.

#[local] Instance proto_Ping : Proto Ping := {
  marshal m := Toy.of_int (ping_Timestamp m); unmarshal b := mkPing <$> Toy.to_int b }.
#[local] Instance proto_Ping_ok : ProtoOk Ping.
Proof. intros [t] b Hm. unfold unmarshal; cbn -[Toy.to_int]. by rewrite (Toy.to_of_int _ _ Hm). Qed.
#[local] Instance proto_Pong : Proto Pong := {
  marshal m := Toy.of_int (pong_EchoTimestamp m); unmarshal b := mkPong <$> Toy.to_int b }.
#[local] Instance proto_Pong_ok : ProtoOk Pong.
Proof. intros [t] b Hm. unfold unmarshal; cbn -[Toy.to_int]. by rewrite (Toy.to_of_int _ _ Hm). Qed.



Definition ping_time : bytes := Eval vm_compute in default [] (Toy.of_int 7).
Lemma ping_marshals : marshal (mkPing (GoTime.UnixMilli 7000000)) = Some ping_time.
Proof. vm_compute. reflexivity. Qed.
Lemma pong_marshals : marshal (mkPong (GoTime.UnixMilli 7000000)) = Some ping_time.
Proof. vm_compute. reflexivity. Qed.

(** An empty unsigned envelope passes for an answer. *)
Lemma ping_contract_witness :
  run (PingPeer (sample_keypair 1) true 7000000 7 7500000)
    [Signaling.Sent (WrapMessage PING ping_time (sample_keypair 1) 7) true; Received (Some (mkEnvelope PONG [] 0 [] []))]
    (Done (Ok (GoTime.Sub 7500000 7000000))).
Proof.
  exact (proj1 (proj2 (ping_contract (sample_keypair 1) (sample_keypair 2) 7000000 7 8 7500000 ping_time ping_time
    ping_marshals pong_marshals)) (mkEnvelope PONG [] 0 [] []) eq_refl).
Defined.

Definition sample_peer (addr : string) : PeerConnection := mkPC addr StateConnected StrategyDirect 0 "id" [] 0.
Definition two_peers (o : bool) : list (PeerConnection * bool) :=
  [(sample_peer "EaaaaaaaaaaaaX", o); (sample_peer "EbbbbbbbbbbbbX", true)].

Lemma reconnect_contract_witness :
  exists starts, ticks ∅ (two_peers <$> [false; false; true; false; false; false; false]) = Some starts /\
    ((fun s => bool_decide ("EaaaaaaaaaaaaX"%string ∈ s)) <$> starts) = [false; false; false; false; false; true; false].
Proof.
  refine (reconnect_contract "EaaaaaaaaaaaaX" [false; false; true; false; false; false; false] _ _ _).
  - repeat constructor; cbn; lia.
  - assert (forall o, NoDup (addresses (two_peers o)) /\ exists pc, (pc, o) ∈ two_peers o /\
      pc_Address pc = "EaaaaaaaaaaaaX"%string /\ pc_PeerID pc <> ""%string) as Ht.
    { intros o. split; [apply (bool_decide_unpack _); by destruct o|]. exists (sample_peer "EaaaaaaaaaaaaX"). by split_and!; [left|..]. }
    repeat (constructor; [apply Ht|]). constructor.
Defined.
End samples.
