(* ===== verification/Tor.v ===== *)
(** * internal/tor: the engine's onions and their keys

    engine.go and onion.go over the library that drives the Tor process.  The engine
    implements the interface the service registry is proved against
    ([Services.OnionEngine]). *)

From S2P Require Import Prelude GoStd Sha256 Crypto Protocol Instances Identity Chunker FilePath Services Keystore ApiAuth.
Local Open Scope go_scope.

(** ** The library *)

(** An ed25519 onion keypair: its expanded private key and its public key. *)
(** src: internal/tor/engine.go 30-33 Keypair *)
Record OnionKey := mkOnionKey { ok_priv : bytes; ok_pub : bytes }.

(** A [crypto.PrivateKey]: a keypair of the library, or something else. *)
Inductive PrivateKey := BineKey (k : OnionKey) | OtherKey.

(** The Tor process: [Listen] publishes a service, [CloseOnion] tears one down ([false]: an
    error), [published] are the services it runs; [KeyPairOf] completes a private key and
    [onion_id] is the name derived from a key. *)
Class TorProcess (T : Type) := {
  Listen : T -> option OnionKey -> option (string * option PrivateKey) * T;
  CloseOnion : T -> string -> bool * T;
  published : T -> gset string;
  KeyPairOf : bytes -> OnionKey;
  onion_id : OnionKey -> string
}.

(** What the program relies on: Tor refuses an address it already publishes, an address is
    that of the key, and a key made by the library has the documented sizes. *)
Class TorProcessOk (T : Type) `{TorProcess T} : Prop := {
  Listen_ok t k id k' t' : Listen t k = (Some (id, k'), t') ->
    not (id ∈ published t) /\ published t' = {[id]} ∪ published t /\
    match k with
    | Some k => id = onion_id k
    | None => exists k0, k' = Some (BineKey k0) /\ id = onion_id k0 /\
        length (ok_priv k0) = 64%nat /\ length (ok_pub k0) = 32%nat /\ KeyPairOf (ok_priv k0) = k0
    end;
  Listen_err t k t' : Listen t k = (None, t') -> published t' = published t;
  CloseOnion_spec t id b t' : CloseOnion t id = (b, t') ->
    published t' ⊆ published t /\ published t ⊆ published t' ∪ {[id]}
}.

(** ** onion.go *)

(** src: internal/tor/onion.go 14-14 OnionServicePort *)
Definition OnionServicePort : Z := 9735.

Inductive tor_err :=
| ErrOnionName | ErrNotStarted | ErrOnionExists | ErrOnionNotFound
| ErrKeyFileMissing | ErrKeyFileRead | ErrKeyFileSize (n : nat) | ErrPublishing
| ErrKeyType | ErrOnionKeyDir | ErrOnionKeyWrite | ErrClosing.

Section tor.
Context {T : Type} `{TorProcess T}.

(** src: internal/tor/onion.go 21-30 loadOnionKey *)
Definition loadOnionKey (fs : filesystem) (path : string) : result tor_err OnionKey :=
  match fs !! path with
  | None => Err ErrKeyFileMissing
  | Some Dir => Err ErrKeyFileRead
  | Some (File data) =>
      if negb (length data =? 96)%nat then Err (ErrKeyFileSize (length data)) else Ok (KeyPairOf (take 64 data))
  end.

(** [copy] into a part of [n] zero bytes. *)
Definition copy_into (n : nat) (l : bytes) : bytes := take n l ++ replicate (n - length l) Byte.x00.

(** [mk] and [w]: what the file system answers. *)
(** src: internal/tor/onion.go 34-48 saveOnionKey *)
Definition saveOnionKey (fs : filesystem) (path : string) (key : PrivateKey) (mk : option nat) (w : write_outcome) :
    result tor_err unit * filesystem :=
  match key with
  | OtherKey => (Err ErrKeyType, fs)
  | BineKey kp =>
      let '(ok, fs) := MkdirAll fs (DirOf path) mk in
      if negb ok then (Err ErrOnionKeyDir, fs)
      else
        let data := copy_into 64 (ok_priv kp) ++ copy_into 32 (ok_pub kp) in
        let '(ok, fs) := WriteFile fs path data w in
        if ok then (Ok tt, fs) else (Err ErrOnionKeyWrite, fs)
  end.

(** ** engine.go *)

(** src: internal/tor/engine.go 25-28 BootstrapEvent *)
Record BootstrapEvent := mkBootstrap { be_Percent : Z; be_Summary : string }.

(** A running service and the path of its key. *)
(** src: internal/tor/engine.go 44-47 onionService *)
Record onionService := mkOnion { on_ID : string; on_keyPath : string }.

(** The engine with the Tor process and the disk it uses.  [en_tor] is [None] until
    [Start]; [en_ready]: the channel is closed. *)
(** src: internal/tor/engine.go 52-63 Engine *)
Record Engine := mkEngine {
  en_dataDir : string;
  en_tor : option T;
  en_progress : Chan.t BootstrapEvent;
  en_ready : bool;
  en_socksAddr : string;
  en_stopped : bool;
  en_onions : gmap string onionService;
  en_fs : filesystem
}.

(** src: internal/tor/engine.go 69-77 NewEngine *)
Definition NewEngine (dataDir : string) (fs : filesystem) : Engine :=
  mkEngine dataDir None (Chan.make 64) false "" false ∅ fs.

Definition set_tor (e : Engine) (t : T) : Engine :=
  mkEngine (en_dataDir e) (Some t) (en_progress e) (en_ready e) (en_socksAddr e) (en_stopped e) (en_onions e) (en_fs e).
Definition set_fs (e : Engine) (fs : filesystem) : Engine :=
  mkEngine (en_dataDir e) (en_tor e) (en_progress e) (en_ready e) (en_socksAddr e) (en_stopped e) (en_onions e) fs.
Definition set_onions (e : Engine) (m : gmap string onionService) : Engine :=
  mkEngine (en_dataDir e) (en_tor e) (en_progress e) (en_ready e) (en_socksAddr e) (en_stopped e) m (en_fs e).

(** src: internal/tor/engine.go 80-82 Engine.torDataDir *)
Definition torDataDir (e : Engine) : string := JoinAll [en_dataDir e; "tor"%string].

(** src: internal/tor/engine.go 85-87 Engine.onionKeyPath *)
Definition onionKeyPath (e : Engine) (name : string) : string :=
  JoinAll [en_dataDir e; "services"%string; name; "onion.key"%string].

(** Closing a service of the process, if it was started. *)
Definition close_svc (e : Engine) (id : string) : bool * Engine :=
  match en_tor e with
  | None => (true, e)
  | Some t => let '(ok, t) := CloseOnion t id in (ok, set_tor e t)
  end.

Definition onion_addr (id : string) : string := (id +:+ ".onion")%string.

(** From the publication on: [other] is what concurrent calls did since the key was looked up.
    A new key is saved, and the service is entered unless the name was taken meanwhile. *)
(** src: internal/tor/engine.go 261-287 Engine.AddOnion *)
Definition publish (e : Engine) (t : T) (name : string) (key : option OnionKey) (mk : option nat) (w : write_outcome) :
    result tor_err string * Engine :=
  let keyPath := onionKeyPath e name in
  match Listen t key with
  | (None, t) => (Err ErrPublishing, set_tor e t)
  | (Some (id, svcKey), t) =>
      let e := set_tor e t in
      let '(saved, fs) := match key, svcKey with
        | None, Some k => saveOnionKey (en_fs e) keyPath k mk w
        | _, _ => (Ok tt, en_fs e)
        end in
      let e := set_fs e fs in
      match saved with
      | Err err => let '(_, e) := close_svc e id in (Err err, e)
      | Ok _ =>
          match en_onions e !! name with
          | Some _ => let '(_, e) := close_svc e id in (Err ErrOnionExists, e)
          | None => (Ok (onion_addr id), set_onions e (<[name := mkOnion id keyPath]> (en_onions e)))
          end
      end
  end.

(** [other]: the concurrent calls between the reading of the key file and the publication. *)
(** src: internal/tor/engine.go 231-287 Engine.AddOnion *)
Definition AddOnion (other : Engine -> Engine) (e : Engine) (name : string) (kp : option OnionKey)
    (mk : option nat) (w : write_outcome) : result tor_err string * Engine :=
  if bool_decide (name = ""%string) then (Err ErrOnionName, e)
  else match en_tor e with
  | None => (Err ErrNotStarted, e)
  | Some _ =>
      match en_onions e !! name with
      | Some _ => (Err ErrOnionExists, e)
      | None =>
          let loaded := match kp with
            | Some k => Ok (Some k)
            | None => match loadOnionKey (en_fs e) (onionKeyPath e name) with
                      | Ok k => Ok (Some k)
                      | Err ErrKeyFileMissing => Ok None
                      | Err err => Err err
                      end
            end in
          match loaded with
          | Err err => (Err err, e)
          | Ok key =>
              let e := other e in
              match en_tor e with
              | None => (Err ErrNotStarted, e)
              | Some t => publish e t name key mk w
              end
          end
      end
  end.

(** src: internal/tor/engine.go 292-306 Engine.RemoveOnion *)
Definition RemoveOnion (e : Engine) (name : string) : result tor_err unit * Engine :=
  match en_onions e !! name with
  | None => (Err ErrOnionNotFound, e)
  | Some svc =>
      let '(ok, e) := close_svc (set_onions e (delete name (en_onions e))) (on_ID svc) in
      (if ok then Ok tt else Err ErrClosing, e)
  end.

(** src: internal/tor/engine.go 310-318 Engine.OnionAddr *)
Definition OnionAddr (e : Engine) (name : string) : option string :=
  (fun svc => onion_addr (on_ID svc)) <$> en_onions e !! name.

(** The listener is the service itself. *)
(** src: internal/tor/engine.go 322-330 Engine.OnionListener *)
Definition OnionListener (e : Engine) (name : string) : option string := on_ID <$> en_onions e !! name.

(** src: internal/tor/engine.go 334-343 Engine.ListOnions *)
Definition ListOnions (e : Engine) : list string := sort_slice string_ltb (map_to_list (en_onions e)).*1.

(** [closed]: what closing the Tor process answers. *)
(** src: internal/tor/engine.go 366-385 Engine.Stop *)
Definition Stop (e : Engine) (closed : bool) : bool * Engine :=
  if en_stopped e then (true, e)
  else
    let onions := en_onions e in
    let e := mkEngine (en_dataDir e) (en_tor e) (en_progress e) (en_ready e) (en_socksAddr e) true ∅ (en_fs e) in
    let e := fold_left (fun e svc => (close_svc e (on_ID svc)).2) (map_to_list onions).*2 e in
    (match en_tor e with Some _ => closed | None => true end, e).

(** [binary]: a Tor binary was configured or found; [mk], [wr], [start]: the directory, the
    empty configuration file, and the process. *)
(** src: internal/tor/engine.go 92-126 Engine.Start *)
Definition Start (e : Engine) (binary : bool) (mk : option nat) (wr : write_outcome) (start : option T) : bool * Engine :=
  let torDir := torDataDir e in
  if negb binary then (false, e)
  else
  let '(ok, fs) := MkdirAll (en_fs e) torDir mk in
  if negb ok then (false, set_fs e fs)
  else
    let '(ok, fs) := WriteFile fs (JoinAll [torDir; "defaults-torrc"%string]) [] wr in
    if negb ok then (false, set_fs e fs)
    else match start with
         | None => (false, set_fs e fs)
         | Some t => (true, set_tor (set_fs e fs) t)
         end.

(** *** Bootstrapping *)

(** An event of the control connection: a status event with its action, severity and the
    arguments the loop reads, or any other. *)
Inductive control_event :=
| StatusEvent (action severity progress summary : string)
| OtherEvent.

(** [strconv.Atoi] as the loop uses it: the error is dropped, a syntax error leaves zero and
    a number out of range the nearest [int]. *)
(** src: internal/tor/engine.go 160-160 Engine.bootstrap *)
Definition Atoi (s : string) : Z :=
  let '(neg, ds) := split_sign (String.list_ascii_of_string s) in
  match ds with
  | [] => 0
  | _ => match parse_digits ds with
         | Some v => Z.max (- 2 ^ 63) (Z.min (2 ^ 63 - 1) (if neg : bool then - v else v))
         | None => 0
         end
  end.

(** [socks]: the answer to the query of the SOCKS address. *)
(** src: internal/tor/engine.go 187-197 Engine.fetchSOCKSAddr *)
Definition fetchSOCKSAddr (e : Engine) (socks : option string) : Engine :=
  match socks with
  | None => e
  | Some a => mkEngine (en_dataDir e) (en_tor e) (en_progress e) (en_ready e) a (en_stopped e) (en_onions e) (en_fs e)
  end.

(** One event: the engine, and whether the loop goes on. *)
(** src: internal/tor/engine.go 151-182 Engine.bootstrap *)
Definition bootstrap_step (e : Engine) (evt : control_event) (socks : option string) : Engine * bool :=
  match evt with
  | OtherEvent => (e, true)
  | StatusEvent action severity progress summary =>
      if negb (bool_decide (action = "BOOTSTRAP"%string)) then (e, true)
      else
        let pct := Atoi progress in
        let e := match Chan.try_send (en_progress e) (mkBootstrap pct summary) with
                 | Chan.Sent c => mkEngine (en_dataDir e) (en_tor e) c (en_ready e) (en_socksAddr e) (en_stopped e)
                                    (en_onions e) (en_fs e)
                 | _ => e
                 end in
        if 100 <=? pct then
          let e := fetchSOCKSAddr e socks in
          (mkEngine (en_dataDir e) (en_tor e) (en_progress e) true (en_socksAddr e) (en_stopped e) (en_onions e) (en_fs e), false)
        else (e, negb (bool_decide (severity = "ERR"%string)))
  end.

(** The events until the connection or the context ends. *)
(** src: internal/tor/engine.go 129-184 Engine.bootstrap *)
Fixpoint bootstrap (e : Engine) (events : list control_event) (socks : option string) : Engine :=
  match events with
  | [] => e
  | evt :: events => let '(e, go_on) := bootstrap_step e evt socks in if go_on then bootstrap e events socks else e
  end.
End tor.

(** ** The engine is a map from names to addresses *)

Section claims.
Context {T : Type} `{TorProcessOk T}.
Implicit Types e : Engine (T := T).

(** The abstract state. *)
Definition running_onions (e : Engine (T := T)) : gmap string string := (fun svc => onion_addr (on_ID svc)) <$> en_onions e.

(** Every entry is a service the process publishes, and no two are the same. *)
Definition engine_ok (e : Engine (T := T)) : Prop :=
  (en_tor e = None -> en_onions e = ∅) /\
  (forall t n svc, en_tor e = Some t -> en_onions e !! n = Some svc -> on_ID svc ∈ published t) /\
  (forall n m s1 s2, en_onions e !! n = Some s1 -> en_onions e !! m = Some s2 -> on_ID s1 = on_ID s2 -> n = m).

Lemma string_app_cancel (a b c : string) : (a +:+ c = b +:+ c)%string -> a = b.
Proof.
  intros Heq%(f_equal String.list_ascii_of_string).
  rewrite !list_ascii_app in Heq. apply app_inv_tail in Heq.
  by rewrite <- (String.string_of_list_ascii_of_string a), Heq, String.string_of_list_ascii_of_string.
Qed.

Lemma onion_addr_inj a b : onion_addr a = onion_addr b -> a = b.
Proof. apply string_app_cancel. Qed.

Lemma running_None e n : running_onions e !! n = None <-> en_onions e !! n = None.
Proof. unfold running_onions. rewrite lookup_fmap. by destruct (en_onions e !! n). Qed.

Lemma running_Some e n a : running_onions e !! n = Some a <-> exists svc, en_onions e !! n = Some svc /\ a = onion_addr (on_ID svc).
Proof.
  unfold running_onions. rewrite lookup_fmap. split.
  - intros (svc & -> & Hs)%fmap_Some. eauto.
  - by intros (svc & -> & ->).
Qed.

(** A process whose other services are unchanged serves the same table. *)
Lemma engine_ok_process e t fs : engine_ok e ->
  (forall n svc, en_onions e !! n = Some svc -> on_ID svc ∈ published t) -> engine_ok (set_fs (set_tor e t) fs).
Proof. intros (Hn & Hp & Hi) Hpub. split_and!; [done| |exact Hi]. intros t' n svc [= <-]. apply Hpub. Qed.

Lemma close_svc_ok e id : engine_ok e -> (forall n svc, en_onions e !! n = Some svc -> on_ID svc <> id) ->
  engine_ok (close_svc e id).2 /\ running_onions (close_svc e id).2 = running_onions e.
Proof.
  intros Hok Hid. unfold close_svc. destruct (en_tor e) as [t|] eqn:Ht; [|done].
  destruct (CloseOnion t id) as [ok t'] eqn:Hc. cbn [snd]. split; [|done].
  apply (engine_ok_process e t' (en_fs e)); [done|]. intros n svc Hn. destruct Hok as (_ & Hp & _).
  apply CloseOnion_spec in Hc as [_ Hc]. specialize (Hc _ (Hp t n svc Ht Hn)).
  apply elem_of_union in Hc as [Hc|Hc%elem_of_singleton]; [done|]. by destruct (Hid n svc Hn).
Qed.

Lemma publish_spec e t name key mk w r e' :
  engine_ok e -> en_tor e = Some t -> publish e t name key mk w = (r, e') ->
  engine_ok e' /\
  match r with
  | Ok a => running_onions e !! name = None /\ (forall m, running_onions e !! m <> Some a) /\
      running_onions e' = <[name := a]> (running_onions e)
  | Err _ => running_onions e' = running_onions e
  end.
Proof.
  intros Hok Ht. unfold publish. pose proof Hok as (Hnone & Hpub & Hinj). specialize (fun n svc => Hpub t n svc Ht).
  destruct (Listen t key) as [[[id k']|] t'] eqn:Hl.
  2: { apply Listen_err in Hl. intros [= <- <-]. split; [|done]. apply (engine_ok_process e t' (en_fs e)); [done|].
       intros n svc Hn. rewrite Hl. by eapply Hpub. }
  apply Listen_ok in Hl as (Hfresh & Hp & _).
  assert (forall n svc, en_onions e !! n = Some svc -> on_ID svc <> id) as Hid.
  { intros n svc Hn <-. by apply Hfresh, (Hpub n). }
  match goal with |- context [match key with Some _ => _ | None => _ end] =>
    destruct (match key with Some _ => _ | None => _ end) as [saved fs] end.
  assert (engine_ok (set_fs (set_tor e t') fs)) as Hok'.
  { apply engine_ok_process; [done|]. intros n svc Hn. rewrite Hp. apply elem_of_union_r. by eapply Hpub. }
  destruct (close_svc_ok (set_fs (set_tor e t') fs) id Hok' Hid) as [Hcok Hcrun].
  destruct (close_svc (set_fs (set_tor e t') fs) id) as [b e2]. cbn [snd] in *.
  destruct saved as [u|err]; [|by intros [= <- <-]].
  cbn [en_onions set_fs set_tor]. destruct (en_onions e !! name) as [svc|] eqn:Hname; intros [= <- <-]; [done|].
  split; [|split_and!].
  - split_and!; [done| |].
    + intros t2 n svc [= <-] Hn. cbn in Hn. rewrite Hp. apply lookup_insert_Some in Hn as [[<- <-]|[_ Hn]].
      * by apply elem_of_union_l, elem_of_singleton.
      * apply elem_of_union_r. by eapply Hpub.
    + intros n m s1 s2 Hn Hm Heq. cbn in Hn, Hm.
      apply lookup_insert_Some in Hn as [[<- <-]|[? Hn]], Hm as [[<- <-]|[? Hm]]; [done| | |by eapply Hinj].
      * by destruct (Hid _ _ Hm).
      * by destruct (Hid _ _ Hn).
  - by apply running_None.
  - intros m (svc & Hm & Ha%onion_addr_inj)%running_Some. by destruct (Hid _ _ Hm).
  - unfold running_onions. cbn. by rewrite fmap_insert.
Qed.
Lemma AddOnion_spec other e name kp mk w r e' :
  engine_ok e -> engine_ok (other e) -> Tor.AddOnion other e name kp mk w = (r, e') ->
  engine_ok e' /\
  match r with
  | Ok a => running_onions e !! name = None /\ running_onions (other e) !! name = None /\
      (forall m, running_onions (other e) !! m <> Some a) /\
      running_onions e' = <[name := a]> (running_onions (other e))
  | Err _ => running_onions e' = running_onions e \/ running_onions e' = running_onions (other e)
  end.
Proof.
  intros Hok Hoko. unfold AddOnion. case_bool_decide; [intros [= <- <-]; auto|].
  destruct (en_tor e) as [t0|]; [|intros [= <- <-]; auto].
  destruct (en_onions e !! name) as [svc|] eqn:Hname; [intros [= <- <-]; auto|].
  match goal with |- context [match ?l with Ok _ => _ | Err _ => (Err _, e) end] => destruct l as [key|err] end;
    [|intros [= <- <-]; auto].
  destruct (en_tor (other e)) as [t|] eqn:Ht; [|intros [= <- <-]; auto].
  intros Hp. destruct (publish_spec _ _ _ _ _ _ _ _ Hoko Ht Hp) as [Hok' Hr]. split; [done|].
  destruct r; [|auto]. destruct Hr as (Hn & Ha & Hr). split_and!; [by apply running_None|done|done|done].
Qed.

Lemma engine_ok_delete e n : engine_ok e -> engine_ok (set_onions e (delete n (en_onions e))).
Proof.
  intros (Hn & Hp & Hi). unfold engine_ok. cbn [set_onions en_onions en_tor]. split_and!.
  - intros Ht. by rewrite (Hn Ht), delete_empty.
  - intros t m svc Ht [_ Hm]%lookup_delete_Some. by eapply Hp.
  - intros m1 m2 s1 s2 [_ H1]%lookup_delete_Some [_ H2]%lookup_delete_Some. by eapply Hi.
Qed.

Lemma RemoveOnion_spec e name r e' : engine_ok e -> Tor.RemoveOnion e name = (r, e') ->
  engine_ok e' /\ running_onions e' = delete name (running_onions e) /\
  (r = Err ErrOnionNotFound <-> running_onions e !! name = None).
Proof.
  intros Hok. unfold RemoveOnion. rewrite running_None. destruct (en_onions e !! name) as [svc|] eqn:Hname.
  2: { intros [= <- <-]. split_and!; [done| |done]. by rewrite delete_id by (by apply running_None). }
  destruct (close_svc_ok (set_onions e (delete name (en_onions e))) (on_ID svc)) as [Hcok Hcrun].
  { by apply engine_ok_delete. }
  { cbn [set_onions en_onions]. intros n s [Hne Hn]%lookup_delete_Some Heq. destruct Hok as (_ & _ & Hi). by eapply Hne, Hi. }
  destruct (close_svc _ _) as [ok e2]. cbn [snd] in *. intros [= <- <-]. split_and!; [done| |].
  - rewrite Hcrun. unfold running_onions. cbn. by rewrite fmap_delete.
  - by destruct ok.
Qed.

Lemma close_all e l : en_onions e = ∅ -> engine_ok (fold_left (fun e svc => (close_svc e (on_ID svc)).2) l e) /\
  en_onions (fold_left (fun e svc => (close_svc e (on_ID svc)).2) l e) = ∅.
Proof.
  revert e. induction l as [|x l IH]; intros e He; cbn [fold_left].
  - split; [|done]. unfold engine_ok. rewrite He. split_and!; [done|by intros ? ? ? _ ?%lookup_empty_Some|by intros ? ? ? ? ?%lookup_empty_Some].
  - apply IH. unfold close_svc. destruct (en_tor e); [|done]. by destruct (CloseOnion _ _).
Qed.

Lemma Stop_spec e closed : engine_ok e ->
  engine_ok (Stop e closed).2 /\ (en_stopped e = false -> running_onions (Stop e closed).2 = ∅) /\
  en_stopped (Stop e closed).2 = true /\ Stop (Stop e closed).2 closed = (true, (Stop e closed).2).
Proof.
  intros Hok. unfold Stop. destruct (en_stopped e) eqn:Hs; [cbn [snd]; by rewrite Hs|].
  set (e1 := mkEngine (en_dataDir e) (en_tor e) (en_progress e) (en_ready e) (en_socksAddr e) true ∅ (en_fs e)).
  destruct (close_all e1 (map_to_list (en_onions e)).*2 eq_refl) as [Hcok He]. cbn [snd].
  assert (forall l e, en_stopped e = true -> en_stopped (fold_left (fun e svc => (close_svc e (on_ID svc)).2) l e) = true) as Hst.
  { intros l. induction l as [|x l IH]; intros e2 H2; [done|]. cbn [fold_left]. apply IH. unfold close_svc.
    destruct (en_tor e2); [|done]. by destruct (CloseOnion _ _). }
  rewrite (Hst _ e1 eq_refl). split_and!; [done| |done|done]. intros _. unfold running_onions. by rewrite He, fmap_empty.
Qed.

(** C24. The engine refines a map from names to onion addresses: in every state in which its
    table is one of services Tor publishes, adding a name enters a fresh address, unless it
    fails, which changes nothing, also when other calls run in between; removing deletes
    the name, whether or not Tor confirms, and fails with [ErrOnionNotFound] exactly on a
    name that is not there; [Stop] empties the map, once; the lookups read it. *)
Theorem engine_refines_map e name :
  engine_ok e ->
  (forall other kp mk w r e', engine_ok (other e) -> Tor.AddOnion other e name kp mk w = (r, e') ->
     engine_ok e' /\
     match r with
     | Ok a => running_onions (other e) !! name = None /\ (forall m, running_onions (other e) !! m <> Some a) /\
         running_onions e' = <[name := a]> (running_onions (other e))
     | Err _ => running_onions e' = running_onions e \/ running_onions e' = running_onions (other e)
     end) /\
  (forall r e', Tor.RemoveOnion e name = (r, e') ->
     engine_ok e' /\ running_onions e' = delete name (running_onions e) /\
     (r = Err ErrOnionNotFound <-> running_onions e !! name = None)) /\
  (forall closed, engine_ok (Stop e closed).2 /\ (en_stopped e = false -> running_onions (Stop e closed).2 = ∅) /\
     Stop (Stop e closed).2 closed = (true, (Stop e closed).2)) /\
  OnionAddr e name = running_onions e !! name /\ ListOnions e ≡ₚ (map_to_list (running_onions e)).*1.
Proof.
  intros Hok. split_and!.
  - intros other kp mk w r e' Hoko Ha. destruct (AddOnion_spec _ _ _ _ _ _ _ _ Hok Hoko Ha) as [? Hr].
    split; [done|]. destruct r; [|done]. by destruct Hr as (_ & ? & ? & ?).
  - intros r e'. by apply RemoveOnion_spec.
  - intros closed. destruct (Stop_spec e closed Hok) as (? & ? & _ & ?). by split_and!.
  - unfold OnionAddr, running_onions. by rewrite lookup_fmap.
  - unfold ListOnions, running_onions. rewrite sort_slice_Permutation, map_to_list_fmap, <- list_fmap_compose.
    apply Permutation_refl'. apply list_fmap_ext. by intros i [].
Qed.

(** *** The registry's interface *)

(** An engine in a good state, with what the disk will answer to its next saves. *)
Record EngineHost := mkEngineHost {
  eh_engine : Engine (T := T); eh_answers : list (option nat * write_outcome); eh_ok : engine_ok eh_engine }.

Definition host_AddOnion (h : EngineHost) (name : string) : option string * EngineHost :=
  let '(mk, w) := default (None, OpenFails) (head (eh_answers h)) in
  let r := Tor.AddOnion id (eh_engine h) name None mk w in
  (match r.1 with Ok a => Some a | Err _ => None end,
   mkEngineHost r.2 (tail (eh_answers h))
     (proj1 (AddOnion_spec id (eh_engine h) name None mk w r.1 r.2 (eh_ok h) (eh_ok h) (surjective_pairing r)))).

Definition host_RemoveOnion (h : EngineHost) (name : string) : bool * EngineHost :=
  let r := Tor.RemoveOnion (eh_engine h) name in
  (is_ok r.1, mkEngineHost r.2 (eh_answers h)
     (proj1 (RemoveOnion_spec (eh_engine h) name r.1 r.2 (eh_ok h) (surjective_pairing r)))).

#[export] Instance engine_OnionEngine : OnionEngine EngineHost := {
  AddOnion := host_AddOnion; RemoveOnion := host_RemoveOnion;
  running h n := running_onions (eh_engine h) !! n }.

Lemma host_AddOnion_eq h n : exists mk w, let r := Tor.AddOnion id (eh_engine h) n None mk w in
  (host_AddOnion h n).1 = (match r.1 with Ok a => Some a | Err _ => None end) /\ eh_engine (host_AddOnion h n).2 = r.2.
Proof. unfold host_AddOnion. destruct (default _ _) as [mk w]. by exists mk, w. Qed.

Lemma host_AddOnion_run h n o h' : host_AddOnion h n = (o, h') ->
  match o with
  | Some a => running_onions (eh_engine h) !! n = None /\ (forall m, running_onions (eh_engine h) !! m <> Some a) /\
      running_onions (eh_engine h') = <[n := a]> (running_onions (eh_engine h))
  | None => running_onions (eh_engine h') = running_onions (eh_engine h)
  end.
Proof.
  intros Heq. destruct (host_AddOnion_eq h n) as (mk & w & H1 & H2). rewrite Heq in H1, H2. cbn [fst snd] in *.
  destruct (Tor.AddOnion id (eh_engine h) n None mk w) as [r e'] eqn:Ha. cbn [fst snd] in *.
  destruct (AddOnion_spec _ _ _ _ _ _ _ _ (eh_ok h) (eh_ok h) Ha) as [_ Hr]. subst o e'.
  destruct r as [a|]; [by destruct Hr as (? & _ & ? & ?)|by destruct Hr].
Qed.

#[export] Instance engine_OnionEngineOk : OnionEngineOk EngineHost.
Proof.
  split; unfold Services.AddOnion, Services.RemoveOnion, running; cbn [engine_OnionEngine].
  - intros h n a h' (Hn & Hm & Hr)%host_AddOnion_run. split_and!; [done|done|].
    intros m. rewrite Hr, lookup_insert. by repeat case_decide; simplify_eq.
  - intros h n h' Hr%host_AddOnion_run m. by rewrite Hr.
  - intros h n b h' Heq m. destruct (RemoveOnion_spec (eh_engine h) n _ _ (eh_ok h) (surjective_pairing _)) as (_ & Hr & _).
    apply (f_equal (fun p => eh_engine p.2)) in Heq. cbn in Heq. rewrite <- Heq, Hr, lookup_delete.
    by repeat case_decide; simplify_eq.
Qed.

(** ** The addresses last *)

Lemma onionKeyPath_service e n : onionKeyPath e n = service_path (en_dataDir e) n "onion.key".
Proof. done. Qed.

Lemma onionKeyPath_inj e n m : validateName n = true -> validateName m = true ->
  onionKeyPath e n = onionKeyPath e m -> n = m.
Proof.
  intros Hn%validateName_plain Hm%validateName_plain Heq. rewrite !onionKeyPath_service in Heq.
  assert (plain "onion.key") as Hf by (by split_and!). by apply service_path_inj in Heq as [-> _].
Qed.

Lemma saveOnionKey_touches fs path key mk w : touches path fs (saveOnionKey fs path key mk w).2.
Proof.
  unfold saveOnionKey. destruct key as [k|]; [|done].
  pose proof (MkdirAll_added fs (DirOf path) mk) as [Ha Hb].
  destruct (MkdirAll _ _ _) as [[] fs1]; cbn [negb snd] in *; [|by split; auto].
  match goal with |- context [WriteFile fs1 ?p ?d ?o] => pose proof (WriteFile_touches fs1 p d o) as Hw;
    destruct (WriteFile fs1 p d o) as [ok fs2] end.
  destruct ok; cbn [snd] in *; intros p Hp; destruct (Hw p Hp) as [Hw1 Hw2]; split; eauto.
Qed.

(** A saved key is the key that is loaded. *)
Lemma load_after_saveOnionKey fs path k mk w fs' :
  length (ok_priv k) = 64%nat -> length (ok_pub k) = 32%nat -> KeyPairOf (ok_priv k) = k ->
  saveOnionKey fs path (BineKey k) mk w = (Ok tt, fs') -> loadOnionKey fs' path = Ok k.
Proof.
  intros H64 H32 Hk. unfold saveOnionKey. destruct (MkdirAll _ _ _) as [[] fs1]; [|done]. cbn [negb].
  set (data := copy_into 64 (ok_priv k) ++ copy_into 32 (ok_pub k)).
  assert (data = ok_priv k ++ ok_pub k) as Hd.
  { unfold data, copy_into. by rewrite H64, H32, !Nat.sub_diag, !take_ge, !app_nil_r by lia. }
  intros Hw. assert (fs' !! path = Some (File data)) as Hf.
  { unfold WriteFile in Hw. destruct (fs1 !! path) as [[]|], w; try done; injection Hw as <-; apply lookup_insert_eq. }
  unfold loadOnionKey. rewrite Hf, Hd, length_app, H64, H32. cbn [Nat.add Nat.eqb negb].
  rewrite (take_app_length' (ok_priv k)) by done. by rewrite Hk.
Qed.

Lemma close_svc_fs e id : en_fs (close_svc e id).2 = en_fs e /\ en_dataDir (close_svc e id).2 = en_dataDir e.
Proof. unfold close_svc. destruct (en_tor e); [|done]. by destruct (CloseOnion _ _). Qed.

(** What a publication leaves on the disk, and the key behind its address. *)
Lemma publish_disk e t name key mk w r e' : publish e t name key mk w = (r, e') ->
  en_dataDir e' = en_dataDir e /\ touches (onionKeyPath e name) (en_fs e) (en_fs e') /\
  (is_Some key -> en_fs e' = en_fs e) /\
  (r = Err ErrOnionExists \/ is_ok r = true -> exists k, match key with
     | Some k' => k = k'
     | None => loadOnionKey (en_fs e') (onionKeyPath e name) = Ok k
     end /\ not (onion_id k ∈ published t) /\ (forall a, r = Ok a -> a = onion_addr (onion_id k))).
Proof.
  unfold publish. destruct (Listen t key) as [[[id k']|] t'] eqn:Hl.
  2: { intros [= <- <-]. split_and!; [done|done|done|]. by intros [?|?]. }
  apply Listen_ok in Hl as (Hfresh & _ & Hkey).
  set (sv := match key with Some _ => _ | None => _ end).
  assert (sv.1 <> Err ErrOnionExists /\ touches (onionKeyPath e name) (en_fs e) sv.2 /\ (is_Some key -> sv.2 = en_fs e) /\
    (sv.1 = Ok tt -> exists k, id = onion_id k /\ match key with
       | Some k' => k = k' | None => loadOnionKey sv.2 (onionKeyPath e name) = Ok k end)) as (Hne & Ht & Hs & Hk).
  { subst sv. destruct key as [k|].
    - split_and!; [done|done|done|]. intros _. by exists k.
    - destruct Hkey as (k0 & -> & Hid & H64 & H32 & Hkp). cbn [en_fs set_tor].
      split_and!; [unfold saveOnionKey; go_cases; done|apply saveOnionKey_touches|by intros []|].
      destruct (saveOnionKey _ _ _ _ _) as [r0 fs'] eqn:Hsave. cbn. intros ->. exists k0. split; [done|].
      by eapply load_after_saveOnionKey. }
  destruct sv as [saved fs]. cbn [fst snd] in *.
  pose proof (close_svc_fs (set_fs (set_tor e t') fs) id) as [Hcf Hcd].
  destruct (close_svc (set_fs (set_tor e t') fs) id) as [b e2]. cbn [snd] in *.
  destruct saved as [[]|err].
  2: { intros [= <- <-]. rewrite Hcf, Hcd. split_and!; [done|done|done|]. by intros [[= ->]|?]. }
  destruct (Hk eq_refl) as (k & Hid & Hload). cbn [en_onions set_fs set_tor]. rewrite Hid in Hfresh.
  destruct (en_onions e !! name) as [svc|]; intros [= <- <-].
  - rewrite Hcf, Hcd. split_and!; [done|done|done|]. intros _. exists k. split_and!; [done|done|done].
  - cbn. split_and!; [done|done|done|]. intros _. exists k. split_and!; [done|done|]. intros a [= <-]. by rewrite Hid.
Qed.

(** [AddOnion] by itself: the disk, and the key behind the address. *)
Lemma AddOnion_disk e name mk w r e' : Tor.AddOnion id e name None mk w = (r, e') ->
  en_dataDir e' = en_dataDir e /\ touches (onionKeyPath e name) (en_fs e) (en_fs e') /\
  (forall k, loadOnionKey (en_fs e) (onionKeyPath e name) = Ok k -> en_fs e' = en_fs e /\
     forall a, r = Ok a -> a = onion_addr (onion_id k)) /\
  (forall a, r = Ok a -> exists k, loadOnionKey (en_fs e') (onionKeyPath e name) = Ok k /\ a = onion_addr (onion_id k)).
Proof.
  unfold AddOnion, id. case_bool_decide; [by intros [= <- <-]|].
  destruct (en_tor e) as [t|] eqn:Ht; [|by intros [= <- <-]].
  destruct (en_onions e !! name) eqn:Hn; [by intros [= <- <-]|].
  destruct (loadOnionKey (en_fs e) (onionKeyPath e name)) as [k|err] eqn:Hl.
  - intros Hp. destruct (publish_disk _ _ _ _ _ _ _ _ Hp) as (Hd & Hto & Hs & Hk). specialize (Hs ltac:(by eexists)).
    split_and!; [done|done| |].
    + intros k' [= <-]. split; [done|]. intros a Hr. destruct Hk as (k' & -> & _ & Ha); [right; by rewrite Hr|]. by apply Ha.
    + intros a Hr. destruct Hk as (k' & -> & _ & Ha); [right; by rewrite Hr|]. exists k. rewrite Hs. split; [done|by apply Ha].
  - destruct err; try (by intros [= <- <-]). intros Hp.
    destruct (publish_disk _ _ _ _ _ _ _ _ Hp) as (Hd & Hto & _ & Hk). split_and!; [done|done|done|].
    intros a Hr. destruct Hk as (k' & Hload & _ & Ha); [right; by rewrite Hr|]. exists k'. split; [exact Hload|by apply Ha].
Qed.

Lemma RemoveOnion_disk e name : en_fs (Tor.RemoveOnion e name).2 = en_fs e /\ en_dataDir (Tor.RemoveOnion e name).2 = en_dataDir e.
Proof.
  unfold RemoveOnion. destruct (en_onions e !! name) as [svc|]; [|done].
  pose proof (close_svc_fs (set_onions e (delete name (en_onions e))) (on_ID svc)) as Hc.
  destruct (close_svc _ _). exact Hc.
Qed.

Lemma Stop_disk e closed : en_fs (Stop e closed).2 = en_fs e /\ en_dataDir (Stop e closed).2 = en_dataDir e.
Proof.
  unfold Stop. destruct (en_stopped e); [done|]. cbn [snd].
  assert (forall l e0, en_fs (fold_left (fun e svc => (close_svc e (on_ID svc)).2) l e0) = en_fs e0 /\
    en_dataDir (fold_left (fun e svc => (close_svc e (on_ID svc)).2) l e0) = en_dataDir e0) as Hall.
  2: { match goal with |- context [fold_left _ ?l ?x] => destruct (Hall l x) as [-> ->] end. done. }
  induction l as [|x l IH]; intros e0; [done|]. cbn [fold_left].
  destruct (IH (close_svc e0 (on_ID x)).2) as [-> ->]. apply close_svc_fs.
Qed.

(** What may happen between two publications: calls on any service, a new process of the
    daemon on the same disk, and other writes to the disk. *)
Inductive engine_step (e : Engine (T := T)) : Engine (T := T) -> Prop :=
| es_add name mk w : validateName name = true -> engine_step e (Tor.AddOnion id e name None mk w).2
| es_remove name : engine_step e (Tor.RemoveOnion e name).2
| es_stop closed : engine_step e (Stop e closed).2
| es_restart t : engine_step e (set_tor (NewEngine (en_dataDir e) (en_fs e)) t)
| es_disk fs : (forall n, validateName n = true -> fs !! onionKeyPath e n = en_fs e !! onionKeyPath e n) ->
    engine_step e (set_fs e fs).

Definition saved_key (e : Engine (T := T)) (name : string) (k : OnionKey) : Prop :=
  loadOnionKey (en_fs e) (onionKeyPath e name) = Ok k.

Lemma saved_key_frame e e' name k : en_dataDir e' = en_dataDir e ->
  (forall node, en_fs e !! onionKeyPath e name = Some node -> en_fs e' !! onionKeyPath e name = Some node) ->
  saved_key e name k -> saved_key e' name k.
Proof.
  intros Hd Hf. unfold saved_key, loadOnionKey. assert (onionKeyPath e' name = onionKeyPath e name) as ->
    by (unfold onionKeyPath; by rewrite Hd).
  destruct (en_fs e !! onionKeyPath e name) as [node|]; [|done]. by rewrite (Hf node eq_refl).
Qed.

Lemma engine_step_saved e e' name k : validateName name = true ->
  engine_step e e' -> saved_key e name k -> saved_key e' name k.
Proof.
  intros Hv Hstep Hs. destruct Hstep as [m mk w Hvm|m|closed|t|fs Hfs].
  - destruct (Tor.AddOnion id e m None mk w) as [r e'] eqn:Ha. cbn [snd].
    destruct (AddOnion_disk _ _ _ _ _ _ Ha) as (Hd & Ht & Hk & _).
    destruct (decide (m = name)) as [->|Hne].
    + destruct (Hk k Hs) as [Hfs _]. eapply saved_key_frame; [done| |done]. by rewrite Hfs.
    + eapply saved_key_frame; [done| |done]. apply Ht. intros Heq%onionKeyPath_inj; congruence.
  - destruct (RemoveOnion_disk e m) as [Hf Hd]. eapply saved_key_frame; [done| |done]. by rewrite Hf.
  - destruct (Stop_disk e closed) as [Hf Hd]. eapply saved_key_frame; [done| |done]. by rewrite Hf.
  - done.
  - apply (saved_key_frame e); [done| |done]. intros node. cbn [set_fs en_fs]. by rewrite (Hfs name Hv).
Qed.


Lemma AddOnion_lost other e name mk w e' : Tor.AddOnion other e name None mk w = (Err ErrOnionExists, e') ->
  en_onions e !! name = None ->
  exists t key, en_tor (other e) = Some t /\ publish (other e) t name key mk w = (Err ErrOnionExists, e') /\
    (forall k, key = Some k -> saved_key e name k).
Proof.
  unfold AddOnion, saved_key. intros Ha Hn. rewrite Hn in Ha. case_bool_decide; [done|].
  destruct (en_tor e) as [t0|]; [|done].
  destruct (loadOnionKey (en_fs e) (onionKeyPath e name)) as [k|err] eqn:Hl.
  - destruct (en_tor (other e)) as [t|]; [|done]. exists t, (Some k). split_and!; [done|done|]. by intros ? [= ->].
  - assert (err <> ErrOnionExists) as Hne by (intros ->; unfold loadOnionKey in Hl; go_cases).
    destruct err; try done. destruct (en_tor (other e)) as [t|]; [|done]. by exists t, None.
Qed.

(** Two overlapping first publications of a name break this: when a second [AddOnion]
    publishes the name after the first one has looked for a key and found none, the first
    saves its own new key over the second's before it finds the name taken.  The service
    runs under the second address, but the key on disk is that of another address, which
    the next start of the daemon publishes. *)
Theorem onion_race_changes_address e name mk w mk2 w2 a e1 r e2
  (Hok : engine_ok e)
  (Hsecond : Tor.AddOnion id e name None mk2 w2 = (Ok a, e1))
  (Hfirst : Tor.AddOnion (fun e => (Tor.AddOnion id e name None mk2 w2).2) e name None mk w = (r, e2))
  (Hlost : r = Err ErrOnionExists) :
  OnionAddr e2 name = Some a /\
  exists k, saved_key e2 name k /\ onion_addr (onion_id k) <> a /\
    forall t mk' w' a', (Tor.AddOnion id (set_tor (NewEngine (en_dataDir e2) (en_fs e2)) t) name None mk' w').1 = Ok a' ->
      a' <> a.
Proof.
  subst r. destruct (AddOnion_spec _ _ _ _ _ _ _ _ Hok Hok Hsecond) as (Hok1 & Hn%running_None & _ & _ & Hrun1).
  destruct (AddOnion_lost _ _ _ _ _ _ Hfirst Hn) as (t & key & Ht & Hp & Hkey).
  rewrite Hsecond in Ht, Hp. cbn [snd] in Ht, Hp.
  destruct (publish_spec _ _ _ _ _ _ _ _ Hok1 Ht Hp) as [_ Hrun2].
  assert (running_onions e1 !! name = Some a) as Ha by (rewrite Hrun1; apply lookup_insert_eq).
  destruct (proj1 (running_Some _ _ _) Ha) as (svc & Hsvc & Hid).
  destruct (publish_disk _ _ _ _ _ _ _ _ Hp) as (Hd & _ & _ & Hk). destruct Hk as (k & Hk & Hfresh & _); [by left|].
  assert (onion_addr (onion_id k) <> a) as Hdiff.
  { rewrite Hid. intros Heq%onion_addr_inj. apply Hfresh. rewrite Heq. destruct Hok1 as (_ & Hpub & _). by eapply Hpub. }
  assert (saved_key e2 name k) as Hsaved.
  { destruct key as [k'|].
    - subst k'. destruct (AddOnion_disk _ _ _ _ _ _ Hsecond) as (_ & _ & Hs & _).
      destruct (Hs k (Hkey k eq_refl)) as [_ Hs']. by destruct Hdiff; rewrite (Hs' a eq_refl).
    - unfold saved_key. assert (onionKeyPath e2 name = onionKeyPath e1 name) as -> by (unfold onionKeyPath; by rewrite Hd). done. }
  split; [unfold OnionAddr; by rewrite <- lookup_fmap, <- Ha, <- Hrun2|]. exists k. split_and!; [done|done|].
  intros t' mk' w' a' Hr. destruct (Tor.AddOnion id (set_tor _ t') name None mk' w') as [r' e'] eqn:He'. cbn in Hr. subst r'.
  destruct (AddOnion_disk _ _ _ _ _ _ He') as (_ & _ & Hs & _). destruct (Hs k Hsaved) as [_ Hs']. by rewrite (Hs' a' eq_refl).
Qed.
End claims.

(** ** A Tor process in which everything can be computed *)
Module ToyTor.
Definition process := (Z * gset string)%type.
Definition key_of (p : bytes) : OnionKey := mkOnionKey p (take 32 p).
Definition id_of (k : OnionKey) : string := hex_encode (take 2 (ok_priv k)).
Definition new_key (n : Z) : OnionKey := key_of (replicate 64 (z2b n)).

#[export] Instance toy_tor : TorProcess process := {
  Listen t k :=
    let key := default (new_key t.1) k in
    if bool_decide (id_of key ∈ t.2) then (None, t)
    else (Some (id_of key, Some (BineKey key)), (t.1 + 1, {[id_of key]} ∪ t.2));
  CloseOnion t id := (true, (t.1, t.2 ∖ {[id]}));
  published t := t.2;
  KeyPairOf := key_of;
  onion_id := id_of }.

#[export] Instance toy_tor_ok : TorProcessOk process.
Proof.
  split; unfold Listen, CloseOnion, published, KeyPairOf, onion_id; cbn [toy_tor].
  - intros t k id k' t'. case_bool_decide as Hin; [done|]. intros [= <- <- <-]. split_and!; [done|done|].
    destruct k as [k|]; [done|]. exists (new_key t.1). by split_and!.
  - intros t k t'. case_bool_decide; [by intros [= <-]|done].
  - intros t id b t' [= _ <-]. cbn [snd]. split; [apply subseteq_difference_l; done|].
    intros x Hx. destruct (decide (x = id)) as [->|]; [by apply elem_of_union_r, elem_of_singleton|].
    apply elem_of_union_l, elem_of_difference. split; [done|]. by intros ?%elem_of_singleton.
Qed.
End ToyTor.

Section samples.
Import ToyTor.

Definition started (n : Z) (fs : filesystem) : Engine (T := process) := set_tor (NewEngine "/data" fs) (n, ∅).
Definition fresh_engine : Engine (T := process) := started 1 ∅.
Definition add_bot (e : Engine (T := process)) := AddOnion id e "bot" None None WriteOk.

Lemma fresh_engine_ok : engine_ok fresh_engine.
Proof.
  unfold engine_ok. change (en_onions fresh_engine) with (∅ : gmap string onionService).
  split_and!; [done|by intros ? ? ? _ ?%lookup_empty_Some|by intros ? ? ? ? ?%lookup_empty_Some].
Qed.

Lemma engine_refines_map_witness :
  (add_bot fresh_engine).1 = Ok "0101.onion"%string /\
  running_onions (add_bot fresh_engine).2 = {[ "bot"%string := "0101.onion"%string ]}.
Proof.
  assert ((add_bot fresh_engine).1 = Ok "0101.onion"%string) as Hr by (vm_compute; reflexivity). split; [exact Hr|].
  destruct (proj1 (engine_refines_map fresh_engine "bot" fresh_engine_ok) id None None WriteOk
    (add_bot fresh_engine).1 (add_bot fresh_engine).2 fresh_engine_ok (surjective_pairing _)) as [_ H].
  rewrite Hr in H. destruct H as (_ & _ & H). rewrite H. reflexivity.
Defined.

(** Published, removed, and published again by the next start of the daemon. *)
Definition after_restart : Engine (T := process) := started 7 (en_fs (RemoveOnion (add_bot fresh_engine).2 "bot").2).


(** The run of the first of two overlapping publications. *)
Definition raced := AddOnion (fun e => (AddOnion id e "bot" None None WriteOk).2) fresh_engine "bot" None None WriteOk.

Lemma onion_race_changes_address_witness :
  raced.1 = Err ErrOnionExists /\ OnionAddr raced.2 "bot" = Some "0101.onion"%string /\
  (add_bot (started 9 (en_fs raced.2))).1 = Ok "0202.onion"%string /\ "0202.onion"%string <> "0101.onion"%string.
Proof.
  assert (raced.1 = Err ErrOnionExists) as Hlost by (vm_compute; reflexivity).
  assert ((AddOnion id fresh_engine "bot" None None WriteOk).1 = Ok "0101.onion"%string) as Ha by (vm_compute; reflexivity).
  assert ((add_bot (started 9 (en_fs raced.2))).1 = Ok "0202.onion"%string) as Hb by (vm_compute; reflexivity).
  destruct (onion_race_changes_address fresh_engine "bot" None WriteOk None WriteOk _ _ raced.1 raced.2 fresh_engine_ok
    (with_second _ _ Ha) (surjective_pairing raced) Hlost) as (Hrun & k & _ & _ & Hnext).
  split; [exact Hlost|]. split; [exact Hrun|]. split; [exact Hb|].
  assert (en_dataDir raced.2 = "/data"%string) as Hd by (vm_compute; reflexivity). rewrite Hd in Hnext.
  revert Hb Hnext. generalize (en_fs raced.2). intros fs Hb Hnext. exact (Hnext (9, ∅) None WriteOk "0202.onion"%string Hb).
Defined.
End samples.
