(* ===== verification/Provider.v ===== *)
(** * internal/tor/provider.go: the Tor binary

    The bundle of the platform is downloaded, checked against its digest and unpacked into the data
    directory, where a version marker makes the next start use it.  The network and the format of the
    archive are arguments; paths are Unix paths. *)

From S2P Require Import Prelude GoStd Sha256 Crypto Protocol Instances Identity Chunker FilePath Keystore ApiAuth.
Import Sha256.
Local Open Scope string_scope.

(** ** Bundles *)

(** src: internal/tor/provider.go 18-21 torVersion, torBaseURL *)
Definition torVersion : string := "15.0.5".
Definition torBaseURL : string := "https://dist.torproject.org/torbrowser/" +:+ torVersion +:+ "/".

(** src: internal/tor/provider.go 24-27 platformBundle *)
Record platformBundle := mkBundle { pb_Filename : string; pb_SHA256 : string }.

(** src: internal/tor/provider.go 29-46 bundles *)
Definition bundles : gmap string platformBundle := list_to_map [
  ("linux/amd64", mkBundle ("tor-expert-bundle-linux-x86_64-" +:+ torVersion +:+ ".tar.gz")
    "df5d4850779d9648160c54df1a82733ea54f3430c46b3cc3ed2a22b579f8758e");
  ("darwin/amd64", mkBundle ("tor-expert-bundle-macos-x86_64-" +:+ torVersion +:+ ".tar.gz")
    "38a62c81c93eee88a273a14b8669e7d5a72583adef1c37c28e1cd98ee5ea2ade");
  ("darwin/arm64", mkBundle ("tor-expert-bundle-macos-aarch64-" +:+ torVersion +:+ ".tar.gz")
    "147be0997f4538c6f20f3a113f6220f7a1c711acc3410f534f0a3cf62b7a06dd");
  ("windows/amd64", mkBundle ("tor-expert-bundle-windows-x86_64-" +:+ torVersion +:+ ".tar.gz")
    "49aabfe2958c8084e9fba1f78d85049e16a657e1f679b75102bbf9518497607f")].

(** src: internal/tor/provider.go 49-54 torBinaryName *)
Definition torBinaryName (goos : string) : string := if bool_decide (goos = "windows") then "tor.exe" else "tor".

(** src: internal/tor/provider.go 57-64 bundleForPlatform *)
Definition bundleForPlatform (goos goarch : string) : option platformBundle := bundles !! (goos +:+ "/" +:+ goarch).

(** ** Downloading and checking *)

(** The answer to a GET: its status, the body, and whether the body came to its end. *)
Record response := mkResponse { rs_StatusCode : Z; rs_Body : bytes; rs_whole : bool }.

(** [answer]: [None] when there is none; [create]: how far the file is written. *)
(** src: internal/tor/provider.go 131-158 downloadFile *)
Definition downloadFile (answer : option response) (create : write_outcome) (fs : filesystem) (dest : string) : bool * filesystem :=
  match answer with
  | None => (false, fs)
  | Some resp =>
      if negb (rs_StatusCode resp =? 200)%Z then (false, fs)
      else let '(ok, fs) := WriteFile fs dest (rs_Body resp) create in (ok && rs_whole resp, fs)
  end.

(** src: internal/tor/provider.go 161-178 verifyChecksum *)
Definition verifyChecksum (fs : filesystem) (path expected : string) : bool :=
  match fs !! path with Some (File data) => bool_decide (hex_encode (Sum256 data) = expected) | _ => false end.

(** ** Unpacking *)

(** What [tar.Reader] gives: a header with the data that follows, and whether that can be read to
    its end; or an error.  The end of the list is the end of the archive. *)
Record tar_entry := mkEntry { hdr_Name : string; hdr_dir : bool; hdr_data : bytes; hdr_whole : bool }.
Inductive tar_item := TarEntry (e : tar_entry) | TarError.

Inductive wanted := TorBin | SharedLib | GeoIP.
#[export] Instance wanted_eq_dec : EqDecision wanted.
Proof. solve_decision. Defined.

(** src: internal/tor/provider.go 211-230 extractTorBinary *)
Definition classify (goos name : string) : option wanted :=
  let base := Base name in
  let dir := default "" (head (split_slash name)) in
  let isTorDir := bool_decide (dir = "tor") in
  let isDataDir := bool_decide (dir = "data") in
  if isTorDir && bool_decide (base = torBinaryName goos) then Some TorBin
  else if isTorDir && (HasSuffix base ".so" || Contains base ".so." || HasSuffix base ".dylib" || HasSuffix base ".dll")
  then Some SharedLib
  else if isDataDir && (bool_decide (base = "geoip") || bool_decide (base = "geoip6")) then Some GeoIP
  else None.

(** The answers of the system for one entry: the directory [data], and the file. *)
Record entry_env := mkEntryEnv { ee_mkdir : option nat; ee_write : write_outcome }.

(** One entry that is wanted: whether there was no error, and whether the file was written. *)
(** src: internal/tor/provider.go 236-262 extractTorBinary *)
Definition extract_entry (env : entry_env) (destDir : string) (k : wanted) (e : tar_entry) (fs : filesystem) :
    bool * bool * filesystem :=
  let base := Base (hdr_Name e) in
  let outDir := match k with GeoIP => JoinAll [destDir; "data"] | _ => destDir end in
  let '(ok, fs) := match k with GeoIP => MkdirAll fs outDir (ee_mkdir env) | _ => (true, fs) end in
  if negb ok then (false, false, fs)
  else
    let outPath := JoinAll [outDir; base] in
    if negb (is_prefix (Clean destDir) (Clean outPath)) then (true, false, fs)
    else let '(ok, fs) := WriteFile fs outPath (hdr_data e) (ee_write env) in (ok && hdr_whole e, true, fs).

Definition is_TorBin (k : wanted) : bool := match k with TorBin => true | _ => false end.

(** Whether there was no error, and whether the binary was found. *)
(** src: internal/tor/provider.go 199-267 extractTorBinary *)
Fixpoint extract_loop (env : nat -> entry_env) (goos destDir : string) (items : list tar_item) (found : bool)
    (fs : filesystem) : bool * bool * filesystem :=
  match items with
  | [] => (true, found, fs)
  | TarError :: _ => (false, found, fs)
  | TarEntry e :: items =>
      let env' := fun i => env (S i) in
      match classify goos (hdr_Name e) with
      | None => extract_loop env' goos destDir items found fs
      | Some k =>
          if hdr_dir e then extract_loop env' goos destDir items found fs
          else
            let '(ok, written, fs) := extract_entry (env 0%nat) destDir k e fs in
            if negb ok then (false, found, fs)
            else extract_loop env' goos destDir items (found || written && is_TorBin k) fs
      end
  end.

(** What goes wrong. *)
Inductive tor_err :=
| ErrPlatform | ErrTorDir | ErrDownload | ErrChecksum | ErrBinDir | ErrExtract | ErrVersionFile | ErrNoBinary.

(** [untar]: the entries of a compressed archive, [None] when it is not one. *)
(** src: internal/tor/provider.go 182-273 extractTorBinary *)
Definition extractTorBinary (untar : bytes -> option (list tar_item)) (env : nat -> entry_env) (goos : string) (fs : filesystem)
    (archivePath destDir : string) : bool * filesystem :=
  match fs !! archivePath with
  | Some (File data) =>
      match untar data with
      | None => (false, fs)
      | Some items => let '(ok, found, fs) := extract_loop env goos destDir items false fs in (ok && found, fs)
      end
  | _ => (false, fs)
  end.

(** ** EnsureTor *)

Definition in_tree (dir p : string) : bool := bool_decide (p = dir) || is_prefix (dir +:+ "/") p.

(** [os.RemoveAll]: the directory and what is below it, but for what cannot be removed. *)
Definition RemoveAll (fs : filesystem) (dir : string) (stays : string -> bool) : filesystem :=
  filter (fun '(p, _) => in_tree dir p && negb (stays p) = false) fs.

(** src: internal/tor/provider.go 70-72 EnsureTor *)
Definition binDir (dataDir : string) : string := JoinAll [dataDir; "tor"; "bin"].
Definition torPath (goos dataDir : string) : string := JoinAll [binDir dataDir; torBinaryName goos].
Definition versionFile (dataDir : string) : string := JoinAll [binDir dataDir; "version.txt"].

(** The marker names this version. *)
Definition version_current (fs : filesystem) (dataDir : string) : bool :=
  match fs !! versionFile dataDir with
  | Some (File data) => bool_decide (TrimSpace (String.string_of_list_byte data) = torVersion)
  | _ => false
  end.

(** src: internal/tor/provider.go 74-81 EnsureTor *)
Definition cached (fs : filesystem) (goos dataDir : string) : bool :=
  version_current fs dataDir && existsOnDisk fs (torPath goos dataDir).

(** What the system and the network answer; [pv_stays1] and [pv_stays2]: what the removals before and
    after a failed extraction leave. *)
Record provider_env := mkPEnv {
  pv_mkdir1 : option nat; pv_get : string -> option response; pv_create : write_outcome; pv_remove1 : bool;
  pv_stays1 : string -> bool; pv_mkdir2 : option nat; pv_entry : nat -> entry_env; pv_stays2 : string -> bool;
  pv_version : write_outcome; pv_remove2 : bool }.

Section provider.
Context (untar : bytes -> option (list tar_item)) (goos goarch : string).

(** From the removal of the old directory on. *)
(** src: internal/tor/provider.go 104-127 EnsureTor *)
Definition install (env : provider_env) (fs : filesystem) (dataDir archivePath : string) : result tor_err string * filesystem :=
  let fs := RemoveAll fs (binDir dataDir) (pv_stays1 env) in
  let '(ok, fs) := MkdirAll fs (binDir dataDir) (pv_mkdir2 env) in
  if negb ok then (Err ErrBinDir, fs)
  else
    let '(ok, fs) := extractTorBinary untar (pv_entry env) goos fs archivePath (binDir dataDir) in
    if negb ok then (Err ErrExtract, RemoveAll fs (binDir dataDir) (pv_stays2 env))
    else
      let '(ok, fs) := WriteFile fs (versionFile dataDir) (String.list_byte_of_string torVersion) (pv_version env) in
      if negb ok then (Err ErrVersionFile, fs)
      else
        let '(_, fs) := os_Remove fs archivePath (pv_remove2 env) in
        if existsOnDisk fs (torPath goos dataDir) then (Ok (torPath goos dataDir), fs) else (Err ErrNoBinary, fs).

(** src: internal/tor/provider.go 69-128 EnsureTor *)
Definition EnsureTor (env : provider_env) (fs : filesystem) (dataDir : string) : result tor_err string * filesystem :=
  if cached fs goos dataDir then (Ok (torPath goos dataDir), fs)
  else
    match bundleForPlatform goos goarch with
    | None => (Err ErrPlatform, fs)
    | Some bundle =>
        let archivePath := JoinAll [dataDir; "tor"; pb_Filename bundle] in
        let '(ok, fs) := MkdirAll fs (JoinAll [dataDir; "tor"]) (pv_mkdir1 env) in
        if negb ok then (Err ErrTorDir, fs)
        else
          let '(ok, fs) := downloadFile (pv_get env (torBaseURL +:+ pb_Filename bundle)) (pv_create env) fs archivePath in
          if negb ok then (Err ErrDownload, fs)
          else if negb (verifyChecksum fs archivePath (pb_SHA256 bundle))
               then (Err ErrChecksum, (os_Remove fs archivePath (pv_remove1 env)).2)
               else install env fs dataDir archivePath
    end.
End provider.

(** The engine's binary: the configured one, or what [EnsureTor] gives. *)
(** src: internal/tor/engine.go 93-100 Engine.Start *)
Definition engine_binary (untar : bytes -> option (list tar_item)) (goos goarch : string) (exePath : string) (env : provider_env)
    (fs : filesystem) (dataDir : string) : option string * filesystem :=
  if bool_decide (exePath = "") then
    match EnsureTor untar goos goarch env fs dataDir with
    | (Ok p, fs) => (Some p, fs)
    | (Err _, fs) => (None, fs)
    end
  else (Some exePath, fs).

(** What the daemon's engine starts with: the first result of [engine_binary] is [Tor.Start]'s [binary]. *)
(** src: internal/tor/engine.go 348-364 torProcessCreator *)
Definition torProcessCreator (goos torPath : string) (environ args : list string) : string * list string * list string :=
  (torPath, args, (environ ++ [(if bool_decide (goos = "darwin") then "DYLD_LIBRARY_PATH=" else "LD_LIBRARY_PATH=") +:+ DirOf torPath])%list).

(** ** Paths *)

(** A cleaned path with a name at its end. *)
Definition clean_dir (dir : string) : Prop := exists r st, dir = render r st /\ normal r st /\ st <> [].

Lemma render_cons r c st : st <> [] -> render r (c :: st) = render r st +:+ "/" +:+ c.
Proof.
  intros Hst. assert (reverse st <> []) as Hr by (destruct st; [done|]; rewrite reverse_cons; by destruct (reverse st)).
  assert (join_slash (reverse (c :: st)) = join_slash (reverse st) +:+ "/" +:+ c) as Hj
    by (rewrite reverse_cons, join_slash_app by done; done).
  unfold render. rewrite Hj. destruct r; [done|]. by destruct st.
Qed.

Lemma clean_dir_Clean dir : clean_dir dir -> Clean dir = dir.
Proof. intros (r & st & -> & Hn & _). unfold Clean. by destruct (clean_stack_render r st Hn) as [-> ->]. Qed.

Lemma clean_dir_nonempty dir : clean_dir dir -> dir <> "".
Proof. intros (r & st & -> & [Hn _] & _). by apply render_nonempty. Qed.

Lemma plain_normal r st c : plain c -> normal r st -> normal r (c :: st).
Proof. intros Hc Hn. rewrite <- (clean_step_plain r) by done. apply clean_step_normal; [by destruct Hc as (_ & _ & _ & ?)|done]. Qed.

Lemma clean_dir_join dir n : clean_dir dir -> plain n -> JoinAll [dir; n] = dir +:+ "/" +:+ n /\ clean_dir (dir +:+ "/" +:+ n).
Proof.
  intros Hdir Hn. pose proof (clean_dir_nonempty dir Hdir) as Hne. destruct Hdir as (r & st & -> & Hst & Hne').
  rewrite <- render_cons by done. split.
  - rewrite JoinAll_filter by (done || by apply Forall_singleton; destruct Hn). rewrite bool_decide_eq_false_2 by done.
    change (Clean (join_slash [render r st; n])) with (Clean (render r st +:+ String slash n)).
    assert (Clean (render r st +:+ String slash n) = Join (render r st) n) as -> by (unfold Join; by rewrite bool_decide_eq_false_2).
    rewrite Join_plain by done. by destruct (clean_stack_render r st Hst) as [-> ->].
  - exists r, (n :: st). split; [done|]. split; [by apply plain_normal|done].
Qed.

(** The directory [tor] of a data directory, and what is in it. *)
Lemma tor_dir d : clean_dir (JoinAll [d; "tor"]) /\ forall x, plain x -> JoinAll [d; "tor"; x] = JoinAll [d; "tor"] +:+ "/" +:+ x.
Proof.
  assert (plain "tor") as Ht by by split_and!.
  set (b := if bool_decide (d = "") then [] else clean_stack d).
  assert (normal (is_rooted d) b) as Hb.
  { unfold b. case_bool_decide as Hd; [subst d; split; [constructor|by exists [], 0%nat]|apply clean_stack_normal]. }
  assert (forall l, l <> [] -> Forall plain l -> JoinAll (d :: l) = render (is_rooted d) (reverse l ++ b)) as Hj.
  { intros l Hl Hp. rewrite JoinAll_filter; [|done|eapply Forall_impl; [exact Hp|by intros c (? & _)]].
    assert (Forall (fun c => split_slash c = [c]) l) as Hsp by (eapply Forall_impl; [exact Hp|by intros c (_ & _ & _ & ?)]).
    unfold b. case_bool_decide as Hd.
    - subst d. unfold Clean, clean_stack. rewrite split_join by done. destruct l as [|c l]; [done|].
      assert (is_rooted (join_slash (c :: l)) = false) as ->.
      { apply Forall_cons in Hp as [(Hc1 & Hc2 & _ & Hc4) _]. destruct l; [|by apply is_rooted_component].
        destruct c as [|a c]; [done|]. by apply (is_rooted_component (String a c) ""). }
      by rewrite fold_plain.
    - assert (Clean (join_slash (d :: l)) = Join d (join_slash l)) as ->
        by (unfold Join; rewrite bool_decide_eq_false_2 by done; by destruct l).
      rewrite Join_stack, split_join, fold_plain by done. done. }
  split.
  - rewrite Hj by (done || by apply Forall_singleton). eexists _, _. split; [done|]. split; [by apply plain_normal|done].
  - intros x Hx. assert (Forall plain ["tor"; x]) as Hl by (apply Forall_cons; split; [done|by apply Forall_singleton]).
    rewrite (Hj [_; _]), (Hj [_]) by (done || by apply Forall_singleton). by rewrite <- render_cons.
Qed.

Lemma is_prefix_app a x y : is_prefix (a +:+ x) (a +:+ y) = is_prefix x y.
Proof. induction a as [|c a IH]; [done|]. simpl. by rewrite bool_decide_eq_true_2. Qed.
Lemma is_prefix_self a x : is_prefix a (a +:+ x) = true.
Proof. induction a as [|c a IH]; [done|]. simpl. by rewrite bool_decide_eq_true_2. Qed.
Lemma is_prefix_length p s : is_prefix p s = true -> (String.length p <= String.length s)%nat.
Proof.
  revert s. induction p as [|a p IH]; intros [|b s]; cbn; try done; [lia|]. intros [_ Hp]%andb_prop. apply IH in Hp. lia.
Qed.
Lemma is_prefix_longer a c x : is_prefix (a +:+ String c x) a = false.
Proof.
  destruct (is_prefix _ a) eqn:Hp; [|done]. apply is_prefix_length in Hp. exfalso. revert Hp.
  assert (String.length (a +:+ String c x) = String.length a + S (String.length x))%nat as -> by (induction a as [|d a IH]; simpl; [done|by rewrite IH]). lia.
Qed.
Lemma is_prefix_refl a : is_prefix a a = true.
Proof. induction a as [|c a IH]; [done|]. simpl. by rewrite bool_decide_eq_true_2. Qed.

(** The directories that [MkdirAll] makes lead to its path. *)
Lemma join_split s : join_slash (split_slash s) = s.
Proof.
  induction s as [|a s IH]; [done|]. cbn [split_slash]. case_bool_decide as Ha.
  - subst a. destruct (split_slash_cons s) as (c & cs & Hs). rewrite Hs in *. cbn [join_slash] in *. by rewrite IH.
  - destruct (split_slash s) as [|c cs] eqn:Hs; [by destruct (split_slash_cons s) as (? & ? & ?); congruence|].
    rewrite <- IH. by destruct cs.
Qed.

Lemma ancestors_prefix p path : p ∈ ancestors path -> is_prefix p path = true.
Proof.
  unfold ancestors. intros Hp. apply list_elem_of_In, filter_In in Hp as [Hp Hne]. apply list_elem_of_In, list_elem_of_fmap in Hp as (i & -> & Hi).
  set (l := split_slash path) in *. rewrite <- (join_split path). fold l. rewrite <- (take_drop i l) at 2.
  destruct (take i l) as [|x t] eqn:Ht; [done|]. destruct (drop i l) as [|y u] eqn:Hu; [rewrite app_nil_r; apply is_prefix_refl|].
  rewrite join_slash_app by done. apply is_prefix_self.
Qed.

Lemma mkdirs_other l p : forall fs, p ∉ l -> foldl mkdir_one fs l !! p = fs !! p.
Proof.
  induction l as [|x l IH]; intros fs Hp; [done|]. apply not_elem_of_cons in Hp as [Hx Hp]. cbn [foldl]. rewrite IH by done.
  unfold mkdir_one. destruct (fs !! x); [done|]. by rewrite lookup_insert_ne.
Qed.

Lemma MkdirAll_other fs path limit p : is_prefix p path = false -> (MkdirAll fs path limit).2 !! p = fs !! p.
Proof.
  intros Hp. assert (p ∉ ancestors path) as Hn by (intros Hin%ancestors_prefix; congruence).
  unfold MkdirAll. destruct (existsb _ _); [done|]. destruct limit as [n|]; cbn [snd]; apply mkdirs_other; [|done].
  intros (i & Hi & _)%elem_of_take. by eapply Hn, list_elem_of_lookup_2.
Qed.

(** ** What unpacking writes *)

Lemma split_slash_parts_in s c : c ∈ split_slash s -> split_slash c = [c].
Proof. intros Hc. by apply (proj1 (Forall_forall _ _) (split_slash_parts s)). Qed.

Lemma Base_cases p : Base p = "." \/ Base p = "/" \/ (Base p <> "" /\ split_slash (Base p) = [Base p]).
Proof.
  unfold Base. case_bool_decide; [by left|right]. destruct (List.filter _ (split_slash p)) as [|c cs] eqn:Hf; [by left|].
  right. assert (exists d, last (c :: cs) = Some d) as [d Hd] by (destruct (last (c :: cs)) eqn:Hl; [by eexists|by apply last_None in Hl]).
  rewrite Hd. cbn [default]. apply last_Some in Hd as [pre Hd]. assert (d ∈ c :: cs) as Hin by (rewrite Hd; set_solver).
  rewrite <- Hf in Hin. apply list_elem_of_In, filter_In in Hin as [Hin Hne]. apply list_elem_of_In, split_slash_parts_in in Hin.
  split; [|done]. by apply negb_true_iff, bool_decide_eq_false in Hne.
Qed.

(** A wanted entry has a name of its own, and none of the names the directory is used for. *)
Lemma classify_base goos name k : classify goos name = Some k ->
  plain (Base name) /\ Base name <> "version.txt" /\ Base name <> "data" /\
  match k with
  | TorBin => Base name = torBinaryName goos
  | SharedLib => Base name <> torBinaryName goos
  | GeoIP => Base name = "geoip" \/ Base name = "geoip6"
  end.
Proof.
  assert (plain "tor" /\ plain "tor.exe" /\ plain "geoip" /\ plain "geoip6") as (Hp1 & Hp2 & Hp3 & Hp4) by (by split_and!).
  unfold classify. set (b := Base name). intros Hk. assert (b = "." \/ b = "/" \/ (b <> "" /\ split_slash b = [b])) as Hb by apply Base_cases.
  set (dir := default "" _) in Hk. destruct (bool_decide_reflect (dir = "tor")) as [Hdir|_]; cbn [andb] in Hk.
  - destruct (bool_decide_reflect (b = torBinaryName goos)) as [Hbin|Hbin].
    { injection Hk as <-. rewrite Hbin. unfold torBinaryName. by case_bool_decide. }
    destruct (_ || _ || _ || _) eqn:Hlib; [injection Hk as <-|by rewrite Hdir in Hk].
    assert (forall x, HasSuffix x ".so" || Contains x ".so." || HasSuffix x ".dylib" || HasSuffix x ".dll" = false -> b <> x) as Hno by congruence.
    assert (b <> "." /\ b <> "/" /\ b <> ".." /\ b <> "version.txt" /\ b <> "data") as (H1 & H2 & H3 & H4 & H5)
      by (split_and!; by apply Hno).
    split; [|done]. unfold plain. tauto.
  - destruct (_ && (_ || _)) eqn:Hg; [|done]. injection Hk as <-. apply andb_prop in Hg as [_ Hg].
    apply orb_prop in Hg as [->%bool_decide_eq_true| ->%bool_decide_eq_true]; by split_and!; auto.
Qed.

(** The file an entry goes to. *)
Definition out_path (dir : string) (k : wanted) (base : string) : string :=
  match k with GeoIP => dir +:+ "/data/" +:+ base | _ => dir +:+ "/" +:+ base end.

Definition unpacked (goos dir p : string) : Prop := exists name k, classify goos name = Some k /\ p = out_path dir k (Base name).

Lemma out_path_inj dir x y : dir +:+ "/" +:+ x = dir +:+ "/" +:+ y -> x = y.
Proof. intros Heq%str_app_inj. by injection Heq. Qed.

(** The check of the path never rejects: the names have no slash. *)
Lemma extract_entry_eq env dir goos k e fs : clean_dir dir -> classify goos (hdr_Name e) = Some k ->
  extract_entry env dir k e fs =
  let '(ok, fs) := match k with GeoIP => MkdirAll fs (dir +:+ "/data") (ee_mkdir env) | _ => (true, fs) end in
  if negb ok then (false, false, fs)
  else let '(ok, fs) := WriteFile fs (out_path dir k (Base (hdr_Name e))) (hdr_data e) (ee_write env) in (ok && hdr_whole e, true, fs).
Proof.
  intros Hdir Hk. apply classify_base in Hk as (Hp & _). unfold extract_entry. rewrite (clean_dir_Clean dir) by done.
  assert (plain "data") as Hd by by split_and!. destruct (clean_dir_join dir "data" Hdir Hd) as [Hdata Hdata'].
  destruct (clean_dir_join dir _ Hdir Hp) as [Hj Hc]. destruct (clean_dir_join _ _ Hdata' Hp) as [Hj2 Hc2].
  assert (is_prefix dir (Clean (JoinAll [dir; Base (hdr_Name e)])) = true) as H1
    by (rewrite Hj, clean_dir_Clean by done; apply is_prefix_self).
  assert (is_prefix dir (Clean (JoinAll [JoinAll [dir; "data"]; Base (hdr_Name e)])) = true) as H2
    by (rewrite Hdata, Hj2, clean_dir_Clean, str_app_assoc by done; apply is_prefix_self).
  destruct k; cbn [out_path].
  - rewrite H1, Hj. done.
  - rewrite H1, Hj. done.
  - rewrite H2, Hdata, Hj2, str_app_assoc. done.
Qed.

Lemma WriteFile_other fs p q data o : p <> q -> (WriteFile fs q data o).2 !! p = fs !! p.
Proof. intros Hp. unfold WriteFile. destruct (fs !! q) as [[]|], o; cbn [snd]; by rewrite ?lookup_insert_ne. Qed.

Lemma WriteFile_ok fs q data o fs' : WriteFile fs q data o = (true, fs') -> fs' = <[q := File data]> fs.
Proof. unfold WriteFile. by destruct (fs !! q) as [[]|], o; intros [= <-]. Qed.

(** An entry changes its own file, and may make the directory of the data. *)
Lemma extract_entry_frame env dir goos k e fs ok written fs' p : clean_dir dir -> classify goos (hdr_Name e) = Some k ->
  extract_entry env dir k e fs = (ok, written, fs') ->
  is_prefix p (dir +:+ "/data") = false -> p <> out_path dir k (Base (hdr_Name e)) -> fs' !! p = fs !! p.
Proof.
  intros Hdir Hk. rewrite (extract_entry_eq _ _ goos) by done. intros He Hp Hout.
  destruct (match k with GeoIP => _ | _ => _ end) as [ok1 fs1] eqn:Hm.
  assert (fs1 !! p = fs !! p) as Hfs1.
  { destruct k; [by injection Hm as _ <-..|]. pose proof (MkdirAll_other fs _ (ee_mkdir env) p Hp) as Ho. by rewrite Hm in Ho. }
  destruct ok1; cbn [negb] in He; [|by injection He as _ _ <-]. rewrite <- Hfs1.
  pose proof (WriteFile_other fs1 p (out_path dir k (Base (hdr_Name e))) (hdr_data e) (ee_write env) Hout) as Hw.
  destruct (WriteFile _ _ _ _) as [ok2 fs2]. by injection He as _ _ <-.
Qed.

Lemma extract_entry_ok env dir goos k e fs written fs' : clean_dir dir -> classify goos (hdr_Name e) = Some k ->
  extract_entry env dir k e fs = (true, written, fs') ->
  written = true /\ fs' !! out_path dir k (Base (hdr_Name e)) = Some (File (hdr_data e)).
Proof.
  intros Hdir Hk. rewrite (extract_entry_eq _ _ goos) by done.
  destruct (match k with GeoIP => _ | _ => _ end) as [[] fs1]; cbn [negb]; [|done].
  destruct (WriteFile _ _ _ _) as [[] fs2] eqn:Hw; [|done]. intros [= _ <- <-]. apply WriteFile_ok in Hw as ->.
  split; [done|]. apply lookup_insert_eq.
Qed.

Definition taken_for_bin (goos : string) (e : tar_entry) : bool :=
  match classify goos (hdr_Name e) with Some TorBin => negb (hdr_dir e) | _ => false end.

(** The binary in an archive: the data of the last entry that is taken for it. *)
Fixpoint binary_of (goos : string) (items : list tar_item) : option bytes :=
  match items with
  | [] => None
  | TarError :: items => binary_of goos items
  | TarEntry e :: items =>
      match binary_of goos items with
      | Some d => Some d
      | None => if taken_for_bin goos e then Some (hdr_data e) else None
      end
  end.

(** Unpacking changes the files it writes, and makes directories on the way to the data. *)
Lemma extract_loop_frame goos dir items : clean_dir dir -> forall env found fs ok found' fs' p,
  extract_loop env goos dir items found fs = (ok, found', fs') ->
  is_prefix p (dir +:+ "/data") = false -> ~ unpacked goos dir p -> fs' !! p = fs !! p.
Proof.
  intros Hdir. induction items as [|[e|] items IH]; intros env found fs ok found' fs' p; cbn [extract_loop]; [by intros [= _ _ <-]| |by intros [= _ _ <-]].
  destruct (classify goos (hdr_Name e)) as [k|] eqn:Hk; [|by apply IH]. destruct (hdr_dir e); [by apply IH|].
  destruct (extract_entry _ _ _ _ _) as [[ok1 wr] fs1] eqn:He. intros Hl Hp Hun.
  assert (fs1 !! p = fs !! p) as Hfs1.
  { eapply extract_entry_frame; [exact Hdir|exact Hk|exact He|exact Hp|]. intros ->. apply Hun. by exists (hdr_Name e), k. }
  destruct ok1; cbn [negb] in Hl; [|by injection Hl as _ _ <-]. rewrite <- Hfs1. by eapply IH.
Qed.

Lemma bin_not_on_way goos dir : is_prefix (dir +:+ "/" +:+ torBinaryName goos) (dir +:+ "/data") = false.
Proof. change (dir +:+ "/data") with (dir +:+ "/" +:+ "data"). rewrite !is_prefix_app. unfold torBinaryName. by case_bool_decide. Qed.

(** When it ends without an error, the binary is there if an entry of the archive is, with its data. *)
Lemma extract_loop_bin goos dir items : clean_dir dir -> forall env found fs found' fs',
  extract_loop env goos dir items found fs = (true, found', fs') ->
  found' = found || bool_decide (is_Some (binary_of goos items)) /\
  fs' !! (dir +:+ "/" +:+ torBinaryName goos) =
    match binary_of goos items with Some d => Some (File d) | None => fs !! (dir +:+ "/" +:+ torBinaryName goos) end.
Proof.
  intros Hdir. induction items as [|[e|] items IH]; intros env found fs found' fs'; cbn [extract_loop binary_of]; [| |done].
  { intros [= <- <-]. by rewrite orb_false_r. }
  unfold taken_for_bin. destruct (classify goos (hdr_Name e)) as [k|] eqn:Hk; [|intros Hl%IH; by destruct (binary_of goos items)].
  destruct (hdr_dir e); [intros Hl%IH; by destruct (binary_of goos items), k|]. cbn [negb].
  destruct (extract_entry _ _ _ _ _) as [[ok1 wr] fs1] eqn:He. destruct ok1; cbn [negb]; [|done]. intros Hl%IH.
  destruct Hl as [-> ->]. pose proof (extract_entry_ok _ _ _ _ _ _ _ _ Hdir Hk He) as [-> Hout].
  destruct (binary_of goos items); [split; [by rewrite !orb_true_r|done]|]. cbn [andb].
  pose proof (classify_base _ _ _ Hk) as (_ & _ & _ & Hb).
  assert (k <> TorBin -> fs1 !! (dir +:+ "/" +:+ torBinaryName goos) = fs !! (dir +:+ "/" +:+ torBinaryName goos)) as Hother.
  { intros Hne. eapply extract_entry_frame; [done|exact Hk|exact He|apply bin_not_on_way|]. destruct k; cbn [out_path]; [done|..].
    - intros Heq%out_path_inj. congruence.
    - change (dir +:+ "/data/" +:+ Base (hdr_Name e)) with (dir +:+ "/" +:+ ("data/" +:+ Base (hdr_Name e))).
      intros Heq%out_path_inj. revert Heq. unfold torBinaryName. by destruct (bool_decide (goos = _)). }
  destruct k; cbn [is_TorBin out_path] in *.
  - rewrite <- Hb. split; [by destruct found|exact Hout].
  - split; [by destruct found|by apply Hother].
  - split; [by destruct found|by apply Hother].
Qed.

Lemma lookup_RemoveAll fs dir stays p : RemoveAll fs dir stays !! p = if in_tree dir p && negb (stays p) then None else fs !! p.
Proof.
  unfold RemoveAll. destruct (in_tree dir p && negb (stays p)) eqn:Ht.
  - apply map_lookup_filter_None. right. intros n _ Hf. cbn in Hf. congruence.
  - destruct (fs !! p) as [n|] eqn:Hp; [by apply map_lookup_filter_Some|]. apply map_lookup_filter_None. by left.
Qed.

Lemma RemoveAll_out fs dir stays p : in_tree dir p = false -> RemoveAll fs dir stays !! p = fs !! p.
Proof. intros Hp. by rewrite lookup_RemoveAll, Hp. Qed.

Lemma os_Remove_other fs p ok q : q <> p -> (os_Remove fs p ok).2 !! q = fs !! q.
Proof.
  intros Hq. unfold os_Remove. destruct (fs !! p) as [[|]|]; [destruct ok|destruct (_ && _)|]; cbn [snd]; by rewrite ?lookup_delete_ne by done.
Qed.

(** ** The paths of an installation *)

Section paths.
Context (d goos : string).
Abbreviation T := (JoinAll [d; "tor"]).

Lemma binDir_eq : binDir d = T +:+ "/bin" /\ clean_dir (binDir d).
Proof.
  destruct (tor_dir d) as [HT Hx]. assert (plain "bin") as Hb by by split_and!. unfold binDir. rewrite Hx by done.
  split; [done|]. by destruct (clean_dir_join T "bin" HT Hb).
Qed.

Lemma torPath_eq : torPath goos d = T +:+ "/bin/" +:+ torBinaryName goos /\ torPath goos d = binDir d +:+ "/" +:+ torBinaryName goos.
Proof.
  destruct binDir_eq as [Hb Hc]. assert (plain (torBinaryName goos)) as Hp by (unfold torBinaryName; case_bool_decide; by split_and!).
  unfold torPath. destruct (clean_dir_join _ _ Hc Hp) as [-> _]. split; [|done]. by rewrite Hb, str_app_assoc.
Qed.

(** The binary's directory is where the libraries are unpacked. *)
Lemma DirOf_torPath : DirOf (torPath goos d) = binDir d.
Proof.
  destruct binDir_eq as [_ Hc]. rewrite (proj2 torPath_eq). unfold DirOf. change (binDir d +:+ "/" +:+ ?n) with (binDir d +:+ String slash n).
  assert (split_slash (torBinaryName goos) = [torBinaryName goos]) as Hn by (unfold torBinaryName; by case_bool_decide).
  rewrite split_slash_app, Hn, reverse_app, reverse_singleton. cbn [app].
  assert (reverse (split_slash (binDir d)) <> [EmptyString]) as Hne.
  { intros Hr. apply (f_equal reverse) in Hr. rewrite reverse_involutive, reverse_singleton in Hr. apply (f_equal join_slash) in Hr.
    rewrite join_split in Hr. by apply (clean_dir_nonempty _ Hc). }
  destruct (reverse (split_slash (binDir d))) as [|x l] eqn:Hr.
  { destruct (split_slash_cons (binDir d)) as (c & cs & Hs). rewrite Hs, reverse_cons in Hr. by destruct (reverse cs). }
  rewrite bool_decide_eq_false_2 by done. rewrite <- Hr, reverse_involutive, join_split. by apply clean_dir_Clean.
Qed.

Lemma versionFile_eq : versionFile d = T +:+ "/bin/version.txt".
Proof.
  destruct binDir_eq as [Hb Hc]. assert (plain "version.txt") as Hp by by split_and!.
  unfold versionFile. destruct (clean_dir_join _ _ Hc Hp) as [-> _]. by rewrite Hb, str_app_assoc.
Qed.

Lemma bundle_filename goarch b : bundleForPlatform goos goarch = Some b ->
  exists rest, pb_Filename b = "tor-expert-bundle-" +:+ rest /\ plain (pb_Filename b).
Proof.
  unfold bundleForPlatform, bundles. intros Hb%elem_of_list_to_map_2. repeat (apply elem_of_cons in Hb as [Hb|Hb]; [|]);
    [injection Hb as _ ->; eexists; split; [reflexivity|by split_and!]..|by apply elem_of_nil in Hb].
Qed.
End paths.

(** ** The binary that is run *)

Section claims.
Context (untar : bytes -> option (list tar_item)) (goos goarch d : string).

(** The data of the binary in an archive with the digest of the platform's bundle. *)
Definition verified (data : bytes) : Prop := exists bundle body items,
  bundleForPlatform goos goarch = Some bundle /\ hex_encode (Sum256 body) = pb_SHA256 bundle /\
  untar body = Some items /\ binary_of goos items = Some data.

(** Where the marker names this version, a binary that is there is a verified one. *)
Definition sound (fs : filesystem) : Prop :=
  version_current fs d = true -> forall n, fs !! torPath goos d = Some n -> exists data, n = File data /\ verified data.

Lemma sound_same fs fs' : (fs' !! versionFile d = fs !! versionFile d) ->
  fs' !! torPath goos d = fs !! torPath goos d \/ fs' !! torPath goos d = None -> sound fs -> sound fs'.
Proof.
  intros Hv Ht Hs Hcur n Hn. unfold version_current in Hcur. rewrite Hv in Hcur. apply Hs; [exact Hcur|]. destruct Ht; congruence.
Qed.

Lemma sound_no_marker fs : fs !! versionFile d = None -> sound fs.
Proof. intros Hv Hcur. unfold version_current in Hcur. by rewrite Hv in Hcur. Qed.

Lemma sound_verified fs data : fs !! torPath goos d = Some (File data) -> verified data -> sound fs.
Proof. intros Ht Hd _ n Hn. rewrite Ht in Hn. injection Hn as <-. by exists data. Qed.

(** The paths of an installation are all different, and outside each other but for the directory. *)
Lemma paths_apart bundle : bundleForPlatform goos goarch = Some bundle ->
  let archive := JoinAll [d; "tor"; pb_Filename bundle] in
  torPath goos d <> archive /\ versionFile d <> archive /\ torPath goos d <> versionFile d /\
  in_tree (binDir d) archive = false /\ in_tree (binDir d) (versionFile d) = true /\ in_tree (binDir d) (torPath goos d) = true /\
  (forall p, p = torPath goos d \/ p = versionFile d -> is_prefix p (JoinAll [d; "tor"]) = false /\ is_prefix p (binDir d) = false /\
     is_prefix p (binDir d +:+ "/data") = false) /\
  is_prefix archive (binDir d) = false /\ is_prefix archive (binDir d +:+ "/data") = false /\
  (forall p, unpacked goos (binDir d) p -> p <> versionFile d /\ p <> archive).
Proof.
  intros Hb. apply bundle_filename in Hb as (rest & Hf & Hp). cbn zeta. destruct (tor_dir d) as [HT Hx].
  destruct (binDir_eq d) as [HB HBc]. destruct (torPath_eq d goos) as [Ht Ht']. pose proof (versionFile_eq d) as Hv.
  rewrite (Hx _ Hp), Ht, Hv, HB, Hf. set (T := JoinAll [d; "tor"]).
  assert (exists u, torBinaryName goos = "to" +:+ u) as [u Hu] by (unfold torBinaryName; case_bool_decide; by eexists).
  rewrite Hu.
  assert (forall x y, x <> y -> T +:+ x <> T +:+ y) as Hne by (by intros x y Hxy Heq%str_app_inj).
  assert (forall x y, in_tree (T +:+ x) (T +:+ y) = bool_decide (x = y) || is_prefix (x +:+ "/") y) as Hin.
  { intros x y. unfold in_tree. rewrite str_app_assoc, is_prefix_app. f_equal. apply bool_decide_ext. split; [by intros ?%str_app_inj|by intros ->]. }
  rewrite !str_app_assoc, !Hin, !is_prefix_app. split_and!; try done; try by apply Hne.
  - intros p [-> | ->]; rewrite !is_prefix_app; split_and!; done || apply is_prefix_longer.
  - intros p (name & k & Hk & ->). apply classify_base in Hk as (_ & Hnv & _ & Hg).
    assert (forall x y, T +:+ "/bin/" +:+ x = T +:+ "/bin/" +:+ y -> x = y) as Hinj by (intros x y ?%str_app_inj; by apply (str_app_inj "/bin/")).
    assert (out_path (T +:+ "/bin") k (Base name) = T +:+ "/bin/" +:+ (match k with GeoIP => "data/" +:+ Base name | _ => Base name end)) as ->.
    { unfold out_path. destruct k; by rewrite str_app_assoc. }
    split; [|by apply Hne]. change (T +:+ "/bin/version.txt") with (T +:+ "/bin/" +:+ "version.txt").
    destruct k; intros Heq%Hinj; done.
Qed.

Lemma marker_current fs : fs !! versionFile d = Some (File (String.list_byte_of_string torVersion)) -> version_current fs d = true.
Proof. intros Hv. unfold version_current. rewrite Hv. vm_compute. reflexivity. Qed.

(** Unpacking a checked archive, when it ends well, leaves the binary of the archive. *)
Lemma extract_verified env fs bundle body ok fs' :
  let archive := JoinAll [d; "tor"; pb_Filename bundle] in
  bundleForPlatform goos goarch = Some bundle -> hex_encode (Sum256 body) = pb_SHA256 bundle -> fs !! archive = Some (File body) ->
  extractTorBinary untar env goos fs archive (binDir d) = (ok, fs') ->
  fs' !! versionFile d = fs !! versionFile d /\
  (ok = true -> exists data, fs' !! torPath goos d = Some (File data) /\ verified data).
Proof.
  intros archive Hb Hsum Hf. unfold extractTorBinary. fold archive. rewrite Hf.
  destruct (paths_apart bundle Hb) as (_ & _ & _ & _ & _ & _ & Hway & _ & _ & Hun).
  destruct (Hway (versionFile d) (or_intror eq_refl)) as (_ & _ & Hv).
  destruct (untar body) as [items|] eqn:Hu; [|by intros [= <- <-]].
  destruct (extract_loop env goos (binDir d) items false fs) as [[ok1 found] fs1] eqn:He. intros [= <- <-].
  destruct (binDir_eq d) as [_ HBc]. split.
  - eapply extract_loop_frame; [exact HBc|exact He|exact Hv|]. by intros [? _]%Hun.
  - intros [-> ->]%andb_prop. apply extract_loop_bin in He as [Hfound Hbin]; [|done].
    symmetry in Hfound. cbn [orb] in Hfound. apply bool_decide_eq_true in Hfound as [data Hd]. exists data.
    rewrite (proj2 (torPath_eq d goos)), Hbin, Hd. split; [done|]. by exists bundle, body, items.
Qed.

(** What is installed is the binary of a checked archive; what a failed unpacking leaves is not taken for one. *)
Lemma install_spec env fs bundle body r fs' :
  let archive := JoinAll [d; "tor"; pb_Filename bundle] in
  (forall p, pv_stays2 env p = false) ->
  bundleForPlatform goos goarch = Some bundle -> hex_encode (Sum256 body) = pb_SHA256 bundle -> fs !! archive = Some (File body) ->
  sound fs -> install untar goos env fs d archive = (r, fs') ->
  sound fs' /\ r <> Err ErrNoBinary /\
  forall p, r = Ok p -> p = torPath goos d /\ version_current fs' d = true /\
    exists data, fs' !! torPath goos d = Some (File data) /\ verified data.
Proof.
  intros archive Hstay Hb Hsum Hf Hs. unfold install.
  destruct (paths_apart bundle Hb) as (Hta & Hva & Htv & Harch & Hvin & Htin & Hway & Haway & _ & _). fold archive in Hta, Hva, Harch, Haway.
  destruct (Hway (versionFile d) (or_intror eq_refl)) as (_ & Hvb & _). destruct (Hway (torPath goos d) (or_introl eq_refl)) as (_ & Htb & _).
  set (fs1 := RemoveAll fs (binDir d) (pv_stays1 env)).
  assert (fs1 !! archive = Some (File body)) as Hf1 by (unfold fs1; by rewrite RemoveAll_out).
  assert (sound fs1) as Hs1.
  { unfold fs1. destruct (pv_stays1 env (versionFile d)) eqn:Hst.
    - apply (sound_same fs); [by rewrite lookup_RemoveAll, Hst, andb_false_r| |done].
      rewrite lookup_RemoveAll. destruct (_ && _); [by right|by left].
    - apply sound_no_marker. by rewrite lookup_RemoveAll, Hvin, Hst. }
  pose proof (MkdirAll_other fs1 (binDir d) (pv_mkdir2 env)) as Ho.
  destruct (MkdirAll fs1 (binDir d) (pv_mkdir2 env)) as [ok fs2]. cbn [snd] in Ho.
  assert (sound fs2) as Hs2 by (apply (sound_same fs1); [by apply Ho|left; by apply Ho|done]).
  assert (fs2 !! archive = Some (File body)) as Hf2 by by rewrite Ho.
  destruct ok; cbn [negb]; [|by intros [= <- <-]].
  destruct (extractTorBinary untar (pv_entry env) goos fs2 archive (binDir d)) as [ok fs3] eqn:He.
  apply (extract_verified _ _ _ body) in He as [_ Hbin]; [|done..].
  destruct ok; cbn [negb].
  2: { intros [= <- <-]. split; [|done]. apply sound_no_marker. by rewrite lookup_RemoveAll, Hvin, Hstay. }
  destruct (Hbin eq_refl) as (data & Hd & Hver).
  pose proof (WriteFile_other fs3 (torPath goos d) (versionFile d) (String.list_byte_of_string torVersion) (pv_version env) Htv) as Hw.
  destruct (WriteFile fs3 _ _ _) as [ok fs4] eqn:Hwr. cbn [snd] in Hw. rewrite Hd in Hw.
  destruct ok; cbn [negb]; [|intros [= <- <-]; split; [by eapply sound_verified|done]].
  apply WriteFile_ok in Hwr as Hfs4.
  assert (forall p c, p <> archive -> fs4 !! p = Some (File c) -> (os_Remove fs4 archive (pv_remove2 env)).2 !! p = Some (File c)) as Hrm
    by (intros p c; apply os_Remove_frame).
  destruct (os_Remove fs4 archive (pv_remove2 env)) as [o fs5]. cbn [snd] in Hrm.
  assert (fs5 !! torPath goos d = Some (File data)) as Ht5 by by apply Hrm.
  assert (existsOnDisk fs5 (torPath goos d) = true) as -> by (apply bool_decide_eq_true; rewrite Ht5; by eexists).
  intros [= <- <-]. split; [by eapply sound_verified|]. split; [done|]. intros p [= <-]. split; [done|]. split; [|by exists data].
  apply marker_current, Hrm; [done|]. rewrite Hfs4. apply lookup_insert_eq.
Qed.

(** Up to the check of the digest, what is installed does not change. *)
Definition before_install (e : tor_err) : bool :=
  match e with ErrPlatform | ErrTorDir | ErrDownload | ErrChecksum => true | _ => false end.

Definition installed_same (fs fs' : filesystem) : Prop :=
  fs' !! versionFile d = fs !! versionFile d /\ fs' !! torPath goos d = fs !! torPath goos d.

Lemma installed_same_sound fs fs' : installed_same fs fs' -> sound fs -> sound fs'.
Proof. intros [Hv Ht]. apply sound_same; [done|by left]. Qed.

Lemma downloadFile_spec answer create fs archive ok fs' : downloadFile answer create fs archive = (ok, fs') ->
  (forall p, p <> archive -> fs' !! p = fs !! p) /\
  (ok = true -> exists resp, answer = Some resp /\ rs_StatusCode resp = 200 /\ fs' !! archive = Some (File (rs_Body resp)))%Z.
Proof.
  unfold downloadFile. destruct answer as [resp|]; [|by intros [= <- <-]].
  destruct (Z.eqb_spec (rs_StatusCode resp) 200) as [Hst|]; cbn [negb]; [|by intros [= <- <-]].
  pose proof (fun p => WriteFile_other fs p archive (rs_Body resp) create) as Ho.
  destruct (WriteFile fs archive _ _) as [ok1 fs1] eqn:Hw. cbn [snd] in Ho. intros [= <- <-]. split; [exact Ho|].
  intros [-> _]%andb_prop. apply WriteFile_ok in Hw as ->. exists resp. split; [done|]. split; [done|]. apply lookup_insert_eq.
Qed.

Lemma verifyChecksum_spec fs path expected : verifyChecksum fs path expected = true ->
  exists body, fs !! path = Some (File body) /\ hex_encode (Sum256 body) = expected.
Proof. unfold verifyChecksum. destruct (fs !! path) as [[body|]|]; [|done..]. intros Hs%bool_decide_eq_true. by exists body. Qed.

Lemma EnsureTor_cached env fs : version_current fs d = true -> is_Some (fs !! torPath goos d) ->
  EnsureTor untar goos goarch env fs d = (Ok (torPath goos d), fs).
Proof. intros Hv Ht. unfold EnsureTor, cached, existsOnDisk. by rewrite Hv, bool_decide_eq_true_2. Qed.

(** C35. The Tor binary that is run.  Whatever the network and the disk do, [EnsureTor] gives only the path of a binary
    that was unpacked from an archive with the digest of the platform's bundle, provided that holds of what is
    installed at first and that what a failed unpacking has written can be removed again; it holds of what is installed
    afterwards.  After a success every further call gives the same path without the network.  A failure up to the
    check of the digest leaves what is installed as it was, and the last check never fails. *)
Theorem tor_binary_verified env fs (Hstay : forall p, pv_stays2 env p = false) (Hs : sound fs) :
  let '(r, fs') := EnsureTor untar goos goarch env fs d in
  sound fs' /\ r <> Err ErrNoBinary /\
  (forall p, r = Ok p -> p = torPath goos d /\
     (exists data, fs' !! torPath goos d = Some (File data) /\ verified data) /\
     forall env2, EnsureTor untar goos goarch env2 fs' d = (Ok p, fs')) /\
  (forall e, r = Err e -> before_install e = true -> installed_same fs fs').
Proof.
  destruct (EnsureTor untar goos goarch env fs d) as [r fs'] eqn:He. unfold EnsureTor in He.
  destruct (cached fs goos d) eqn:Hc.
  { injection He as <- <-. apply andb_prop in Hc as [Hv Hex]. apply bool_decide_eq_true in Hex as [n Hn]. split_and!; try done.
    intros p [= <-]. split; [done|]. destruct (Hs Hv n Hn) as (data & -> & Hd). split; [by exists data|].
    intros env2. apply EnsureTor_cached; [done|by eexists]. }
  destruct (bundleForPlatform goos goarch) as [bundle|] eqn:Hb; [|injection He as <- <-; by split_and!].
  destruct (paths_apart bundle Hb) as (Hta & Hva & _ & _ & _ & _ & Hway & _).
  set (archive := JoinAll [d; "tor"; pb_Filename bundle]) in *.
  pose proof (MkdirAll_other fs (JoinAll [d; "tor"]) (pv_mkdir1 env)) as Hmk.
  destruct (MkdirAll fs _ _) as [ok fs1]. cbn [snd] in Hmk.
  assert (installed_same fs fs1) as H1 by (split; apply Hmk, Hway; [by right|by left]).
  pose proof (installed_same_sound _ _ H1 Hs) as Hs1. destruct ok; cbn [negb] in He; [|injection He as <- <-; by split_and!].
  destruct (downloadFile _ _ fs1 archive) as [ok fs2] eqn:Hd. apply downloadFile_spec in Hd as [Hother _].
  assert (installed_same fs fs2) as H2 by (destruct H1 as [Hv Ht]; split; by rewrite Hother by done).
  pose proof (installed_same_sound _ _ H2 Hs) as Hs2. destruct ok; cbn [negb] in He; [|injection He as <- <-; by split_and!].
  destruct (verifyChecksum fs2 archive (pb_SHA256 bundle)) eqn:Hsum; cbn [negb] in He.
  2: { injection He as <- <-. assert (installed_same fs (os_Remove fs2 archive (pv_remove1 env)).2) as H3.
       { destruct H2 as [Hv Ht]. split; rewrite os_Remove_other by done; done. }
       split; [by eapply installed_same_sound|]. by split_and!. }
  apply verifyChecksum_spec in Hsum as (body & Hbody & Hsum).
  destruct (install_spec env fs2 bundle body r fs' Hstay Hb Hsum Hbody Hs2 He) as (Hs3 & Hno & Hok).
  split; [done|]. split; [done|]. split.
  - intros p Hp. destruct (Hok p Hp) as (-> & Hcur & data & Hdata & Hver). split; [done|]. split; [by exists data|].
    intros env2. apply EnsureTor_cached; [done|by eexists].
  - intros e -> Hbefore. exfalso. revert He. unfold install. repeat case_match; intros [= <- <-]; done.
Qed.

(** *** A good archive on a good disk *)

(** The directory can be written to: the way to it has no file, and in it are only files and [data]. *)
Definition writable (dir : string) (fs : filesystem) : Prop :=
  (forall p c, p ∈ ancestors (dir +:+ "/data") -> fs !! p <> Some (File c)) /\
  (forall p, is_prefix (dir +:+ "/") p = true -> fs !! p = Some Dir -> p = dir +:+ "/data").

Definition good_entry (e : entry_env) : Prop := ee_mkdir e = None /\ ee_write e = WriteOk.

(** Every entry can be read. *)
Definition readable (items : list tar_item) : Prop := Forall (fun i => exists e, i = TarEntry e /\ hdr_whole e = true) items.

Lemma MkdirAll_succeeds fs path : (forall p c, p ∈ ancestors path -> fs !! p <> Some (File c)) ->
  MkdirAll fs path None = (true, foldl mkdir_one fs (ancestors path)).
Proof.
  intros Hno. unfold MkdirAll. destruct (existsb _ _) eqn:Hex; [|done]. apply existsb_exists in Hex as (p & Hin & Hp).
  destruct (fs !! p) as [[c|]|] eqn:Hl; [|done..]. exfalso. eapply Hno; [|exact Hl]. by apply list_elem_of_In.
Qed.

Lemma mkdirs_Dir l p : forall fs, foldl mkdir_one fs l !! p = Some Dir -> fs !! p = Some Dir \/ p ∈ l.
Proof.
  induction l as [|x l IH]; intros fs Hp; [by left|]. cbn [foldl] in Hp. apply IH in Hp as [Hp|Hp]; [|right; by right].
  unfold mkdir_one in Hp. destruct (fs !! x) eqn:Hx; [by left|]. apply lookup_insert_Some in Hp as [[<- _]|[_ Hp]]; [right; by left|by left].
Qed.

Lemma mkdirs_writable dir fs l : writable dir fs ->
  (forall p, p ∈ l -> is_prefix (dir +:+ "/") p = true -> p = dir +:+ "/data") -> writable dir (foldl mkdir_one fs l).
Proof.
  intros [Hf Hd] Hl. split.
  - intros p c Hp Hlk. apply (mkdirs_added l fs) in Hlk. by eapply Hf.
  - intros p Hp Hlk. apply mkdirs_Dir in Hlk as [Hlk|Hin]; [by apply Hd|by apply Hl].
Qed.

Lemma ancestors_join dir n p : split_slash n = [n] -> p ∈ ancestors (dir +:+ "/" +:+ n) -> p ∈ ancestors dir \/ p = dir +:+ "/" +:+ n.
Proof.
  intros Hn. unfold ancestors. change (dir +:+ "/" +:+ n) with (dir +:+ String slash n). rewrite split_slash_app, Hn.
  intros Hp. apply list_elem_of_In, filter_In in Hp as [Hp Hne]. apply list_elem_of_In, list_elem_of_fmap in Hp as (i & -> & Hi).
  apply elem_of_seq in Hi. rewrite length_app in Hi. cbn [length] in Hi.
  destruct (decide (i = S (length (split_slash dir)))) as [->|Hlt].
  - right. rewrite take_ge by (rewrite length_app; cbn; lia). destruct (split_slash_cons dir) as (c & cs & Hs).
    rewrite join_slash_app by (done || by rewrite Hs). by rewrite join_split.
  - left. apply list_elem_of_In, filter_In. rewrite take_app_le in * by lia. split; [|done].
    apply list_elem_of_In, list_elem_of_fmap. exists i. split; [done|]. apply elem_of_seq. lia.
Qed.

Lemma ancestors_short dir p x : p ∈ ancestors dir -> is_prefix (dir +:+ "/") p = true -> p = x.
Proof.
  intros Hp%ancestors_prefix%is_prefix_length Hq%is_prefix_length. exfalso.
  assert (String.length (dir +:+ "/") = S (String.length dir)) as Hl by (clear; induction dir as [|c s IH]; simpl; [done|by rewrite IH]). lia.
Qed.

Lemma MkdirAll_untouched fs path limit ok fs' p : MkdirAll fs path limit = (ok, fs') -> p ∉ ancestors path -> fs' !! p = fs !! p.
Proof.
  unfold MkdirAll. destruct (existsb _ _); [by intros [= _ <-]|]. destruct limit as [n|]; intros [= _ <-] Hp; apply mkdirs_other; [|done].
  intros (i & Hi & _)%elem_of_take. by eapply Hp, list_elem_of_lookup_2.
Qed.

Lemma out_path_inside dir k base : in_tree dir (out_path dir k base) = true.
Proof.
  unfold in_tree. apply orb_true_intro. right. destruct k; cbn [out_path]; [..|change (dir +:+ "/data/" +:+ base) with (dir +:+ "/" +:+ ("data/" +:+ base))];
    rewrite <- str_app_assoc; apply is_prefix_self.
Qed.

(** Nothing outside the directory changes, but for the directories that lead to it. *)
Lemma extract_loop_untouched dir items : clean_dir dir -> forall env found fs ok found' fs' p,
  extract_loop env goos dir items found fs = (ok, found', fs') -> in_tree dir p = false -> p ∉ ancestors dir -> fs' !! p = fs !! p.
Proof.
  intros Hdir. induction items as [|[e|] items IH]; intros env found fs ok found' fs' p; cbn [extract_loop]; [by intros [= _ _ <-]| |by intros [= _ _ <-]].
  destruct (classify goos (hdr_Name e)) as [k|] eqn:Hk; [|by apply IH]. destruct (hdr_dir e); [by apply IH|].
  rewrite (extract_entry_eq _ _ goos) by done. intros Hl Hp Hanc.
  destruct (match k with GeoIP => _ | _ => _ end) as [ok1 fs1] eqn:Hm.
  assert (fs1 !! p = fs !! p) as Hfs1.
  { destruct k; [by injection Hm as _ <-..|]. eapply MkdirAll_untouched; [exact Hm|].
    change (dir +:+ "/data") with (dir +:+ "/" +:+ "data"). intros [Hin| ->]%ancestors_join; [done| |done].
    unfold in_tree in Hp. rewrite <- str_app_assoc, is_prefix_self, orb_true_r in Hp. done. }
  rewrite <- Hfs1. destruct ok1; cbn [negb] in Hl; [|by injection Hl as _ _ <-].
  pose proof (WriteFile_other fs1 p (out_path dir k (Base (hdr_Name e))) (hdr_data e) (ee_write (env 0%nat))) as Hw.
  destruct (WriteFile _ _ _ _) as [ok2 fs2]. cbn [snd] in Hw.
  assert (fs2 !! p = fs1 !! p) as <- by (apply Hw; intros ->; by rewrite out_path_inside in Hp).
  destruct (ok2 && hdr_whole e); cbn [negb] in Hl; [by eapply IH|by injection Hl as _ _ <-].
Qed.

(** In a writable directory every wanted entry that can be read is written. *)
Lemma extract_entry_writes env dir k e fs : clean_dir dir -> classify goos (hdr_Name e) = Some k -> hdr_whole e = true -> good_entry env ->
  writable dir fs -> exists fs', extract_entry env dir k e fs = (true, true, fs') /\ writable dir fs'.
Proof.
  intros Hdir Hk Hw [Hmk Hwr] Hfs. rewrite (extract_entry_eq _ _ goos), Hmk, Hwr by done.
  pose proof (classify_base _ _ _ Hk) as (_ & _ & Hnd & Hg). set (out := out_path dir k (Base (hdr_Name e))).
  assert (exists x, out = dir +:+ "/" +:+ x /\ x <> "data") as (x & Hout & Hx).
  { unfold out. destruct k; cbn [out_path]; [by eexists..|]. exists ("data/" +:+ Base (hdr_Name e)). split; [done|].
    by destruct Hg as [-> | ->]. }
  assert (exists fs1, (match k with GeoIP => MkdirAll fs (dir +:+ "/data") None | _ => (true, fs) end) = (true, fs1) /\ writable dir fs1)
    as (fs1 & -> & Hfs1).
  { destruct k; [by eexists..|]. eexists. split; [apply MkdirAll_succeeds, Hfs|]. apply mkdirs_writable; [done|].
    intros p Hp. change (dir +:+ "/data") with (dir +:+ "/" +:+ "data") in Hp. apply ancestors_join in Hp as [Hp| ->]; [by apply ancestors_short|done|done]. }
  cbn [negb]. assert (fs1 !! out <> Some Dir) as Hnot.
  { intros Hd. apply Hfs1 in Hd; [|rewrite Hout, <- str_app_assoc; apply is_prefix_self]. rewrite Hout in Hd. by apply (out_path_inj dir x "data") in Hd. }
  assert (WriteFile fs1 out (hdr_data e) WriteOk = (true, <[out := File (hdr_data e)]> fs1)) as ->
    by (unfold WriteFile; destruct (fs1 !! out) as [[]|]; done).
  rewrite Hw. eexists. split; [done|]. destruct Hfs1 as [Hf Hd]. split.
  - intros p c Hp. rewrite lookup_insert_ne; [by apply Hf|]. intros <-. change (dir +:+ "/data") with (dir +:+ "/" +:+ "data") in Hp.
    apply ancestors_join in Hp as [Hp|Hp]; [| |done].
    + apply ancestors_prefix in Hp. rewrite Hout in Hp. pose proof (is_prefix_longer dir slash x) as Hlong.
      change (String slash x) with ("/" +:+ x) in Hlong. congruence.
    + rewrite Hout in Hp. by apply out_path_inj in Hp.
  - intros p Hp Hl. apply lookup_insert_Some in Hl as [[_ ?]|[_ Hl]]; [done|by apply Hd].
Qed.

Lemma extract_loop_writes dir items : clean_dir dir -> readable items -> forall env found fs, (forall i, good_entry (env i)) -> writable dir fs ->
  exists found' fs', extract_loop env goos dir items found fs = (true, found', fs').
Proof.
  intros Hdir Hr. induction Hr as [|i items (e & -> & He) Hr IH]; intros env found fs Henv Hfs; cbn [extract_loop]; [by eexists _, _|].
  destruct (classify goos (hdr_Name e)) as [k|] eqn:Hk; [|by apply IH]. destruct (hdr_dir e); [by apply IH|].
  destruct (extract_entry_writes (env 0%nat) dir k e fs) as (fs1 & -> & Hfs1); try done. cbn [negb]. by apply IH.
Qed.

Definition good_disk (env : provider_env) : Prop :=
  (forall p, pv_stays1 env p = false) /\ pv_mkdir2 env = None /\ (forall i, good_entry (pv_entry env i)) /\ pv_version env = WriteOk.

(** The new directory is empty. *)
Lemma fresh_writable fs stays : (forall p, stays p = false) -> (forall p c, p ∈ ancestors (binDir d) -> fs !! p <> Some (File c)) ->
  let fs1 := RemoveAll fs (binDir d) stays in
  exists fs2, MkdirAll fs1 (binDir d) None = (true, fs2) /\ writable (binDir d) fs2.
Proof.
  intros Hst Hno fs1. assert (forall p c, p ∈ ancestors (binDir d) -> fs1 !! p <> Some (File c)) as Hno1.
  { intros p c Hp. unfold fs1. rewrite lookup_RemoveAll. destruct (_ && _); [done|by apply Hno]. }
  eexists. split; [by apply MkdirAll_succeeds|]. set (B := binDir d) in *.
  assert (forall p, is_prefix (B +:+ "/") p = true -> fs1 !! p = None) as Hin.
  { intros p Hp. unfold fs1. rewrite lookup_RemoveAll. unfold in_tree. by rewrite Hst, Hp, orb_true_r. }
  split.
  - intros p c Hp Hl. apply (mkdirs_added _ fs1) in Hl. change (B +:+ "/data") with (B +:+ "/" +:+ "data") in Hp.
    apply ancestors_join in Hp as [Hp| ->]; [by eapply Hno1| |done]. rewrite Hin in Hl; [done|]. rewrite <- str_app_assoc. apply is_prefix_self.
  - intros p Hp Hl. apply mkdirs_Dir in Hl as [Hl|Hl]; [by rewrite Hin in Hl|by eapply ancestors_short].
Qed.

(** Installing a checked archive.  When every entry of the archive can be read and one of them is the
    binary, and the disk does its part, the installation ends with the path of the binary, which has the data of the last such entry;
    the marker names this version, so that further calls give the path at once; of the
    disk only the directory of the binary and the archive have changed; and the process is started
    with that directory, where the libraries are, as the one to find them in. *)
Theorem install_completes env fs bundle body items data
  (Hbundle : bundleForPlatform goos goarch = Some bundle) (Henv : good_disk env)
  (Hway : forall p c, p ∈ ancestors (binDir d) -> fs !! p <> Some (File c))
  (Harchive : fs !! JoinAll [d; "tor"; pb_Filename bundle] = Some (File body))
  (Hbody : untar body = Some items) (Hitems : readable items) (Hbin : binary_of goos items = Some data) :
  exists fs', install untar goos env fs d (JoinAll [d; "tor"; pb_Filename bundle]) = (Ok (torPath goos d), fs') /\
    fs' !! torPath goos d = Some (File data) /\
    (forall env2, engine_binary untar goos goarch "" env2 fs' d = (Some (torPath goos d), fs')) /\
    (forall environ args, torProcessCreator goos (torPath goos d) environ args = (torPath goos d, args,
       (environ ++ [(if bool_decide (goos = "darwin") then "DYLD_LIBRARY_PATH=" else "LD_LIBRARY_PATH=") +:+ binDir d])%list)) /\
    forall p, in_tree (binDir d) p = false -> p ∉ ancestors (binDir d) -> p <> JoinAll [d; "tor"; pb_Filename bundle] -> fs' !! p = fs !! p.
Proof.
  destruct Henv as (Hst & Hmk & Hent & Hver). set (archive := JoinAll [d; "tor"; pb_Filename bundle]) in *.
  destruct (paths_apart bundle Hbundle) as (Hta & Hva & Htv & Harch & Hvin & Htin & Hway2 & Haway & Hadata & Hun). fold archive in Hta, Hva, Harch, Haway, Hadata.
  destruct (Hway2 (versionFile d) (or_intror eq_refl)) as (_ & Hvb & Hvd). destruct (binDir_eq d) as [_ HBc].
  destruct (fresh_writable fs (pv_stays1 env) Hst Hway) as (fs2 & Hmkdir & Hwr2).
  unfold install. rewrite Hmk, Hmkdir. cbn [negb].
  pose proof (fun p => MkdirAll_other (RemoveAll fs (binDir d) (pv_stays1 env)) (binDir d) None p) as Ho. rewrite Hmkdir in Ho. cbn [snd] in Ho.
  assert (fs2 !! archive = Some (File body)) as Ha2 by (rewrite Ho, RemoveAll_out by done; done).
  assert (fs2 !! versionFile d = None) as Hv2 by (rewrite Ho, lookup_RemoveAll, Hvin, Hst by done; done).
  unfold extractTorBinary. rewrite Ha2, Hbody.
  destruct (extract_loop_writes (binDir d) items HBc Hitems (pv_entry env) false fs2 Hent Hwr2) as (found & fs3 & Hl).
  rewrite Hl. destruct (extract_loop_bin _ _ _ HBc _ _ _ _ _ Hl) as [-> Hb3]. rewrite Hbin in *. cbn [orb andb].
  assert (bool_decide (is_Some (Some data)) = true) as -> by (apply bool_decide_eq_true; by eexists). cbn [negb].
  rewrite <- (proj2 (torPath_eq d goos)) in Hb3.
  assert (fs3 !! versionFile d = None) as Hv3.
  { rewrite <- Hv2. eapply extract_loop_frame; [exact HBc|exact Hl|exact Hvd|]. by intros [? _]%Hun. }
  rewrite Hver. unfold WriteFile. rewrite Hv3. cbn [negb].
  set (fs4 := <[versionFile d := _]> fs3).
  destruct (os_Remove fs4 archive (pv_remove2 env)) as [o fs5] eqn:Hrm.
  assert (forall p, p <> archive -> fs5 !! p = fs4 !! p) as H5.
  { intros p Hp. pose proof (os_Remove_other fs4 archive (pv_remove2 env) p Hp) as Hq. by rewrite Hrm in Hq. }
  assert (fs5 !! torPath goos d = Some (File data)) as Ht5 by (rewrite H5 by done; unfold fs4; by rewrite lookup_insert_ne).
  assert (fs5 !! versionFile d = Some (File (String.list_byte_of_string torVersion))) as Hv5
    by (rewrite H5 by done; unfold fs4; apply lookup_insert_eq).
  assert (existsOnDisk fs5 (torPath goos d) = true) as -> by (apply bool_decide_eq_true; rewrite Ht5; by eexists).
  exists fs5. split; [done|]. split; [done|]. split; [|split].
  - intros env2. unfold engine_binary. rewrite bool_decide_eq_true_2 by done. rewrite EnsureTor_cached; [done|by apply marker_current|by eexists].
  - intros environ args. unfold torProcessCreator. by rewrite DirOf_torPath.
  - intros p Hp Hanc Hpa. rewrite H5 by done. unfold fs4. rewrite lookup_insert_ne by (intros <-; congruence).
    rewrite (extract_loop_untouched _ _ HBc _ _ _ _ _ _ _ Hl Hp Hanc), (MkdirAll_untouched _ _ _ _ _ _ Hmkdir Hanc). by apply RemoveAll_out.
Qed.
End claims.

Section samples.

Definition sample_items : list tar_item := [
  TarEntry (mkEntry "tor/" true [] true); TarEntry (mkEntry "debug/tor" false [z2b 0] true);
  TarEntry (mkEntry "tor/tor" false [z2b 127; z2b 69] true); TarEntry (mkEntry "tor/../../libevent-2.1.so.7" false [z2b 1] true);
  TarEntry (mkEntry "data/geoip" false [z2b 2] true); TarEntry (mkEntry "docs/tor" false [] true)].
Definition sample_untar (body : bytes) : option (list tar_item) := match body with [] => None | _ => Some sample_items end.
Definition sample_body : bytes := [z2b 31; z2b 139].
Definition sample_disk : filesystem :=
  {[ "/home" := Dir; "/home/ada" := Dir; "/home/ada/tor" := Dir;
     "/home/ada/tor/tor-expert-bundle-linux-x86_64-15.0.5.tar.gz" := File sample_body; "/home/ada/tor/bin/version.txt" := File [z2b 49] ]}.
Definition sample_penv (body : bytes) : provider_env :=
  mkPEnv None (fun _ => Some (mkResponse 200 body true)) WriteOk true (fun _ => false) None (fun _ => mkEntryEnv None WriteOk) (fun _ => false) WriteOk true.
Definition sample_bundle : platformBundle :=
  mkBundle "tor-expert-bundle-linux-x86_64-15.0.5.tar.gz" "df5d4850779d9648160c54df1a82733ea54f3430c46b3cc3ed2a22b579f8758e".

Example sample_install :
  let fs := (install sample_untar "linux" (sample_penv sample_body) sample_disk "/home/ada"
    "/home/ada/tor/tor-expert-bundle-linux-x86_64-15.0.5.tar.gz").2 in
  fs !! "/home/ada/tor/bin/tor" = Some (File [z2b 127; z2b 69]) /\
  fs !! "/home/ada/tor/bin/libevent-2.1.so.7" = Some (File [z2b 1]) /\ fs !! "/home/ada/tor/bin/data/geoip" = Some (File [z2b 2]).
Proof. vm_compute. done. Qed.

Lemma install_completes_witness :
  exists fs', install sample_untar "linux" (sample_penv sample_body) sample_disk "/home/ada" (JoinAll ["/home/ada"; "tor"; pb_Filename sample_bundle])
      = (Ok (torPath "linux" "/home/ada"), fs') /\ fs' !! torPath "linux" "/home/ada" = Some (File [z2b 127; z2b 69]).
Proof.
  pose proof (install_completes sample_untar "linux" "amd64" "/home/ada" (sample_penv sample_body) sample_disk sample_bundle sample_body
    sample_items [z2b 127; z2b 69]) as Hi.
  destruct Hi as (fs' & Hr & Ht & _).
  - vm_compute. reflexivity.
  - repeat split.
  - assert (ancestors (binDir "/home/ada") = ["/home"; "/home/ada"; "/home/ada/tor"; "/home/ada/tor/bin"]) as -> by (vm_compute; reflexivity).
    intros p c Hp Hf. repeat (apply elem_of_cons in Hp as [-> |Hp]; [vm_compute in Hf; discriminate Hf|]). by apply elem_of_nil in Hp.
  - vm_compute. reflexivity.
  - reflexivity.
  - repeat (apply Forall_cons; split; [by eexists|]). apply Forall_nil. exact I.
  - vm_compute. reflexivity.
  - exists fs'. split; [exact Hr|exact Ht].
Defined.

Lemma tor_binary_verified_witness :
  let '(r, fs') := EnsureTor sample_untar "linux" "amd64" (sample_penv [z2b 7]) sample_disk "/home/ada" in
  r = Err ErrChecksum /\ installed_same "linux" "/home/ada" sample_disk fs'.
Proof.
  pose proof (tor_binary_verified sample_untar "linux" "amd64" "/home/ada" (sample_penv [z2b 7]) sample_disk (fun _ => eq_refl)) as Hv.
  assert (sound sample_untar "linux" "amd64" "/home/ada" sample_disk) as Hs by (intros Hcur; vm_compute in Hcur; discriminate Hcur).
  specialize (Hv Hs). assert ((EnsureTor sample_untar "linux" "amd64" (sample_penv [z2b 7]) sample_disk "/home/ada").1 = Err ErrChecksum) as He
    by (vm_compute; reflexivity).
  destruct (EnsureTor _ _ _ _ _ _) as [r fs']. cbn [fst] in He. destruct Hv as (_ & _ & _ & Hsame). split; [exact He|]. exact (Hsame _ He eq_refl).
Defined.
End samples.
