(* ===== verification/Pending.v ===== *)
(** * Requests that wait for a decision

    A table of decision channels, as internal/node (by the address of the peer) and
    internal/api (by a request identifier) keep it.  Channels are shared between the table
    and the handler that waits: they live in a store and the table holds references. *)

From S2P Require Import Prelude GoStd.

Section pending.
Context {D : Type}.

(** The table and the store; a reference is an index of the store. *)
(** src: internal/api/registerservice.go 51-58 pendingRequestStore *)
Record pending := mkPending { p_table : gmap string nat; p_chans : list (Chan.t D) }.

Definition no_pending : pending := mkPending ∅ [].

(** [make(chan D, 1)] *)
Definition alloc (p : pending) : nat * pending :=
  (length (p_chans p), mkPending (p_table p) (p_chans p ++ [Chan.make 1])).

(** src: internal/api/registerservice.go 60-64 pendingRequestStore.put *)
Definition put (p : pending) (id : string) (ch : nat) : pending :=
  mkPending (<[id := ch]> (p_table p)) (p_chans p).

(** src: internal/api/registerservice.go 66-75 pendingRequestStore.take *)
Definition take (p : pending) (id : string) : option nat * pending :=
  (p_table p !! id, mkPending (delete id (p_table p)) (p_chans p)).

(** [select { case ch <- d: ...; default: ... }]: whether the value was sent. *)
Definition offer (p : pending) (ch : nat) (d : D) : bool * pending :=
  match p_chans p !! ch with
  | None => (false, p)
  | Some c => match Chan.try_send c d with
              | Chan.Sent c => (true, mkPending (p_table p) (<[ch := c]> (p_chans p)))
              | _ => (false, p)
              end
  end.

(** The handler reads its channel, when there is something in it. *)
Definition receive (p : pending) (ch : nat) : option D * pending :=
  match p_chans p !! ch ≫= Chan.try_recv with
  | None => (None, p)
  | Some (d, c) => (Some d, mkPending (p_table p) (<[ch := c]> (p_chans p)))
  end.

(** ** The invariant *)

(** A channel nothing was sent to. *)
Definition fresh_chan (c : Chan.t D) : Prop := c = Chan.make 1.

(** A channel in the table is fresh, and under one key only. *)
Record pending_ok (p : pending) : Prop := {
  po_fresh id ch : p_table p !! id = Some ch -> exists c, p_chans p !! ch = Some c /\ fresh_chan c;
  po_inj id1 id2 ch : p_table p !! id1 = Some ch -> p_table p !! id2 = Some ch -> id1 = id2
}.

Lemma no_pending_ok : pending_ok no_pending.
Proof. by split; intros ? ?. Qed.

(** A request that enters the table with a channel of its own; an older one under the same
    key leaves it. *)
Lemma put_alloc_ok p id : pending_ok p -> pending_ok (put (alloc p).2 id (alloc p).1).
Proof.
  intros [Hf Hi].
  assert (forall id ch, p_table p !! id = Some ch -> (ch < length (p_chans p))%nat) as Hlt.
  { intros id' ch (c & Hc & _)%Hf. by eapply lookup_lt_Some. }
  split; cbn.
  - intros id' ch [[<- <-]|[_ Hid]]%lookup_insert_Some.
    + exists (Chan.make 1). split; [|done]. by rewrite lookup_app_r, Nat.sub_diag by lia.
    + destruct (Hf _ _ Hid) as (c & Hc & Hfr). exists c. split; [|done]. by apply lookup_app_l_Some.
  - intros id1 id2 ch [[<- <-]|[H1 Hl1]]%lookup_insert_Some [[<- Heq]|[H2 Hl2]]%lookup_insert_Some; [done| | |].
    + apply Hlt in Hl2. lia.
    + apply Hlt in Hl1. lia.
    + by eapply Hi.
Qed.

Lemma alloc_ok p : pending_ok p -> pending_ok (alloc p).2.
Proof.
  intros [Hf Hi]. split; cbn; [|done]. intros id ch (c & Hc & Hfr)%Hf. exists c. split; [|done]. by apply lookup_app_l_Some.
Qed.

Lemma take_ok p id : pending_ok p -> pending_ok (take p id).2.
Proof.
  intros [Hf Hi]. split; cbn.
  - intros id' ch [_ Hid]%lookup_delete_Some. by eapply Hf.
  - intros id1 id2 ch [_ H1]%lookup_delete_Some [_ H2]%lookup_delete_Some. by eapply Hi.
Qed.

(** Changing a channel that is not in the table. *)
Lemma set_chan_ok p ch c : pending_ok p -> (forall id, p_table p !! id <> Some ch) ->
  pending_ok (mkPending (p_table p) (<[ch := c]> (p_chans p))).
Proof.
  intros [Hf Hi] Hn. split; cbn; [|done]. intros id ch' Hid. destruct (Hf _ _ Hid) as (c' & Hc & Hfr). exists c'.
  split; [|done]. rewrite list_lookup_insert_ne; [done|]. intros <-. by apply (Hn id).
Qed.

(** A decision taken from the table goes through, to this request only. *)
Lemma take_offer p id ch d : pending_ok p -> p_table p !! id = Some ch ->
  let p' := (take p id).2 in
  (take p id).1 = Some ch /\
  offer p' ch d = (true, mkPending (p_table p') (<[ch := Chan.mk 1 [d] false]> (p_chans p'))) /\
  pending_ok (offer p' ch d).2 /\
  forall id', id' <> id -> p_table (offer p' ch d).2 !! id' = p_table p !! id'.
Proof.
  intros Hok Hid p'. split; [done|].
  assert (offer p' ch d = (true, mkPending (p_table p') (<[ch := Chan.mk 1 [d] false]> (p_chans p')))) as Ho.
  { unfold offer. destruct (po_fresh p Hok id ch Hid) as (c & Hc & ->). change (p_chans p') with (p_chans p). by rewrite Hc. }
  split; [done|]. rewrite Ho. cbn [snd p_table p_chans]. split.
  - apply set_chan_ok; [by apply take_ok|]. unfold p'; cbn. intros id' [Hne Hid']%lookup_delete_Some. by apply Hne, (po_inj p Hok id id' ch).
  - intros id' Hne. unfold p'. cbn. by rewrite lookup_delete_ne.
Qed.

Lemma offer_take p id ch d : (take (offer p ch d).2 id).2 = (offer (take p id).2 ch d).2.
Proof. unfold offer, take. cbn. destruct (p_chans p !! ch) as [c|]; [|done]. by destruct (Chan.try_send c d). Qed.

(** A handler reads a channel that holds something: none in the table does. *)
Lemma receive_ok p ch : pending_ok p -> pending_ok (receive p ch).2.
Proof.
  intros Hok. unfold receive. destruct (p_chans p !! ch) as [c|] eqn:Hc; [|done]. cbn [mbind option_bind].
  destruct (Chan.try_recv c) as [[d c']|] eqn:Hr; [|done]. cbn [snd]. apply set_chan_ok; [done|].
  intros id Hid. destruct (po_fresh p Hok id ch Hid) as (c0 & Hc0 & ->). rewrite Hc in Hc0. by injection Hc0 as ->.
Qed.
End pending.
Arguments pending : clear implicits.
