(* ===== verification/RegisterService.v ===== *)
(** * internal/api/registerservice.go: services registered over a stream

    One stream of [RegisterService]: its queue of events, the requests that wait for the
    client's decision, and the actions the client sends. *)

From Stdlib Require Import Ascii.
From S2P Require Import Prelude GoStd Crypto Protocol Instances Identity Services ApiAuth Pending.
Local Open Scope go_scope.

(** ** Data *)

(** src: internal/api/registerservice.go 23-23 eventQueueSize *)
Definition eventQueueSize : nat := 256.

(** src: internal/api/registerservice.go 43-46 connectionDecision *)
Record connectionDecision := mkDecision { dec_Accepted : bool; dec_Reason : string }.

(** The messages of the service API. *)
Record ServiceChatMessageEvent := mkChatEvent { ce_FromAddr : string; ce_Text : string; ce_Ts : Z }.
Record ServiceConnectionRequestEvent := mkConnEvent { cr_RequestId : string; cr_FromAddr : string }.

(** Why the client is sent an error. *)
Inductive action_err :=
| ErrManifestAgain | ErrSendMissing | ErrSendFields | ErrNoDispatcher | ErrDispatch
| ErrAcceptId | ErrRejectId | ErrNoRequest (id : string) | ErrDecided (id : string) | ErrUnknownAction.

Inductive ServerMessage :=
| MsgRegistered (address onion : string)
| MsgEvent (type : string) (payload : bytes)
| MsgError (e : action_err).

(** A client's message: an action, or a variant this version does not know. *)
Inductive ClientMessage :=
| CMManifest
| CMSend (m : option (string * string))
| CMAccept (m : option string)
| CMReject (m : option (string * string))
| CMUnknown.

(** The stream: [rs_sent] is what was handed to gRPC; [rs_idN] the counter of the handlers'
    request identifiers, a [uint64]. *)
(** src: internal/api/registerservice.go 92-103 registerStream *)
Record registerStream := mkStream {
  rs_events : Chan.t ServerMessage;
  rs_pending : pending connectionDecision;
  rs_dropCount : Z;
  rs_idN : Z;
  rs_sent : list ServerMessage
}.

(** src: internal/api/registerservice.go 137-141 Server.RegisterService *)
Definition newStream : registerStream := mkStream (Chan.make eventQueueSize) no_pending 0 0 [].

Definition set_events (rs : registerStream) c (drops : Z) : registerStream :=
  mkStream c (rs_pending rs) drops (rs_idN rs) (rs_sent rs).
Definition set_pending (rs : registerStream) p : registerStream :=
  mkStream (rs_events rs) p (rs_dropCount rs) (rs_idN rs) (rs_sent rs).

(** [stream.Send]: it may fail. *)
(** src: internal/api/registerservice.go 299-303 registerStream.send *)
Definition send (rs : registerStream) (m : ServerMessage) (ok : bool) : registerStream :=
  if ok then mkStream (rs_events rs) (rs_pending rs) (rs_dropCount rs) (rs_idN rs) (rs_sent rs ++ [m]) else rs.

(** src: internal/api/registerservice.go 305-311 registerStream.sendError *)
Definition sendError (rs : registerStream) (e : action_err) (ok : bool) : registerStream := send rs (MsgError e) ok.

(** ** The event queue *)

(** The loop of [emit]; [None]: the send panics because the channel is closed. *)
(** src: internal/api/registerservice.go 317-334 registerStream.emit *)
Fixpoint emit_loop (fuel : nat) (rs : registerStream) (ev : ServerMessage) : option registerStream :=
  match fuel with
  | O => None
  | S fuel =>
      match Chan.try_send (rs_events rs) ev with
      | Chan.Sent c => Some (set_events rs c (rs_dropCount rs))
      | Chan.SendPanic => None
      | Chan.Full =>
          match Chan.try_recv (rs_events rs) with
          | Some (_, c) => emit_loop fuel (set_events rs c (rs_dropCount rs + 1)) ev
          | None => emit_loop fuel rs ev
          end
      end
  end.

(** Without a consumer in between, the second round of the loop sends. *)
(** src: internal/api/registerservice.go 317-334 registerStream.emit *)
Definition emit : registerStream -> ServerMessage -> option registerStream := emit_loop 2.

(** One round of the forwarder: an event goes to the stream; an error of [Send] ends it. *)
(** src: internal/api/registerservice.go 283-297 registerStream.forwardEvents *)
Definition forward_one (rs : registerStream) (ok : bool) : option registerStream :=
  match Chan.try_recv (rs_events rs) with
  | None => None
  | Some (ev, c) => Some (send (set_events rs c (rs_dropCount rs)) ev ok)
  end.

(** The forwarder, by the outcomes of its sends: it ends with an error, or when the queue is closed and empty;
    with no outcome left it waits. *)
(** src: internal/api/registerservice.go 283-297 registerStream.forwardEvents *)
Fixpoint forwardEvents (oks : list bool) (rs : registerStream) : registerStream :=
  match oks with
  | [] => rs
  | ok :: oks =>
      match forward_one rs ok with
      | None => rs
      | Some rs' => if ok then forwardEvents oks rs' else rs'
      end
  end.

(** ** The handlers *)

(** [fmt.Sprintf] of a [uint64] with [%d]. *)
Definition FormatUint (n : Z) : string := String.string_of_list_ascii (digits 20 n).

(** src: internal/api/registerservice.go 351-357 serviceHandlers.newRequestID *)
Definition request_id (fromAddr : string) (n : Z) : string := (fromAddr +:+ String "-" (FormatUint n))%string.

Inductive handler_err := ErrMarshalEvent | ErrCtx.

Section handlers.
Context `{Proto ServiceChatMessageEvent, Proto ServiceConnectionRequestEvent}.

(** src: internal/api/registerservice.go 360-378 serviceHandlers.OnChatMessage *)
Definition OnChatMessage (rs : registerStream) (fromAddr text : string) (now : Z) :
    option (result handler_err unit * registerStream) :=
  match marshal (mkChatEvent fromAddr text (GoTime.UnixMilli now)) with
  | None => Some (Err ErrMarshalEvent, rs)
  | Some payload => rs ← emit rs (MsgEvent "chat_message" payload); Some (Ok tt, rs)
  end.

(** The handler up to its wait: the identifier of the request and its channel. *)
(** src: internal/api/registerservice.go 383-404 serviceHandlers.OnConnectionRequest *)
Definition OnConnectionRequest (rs : registerStream) (fromAddr : string) :
    option (result handler_err (string * nat) * registerStream) :=
  let n := u64 (rs_idN rs + 1) in
  let id := request_id fromAddr n in
  let '(decision, p) := alloc (rs_pending rs) in
  let rs := mkStream (rs_events rs) (put p id decision) (rs_dropCount rs) n (rs_sent rs) in
  match marshal (mkConnEvent id fromAddr) with
  | None => Some (Err ErrMarshalEvent, set_pending rs (take (rs_pending rs) id).2)
  | Some payload => rs ← emit rs (MsgEvent "connection_request" payload); Some (Ok (id, decision), rs)
  end.

(** The end of the wait: [ctx] says that the context has ended and the [select] takes that
    branch; [None]: the handler goes on waiting. *)
(** src: internal/api/registerservice.go 406-414 serviceHandlers.OnConnectionRequest *)
Definition await_decision (rs : registerStream) (id : string) (decision : nat) (ctx : bool) :
    option (result handler_err bool * registerStream) :=
  if ctx then Some (Err ErrCtx, set_pending rs (take (rs_pending rs) id).2)
  else match receive (rs_pending rs) decision with
       | (Some d, p) => Some (Ok (dec_Accepted d), set_pending rs p)
       | (None, _) => None
       end.
End handlers.

(** ** The actions *)

(** The part [handleAccept] and [handleReject] share. *)
(** src: internal/api/registerservice.go 252-261 registerStream.handleAccept *)
Definition decide_request (rs : registerStream) (id : string) (d : connectionDecision) (ok : bool) : registerStream :=
  match take (rs_pending rs) id with
  | (None, p) => sendError (set_pending rs p) (ErrNoRequest id) ok
  | (Some ch, p) =>
      let '(sent, p) := offer p ch d in
      let rs := set_pending rs p in
      if sent then rs else sendError rs (ErrDecided id) ok
  end.

(** src: internal/api/registerservice.go 247-262 registerStream.handleAccept *)
Definition handleAccept (rs : registerStream) (m : option string) (ok : bool) : registerStream :=
  match m with
  | None | Some EmptyString => sendError rs ErrAcceptId ok
  | Some id => decide_request rs id (mkDecision true "") ok
  end.

(** src: internal/api/registerservice.go 264-279 registerStream.handleReject *)
Definition handleReject (rs : registerStream) (m : option (string * string)) (ok : bool) : registerStream :=
  match m with
  | None | Some (EmptyString, _) => sendError rs ErrRejectId ok
  | Some (id, reason) => decide_request rs id (mkDecision false reason) ok
  end.

(** [dispatch]: the dispatcher, when there is one, and whether it succeeds. *)
(** src: internal/api/registerservice.go 229-245 registerStream.handleSend *)
Definition handleSend (rs : registerStream) (dispatch : option (string -> string -> bool)) (m : option (string * string))
    (ok : bool) : registerStream :=
  match m with
  | None => sendError rs ErrSendMissing ok
  | Some (toAddr, text) =>
      if bool_decide (toAddr = ""%string) || bool_decide (text = ""%string) then sendError rs ErrSendFields ok
      else match dispatch with
           | None => sendError rs ErrNoDispatcher ok
           | Some f => if f toAddr text then rs else sendError rs ErrDispatch ok
           end
  end.

(** One round of the action loop. *)
(** src: internal/api/registerservice.go 214-225 registerStream.runActions *)
Definition runAction (rs : registerStream) (dispatch : option (string -> string -> bool)) (m : ClientMessage) (ok : bool) :
    registerStream :=
  match m with
  | CMManifest => sendError rs ErrManifestAgain ok
  | CMSend m => handleSend rs dispatch m ok
  | CMAccept m => handleAccept rs m ok
  | CMReject m => handleReject rs m ok
  | CMUnknown => sendError rs ErrUnknownAction ok
  end.

(** What [Recv] gives: a message, with the outcome of the error that may be sent for it, or that the stream
    has ended, or an error. *)
Inductive received := Received (m : ClientMessage) (ok : bool) | StreamEof | RecvError.

(** The action loop.  [None]: it waits for the client; otherwise whether it ends without an error.
    [ctxDone]: the context has ended when [Recv] fails. *)
(** src: internal/api/registerservice.go 201-227 registerStream.runActions *)
Fixpoint runActions (dispatch : option (string -> string -> bool)) (ctxDone : bool) (rs : registerStream) (evs : list received) :
    option bool * registerStream :=
  match evs with
  | [] => (None, rs)
  | Received m ok :: evs => runActions dispatch ctxDone (runAction rs dispatch m ok) evs
  | StreamEof :: _ => (Some true, rs)
  | RecvError :: _ => (Some ctxDone, rs)
  end.

(** ** The end of the stream *)

(** [close(rs.events)] *)
(** src: internal/api/registerservice.go 190-190 Server.RegisterService *)
Definition close_events (rs : registerStream) : registerStream :=
  set_events rs (Chan.close (rs_events rs)) (rs_dropCount rs).

(** src: internal/api/registerservice.go 79-89 pendingRequestStore.dropAll *)
Definition dropAll (p : pending connectionDecision) (reason : string) : pending connectionDecision :=
  fold_left (fun p '(id, ch) => (take (offer p ch (mkDecision false reason)).2 id).2) (map_to_list (p_table p)) p.

(** ** Registration *)

(** The enum of the API: any [int32] may arrive. *)
Record ServiceManifest := mkServiceManifest {
  sm_Name : string; sm_Description : string; sm_Acl : Z; sm_Allowlist : list string }.

Inductive manifest_err := ErrManifestNil | ErrManifestName | ErrManifestAcl | ErrManifestAllowlist (i : nat).

Inductive rpc_status :=
| Unimplemented | RecvFailed | FirstMessage | InvalidManifest (e : manifest_err) | AlreadyExists | Internal (e : registry_err).

Section register.
Context `{Ripemd160, Base58}.

(** src: internal/api/registerservice.go 420-442 validateManifest *)
Definition validateManifest (m : option ServiceManifest) : result manifest_err unit :=
  match m with
  | None => Err ErrManifestNil
  | Some m =>
      guard negb (bool_decide (sm_Name m = ""%string)) else ErrManifestName;
      guard (0 <=? sm_Acl m) && (sm_Acl m <=? 2) else ErrManifestAcl;
      if sm_Acl m =? 2 then
        match find_index (fun a => negb (Validate a)) (sm_Allowlist m) with
        | Some i => Err (ErrManifestAllowlist i)
        | None => Ok tt
        end
      else Ok tt
  end.

(** src: internal/api/registerservice.go 444-455 aclFromProto *)
Definition aclFromProto (a : Z) : ACL :=
  if a =? 0 then ACLPublic else if a =? 1 then ACLContacts else if a =? 2 then ACLAllowlist else ACLPublic.

(** The call up to the registration: [registry] is [Register] of the registry, [None] when
    there is none; [first] what the stream delivers first ([Some None]: no manifest). *)
(** src: internal/api/registerservice.go 114-164 Server.RegisterService *)
Definition open_stream {S} (registry : option (S -> string -> Manifest -> result registry_err Service * S)) (s : S)
    (first : option (option ServiceManifest)) : result rpc_status Service * S :=
  match registry with
  | None => (Err Unimplemented, s)
  | Some register =>
      match first with
      | None => (Err RecvFailed, s)
      | Some None => (Err FirstMessage, s)
      | Some (Some m) =>
          match validateManifest (Some m) with
          | Err e => (Err (InvalidManifest e), s)
          | Ok _ =>
              match register s (sm_Name m) (mkManifest (sm_Description m) (aclFromProto (sm_Acl m)) (sm_Allowlist m)) with
              | (Ok svc, s) => (Ok svc, s)
              | (Err ErrAlreadyRegistered, s) => (Err AlreadyExists, s)
              | (Err e, s) => (Err (Internal e), s)
              end
          end
      end
  end.
End register.

(** ** Request identifiers *)

Lemma digits_no_dash fuel n : 0 <= n -> not ("-"%char ∈ digits fuel n).
Proof.
  assert (forall d, 0 <= d < 10 -> hex_digit d <> "-"%char) as Hd.
  { intros d Hd Heq. apply (f_equal digit_value) in Heq. by rewrite digit_value_digit in Heq. }
  revert n. induction fuel as [|fuel IH]; intros n Hn; cbn [digits]; [by intros ?%elem_of_nil|].
  destruct (Z.ltb_spec n 10).
  - intros Heq%list_elem_of_singleton. by apply (Hd n).
  - rewrite elem_of_app, list_elem_of_singleton. intros [Hin|Heq].
    + apply (IH (n / 10)); [apply Z.div_pos; lia|done].
    + apply (Hd (n mod 10)); [apply Z.mod_pos_bound; lia|done].
Qed.

Lemma request_id_inj f1 f2 n1 n2 : in_u 64 n1 -> in_u 64 n2 -> request_id f1 n1 = request_id f2 n2 -> n1 = n2.
Proof.
  intros [H1 L1] [H2 L2] Heq%(f_equal String.list_ascii_of_string). unfold request_id, FormatUint in Heq.
  rewrite !list_ascii_app in Heq. cbn [String.list_ascii_of_string] in Heq.
  rewrite !String.list_ascii_of_string_of_list_ascii in Heq.
  apply not_elem_of_app_cons_inv_r in Heq as (_ & _ & Heq); [|by apply digits_no_dash..].
  apply (f_equal parse_digits) in Heq.
  assert (2 ^ 64 < 10 ^ Z.of_nat 20) as Hbig by done.
  rewrite !parse_digits_digits in Heq; [by injection Heq| |]; split; try assumption; eapply Z.lt_trans; eassumption.
Qed.

(** ** The life of a stream *)

Section claims.
Context `{Proto ServiceChatMessageEvent, Proto ServiceConnectionRequestEvent}.

(** What happens to a stream: events from the registry's handlers (fewer than 2^64 requests),
    handlers that stop waiting, the client's actions, the forwarder, and its end. *)
Inductive reg_step (rs : registerStream) : registerStream -> Prop :=
| reg_chat fromAddr text now r rs' : OnChatMessage rs fromAddr text now = Some (r, rs') -> reg_step rs rs'
| reg_request fromAddr r rs' : rs_idN rs + 1 < 2 ^ 64 -> OnConnectionRequest rs fromAddr = Some (r, rs') -> reg_step rs rs'
| reg_await id ch ctx r rs' : await_decision rs id ch ctx = Some (r, rs') -> reg_step rs rs'
| reg_action dispatch m ok : reg_step rs (runAction rs dispatch m ok)
| reg_forward ok rs' : forward_one rs ok = Some rs' -> reg_step rs rs'
| reg_close : reg_step rs (close_events rs)
| reg_drop reason : reg_step rs (set_pending rs (dropAll (rs_pending rs) reason)).

Record reg_ok (rs : registerStream) : Prop := {
  rk_pending : pending_ok (rs_pending rs);
  rk_idN : in_u 64 (rs_idN rs);
  rk_ids id : is_Some (p_table (rs_pending rs) !! id) ->
    exists fromAddr n, id = request_id fromAddr n /\ 0 <= n <= rs_idN rs
}.

Lemma newStream_ok : reg_ok newStream.
Proof. split; [apply no_pending_ok|done|]. by intros id [ch ?]. Qed.

(** Only the table and the counter matter. *)
Lemma reg_ok_same rs rs' : reg_ok rs -> rs_pending rs' = rs_pending rs -> rs_idN rs' = rs_idN rs -> reg_ok rs'.
Proof. intros [H1 H2 H3] E1 E2. split; rewrite ?E1, ?E2; done. Qed.

Lemma reg_ok_pending rs p : reg_ok rs -> pending_ok p ->
  (forall id, is_Some (p_table p !! id) -> is_Some (p_table (rs_pending rs) !! id)) -> reg_ok (set_pending rs p).
Proof. intros [H1 H2 H3] Hp Hsub. split; [done|done|]. intros id Hid. by apply H3, Hsub. Qed.

Lemma emit_frame rs ev rs' : emit rs ev = Some rs' ->
  rs_pending rs' = rs_pending rs /\ rs_idN rs' = rs_idN rs /\ rs_sent rs' = rs_sent rs.
Proof. unfold emit. cbn [emit_loop]. intros He. go_cases; done. Qed.

Lemma take_table {D} (p : pending D) id id' : is_Some (p_table (take p id).2 !! id') -> is_Some (p_table p !! id').
Proof. cbn. intros [ch [_ Hch]%lookup_delete_Some]. by eexists. Qed.

Lemma offer_table {D} (p : pending D) ch d : p_table (offer p ch d).2 = p_table p.
Proof. unfold offer. destruct (p_chans p !! ch) as [c|]; [|done]. by destruct (Chan.try_send c d). Qed.

Lemma receive_table {D} (p : pending D) ch : p_table (receive p ch).2 = p_table p.
Proof. unfold receive. by destruct (_ ≫= _) as [[d c]|]. Qed.

Lemma send_frame rs m ok : rs_pending (send rs m ok) = rs_pending rs /\ rs_idN (send rs m ok) = rs_idN rs.
Proof. by destruct ok. Qed.

(** A decision by the client. *)
Lemma decide_request_spec rs id d ok : reg_ok rs ->
  let rs' := decide_request rs id d ok in
  reg_ok rs' /\
  match p_table (rs_pending rs) !! id with
  | Some ch => rs_sent rs' = rs_sent rs /\ p_table (rs_pending rs') = delete id (p_table (rs_pending rs)) /\
      p_chans (rs_pending rs') = <[ch := Chan.mk 1 [d] false]> (p_chans (rs_pending rs))
  | None => rs' = sendError rs (ErrNoRequest id) ok
  end.
Proof.
  intros Hok rs'. pose proof (rk_pending rs Hok) as Hp. unfold rs', decide_request.
  destruct (p_table (rs_pending rs) !! id) as [ch|] eqn:Hid.
  - destruct (take_offer (rs_pending rs) id ch d Hp Hid) as (Ht & Ho & Hpo & _).
    destruct (take (rs_pending rs) id) as [o p] eqn:Htk. cbn [fst snd] in *. subst o. rewrite Ho in *. cbn [snd] in *.
    assert (p = mkPending (delete id (p_table (rs_pending rs))) (p_chans (rs_pending rs))) as -> by (by injection Htk).
    split; [|done]. apply reg_ok_pending; [done|done|]. cbn. intros id' [ch' [_ Hc]%lookup_delete_Some]. by eexists.
  - unfold take. rewrite Hid, delete_id by done. cbv iota beta.
    assert (set_pending rs (mkPending (p_table (rs_pending rs)) (p_chans (rs_pending rs))) = rs) as -> by (by destruct rs as [? []]).
    split; [|done]. destruct (send_frame rs (MsgError (ErrNoRequest id)) ok). by eapply reg_ok_same.
Qed.

Lemma dropAll_fold reason l : forall p, pending_ok p -> NoDup l.*1 ->
  (forall id ch, (id, ch) ∈ l -> p_table p !! id = Some ch) ->
  let p' := fold_left (fun p '(id, ch) => (take (offer p ch (mkDecision false reason)).2 id).2) l p in
  pending_ok p' /\ (forall id, p_table p' !! id = if decide (id ∈ l.*1) then None else p_table p !! id) /\
  (forall id ch, (id, ch) ∈ l -> p_chans p' !! ch = Some (Chan.mk 1 [mkDecision false reason] false)) /\
  (forall ch, not (ch ∈ l.*2) -> p_chans p' !! ch = p_chans p !! ch).
Proof.
  induction l as [|[id ch] l IH]; intros p Hp Hnd Hl; cbn [fold_left].
  { split_and!; [done|intros id; by rewrite decide_False by (by intros ?%elem_of_nil)|by intros ? ? ?%elem_of_nil|done]. }
  rewrite offer_take. cbn in Hnd. apply NoDup_cons in Hnd as [Hnin Hnd].
  assert (p_table p !! id = Some ch) as Hid by (apply Hl; left).
  destruct (take_offer p id ch (mkDecision false reason) Hp Hid) as (_ & Ho & Hpo & Htab).
  set (p1 := (offer (take p id).2 ch (mkDecision false reason)).2) in *.
  assert (p_table p1 = delete id (p_table p)) as Ht1 by (unfold p1; by rewrite Ho).
  assert (p_chans p1 = <[ch := Chan.mk 1 [mkDecision false reason] false]> (p_chans p)) as Hc1 by (unfold p1; by rewrite Ho).
  clearbody p1. clear Ho Htab.
  assert (forall id' ch', (id', ch') ∈ l -> id' <> id) as Hne.
  { intros id' ch' Hin ->. apply Hnin. apply list_elem_of_fmap. by exists (id, ch'). }
  destruct (IH p1 Hpo Hnd) as (Hok & Htab & Hdec & Hoth).
  { intros id' ch' Hin. rewrite Ht1, lookup_delete_ne by (apply not_eq_sym; by eapply Hne). apply Hl. by right. }
  assert (not (ch ∈ l.*2)) as Hch.
  { intros (x & -> & Hin)%list_elem_of_fmap. destruct x as [id' ch']. cbn in *. eapply Hne; [exact Hin|].
    eapply (po_inj p Hp id' id ch'); [|done]. apply Hl. by right. }
  assert ((ch < length (p_chans p))%nat) as Hlt.
  { destruct (po_fresh p Hp id ch Hid) as (c & Hc & _). by eapply lookup_lt_Some. }
  split_and!; [done| | |].
  - intros id'. rewrite Htab, Ht1. cbn. destruct (decide (id' = id)) as [->|Hn].
    + rewrite (decide_True (P := id ∈ id :: l.*1)) by left. destruct (decide _); [done|]. by rewrite lookup_delete_eq.
    + destruct (decide (id' ∈ l.*1)) as [Hin|Hin].
      * by rewrite decide_True by (by right).
      * rewrite decide_False by (by intros [|]%elem_of_cons). by rewrite lookup_delete_ne.
  - intros id' ch' [[= -> ->]|Hin]%elem_of_cons; [|by eapply Hdec].
    rewrite Hoth by done. rewrite Hc1. by apply list_lookup_insert_eq.
  - intros ch' Hn. cbn in Hn. apply not_elem_of_cons in Hn as [Hn1 Hn2]. rewrite Hoth by done. rewrite Hc1.
    by apply list_lookup_insert_ne.
Qed.

(** Everyone who waits is told. *)
Lemma dropAll_spec p reason : pending_ok p ->
  pending_ok (dropAll p reason) /\ p_table (dropAll p reason) = ∅ /\
  forall id ch, p_table p !! id = Some ch ->
    p_chans (dropAll p reason) !! ch = Some (Chan.mk 1 [mkDecision false reason] false).
Proof.
  intros Hp. destruct (dropAll_fold reason (map_to_list (p_table p)) p Hp) as (Hok & Ht & Hc & _).
  { apply NoDup_fst_map_to_list. }
  { intros id ch. apply elem_of_map_to_list. }
  split_and!; [done| |].
  - apply map_empty. intros id. unfold dropAll. rewrite Ht. destruct (decide _) as [|Hn]; [done|].
    apply eq_None_not_Some. intros [ch Hch]. apply Hn, list_elem_of_fmap. exists (id, ch). split; [done|].
    by apply elem_of_map_to_list.
  - intros id ch Hid. eapply Hc. by apply elem_of_map_to_list.
Qed.

(** A new request has an identifier of its own. *)
Lemma OnConnectionRequest_spec rs fromAddr r rs' : reg_ok rs -> rs_idN rs + 1 < 2 ^ 64 ->
  OnConnectionRequest rs fromAddr = Some (r, rs') ->
  reg_ok rs' /\
  match r with
  | Ok (id, ch) => p_table (rs_pending rs) !! id = None /\ ch = length (p_chans (rs_pending rs)) /\
      p_table (rs_pending rs') = <[id := ch]> (p_table (rs_pending rs)) /\
      p_chans (rs_pending rs') = p_chans (rs_pending rs) ++ [Chan.make 1]
  | Err _ => p_table (rs_pending rs') = p_table (rs_pending rs)
  end.
Proof.
  intros [Hp [Hn0 Hn1] Hids] Hlt. unfold OnConnectionRequest.
  assert (u64 (rs_idN rs + 1) = rs_idN rs + 1) as -> by (apply wrap_u_small; split; lia).
  set (id := request_id fromAddr (rs_idN rs + 1)).
  assert (p_table (rs_pending rs) !! id = None) as Hfresh.
  { apply eq_None_not_Some. intros (f & n & Heq & Hn)%Hids.
    apply request_id_inj in Heq; [lia|split; lia|split; lia]. }
  pose proof (put_alloc_ok (rs_pending rs) id Hp) as Hpa. cbn [alloc fst snd] in Hpa. cbn [alloc].
  set (rs1 := mkStream _ _ _ (rs_idN rs + 1) _).
  assert (reg_ok rs1) as Hok1.
  { split; [exact Hpa|split; cbn; lia|]. cbn. intros id' [ch [[<- <-]|[_ Hid']]%lookup_insert_Some].
    - exists fromAddr, (rs_idN rs + 1). split; [done|lia].
    - destruct (Hids id') as (f & n & -> & Hn); [by eexists|]. exists f, n. split; [done|lia]. }
  destruct (marshal _) as [payload|].
  - destruct (emit rs1 _) as [rs2|] eqn:He; [|done]. cbn [mbind option_bind]. intros [= <- <-].
    apply emit_frame in He as (E1 & E2 & _). split; [by eapply reg_ok_same|]. rewrite E1. done.
  - intros [= <- <-]. split.
    + apply reg_ok_pending; [done|exact (take_ok (rs_pending rs1) id Hpa)|]. intros id'. apply (take_table (rs_pending rs1) id).
    + cbn. by rewrite delete_insert_id.
Qed.

Lemma reg_step_ok rs rs' : reg_ok rs -> reg_step rs rs' -> reg_ok rs'.
Proof.
  intros Hok [fromAddr text now r rs2 Hc|fromAddr r rs2 Hlt Hr|id ch ctx r rs2 Ha|dispatch m ok|ok rs2 Hf| |reason].
  - unfold OnChatMessage in Hc. destruct (marshal _) as [payload|]; [|by injection Hc as <- <-].
    destruct (emit rs _) as [rs3|] eqn:He; [|done]. injection Hc as <- <-.
    apply emit_frame in He as (E1 & E2 & _). by eapply reg_ok_same.
  - by destruct (OnConnectionRequest_spec rs fromAddr r rs2 Hok Hlt Hr).
  - unfold await_decision in Ha. destruct ctx.
    + injection Ha as <- <-. apply reg_ok_pending; [done|apply take_ok, Hok|]. intros id'. apply take_table.
    + pose proof (receive_ok (rs_pending rs) ch (rk_pending rs Hok)) as Hp. pose proof (receive_table (rs_pending rs) ch) as Ht.
      destruct (receive _ _) as [[d|] p]; [|done]. injection Ha as <- <-. cbn [snd] in *. apply reg_ok_pending; [done|done|].
      intros id'. by rewrite Ht.
  - assert (forall e, reg_ok (sendError rs e ok)) as Hse.
    { intros e. destruct (send_frame rs (MsgError e) ok). by eapply reg_ok_same. }
    destruct m as [|m|m|m|]; cbn [runAction]; try apply Hse.
    + unfold handleSend. go_cases; try apply Hse; done.
    + unfold handleAccept. destruct m as [[|c s]|]; [apply Hse| |apply Hse]. by apply decide_request_spec.
    + unfold handleReject. destruct m as [[[|c s] reason]|]; [apply Hse| |apply Hse]. by apply decide_request_spec.
  - unfold forward_one in Hf. destruct (Chan.try_recv _) as [[ev c]|]; [|done]. injection Hf as <-.
    destruct (send_frame (set_events rs c (rs_dropCount rs)) ev ok) as [E1 E2]. eapply reg_ok_same; [exact Hok| |]; [by rewrite E1|by rewrite E2].
  - by eapply reg_ok_same.
  - destruct (dropAll_spec (rs_pending rs) reason (rk_pending rs Hok)) as (Hp & Ht & _). apply reg_ok_pending; [done|done|].
    rewrite Ht. by intros id [].
Qed.

Lemma reg_reachable rs : star reg_step newStream rs -> reg_ok rs.
Proof.
  intros Hr. eapply (star_invariant reg_step reg_ok); [|exact Hr|apply newStream_ok]. intros s s'. apply reg_step_ok.
Qed.

(** C26. Decisions reach the request they name.  In every state a stream can get into: a new
    request gets an identifier no waiting request has, and an empty channel of its own; when
    the client accepts or rejects a waiting request, exactly that handler then reads the
    decision, the request leaves the table and no error is reported (the branch for a request
    already decided is never taken); for any other identifier nothing changes but for the
    error sent to the client. *)
Theorem decisions_reach_requests rs (Hreach : star reg_step newStream rs) :
  (forall fromAddr id ch rs', rs_idN rs + 1 < 2 ^ 64 -> OnConnectionRequest rs fromAddr = Some (Ok (id, ch), rs') ->
     p_table (rs_pending rs) !! id = None /\ p_table (rs_pending rs') = <[id := ch]> (p_table (rs_pending rs)) /\
     p_chans (rs_pending rs') = p_chans (rs_pending rs) ++ [Chan.make 1] /\ await_decision rs' id ch false = None) /\
  (forall id ch d ok, p_table (rs_pending rs) !! id = Some ch ->
     let rs' := decide_request rs id d ok in
     (exists rs2, await_decision rs' id ch false = Some (Ok (dec_Accepted d), rs2)) /\
     rs_sent rs' = rs_sent rs /\ p_table (rs_pending rs') = delete id (p_table (rs_pending rs)) /\
     forall ch', ch' <> ch -> p_chans (rs_pending rs') !! ch' = p_chans (rs_pending rs) !! ch') /\
  (forall id d ok, p_table (rs_pending rs) !! id = None ->
     decide_request rs id d ok = sendError rs (ErrNoRequest id) ok) /\
  (forall reason id ch, p_table (rs_pending rs) !! id = Some ch ->
     exists rs2, await_decision (set_pending rs (dropAll (rs_pending rs) reason)) id ch false = Some (Ok false, rs2)).
Proof.
  apply reg_reachable in Hreach as Hok. split_and!.
  - intros fromAddr id ch rs' Hlt Hr. destruct (OnConnectionRequest_spec rs fromAddr _ rs' Hok Hlt Hr) as (_ & Hf & -> & Ht & Hc).
    split_and!; [done..|]. unfold await_decision, receive. rewrite Hc, lookup_app_r, Nat.sub_diag by lia. done.
  - intros id ch d ok Hid rs'. destruct (decide_request_spec rs id d ok Hok) as [_ Hd]. rewrite Hid in Hd.
    fold rs' in Hd. destruct Hd as (Hs & Ht & Hc).
    assert ((ch < length (p_chans (rs_pending rs)))%nat) as Hlt.
    { destruct (po_fresh _ (rk_pending rs Hok) id ch Hid) as (c & Hcc & _). by eapply lookup_lt_Some. }
    split_and!; [|done|done|].
    + unfold await_decision, receive. rewrite Hc, list_lookup_insert_eq by done. by eexists.
    + intros ch' Hne. rewrite Hc. by apply list_lookup_insert_ne.
  - intros id d ok Hid. destruct (decide_request_spec rs id d ok Hok) as [_ Hd]. by rewrite Hid in Hd.
  - intros reason id ch Hid. destruct (dropAll_spec (rs_pending rs) reason (rk_pending rs Hok)) as (_ & _ & Hc).
    unfold await_decision, receive. cbn [set_pending rs_pending]. rewrite (Hc id ch Hid). by eexists.
Qed.

(** ** The queue *)

Definition emit_all (rs : registerStream) (evs : list ServerMessage) : option registerStream :=
  fold_left (fun rs ev => rs ← rs; emit rs ev) evs (Some rs).

Lemma emit_spec rs ev : Chan.closed (rs_events rs) = false -> Chan.cap (rs_events rs) = eventQueueSize ->
  (length (Chan.buf (rs_events rs)) <= eventQueueSize)%nat ->
  emit rs ev = Some (set_events rs (Chan.mk eventQueueSize (last_n eventQueueSize (Chan.buf (rs_events rs) ++ [ev])) false)
    (rs_dropCount rs + if bool_decide (length (Chan.buf (rs_events rs)) = eventQueueSize) then 1 else 0)).
Proof.
  intros Hcl Hcap Hlen. unfold emit. cbn [emit_loop]. unfold Chan.try_send at 1. rewrite Hcl, Hcap.
  destruct (Nat.ltb_spec (length (Chan.buf (rs_events rs))) eventQueueSize) as [Hlt|Hge].
  - rewrite bool_decide_eq_false_2 by lia. rewrite last_n_all by (rewrite length_app; cbn; lia).
    by rewrite Z.add_0_r.
  - rewrite bool_decide_eq_true_2 by lia. unfold Chan.try_recv. destruct (Chan.buf (rs_events rs)) as [|x l] eqn:Hb.
    { cbn in Hge. unfold eventQueueSize in Hge. lia. }
    cbn [length] in *. unfold Chan.try_send. cbn [rs_events set_events Chan.closed Chan.cap Chan.buf]. rewrite Hcl, Hcap.
    destruct (Nat.ltb_spec (length l) eventQueueSize); [|lia].
    assert (last_n eventQueueSize ((x :: l) ++ [ev]) = l ++ [ev]) as ->; [|done].
    change eventQueueSize with (S 255) in *. rewrite last_n_snoc. f_equal.
    unfold last_n. cbn [length]. by replace (S (length l) - 255)%nat with 1%nat by lia.
Qed.

(** The action loop is a run of actions. *)
Lemma runActions_steps dispatch ctxDone rs evs : star reg_step rs (runActions dispatch ctxDone rs evs).2.
Proof.
  revert rs. induction evs as [|[m ok| |] evs IH]; intros rs; cbn [runActions snd]; try apply star_refl.
  eapply star_step; [apply (reg_action rs dispatch m ok)|apply IH].
Qed.

(** A forwarder whose sends succeed empties the queue. *)
Lemma forwardEvents_all rs n : (length (Chan.buf (rs_events rs)) <= n)%nat ->
  let rs' := forwardEvents (replicate n true) rs in
  rs_sent rs' = rs_sent rs ++ Chan.buf (rs_events rs) /\ Chan.buf (rs_events rs') = [].
Proof.
  cbn zeta. revert rs. induction n as [|n IH]; intros rs Hn.
  { destruct (Chan.buf (rs_events rs)) eqn:Hb; [|cbn in Hn; lia]. cbn. by rewrite app_nil_r, Hb. }
  cbn [replicate forwardEvents]. unfold forward_one, Chan.try_recv. destruct (Chan.buf (rs_events rs)) as [|x l] eqn:Hb.
  { by rewrite app_nil_r, Hb. }
  cbn [length] in Hn. destruct (IH (send (set_events rs (Chan.mk (Chan.cap (rs_events rs)) l (Chan.closed (rs_events rs))) (rs_dropCount rs)) x true))
    as [-> ->]; [cbn; lia|]. cbn. by rewrite <- app_assoc.
Qed.

End claims.

(** ** The manifest *)

Section manifest.
Context `{Ripemd160, Base58}.

Lemma validateManifest_spec m : validateManifest (Some m) = Ok tt <->
  sm_Name m <> ""%string /\ 0 <= sm_Acl m <= 2 /\ (sm_Acl m = 2 -> Forall (fun a => Validate a = true) (sm_Allowlist m)).
Proof.
  unfold validateManifest. case_bool_decide; cbn [negb]; [split; [done|by intros [? _]]|].
  destruct (Z.leb_spec 0 (sm_Acl m)), (Z.leb_spec (sm_Acl m) 2); cbn [andb]; try (split; [done|lia]).
  destruct (Z.eqb_spec (sm_Acl m) 2) as [Ha|Ha]; [|by split_and!].
  destruct (find_index _ _) as [i|] eqn:Hi.
  - split; [done|]. intros (_ & _ & Hall). specialize (Hall Ha). apply find_index_Some in Hi as (x & Hx & Hv & _).
    rewrite Forall_lookup in Hall. by rewrite (Hall i x Hx) in Hv.
  - split; [|done]. intros _. split_and!; [done..|]. intros _. apply Forall_forall. intros x Hx.
    pose proof (proj1 (find_index_None _ _) Hi x Hx) as Hv. by apply negb_false_iff in Hv.
Qed.
End manifest.

(** ** Examples *)
Section samples.
Import Toy.

#[local] Instance proto_ChatEvent : Proto ServiceChatMessageEvent := {
  marshal m := ts ← of_int (ce_Ts m); encode_fields [of_str (ce_FromAddr m); of_str (ce_Text m); ts];
  unmarshal b := None }.
#[local] Instance proto_ConnEvent : Proto ServiceConnectionRequestEvent := {
  marshal m := encode_fields [of_str (cr_RequestId m); of_str (cr_FromAddr m)];
  unmarshal b := None }.

(** Two requests of the same peer. *)
Definition one_request : registerStream := default newStream ((OnConnectionRequest newStream "Eada") ≫= fun p => Some p.2).
Definition two_requests : registerStream := default newStream ((OnConnectionRequest one_request "Eada") ≫= fun p => Some p.2).

Lemma two_requests_reachable : star reg_step newStream two_requests.
Proof.
  eapply star_step; [apply (reg_request newStream "Eada" (Ok ("Eada-1"%string, 0%nat)) one_request); [done|by vm_compute]|].
  eapply star_step; [apply (reg_request one_request "Eada" (Ok ("Eada-2"%string, 1%nat)) two_requests); [done|by vm_compute]|].
  apply star_refl.
Qed.

Lemma decisions_reach_requests_witness :
  p_table (rs_pending two_requests) !! "Eada-1"%string = Some 0%nat /\
  rs_sent (decide_request two_requests "Eada-1" (mkDecision true "") true) = [] /\
  decide_request two_requests "Eada-3" (mkDecision true "") true = sendError two_requests (ErrNoRequest "Eada-3") true.
Proof.
  destruct (decisions_reach_requests two_requests two_requests_reachable) as (_ & Hd & Hn & _).
  assert (p_table (rs_pending two_requests) !! "Eada-1"%string = Some 0%nat) as Ht by (vm_compute; reflexivity).
  split; [exact Ht|]. split.
  - destruct (Hd "Eada-1"%string 0%nat (mkDecision true "") true Ht) as (_ & -> & _). vm_compute. reflexivity.
  - apply Hn. vm_compute. reflexivity.
Defined.

Definition chat_payload : bytes := default [] (marshal (mkChatEvent "Eada" "hi" 0)).
Lemma chat_event_marshals : marshal (mkChatEvent "Eada" "hi" (GoTime.UnixMilli 0)) = Some chat_payload.
Proof. vm_compute. reflexivity. Qed.

End samples.
