(* ===== verification/Discovery.v ===== *)
(** * internal/discovery: the manager and mDNS

    manager.go and mdns.go: one channel of discovered peers, lookups on the local network
    with a fallback to the DHT, and the upkeep of the routing table.  The zeroconf library
    is what reports peers: [peer_found] is its report. *)

From S2P Require Import Prelude GoStd Sha256 Crypto Protocol Instances Services Routing Dht ApiAuth RegisterService.
Local Open Scope go_scope.

(** ** mdns.go *)

(** The text records read so far: the last address and onion win. *)
(** src: internal/discovery/mdns.go 132-140 MDNSDiscovery.entryToPeer *)
Definition read_txt (s : string * string) (txt : string) : string * string :=
  let '(addr, onion) := s in
  let addr := match CutPrefix txt "addr=" with Some v => v | None => addr end in
  let onion := match CutPrefix txt "onion=" with Some v => v | None => onion end in
  (addr, onion).

(** [entry]: the text records of an entry, [None] for a nil entry. *)
(** src: internal/discovery/mdns.go 127-162 MDNSDiscovery.entryToPeer *)
Definition entryToPeer `{Base58} (localAddr : string) (entry : option (list string)) (now : Z) : option PeerInfo :=
  match entry with
  | None => None
  | Some text =>
      let '(addr, onion) := fold_left read_txt text (""%string, ""%string) in
      if bool_decide (addr = ""%string) || bool_decide (onion = ""%string) then None
      else if bool_decide (addr = localAddr) then None
      else nodeID ← NodeIDFromAddress addr; Some (mkPeer nodeID addr onion now 0)
  end.

(** Only addresses that parse are announced, under their own identifier, and never ours. *)
Lemma entryToPeer_spec `{Base58} localAddr entry now p : entryToPeer localAddr entry now = Some p ->
  NodeIDFromAddress (p_Address p) = Some (p_ID p) /\ p_Address p <> localAddr /\
  p_Address p <> ""%string /\ p_OnionAddr p <> ""%string.
Proof.
  unfold entryToPeer. destruct entry as [text|]; [|done]. destruct (fold_left _ _ _) as [addr onion].
  do 2 (case_bool_decide; [done|]). cbn [orb]. case_bool_decide; [done|].
  intros (id & Hid & [= <-])%bind_Some. done.
Qed.

(** What [Start] announces. *)
(** src: internal/discovery/mdns.go 47-51 MDNSDiscovery.Start *)
Definition announcement (localAddr onionAddr : string) : list string := [("addr=" +:+ localAddr)%string; ("onion=" +:+ onionAddr)%string].

(** src: internal/discovery/mdns.go 165-169 ParseMDNSEntry *)
Definition ParseMDNSEntry `{Base58} (localAddr : string) (txtRecords : list string) (now : Z) : option PeerInfo :=
  entryToPeer localAddr (Some txtRecords) now.

(** One node reads what another announces. *)
Lemma announcement_read `{Base58} localAddr addr onion id now :
  NodeIDFromAddress addr = Some id -> addr <> localAddr -> addr <> ""%string -> onion <> ""%string ->
  ParseMDNSEntry localAddr (announcement addr onion) now = Some (mkPeer id addr onion now 0).
Proof.
  intros Hid Hne Ha Ho. unfold ParseMDNSEntry, entryToPeer, announcement. cbn [fold_left]. unfold read_txt.
  rewrite (CutPrefix_app "addr=" addr). assert (CutPrefix ("addr=" +:+ addr) "onion=" = None) as -> by done.
  assert (CutPrefix ("onion=" +:+ onion) "addr=" = None) as -> by done. rewrite (CutPrefix_app "onion=" onion).
  rewrite !bool_decide_eq_false_2 by done. cbn [orb]. by rewrite Hid.
Qed.

(** ** manager.go *)

(** The callback of the mDNS backend: the general one, or that of a [FindPeer] with its
    address and its result channel. *)
Inductive callback := General | Searching (addr : string) (ch : nat).

(** src: internal/discovery/manager.go 11-23 peerChanBuffer, DefaultRTMaxAge *)
Definition peerChanBuffer : nat := 64.
Definition DefaultRTMaxAge : Z := 168 * GoTime.Hour.

(** [mg_callback] is [None] without an mDNS backend; [mg_results] are the result channels of
    the searches, each of one place; [mg_file] is the file at [rtPath]. *)
(** src: internal/discovery/manager.go 27-37 Manager *)
Record Manager := mkManager {
  mg_dht : option DHT;
  mg_callback : option callback;
  mg_peerCh : Chan.t PeerInfo;
  mg_seen : gmap string bool;
  mg_rtPath : string;
  mg_rtMaxAge : Z;
  mg_results : list (Chan.t PeerInfo);
  mg_file : file_state
}.

(** src: internal/discovery/manager.go 41-58 NewManager *)
Definition NewManager (dht : option DHT) (mdns : bool) (file : file_state) : Manager :=
  mkManager dht (if mdns then Some General else None) (Chan.make peerChanBuffer) ∅ "" DefaultRTMaxAge [] file.

Definition set_dht (m : Manager) (d : DHT) : Manager :=
  mkManager (Some d) (mg_callback m) (mg_peerCh m) (mg_seen m) (mg_rtPath m) (mg_rtMaxAge m) (mg_results m) (mg_file m).
Definition set_file (m : Manager) (f : file_state) : Manager :=
  mkManager (mg_dht m) (mg_callback m) (mg_peerCh m) (mg_seen m) (mg_rtPath m) (mg_rtMaxAge m) (mg_results m) f.
Definition set_search (m : Manager) (cb : option callback) (res : list (Chan.t PeerInfo)) : Manager :=
  mkManager (mg_dht m) cb (mg_peerCh m) (mg_seen m) (mg_rtPath m) (mg_rtMaxAge m) res (mg_file m).
Definition set_peers (m : Manager) (ch : Chan.t PeerInfo) (seen : gmap string bool) : Manager :=
  mkManager (mg_dht m) (mg_callback m) ch seen (mg_rtPath m) (mg_rtMaxAge m) (mg_results m) (mg_file m).

(** src: internal/discovery/manager.go 259-273 Manager.emitIfNew *)
Definition emitIfNew (m : Manager) (p : PeerInfo) : Manager :=
  if default false (mg_seen m !! p_Address p) then m
  else
    let seen := <[p_Address p := true]> (mg_seen m) in
    match Chan.try_send (mg_peerCh m) p with
    | Chan.Sent ch => set_peers m ch seen
    | _ => set_peers m (mg_peerCh m) seen
    end.

(** A consumer of [PeerChan]. *)
(** src: internal/discovery/manager.go 117-119 Manager.PeerChan *)
Definition receive_peer (m : Manager) : option PeerInfo * Manager :=
  match Chan.try_recv (mg_peerCh m) with
  | Some (p, ch) => (Some p, set_peers m ch (mg_seen m))
  | None => (None, m)
  end.

(** A peer is reported: the callback runs. *)
(** src: internal/discovery/manager.go 82-91 Manager.FindPeer *)
Definition peer_found (m : Manager) (p : PeerInfo) : Manager :=
  match mg_callback m with
  | None => m
  | Some General => emitIfNew m p
  | Some (Searching addr ch) =>
      let m := if bool_decide (p_Address p = addr) then
                 match c ← mg_results m !! ch; Some (Chan.try_send c p) with
                 | Some (Chan.Sent c) => set_search m (mg_callback m) (<[ch := c]> (mg_results m))
                 | _ => m
                 end
               else m in
      emitIfNew m p
  end.

(** [FindPeer] installs its callback. *)
(** src: internal/discovery/manager.go 80-91 Manager.FindPeer *)
Definition start_search (m : Manager) (addr : string) : nat * Manager :=
  let ch := length (mg_results m) in
  (ch, set_search m (Some (Searching addr ch)) (mg_results m ++ [Chan.make 1])).

(** The wait, with the peers reported during it. *)
(** src: internal/discovery/manager.go 93-100 Manager.FindPeer *)
Fixpoint await_peer (m : Manager) (ch : nat) (heard : list PeerInfo) : option PeerInfo * Manager :=
  match c ← mg_results m !! ch; Chan.try_recv c with
  | Some (p, c) => (Some p, set_search m (mg_callback m) (<[ch := c]> (mg_results m)))
  | None => match heard with
            | [] => (None, m)
            | p :: heard => await_peer (peer_found m p) ch heard
            end
  end.

Inductive find_err := ErrFindCtx | ErrNoBackend | ErrLookup (e : dht_err).

Section manager.
Context `{Proto DHTFindNode, Proto DHTNodeResponse, Proto DHTPutRecord, Base58}.

(** The DHT's answer, when there is one. *)
Definition dht_lookup (m : Manager) (addr : string) (now : Z) (net : nat -> dialed) (clock : nat -> Z)
    (ctxDone : nat -> bool) : result find_err PeerInfo * Manager :=
  match mg_dht m with
  | None => (Err ErrNoBackend, m)
  | Some d =>
      let '(r, st) := Lookup_ d addr now net clock ctxDone in
      (match r with Ok p => Ok p | Err e => Err (ErrLookup e) end, set_dht m (set_rt d (lk_rt st)))
  end.

(** [heard]: the peers mDNS reports during the wait; [ctxEnds]: the context ends before the
    three seconds do.  The callback is put back only after a timeout. *)
(** src: internal/discovery/manager.go 78-114 Manager.FindPeer *)
Definition FindPeer (m : Manager) (addr : string) (heard : list PeerInfo) (ctxEnds : bool)
    (now : Z) (net : nat -> dialed) (clock : nat -> Z) (ctxDone : nat -> bool) : result find_err PeerInfo * Manager :=
  match mg_callback m with
  | None => dht_lookup m addr now net clock ctxDone
  | Some _ =>
      let '(ch, m) := start_search m addr in
      match await_peer m ch heard with
      | (Some p, m) => (Ok p, m)
      | (None, m) =>
          if ctxEnds then (Err ErrFindCtx, m)
          else dht_lookup (set_search m (Some General) (mg_results m)) addr now net clock ctxDone
      end
  end.

(** ** The routing table *)

Context (utf8 : string -> string).

(** src: internal/discovery/manager.go 138-145 Manager.AddNode *)
Definition save_table (m : Manager) (d : DHT) (disk_ok : bool) : Manager :=
  if bool_decide (mg_rtPath m = ""%string) then m else set_file m (Save utf8 (d_rt d) disk_ok (mg_file m)).2.

Inductive node_err := ErrNoDHT | ErrBootstrap (e : dht_err).

(** src: internal/discovery/manager.go 123-148 Manager.AddNode *)
Definition AddNode (m : Manager) (now : Z) (seed : dialed) (net : nat -> dialed) (disk_ok : bool) :
    result node_err nat * Manager :=
  match mg_dht m with
  | None => (Err ErrNoDHT, m)
  | Some d =>
      match Bootstrap d now seed with
      | (Err e, d) => (Err (ErrBootstrap e), set_dht m d)
      | (Ok n, d) =>
          let '(_, d) := Announce d now net in
          (Ok n, save_table (set_dht m d) d disk_ok)
      end
  end.

(** src: internal/discovery/manager.go 151-156 Manager.RTSize *)
Definition RTSize (m : Manager) : nat := match mg_dht m with None => O | Some d => Size_ (d_rt d) end.

(** src: internal/discovery/manager.go 159-164 Manager.ListPeers *)
Definition ListPeers (m : Manager) : list PeerInfo := match mg_dht m with None => [] | Some d => AllPeers (d_rt d) end.

(** src: internal/discovery/manager.go 167-171 Manager.SetRTPath *)
Definition SetRTPath (m : Manager) (path : string) : Manager :=
  mkManager (mg_dht m) (mg_callback m) (mg_peerCh m) (mg_seen m) path (mg_rtMaxAge m) (mg_results m) (mg_file m).

(** src: internal/discovery/manager.go 176-185 Manager.AddLocalIdentity *)
Definition mg_AddLocalIdentity (m : Manager) (now : Z) (addr onion : string) : bool * Manager :=
  match mg_dht m with
  | None => (false, m)
  | Some d => let '(ok, d) := dht_AddLocalIdentity now d addr onion in (ok, set_dht m d)
  end.

(** src: internal/discovery/manager.go 189-196 Manager.RemoveLocalIdentity *)
Definition mg_RemoveLocalIdentity (m : Manager) (addr : string) : Manager :=
  match mg_dht m with None => m | Some d => set_dht m (dht_RemoveLocalIdentity d addr).2 end.

(** src: internal/discovery/manager.go 201-205 Manager.SetRTMaxAge *)
Definition SetRTMaxAge (m : Manager) (d : Z) : Manager :=
  mkManager (mg_dht m) (mg_callback m) (mg_peerCh m) (mg_seen m) (mg_rtPath m) d (mg_results m) (mg_file m).

(** src: internal/discovery/manager.go 210-221 Manager.EvictStale *)
Definition EvictStale (m : Manager) (now : Z) : nat * Manager :=
  match mg_dht m with
  | None => (O, m)
  | Some d =>
      if mg_rtMaxAge m <=? 0 then (O, m)
      else let '(n, rt) := Evict (d_rt d) (mg_rtMaxAge m) now in (n, set_dht m (set_rt d rt))
  end.

(** A tick of the loop; [None]: without a DHT the call of [Announce] panics. *)
(** src: internal/discovery/manager.go 233-254 Manager.StartAnnounceLoop *)
Definition announce_tick (m : Manager) (now : Z) (net : nat -> dialed) (disk_ok : bool) : option Manager :=
  let '(_, m) := EvictStale m now in
  match mg_dht m with
  | None => None
  | Some d => let '(_, d) := Announce d now net in Some (save_table (set_dht m d) d disk_ok)
  end.
End manager.

(** ** Peers are announced once *)

(** The part of the state [emitIfNew] works on. *)
Definition same_emitted (m1 m2 : Manager) : Prop := mg_peerCh m1 = mg_peerCh m2 /\ mg_seen m1 = mg_seen m2.
#[export] Instance same_emitted_equiv : Equivalence same_emitted.
Proof. split; [by intros m|by intros m1 m2 []|]. intros m1 m2 m3 [E1 E2] [E3 E4]. split; congruence. Qed.

#[export] Instance emitIfNew_proper : Proper (same_emitted ==> eq ==> same_emitted) emitIfNew.
Proof.
  intros m1 m2 [Hc Hs] p ? <-. unfold emitIfNew. rewrite Hs, Hc.
  destruct (default false _); [done|]. by destruct (Chan.try_send _ _).
Qed.

#[export] Instance emit_all_proper : Proper (same_emitted ==> eq ==> same_emitted) (fun m l => fold_left emitIfNew l m).
Proof.
  intros m1 m2 Hm l ? <-. revert m1 m2 Hm. induction l as [|p l IH]; intros m1 m2 Hm; [done|].
  cbn [fold_left]. apply IH. by rewrite Hm.
Qed.

(** Whichever callback is installed, the peer goes to the common channel in the same way. *)
Lemma peer_found_emits m p : mg_callback m <> None -> same_emitted (peer_found m p) (emitIfNew m p).
Proof.
  intros Hcb. unfold peer_found. destruct (mg_callback m) as [[|addr ch]|] eqn:E; [done| |done].
  apply emitIfNew_proper; [|done]. case_bool_decide; [|done].
  destruct (mg_results m !! ch) as [c|]; [|done]. cbn [mbind option_bind]. by destruct (Chan.try_send c p).
Qed.

Inductive peer_op := Found (p : PeerInfo) | TakePeer.

(** What the consumer has received after the operations. *)
Fixpoint peer_run (m : Manager) (ops : list peer_op) (got : list PeerInfo) : Manager * list PeerInfo :=
  match ops with
  | [] => (m, got)
  | Found p :: ops => peer_run (emitIfNew m p) ops got
  | TakePeer :: ops =>
      match receive_peer m with
      | (Some p, m) => peer_run m ops (got ++ [p])
      | (None, m) => peer_run m ops got
      end
  end.

(** What was announced: received, or still in the channel. *)
Definition announced_addrs (m : Manager) (got : list PeerInfo) : list string :=
  p_Address <$> got ++ Chan.buf (mg_peerCh m).

Record emit_inv (m : Manager) (got : list PeerInfo) : Prop := {
  ei_open : Chan.closed (mg_peerCh m) = false;
  ei_nodup : NoDup (announced_addrs m got);
  ei_seen a : a ∈ announced_addrs m got -> mg_seen m !! a = Some true
}.

Lemma emit_inv_found m got p : emit_inv m got -> emit_inv (emitIfNew m p) got.
Proof.
  intros [Ho Hn Hs]. unfold emitIfNew. destruct (default false (mg_seen m !! p_Address p)) eqn:Hseen; [done|].
  assert (not (p_Address p ∈ announced_addrs m got)) as Hnew by (intros Hin%Hs; by rewrite Hin in Hseen).
  assert (forall a, mg_seen m !! a = Some true -> <[p_Address p := true]> (mg_seen m) !! a = Some true) as Hmono.
  { intros a Ha. destruct (decide (a = p_Address p)) as [->|]; [apply lookup_insert_eq|by rewrite lookup_insert_ne]. }
  unfold Chan.try_send. rewrite Ho. destruct (_ <? _)%nat; split; cbn; auto.
  - unfold announced_addrs in *. cbn. rewrite app_assoc, fmap_app. apply NoDup_app. split_and!; [done| |apply NoDup_singleton].
    intros a Ha ->%list_elem_of_singleton. done.
  - unfold announced_addrs in *. cbn. rewrite app_assoc, fmap_app. intros a [Ha| ->%list_elem_of_singleton]%elem_of_app; [auto|].
    apply lookup_insert_eq.
Qed.

Lemma emit_inv_take m got : emit_inv m got ->
  match receive_peer m with
  | (Some p, m') => emit_inv m' (got ++ [p]) /\ announced_addrs m' (got ++ [p]) = announced_addrs m got
  | (None, m') => m' = m
  end /\ mg_seen (receive_peer m).2 = mg_seen m.
Proof.
  intros [Ho Hn Hs]. unfold receive_peer, Chan.try_recv. destruct (Chan.buf (mg_peerCh m)) as [|p l] eqn:Hb; [done|].
  assert (announced_addrs (set_peers m (Chan.mk (Chan.cap (mg_peerCh m)) l (Chan.closed (mg_peerCh m))) (mg_seen m)) (got ++ [p])
    = announced_addrs m got) as Heq by (unfold announced_addrs; cbn; by rewrite Hb, <- app_assoc).
  split; [|done]. split; [|done]. split; [done| |]; rewrite Heq; done.
Qed.

(** An address that was seen and not announced stays out. *)
Lemma dropped_stays a ops : forall m got, emit_inv m got -> mg_seen m !! a = Some true ->
  not (a ∈ announced_addrs m got) -> not (a ∈ (p_Address <$> (peer_run m ops got).2)).
Proof.
  induction ops as [|[p|] ops IH]; intros m got Hinv Hseen Hout; cbn [peer_run].
  - cbn. intros Hin. apply Hout. unfold announced_addrs. rewrite fmap_app. apply elem_of_app. by left.
  - apply IH; [by apply emit_inv_found| |].
    + unfold emitIfNew. destruct (default false _) eqn:Hd; [done|].
      assert (<[p_Address p := true]> (mg_seen m) !! a = Some true) as Ha.
      { destruct (decide (a = p_Address p)) as [->|]; [apply lookup_insert_eq|by rewrite lookup_insert_ne]. }
      by destruct (Chan.try_send _ _).
    + unfold emitIfNew. destruct (default false _) eqn:Hd; [done|].
      assert (a <> p_Address p) as Hne by (intros ->; by rewrite Hseen in Hd).
      unfold Chan.try_send. rewrite (ei_open m got Hinv). destruct (_ <? _)%nat; [|done].
      unfold announced_addrs in *. cbn. rewrite app_assoc, fmap_app. intros [Hin|Hin%list_elem_of_singleton]%elem_of_app; done.
  - pose proof (emit_inv_take m got Hinv) as [Ht Hsn]. destruct (receive_peer m) as [[p|] m'].
    + destruct Ht as [Hinv' Heq]. apply IH; [done|cbn in Hsn; by rewrite Hsn|by rewrite Heq].
    + subst m'. by apply IH.
Qed.

Lemma peer_run_inv ops : forall m got, emit_inv m got -> emit_inv (peer_run m ops got).1 (peer_run m ops got).2.
Proof.
  induction ops as [|[p|] ops IH]; intros m got Hinv; cbn [peer_run]; [done|by apply IH, emit_inv_found|].
  pose proof (emit_inv_take m got Hinv) as [Ht _]. destruct (receive_peer m) as [[p|] m'].
  - apply IH, Ht.
  - subst m'. by apply IH.
Qed.

Lemma peer_run_app ops1 ops2 m got :
  peer_run m (ops1 ++ ops2) got = peer_run (peer_run m ops1 got).1 ops2 (peer_run m ops1 got).2.
Proof.
  revert m got. induction ops1 as [|[p|] ops1 IH]; intros m got; cbn [peer_run app]; [done|apply IH|].
  destruct (receive_peer m) as [[p|] m']; apply IH.
Qed.

Lemma new_manager_inv dht mdns file : emit_inv (NewManager dht mdns file) [].
Proof. split; [done|constructor|by intros a ?%elem_of_nil]. Qed.

(** The channel of discovered peers: whatever is found and whenever the consumer reads, it
    receives each address at most once.  But a peer that is found for the first time while the
    channel is full is lost for good: it is marked as seen, nothing makes room for it, and it
    is never received however often it is found again. *)
Theorem peer_channel_contract dht mdns file ops1 p ops2 :
  let m1 := (peer_run (NewManager dht mdns file) ops1 []).1 in
  let got := (peer_run (NewManager dht mdns file) (ops1 ++ Found p :: ops2) []).2 in
  NoDup (p_Address <$> got) /\
  (Chan.cap (mg_peerCh m1) <= length (Chan.buf (mg_peerCh m1)) -> mg_seen m1 !! p_Address p = None ->
     not (p_Address p ∈ (p_Address <$> got)))%nat.
Proof.
  intros m1 got. pose proof (new_manager_inv dht mdns file) as H0. split.
  - pose proof (ei_nodup _ _ (peer_run_inv (ops1 ++ Found p :: ops2) _ _ H0)) as Hn.
    unfold announced_addrs in Hn. rewrite fmap_app in Hn. by apply NoDup_app in Hn as [Hn _].
  - intros Hfull Hnew. unfold got. rewrite peer_run_app. cbn [peer_run].
    pose proof (peer_run_inv ops1 _ _ H0) as H1. fold m1 in H1 |- *.
    set (got1 := (peer_run (NewManager dht mdns file) ops1 []).2) in *.
    apply dropped_stays; [by apply emit_inv_found| |].
    + unfold emitIfNew. rewrite Hnew. cbn [default]. destruct (Chan.try_send _ _); apply lookup_insert_eq.
    + unfold emitIfNew. rewrite Hnew. cbn [default]. unfold Chan.try_send. rewrite (ei_open _ _ H1).
      destruct (Nat.ltb_spec (length (Chan.buf (mg_peerCh m1))) (Chan.cap (mg_peerCh m1))); [lia|].
      intros Hin%(ei_seen _ _ H1). change (id (mg_seen m1 !! p_Address p) = Some true) in Hin. unfold id in Hin. congruence.
Qed.

(** ** Searching *)

(** The peers reported until the search is over. *)
Fixpoint heard_upto (addr : string) (heard : list PeerInfo) : list PeerInfo :=
  match heard with
  | [] => []
  | p :: heard => p :: if has_address addr p then [] else heard_upto addr heard
  end.

Lemma await_peer_spec addr ch heard : forall m,
  mg_callback m = Some (Searching addr ch) -> mg_results m !! ch = Some (Chan.make 1) ->
  let '(o, m') := await_peer m ch heard in
  o = find (has_address addr) heard /\ mg_callback m' = mg_callback m /\ mg_dht m' = mg_dht m /\
  same_emitted m' (fold_left emitIfNew (heard_upto addr heard) m).
Proof.
  induction heard as [|p heard IH]; intros m Hcb Hres; cbn [await_peer]; rewrite Hres; cbn [mbind option_bind]; [done|].
  cbn [heard_upto find fold_left Chan.try_recv Chan.make Chan.buf].
  assert (Some (Searching addr ch) <> None) as Hne by done. rewrite <- Hcb in Hne.
  pose proof (peer_found_emits m p Hne) as Hem. clear Hne.
  assert (forall m0, mg_callback (emitIfNew m0 p) = mg_callback m0 /\ mg_results (emitIfNew m0 p) = mg_results m0 /\
    mg_dht (emitIfNew m0 p) = mg_dht m0) as Hfr.
  { intros m0. unfold emitIfNew. destruct (default false _); [done|]. by destruct (Chan.try_send _ _). }
  unfold peer_found in Hem |- *. rewrite Hcb in Hem |- *. change (has_address addr p) with (bool_decide (p_Address p = addr)). case_bool_decide as Hp.
  - rewrite Hres in Hem |- *. cbn [mbind option_bind] in Hem |- *. change (Chan.try_send (Chan.make 1) p) with (Chan.Sent (Chan.mk 1 [p] false)) in *.
    cbv beta iota in Hem |- *. set (m1 := set_search m (Some (Searching addr ch)) (<[ch := Chan.mk 1 [p] false]> (mg_results m))) in *.
    destruct (Hfr m1) as (E1 & E2 & E3).
    assert (mg_results (emitIfNew m1 p) !! ch = Some (Chan.mk 1 [p] false)) as Hr.
    { rewrite E2. apply list_lookup_insert_eq. by eapply lookup_lt_Some. }
    destruct heard; cbn [await_peer]; rewrite Hr; cbn [mbind option_bind Chan.try_recv Chan.buf set_search mg_callback mg_dht];
      (split; [done|]; split; [by rewrite E1|]; split; [by rewrite E3|exact Hem]).
  - destruct (Hfr m) as (E1 & E2 & E3). specialize (IH (emitIfNew m p)). rewrite E1, E2 in IH. specialize (IH Hcb Hres).
    destruct (await_peer (emitIfNew m p) ch heard) as [o m']. destruct IH as (-> & Hcb' & Hd & He).
    split; [done|]. split; [by rewrite Hcb'|]. split; [by rewrite Hd, E3|exact He].
Qed.

Section search.
Context `{Proto DHTFindNode, Proto DHTNodeResponse, Proto DHTPutRecord, Base58}.

(** Finding a peer with a local backend: the first peer of the address that is reported
    during the wait is the answer, unverified and without asking the DHT; when none is and
    the wait times out, the answer is exactly the DHT's.  Every peer reported until then also
    goes to the channel of discovered peers, and the callback a search leaves behind does
    not change what later reports do to that channel. *)
Theorem FindPeer_contract m addr heard ctxEnds now net clock ctxDone (Hmdns : mg_callback m <> None) :
  let '(r, m') := FindPeer m addr heard ctxEnds now net clock ctxDone in
  r = match find (has_address addr) heard with
      | Some p => Ok p
      | None => if ctxEnds then Err ErrFindCtx else (dht_lookup m addr now net clock ctxDone).1
      end /\
  same_emitted m' (fold_left emitIfNew (heard_upto addr heard) m) /\
  (forall p, same_emitted (peer_found m' p) (emitIfNew m' p)) /\
  (find (has_address addr) heard = None -> ctxEnds = false -> mg_callback m' = Some General).
Proof.
  unfold FindPeer. destruct (mg_callback m) as [cb|] eqn:Hcb; [|done]. cbn [start_search].
  set (m1 := set_search m (Some (Searching addr (length (mg_results m)))) (mg_results m ++ [Chan.make 1])).
  assert (mg_results m1 !! length (mg_results m) = Some (Chan.make 1)) as Hr
    by (cbn; by rewrite lookup_app_r, Nat.sub_diag by lia).
  pose proof (await_peer_spec addr (length (mg_results m)) heard m1 eq_refl Hr) as Ha.
  destruct (await_peer m1 (length (mg_results m)) heard) as [o m2]. destruct Ha as (-> & Hcb2 & Hd2 & He).
  assert (same_emitted m2 (fold_left emitIfNew (heard_upto addr heard) m)) as He'.
  { rewrite He. by apply (emit_all_proper m1 m). }
  assert (mg_callback m2 <> None) as Hne by (rewrite Hcb2; done).
  destruct (find (has_address addr) heard) as [p|].
  { split; [done|]. split; [done|]. split; [intros q; by apply peer_found_emits|done]. }
  destruct ctxEnds.
  { split; [done|]. split; [done|]. split; [intros q; by apply peer_found_emits|done]. }
  unfold dht_lookup. cbn [set_search mg_dht]. rewrite Hd2. cbn [set_search mg_dht m1].
  destruct (mg_dht m) as [d|].
  - destruct (Lookup_ d addr now net clock ctxDone) as [r st]. cbn [fst].
    split; [done|]. split; [exact He'|]. split; [intros q; by apply peer_found_emits|done].
  - split; [done|]. split; [exact He'|]. split; [intros q; by apply peer_found_emits|done].
Qed.

Lemma peer_found_search m p addr ch ch' : mg_callback m = Some (Searching addr ch) -> ch' <> ch ->
  mg_results (peer_found m p) !! ch' = mg_results m !! ch' /\ mg_callback (peer_found m p) = mg_callback m.
Proof.
  intros Hcb Hne. unfold peer_found. rewrite Hcb.
  assert (forall m0, mg_callback (emitIfNew m0 p) = mg_callback m0 /\ mg_results (emitIfNew m0 p) = mg_results m0) as Hfr.
  { intros m0. unfold emitIfNew. destruct (default false _); [done|]. by destruct (Chan.try_send _ _). }
  rewrite (proj1 (Hfr _)), (proj2 (Hfr _)). case_bool_decide; [|done].
  destruct (mg_results m !! ch) as [c|]; cbn [mbind option_bind]; [|done]. destruct (Chan.try_send c p); cbn; [|done..].
  by rewrite list_lookup_insert_ne by done.
Qed.

(** Searches share the one callback: when a second [FindPeer] starts while a first one
    waits, the first never hears of its peer, whatever is reported on the local network. *)
Theorem search_replaced m a1 a2 heard (Hmdns : mg_callback m <> None) :
  let '(ch1, m1) := start_search m a1 in
  let '(ch2, m2) := start_search m1 a2 in
  (await_peer m2 ch1 heard).1 = None.
Proof.
  cbn [start_search]. set (m2 := set_search _ _ _).
  assert (mg_results m2 !! length (mg_results m) = Some (Chan.make 1)) as Hr.
  { cbn. rewrite <- app_assoc, lookup_app_r, Nat.sub_diag by lia. done. }
  assert (mg_callback m2 = Some (Searching a2 (S (length (mg_results m))))) as Hcb.
  { cbn. rewrite length_app. cbn. do 2 f_equal. lia. }
  clearbody m2. revert m2 Hr Hcb. induction heard as [|p heard IH]; intros m2 Hr Hcb; cbn [await_peer]; rewrite Hr; [done|].
  cbn [mbind option_bind Chan.try_recv Chan.make Chan.buf].
  destruct (peer_found_search m2 p a2 _ (length (mg_results m)) Hcb ltac:(lia)) as [E1 E2]. apply IH; [by rewrite E1|by rewrite E2].
Qed.

(** ** The table *)

Definition table_ok (m : Manager) : Prop := forall d, mg_dht m = Some d -> rt_ok (d_rt d).

Lemma save_table_dht utf8 m d ok : mg_dht (save_table utf8 m d ok) = mg_dht m.
Proof. unfold save_table. by case_bool_decide. Qed.

(** The upkeep keeps the table in order. *)
Lemma manager_keeps_table utf8 m now seed net disk_ok : table_ok m ->
  table_ok (AddNode utf8 m now seed net disk_ok).2 /\ table_ok (EvictStale m now).2 /\
  forall m', announce_tick utf8 m now net disk_ok = Some m' -> table_ok m'.
Proof.
  intros Hok. assert (table_ok (EvictStale m now).2) as Hev.
  { unfold EvictStale. destruct (mg_dht m) as [d|] eqn:Hd; [|done]. destruct (_ <=? _); [done|].
    pose proof (rt_apply_ok (d_rt d) (OpEvict (mg_rtMaxAge m) now) (Hok d Hd) I) as He.
    cbn [rt_apply] in He. destruct (Evict _ _ _) as [n rt]. cbn [snd] in *. by intros d' [= <-]. }
  split_and!; [|done|].
  - unfold AddNode. destruct (mg_dht m) as [d|] eqn:Hd; [|done].
    pose proof (Bootstrap_ok d now seed (Hok d Hd)) as Hb. destruct (Bootstrap d now seed) as [[n|e] d1]; cbn [snd] in *.
    + pose proof (Announce_ok d1 now net Hb) as Ha. destruct (Announce d1 now net) as [r d2]. intros d' Hd'.
      cbn [snd] in Hd'. rewrite save_table_dht in Hd'. injection Hd' as <-. apply Ha.
    + by intros d' [= <-].
  - intros m' Ht. unfold announce_tick in Ht. destruct (EvictStale m now) as [k m1]. cbn [snd] in Hev.
    destruct (mg_dht m1) as [d|] eqn:Hd; [|done].
    pose proof (Announce_ok d now net (Hev d Hd)) as Ha. destruct (Announce d now net) as [r d2]. injection Ht as <-.
    intros d' Hd'. rewrite save_table_dht in Hd'. injection Hd' as <-. apply Ha.
Qed.
End search.

Section samples.
Import Toy.

Definition lan_manager : Manager := NewManager (Some sample_dht) true NotExist.
Definition sample_found (n : Z) (a : string) : PeerInfo := mkPeer (Routing.sample_id n) a "x.onion" t0 0.

Lemma FindPeer_contract_witness :
  (FindPeer lan_manager "Eb" [sample_found 3 "Ea"; sample_found 4 "Eb"] true t0 sample_net (fun _ => t0) (fun _ => false)).1
    = Ok (sample_found 4 "Eb").
Proof.
  pose proof (FindPeer_contract lan_manager "Eb" [sample_found 3 "Ea"; sample_found 4 "Eb"] true t0 sample_net (fun _ => t0)
    (fun _ => false) ltac:(done)) as Hf.
  destruct (FindPeer lan_manager "Eb" _ _ _ _ _ _) as [r m']. destruct Hf as [-> _]. reflexivity.
Defined.

Lemma search_replaced_witness :
  (await_peer (start_search (start_search lan_manager "Ea").2 "Eb").2 0 [sample_found 3 "Ea"]).1 = None.
Proof. exact (search_replaced lan_manager "Ea" "Eb" [sample_found 3 "Ea"] ltac:(done)). Defined.

(** Sixty-four peers nobody reads, and one more. *)
Definition crowd : list peer_op := (fun n => Found (sample_found 3 (FormatUint (Z.of_nat n)))) <$> seq 0 64.

Lemma peer_channel_contract_witness :
  let got := (peer_run lan_manager (crowd ++ Found (sample_found 5 "Ez") :: replicate 65 TakePeer ++ [Found (sample_found 5 "Ez"); TakePeer]) []).2 in
  length got = 64%nat /\ not ("Ez"%string ∈ (p_Address <$> got)).
Proof.
  intros got. split; [vm_compute; reflexivity|].
  apply (proj2 (peer_channel_contract (Some sample_dht) true NotExist crowd (sample_found 5 "Ez")
    (replicate 65 TakePeer ++ [Found (sample_found 5 "Ez"); TakePeer]))).
  - vm_compute. lia.
  - vm_compute. reflexivity.
Defined.
End samples.
