(* ===== verification/Contacts.v ===== *)
(** * internal/contacts: the contact store and its file *)

From S2P Require Import Prelude GoStd Sha256 Crypto Protocol Instances Identity Chunker Services Routing Keystore.
Local Open Scope go_scope.

(** src: internal/contacts/contact.go 6-13 Contact *)
Record Contact := mkContact {
  ct_Address : string; ct_Alias : string; ct_PublicKey : bytes; ct_OnionAddr : string; ct_AddedAt : Z; ct_LastSeen : Z }.

(** The file [contacts.json]: an array whose elements may be null. *)
Inductive contacts_file := NoFile | UnreadableFile | NotContacts | ContactsJSON (l : list (option Contact)).

(** The keys of the map are the addresses; [cs_file] is the file at [path]. *)
(** src: internal/contacts/store.go 13-17 Store *)
Record Store := mkStore { cs_contacts : gmap string Contact; cs_file : contacts_file }.

(** src: internal/contacts/store.go 21-26 NewStore *)
Definition NewStore (file : contacts_file) : Store := mkStore ∅ file.

(** An existing contact keeps the time it was added and last seen. *)
(** src: internal/contacts/store.go 29-41 Store.Add *)
Definition Add (s : Store) (c : Contact) (now : Z) : Store :=
  let c' := match cs_contacts s !! ct_Address c with
    | Some existing => mkContact (ct_Address existing) (ct_Alias c) (ct_PublicKey c) (ct_OnionAddr c)
                         (ct_AddedAt existing) (ct_LastSeen existing)
    | None => mkContact (ct_Address c) (ct_Alias c) (ct_PublicKey c) (ct_OnionAddr c) now (ct_LastSeen c)
    end in
  mkStore (<[ct_Address c := c']> (cs_contacts s)) (cs_file s).

(** src: internal/contacts/store.go 44-53 Store.Remove *)
Definition Remove (s : Store) (address : string) : bool * Store :=
  match cs_contacts s !! address with
  | None => (false, s)
  | Some _ => (true, mkStore (delete address (cs_contacts s)) (cs_file s))
  end.

(** src: internal/contacts/store.go 56-67 Store.Get *)
Definition Get (s : Store) (address : string) : option Contact := cs_contacts s !! address.

(** src: internal/contacts/store.go 70-80 Store.List *)
Definition List_ (s : Store) : list Contact := (map_to_list (cs_contacts s)).*2.

Section json.
(** What JSON makes of a string; times outside the years 0 to 9999 do not marshal. *)
Context (utf8 : string -> string).

Definition json_contact (c : Contact) : Contact :=
  mkContact (utf8 (ct_Address c)) (utf8 (ct_Alias c)) (ct_PublicKey c) (utf8 (ct_OnionAddr c)) (ct_AddedAt c) (ct_LastSeen c).

Definition json_contacts (l : list Contact) : option (list (option Contact)) :=
  if forallb (fun c => json_time_ok (ct_AddedAt c) && json_time_ok (ct_LastSeen c)) l
  then Some ((fun c => Some (json_contact c)) <$> l) else None.

(** [mkdir] and [w]: what the disk answers; a write that stops early leaves a file that is
    not JSON. *)
(** src: internal/contacts/store.go 83-104 Store.Save *)
Definition Save (s : Store) (mkdir : bool) (w : write_outcome) : bool * Store :=
  match json_contacts (List_ s) with
  | None => (false, s)
  | Some doc =>
      if negb mkdir then (false, s)
      else match w with
           | WriteOk => (true, mkStore (cs_contacts s) (ContactsJSON doc))
           | OpenFails => (false, s)
           | WriteFails _ => (false, mkStore (cs_contacts s) NotContacts)
           end
  end.
End json.

(** The map of a list of contacts; [None]: the address of a null element is a nil
    dereference. *)
(** src: internal/contacts/store.go 124-127 Store.Load *)
Fixpoint index_contacts (l : list (option Contact)) (m : gmap string Contact) : option (gmap string Contact) :=
  match l with
  | [] => Some m
  | None :: _ => None
  | Some c :: l => index_contacts l (<[ct_Address c := c]> m)
  end.

(** [None]: a panic. *)
(** src: internal/contacts/store.go 107-129 Store.Load *)
Definition Load (s : Store) : option (bool * Store) :=
  match cs_file s with
  | NoFile => Some (true, s)
  | UnreadableFile | NotContacts => Some (false, s)
  | ContactsJSON l => m ← index_contacts l ∅; Some (true, mkStore m (cs_file s))
  end.

(** ** The store *)

(** Every contact is under its own address. *)
Definition store_ok (s : Store) : Prop := forall a c, cs_contacts s !! a = Some c -> ct_Address c = a.

Lemma Add_ok s c now : store_ok s -> store_ok (Add s c now).
Proof.
  intros Hok a c'. unfold Add. cbn [cs_contacts]. intros [[<- <-]|[_ Ha]]%lookup_insert_Some; [|by apply Hok].
  destruct (cs_contacts s !! ct_Address c) as [e|] eqn:He; [|done]. cbn. by apply Hok.
Qed.

Lemma Remove_ok s a : store_ok s -> store_ok (Remove s a).2.
Proof.
  intros Hok. unfold Remove. destruct (cs_contacts s !! a); [|done]. intros b d. cbn [snd cs_contacts]. intros [_ Hb]%lookup_delete_Some. by apply Hok.
Qed.

Lemma index_contacts_app l1 l2 m m' : index_contacts l1 m = Some m' -> index_contacts (l1 ++ l2) m = index_contacts l2 m'.
Proof.
  revert m. induction l1 as [|[c|] l1 IH]; intros m; cbn; [by intros [= <-]|apply IH|done].
Qed.

(** Reading a map back from any list of its values. *)
Lemma index_contacts_list (l : list (string * Contact)) : forall m : gmap string Contact,
  NoDup l.*1 -> Forall (fun p => ct_Address p.2 = p.1) l ->
  index_contacts (Some <$> l.*2) m = Some (list_to_map l ∪ m).
Proof.
  induction l as [|[a c] l IH]; intros m Hnd Hall; cbn; [by rewrite (left_id_L ∅ (∪))|].
  apply Forall_cons in Hall as [Ha Hall]. cbn in Ha, Hnd. apply NoDup_cons in Hnd as [Hnin Hnd]. subst a.
  rewrite IH by done. f_equal. rewrite <- insert_union_l, insert_union_r; [done|].
  by apply not_elem_of_list_to_map_1.
Qed.

Section claims.
Context (utf8 : string -> string).

(** Text JSON keeps, and times it can write. *)
Definition json_fixed (c : Contact) : Prop :=
  json_contact utf8 c = c /\ json_time_ok (ct_AddedAt c) = true /\ json_time_ok (ct_LastSeen c) = true.

(** The contact store.  Adding an address that is there changes its alias, key and onion
    and keeps the times; a new one is stamped; every other contact, as every contact but the
    removed one, stays.  Contacts of valid text survive saving and loading.  But a save that
    fails half way replaces the file by one that no longer loads, while a failure before that
    leaves the file as it was. *)
Theorem contacts_contract s c now a :
  store_ok s ->
  (Get (Add s c now) (ct_Address c) = Some (mkContact (ct_Address c) (ct_Alias c) (ct_PublicKey c) (ct_OnionAddr c)
     (default now (ct_AddedAt <$> Get s (ct_Address c))) (default (ct_LastSeen c) (ct_LastSeen <$> Get s (ct_Address c)))) /\
   (a <> ct_Address c -> Get (Add s c now) a = Get s a)) /\
  ((Remove s a).1 = bool_decide (is_Some (Get s a)) /\
   forall b, Get (Remove s a).2 b = if decide (b = a) then None else Get s b) /\
  ((forall b c', Get s b = Some c' -> json_fixed c') ->
   exists s', Save utf8 s true WriteOk = (true, s') /\
     Load (NewStore (cs_file s')) = Some (true, s')) /\
  (forall n, (Save utf8 s true (WriteFails n)).1 = false /\
     (json_contacts utf8 (List_ s) <> None ->
      Load (NewStore (cs_file (Save utf8 s true (WriteFails n)).2)) = Some (false, NewStore NotContacts))) /\
  (forall w, cs_file (Save utf8 s false w).2 = cs_file s /\ cs_file (Save utf8 s true OpenFails).2 = cs_file s).
Proof.
  intros Hok. split_and!.
  - unfold Get, Add. cbn. rewrite lookup_insert_eq. destruct (cs_contacts s !! ct_Address c) as [e|] eqn:He; [|done].
    cbn. by rewrite (Hok _ _ He).
  - intros Hne. unfold Get, Add. cbn. by rewrite lookup_insert_ne.
  - unfold Remove, Get. destruct (cs_contacts s !! a); [by rewrite bool_decide_eq_true_2|].
    rewrite bool_decide_eq_false_2; [done|by intros []].
  - intros b. unfold Remove, Get. destruct (cs_contacts s !! a) eqn:Ha; cbn.
    + rewrite lookup_delete. by repeat case_decide; simplify_eq.
    + case_decide; by simplify_eq.
  - intros Hfix. unfold Save. set (l := map_to_list (cs_contacts s)).
    assert (forall p, p ∈ l -> json_fixed p.2 /\ ct_Address p.2 = p.1) as Hl.
    { intros [b c'] Hin%elem_of_map_to_list. split; [by eapply Hfix|by apply Hok]. }
    assert (json_contacts utf8 (List_ s) = Some (Some <$> l.*2)) as ->.
    { unfold json_contacts, List_. fold l.
      assert (forallb (fun c => json_time_ok (ct_AddedAt c) && json_time_ok (ct_LastSeen c)) l.*2 = true) as ->.
      { apply forallb_forall. intros c' Hin%list_elem_of_In. apply list_elem_of_fmap in Hin as (p & -> & Hin).
        destruct (Hl p Hin) as [(_ & -> & ->) _]. done. }
      f_equal. apply list_fmap_ext. intros i c' Hi. apply list_elem_of_lookup_2 in Hi.
      apply list_elem_of_fmap in Hi as (p & -> & Hin). destruct (Hl p Hin) as [(-> & _) _]. done. }
    cbn [negb]. eexists. split; [reflexivity|]. unfold Load, NewStore. cbn [cs_file].
    rewrite (index_contacts_list l).
    + cbn. unfold l. by rewrite list_to_map_to_list, (right_id_L ∅ (∪)).
    + apply NoDup_fst_map_to_list.
    + apply Forall_forall. intros p Hin. apply Hl, Hin.
  - unfold Save. by destruct (json_contacts utf8 (List_ s)).
  - unfold Save. by destruct (json_contacts utf8 (List_ s)).
Qed.
End claims.

(** A file whose array has a null stops the program. *)
Lemma null_contact_panics s l1 l2 : cs_file s = ContactsJSON (l1 ++ None :: l2) -> Load s = None.
Proof.
  intros Hf. unfold Load. rewrite Hf. assert (forall m, index_contacts (l1 ++ None :: l2) m = None) as Hn; [|by rewrite Hn].
  clear Hf. induction l1 as [|[c|] l1 IH]; intros m; cbn; [done| |done]. apply IH.
Qed.

Definition ada : Contact := mkContact "Eada" "Ada" [Byte.x01] "ada.onion" 0 GoTime.zero.
Definition address_book : Store := Add (NewStore NoFile) ada 7.

Lemma contacts_contract_witness :
  exists s', Save id address_book true WriteOk = (true, s') /\ Load (NewStore (cs_file s')) = Some (true, s') /\
    Get s' "Eada" = Some (mkContact "Eada" "Ada" [Byte.x01] "ada.onion" 7 GoTime.zero).
Proof.
  assert (store_ok address_book) as Hok by (apply Add_ok; intros a c; unfold NewStore; cbn; by intros ?%lookup_empty_Some).
  destruct (contacts_contract id address_book ada 7 "Ebob" Hok) as (_ & _ & Hs & _).
  destruct Hs as (s' & Hsave & Hload).
  - intros b c Hb. unfold Get, address_book, Add in Hb. cbn in Hb.
    apply lookup_singleton_Some in Hb as [_ <-]. split_and!; reflexivity.
  - exists s'. split; [exact Hsave|]. split; [exact Hload|].
    unfold Save in Hsave. vm_compute in Hsave. injection Hsave as <-. reflexivity.
Defined.
