(* ===== verification/ApiEvents.v ===== *)
(** * internal/api/events.go and the subscription of internal/ui/grpc.go: events over gRPC

    The daemon sends the events of its bus to gRPC clients as a type name and a JSON text;
    an attached terminal interface turns them back into events.  A JSON text is the value it
    stands for. *)

From S2P Require Import Prelude GoStd Sha256 Crypto Protocol Instances Identity Wire IPExchange Services Signaling Session Routing Events Chat Sender Receiver Connector Presence Tor RegisterService.
Local Open Scope go_scope.

(** ** Payloads *)

(** A JSON value; numbers are integers here, as in every payload. *)
Inductive json :=
| JNull
| JBool (b : bool)
| JNumber (z : Z)
| JString (s : string)
| JArray (l : list json)
| JObject (fields : list (string * json)).

(** What an event on a bus can carry: the values the daemon publishes, or, at a client, what
    [json.Unmarshal] makes of a text. *)
Inductive payload :=
| PNil
| PString (s : string)
| PBootstrap (be : BootstrapEvent)
| PMessage (m : Chat.Message)
| PFileOffer (o : Receiver.FileOffer)
| PState (se : StateEvent)
| POnline (os : OnlineStatus)
| PJson (j : json).

Section marshal.
(** [utf8]: what JSON makes of a string; [time_text] and [error_text]: the texts of a time
    and of an error. *)
Context (utf8 : string -> string) (time_text : Z -> string) (error_text : conn_err -> string).

Definition conn_state_number (s : ConnState) : Z :=
  match s with
  | StateDiscovering => 0 | StateSignaling => 1 | StateExchangingIPs => 2 | StateNATTraversal => 3 | StateConnected => 4
  | StateConnectedTor => 5 | StateDisconnected => 6 | StateFailed => 7 | StateReconnecting => 8
  end.

Definition json_string (s : string) : json := JString (utf8 s).

Definition json_time (t : Z) : option json := if json_time_ok t then Some (JString (time_text t)) else None.

Definition direction_text (d : Direction) : string := match d with Outgoing => "outgoing" | Incoming => "incoming" end.

(** [json.Marshal]: a time out of range fails, and so does every [FileOffer], whose
    [Decision] is a channel. *)
Definition marshal_payload (p : payload) : option json :=
  match p with
  | PNil => Some JNull
  | PString s => Some (json_string s)
  | PBootstrap be => Some (JObject [("percent", JNumber (be_Percent be)); ("summary", json_string (be_Summary be))]%string)
  | PMessage m =>
      sent ← json_time (msg_SentAt m);
      acked ← match msg_AckedAt m with None => Some JNull | Some t => json_time t end;
      Some (JObject [("ID", json_string (msg_ID m)); ("From", json_string (msg_From m)); ("To", json_string (msg_To m));
                     ("Text", json_string (msg_Text m)); ("SentAt", sent); ("AckedAt", acked);
                     ("Direction", JString (direction_text (msg_Direction m)))]%string)
  | PFileOffer _ => None
  | PState se =>
      Some (JObject [("PeerAddr", json_string (se_PeerAddr se)); ("State", JNumber (conn_state_number (se_State se)));
                     ("Error", json_string (match se_Error se with None => "" | Some e => error_text e end))]%string)
  | POnline os => Some (JObject [("Address", json_string (os_Address os)); ("Online", JBool (os_Online os))]%string)
  | PJson j => Some j
  end.

(** ** events.go *)

(** src: internal/api/events.go 13-24 eventTypeNames *)
Definition eventTypeNames (t : EventType) : string :=
  if t =? EventTorBootstrap then "tor_bootstrap"
  else if t =? EventTorReady then "tor_ready"
  else if t =? EventPeerDiscovered then "peer_discovered"
  else if t =? EventConnectionReq then "connection_request"
  else if t =? EventConnectionState then "connection_state"
  else if t =? EventChatMessage then "chat_message"
  else if t =? EventFileOffer then "file_offer"
  else if t =? EventFileProgress then "file_progress"
  else if t =? EventPeerOnline then "peer_online"
  else if t =? EventError then "error"
  else "".

(** The text of a payload: none, one that is not JSON, or one of a value. *)
Inductive wire_text := NoText | BadText | TextOf (j : json).

Record DaemonEvent := mkDaemonEvent { de_Type : string; de_Payload : wire_text }.

(** src: internal/api/events.go 53-69 eventToProto *)
Definition eventToProto (e : Event payload) : option DaemonEvent :=
  let name := eventTypeNames (ev_Type e) in
  let name := if bool_decide (name = ""%string) then ("unknown_" +:+ ApiAuth.FormatInt (ev_Type e))%string else name in
  j ← marshal_payload (ev_Payload e);
  Some (mkDaemonEvent name (TextOf j)).

(** The loop, over the events that arrive until the client goes; [sends]: whether each [Send]
    succeeds.  An event that does not marshal is skipped; the loop ends at a failed send. *)
(** src: internal/api/events.go 35-50 forwardToStream *)
Fixpoint forwardToStream (events : list (Event payload)) (sends : list bool) : list DaemonEvent :=
  match events with
  | [] => []
  | e :: events =>
      match eventToProto e with
      | None => forwardToStream events sends
      | Some msg => match sends with
                    | true :: sends => msg :: forwardToStream events sends
                    | _ => []
                    end
      end
  end.
End marshal.

(** ** The client *)

(** src: internal/ui/grpc.go 267-277 eventNameTypes *)
Definition eventNameTypes (name : string) : option EventType :=
  match list_find (fun e => e.1 = name)
    [("tor_bootstrap", EventTorBootstrap); ("tor_ready", EventTorReady); ("peer_discovered", EventPeerDiscovered);
     ("connection_request", EventConnectionReq); ("connection_state", EventConnectionState);
     ("chat_message", EventChatMessage); ("file_offer", EventFileOffer); ("file_progress", EventFileProgress);
     ("error", EventError)]%string with
  | Some (_, e) => Some e.2
  | None => None
  end.

(** [json.Unmarshal] into an empty interface. *)
Definition of_json (j : json) : payload :=
  match j with JNull => PNil | JString s => PString s | _ => PJson j end.

(** One message of the stream. *)
(** src: internal/ui/grpc.go 301-312 GRPCBackend.Subscribe *)
Definition receive_event (msg : DaemonEvent) : option (Event payload) :=
  match eventNameTypes (de_Type msg) with
  | None => None
  | Some et => Some (mkEvent et match de_Payload msg with TextOf j => of_json j | _ => PNil end)
  end.

(** The events of a stream, as long as the subscription lasts: the channel's sender waits for
    its reader. *)
(** src: internal/ui/grpc.go 287-319 GRPCBackend.Subscribe *)
Definition client_events (msgs : list DaemonEvent) : list (Event payload) := omap receive_event msgs.

(** ** What an attached client sees *)

Section claims.
Context (utf8 : string -> string) (time_text : Z -> string) (error_text : conn_err -> string).

(** An event of the daemon, at the client. *)
Definition attached (e : Event payload) : option (Event payload) :=
  msg ← eventToProto utf8 time_text error_text e; receive_event msg.

Lemma eventNameTypes_eventTypeNames t : t ∈ allEventTypes ->
  eventTypeNames t <> ""%string /\
  eventNameTypes (eventTypeNames t) = if t =? EventPeerOnline then None else Some t.
Proof.
  unfold allEventTypes. intros Ht. repeat (apply elem_of_cons in Ht as [->|Ht]; [split; [done|vm_compute; reflexivity]|]).
  by apply elem_of_nil in Ht.
Qed.

Lemma attached_spec e : ev_Type e ∈ allEventTypes ->
  attached e = if ev_Type e =? EventPeerOnline then None
               else j ← marshal_payload utf8 time_text error_text (ev_Payload e); Some (mkEvent (ev_Type e) (of_json j)).
Proof.
  intros [Hn He]%eventNameTypes_eventTypeNames. unfold attached, eventToProto. rewrite bool_decide_eq_false_2 by done.
  destruct (marshal_payload _ _ _ _) as [j|]; cbn [mbind option_bind]; [|by destruct (_ =? _)].
  unfold receive_event. cbn [de_Type de_Payload]. rewrite He. by destruct (_ =? _).
Qed.

Lemma client_events_forward events sends : (length events <= length sends)%nat -> forallb id sends = true ->
  client_events (forwardToStream utf8 time_text error_text events sends) = omap attached events.
Proof.
  revert sends. induction events as [|e events IH]; intros sends Hl Hs; [done|]. cbn in Hl.
  cbn [forwardToStream]. destruct sends as [|s sends]; cbn in Hl; [lia|]. cbn in Hs. apply andb_prop in Hs as [Hid Hs].
  destruct s; [|done]. cbn [omap list_omap]. unfold attached at 1. destruct (eventToProto _ _ _ e) as [msg|] eqn:He; cbn [mbind option_bind].
  - unfold client_events in *. cbn [omap list_omap]. rewrite IH by (done || lia). by destruct (receive_event msg).
  - apply (IH (true :: sends)); [cbn; lia|]. done.
Qed.

(** A client of the event stream gets, in order, the events of the bus whose payload
    marshals and whose type it knows.  A text payload arrives as the same text and a missing one
    stays missing; but the types are lost on the way: a chat message, a connection state or
    a bootstrap event is a JSON object at the client, an event about a peer's presence is dropped
    there because its name is not in the client's table, and a file offer never leaves the
    daemon, because it holds a channel. *)
Theorem attached_events events sends
  (Hsends : (length events <= length sends)%nat /\ forallb id sends = true)
  (Htypes : Forall (fun e => ev_Type e ∈ allEventTypes) events) :
  client_events (forwardToStream utf8 time_text error_text events sends) = omap attached events /\
  forall e, e ∈ events ->
    match ev_Payload e with
    | PFileOffer _ => attached e = None
    | PString s => utf8 s = s -> ev_Type e <> EventPeerOnline -> attached e = Some e
    | PNil => ev_Type e <> EventPeerOnline -> attached e = Some e
    | PBootstrap _ | PState _ | POnline _ | PMessage _ =>
        forall e', attached e = Some e' -> ev_Type e' = ev_Type e /\ exists fields, ev_Payload e' = PJson (JObject fields)
    | PJson _ => True
    end /\ (ev_Type e = EventPeerOnline -> attached e = None).
Proof.
  destruct Hsends as [Hl Hs]. split; [by apply client_events_forward|]. intros e He.
  pose proof (attached_spec e (proj1 (Forall_forall _ _) Htypes e He)) as ->.
  split; [|by intros ->].
  destruct e as [t p]. cbn [ev_Type ev_Payload].
  assert (t <> EventPeerOnline -> (t =? EventPeerOnline) = false) as Hne by (by intros ?%Z.eqb_neq).
  destruct p; cbn [marshal_payload mbind option_bind]; try by destruct (t =? EventPeerOnline).
  - by intros ->%Hne.
  - intros Hu ->%Hne. unfold json_string. by rewrite Hu.
  - destruct (t =? _); [done|]. intros e' [= <-]. split; [done|]. by eexists.
  - destruct (t =? _); [done|]. intros e' (j & (st & _ & (ak & _ & [= <-])%bind_Some)%bind_Some & [= <-])%bind_Some.
    split; [done|]. by eexists.
  - destruct (t =? _); [done|]. intros e' [= <-]. split; [done|]. by eexists.
  - destruct (t =? _); [done|]. intros e' [= <-]. split; [done|]. by eexists.
Qed.
End claims.

(** ** Witness *)

Definition sample_events : list (Event payload) :=
  [mkEvent EventConnectionReq (PString "Eada"); mkEvent EventPeerOnline (POnline (mkStatus "Eada" true));
   mkEvent EventFileOffer (PFileOffer (mkFileOffer "t1" "a.txt" 3 [] 1 3 "Eada" (Chan.make 1)));
   mkEvent EventConnectionState (PState (mkStateEvent "Eada" StateFailed (Some ErrDialing)));
   mkEvent EventTorReady PNil].

Lemma attached_events_witness :
  client_events (forwardToStream id (fun _ => ""%string) (fun _ => "dialing peer"%string) sample_events [true; true; true; true; true]) =
  [mkEvent EventConnectionReq (PString "Eada");
   mkEvent EventConnectionState (PJson (JObject [("PeerAddr", JString "Eada"); ("State", JNumber 7); ("Error", JString "dialing peer")]));
   mkEvent EventTorReady PNil]%string.
Proof.
  destruct (attached_events id (fun _ => ""%string) (fun _ => "dialing peer"%string) sample_events [true; true; true; true; true])
    as [-> _].
  - vm_compute. split; [lia|reflexivity].
  - repeat constructor; apply (bool_decide_unpack _); vm_compute; exact I.
  - vm_compute. reflexivity.
Defined.
