(* ===== verification/Node.v ===== *)
(** * internal/node/node.go: the node and its pending requests

    The node passes calls on to the subsystems it was given, and keeps the requests of
    unknown peers until the user decides.  A request waits in [askUser] of the signaling
    server (Signaling.v), which makes the channel this table refers to. *)

From S2P Require Import Contacts Prelude GoStd Crypto Protocol Instances Identity Wire IPExchange Services Signaling Session Routing Dht Events Connector Discovery Pending.
Local Open Scope go_scope.

Section node.
Context {P : Type} (address_event : string -> P).

(** The functions the daemon injects: they fail or return an identifier. *)
(** src: internal/node/node.go 15-46 Node *)
Record Node := mkNode {
  n_keypair : Keypair;
  n_address : string;
  n_bus : gmap EventType (list (Chan.t (Event P)));
  n_torState : string;
  n_onionAddr : string;
  n_contacts : option Store;
  n_discovery : option Manager;
  n_sigClient : option Client;
  n_connector : option Connector;
  n_sendMsg : option (string -> string -> option string);
  n_sendFile : option (string -> string -> option string);
  n_acceptFile : option (string -> string -> bool);
  n_rejectFile : option (string -> string -> bool);
  n_pending : pending ConnectionDecision
}.

(** src: internal/node/node.go 49-57 New *)
Definition New `{Ripemd160, Base58} (kp : Keypair) : Node :=
  mkNode kp (DeriveAddress (PublicKey kp)) NewEventBus "disabled" "" None None None None None None None None no_pending.

Definition set_node_pending (n : Node) (bus : gmap EventType (list (Chan.t (Event P)))) (p : pending ConnectionDecision) : Node :=
  mkNode (n_keypair n) (n_address n) bus (n_torState n) (n_onionAddr n) (n_contacts n) (n_discovery n) (n_sigClient n) (n_connector n)
    (n_sendMsg n) (n_sendFile n) (n_acceptFile n) (n_rejectFile n) p.
(** src: internal/node/node.go 131-135 Node.SetConnector *)
Definition set_connector (n : Node) (c : Connector) : Node :=
  mkNode (n_keypair n) (n_address n) (n_bus n) (n_torState n) (n_onionAddr n) (n_contacts n) (n_discovery n) (n_sigClient n) (Some c)
    (n_sendMsg n) (n_sendFile n) (n_acceptFile n) (n_rejectFile n) (n_pending n).
(** src: internal/node/node.go 138-142 Node.SetDiscovery *)
Definition set_discovery (n : Node) (m : Manager) : Node :=
  mkNode (n_keypair n) (n_address n) (n_bus n) (n_torState n) (n_onionAddr n) (n_contacts n) (Some m) (n_sigClient n) (n_connector n)
    (n_sendMsg n) (n_sendFile n) (n_acceptFile n) (n_rejectFile n) (n_pending n).

(** The server of the pair is not used by the node. *)
(** src: internal/node/node.go 147-152 Node.SetSignaling *)
Definition SetSignaling (n : Node) (client : Client) : Node :=
  mkNode (n_keypair n) (n_address n) (n_bus n) (n_torState n) (n_onionAddr n) (n_contacts n) (n_discovery n) (Some client) (n_connector n)
    (n_sendMsg n) (n_sendFile n) (n_acceptFile n) (n_rejectFile n) (n_pending n).

(** src: internal/node/node.go 82-86 Node.SetTorState *)
Definition SetTorState (n : Node) (state : string) : Node :=
  mkNode (n_keypair n) (n_address n) (n_bus n) state (n_onionAddr n) (n_contacts n) (n_discovery n) (n_sigClient n) (n_connector n)
    (n_sendMsg n) (n_sendFile n) (n_acceptFile n) (n_rejectFile n) (n_pending n).

(** src: internal/node/node.go 96-100 Node.SetOnionAddr *)
Definition SetOnionAddr (n : Node) (addr : string) : Node :=
  mkNode (n_keypair n) (n_address n) (n_bus n) (n_torState n) addr (n_contacts n) (n_discovery n) (n_sigClient n) (n_connector n)
    (n_sendMsg n) (n_sendFile n) (n_acceptFile n) (n_rejectFile n) (n_pending n).

(** src: internal/node/node.go 103-107 Node.SetContacts *)
Definition SetContacts (n : Node) (cs : Store) : Node :=
  mkNode (n_keypair n) (n_address n) (n_bus n) (n_torState n) (n_onionAddr n) (Some cs) (n_discovery n) (n_sigClient n)
    (n_connector n) (n_sendMsg n) (n_sendFile n) (n_acceptFile n) (n_rejectFile n) (n_pending n).

(** src: internal/node/node.go 398-402 Node.SetSendMessage *)
Definition SetSendMessage (n : Node) (fn : string -> string -> option string) : Node :=
  mkNode (n_keypair n) (n_address n) (n_bus n) (n_torState n) (n_onionAddr n) (n_contacts n) (n_discovery n) (n_sigClient n)
    (n_connector n) (Some fn) (n_sendFile n) (n_acceptFile n) (n_rejectFile n) (n_pending n).

(** src: internal/node/node.go 417-421 Node.SetSendFile *)
Definition SetSendFile (n : Node) (fn : string -> string -> option string) : Node :=
  mkNode (n_keypair n) (n_address n) (n_bus n) (n_torState n) (n_onionAddr n) (n_contacts n) (n_discovery n) (n_sigClient n)
    (n_connector n) (n_sendMsg n) (Some fn) (n_acceptFile n) (n_rejectFile n) (n_pending n).

(** src: internal/node/node.go 436-440 Node.SetAcceptFile *)
Definition SetAcceptFile (n : Node) (fn : string -> string -> bool) : Node :=
  mkNode (n_keypair n) (n_address n) (n_bus n) (n_torState n) (n_onionAddr n) (n_contacts n) (n_discovery n) (n_sigClient n)
    (n_connector n) (n_sendMsg n) (n_sendFile n) (Some fn) (n_rejectFile n) (n_pending n).

(** src: internal/node/node.go 455-459 Node.SetRejectFile *)
Definition SetRejectFile (n : Node) (fn : string -> string -> bool) : Node :=
  mkNode (n_keypair n) (n_address n) (n_bus n) (n_torState n) (n_onionAddr n) (n_contacts n) (n_discovery n) (n_sigClient n)
    (n_connector n) (n_sendMsg n) (n_sendFile n) (n_acceptFile n) (Some fn) (n_pending n).

(** ** Requests of unknown peers *)

(** [cr.Decision] is the reference [ch]. *)
(** src: internal/node/node.go 474-484 Node.handleConnectionRequest *)
Definition handleConnectionRequest (n : Node) (fromAddr : string) (ch : nat) : Node :=
  set_node_pending n (Publish (n_bus n) (mkEvent EventConnectionReq (address_event fromAddr)))
    (put (n_pending n) fromAddr ch).

Inductive node_err :=
| ErrNoPending | ErrNodeNotReady | ErrNodeConnecting (e : conn_err) | ErrNodeFind (e : find_err) | ErrNodeHandshake (e : client_err)
| ErrNoDiscovery | ErrNodeBootstrap (e : Discovery.node_err) | ErrNoChat | ErrNoTransfer | ErrInjected.

(** The part [AcceptConnection] and [RejectConnection] share; [None]: the send blocks. *)
(** src: internal/node/node.go 211-223 Node.AcceptConnection *)
Definition decide_peer (n : Node) (addr : string) (d : ConnectionDecision) : option (result node_err unit * Node) :=
  match take (n_pending n) addr with
  | (None, p) => Some (Err ErrNoPending, set_node_pending n (n_bus n) p)
  | (Some ch, p) =>
      match offer p ch d with
      | (true, p) => Some (Ok tt, set_node_pending n (n_bus n) p)
      | (false, _) => None
      end
  end.

(** src: internal/node/node.go 211-223 Node.AcceptConnection *)
Definition AcceptConnection (n : Node) (addr : string) := decide_peer n addr (mkConnDecision true "").
(** src: internal/node/node.go 226-238 Node.RejectConnection *)
Definition RejectConnection (n : Node) (addr reason : string) := decide_peer n addr (mkConnDecision false reason).

(** The signaling server asks: a new channel, the callback, and the wait; [timeout]: the
    context ends and the [select] takes that branch.  Nothing leaves the table then. *)
(** src: internal/signaling/server.go 369-374 Server.askUser *)
Definition ask_user (n : Node) (fromAddr : string) : nat * Node :=
  let '(ch, p) := alloc (n_pending n) in
  (ch, handleConnectionRequest (set_node_pending n (n_bus n) p) fromAddr ch).

(** src: internal/signaling/server.go 376-381 Server.askUser *)
Definition await_user (n : Node) (ch : nat) (timeout : bool) : option (ConnectionDecision * Node) :=
  if timeout then Some (mkConnDecision false "timeout", n)
  else match receive (n_pending n) ch with
       | (Some d, p) => Some (d, set_node_pending n (n_bus n) p)
       | (None, _) => None
       end.

(** ** Calls passed on *)

Section calls.
Context `{Proto DHTFindNode, Proto DHTNodeResponse, Proto DHTPutRecord, Base58}.

(** What the subsystems meet during [Connect]. *)
Record connect_env := mkConnectEnv {
  ce_now : Z; ce_flow : flow_env;
  ce_heard : list PeerInfo; ce_ctxEnds : bool; ce_net : nat -> dialed; ce_clock : nat -> Z; ce_ctxDone : nat -> bool;
  ce_handshake : string -> result client_err HandshakeResult
}.

(** Through the connector the result carries the address alone. *)
(** src: internal/node/node.go 177-208 Node.Connect *)
Definition node_Connect (n : Node) (peerAddr : string) (env : connect_env) : result node_err HandshakeResult * Node :=
  match n_discovery n, n_sigClient n with
  | Some disc, Some _ =>
      match n_connector n with
      | Some conn =>
          let '(r, conn) := Connector.Connect conn peerAddr (ce_now env) (ce_flow env) in
          (match r with
           | Ok _ => Ok (mkHandshake [] peerAddr)
           | Err e => Err (ErrNodeConnecting e)
           end, set_connector n conn)
      | None =>
          let '(r, disc) := FindPeer disc peerAddr (ce_heard env) (ce_ctxEnds env) (ce_now env) (ce_net env) (ce_clock env)
                              (ce_ctxDone env) in
          (match r with
           | Err e => Err (ErrNodeFind e)
           | Ok peer => match ce_handshake env (p_OnionAddr peer) with
                        | Ok res => Ok res
                        | Err e => Err (ErrNodeHandshake e)
                        end
           end, set_discovery n disc)
      end
  | _, _ => (Err ErrNodeNotReady, n)
  end.

(** src: internal/node/node.go 163-171 Node.AddNode *)
Definition node_AddNode (n : Node) (utf8 : string -> string) (now : Z) (seed : dialed) (net : nat -> dialed) (disk_ok : bool) :
    result node_err nat * Node :=
  match n_discovery n with
  | None => (Err ErrNoDiscovery, n)
  | Some disc =>
      let '(r, disc) := AddNode utf8 disc now seed net disk_ok in
      (match r with Ok k => Ok k | Err e => Err (ErrNodeBootstrap e) end, set_discovery n disc)
  end.
End calls.

(** src: internal/node/node.go 241-249 Node.RTSize *)
Definition node_RTSize (n : Node) : nat := match n_discovery n with Some m => RTSize m | None => O end.

(** src: internal/node/node.go 252-257 DebugInfo *)
Record DebugInfo := mkDebug {
  di_RTSize : nat; di_RTPeers : list (string * string * Z); di_Connections : list (string * string); di_OnionAddr : string }.

(** src: internal/node/node.go 274-305 Node.GetDebugInfo *)
Definition GetDebugInfo (n : Node) : DebugInfo :=
  let peers := match n_discovery n with Some m => ListPeers m | None => [] end in
  let conns := match n_connector n with Some c => ActivePeers c | None => [] end in
  mkDebug (length peers) ((fun p => (p_Address p, p_OnionAddr p, GoTime.UnixMilli (p_LastSeen p))) <$> peers)
    ((fun pc => (pc_Address pc, ConnState_String (pc_State pc))) <$> conns) (n_onionAddr n).

(** src: internal/node/node.go 308-317 Node.PeerCount *)
Definition PeerCount (n : Node) : Z :=
  match n_connector n with Some c => i32 (Z.of_nat (length (ActivePeers c))) | None => 0 end.

(** src: internal/node/node.go 320-328 Node.MaxPeers *)
Definition MaxPeers (n : Node) : Z := match n_connector n with Some c => cn_maxPeers c | None => 0 end.
(** src: internal/node/node.go 331-339 Node.ActiveTransfers *)
Definition ActiveTransfers (n : Node) : Z := match n_connector n with Some c => cn_activeXfers c | None => 0 end.
(** src: internal/node/node.go 342-350 Node.MaxTransfers *)
Definition MaxTransfers (n : Node) : Z := match n_connector n with Some c => cn_maxXfers c | None => 0 end.

(** Without a connector there is no limit. *)
(** src: internal/node/node.go 353-361 Node.AcquireTransferSlot *)
Definition node_AcquireTransferSlot (n : Node) : bool * Node :=
  match n_connector n with
  | Some c => let '(ok, c) := AcquireTransferSlot c in (ok, set_connector n c)
  | None => (true, n)
  end.

(** src: internal/node/node.go 364-371 Node.ReleaseTransferSlot *)
Definition node_ReleaseTransferSlot (n : Node) : Node :=
  match n_connector n with Some c => set_connector n (ReleaseTransferSlot c) | None => n end.

(** src: internal/node/node.go 374-383 Node.ConnectionInfo *)
Definition ConnectionInfo (n : Node) (addr : string) : option PeerConnection :=
  match n_connector n with Some c => GetPeer c addr | None => None end.

(** src: internal/node/node.go 386-395 Node.ActiveConnections *)
Definition ActiveConnections (n : Node) : list PeerConnection :=
  match n_connector n with Some c => ActivePeers c | None => [] end.

(** src: internal/node/node.go 405-414 Node.SendMessage *)
Definition node_SendMessage (n : Node) (addr text : string) : result node_err string :=
  match n_sendMsg n with None => Err ErrNoChat | Some fn => of_option ErrInjected (fn addr text) end.
(** src: internal/node/node.go 424-433 Node.SendFile *)
Definition node_SendFile (n : Node) (peerAddr filePath : string) : result node_err string :=
  match n_sendFile n with None => Err ErrNoTransfer | Some fn => of_option ErrInjected (fn peerAddr filePath) end.
(** src: internal/node/node.go 443-452 Node.AcceptFile *)
Definition node_AcceptFile (n : Node) (transferID savePath : string) : result node_err unit :=
  match n_acceptFile n with None => Err ErrNoTransfer | Some fn => if fn transferID savePath then Ok tt else Err ErrInjected end.
(** src: internal/node/node.go 462-471 Node.RejectFile *)
Definition node_RejectFile (n : Node) (transferID reason : string) : result node_err unit :=
  match n_rejectFile n with None => Err ErrNoTransfer | Some fn => if fn transferID reason then Ok tt else Err ErrInjected end.

(** ** The pending requests *)

(** Requests arrive, the user decides, handlers stop waiting. *)
Inductive node_step (n : Node) : Node -> Prop :=
| ns_ask fromAddr : node_step n (ask_user n fromAddr).2
| ns_decide addr d r n' : decide_peer n addr d = Some (r, n') -> node_step n n'
| ns_await ch timeout d n' : await_user n ch timeout = Some (d, n') -> node_step n n'.

Lemma decide_peer_spec n addr d : pending_ok (n_pending n) ->
  exists r n', decide_peer n addr d = Some (r, n') /\ pending_ok (n_pending n') /\ n_bus n' = n_bus n /\
    match p_table (n_pending n) !! addr with
    | Some ch => r = Ok tt /\ n_pending n' = mkPending (delete addr (p_table (n_pending n))) (<[ch := Chan.mk 1 [d] false]> (p_chans (n_pending n)))
    | None => r = Err ErrNoPending /\ n' = n
    end.
Proof.
  intros Hok. unfold decide_peer. destruct (p_table (n_pending n) !! addr) as [ch|] eqn:Ha.
  - destruct (take_offer (n_pending n) addr ch d Hok Ha) as (Ht & Ho & Hpo & _).
    unfold take in *. cbn [fst snd] in *. rewrite Ha. rewrite Ho in Hpo |- *. eexists _, _. split; [reflexivity|].
    split_and!; [exact Hpo|done|done|done].
  - unfold take. rewrite Ha, delete_id by done. eexists _, _. split; [reflexivity|].
    assert (set_node_pending n (n_bus n) (mkPending (p_table (n_pending n)) (p_chans (n_pending n))) = n) as ->
      by (destruct n as [? ? ? ? ? ? ? ? ? ? ? ? ? []]; done). done.
Qed.

Lemma node_step_ok n n' : pending_ok (n_pending n) -> node_step n n' -> pending_ok (n_pending n').
Proof.
  intros Hok [fromAddr|addr d r n2 Hd|ch timeout d n2 Ha].
  - exact (put_alloc_ok (n_pending n) fromAddr Hok).
  - destruct (decide_peer_spec n addr d Hok) as (r' & n3 & He & Hp & _). rewrite He in Hd. by injection Hd as <- <-.
  - unfold await_user in Ha. destruct timeout; [by injection Ha as <- <-|].
    pose proof (receive_ok (n_pending n) ch Hok) as Hr. destruct (receive (n_pending n) ch) as [[d'|] p]; [|done].
    by injection Ha as <- <-.
Qed.

(** A channel no request of the table has, with nothing in it. *)
Definition abandoned (ch : nat) (n : Node) : Prop :=
  p_chans (n_pending n) !! ch = Some (Chan.make 1) /\ forall a, p_table (n_pending n) !! a <> Some ch.

Lemma abandoned_step ch n n' : pending_ok (n_pending n) -> abandoned ch n -> node_step n n' -> abandoned ch n'.
Proof.
  intros Hok [Hc Hn] [fromAddr|addr d r n2 Hd|ch2 timeout d n2 Ha].
  - assert (ch < length (p_chans (n_pending n)))%nat as Hlt by (by eapply lookup_lt_Some). split; cbn.
    + by rewrite lookup_app_l by done.
    + intros a [[_ Heq]|[_ Ha]]%lookup_insert_Some; [lia|by eapply Hn].
  - destruct (decide_peer_spec n addr d Hok) as (r' & n3 & He & _ & _ & Hr). rewrite He in Hd. injection Hd as <- <-.
    destruct (p_table (n_pending n) !! addr) as [ch2|] eqn:Ha; [|by destruct Hr as [_ ->]].
    destruct Hr as [_ Hp]. unfold abandoned. rewrite Hp. cbn. split.
    + rewrite list_lookup_insert_ne; [done|]. intros ->. by apply (Hn addr).
    + intros a [_ Hin]%lookup_delete_Some. by eapply Hn.
  - unfold await_user in Ha. destruct timeout; [by injection Ha as <- <-|]. unfold receive in Ha.
    destruct (p_chans (n_pending n) !! ch2) as [c|] eqn:Hc2; [|done]. cbn [mbind option_bind] in Ha.
    destruct (Chan.try_recv c) as [[d' c']|] eqn:Hr; [|done]. injection Ha as <- <-. split; cbn; [|done].
    rewrite list_lookup_insert_ne; [done|]. intros ->. rewrite Hc in Hc2. by injection Hc2 as <-.
Qed.

(** The user's decisions.  In every state the node can get into, deciding on an address
    never blocks; when a request of the address is pending, exactly the handler of its latest
    request gets the decision and the request is done; otherwise the call fails and changes
    nothing.  But the table is keyed by the claimed address: when a second request names the
    same address, the first one's handler is cut off and, whatever the user does from then on,
    can only time out. *)
Theorem node_decisions n0 n addr d (Hnew : n_pending n0 = no_pending) (Hreach : star node_step n0 n) :
  (exists r n', decide_peer n addr d = Some (r, n') /\
     match p_table (n_pending n) !! addr with
     | Some ch => r = Ok tt /\ p_table (n_pending n') !! addr = None /\ (exists n2, await_user n' ch false = Some (d, n2)) /\
         (forall ch', ch' <> ch -> p_chans (n_pending n') !! ch' = p_chans (n_pending n) !! ch')
     | None => r = Err ErrNoPending /\ n' = n
     end) /\
  (forall ch, p_table (n_pending (ask_user n addr).2) !! addr = Some ch -> ch = (ask_user n addr).1) /\
  (forall ch n', p_table (n_pending n) !! addr = Some ch -> star node_step (ask_user n addr).2 n' ->
     await_user n' ch false = None).
Proof.
  assert (pending_ok (n_pending n)) as Hok.
  { eapply (star_invariant node_step (fun n => pending_ok (n_pending n))); [|exact Hreach|].
    - intros s s'. apply node_step_ok.
    - rewrite Hnew. apply no_pending_ok. }
  split_and!.
  - destruct (decide_peer_spec n addr d Hok) as (r & n' & He & _ & _ & Hr). exists r, n'. split; [done|].
    destruct (p_table (n_pending n) !! addr) as [ch|] eqn:Ha; [|done]. destruct Hr as [-> Hp].
    assert (ch < length (p_chans (n_pending n)))%nat as Hlt.
    { destruct (po_fresh _ Hok addr ch Ha) as (c & Hc & _). by eapply lookup_lt_Some. }
    split_and!; [done|rewrite Hp; apply lookup_delete_eq| |].
    + unfold await_user, receive. rewrite Hp. cbn [p_chans]. rewrite list_lookup_insert_eq by done. by eexists.
    + intros ch' Hne. rewrite Hp. by apply list_lookup_insert_ne.
  - cbn. rewrite lookup_insert_eq. by intros ch [= <-].
  - intros ch n' Ha Hst.
    assert (abandoned ch (ask_user n addr).2) as Hab.
    { destruct (po_fresh _ Hok addr ch Ha) as (c & Hc & ->). split; cbn.
      - apply lookup_app_l_Some. exact Hc.
      - intros b [[<- Heq]|[Hne Hb]]%lookup_insert_Some; [apply lookup_lt_Some in Hc; lia|].
        by apply Hne, (po_inj _ Hok addr b ch). }
    assert (abandoned ch n' /\ pending_ok (n_pending n')) as [[Hc _] _].
    { eapply (star_invariant node_step (fun n => abandoned ch n /\ pending_ok (n_pending n))); [|exact Hst|].
      - intros s s' [H1 H2] Hs. split; [by eapply abandoned_step|by eapply node_step_ok].
      - split; [done|]. exact (put_alloc_ok (n_pending n) addr Hok). }
    unfold await_user, receive. rewrite Hc. done.
Qed.
End node.

Section samples.
Import Toy.

Definition sample_node : @Node string := New (sample_keypair 1).
Definition asked_once := (ask_user id sample_node "Eada").2.

(** Ada asks twice; the user accepts; the first request still waits. *)
Lemma node_decisions_witness :
  p_table (n_pending asked_once) !! "Eada"%string = Some 0%nat /\
  await_user (ask_user id asked_once "Eada").2 0 false = None.
Proof.
  assert (star (node_step id) sample_node asked_once) as Hr.
  { eapply star_step; [apply (ns_ask id sample_node "Eada")|apply star_refl]. }
  assert (p_table (n_pending asked_once) !! "Eada"%string = Some 0%nat) as Ht by (vm_compute; reflexivity).
  split; [exact Ht|].
  destruct (node_decisions id sample_node asked_once "Eada" (mkConnDecision true "") eq_refl Hr) as (_ & _ & H).
  exact (H 0%nat _ Ht (star_refl _ _)).
Defined.
End samples.
