(* ===== verification/Api.v ===== *)
(** * internal/api/server.go: the gRPC methods on the node

    Each method translates a call to the node; an error becomes a gRPC status. *)

From S2P Require Import Contacts Prelude GoStd Sha256 Crypto Protocol Instances Identity Wire IPExchange Services Signaling Session Routing Dht Events Chunker Keystore Connector Discovery Pending ApiEvents Node.
Local Open Scope go_scope.

Abbreviation DaemonNode := (Node (P := payload)).

(** ** Statuses *)

Inductive code := FailedPrecondition | Internal | NotFound.

Inductive reason := ContactsMissing | SavingContacts | NodeError (e : node_err).

Record status := mkStatusOf { st_Code : code; st_Reason : reason }.

(** [status.Errorf(code, ..., err)] when the node fails. *)
Definition with_code {A} (c : code) (r : result node_err A) : result status A :=
  match r with Ok a => Ok a | Err e => Err (mkStatusOf c (NodeError e)) end.

(** The answers of the disk when contacts are saved. *)
Record disk_env := mkDisk { dk_mkdir : bool; dk_write : write_outcome }.

(** ** Responses *)

Record GetStatusResponse := mkGetStatus { gs_TorState : string; gs_OnionAddr : string; gs_PeerCount : Z; gs_RtSize : Z }.
Record GetDebugInfoResponse := mkGetDebug {
  gd_RtSize : Z; gd_OnionAddr : string; gd_RtPeers : list (string * string * Z); gd_Connections : list (string * string) }.
Record ContactInfo := mkContactInfo {
  ci_Address : string; ci_Alias : string; ci_PublicKey : bytes; ci_OnionAddress : string; ci_AddedAt : Z; ci_LastSeen : Z }.
(** [cr_Message]: "connected", or the text of the error. *)
Record ConnectResponse := mkConnectResponse { cr_Accepted : bool; cr_Message : option node_err }.
(** A [pb.TransferProgress] with the fields the server fills in. *)
Record TransferProgress := mkTransferProgress { tp_TransferId : string; tp_Complete : bool }.

(** ** Methods *)

(** src: internal/api/server.go 77-83 Server.GetIdentity *)
Definition GetIdentity (n : DaemonNode) : string * bytes := (n_address n, PublicKey (n_keypair n)).

(** src: internal/api/server.go 86-93 Server.GetStatus *)
Definition GetStatus (n : DaemonNode) : GetStatusResponse :=
  mkGetStatus (n_torState n) (n_onionAddr n) (PeerCount n) (i32 (Z.of_nat (node_RTSize n))).

(** src: internal/api/server.go 95-116 Server.GetDebugInfo *)
Definition api_GetDebugInfo (n : DaemonNode) : GetDebugInfoResponse :=
  let info := GetDebugInfo n in
  mkGetDebug (i32 (Z.of_nat (di_RTSize info))) (di_OnionAddr info) (di_RTPeers info) (di_Connections info).

(** The key, the onion and the times are not filled in. *)
(** src: internal/api/server.go 125-139 Server.ListContacts *)
Definition ListContacts (n : DaemonNode) : list ContactInfo :=
  match n_contacts n with
  | None => []
  | Some cs => (fun c => mkContactInfo (ct_Address c) (ct_Alias c) [] "" 0 0) <$> Contacts.List_ cs
  end.

Section contacts.
Context (utf8 : string -> string).

(** Saving after a change: the change stays in memory when the save fails. *)
Definition save_contacts (n : DaemonNode) (cs : Store) (disk : disk_env) : result status unit * DaemonNode :=
  let '(ok, cs) := Contacts.Save utf8 cs (dk_mkdir disk) (dk_write disk) in
  (if ok then Ok tt else Err (mkStatusOf Internal SavingContacts), SetContacts n cs).

(** src: internal/api/server.go 141-155 Server.AddContact *)
Definition AddContact (n : DaemonNode) (address alias : string) (publicKey : bytes) (now : Z) (disk : disk_env) :
    result status unit * DaemonNode :=
  match n_contacts n with
  | None => (Err (mkStatusOf FailedPrecondition ContactsMissing), n)
  | Some cs => save_contacts n (Contacts.Add cs (mkContact address alias publicKey "" GoTime.zero GoTime.zero) now) disk
  end.

(** src: internal/api/server.go 157-166 Server.RemoveContact *)
Definition RemoveContact (n : DaemonNode) (address : string) (disk : disk_env) : result status unit * DaemonNode :=
  match n_contacts n with
  | None => (Err (mkStatusOf FailedPrecondition ContactsMissing), n)
  | Some cs => save_contacts n (Contacts.Remove cs address).2 disk
  end.
End contacts.

Section calls.
Context `{Proto DHTFindNode, Proto DHTNodeResponse, Proto DHTPutRecord, Base58}.

(** A failed connection is an answer, not an error. *)
(** src: internal/api/server.go 171-184 Server.Connect *)
Definition api_Connect (n : DaemonNode) (address : string) (env : connect_env) : ConnectResponse * DaemonNode :=
  let '(r, n) := node_Connect n address env in
  (match r with Err e => mkConnectResponse false (Some e) | Ok _ => mkConnectResponse true None end, n).

(** src: internal/api/server.go 235-241 Server.AddNode *)
Definition api_AddNode (n : DaemonNode) (utf8 : string -> string) (now : Z) (seed : dialed) (net : nat -> dialed) (disk_ok : bool) :
    result status Z * DaemonNode :=
  let '(r, n) := node_AddNode n utf8 now seed net disk_ok in
  (match with_code Internal r with Ok k => Ok (i32 (Z.of_nat k)) | Err e => Err e end, n).
End calls.

(** [None]: the node's call blocks. *)
(** src: internal/api/server.go 186-191 Server.AcceptConnection *)
Definition api_AcceptConnection (n : DaemonNode) (address : string) : option (result status unit * DaemonNode) :=
  '(r, n) ← AcceptConnection n address; Some (with_code NotFound r, n).

(** src: internal/api/server.go 193-198 Server.RejectConnection *)
Definition api_RejectConnection (n : DaemonNode) (address : string) : option (result status unit * DaemonNode) :=
  '(r, n) ← RejectConnection n address "rejected by user"; Some (with_code NotFound r, n).

(** src: internal/api/server.go 200-206 Server.SendMessage *)
Definition api_SendMessage (n : DaemonNode) (address text : string) : result status string :=
  with_code Internal (node_SendMessage n address text).

(** The messages the stream gets. *)
(** src: internal/api/server.go 208-219 Server.SendFile *)
Definition api_SendFile (n : DaemonNode) (address filePath : string) : result status TransferProgress :=
  transferID <-? with_code Internal (node_SendFile n address filePath);
  Ok (mkTransferProgress transferID true).

(** src: internal/api/server.go 221-226 Server.AcceptFile *)
Definition api_AcceptFile (n : DaemonNode) (transferId savePath : string) : result status unit :=
  with_code Internal (node_AcceptFile n transferId savePath).

(** src: internal/api/server.go 228-233 Server.RejectFile *)
Definition api_RejectFile (n : DaemonNode) (transferId : string) : result status unit :=
  with_code Internal (node_RejectFile n transferId "rejected by user").
