(* ===== verification/Wiring.v ===== *)
(** * internal/daemon/daemon.go: the services once Tor is up

    The goroutine of [startTor] and [wireSubsystems]: the registry, the node's own service, the
    hooks that bind each registered service to the signaling server, and the API server that
    hands the registry to gRPC clients, with the orders they can happen in. *)

From S2P Require Import Prelude GoStd Sha256 Crypto Protocol Instances Identity Wire Handshake IPExchange Services Signaling Session Routing Dht Events Chunker Keystore Tor Pending RegisterService ApiEvents Node Api.
Local Open Scope go_scope.

(** ** The engine's listeners *)

(** What the daemon needs from the engine besides the registry's interface: whether there is a
    listener for a name. *)
Class OnionListeners (E : Type) := has_listener : E -> string -> bool.
Class OnionListenersOk (E : Type) `{OnionEngine E, OnionListeners E} : Prop :=
  has_listener_running e n : has_listener e n = true <-> is_Some (running e n).

#[export] Instance engine_listeners {T} `{TorProcessOk T} : OnionListeners (EngineHost (T := T)) :=
  fun h n => bool_decide (is_Some (Tor.OnionListener (eh_engine h) n)).

#[export] Instance engine_listeners_ok {T} `{TorProcessOk T} : OnionListenersOk (EngineHost (T := T)).
Proof.
  intros h n. unfold has_listener, engine_listeners. rewrite bool_decide_eq_true. unfold Tor.OnionListener, running.
  cbn [engine_OnionEngine]. unfold running_onions. by rewrite lookup_fmap, !fmap_is_Some.
Qed.

(** ** What the hooks do *)

Section wiring.
Context {K E D : Type} `{KeystoreI K, OnionEngine E, DiscoveryI D, Ripemd160, Base58} `{!OnionListeners E}.

(** [localAddrs] of the daemon, and the node's handler of requests. *)
Context (localAddrs : list string) (node_request : string -> option ConnectionDecision).

Abbreviation Reg := (Registry (K := K) (E := E) (D := D) (H := Signaling.Server)).

(** A registered service as the signaling server sees it. *)
(** src: internal/daemon/daemon.go 416-423 Daemon.wireSubsystems *)
Definition service_config (svc : Service) : ServiceConfig :=
  mkConfig (s_Name svc) (Some (s_Identity svc)) (s_Address svc) None (Some (serviceConnectionGate (s_Manifest svc))) true
    (Some localAddrs).

(** src: internal/daemon/daemon.go 380-388 Daemon.wireSubsystems *)
Definition node_config (nodeSvc : Service) (kp : Keypair) (addr : string) (contacts : option (string -> bool)) : ServiceConfig :=
  mkConfig (s_Name nodeSvc) (Some kp) addr contacts (Some node_request) true (Some localAddrs).

(** src: internal/daemon/daemon.go 407-428 Daemon.wireSubsystems *)
Definition bind_service (nodeName : string) (svc : Service) (te : E) (sig : Signaling.Server) : bool * Signaling.Server :=
  if bool_decide (s_Name svc = nodeName) then (true, sig)
  else if negb (has_listener te (s_Name svc)) then (false, sig)
  else let '(r, sig) := Signaling.AddService sig (service_config svc) in (is_ok r, sig).

(** src: internal/daemon/daemon.go 429-436 Daemon.wireSubsystems *)
Definition unbind_service (nodeName : string) (svc : Service) (sig : Signaling.Server) : Signaling.Server :=
  if bool_decide (s_Name svc = nodeName) then sig else (Signaling.RemoveService sig (s_Name svc)).2.

(** The registry's side of the wiring, up to the second hook; [dialer]: Tor gave a dialer; [disc]
    the discovery table after it was loaded.  [false]: the function returned early. *)
(** src: internal/daemon/daemon.go 317-428 Daemon.wireSubsystems *)
Definition wireSubsystems (r : Reg) (dialer : bool) (disc : D) (nodeSvc : Service) (kp : Keypair) (addr : string)
    (contacts : option (string -> bool)) : bool * Reg :=
  if negb dialer then (false, r)
  else
    let r := SetDiscovery r (Some disc) in
    let sig := SetEnvelopeHandler NewServer true in
    match Signaling.AddService sig (node_config nodeSvc kp addr contacts) with
    | (Err _, _) => (false, r)
    | (Ok _, sig) =>
        match Signaling.Start sig with
        | (Err _, _) => (false, r)
        | (Ok _, sig) => (true, SetOnRegister (set_host r sig) (Some (bind_service (s_Name nodeSvc))))
        end
    end.

(** src: internal/daemon/daemon.go 429-436 Daemon.wireSubsystems *)
Definition finish_wiring (r : Reg) (nodeSvc : Service) : Reg := SetOnUnregister r (Some (unbind_service (s_Name nodeSvc))).

(** ** The daemon while it runs *)

(** Where the goroutine of [startTor] is. *)
Inductive tor_phase :=
| TorWaiting              (* for Tor to be ready *)
| TorUp                   (* the registry exists and was offered to the API server *)
| NodeUp (svc : Service)  (* the node's service is registered and announced *)
| Hooked (svc : Service)  (* the signaling server runs and registrations are bound to it *)
| Wired (svc : Service)   (* and the ends of services are, too *)
| Ended.                  (* an early return *)

(** [dm_api]: [None] before [Start] makes the API server, then whether it has the registry;
    [dm_clients] the names that streams of clients have registered; [dm_left], which the code
    does not have, those that left between the two hooks. *)
(** src: internal/daemon/daemon.go 40-61 Daemon *)
Record daemon := mkDaemon {
  dm_node : DaemonNode; dm_keystore : K; dm_api : option bool; dm_registry : option Reg; dm_phase : tor_phase;
  dm_clients : gset string; dm_left : gset string }.

Definition set_reg (d : daemon) (r : Reg) (ph : tor_phase) (names : gset string) : daemon :=
  mkDaemon (dm_node d) (dm_keystore d) (dm_api d) (Some r) ph names (dm_left d).
Definition set_node (d : daemon) (n : DaemonNode) : daemon :=
  mkDaemon n (dm_keystore d) (dm_api d) (dm_registry d) (dm_phase d) (dm_clients d) (dm_left d).

Definition node_manifest : Manifest := mkManifest "primary chat + filetransfer service" ACLContacts [].

(** Tor is ready: with the node's onion, or without. *)
(** src: internal/daemon/daemon.go 260-268 Daemon.startTor *)
Definition announce_onion (n : DaemonNode) (onion : string) : DaemonNode :=
  let n := SetTorState (SetOnionAddr n onion) "ready" in
  set_node_pending n (Publish (n_bus n) (mkEvent EventTorReady (PString onion))) (n_pending n).

(** src: internal/daemon/daemon.go 247-250 Daemon.startTor *)
Definition announce_nothing (n : DaemonNode) : DaemonNode :=
  let n := SetTorState n "ready" in
  set_node_pending n (Publish (n_bus n) (mkEvent EventTorReady PNil)) (n_pending n).

(** The API server is made. *)
(** src: internal/daemon/daemon.go 178-178 Daemon.Start *)
Definition make_api (d : daemon) : daemon :=
  mkDaemon (dm_node d) (dm_keystore d) (Some false) (dm_registry d) (dm_phase d) (dm_clients d) (dm_left d).

(** Tor is ready: the registry is made, and given to the API server if there is one. *)
(** src: internal/daemon/daemon.go 236-240 Daemon.startTor *)
Definition tor_ready (d : daemon) (te : E) : daemon :=
  mkDaemon (dm_node d) (dm_keystore d) ((fun _ => true) <$> dm_api d) (Some (Services.New (dm_keystore d) te NewServer))
    TorUp (dm_clients d) (dm_left d).

(** src: internal/daemon/daemon.go 242-268 Daemon.startTor *)
Definition register_node (d : daemon) (r : Reg) (handlers : option HandlerSet) : daemon :=
  match Services.Register id r NodeService node_manifest handlers with
  | (Err _, r) => set_node (set_reg d r Ended (dm_clients d)) (announce_nothing (dm_node d))
  | (Ok svc, r) =>
      if has_listener (w_te r) NodeService
      then set_node (set_reg d r (NodeUp svc) (dm_clients d)) (announce_onion (dm_node d) (s_OnionAddr svc))
      else set_node (set_reg d r Ended (dm_clients d)) (announce_nothing (dm_node d))
  end.

(** A client opens the stream of a service; what it gets is the status of the call. *)
(** src: internal/api/registerservice.go 114-164 Server.RegisterService *)
Definition client_register (d : daemon) (first : option (option ServiceManifest)) (handlers : option HandlerSet) :
    result rpc_status Service * daemon :=
  match dm_api d, dm_registry d with
  | Some true, Some r =>
      let '(res, r) := open_stream (Some (fun r name m => Services.Register id r name m handlers)) r first in
      (res, set_reg d r (dm_phase d) (match res with Ok svc => {[s_Name svc]} ∪ dm_clients d | Err _ => dm_clients d end))
  | _, _ => ((open_stream (S := unit) None tt first).1, d)
  end.

(** The stream of a client ends. *)
(** src: internal/api/registerservice.go 165-170 Server.RegisterService *)
Definition client_leaves (d : daemon) (r : Reg) (name : string) : daemon :=
  mkDaemon (dm_node d) (dm_keystore d) (dm_api d) (Some (Services.Unregister r name).2) (dm_phase d) (dm_clients d ∖ {[name]})
    (match dm_phase d with Hooked _ => {[name]} ∪ dm_left d | _ => dm_left d end).

(** src: internal/daemon/daemon.go 270-271 Daemon.startTor *)
Definition wire_node (d : daemon) (r : Reg) (svc : Service) (dialer : bool) (disc : D) (contacts : option (string -> bool)) : daemon :=
  let '(wired, r) := wireSubsystems r dialer disc svc (n_keypair (dm_node d)) (n_address (dm_node d)) contacts in
  set_reg d r (if wired then Hooked svc else Ended) (dm_clients d).

(** [Start] and the goroutine of [startTor] side by side with the clients of the API. *)
Inductive daemon_step (d : daemon) : daemon -> Prop :=
| ds_api : dm_api d = None -> daemon_step d (make_api d)
| ds_ready te : dm_phase d = TorWaiting -> (forall n, running te n = None) -> daemon_step d (tor_ready d te)
| ds_node r handlers : dm_phase d = TorUp -> dm_registry d = Some r -> daemon_step d (register_node d r handlers)
| ds_wire r svc dialer disc contacts : dm_phase d = NodeUp svc -> dm_registry d = Some r ->
    daemon_step d (wire_node d r svc dialer disc contacts)
| ds_hook r svc : dm_phase d = Hooked svc -> dm_registry d = Some r ->
    daemon_step d (set_reg d (finish_wiring r svc) (Wired svc) (dm_clients d))
| ds_register first handlers : daemon_step d (client_register d first handlers).2
| ds_leave r name : name ∈ dm_clients d -> dm_registry d = Some r -> daemon_step d (client_leaves d r name).

(** A daemon whose [Start] has come to [startTor]: the node has the keystore's key. *)
Record daemon_initial (d : daemon) : Prop := {
  di_phase : dm_phase d = TorWaiting;
  di_registry : dm_registry d = None;
  di_api : dm_api d = None;
  di_clients : dm_clients d = ∅;
  di_left : dm_left d = ∅;
  di_key : ks_stored (dm_keystore d) NodeService = Some (n_keypair (dm_node d));
  di_address : n_address (dm_node d) = DeriveAddress (PublicKey (n_keypair (dm_node d)))
}.
End wiring.

(** ** Every registered service is served *)

Section claims.
Context {K E D : Type} `{KeystoreIOk K, OnionEngineOk E, DiscoveryI D, Ripemd160, Base58Ok}.
Context `{!OnionListeners E, !OnionListenersOk E}.
Context (localAddrs : list string) (node_request : string -> option ConnectionDecision).

Abbreviation Reg := (Registry (K := K) (E := E) (D := D) (H := Signaling.Server)).
Implicit Types (r : Reg) (sig : Signaling.Server).

Abbreviation bind_service := (bind_service (E := E) localAddrs).

(** The server runs. *)
Definition up sig : Prop := sv_started sig = true /\ sv_stopped sig = false.

Lemma AddService_up sig cfg res sig' : up sig -> Signaling.AddService sig cfg = (res, sig') ->
  up sig' /\
  match res with
  | Ok _ => sv_services sig !! cfg_Name cfg = None /\
            sv_services sig' = <[cfg_Name cfg := mkState cfg true false]> (sv_services sig)
  | Err _ => sig' = sig
  end.
Proof.
  intros [Hs Hp]. unfold Signaling.AddService. case_bool_decide; [by intros [= <- <-]|].
  destruct (cfg_Keypair cfg); [|by intros [= <- <-]]. case_bool_decide; [by intros [= <- <-]|].
  destruct (negb (cfg_Listener cfg)); [by intros [= <- <-]|]. rewrite Hp.
  destruct (sv_services sig !! cfg_Name cfg) eqn:Hn; [by intros [= <- <-]|]. rewrite Hs. by intros [= <- <-].
Qed.

Lemma AddService_fresh sig cfg kp : up sig -> cfg_Keypair cfg = Some kp -> cfg_Name cfg <> ""%string -> cfg_Address cfg <> ""%string ->
  cfg_Listener cfg = true -> sv_services sig !! cfg_Name cfg = None -> is_ok (Signaling.AddService sig cfg).1 = true.
Proof.
  intros [Hs Hp] Hk Hn Ha Hl Hf. unfold Signaling.AddService. by rewrite !bool_decide_eq_false_2, Hk, Hl, Hp, Hf by done.
Qed.

(** A service as the server serves it. *)
Definition served_as (svc : Service) : serviceState := mkState (service_config localAddrs svc) true false.

Lemma bind_service_up node svc te sig b sig' : up sig -> bind_service node svc te sig = (b, sig') ->
  up sig' /\
  if decide (s_Name svc = node) then b = true /\ sig' = sig
  else if b then sv_services sig !! s_Name svc = None /\ sv_services sig' = <[s_Name svc := served_as svc]> (sv_services sig)
  else sig' = sig.
Proof.
  intros Hup. unfold Wiring.bind_service. case_bool_decide as Hn.
  { intros [= <- <-]. by rewrite decide_True. }
  rewrite decide_False by done. destruct (negb (has_listener te _)); [by intros [= <- <-]|].
  destruct (Signaling.AddService sig _) as [res sig1] eqn:Ha. apply AddService_up in Ha as [Hup' Hr]; [|done].
  intros [= <- <-]. by destruct res.
Qed.

(** What [SetOnRegister] replays. *)
Lemma replay_spec node te l sig : up sig -> NoDup (s_Name <$> l) ->
  (forall svc, svc ∈ l -> s_Name svc <> node ->
     has_listener te (s_Name svc) = true /\ s_Name svc <> ""%string /\ s_Address svc <> ""%string /\
     sv_services sig !! s_Name svc = None) ->
  let sig' := fold_left (fun h svc => (bind_service node svc te h).2) l sig in
  up sig' /\
  (forall svc, svc ∈ l -> s_Name svc <> node -> sv_services sig' !! s_Name svc = Some (served_as svc)) /\
  (forall n, n = node \/ n ∉ s_Name <$> l -> sv_services sig' !! n = sv_services sig !! n).
Proof.
  revert sig. induction l as [|svc l IH]; intros sig Hup Hnd Hl; [split; [done|]; split; [by intros ? ?%elem_of_nil|done]|].
  rewrite fmap_cons in Hnd. apply NoDup_cons in Hnd as [Hsvc Hnd]. cbn [fold_left].
  destruct (bind_service node svc te sig) as [b sig1] eqn:Hb.
  pose proof (bind_service_up _ _ _ _ _ _ Hup Hb) as [Hup1 Hr]. cbn [snd].
  assert (forall n, n <> s_Name svc -> sv_services sig1 !! n = sv_services sig !! n) as Hother.
  { intros n Hn. destruct (decide _); [by destruct Hr as [_ ->]|]. destruct b; [|by rewrite Hr].
    destruct Hr as [_ ->]. by rewrite lookup_insert_ne. }
  assert (s_Name svc <> node -> b = true) as Hok.
  { intros Hn. destruct (Hl svc) as (Hli & Hne & Ha & Hf); [apply elem_of_cons; by left|done|].
    revert Hb. unfold Wiring.bind_service. rewrite bool_decide_eq_false_2, Hli by done. cbn [negb].
    pose proof (AddService_fresh sig (service_config localAddrs svc) (s_Identity svc) Hup eq_refl Hne Ha eq_refl Hf) as Hok.
    destruct (Signaling.AddService _ _). by intros [= <- _]. }
  destruct (IH sig1 Hup1 Hnd) as (Hup2 & Hin & Hout).
  { intros s Hs Hn. destruct (Hl s) as (? & ? & ? & Hf); [apply elem_of_cons; by right|done|]. do 3 (split; [done|]).
    rewrite Hother; [done|]. intros Heq. apply Hsvc. rewrite <- Heq. by apply list_elem_of_fmap_2. }
  split; [done|]. split.
  - intros s [->|Hs]%elem_of_cons Hn; [|by apply Hin]. rewrite Hout by (by right).
    rewrite decide_False, (Hok Hn) in Hr by done. destruct Hr as [_ ->]. apply lookup_insert_eq.
  - intros n Hn. rewrite Hout.
    + destruct (decide (s_Name svc = node)) as [Hs|Hs]; [by destruct Hr as [_ ->]|]. apply Hother.
      destruct Hn as [-> | Hn]; [congruence|]. rewrite fmap_cons, not_elem_of_cons in Hn. tauto.
    + destruct Hn as [-> | Hn]; [by left|right]. rewrite fmap_cons, not_elem_of_cons in Hn. tauto.
Qed.

Lemma existing_names r : registry_ok r -> NoDup (s_Name <$> existing r) /\ forall svc, svc ∈ existing r <-> byName r !! s_Name svc = Some svc.
Proof.
  intros Hok. unfold existing.
  assert (forall n svc, (n, svc) ∈ map_to_list (byName r) -> s_Name svc = n) as Hn.
  { intros n svc Hin%elem_of_map_to_list. by apply (ro_name _ Hok) in Hin as (? & _). }
  split.
  - rewrite <- list_fmap_compose, (list_fmap_ext _ fst (map_to_list (byName r))); [apply NoDup_fst_map_to_list|].
    intros i [n svc] Hi. cbn. apply Hn. by eapply list_elem_of_lookup_2.
  - intros svc. rewrite list_elem_of_fmap. split.
    + intros ([n s] & -> & Hin). cbn. rewrite (Hn _ _ Hin). by apply elem_of_map_to_list.
    + intros Hs. exists (s_Name svc, svc). split; [done|]. by apply elem_of_map_to_list.
Qed.

(** ** The invariant of the daemon *)

(** The signaling server serves the registered services as they are, except the node's own, and
    besides them only names in [left]. *)
Definition bound r (left : gset string) : Prop :=
  up (w_host r) /\ forall n, n <> NodeService ->
    match byName r !! n with
    | Some svc => sv_services (w_host r) !! n = Some (served_as svc)
    | None => is_Some (sv_services (w_host r) !! n) -> n ∈ left
    end.

(** The node's service has the node's key and onion, and no client holds its name. *)
Record node_up (n : DaemonNode) (clients : gset string) r (svc : Service) : Prop := {
  nu_name : s_Name svc = NodeService;
  nu_registered : byName r !! NodeService = Some svc;
  nu_key : s_Identity svc = n_keypair n;
  nu_onion : n_onionAddr n = s_OnionAddr svc;
  nu_free : NodeService ∉ clients
}.

(** And is served with its own handler. *)
Definition node_served (n : DaemonNode) r (svc : Service) : Prop :=
  exists contacts, sv_services (w_host r) !! NodeService =
    Some (mkState (node_config localAddrs node_request svc (n_keypair n) (n_address n) contacts) true false).

Definition phase_ok (n : DaemonNode) (clients left : gset string) r (ph : tor_phase) : Prop :=
  match ph with
  | TorWaiting => False
  | TorUp | Ended => onRegister r = None /\ onUnregister r = None
  | NodeUp svc => onRegister r = None /\ onUnregister r = None /\ node_up n clients r svc
  | Hooked svc => onRegister r = Some (bind_service NodeService) /\ onUnregister r = None /\ node_up n clients r svc /\
      node_served n r svc /\ bound r left
  | Wired svc => onRegister r = Some (bind_service NodeService) /\ onUnregister r = Some (unbind_service NodeService) /\
      node_up n clients r svc /\ node_served n r svc /\ bound r left
  end.

Abbreviation daemon := (daemon (K := K) (E := E) (D := D)).
Implicit Types d : daemon.

Record daemon_ok d : Prop := {
  ok_address : n_address (dm_node d) = DeriveAddress (PublicKey (n_keypair (dm_node d)));
  ok_state : match dm_registry d with
    | None => dm_phase d = TorWaiting /\ dm_clients d = ∅ /\
        ks_stored (dm_keystore d) NodeService = Some (n_keypair (dm_node d))
    | Some r => registry_ok r /\ byName r !! ""%string = None /\ (forall n, n ∈ dm_clients d -> is_Some (byName r !! n)) /\
        ks_stored (w_ks r) NodeService = Some (n_keypair (dm_node d)) /\
        phase_ok (dm_node d) (dm_clients d) (dm_left d) r (dm_phase d)
    end
}.

Lemma initial_ok d : daemon_initial d -> daemon_ok d.
Proof. intros [Hp Hr Ha Hc Hl Hk Had]. split; [done|]. by rewrite Hr. Qed.

Lemma New_ok ks (te : E) : registry_ok (Services.New ks te NewServer : Reg).
Proof. by constructor. Qed.

(** A registration that succeeds, in each phase. *)
Lemma Register_phase n clients left r ph name m h svc r' :
  registry_ok r -> phase_ok n clients left r ph ->
  Services.Register id r name m h = (Ok svc, r') -> name <> ""%string ->
  (match ph with TorUp | Ended => True | _ => name <> NodeService end -> phase_ok n ({[name]} ∪ clients) left r' ph) /\
  byName r' !! name = Some svc /\ s_Name svc = name /\ registry_ok r' /\ (forall k, k <> name -> byName r' !! k = byName r !! k).
Proof.
  intros Hok Hph Hreg Hne. pose proof (Register_sequential_Ok _ _ _ _ _ _ Hok Hreg) as (Hok' & Hn & Hg & _ & _ & Ho & _).
  unfold Services.Get in Hn, Hg, Ho. pose proof (Register_host _ _ _ _ _ _ Hreg) as (Hr & Hu & Hh).
  assert (s_Name svc = name) as Hs by apply (ro_name _ Hok' _ _ Hg).
  split; [|done]. intros Hname.
  assert (forall s, name <> NodeService -> node_up n clients r s -> node_up n ({[name]} ∪ clients) r' s) as Hup.
  { intros s Hnn [N1 N2 N3 N4 N5]. split; [done| |done|done|set_solver]. by rewrite Ho. }
  assert (forall s, name <> NodeService -> onRegister r = Some (bind_service NodeService) -> node_served n r s -> bound r left ->
    node_served n r' s /\ bound r' left) as Hbind.
  { intros s Hnn Hhook [contacts Hc] [Hup' Hb]. rewrite Hhook in Hh. destruct Hh as (te & Hh & _).
    apply bind_service_up in Hh as [Hup1 Hi]; [|done]. rewrite decide_False in Hi by congruence. destruct Hi as [Hf Hi].
    rewrite Hs in Hf, Hi. split.
    - exists contacts. by rewrite Hi, lookup_insert_ne.
    - split; [done|]. intros k Hk. rewrite Hi. destruct (decide (k = name)) as [->|Hkn].
      + by rewrite Hg, lookup_insert_eq.
      + rewrite Ho, lookup_insert_ne by done. by apply Hb. }
  destruct ph; cbn [phase_ok] in *; rewrite ?Hr, ?Hu; try done.
  - destruct Hph as (? & ? & ?). auto.
  - destruct Hph as (? & ? & ? & ? & ?). destruct (Hbind svc0); auto.
  - destruct Hph as (? & ? & ? & ? & ?). destruct (Hbind svc0); auto.
Qed.

(** One that fails changes nothing that counts. *)
Lemma Register_failed n clients left r ph name m h e r' :
  registry_ok r -> phase_ok n clients left r ph -> Services.Register id r name m h = (Err e, r') ->
  phase_ok n clients left r' ph /\ registry_ok r' /\ byName r' = byName r.
Proof.
  intros Hok Hph Hreg. pose proof (Register_sequential_Err _ _ _ _ _ _ Hok Hreg) as (E1 & E2 & E3).
  pose proof (Register_host _ _ _ _ _ _ Hreg) as (Hr & Hu & Hh).
  split; [|split; [|done]].
  2: { apply (registry_ok_maps r); [done..|]. intros; apply E3. }
  assert (forall s, node_up n clients r s -> node_up n clients r' s) as Hup.
  { intros s [N1 N2 N3 N4 N5]. split; try done. by rewrite E1. }
  assert (onRegister r = Some (bind_service NodeService) -> bound r left -> w_host r' = w_host r) as Hhost.
  { intros Hhook [Hu' _]. destruct Hh as [?|(hook & svc & te & Hhk & Hk)]; [done|]. rewrite Hhook in Hhk. injection Hhk as <-.
    apply bind_service_up in Hk as [_ Hk]; [|done]. destruct (decide _); [by destruct Hk|done]. }
  destruct ph; cbn [phase_ok] in *; rewrite ?Hr, ?Hu; try done.
  - destruct Hph as (? & ? & ?). auto.
  - destruct Hph as (Hhook & ? & ? & ? & ?). unfold node_served, bound. rewrite E1, Hhost by done. auto.
  - destruct Hph as (Hhook & ? & ? & ? & ?). unfold node_served, bound. rewrite E1, Hhost by done. auto.
Qed.

Lemma Unregister_phase n clients left r ph name :
  registry_ok r -> phase_ok n clients left r ph -> name ∈ clients -> (forall n, n ∈ clients -> is_Some (byName r !! n)) ->
  let r' := (Services.Unregister r name).2 in
  phase_ok n (clients ∖ {[name]}) (match ph with Hooked _ => {[name]} ∪ left | _ => left end) r' ph /\
  registry_ok r' /\ byName r' !! name = None /\ (forall k, k <> name -> byName r' !! k = byName r !! k).
Proof.
  intros Hok Hph Hin Hreg. destruct (Services.Unregister r name) as [res r'] eqn:Hun. cbn [snd].
  destruct (Unregister_spec _ _ _ _ Hok Hun) as [Hok' Hm]. pose proof (Unregister_host _ _ _ _ Hun) as (Hr & Hu & Hh).
  destruct (Hreg name Hin) as [svc Hs]. rewrite Hs in Hm, Hh. destruct Hm as (Hn & _ & _ & Ho). unfold Services.Get in Hn, Ho.
  split; [|done].
  assert (forall s, node_up n clients r s -> name <> NodeService /\ node_up n (clients ∖ {[name]}) r' s) as Hup.
  { intros s [N1 N2 N3 N4 N5]. assert (name <> NodeService) as Hne by congruence.
    split; [done|]. split; [done| |done|done|set_solver]. by rewrite Ho. }
  assert (s_Name svc = name) as Hname by apply (ro_name _ Hok _ _ Hs).
  destruct ph; cbn [phase_ok] in *; rewrite ?Hr, ?Hu; try done.
  - destruct Hph as (? & ? & Hnu). split; [done|]. split; [done|]. by apply Hup.
  - destruct Hph as (? & Hno & Hnu & Hse & Hb). rewrite Hno in Hh. destruct (Hup _ Hnu) as [Hne Hnu'].
    split; [done|]. split; [done|]. split; [done|]. split; [unfold node_served; by rewrite Hh|].
    destruct Hb as [Hup' Hb]. unfold bound. rewrite Hh. split; [done|]. intros k Hk.
    destruct (decide (k = name)) as [->|Hkn]; [rewrite Hn; set_solver|]. rewrite Ho by done. specialize (Hb k Hk).
    destruct (byName r !! k); [done|]. set_solver.
  - destruct Hph as (? & Hno & Hnu & Hse & Hb). rewrite Hno in Hh. destruct (Hup _ Hnu) as [Hne Hnu'].
    destruct Hb as [Hup' Hb]. assert (sv_services (w_host r) !! name = Some (served_as svc)) as Hsv by (specialize (Hb name Hne); by rewrite Hs in Hb).
    assert (sv_services (w_host r') = delete name (sv_services (w_host r)) /\ up (w_host r')) as [Hd Hup2].
    { rewrite Hh. unfold unbind_service. rewrite bool_decide_eq_false_2 by congruence.
      unfold Signaling.RemoveService. rewrite Hname, Hsv. by destruct Hup'. }
    split; [done|]. split; [done|]. split; [done|]. split.
    + destruct Hse as [contacts Hc]. exists contacts. by rewrite Hd, lookup_delete_ne.
    + split; [done|]. intros k Hk. rewrite Hd. destruct (decide (k = name)) as [->|Hkn].
      { rewrite Hn, lookup_delete_eq. by intros [? ?]. }
      rewrite Ho, lookup_delete_ne by done. by apply Hb.
Qed.

(** The wiring of a registry whose node service is up. *)
Lemma wire_phase n clients left r svc dialer disc contacts wired r' :
  registry_ok r -> byName r !! ""%string = None -> n_address n = DeriveAddress (PublicKey (n_keypair n)) ->
  phase_ok n clients left r (NodeUp svc) ->
  wireSubsystems localAddrs node_request r dialer disc svc (n_keypair n) (n_address n) contacts = (wired, r') ->
  phase_ok n clients left r' (if wired then Hooked svc else Ended) /\ registry_ok r' /\ byName r' = byName r /\ w_ks r' = w_ks r.
Proof.
  intros Hok Hempty Haddr (Hr & Hu & Hnu). unfold wireSubsystems. destruct dialer; cbn [negb]; [|by intros [= <- <-]].
  set (cfg := node_config _ _ _ _ _ _). cbn [SetDiscovery].
  assert (Signaling.AddService (SetEnvelopeHandler NewServer true) cfg =
    (Ok tt, mkServer NewNonceCache false false {[NodeService := mkState cfg false false]} true [])) as ->.
  { unfold Signaling.AddService. cbn [cfg node_config cfg_Name cfg_Keypair cfg_Address cfg_Listener].
    rewrite (nu_name _ _ _ _ Hnu), bool_decide_eq_false_2 by done.
    rewrite bool_decide_eq_false_2 by (rewrite Haddr; apply DeriveAddress_nonempty). done. }
  unfold Signaling.Start. cbn [sv_started sv_stopped sv_services]. rewrite map_fmap_singleton. intros [= <- <-].
  set (sig := mkServer _ _ _ _ _ _). rewrite (nu_name _ _ _ _ Hnu). set (r1 := set_host _ sig).
  assert (registry_ok r1) as Hok1 by (by apply (registry_ok_maps r)).
  destruct (existing_names r1 Hok1) as [Hnd Hex].
  destruct (replay_spec NodeService (w_te r1) (existing r1) sig) as (Hup & Hin & Hout); [done|done| |].
  { intros s Hs Hn. apply Hex in Hs. destruct (ro_name _ Hok1 _ _ Hs) as (_ & _ & Hrun).
    split; [apply has_listener_running; by eexists|]. split; [intros He; rewrite He in Hs; cbn in Hs; congruence|].
    split; [rewrite (ro_addr _ Hok1 _ _ Hs); apply DeriveAddress_nonempty|]. by apply lookup_singleton_ne. }
  split; [|split; [by apply (registry_ok_maps r)|done]]. cbn [phase_ok SetOnRegister onRegister onUnregister].
  split; [done|]. split; [done|]. split; [by destruct Hnu|]. split.
  - exists contacts. cbn [w_host set_host SetOnRegister]. rewrite Hout by (by left). apply lookup_singleton_eq.
  - split; [exact Hup|]. intros k Hk. cbn [w_host set_host SetOnRegister byName].
    destruct (byName r !! k) as [s|] eqn:Hs.
    + assert (s_Name s = k) as Hsn by apply (ro_name _ Hok _ _ Hs). rewrite <- Hsn. apply Hin; [|congruence].
      apply Hex. by rewrite Hsn.
    + rewrite Hout; [unfold sig; cbn [sv_services]; rewrite lookup_singleton_ne by done; by intros [? ?]|]. right. intros (s & -> & Hin')%list_elem_of_fmap.
      apply Hex in Hin'. cbn in Hin'. congruence.
Qed.

Abbreviation daemon_step := (daemon_step (K := K) (E := E) (D := D) localAddrs node_request).

Lemma register_node_ok d r handlers : daemon_ok d -> dm_phase d = TorUp -> dm_registry d = Some r -> daemon_ok (register_node d r handlers).
Proof.
  intros [Had Hst] Hph Hr. rewrite Hr, Hph in Hst. destruct Hst as (Hok & He & Hc & Hk & Hp). unfold register_node.
  destruct (Services.Register id r NodeService node_manifest handlers) as [[svc|e] r'] eqn:Hreg.
  - destruct (Register_phase _ (dm_clients d) (dm_left d) _ _ _ _ _ _ _ Hok Hp Hreg) as (Hp' & Hn & Hs & Hok' & Ho); [done|].
    specialize (Hp' I). pose proof (Register_stored r NodeService node_manifest handlers _ _ Hk) as Hk'. rewrite Hreg in Hk'.
    destruct (Register_sequential_Ok _ _ _ _ _ _ Hok Hreg) as (_ & Hnone & _ & _ & _ & _ & ks & Hks).
    apply ks_get_stored in Hk as Hk2. rewrite Hks in Hk2. injection Hk2 as Hkey.
    destruct (ro_name _ Hok' _ _ Hn) as (_ & _ & Hrun).
    rewrite (proj2 (has_listener_running _ _)) by (by eexists). split; [done|].
    cbn [set_node set_reg dm_registry dm_phase dm_clients dm_left dm_node].
    split; [done|]. split; [by rewrite Ho|]. split.
    { intros n Hin. destruct (decide (n = NodeService)) as [->|Hne]; [by eexists|]. rewrite Ho by done. by apply Hc. }
    split; [done|]. destruct Hp' as [Hh1 Hh2]. split; [done|]. split; [done|].
    split; [done|done|done|done|]. intros Hin%Hc. unfold Services.Get in Hnone. rewrite Hnone in Hin. by destruct Hin.
  - destruct (Register_failed _ _ _ _ _ _ _ _ _ _ Hok Hp Hreg) as (Hp' & Hok' & Hb).
    pose proof (Register_stored r NodeService node_manifest handlers _ _ Hk) as Hk'. rewrite Hreg in Hk'.
    split; [done|]. cbn [set_node set_reg dm_registry dm_phase dm_clients dm_left dm_node]. by rewrite Hb.
Qed.

Lemma client_register_ok d first handlers : daemon_ok d -> daemon_ok (client_register d first handlers).2.
Proof.
  intros Hd. unfold client_register. destruct (dm_api d) as [[]|]; [|done|done]. destruct (dm_registry d) as [r|] eqn:Hr; [|done].
  pose proof Hd as [Had Hst]. rewrite Hr in Hst. destruct Hst as (Hok & He & Hc & Hk & Hp).
  assert (daemon_ok (set_reg d r (dm_phase d) (dm_clients d))) as Hsame by (by split).
  unfold open_stream. destruct first as [[m|]|]; [|done|done].
  destruct (validateManifest (Some m)) eqn:Hv; [|done].
  assert (sm_Name m <> ""%string) as Hne by (intros Hm; unfold validateManifest in Hv; by rewrite Hm in Hv).
  set (mf := mkManifest _ _ _). destruct (Services.Register _ _ _ _ _) as [[svc|e] r'] eqn:Hreg; cbn [snd].
  - pose proof (Register_stored r (sm_Name m) mf handlers _ _ Hk) as Hk'. rewrite Hreg in Hk'.
    destruct (Register_phase _ (dm_clients d) (dm_left d) _ _ _ _ _ _ _ Hok Hp Hreg Hne) as (Hp' & Hn & Hs & Hok' & Ho).
    split; [done|]. cbn [set_reg dm_registry dm_phase dm_clients dm_left dm_node]. rewrite Hs.
    split; [done|]. split; [by rewrite Ho|]. split.
    { intros n Hin. destruct (decide (n = sm_Name m)) as [->|Hnn]; [by eexists|]. rewrite Ho by done. apply Hc. set_solver. }
    split; [done|]. apply Hp'.
    pose proof (Register_sequential_Ok _ _ _ _ _ _ Hok Hreg) as (_ & Hnone & _). unfold Services.Get in Hnone.
    assert (forall s, node_up (dm_node d) (dm_clients d) r s -> sm_Name m <> NodeService) as Hfree.
    { intros s [_ N _ _ _] Heq. rewrite Heq in Hnone. congruence. }
    destruct (dm_phase d); cbn [phase_ok] in Hp; try done.
    + destruct Hp as (_ & _ & ?). eauto.
    + destruct Hp as (_ & _ & ? & _). eauto.
    + destruct Hp as (_ & _ & ? & _). eauto.
  - destruct (Register_failed _ _ _ _ _ _ _ _ _ _ Hok Hp Hreg) as (Hp' & Hok' & Hb).
    pose proof (Register_stored r (sm_Name m) mf handlers _ _ Hk) as Hk'. rewrite Hreg in Hk'.
    assert (daemon_ok (set_reg d r' (dm_phase d) (dm_clients d))) by (split; [done|]; cbn; by rewrite Hb).
    by destruct e.
Qed.

Lemma client_leaves_ok d r name : daemon_ok d -> name ∈ dm_clients d -> dm_registry d = Some r -> daemon_ok (client_leaves d r name).
Proof.
  intros [Had Hst] Hin Hr. rewrite Hr in Hst. destruct Hst as (Hok & He & Hc & Hk & Hp).
  destruct (Unregister_phase _ _ _ _ _ _ Hok Hp Hin Hc) as (Hp' & Hok' & Hn & Ho). split; [done|].
  cbn [client_leaves dm_registry dm_phase dm_clients dm_left dm_node]. split; [done|]. split.
  { destruct (decide (name = ""%string)) as [->|Hne]; [done|]. by rewrite Ho. }
  split.
  { intros n Hn'. rewrite Ho by set_solver. apply Hc. set_solver. }
  split; [|done]. destruct (Services.Unregister r name) as [res r'] eqn:Hu. cbn [snd]. by rewrite (Unregister_ks _ _ _ _ Hu).
Qed.

Lemma daemon_step_ok d d' : daemon_ok d -> daemon_step d d' -> daemon_ok d'.
Proof.
  intros Hd Hs. pose proof Hd as [Had Hst]. destruct Hs as [Hno|te Hph _|r handlers Hph Hr|r svc dialer disc contacts Hph Hr|r svc Hph Hr|first handlers|r name Hin Hr].
  - by split.
  - rewrite Hph in Hst. destruct (dm_registry d) as [r|]; [by destruct Hst as (_ & _ & _ & _ & [])|].
    destruct Hst as (_ & Hc & Hk). split; [done|]. cbn [tor_ready dm_registry dm_phase dm_clients dm_left dm_node].
    split; [apply New_ok|]. split; [done|]. split; [rewrite Hc; set_solver|]. by split.
  - by apply register_node_ok.
  - rewrite Hr, Hph in Hst. destruct Hst as (Hok & He & Hc & Hk & Hp). unfold wire_node.
    destruct (wireSubsystems _ _ _ _ _ _ _ _ _) as [wired r'] eqn:Hw.
    destruct (wire_phase _ _ _ _ _ _ _ _ _ _ Hok He Had Hp Hw) as (Hp' & Hok' & Hb & Hks).
    split; [done|]. cbn [set_reg dm_registry dm_phase dm_clients dm_left dm_node]. by rewrite Hb, Hks.
  - rewrite Hr, Hph in Hst. destruct Hst as (Hok & He & Hc & Hk & Hp). split; [done|].
    cbn [set_reg dm_registry dm_phase dm_clients dm_left dm_node]. split; [by apply (registry_ok_maps r)|]. split; [done|].
    split; [done|]. split; [done|]. destruct Hp as (Hh1 & _ & [N1 N2 N3 N4 N5] & Hh3 & Hh4). cbn [phase_ok].
    split; [done|]. split; [cbn; by rewrite N1|]. split; [done|]. by split.
  - by apply client_register_ok.
  - by apply client_leaves_ok.
Qed.

Lemma reachable_ok d0 d : daemon_initial d0 -> star daemon_step d0 d -> daemon_ok d.
Proof. intros Hi Hs. eapply (star_invariant _ daemon_ok); [intros; by eapply daemon_step_ok|exact Hs|by apply initial_ok]. Qed.


(** ** The orders of startup *)

Lemma api_stays d d' : dm_api d = Some true -> star daemon_step d d' -> dm_api d' = Some true.
Proof.
  intros Ha Hs. eapply (star_invariant daemon_step (fun d => dm_api d = Some true)); [|exact Hs|done].
  clear. intros d d' Ha Hs. destruct Hs as [Hno|te ? _|r handlers ? Hr|r svc dialer disc contacts ? Hr|r svc ? Hr|first handlers|r name Hin Hr]; try done.
  - by rewrite Ha in Hno.
  - cbn. by rewrite Ha.
  - unfold register_node. destruct (Services.Register _ _ _ _ _) as [[svc|e] r']; [|done]. by destruct (has_listener _ _).
  - unfold wire_node. by destruct (wireSubsystems _ _ _ _ _ _ _ _ _).
  - unfold client_register. rewrite Ha. destruct (dm_registry d) as [r|]; [|done]. by destruct (open_stream _ _ _).
Qed.

(** The registry has been offered and the API server, if there is one, does not have it. *)
Definition missed d : Prop := dm_phase d <> TorWaiting /\ dm_api d <> Some true.

Lemma missed_register d first handlers : missed d ->
  client_register d first handlers = (Err Unimplemented, d).
Proof. intros [_ Ha]. unfold client_register. by destruct (dm_api d) as [[]|]. Qed.

Lemma missed_step d d' : missed d -> daemon_step d d' -> missed d'.
Proof.
  intros Hm Hs. pose proof Hm as [Hp Ha]. destruct Hs as [Hno|te ? _|r handlers ? Hr|r svc dialer disc contacts ? Hr|r svc ? Hr|first handlers|r name Hin Hr]; try done.
  - unfold register_node. destruct (Services.Register _ _ _ _ _) as [[svc|e] r']; [|done]. by destruct (has_listener _ _).
  - unfold wire_node. by destruct (wireSubsystems _ _ _ _ _ _ _ _ _) as [[] r'].
  - by rewrite missed_register.
Qed.

Lemma ended_step d d' : dm_phase d = Ended -> daemon_step d d' -> dm_phase d' = Ended.
Proof.
  intros Hp Hs. destruct Hs as [Hno|te Hph _|r handlers Hph Hr|r svc dialer disc contacts Hph Hr|r svc Hph Hr|first handlers|r name Hin Hr]; try congruence; try done.
  unfold client_register. destruct (dm_api d) as [[]|]; [|done..]. destruct (dm_registry d); [|done]. by destruct (open_stream _ _ _).
Qed.

(** C29. The order in which things come up matters twice.  When the API server is made before Tor is
    ready, it gets the registry and keeps it; the other way round it never does, and every stream
    of a service is refused for as long as the daemon runs.  And between the two, before the node
    registers its own service, its name is free: a client that takes it gets the node's key and
    address; the node's registration then fails, Tor is reported ready without an onion, and
    neither discovery nor signaling ever starts. *)
Theorem startup_orders d0 te (Hinit : daemon_initial d0) (Hte : forall n, running te n = None) :
  (star daemon_step d0 (tor_ready (make_api d0) te) /\
   forall d, star daemon_step (tor_ready (make_api d0) te) d -> dm_api d = Some true) /\
  (star daemon_step d0 (make_api (tor_ready d0 te)) /\
   forall d first handlers, star daemon_step (make_api (tor_ready d0 te)) d ->
     client_register d first handlers = (Err Unimplemented, d)) /\
  (forall d m handlers svc d1, star daemon_step d0 d -> dm_phase d = TorUp -> sm_Name m = NodeService ->
     client_register d (Some (Some m)) handlers = (Ok svc, d1) ->
     s_Identity svc = n_keypair (dm_node d) /\ s_Address svc = n_address (dm_node d) /\
     forall r handlers', dm_registry d1 = Some r ->
       let d2 := register_node d1 r handlers' in
       n_torState (dm_node d2) = "ready"%string /\ n_onionAddr (dm_node d2) = n_onionAddr (dm_node d) /\
       n_bus (dm_node d2) = Publish (n_bus (dm_node d)) (mkEvent EventTorReady PNil) /\
       forall d3, star daemon_step d2 d3 -> dm_phase d3 = Ended).
Proof.
  pose proof Hinit as [Hp Hr Ha Hc Hl Hk Had]. split; [|split].
  - split.
    + eapply star_step; [by apply ds_api|]. eapply star_step; [|apply star_refl]. by apply ds_ready.
    + intros d Hs. eapply api_stays; [|exact Hs]. done.
  - split.
    + eapply star_step; [by apply ds_ready|]. eapply star_step; [|apply star_refl]. apply ds_api. cbn. by rewrite Ha.
    + intros d first handlers Hs. apply missed_register.
      eapply (star_invariant daemon_step missed); [intros; by eapply missed_step|exact Hs|]. by split.
  - intros d m handlers svc d1 Hs Hph Hm Hcr. destruct (reachable_ok d0 d Hinit Hs) as [Had' Hst].
    unfold client_register in Hcr. destruct (dm_api d) as [[]|]; [|done|done]. destruct (dm_registry d) as [r|]; [|done].
    destruct Hst as (Hok & He & Hcl & Hk' & _). unfold open_stream in Hcr. destruct (validateManifest _); [|done]. rewrite Hm in Hcr.
    destruct (Services.Register _ _ _ _ _) as [[svc'|e] r1] eqn:Hreg; [|by destruct e]. injection Hcr as -> <-.
    destruct (Register_sequential_Ok _ _ _ _ _ _ Hok Hreg) as (Hok1 & _ & Hg & _ & _ & _ & ks & Hks).
    apply ks_get_stored in Hk'. rewrite Hks in Hk'. injection Hk' as Hkey.
    split; [done|]. split; [by rewrite (ro_addr _ Hok1 _ _ Hg), Hkey|]. intros r2 handlers' [= <-]. cbn zeta.
    assert (register_node (set_reg d r1 (dm_phase d) ({[s_Name svc]} ∪ dm_clients d)) r1 handlers' =
      set_node (set_reg (set_reg d r1 (dm_phase d) ({[s_Name svc]} ∪ dm_clients d)) r1 Ended ({[s_Name svc]} ∪ dm_clients d))
        (announce_nothing (dm_node d))) as ->.
    { unfold register_node, Services.Register. unfold Services.Get in Hg. by rewrite Hg. }
    split; [done|]. split; [done|]. split; [done|]. intros d3 Hs3.
    by eapply (star_invariant daemon_step (fun d => dm_phase d = Ended)); [intros; by eapply ended_step|exact Hs3|].
Qed.
End claims.

(** ** Witnesses *)

Section samples.
Import Toy.
#[local] Existing Instances Services.sample_engine Services.sample_engine_ok Services.sample_keystore Services.sample_keystore_ok
  Services.sample_disc.
#[local] Instance sample_listeners : OnionListeners (gmap string string) := fun e n => bool_decide (is_Some (e !! n)).
#[local] Instance sample_listeners_ok : OnionListenersOk (gmap string string).
Proof. intros e n. unfold has_listener, sample_listeners. by rewrite bool_decide_eq_true. Qed.

Abbreviation sample_daemon := (@daemon (gmap string Keypair) (gmap string string) (gmap string string)).

Definition sample_d0 : sample_daemon :=
  mkDaemon (Node.New (sample_keypair 1)) {[NodeService := sample_keypair 1]} None None TorWaiting ∅ ∅.

Lemma sample_d0_initial : daemon_initial sample_d0.
Proof. by split. Qed.

Definition no_onions : gmap string string := ∅.
Definition no_decision (_ : string) : option ConnectionDecision := None.
Definition bot_manifest : ServiceManifest := mkServiceManifest "bot" "echo bot" 0 [].

Abbreviation sample_step := (daemon_step (D := gmap string string) ["/ip4/10.0.0.1/udp/4001"%string] no_decision).

(** The daemon after startup, with the bot of a client. *)
Definition sample_up : sample_daemon := register_node (tor_ready (make_api sample_d0) no_onions) (Services.New (dm_keystore sample_d0) no_onions NewServer) None.
Definition sample_reg (d : sample_daemon) := default (Services.New ∅ ∅ NewServer) (dm_registry d).
Definition sample_svc (d : sample_daemon) : Service :=
  match dm_phase d with NodeUp svc | Hooked svc | Wired svc => svc | _ => mkService "" "" "" (sample_keypair 0) node_manifest None end.
Definition sample_hooked : sample_daemon :=
  wire_node ["/ip4/10.0.0.1/udp/4001"%string] no_decision sample_up (sample_reg sample_up) (sample_svc sample_up) true ∅ None.
Definition sample_wired : sample_daemon := set_reg sample_hooked (finish_wiring (sample_reg sample_hooked) (sample_svc sample_hooked))
  (Wired (sample_svc sample_hooked)) (dm_clients sample_hooked).
Definition sample_bot : sample_daemon := (client_register sample_wired (Some (Some bot_manifest)) None).2.

Definition has_reg (d : sample_daemon) : bool := match dm_registry d with Some _ => true | None => false end.
Lemma sample_reg_ok d : has_reg d = true -> dm_registry d = Some (sample_reg d).
Proof. unfold has_reg, sample_reg. by destruct (dm_registry d). Qed.

Definition node_is_up (d : sample_daemon) : bool := match dm_phase d with NodeUp _ => true | _ => false end.
Definition is_hooked (d : sample_daemon) : bool := match dm_phase d with Hooked _ => true | _ => false end.

Lemma sample_bot_run : star sample_step sample_d0 sample_bot.
Proof.
  eapply star_step; [by apply ds_api|].
  eapply star_step; [by apply (ds_ready _ _ _ no_onions)|].
  eapply star_step; [by apply (ds_node _ _ _ (Services.New (dm_keystore sample_d0) no_onions NewServer) None)|].
  eapply star_step; [apply (ds_wire _ _ sample_up (sample_reg sample_up) (sample_svc sample_up) true ∅ None)|].
  { assert (node_is_up sample_up = true) as Hu by (vm_compute; reflexivity). unfold node_is_up, sample_svc in *.
    by destruct (dm_phase sample_up). }
  { apply sample_reg_ok. vm_compute. reflexivity. }
  eapply star_step; [apply (ds_hook _ _ sample_hooked (sample_reg sample_hooked) (sample_svc sample_hooked))|].
  { assert (is_hooked sample_hooked = true) as Hu by (vm_compute; reflexivity). unfold is_hooked, sample_svc in *.
    by destruct (dm_phase sample_hooked). }
  { apply sample_reg_ok. vm_compute. reflexivity. }
  eapply star_step; [apply (ds_register _ _ sample_wired (Some (Some bot_manifest)) None)|apply star_refl].
Qed.

Definition bot_name (o : option Service) : option (string * ACL) := (fun svc => (s_Name svc, m_ACL (s_Manifest svc))) <$> o.


Definition node_bot : ServiceManifest := mkServiceManifest "node" "me" 0 [].

(** A client that is faster than the node gets its address; one that comes when the API was late is refused. *)
Lemma startup_orders_witness :
  (match (client_register (tor_ready (make_api sample_d0) no_onions) (Some (Some node_bot)) None).1 with
   | Ok svc => s_Address svc = n_address (dm_node sample_d0)
   | Err _ => False
   end) /\
  (client_register (make_api (tor_ready sample_d0 no_onions)) (Some (Some bot_manifest)) None).1 = Err Unimplemented.
Proof.
  destruct (startup_orders ["/ip4/10.0.0.1/udp/4001"%string] no_decision (D := gmap string string) sample_d0 no_onions
    sample_d0_initial ltac:(done)) as ((Hrun & _) & (_ & Hlate) & Htaken).
  split.
  - destruct (client_register (tor_ready (make_api sample_d0) no_onions) (Some (Some node_bot)) None) as [res d1] eqn:Hc.
    destruct res as [svc|e].
    + destruct (Htaken _ node_bot None svc d1 Hrun eq_refl eq_refl Hc) as (_ & Haddr & _). exact Haddr.
    + assert (is_ok (client_register (tor_ready (make_api sample_d0) no_onions) (Some (Some node_bot)) None).1 = true) as Hok
        by (vm_compute; reflexivity). rewrite Hc in Hok. discriminate Hok.
  - rewrite (Hlate _ (Some (Some bot_manifest)) None (star_refl _ _)). reflexivity.
Defined.
End samples.
