(* ===== verification/Daemon.v ===== *)
(** * internal/daemon: starting, listening and stopping

    config.go and, of daemon.go, [Start] without the presence pinger, [loadOrGenerateIdentity],
    [listen] and the part of [Stop] other processes see.  What happens once Tor is ready is in Wiring.v
    and Startup.v, and the whole of [Stop] in Shutdown.v. *)

From S2P Require Import Contacts Prelude GoStd Sha256 Crypto Protocol Instances Identity Chunker FilePath Services Signaling Session Routing Dht Events Keystore ApiAuth Pending ApiEvents Node Api.
Local Open Scope go_scope.

(** ** config.go *)

(** src: internal/daemon/config.go 10-21 Config *)
Record Config := mkConf {
  DataDir : string; Passphrase : string; SocketPath : string; TCPAddr : string; AdminKey : string; DisableTor : bool;
  TorPath : string; DisableP2P : bool; P2PPort : Z; RTMaxAge : Z }.

(** [home]: the home directory, empty when there is none. *)
(** src: internal/daemon/config.go 24-31 DefaultConfig *)
Definition DefaultConfig (home : string) : Config :=
  let dataDir := Join home ".ensemble" in
  mkConf dataDir "" (Join dataDir "ensemble.sock") "" "" false "" false 0 0.

(** ** Sockets *)

Inductive listener := TcpListener (addr : string) | UnixListener (path : string).

(** The addresses that are bound, and the socket files with the process they belong to. *)
Record sockets := mkSockets { sk_tcp : gset string; sk_unix : gmap string nat }.

Definition unlink (w : sockets) (path : string) : sockets := mkSockets (sk_tcp w) (delete path (sk_unix w)).

(** [Close] of a listener; that of a Unix socket removes the file at its path, whosever it is. *)
Definition close_listener (w : sockets) (l : listener) : sockets :=
  match l with
  | TcpListener a => mkSockets (sk_tcp w ∖ {[a]}) (sk_unix w)
  | UnixListener p => unlink w p
  end.

Inductive listen_err := ErrListenTCP | ErrListenSocket | ErrNoListeners.

(** What the system says: whether the TCP address is free to this process, whether the path can
    be removed, and whether a socket can be made there. *)
Record listen_env := mkListen { le_tcp : bool; le_remove : bool; le_unix : bool }.

(** [None]: the listener cannot be made. *)
(** src: internal/daemon/daemon.go 616-623 Daemon.listen *)
Definition listen_tcp (cfg : Config) (env : listen_env) (w : sockets) : option (list listener * sockets) :=
  if bool_decide (TCPAddr cfg = ""%string) then Some ([], w)
  else if le_tcp env && bool_decide (TCPAddr cfg ∉ sk_tcp w)
       then Some ([TcpListener (TCPAddr cfg)], mkSockets ({[TCPAddr cfg]} ∪ sk_tcp w) (sk_unix w))
       else None.

(** [me]: this process; [false]: the socket cannot be made. *)
(** src: internal/daemon/daemon.go 625-634 Daemon.listen *)
Definition listen_unix (me : nat) (cfg : Config) (env : listen_env) (w : sockets) : bool * list listener * sockets :=
  if bool_decide (SocketPath cfg = ""%string) then (true, [], w)
  else
    let w := if le_remove env then unlink w (SocketPath cfg) else w in
    if le_unix env && bool_decide (sk_unix w !! SocketPath cfg = None)
    then (true, [UnixListener (SocketPath cfg)], mkSockets (sk_tcp w) (<[SocketPath cfg := me]> (sk_unix w)))
    else (false, [], w).

(** src: internal/daemon/daemon.go 608-642 Daemon.listen *)
Definition listen (me : nat) (cfg : Config) (env : listen_env) (w : sockets) : result listen_err (list listener) * sockets :=
  match listen_tcp cfg env w with
  | None => (Err ErrListenTCP, w)
  | Some (tcp, w) =>
      let '(ok, unix, w) := listen_unix me cfg env w in
      if negb ok then (Err ErrListenSocket, fold_left close_listener tcp w)
      else match tcp ++ unix with
           | [] => (Err ErrNoListeners, w)
           | ls => (Ok ls, w)
           end
  end.

(** The end of [Stop]: the listeners, and the socket file. *)
(** src: internal/daemon/daemon.go 297-312 Daemon.Stop *)
Definition close_sockets (cfg : Config) (ls : list listener) (removable : bool) (w : sockets) : sockets :=
  let w := fold_left close_listener ls w in
  if negb (bool_decide (SocketPath cfg = ""%string)) && removable then unlink w (SocketPath cfg) else w.

(** [Stop] as others see it.  [GracefulStop] closes the listeners and waits for the streams of the
    clients; [streams_end]: they all end.  [false]: it waits for ever. *)
(** src: internal/daemon/daemon.go 294-312 Daemon.Stop *)
Definition Stop (cfg : Config) (ls : list listener) (removable streams_end : bool) (w : sockets) : bool * sockets :=
  if streams_end then (true, close_sockets cfg ls removable w) else (false, fold_left close_listener ls w).

(** ** Start *)

Inductive start_err :=
| ErrDataDir | ErrOpenKeystore (e : ks_err) | ErrLoadIdentity (e : ks_err) | ErrAdminKey | ErrListener (e : listen_err).

(** [d_admin]: [None] before the gRPC server is made, [Some None] when it checks nothing. *)
(** src: internal/daemon/daemon.go 40-61 Daemon *)
Record Daemon := mkD {
  d_cfg : Config; d_node : option DaemonNode; d_keystore : option Keystore; d_p2pHost : option (list string);
  d_torEngine : bool; d_admin : option (option bytes); d_listeners : list listener }.

(** src: internal/daemon/daemon.go 64-66 New *)
Definition New (cfg : Config) : Daemon := mkD cfg None None None false None [].

(** What a start meets: the disk, the contacts file, the libp2p host, Tor and the network. *)
Record start_env := mkStart {
  se_mkdir : option nat; se_migrate : ks_env; se_identity : ks_env; se_contacts : contacts_file;
  se_host : option (list string); se_tor : bool; se_listen : listen_env }.

Section start.
Context `{Ed25519, Argon2, AESGCM, Ripemd160, Base58}.

(** What chat and file transfer do, which the daemon injects into the node. *)
Context (chat_send send_file : string -> string -> option string) (accept_file reject_file : string -> string -> bool).

(** src: internal/daemon/daemon.go 492-510 Daemon.loadOrGenerateIdentity *)
Definition loadOrGenerateIdentity (env1 env2 : ks_env) (fs : filesystem) (cfg : Config) :
    result start_err Keypair * option Keystore * filesystem :=
  match NewKeystore env1 fs (DataDir cfg) (Passphrase cfg) with
  | (Err e, fs) => (Err (ErrOpenKeystore e), None, fs)
  | (Ok ks, fs) =>
      let '(r, ks, fs) := GetOrGenerate env2 ks fs NodeService in
      (match r with Ok kp => Ok kp | Err e => Err (ErrLoadIdentity e) end, Some ks, fs)
  end.

(** The node's functions are there when libp2p is. *)
(** src: internal/daemon/daemon.go 106-142 Daemon.Start *)
Definition inject (n : DaemonNode) : DaemonNode :=
  SetRejectFile (SetAcceptFile (SetSendFile (SetSendMessage n chat_send) send_file) accept_file) reject_file.

(** [ok]: the engine starts. *)
(** src: internal/daemon/daemon.go 195-206 Daemon.startTor *)
Definition startTor (n : DaemonNode) (ok : bool) : DaemonNode :=
  let n := SetTorState n "bootstrapping" in if ok then n else SetTorState n "disabled".

(** src: internal/daemon/daemon.go 165-176 Daemon.Start *)
Definition admin_key (cfg : Config) : option (option bytes) :=
  if bool_decide (AdminKey cfg = ""%string) then Some None
  else match hex_decode (AdminKey cfg) with
       | Some k => if (length k =? 32)%nat then Some (Some k) else None
       | None => None
       end.

(** From Tor on, with the node [n] on the keystore [ks] and the host [host]. *)
(** src: internal/daemon/daemon.go 160-192 Daemon.Start *)
Definition serve (me : nat) (cfg : Config) (env : start_env) (n : DaemonNode) (ks : option Keystore) (host : option (list string))
    (fs : filesystem) (w : sockets) : result start_err unit * Daemon * filesystem * sockets :=
  let n := if DisableTor cfg then n else startTor n (se_tor env) in
  let tor := negb (DisableTor cfg) && se_tor env in
  match admin_key cfg with
  | None => (Err ErrAdminKey, mkD cfg (Some n) ks host tor None [], fs, w)
  | Some admin =>
      match listen me cfg (se_listen env) w with
      | (Err e, w) => (Err (ErrListener e), mkD cfg (Some n) ks host tor (Some admin) [], fs, w)
      | (Ok ls, w) => (Ok tt, mkD cfg (Some n) ks host tor (Some admin) ls, fs, w)
      end
  end.

(** [None]: a panic in the contacts file. *)
(** src: internal/daemon/daemon.go 69-107 Daemon.Start *)
Definition Start (me : nat) (cfg : Config) (env : start_env) (fs : filesystem) (w : sockets) :
    option (result start_err unit * Daemon * filesystem * sockets) :=
  let '(ok, fs) := MkdirAll fs (DataDir cfg) (se_mkdir env) in
  if negb ok then Some (Err ErrDataDir, New cfg, fs, w)
  else
    let '(r, ks, fs) := loadOrGenerateIdentity (se_migrate env) (se_identity env) fs cfg in
    match r with
    | Err e => Some (Err e, mkD cfg None ks None false None [], fs, w)
    | Ok kp =>
        '(_, cs) ← Load (NewStore (se_contacts env));
        let host := if DisableP2P cfg then None else se_host env in
        let n := SetContacts (Node.New kp) cs in
        let n := match host with Some _ => inject n | None => n end in
        Some (serve me cfg env n ks host fs w)
    end.

(** src: internal/daemon/daemon.go 485-487 Daemon.Node *)
Definition Daemon_Node (d : Daemon) : option DaemonNode := d_node d.

(** src: internal/daemon/daemon.go 515-520 Daemon.localAddrs *)
Definition localAddrs (d : Daemon) : list string := default [] (d_p2pHost d).

(** What the gRPC server lets through. *)
(** src: internal/daemon/daemon.go 165-177 Daemon.Start *)
Definition admitted (d : Daemon) (md : option metadata) (now : Z) : bool :=
  match d_admin d with
  | None => false
  | Some None => true
  | Some (Some k) => is_ok (interceptor k md now tt)
  end.
End start.

(** ** Sockets: what a daemon holds *)

(** The listeners that are configured. *)
Definition configured_tcp (cfg : Config) : list listener :=
  if bool_decide (TCPAddr cfg = ""%string) then [] else [TcpListener (TCPAddr cfg)].
Definition configured_unix (cfg : Config) : list listener :=
  if bool_decide (SocketPath cfg = ""%string) then [] else [UnixListener (SocketPath cfg)].
Definition configured (cfg : Config) : list listener := configured_tcp cfg ++ configured_unix cfg.

Definition holds (me : nat) (w : sockets) (l : listener) : Prop :=
  match l with TcpListener a => a ∈ sk_tcp w | UnixListener p => sk_unix w !! p = Some me end.

(** The TCP addresses once the listeners of [ls] are closed. *)
Lemma listen_tcp_spec cfg env w ls w' : listen_tcp cfg env w = Some (ls, w') ->
  ls = configured_tcp cfg /\ sk_unix w' = sk_unix w /\ (forall l, l ∈ ls -> l = TcpListener (TCPAddr cfg) /\ TCPAddr cfg ∈ sk_tcp w') /\
  forall w2, sk_tcp w2 = sk_tcp w' -> sk_tcp (fold_left close_listener ls w2) = sk_tcp w /\
    sk_unix (fold_left close_listener ls w2) = sk_unix w2.
Proof.
  unfold listen_tcp, configured_tcp. case_bool_decide as Ht.
  { intros [= <- <-]. split; [done|]. split; [done|]. split; [by intros l ?%elem_of_nil|done]. }
  destruct (le_tcp env); [|done]. cbn [andb]. case_bool_decide as Hf; [|done]. intros [= <- <-]. split; [done|]. split; [done|]. split.
  - intros l ->%list_elem_of_singleton. split; [done|]. cbn. set_solver.
  - intros w2 Hw. cbn in *. rewrite Hw. split; [set_solver|done].
Qed.

Lemma listen_unix_spec me cfg env w ok ls w' : listen_unix me cfg env w = (ok, ls, w') ->
  sk_tcp w' = sk_tcp w /\ (forall p, p <> SocketPath cfg -> sk_unix w' !! p = sk_unix w !! p) /\
  (ok = true -> ls = configured_unix cfg /\ forall l, l ∈ ls -> l = UnixListener (SocketPath cfg) /\ sk_unix w' !! SocketPath cfg = Some me) /\
  (ok = false -> SocketPath cfg <> ""%string).
Proof.
  unfold listen_unix, configured_unix. case_bool_decide as Hs.
  { intros [= <- <- <-]. do 2 (split; [done|]). split; [|done]. intros _. split; [done|]. by intros l ?%elem_of_nil. }
  set (w1 := if le_remove env then _ else _).
  assert (sk_tcp w1 = sk_tcp w /\ forall p, p <> SocketPath cfg -> sk_unix w1 !! p = sk_unix w !! p) as [Ht Hu].
  { unfold w1. destruct (le_remove env); [|done]. split; [done|]. intros p Hp. cbn. by rewrite lookup_delete_ne. }
  destruct (_ && _); intros [= <- <- <-].
  - split; [done|]. split; [intros p Hp; cbn; rewrite lookup_insert_ne by done; by apply Hu|]. split; [|done]. intros _.
    split; [done|]. intros l ->%list_elem_of_singleton. split; [done|]. apply lookup_insert_eq.
  - split; [done|]. split; [done|]. by split.
Qed.

Lemma listen_spec me cfg env w :
  match listen me cfg env w with
  | (Ok ls, w') => ls = configured cfg /\ ls <> [] /\ Forall (holds me w') ls /\ sk_tcp (fold_left close_listener ls w') = sk_tcp w
  | (Err e, w') => sk_tcp w' = sk_tcp w /\ (forall p, p <> SocketPath cfg -> sk_unix w' !! p = sk_unix w !! p) /\
      (e = ErrNoListeners <-> configured cfg = [])
  end.
Proof.
  unfold listen. destruct (listen_tcp cfg env w) as [[tcp w1]|] eqn:Ht.
  2: { split; [done|]. split; [done|]. split; [done|]. unfold configured. intros [Hc _]%app_nil.
       unfold listen_tcp in Ht. unfold configured_tcp in Hc. by case_bool_decide. }
  apply listen_tcp_spec in Ht as (-> & Hu1 & Hin1 & Hc1).
  destruct (listen_unix me cfg env w1) as [[ok un] w2] eqn:Hu. apply listen_unix_spec in Hu as (Ht2 & Hu2 & Hok & Hbad).
  destruct ok; cbn [negb].
  - destruct (Hok eq_refl) as [-> Hin2]. fold (configured cfg). destruct (configured cfg) as [|l ls] eqn:Hcf.
    + split; [by apply app_nil in Hcf as [Hcf _]; rewrite Hcf in Hc1; rewrite Ht2; destruct (Hc1 w1 eq_refl) as [<- _]|].
      split; [|done]. intros p Hp. rewrite Hu2 by done. by rewrite Hu1.
    + split; [done|]. split; [done|]. rewrite <- Hcf. unfold configured. split.
      * apply Forall_forall. intros x [Hx|Hx]%elem_of_app; [apply Hin1 in Hx as [-> Hx]; cbn; by rewrite Ht2|by apply Hin2 in Hx as [-> Hx]].
      * rewrite fold_left_app. destruct (Hc1 w2 Ht2) as [Hc _]. unfold configured_unix. case_bool_decide; [done|]. exact Hc.
  - destruct (Hc1 w2 Ht2) as [-> ->]. split; [done|]. split; [intros p Hp; rewrite Hu2 by done; by rewrite Hu1|]. split; [done|].
    intros [_ Hc]%app_nil. unfold configured_unix in Hc. specialize (Hbad eq_refl). by case_bool_decide.
Qed.


(** ** Starting *)

Section claims.
Context `{Ed25519Ok, Argon2, AESGCMOk, Ripemd160, Base58}.
Context (chat_send send_file : string -> string -> option string) (accept_file reject_file : string -> string -> bool).

Abbreviation start := (Start chat_send send_file accept_file reject_file).

(** The randomness of both keystore calls has its documented sizes. *)
Definition start_env_ok (env : start_env) : Prop := env_ok (se_identity env).

(** A keystore of the daemon's directory that has nothing in its cache. *)
Definition fresh_ks (cfg : Config) : Keystore := mkKeystore (DataDir cfg) (Passphrase cfg) ∅.

Lemma load_identity_spec env1 env2 fs cfg r ks fs' : env_ok env2 ->
  loadOrGenerateIdentity env1 env2 fs cfg = (r, ks, fs') ->
  match r with
  | Ok kp => loadFromDisk (fresh_ks cfg) fs' NodeService = Ok kp /\
      exists ks0, ks = Some ks0 /\ kst_dir ks0 = DataDir cfg /\ kst_passphrase ks0 = Passphrase cfg
  | Err e => e <> ErrDataDir /\ e <> ErrAdminKey
  end.
Proof.
  intros He. unfold loadOrGenerateIdentity. destruct (NewKeystore env1 fs _ _) as [[ks0|e] fs1] eqn:Hk; [|by intros [= <- <- <-]].
  assert (ks0 = fresh_ks cfg) as ->.
  { unfold NewKeystore in Hk. destruct (migrateLegacy _ _ _) as [[]]; [|done]. by injection Hk as <-. }
  destruct (GetOrGenerate env2 (fresh_ks cfg) fs1 NodeService) as [[r1 ks1] fs2] eqn:Hg.
  apply GetOrGenerate_spec in Hg as (_ & _ & Hr); [|done|intros n kp Hn; cbn [kst_cache fresh_ks] in Hn; by rewrite lookup_empty in Hn].
  destruct r1 as [kp|e]; intros [= <- <- <-]; [|done]. destruct Hr as (_ & Hd & Hp & Hl & _).
  split; [by eapply (load_frame ks1)|]. by exists ks1.
Qed.

Lemma migrateLegacy_present env ks fs : existsOnDisk fs (keyPath ks NodeService) = true -> migrateLegacy env ks fs = (Ok tt, fs).
Proof. intros Hex. unfold migrateLegacy. rewrite Hex. by destruct (negb _). Qed.

(** When the key file is there and readable, it is what is loaded, and the disk stays as it is. *)
Lemma load_identity_again env1 env2 fs cfg kp : loadFromDisk (fresh_ks cfg) fs NodeService = Ok kp ->
  exists ks, loadOrGenerateIdentity env1 env2 fs cfg = (Ok kp, Some ks, fs).
Proof.
  intros Hl. assert (existsOnDisk fs (keyPath (fresh_ks cfg) NodeService) = true) as Hex.
  { unfold loadFromDisk in Hl. apply bool_decide_eq_true. destruct (fs !! keyPath _ _); [by eexists|done]. }
  unfold loadOrGenerateIdentity, NewKeystore. fold (fresh_ks cfg). rewrite migrateLegacy_present by done.
  unfold GetOrGenerate. rewrite Hex, Hl. by eexists.
Qed.

(** The node a start makes: the key it has, and what is set of it. *)
Definition made_node (cfg : Config) (env : start_env) (kp : Keypair) (n : DaemonNode) : Prop :=
  n_keypair n = kp /\ n_address n = DeriveAddress (PublicKey kp) /\
  n_torState n = (if DisableTor cfg || negb (se_tor env) then "disabled" else "bootstrapping")%string /\
  (DisableP2P cfg || bool_decide (se_host env = None) = true ->
     (forall a t, node_SendMessage n a t = Err ErrNoChat) /\ (forall a f, node_SendFile n a f = Err ErrNoTransfer)).

(** A start that gets past the data directory has asked the keystore for the key of the node; it has a node
    exactly when it was given one. *)
Lemma start_identity me cfg env fs w r d fs' w' : start me cfg env fs w = Some (r, d, fs', w') ->
  (r = Err ErrDataDir /\ d_node d = None) \/
  exists fs1 rk ks, only_dirs_added fs fs1 /\ loadOrGenerateIdentity (se_migrate env) (se_identity env) fs1 cfg = (rk, ks, fs') /\
    match rk with
    | Ok kp => exists n, d_node d = Some n /\ made_node cfg env kp n
    | Err e => r = Err e /\ d_node d = None
    end.
Proof.
  unfold Start, serve. pose proof (MkdirAll_added fs (DataDir cfg) (se_mkdir env)) as Hadd.
  destruct (MkdirAll fs (DataDir cfg) (se_mkdir env)) as [[] fs1]; cbn [negb snd] in *; [|intros [= <- <- <- <-]; by left].
  destruct (loadOrGenerateIdentity _ _ fs1 cfg) as [[rk ks] fs2] eqn:Hi. intros Hs. right. exists fs1, rk, ks. split; [done|].
  destruct rk as [kp|e]; [|injection Hs as <- <- <- <-; by rewrite Hi].
  destruct (Contacts.Load _) as [[b cs]|]; [|done]. cbn [mbind option_bind] in Hs. revert Hs.
  set (n := if DisableTor cfg then _ else _). intros Hs.
  assert (made_node cfg env kp n) as Hmade.
  { unfold n, made_node. destruct (DisableP2P cfg), (se_host env), (DisableTor cfg), (se_tor env); by split_and!. }
  assert (d_node d = Some n /\ fs2 = fs') as [Hn ->]; [|split; [exact Hi|by exists n]].
  destruct (admin_key cfg); [|by injection Hs as <- <- <- <-].
  destruct (listen me cfg (se_listen env) w) as [[]]; by injection Hs as <- <- <- <-.
Qed.

(** The node's key is the one on the disk. *)
Lemma start_key me cfg env fs w r d fs' w' n : start_env_ok env -> start me cfg env fs w = Some (r, d, fs', w') ->
  d_node d = Some n ->
  loadFromDisk (fresh_ks cfg) fs' NodeService = Ok (n_keypair n) /\ made_node cfg env (n_keypair n) n.
Proof.
  intros He Hs Hn. apply start_identity in Hs as [[_ Hd]|(fs1 & rk & ks & _ & Hi & Hr)]; [congruence|].
  apply load_identity_spec in Hi; [|done]. destruct rk as [kp|e]; [|destruct Hr; congruence].
  destruct Hr as (n' & Hn' & Hm). assert (n' = n) as -> by congruence. destruct Hi as [Hl _]. by rewrite (proj1 Hm).
Qed.

(** Who is let through: everyone without an administrator's key, and otherwise who has signed with it. *)
Lemma admitted_iff cfg d admin md now : admin_key cfg = Some admin -> d_admin d = Some admin ->
  admitted d md now = true <->
  AdminKey cfg = ""%string \/ exists k, hex_decode (AdminKey cfg) = Some k /\ length k = 32%nat /\ verifyAuth md k now = Ok tt.
Proof.
  unfold admitted, admin_key. intros Had ->.
  destruct (bool_decide_reflect (AdminKey cfg = ""%string)) as [Hak|Hak]; [injection Had as <-; split; [by left|done]|].
  destruct (hex_decode (AdminKey cfg)) as [k|]; [|done]. destruct (Nat.eqb_spec (length k) 32); [|done]. injection Had as <-.
  unfold interceptor. split.
  - intros Hok. right. exists k. split; [done|]. split; [done|]. by destruct (verifyAuth md k now) as [[]|].
  - intros [|(k' & [= <-] & _ & ->)]; done.
Qed.

(** The listeners, and who the API lets through. *)
Lemma start_opened me cfg env fs w r d fs' w' : start me cfg env fs w = Some (r, d, fs', w') ->
  (r <> Ok tt -> d_listeners d = [] /\ sk_tcp w' = sk_tcp w) /\
  (r = Ok tt -> exists n, d_node d = Some n /\
     (d_listeners d = configured cfg /\ d_listeners d <> [] /\ Forall (holds me w') (d_listeners d)) /\
     forall md now, admitted d md now = true <->
       AdminKey cfg = ""%string \/ exists k, hex_decode (AdminKey cfg) = Some k /\ length k = 32%nat /\ verifyAuth md k now = Ok tt).
Proof.
  unfold Start, serve. destruct (MkdirAll fs (DataDir cfg) (se_mkdir env)) as [[] fs1]; cbn [negb]; [|intros [= <- <- <- <-]; by split_and!].
  destruct (loadOrGenerateIdentity _ _ fs1 cfg) as [[[kp|e] ks] fs2]; [|intros [= <- <- <- <-]; by split_and!].
  destruct (Contacts.Load _) as [[b cs]|]; [|done]. cbn [mbind option_bind]. set (n := if DisableTor cfg then _ else _).
  destruct (admin_key cfg) as [admin|] eqn:Had; [|intros [= <- <- <- <-]; by split_and!].
  pose proof (listen_spec me cfg (se_listen env) w) as Hs. destruct (listen me cfg (se_listen env) w) as [[ls|e] w2]; intros [= <- <- <- <-].
  2: { destruct Hs as [Htcp _]. by split_and!. }
  destruct Hs as (-> & Hne & Hh & _). split; [done|]. intros _. exists n. split; [done|]. split; [done|].
  intros md now. by eapply admitted_iff.
Qed.

(** A panic comes from the contacts file. *)
Lemma start_panics me cfg env fs w : start me cfg env fs w = None -> Contacts.Load (NewStore (se_contacts env)) = None.
Proof. unfold Start, serve. intros Hs. repeat case_match; done || (by destruct (Contacts.Load _) as [[]|]). Qed.

(** Whatever a start returns, once its listeners are closed the TCP addresses are as before. *)
Lemma start_sockets me cfg env fs w r d fs' w' : start me cfg env fs w = Some (r, d, fs', w') ->
  sk_tcp (fold_left close_listener (d_listeners d) w') = sk_tcp w /\
  (r = Err (ErrListener ErrNoListeners) -> configured cfg = []).
Proof.
  unfold Start, serve. destruct (MkdirAll fs (DataDir cfg) (se_mkdir env)) as [[] fs1]; cbn [negb]; [|by intros [= <- <- <- <-]].
  destruct (loadOrGenerateIdentity _ _ fs1 cfg) as [[[kp|e] ks] fs2] eqn:Hi.
  2: { intros [= <- <- <- <-]. split; [done|]. intros [= ->]. unfold loadOrGenerateIdentity in Hi. repeat case_match; congruence. }
  destruct (Contacts.Load _) as [[b cs]|]; [|done]. cbn [mbind option_bind]. set (n := if DisableTor cfg then _ else _).
  destruct (admin_key cfg) as [admin|]; [|by intros [= <- <- <- <-]].
  pose proof (listen_spec me cfg (se_listen env) w) as Hs. destruct (listen me cfg (se_listen env) w) as [[ls|e] w2]; intros [= <- <- <- <-].
  - by destruct Hs as (_ & _ & _ & Hs).
  - destruct Hs as (Htcp & _ & Hno). split; [done|]. intros [= ->]. by apply Hno.
Qed.

(** C31. Starting the daemon.  When it succeeds, the node has the key that is on the disk and the
    address of that key; the listeners are those of the configuration; Tor is starting or
    disabled; without libp2p chat and files answer that they are not there; and the API
    lets every request through when no administrator's key is configured, and otherwise
    exactly the requests that key has signed.  When it fails, it holds no TCP address, and the
    node it leaves, if any, still has the key on the disk.  It panics only on a contacts file
    with a null element. *)
Theorem start_contract me cfg env fs w (Henv : start_env_ok env) :
  match start me cfg env fs w with
  | None => Contacts.Load (NewStore (se_contacts env)) = None
  | Some (r, d, fs', w') =>
      (forall n, d_node d = Some n ->
         loadFromDisk (fresh_ks cfg) fs' NodeService = Ok (n_keypair n) /\
         n_address n = DeriveAddress (PublicKey (n_keypair n))) /\
      (r <> Ok tt -> d_listeners d = [] /\ sk_tcp w' = sk_tcp w) /\
      (r = Ok tt -> exists n, d_node d = Some n /\
         made_node cfg env (n_keypair n) n /\
         d_listeners d = configured cfg /\ d_listeners d <> [] /\ Forall (holds me w') (d_listeners d) /\
         forall md now, admitted d md now = true <->
           AdminKey cfg = ""%string \/
           exists k, hex_decode (AdminKey cfg) = Some k /\ length k = 32%nat /\ verifyAuth md k now = Ok tt)
  end.
Proof.
  destruct (start me cfg env fs w) as [[[[r d] fs'] w']|] eqn:Hs.
  2: { by eapply start_panics. }
  split; [intros n Hn; destruct (start_key _ _ _ _ _ _ _ _ _ _ Henv Hs Hn) as (? & _ & ? & _); by split|].
  pose proof (fun n => start_key _ _ _ _ _ _ _ _ _ n Henv Hs) as Hkey.
  apply start_opened in Hs as (Hbad & Hgood). split; [done|]. intros Hr. destruct (Hgood Hr) as (n & Hn & Hls & Hadm).
  exists n. split; [done|]. split; [by apply Hkey|]. destruct Hls as (Hc & Hne & Hh). split; [done|]. split; [done|]. by split.
Qed.

(** The address of a daemon lasts.  Whatever has happened to the disk between two starts with the same directory and
    passphrase, as long as the key file of the node is as the first start left it, the second either cannot make the data
    directory or makes a node with the key and the address of the first, and leaves the file as it is. *)
Theorem address_survives_restart me cfg env fs w r d fs1 w1 n me2 cfg2 env2 fs2 w2 r2 d2 fs3 w3
  (Henv : start_env_ok env)
  (Hfirst : start me cfg env fs w = Some (r, d, fs1, w1)) (Hnode : d_node d = Some n)
  (Hdir : DataDir cfg2 = DataDir cfg) (Hpass : Passphrase cfg2 = Passphrase cfg)
  (Hfile : fs2 !! keyPath (fresh_ks cfg) NodeService = fs1 !! keyPath (fresh_ks cfg) NodeService)
  (Hsecond : start me2 cfg2 env2 fs2 w2 = Some (r2, d2, fs3, w3)) :
  (r2 = Err ErrDataDir /\ d_node d2 = None) \/
  exists n2, d_node d2 = Some n2 /\ n_keypair n2 = n_keypair n /\ n_address n2 = n_address n /\
    fs3 !! keyPath (fresh_ks cfg) NodeService = fs1 !! keyPath (fresh_ks cfg) NodeService.
Proof.
  destruct (start_key _ _ _ _ _ _ _ _ _ _ Henv Hfirst Hnode) as (Hload & _ & Haddr & _).
  assert (fresh_ks cfg2 = fresh_ks cfg) as Hks by (unfold fresh_ks; by rewrite Hdir, Hpass).
  apply start_identity in Hsecond as [|(fs2' & rk & ks & [Hkeep _] & Hi & Hr)]; [by left|right].
  assert (exists data, fs1 !! keyPath (fresh_ks cfg) NodeService = Some data) as [data Hdata].
  { unfold loadFromDisk in Hload. destruct (fs1 !! _); [by eexists|done]. }
  assert (fs2' !! keyPath (fresh_ks cfg) NodeService = Some data) as Hdata' by (apply Hkeep; congruence).
  assert (loadFromDisk (fresh_ks cfg2) fs2' NodeService = Ok (n_keypair n)) as Hload2.
  { rewrite Hks. eapply (load_frame (fresh_ks cfg)); [done|done| |exact Hload]. intros node Hnd. congruence. }
  destruct (load_identity_again (se_migrate env2) (se_identity env2) _ _ _ Hload2) as (ks' & Hi').
  rewrite Hi' in Hi. injection Hi as <- <- <-. destruct Hr as (n2 & Hn2 & Hk2 & Ha2 & _). exists n2.
  split; [done|]. split; [done|]. split; [by rewrite Ha2, Haddr|]. by rewrite Hdata.
Qed.
End claims.

Section samples.
Import Toy.

Definition sample_cfg : Config :=
  mkConf "/home/ada/.ensemble" "correct horse" "/home/ada/.ensemble/ensemble.sock" "" "" false "" false 0 0.
Definition sample_start_env : start_env :=
  mkStart None good_env good_env NoFile (Some ["/ip4/127.0.0.1/tcp/4001"%string]) true (mkListen true true true).
(** Ten minutes later, with other randomness, no Tor and no libp2p. *)
Definition sample_later_env : start_env :=
  mkStart None dead_env dead_env NoFile None false (mkListen true true true).

Definition no_send (_ _ : string) : option string := None.
Definition no_file (_ _ : string) : bool := false.
Definition sample_start (me : nat) (env : start_env) (fs : filesystem) (w : sockets) :=
  Start no_send no_send no_file no_file me sample_cfg env fs w.

Definition first_start := sample_start 1 sample_start_env empty_fs (mkSockets ∅ ∅).
Definition first_fs : filesystem := match first_start with Some (_, _, fs, _) => fs | None => empty_fs end.
Definition first_sockets : sockets := match first_start with Some (_, _, _, w) => w | None => mkSockets ∅ ∅ end.
Definition first_daemon : Daemon := match first_start with Some (_, d, _, _) => d | None => New sample_cfg end.
Definition second_start := sample_start 2 sample_later_env first_fs first_sockets.

Lemma sample_env_ok : start_env_ok sample_start_env.
Proof. exact good_env_ok. Qed.

Lemma first_start_eq : first_start = Some (Ok tt, first_daemon, first_fs, first_sockets).
Proof.
  unfold first_daemon, first_fs, first_sockets. assert (match first_start with Some (Ok tt, _, _, _) => true | _ => false end = true) as Hs
    by (vm_compute; reflexivity).
  destruct first_start as [[[[[[]|] ?] ?] ?]|]; done.
Qed.

Lemma start_contract_witness :
  exists n, d_node first_daemon = Some n /\ n_address n = DeriveAddress (PublicKey (n_keypair n)) /\
    d_listeners first_daemon = [UnixListener "/home/ada/.ensemble/ensemble.sock"].
Proof.
  pose proof (start_contract no_send no_send no_file no_file 1 sample_cfg sample_start_env empty_fs (mkSockets ∅ ∅) sample_env_ok) as Hs.
  change (Start _ _ _ _ _ _ _ _ _) with first_start in Hs. rewrite first_start_eq in Hs.
  destruct Hs as (_ & _ & Hs). destruct (Hs eq_refl) as (n & Hn & (_ & Ha & _) & Hl & _). exists n. split; [exact Hn|]. split; [exact Ha|exact Hl].
Defined.

Definition second_daemon : Daemon := match second_start with Some (_, d, _, _) => d | None => New sample_cfg end.
Definition second_fs : filesystem := match second_start with Some (_, _, fs, _) => fs | None => empty_fs end.

Lemma second_start_eq : exists w, second_start = Some (Ok tt, second_daemon, second_fs, w).
Proof.
  unfold second_daemon, second_fs. assert (match second_start with Some (Ok tt, _, _, _) => true | _ => false end = true) as Hs
    by (vm_compute; reflexivity).
  destruct second_start as [[[[[[]|] ?] ?] ?]|]; try done. by eexists.
Qed.

Lemma address_survives_restart_witness :
  exists n n2, d_node first_daemon = Some n /\ d_node second_daemon = Some n2 /\ n_address n2 = n_address n.
Proof.
  assert (exists n, d_node first_daemon = Some n) as [n Hn].
  { assert (bool_decide (is_Some (d_node first_daemon)) = true) as Hb by (vm_compute; reflexivity).
    apply bool_decide_eq_true in Hb as [n Hn]. by exists n. }
  destruct second_start_eq as [w Hsecond].
  pose proof (address_survives_restart no_send no_send no_file no_file 1 sample_cfg sample_start_env empty_fs (mkSockets ∅ ∅) (Ok tt)
    first_daemon first_fs first_sockets n 2 sample_cfg sample_later_env first_fs first_sockets (Ok tt) second_daemon second_fs w) as Hs.
  specialize (Hs sample_env_ok first_start_eq Hn eq_refl eq_refl eq_refl Hsecond).
  destruct Hs as [[Hr _]|(n2 & Hn2 & _ & Ha & _)]; [congruence|].
  exists n, n2. split; [exact Hn|]. split; [exact Hn2|exact Ha].
Defined.
End samples.
