(* ===== verification/Backend.v ===== *)
(** * internal/ui/backend.go, direct.go and grpc.go: the daemon as the terminal sees it

    The interface [Backend] has two implementations, on the node in the same process and on a
    daemon over gRPC; backend.go says the interface works identically on both. *)

From S2P Require Import Contacts Prelude GoStd Sha256 Crypto Protocol Instances Identity Wire IPExchange Services Signaling Session Routing Dht Events Chunker Keystore Connector Peers Discovery Pending ApiEvents Node Api.
Local Open Scope go_scope.

(** ** backend.go *)

(** src: internal/ui/backend.go 11-14 IdentityInfo *)
Record IdentityInfo := mkIdentityInfo { ii_Address : string; ii_PublicKey : bytes }.

(** src: internal/ui/backend.go 17-23 StatusInfo *)
Record StatusInfo := mkStatusInfo {
  si_TorState : string; si_PeerCount : Z; si_OnionAddr : string; si_UptimeMs : Z; si_RTSize : Z }.

(** src: internal/ui/backend.go 37-56 DebugInfo *)
Record ui_DebugInfo := mkUiDebug {
  ud_RTSize : Z; ud_RTPeers : list (string * string * Z); ud_Connections : list (string * string * string); ud_OnionAddr : string }.

(** Why a call of a backend failed: the node's error, or gRPC's. *)
Inductive backend_err :=
| BackendNode (e : node_err)
| BackendNoContacts | BackendSave
| BackendStatus (s : status)
| BackendTransport.

(** [fp_Error]: [None] is the empty text. *)
(** src: internal/ui/backend.go 26-34 FileProgress *)
Record FileProgress := mkFileProgress {
  fp_TransferID : string; fp_Filename : string; fp_TotalBytes : Z; fp_SentBytes : Z; fp_Complete : bool;
  fp_Error : option backend_err }.

(** What the node meets during one call: the clock, the disk, the network. *)
Record call_env := mkCall {
  cv_now : Z; cv_disk : disk_env; cv_connect : connect_env; cv_seed : dialed; cv_net : nat -> dialed; cv_table : bool }.

Abbreviation answer := (result backend_err).

(** The message of [Connect] is [None] for "connected" and an error otherwise.  [None] as a
    whole: the call blocks.  [SendFile] gives what its channel carries until it is closed. *)
(** src: internal/ui/backend.go 60-77 Backend *)
Record Backend := mkBackend {
  be_GetIdentity : DaemonNode -> answer IdentityInfo;
  be_GetStatus : DaemonNode -> answer StatusInfo;
  be_GetDebugInfo : DaemonNode -> answer ui_DebugInfo;
  be_ListContacts : DaemonNode -> answer (list Contact);
  be_AddContact : DaemonNode -> string -> string -> bytes -> call_env -> answer unit * DaemonNode;
  be_RemoveContact : DaemonNode -> string -> call_env -> answer unit * DaemonNode;
  be_Connect : DaemonNode -> string -> call_env -> answer (bool * option node_err) * DaemonNode;
  be_AcceptConnection : DaemonNode -> string -> option (answer unit * DaemonNode);
  be_RejectConnection : DaemonNode -> string -> option (answer unit * DaemonNode);
  be_SendMessage : DaemonNode -> string -> string -> answer string;
  be_SendFile : DaemonNode -> string -> string -> answer (list FileProgress);
  be_AcceptFile : DaemonNode -> string -> string -> answer unit;
  be_RejectFile : DaemonNode -> string -> answer unit;
  be_AddNode : DaemonNode -> string -> call_env -> answer Z * DaemonNode;
  be_Subscribe : answer unit
}.

Section backends.
Context `{Proto DHTFindNode, Proto DHTNodeResponse, Proto DHTPutRecord, Base58}.
Context (utf8 : string -> string).

(** ** direct.go *)

Definition on_node {A} (r : result node_err A) : answer A :=
  match r with Ok a => Ok a | Err e => Err (BackendNode e) end.

(** src: internal/ui/direct.go 66-87 DirectBackend.GetDebugInfo *)
Definition direct_GetDebugInfo (n : DaemonNode) : ui_DebugInfo :=
  let info := GetDebugInfo n in
  mkUiDebug (Z.of_nat (di_RTSize info)) (di_RTPeers info) ((fun '(a, s) => (a, s, ""%string)) <$> di_Connections info)
    (di_OnionAddr info).

(** src: internal/ui/direct.go 89-95 DirectBackend.ListContacts *)
Definition direct_ListContacts (n : DaemonNode) : list Contact :=
  match n_contacts n with None => [] | Some cs => Contacts.List_ cs end.

Definition direct_save (n : DaemonNode) (cs : Store) (disk : disk_env) : answer unit * DaemonNode :=
  let '(ok, cs) := Contacts.Save utf8 cs (dk_mkdir disk) (dk_write disk) in
  (if ok then Ok tt else Err BackendSave, SetContacts n cs).

(** src: internal/ui/direct.go 97-108 DirectBackend.AddContact *)
Definition direct_AddContact (n : DaemonNode) (addr alias : string) (pubKey : bytes) (env : call_env) : answer unit * DaemonNode :=
  match n_contacts n with
  | None => (Err BackendNoContacts, n)
  | Some cs => direct_save n (Contacts.Add cs (mkContact addr alias pubKey "" GoTime.zero GoTime.zero) (cv_now env)) (cv_disk env)
  end.

(** src: internal/ui/direct.go 110-117 DirectBackend.RemoveContact *)
Definition direct_RemoveContact (n : DaemonNode) (addr : string) (env : call_env) : answer unit * DaemonNode :=
  match n_contacts n with
  | None => (Err BackendNoContacts, n)
  | Some cs => direct_save n (Contacts.Remove cs addr).2 (cv_disk env)
  end.

(** src: internal/ui/direct.go 119-125 DirectBackend.Connect *)
Definition direct_Connect (n : DaemonNode) (addr : string) (env : call_env) : answer (bool * option node_err) * DaemonNode :=
  let '(r, n) := node_Connect n addr (cv_connect env) in
  (match r with Err e => Ok (false, Some e) | Ok _ => Ok (true, None) end, n).

(** src: internal/ui/direct.go 139-151 DirectBackend.SendFile *)
Definition direct_SendFile (n : DaemonNode) (addr filePath : string) : list FileProgress :=
  match node_SendFile n addr filePath with
  | Err e => [mkFileProgress "" "" 0 0 false (Some (BackendNode e))]
  | Ok transferID => [mkFileProgress transferID "" 0 0 true None]
  end.

(** src: internal/ui/direct.go 41-171 DirectBackend *)
Definition DirectBackend : Backend := {|
  be_GetIdentity n := Ok (mkIdentityInfo (n_address n) (PublicKey (n_keypair n)));
  be_GetStatus n := Ok (mkStatusInfo (n_torState n) (PeerCount n) (n_onionAddr n) 0 (i32 (Z.of_nat (node_RTSize n))));
  be_GetDebugInfo n := Ok (direct_GetDebugInfo n);
  be_ListContacts n := Ok (direct_ListContacts n);
  be_AddContact := direct_AddContact;
  be_RemoveContact := direct_RemoveContact;
  be_Connect := direct_Connect;
  be_AcceptConnection n addr := '(r, n) ← AcceptConnection n addr; Some (on_node r, n);
  be_RejectConnection n addr := '(r, n) ← RejectConnection n addr "rejected by user"; Some (on_node r, n);
  be_SendMessage n addr text := on_node (node_SendMessage n addr text);
  be_SendFile n addr filePath := Ok (direct_SendFile n addr filePath);
  be_AcceptFile n id savePath := on_node (node_AcceptFile n id savePath);
  be_RejectFile n id := on_node (node_RejectFile n id "rejected by user");
  be_AddNode n onionAddr env :=
    let '(r, n) := node_AddNode n utf8 (cv_now env) (cv_seed env) (cv_net env) (cv_table env) in
    (match on_node r with Ok k => Ok (Z.of_nat k) | Err e => Err e end, n);
  be_Subscribe := Ok tt
|}.

(** ** grpc.go *)

(** The connection during a call: whether the request arrives, and the response.  A string
    that is not UTF-8 does not marshal. *)
Record rpc_link := mkLink { ln_there : bool; ln_back : bool }.

Definition valid (s : string) : bool := bool_decide (utf8 s = s).

(** A call whose request and response hold these strings. *)
Definition rpc {A} (l : rpc_link) (request : list string) (method : DaemonNode -> result status A * DaemonNode)
    (response : A -> list string) (n : DaemonNode) : answer A * DaemonNode :=
  if negb (ln_there l && forallb valid request) then (Err BackendTransport, n)
  else let '(r, n) := method n in
       match r with
       | Err s => (if ln_back l then Err (BackendStatus s) else Err BackendTransport, n)
       | Ok a => (if ln_back l && forallb valid (response a) then Ok a else Err BackendTransport, n)
       end.

(** A call that does not change the node, and one that may block. *)
Definition rpc_read {A} (l : rpc_link) (request : list string) (method : DaemonNode -> result status A)
    (response : A -> list string) (n : DaemonNode) : answer A :=
  (rpc l request (fun n => (method n, n)) response n).1.

Definition rpc_block (l : rpc_link) (request : list string) (method : DaemonNode -> option (result status unit * DaemonNode))
    (n : DaemonNode) : option (answer unit * DaemonNode) :=
  if negb (ln_there l && forallb valid request) then Some (Err BackendTransport, n)
  else '(r, n) ← method n; Some (rpc l [] (fun _ => (r, n)) (fun _ => []) n).

Definition no_strings {A} (_ : A) : list string := [].

Definition debug_strings (r : GetDebugInfoResponse) : list string :=
  gd_OnionAddr r :: flat_map (fun '(a, o, _) => [a; o]) (gd_RtPeers r) ++ flat_map (fun '(a, s) => [a; s]) (gd_Connections r).

(** src: internal/ui/grpc.go 324-337 contactFromProto *)
Definition contactFromProto (c : ContactInfo) : Contact :=
  mkContact (ci_Address c) (ci_Alias c) (ci_PublicKey c) (ci_OnionAddress c)
    (if 0 <? ci_AddedAt c then GoTime.of_UnixMilli (ci_AddedAt c) else GoTime.zero)
    (if 0 <? ci_LastSeen c then GoTime.of_UnixMilli (ci_LastSeen c) else GoTime.zero).

Definition amap {A B} (f : A -> B) (r : answer A) : answer B := match r with Ok a => Ok (f a) | Err e => Err e end.

(** The stream of [SendFile]: its messages, or the error it ends with. *)
(** src: internal/ui/grpc.go 209-243 GRPCBackend.SendFile *)
Definition grpc_SendFile (l : rpc_link) (n : DaemonNode) (addr filePath : string) : answer (list FileProgress) :=
  if negb (ln_there l && forallb valid [addr; filePath]) then Err BackendTransport
  else match rpc_read l [addr; filePath] (fun n => api_SendFile n addr filePath) (fun p => [tp_TransferId p]) n with
       | Ok p => Ok [mkFileProgress (tp_TransferId p) "" 0 0 (tp_Complete p) None]
       | Err e => Ok [mkFileProgress "" "" 0 0 false (Some e)]
       end.

(** src: internal/ui/grpc.go 83-285 GRPCBackend *)
Definition GRPCBackend (l : rpc_link) : Backend := {|
  be_GetIdentity n :=
    amap (fun '(a, k) => mkIdentityInfo a k) (rpc_read l [] (fun n => Ok (GetIdentity n)) (fun r => [r.1]) n);
  be_GetStatus n :=
    amap (fun r => mkStatusInfo (gs_TorState r) (gs_PeerCount r) (gs_OnionAddr r) 0 (gs_RtSize r))
      (rpc_read l [] (fun n => Ok (GetStatus n)) (fun r => [gs_TorState r; gs_OnionAddr r]) n);
  be_GetDebugInfo n :=
    amap (fun r => mkUiDebug (gd_RtSize r) (gd_RtPeers r) ((fun '(a, s) => (a, s, ""%string)) <$> gd_Connections r)
                     (gd_OnionAddr r))
      (rpc_read l [] (fun n => Ok (api_GetDebugInfo n)) debug_strings n);
  be_ListContacts n :=
    amap (fmap contactFromProto)
      (rpc_read l [] (fun n => Ok (ListContacts n)) (flat_map (fun c => [ci_Address c; ci_Alias c; ci_OnionAddress c])) n);
  be_AddContact n addr alias pubKey env :=
    rpc l [addr; alias] (fun n => AddContact utf8 n addr alias pubKey (cv_now env) (cv_disk env)) no_strings n;
  be_RemoveContact n addr env := rpc l [addr] (fun n => RemoveContact utf8 n addr (cv_disk env)) no_strings n;
  be_Connect n addr env :=
    let '(r, n) := rpc l [addr] (fun n => let '(r, n) := api_Connect n addr (cv_connect env) in (Ok r, n)) no_strings n in
    (amap (fun r => (cr_Accepted r, cr_Message r)) r, n);
  be_AcceptConnection n addr := rpc_block l [addr] (fun n => api_AcceptConnection n addr) n;
  be_RejectConnection n addr := rpc_block l [addr] (fun n => api_RejectConnection n addr) n;
  be_SendMessage n addr text := rpc_read l [addr; text] (fun n => api_SendMessage n addr text) (fun id => [id]) n;
  be_SendFile := grpc_SendFile l;
  be_AcceptFile n id savePath := rpc_read l [id; savePath] (fun n => api_AcceptFile n id savePath) no_strings n;
  be_RejectFile n id := rpc_read l [id] (fun n => api_RejectFile n id) no_strings n;
  be_AddNode n onionAddr env :=
    rpc l [onionAddr] (fun n => api_AddNode n utf8 (cv_now env) (cv_seed env) (cv_net env) (cv_table env)) no_strings n;
  be_Subscribe := if ln_there l then Ok tt else Err BackendTransport
|}.
End backends.

(** ** The two backends agree *)

Section claims.
Context `{Proto DHTFindNode, Proto DHTNodeResponse, Proto DHTPutRecord, Base58}.
Context (utf8 : string -> string) (l : rpc_link).

(** A call that reaches the daemon. *)
Definition delivered (request : list string) : bool := ln_there l && forallb (valid utf8) request.

(** [g] is what a client may see of the daemon's own answer [d]: a result only if it is the
    daemon's, up to [R], an error of the daemon only if there is one, and a failure of the
    connection only if the connection failed or some text of the call is not UTF-8. *)
Definition transparent {A B} (R : A -> B -> Prop) (request : list string) (texts : A -> list string)
    (d : answer A) (g : answer B) : Prop :=
  match g with
  | Ok b => exists a, d = Ok a /\ R a b
  | Err BackendTransport =>
      delivered request = false \/ ln_back l = false \/ exists a, d = Ok a /\ forallb (valid utf8) (texts a) = false
  | Err _ => exists e, d = Err e
  end.

(** With the state: a call that arrives does to the node what the direct call does. *)
Definition transparent_st {A B} (R : A -> B -> Prop) (n : DaemonNode) (request : list string) (texts : A -> list string)
    (d : answer A * DaemonNode) (g : answer B * DaemonNode) : Prop :=
  transparent R request texts d.1 g.1 /\ g.2 = if delivered request then d.2 else n.

Definition opt_transparent (n : DaemonNode) (request : list string)
    (d g : option (answer unit * DaemonNode)) : Prop :=
  match g with
  | Some g => match d with
              | Some d => transparent_st eq n request no_strings d g
              | None => g = (Err BackendTransport, n) /\ delivered request = false
              end
  | None => d = None
  end.

(** The same call, answered by the server's method and by the direct backend. *)
Definition same_answer {A B} (R : A -> B -> Prop) (d : answer A) (s : result status B) : Prop :=
  match d, s with Ok a, Ok b => R a b | Err _, Err _ => True | _, _ => False end.

Lemma rpc_transparent {A B} (R : A -> B -> Prop) n request method response texts d :
  same_answer R d.1 (method n).1 -> d.2 = (method n).2 ->
  (forall a b, R a b -> forallb (valid utf8) (response b) = false -> forallb (valid utf8) (texts a) = false) ->
  transparent_st R n request texts d (rpc utf8 l request method response n).
Proof.
  intros Hs Hn Ht. unfold transparent_st, rpc. fold (delivered request). destruct (delivered request) eqn:Hd; cbn [negb].
  2: { split; [by left|done]. }
  destruct (method n) as [r n'], d as [d n'']. cbn [fst snd] in *. subst n''.
  destruct d as [a|e], r as [b|s]; cbn in Hs; try done.
  - destruct (ln_back l) eqn:Hb; [|split; [by right; left|done]]. cbn [andb].
    destruct (forallb (valid utf8) (response b)) eqn:Hv; split; try done; [by exists a|].
    right; right. exists a. split; [done|]. by eapply Ht.
  - destruct (ln_back l) eqn:Hb; (split; [|done]); [by exists e|by right; left].
Qed.

Lemma rpc_read_transparent {A B} (R : A -> B -> Prop) n request (method : DaemonNode -> result status B) response texts d :
  same_answer R d (method n) ->
  (forall a b, R a b -> forallb (valid utf8) (response b) = false -> forallb (valid utf8) (texts a) = false) ->
  transparent R request texts d (rpc_read utf8 l request method response n).
Proof. intros Hs Ht. by apply (rpc_transparent R n request (fun n => (method n, n)) response texts (d, n)). Qed.

Lemma rpc_block_transparent n request (method : DaemonNode -> option (result status unit * DaemonNode)) d :
  match d, method n with
  | Some d, Some m => same_answer eq d.1 m.1 /\ d.2 = m.2
  | None, None => True
  | _, _ => False
  end -> opt_transparent n request d (rpc_block utf8 l request method n).
Proof.
  unfold rpc_block. fold (delivered request). intros Hm. destruct (delivered request) eqn:Hd; cbn [negb].
  2: { destruct d as [d|]; split; [by left|by rewrite Hd|done|done]. }
  destruct (method n) as [[r n']|], d as [d|]; try done. destruct Hm as [Hs Hn]. cbn [mbind option_bind].
  unfold opt_transparent, transparent_st. rewrite Hd. unfold rpc. unfold delivered in Hd. apply andb_prop in Hd as [Hthere _].
  rewrite Hthere. cbn [andb forallb negb]. destruct r as [[]|s], d as [[[]|e] n'']; cbn in Hs, Hn; try done; subst n''.
  - cbn. destruct (ln_back l) eqn:Hb; cbn; (split; [|done]); [by exists tt|by right; left].
  - cbn. destruct (ln_back l) eqn:Hb; cbn; (split; [|done]); [by exists e|by right; left].
Qed.

Lemma with_code_same {A} c (r : result node_err A) : same_answer eq (on_node r) (with_code c r).
Proof. by destruct r. Qed.

(** What an attached client sees of a contact. *)
Definition shown (c : Contact) : Contact := mkContact (ct_Address c) (ct_Alias c) [] "" GoTime.zero GoTime.zero.

Definition ui_debug_strings (i : ui_DebugInfo) : list string :=
  ud_OnionAddr i :: flat_map (fun '(a, o, _) => [a; o]) (ud_RTPeers i) ++ flat_map (fun '(a, s, _) => [a; s]) (ud_Connections i).

(** Two streams of progress that show the same transfer, or both an error. *)
Definition same_progress (d g : list FileProgress) : Prop :=
  Forall2 (fun p q => (fp_TransferID p, fp_Complete p) = (fp_TransferID q, fp_Complete q) /\
                      (fp_Error p = None <-> fp_Error q = None)) d g.

Lemma transparent_amap {A B C} (R : A -> B -> Prop) (R' : A -> C -> Prop) (f : B -> C) req texts d g :
  (forall a b, R a b -> R' a (f b)) -> transparent R req texts d g -> transparent R' req texts d (amap f g).
Proof. intros Hf. destruct g as [b|[]]; cbn; try done. intros (a & Hd & HR). exists a. split; [done|by apply Hf]. Qed.

Lemma debug_strings_same n : debug_strings (api_GetDebugInfo n) = ui_debug_strings (direct_GetDebugInfo n).
Proof.
  unfold debug_strings, ui_debug_strings, api_GetDebugInfo, direct_GetDebugInfo.
  cbn [gd_OnionAddr gd_RtPeers gd_Connections ud_OnionAddr ud_RTPeers ud_Connections]. f_equal. f_equal.
  induction (di_Connections (GetDebugInfo n)) as [|[a s] cs IH]; [done|]. cbn. by rewrite IH.
Qed.

Lemma ListContacts_same n : contactFromProto <$> ListContacts n = shown <$> direct_ListContacts n.
Proof.
  unfold ListContacts, direct_ListContacts. destruct (n_contacts n) as [cs|]; [|done]. rewrite <- list_fmap_compose.
  by apply list_fmap_ext.
Qed.

Lemma ListContacts_strings n : utf8 "" = ""%string ->
  forallb (valid utf8) (flat_map (fun c => [ci_Address c; ci_Alias c; ci_OnionAddress c]) (ListContacts n)) =
  forallb (valid utf8) (flat_map (fun c => [ct_Address c; ct_Alias c]) (direct_ListContacts n)).
Proof.
  intros He. unfold ListContacts, direct_ListContacts. destruct (n_contacts n) as [cs|]; [|done].
  induction (Contacts.List_ cs) as [|c l' IH]; [done|]. cbn. rewrite IH. unfold valid at 3. by rewrite bool_decide_eq_true_2.
Qed.

Lemma save_same n cs disk :
  same_answer eq (direct_save utf8 n cs disk).1 (save_contacts utf8 n cs disk).1 /\
  (direct_save utf8 n cs disk).2 = (save_contacts utf8 n cs disk).2.
Proof. unfold direct_save, save_contacts. by destruct (Contacts.Save _ _ _ _) as [[] ?]. Qed.

(** The calls that change contacts, open connections and add nodes. *)
Lemma contacts_transparent n addr alias key env :
  let D := DirectBackend utf8 in let G := GRPCBackend utf8 l in
  transparent_st eq n [addr; alias] no_strings (be_AddContact D n addr alias key env) (be_AddContact G n addr alias key env) /\
  transparent_st eq n [addr] no_strings (be_RemoveContact D n addr env) (be_RemoveContact G n addr env).
Proof.
  split; apply rpc_transparent; try done; cbn; unfold direct_AddContact, AddContact, direct_RemoveContact, RemoveContact;
    destruct (n_contacts n); try done; apply save_same.
Qed.

Lemma network_transparent n addr env :
  let D := DirectBackend utf8 in let G := GRPCBackend utf8 l in
  transparent_st eq n [addr] no_strings (be_Connect D n addr env) (be_Connect G n addr env) /\
  transparent_st (fun k k' => k' = i32 k) n [addr] no_strings (be_AddNode D n addr env) (be_AddNode G n addr env).
Proof.
  cbn. split.
  - set (G := rpc _ _ _ _ _ _). pose proof (rpc_transparent (fun d c => d = (cr_Accepted c, cr_Message c)) n [addr]
      (fun n => let '(r, n) := api_Connect n addr (cv_connect env) in (Ok r, n)) no_strings no_strings (direct_Connect n addr env)) as Hr.
    fold G in Hr. destruct Hr as [Hr Hn]; [| |done|].
    + unfold direct_Connect, api_Connect. by destruct (node_Connect n addr (cv_connect env)) as [[] ?].
    + unfold direct_Connect, api_Connect. by destruct (node_Connect n addr (cv_connect env)) as [[] ?].
    + destruct G as [g n']. split; [|exact Hn]. eapply transparent_amap; [|exact Hr]. done.
  - apply rpc_transparent; [| |done]; unfold api_AddNode; destruct (node_AddNode n utf8 _ _ _ _) as [[] ?]; done.
Qed.

(** The calls that read. *)
Lemma reads_transparent n : utf8 "" = ""%string ->
  let D := DirectBackend utf8 in let G := GRPCBackend utf8 l in
  transparent eq [] (fun i => [ii_Address i]) (be_GetIdentity D n) (be_GetIdentity G n) /\
  transparent eq [] (fun s => [si_TorState s; si_OnionAddr s]) (be_GetStatus D n) (be_GetStatus G n) /\
  transparent (fun d g => g = mkUiDebug (i32 (ud_RTSize d)) (ud_RTPeers d) (ud_Connections d) (ud_OnionAddr d)) []
    ui_debug_strings (be_GetDebugInfo D n) (be_GetDebugInfo G n) /\
  transparent (fun d g => g = shown <$> d) [] (flat_map (fun c => [ct_Address c; ct_Alias c]))
    (be_ListContacts D n) (be_ListContacts G n).
Proof.
  intros He. split; [|split; [|split]].
  - apply (transparent_amap (fun d p => d = mkIdentityInfo p.1 p.2)); [by intros d [a k] ->|].
    apply rpc_read_transparent; [done|by intros ? ? ->].
  - apply (transparent_amap (fun d r => d = mkStatusInfo (gs_TorState r) (gs_PeerCount r) (gs_OnionAddr r) 0 (gs_RtSize r)));
      [by intros ? ? ->|]. apply rpc_read_transparent; [done|by intros ? ? ->].
  - apply (transparent_amap (fun d r => d = direct_GetDebugInfo n /\ r = api_GetDebugInfo n)); [by intros ? ? [-> ->]|].
    apply rpc_read_transparent; [done|]. intros ? ? [-> ->]. by rewrite debug_strings_same.
  - apply (transparent_amap (fun d r => d = direct_ListContacts n /\ r = ListContacts n)).
    + intros ? ? [-> ->]. apply ListContacts_same.
    + apply rpc_read_transparent; [done|]. intros ? ? [-> ->]. by rewrite ListContacts_strings.
Qed.

(** Decisions on requests. *)
Lemma decisions_transparent n addr :
  let D := DirectBackend utf8 in let G := GRPCBackend utf8 l in
  opt_transparent n [addr] (be_AcceptConnection D n addr) (be_AcceptConnection G n addr) /\
  opt_transparent n [addr] (be_RejectConnection D n addr) (be_RejectConnection G n addr).
Proof.
  split; apply rpc_block_transparent; cbn [be_AcceptConnection be_RejectConnection DirectBackend];
    unfold api_AcceptConnection, api_RejectConnection;
    [destruct (AcceptConnection n addr) as [[r n1]|]|destruct (RejectConnection n addr "rejected by user") as [[r n1]|]];
    cbn [mbind option_bind]; try done;
    (split; [apply with_code_same|done]).
Qed.

(** Messages and files. *)
Lemma messages_transparent n addr text path :
  let D := DirectBackend utf8 in let G := GRPCBackend utf8 l in
  transparent eq [addr; text] (fun id => [id]) (be_SendMessage D n addr text) (be_SendMessage G n addr text) /\
  transparent eq [addr; path] no_strings (be_AcceptFile D n addr path) (be_AcceptFile G n addr path) /\
  transparent eq [addr] no_strings (be_RejectFile D n addr) (be_RejectFile G n addr).
Proof.
  split; [|split]; (apply rpc_read_transparent; [apply with_code_same|]); [by intros ? ? ->|done|done].
Qed.

Lemma SendFile_transparent n addr path :
  match be_SendFile (GRPCBackend utf8 l) n addr path with
  | Ok q => exists p, be_SendFile (DirectBackend utf8) n addr path = Ok p /\ (same_progress p q \/ ln_back l = false \/
      exists a, In a p /\ valid utf8 (fp_TransferID a) = false)
  | Err _ => delivered [addr; path] = false
  end.
Proof.
  cbn [be_SendFile GRPCBackend DirectBackend]. unfold grpc_SendFile, direct_SendFile, rpc_read, rpc. fold (delivered [addr; path]).
  destruct (delivered [addr; path]) eqn:Hd; cbn [negb]; [|done]. unfold api_SendFile.
  destruct (node_SendFile n addr path) as [id|e]; cbn [with_code rbind fst].
  - cbn [forallb tp_TransferId andb]. rewrite andb_true_r. destruct (ln_back l) eqn:Hb; cbn [andb].
    + destruct (valid utf8 id) eqn:Hv; (eexists; split; [done|]).
      * left. by repeat constructor.
      * right. right. eexists. split; [by left|done].
    + eexists. split; [done|]. by right; left.
  - destruct (ln_back l) eqn:Hb; (eexists; split; [done|]); [|by right; left].
    left. by repeat constructor.
Qed.

End claims.

(** ** Witness *)
Section samples.
Import Toy.

Definition sample_daemon : DaemonNode := SetContacts (Node.New (P := payload) (sample_keypair 1)) address_book.

Definition sample_call : call_env :=
  mkCall 7 (mkDisk true WriteOk)
    (mkConnectEnv 7 (good_flow 7) [] false (fun _ => DialError) (fun _ => 7) (fun _ => false) (fun _ => Err ErrDial))
    DialError (fun _ => DialError) true.

End samples.
