(* ===== verification/Main.v ===== *)
(** * main.go: the command line

    The subcommands with their flags already parsed: the configuration of the daemon and the end of its process, the
    client's target, key and transport, and what [keygen], [debug] and [add-node] print. *)

From Stdlib Require Import Ascii.
From S2P Require Import Contacts Prelude GoStd Sha256 Crypto Protocol Instances Identity Chunker FilePath Routing Keystore ApiAuth Node Api Daemon Backend.
Local Open Scope go_scope.

(** ** Texts *)

(** [Duration.String] of whole seconds. *)
Definition duration_string (d : Z) : string :=
  let u := Z.abs d / GoTime.Second in
  let part (shown : bool) (n : Z) (unit : string) := if shown then (FormatInt n +:+ unit)%string else ""%string in
  let sign := if d <? 0 then "-"%string else ""%string in
  if u =? 0 then "0s"%string
  else (sign +:+ part (3600 <=? u)%Z (u / 3600)%Z "h" +:+ part (60 <=? u)%Z (u / 60 mod 60)%Z "m" +:+ part true (u mod 60)%Z "s")%string.

(** The runes of a text that is UTF-8: its bytes that do not continue a rune. *)
Fixpoint runes (s : string) : nat :=
  match s with
  | EmptyString => 0
  | String a s => (if Z.land (Z.of_nat (nat_of_ascii a)) 192 =? 128 then 0 else 1) + runes s
  end.

(** [%-ns]. *)
Definition pad (n : nat) (s : string) : string :=
  (s +:+ String.string_of_list_ascii (repeat " "%char (n - runes s)))%string.

(** ** Ends of the process *)

Inductive seed_err := ErrReadSeed | ErrSeedFile (n : nat).

Inductive failure :=
| FailStart (e : start_err) | FailTUI | FailAuthKey (e : seed_err) | FailConnect | FailCall | FailUsage
| FailGenerate | FailWriteKey.

(** What is printed, or why the process exits with status 1; or it does not end. *)
Inductive exit := Exit0 (out : list string) | Exit1 (f : failure) | Hangs.

(** ** The command *)

Inductive command :=
| CmdAttach (args : list string) | CmdDebug (args : list string) | CmdKeygen (args : list string)
| CmdAddNode (args : list string) | CmdDaemon (args : list string).

(** [argv]: [os.Args], from the name of the program. *)
(** src: main.go 23-41 main *)
Definition main (argv : list string) : command :=
  match argv with
  | _ :: sub :: args =>
      if bool_decide (sub = "attach"%string) then CmdAttach args
      else if bool_decide (sub = "debug"%string) then CmdDebug args
      else if bool_decide (sub = "keygen"%string) then CmdKeygen args
      else if bool_decide (sub = "add-node"%string) then CmdAddNode args
      else CmdDaemon (sub :: args)
  | _ => CmdDaemon (tail argv)
  end.

(** ** The daemon's process *)

(** The flags; [fl_admin_key] is [None] when the environment's value stands. *)
(** src: main.go 45-52 runDaemon *)
Record daemon_flags := mkFlags {
  fl_headless : bool; fl_data_dir : string; fl_api_addr : string; fl_api_socket : string; fl_admin_key : option string;
  fl_tor_path : string }.

Definition if_given (flag old : string) : string := if bool_decide (flag = ""%string) then old else flag.

(** src: main.go 54-73 runDaemon *)
Definition run_config (home env_key : string) (f : daemon_flags) : Config :=
  let c := DefaultConfig home in
  let dir := if_given (fl_data_dir f) (DataDir c) in
  let sock := if bool_decide (fl_data_dir f = ""%string) then SocketPath c else Join (fl_data_dir f) "ensemble.sock" in
  let sock := if bool_decide (fl_api_addr f = ""%string) then sock else ""%string in
  mkConf dir (Passphrase c) (if_given (fl_api_socket f) sock) (if_given (fl_api_addr f) (TCPAddr c))
    (if_given (default env_key (fl_admin_key f)) (AdminKey c)) (DisableTor c) (if_given (fl_tor_path f) (TorPath c))
    (DisableP2P c) (P2PPort c) (RTMaxAge c).

(** The process ends without [Stop]: the system closes what it listens on, and socket files stay. *)
Definition close_by_system (w : sockets) (l : listener) : sockets :=
  match l with TcpListener a => mkSockets (sk_tcp w ∖ {[a]}) (sk_unix w) | UnixListener _ => w end.
Definition die (ls : list listener) (w : sockets) : sockets := fold_left close_by_system ls w.

Section programs.
Context `{Ed25519, Argon2, AESGCM, Ripemd160, Base58}.
Context (chat_send send_file : string -> string -> option string) (accept_file reject_file : string -> string -> bool).

(** [tui]: the interface ends without an error; [removable]: the socket file can be removed; [streams_end]:
    the clients' streams end.  [None]: a panic in [Start]. *)
(** src: main.go 75-97 runDaemon *)
Definition runDaemon (me : nat) (home env_key : string) (f : daemon_flags) (env : start_env) (tui removable streams_end : bool)
    (fs : filesystem) (w : sockets) : option (exit * filesystem * sockets) :=
  let cfg := run_config home env_key f in
  '(r, d, fs, w) ← Start chat_send send_file accept_file reject_file me cfg env fs w;
  Some match r with
       | Err e => (Exit1 (FailStart e), fs, die (d_listeners d) w)
       | Ok _ =>
           if fl_headless f || tui
           then let '(ended, w) := Stop cfg (d_listeners d) removable streams_end w in
                (if ended then Exit0 [] else Hangs, fs, w)
           else (Exit1 FailTUI, fs, die (d_listeners d) w)
       end.

(** ** Clients *)

(** src: main.go 101-107 runAttach *)
Record client_flags := mkCFlags {
  cf_socket : string; cf_addr : string; cf_auth_key : string; cf_tls : bool; cf_tls_insecure : bool }.

(** src: main.go 109-118 runAttach *)
Definition client_target (home : string) (f : client_flags) : string :=
  if negb (bool_decide (cf_addr f = ""%string)) then cf_addr f
  else if negb (bool_decide (cf_socket f = ""%string)) then ("unix://" +:+ cf_socket f)%string
  else ("unix://" +:+ JoinAll [home; ".ensemble"; "ensemble.sock"])%string.

(** src: main.go 312-321 loadAuthKey *)
Definition loadAuthKey (fs : filesystem) (path : string) : result seed_err bytes :=
  match fs !! path with
  | Some (File seed) => if (length seed =? SeedSize)%nat then Ok (NewKeyFromSeed seed) else Err (ErrSeedFile (length seed))
  | _ => Err ErrReadSeed
  end.

Inductive GRPCOption := WithTLS | WithTLSInsecureSkipVerify.

(** src: main.go 300-309 grpcTLSOptions *)
Definition grpcTLSOptions (useTLS tlsInsecure : bool) : list GRPCOption :=
  if tlsInsecure then [WithTLSInsecureSkipVerify] else if useTLS then [WithTLS] else [].

(** src: internal/ui/grpc.go 33-36 grpcOpts *)
Record grpcOpts := mkOpts { go_useTLS : bool; go_tlsInsecure : bool }.

(** src: internal/ui/grpc.go 39-47 WithTLS, WithTLSInsecureSkipVerify *)
Definition apply_option (o : grpcOpts) (opt : GRPCOption) : grpcOpts :=
  match opt with WithTLS => mkOpts true (go_tlsInsecure o) | WithTLSInsecureSkipVerify => mkOpts true true end.

(** The connection: its target, the key that signs each call, and its transport. *)
Record client := mkClient { cl_target : string; cl_key : option bytes; cl_opts : grpcOpts }.

(** [ok]: gRPC takes the target.  Nothing is sent yet. *)
(** src: internal/ui/grpc.go 54-81 NewGRPCBackend *)
Definition NewGRPCBackend (target : string) (privKey : option bytes) (options : list GRPCOption) (ok : bool) : option client :=
  if ok then Some (mkClient target privKey (fold_left apply_option options (mkOpts false false))) else None.

(** The headers of a call. *)
Definition call_metadata (c : client) (clock : Z) : metadata :=
  match cl_key c with Some k => ApiAuth.delivered (GetRequestMetadata k clock) | None => ∅ end.

(** src: main.go 120-128 runAttach *)
Definition client_key (fs : filesystem) (f : client_flags) : result seed_err (option bytes) :=
  if bool_decide (cf_auth_key f = ""%string) then Ok None
  else k <-? loadAuthKey fs (cf_auth_key f); Ok (Some k).

(** What the three clients begin with. *)
(** src: main.go 109-135 runAttach *)
Definition open_client (fs : filesystem) (home : string) (f : client_flags) (dial : bool) : result failure client :=
  match client_key fs f with
  | Err e => Err (FailAuthKey e)
  | Ok k => of_option FailConnect (NewGRPCBackend (client_target home f) k (grpcTLSOptions (cf_tls f) (cf_tls_insecure f)) dial)
  end.

(** [tui]: how the interface on the client's backend ends. *)
(** src: main.go 100-143 runAttach *)
Definition runAttach (fs : filesystem) (home : string) (f : client_flags) (dial : bool) (tui : client -> bool) : exit :=
  match open_client fs home f dial with
  | Err e => Exit1 e
  | Ok c => if tui c then Exit0 [] else Exit1 FailTUI
  end.

(** src: main.go 198-199 runDebug *)
Definition debug_peer (now : Z) (p : string * string * Z) : string :=
  let '(addr, onion, seen) := p in
  let since := GoTime.Sub now (GoTime.of_UnixMilli seen) in
  let ago := Z.quot since GoTime.Second * GoTime.Second in
  ("  " +:+ pad 36 addr +:+ "  " +:+ pad 62 onion +:+ "  " +:+ duration_string ago +:+ " ago")%string.

(** src: main.go 208-212 runDebug *)
Definition debug_connection (c : string * string * string) : string :=
  let '(addr, state, err) := c in
  ("  " +:+ pad 36 addr +:+ "  " +:+ state +:+ (if bool_decide (err = "") then "" else "  err: " +:+ err))%string.

(** The lines of the output. *)
(** src: main.go 192-214 runDebug *)
Definition debug_report (now : Z) (info : ui_DebugInfo) : list string :=
  [("Onion: " +:+ ud_OnionAddr info)%string; ""%string; ("Routing Table (" +:+ FormatInt (ud_RTSize info) +:+ " peers):")%string] ++
  match ud_RTPeers info with [] => ["  (empty)"%string] | ps => debug_peer now <$> ps end ++
  [""%string; ("Connections (" +:+ FormatInt (Z.of_nat (length (ud_Connections info))) +:+ "):")%string] ++
  match ud_Connections info with [] => ["  (none)"%string] | cs => debug_connection <$> cs end.

(** [call]: the answer of the daemon, [None] for an error. *)
(** src: main.go 146-215 runDebug *)
Definition runDebug (fs : filesystem) (home : string) (f : client_flags) (dial : bool) (call : client -> option ui_DebugInfo)
    (now : Z) : exit :=
  match open_client fs home f dial with
  | Err e => Exit1 e
  | Ok c => match call c with Some info => Exit0 (debug_report now info) | None => Exit1 FailCall end
  end.

(** [args]: what is left after the flags. *)
(** src: main.go 244-297 runAddNode *)
Definition runAddNode (fs : filesystem) (home : string) (f : client_flags) (args : list string) (dial : bool)
    (call : client -> string -> option Z) : exit :=
  match args with
  | [] => Exit1 FailUsage
  | onionAddr :: _ =>
      match open_client fs home f dial with
      | Err e => Exit1 e
      | Ok c => match call c onionAddr with
                | Some n => Exit0 [("Bootstrap complete: " +:+ FormatInt n +:+ " peers discovered")%string]
                | None => Exit1 FailCall
                end
      end
  end.

(** [rand]: 32 bytes of the system's randomness. *)
(** src: main.go 218-241 runKeygen *)
Definition runKeygen (rand : option bytes) (output : string) (write : write_outcome) (fs : filesystem) : exit * filesystem :=
  match Identity.Generate rand with
  | None => (Exit1 FailGenerate, fs)
  | Some kp =>
      let '(ok, fs) := WriteFile fs output (Seed kp) write in
      if negb ok then (Exit1 FailWriteKey, fs)
      else
        let pubHex := hex_encode (PublicKey kp) in
        (Exit0 ["Admin key generated."; ""; "  Private seed: " +:+ output +:+ "  (keep secret!)"; "  Public key:   " +:+ pubHex; "";
                "Server:  ensemble --headless --admin-key " +:+ pubHex;
                "Client:  ensemble debug --auth-key " +:+ output +:+ " --addr host:9090"]%string, fs)
  end.
End programs.

(** ** The command line and the daemon's sockets *)

Lemma if_given_nonempty flag old : old <> ""%string -> if_given flag old <> ""%string.
Proof. unfold if_given. by case_bool_decide. Qed.

Lemma plain_ensemble : plain ".ensemble" /\ plain "ensemble.sock".
Proof. by split_and!. Qed.

(** Without flags, the client looks where the daemon listens. *)
Lemma default_socket home : SocketPath (DefaultConfig home) = JoinAll [home; ".ensemble"; "ensemble.sock"]%string.
Proof.
  destruct plain_ensemble as [Hp Hq]. cbn [DefaultConfig SocketPath].
  rewrite JoinAll_filter by (done || by repeat (apply Forall_cons; split)). case_bool_decide as Hh; [by rewrite Hh|].
  by apply Clean_stack_join.
Qed.

Lemma Join_nonempty a b : b <> ""%string -> Join a b <> ""%string.
Proof. unfold Join. intros Hb. rewrite (bool_decide_eq_false_2 (b = _)) by done. case_bool_decide; apply Clean_nonempty. Qed.

(** The Unix socket that the flags choose; empty for none. *)
Definition chosen_socket (home : string) (f : daemon_flags) : string :=
  if negb (bool_decide (fl_api_socket f = ""%string)) then fl_api_socket f
  else if negb (bool_decide (fl_api_addr f = ""%string)) then ""
  else if negb (bool_decide (fl_data_dir f = ""%string)) then Join (fl_data_dir f) "ensemble.sock"
  else JoinAll [home; ".ensemble"; "ensemble.sock"]%string.

Lemma run_config_sockets home env_key f :
  TCPAddr (run_config home env_key f) = fl_api_addr f /\ SocketPath (run_config home env_key f) = chosen_socket home f.
Proof.
  unfold run_config, chosen_socket, if_given. cbn [TCPAddr SocketPath]. rewrite <- default_socket.
  repeat case_bool_decide; split; congruence || done.
Qed.

Lemma command_line_listens home env_key f : configured (run_config home env_key f) <> [].
Proof.
  destruct (run_config_sockets home env_key f) as [Ht Hs]. unfold configured, configured_tcp, configured_unix. rewrite Ht, Hs.
  case_bool_decide as Ha; [|done]. cbn [app]. case_bool_decide as Hc; [|done]. exfalso. revert Hc. unfold chosen_socket.
  rewrite Ha, <- default_socket. assert (bool_decide (""%string = ""%string) = true) as -> by by apply bool_decide_eq_true_2.
  repeat case_bool_decide; cbn [negb]; [done || by apply Join_nonempty..].
Qed.

(** Every socket can be made that is not in use. *)
Definition willing : listen_env := mkListen true true true.

Lemma listen_willing me cfg w : TCPAddr cfg ∉ sk_tcp w -> configured cfg <> [] ->
  exists w', listen me cfg willing w = (Ok (configured cfg), w').
Proof.
  intros Hfree Hne. unfold listen. assert (exists w1, listen_tcp cfg willing w = Some (configured_tcp cfg, w1)) as [w1 Ht].
  { unfold listen_tcp, configured_tcp. case_bool_decide; [by eexists|]. cbn [willing le_tcp andb]. rewrite bool_decide_eq_true_2 by done. by eexists. }
  rewrite Ht. assert (exists w2, listen_unix me cfg willing w1 = (true, configured_unix cfg, w2)) as [w2 Hu].
  { unfold listen_unix, configured_unix. case_bool_decide; [by eexists|]. cbn [willing le_remove le_unix andb].
    rewrite bool_decide_eq_true_2 by apply lookup_delete_eq. by eexists. }
  rewrite Hu. cbn [negb]. fold (configured cfg). destruct (configured cfg) as [|l ls]; [done|]. by eexists.
Qed.

(** Closing by the system and closing by the daemon free the same addresses. *)
Lemma die_tcp ls : forall w w', sk_tcp w = sk_tcp w' -> sk_tcp (die ls w) = sk_tcp (fold_left close_listener ls w').
Proof.
  unfold die. induction ls as [|l ls IH]; intros w w' Hw; [done|]. cbn [fold_left]. apply IH. destruct l; cbn; [by rewrite Hw|done].
Qed.

Section claims.
Context `{Ed25519Ok, Argon2, AESGCM, Ripemd160, Base58}.
Context (chat_send send_file : string -> string -> option string) (accept_file reject_file : string -> string -> bool).

Abbreviation start := (Start chat_send send_file accept_file reject_file).
Abbreviation run := (runDaemon chat_send send_file accept_file reject_file).


(** A call of a client that reaches the daemon: it is answered when the API lets it through. *)
Definition ask {A} (d : Daemon) (clock now : Z) (info : A) (c : client) : option A :=
  if admitted d (Some (call_metadata c clock)) now then Some info else None.

(** Once the public key is configured, the administrator is whoever has signed. *)
Lemma admin_daemon me cfg env fs w d fs' w' pub : start me cfg env fs w = Some (Ok tt, d, fs', w') ->
  AdminKey cfg = hex_encode pub -> length pub = PublicKeySize ->
  forall md now, admitted d md now = true <-> verifyAuth md pub now = Ok tt.
Proof.
  intros Hs Hk Hl md now. apply start_opened in Hs as [_ Hs]. destruct (Hs eq_refl) as (_ & _ & _ & Hadm). rewrite Hadm, Hk. split.
  - intros [Hempty|(k & Hd & _ & Hv)]; [by destruct pub|]. rewrite hex_decode_encode in Hd. by injection Hd as ->.
  - intros Hv. right. exists pub. by rewrite hex_decode_encode.
Qed.

Lemma no_credentials pub now : verifyAuth (Some ∅) pub now = Err ErrMissingHeaders.
Proof. done. Qed.

End claims.

Section samples.
Import Toy.

Example sample_report :
  debug_report (10 * GoTime.Second) (mkUiDebug 1 [("EaddrA", "a.onion", 2500)] [("EaddrB", "direct", "")] "me.onion")%string =
  ["Onion: me.onion"; ""; "Routing Table (1 peers):";
   "  EaddrA                                a.onion                                                         7s ago"; "";
   "Connections (1):"; "  EaddrB                                direct"]%string /\
  duration_string (3725 * GoTime.Second) = "1h2m5s"%string /\ duration_string (- 60 * GoTime.Second) = "-1m0s"%string.
Proof. vm_compute. done. Qed.

Example sample_flags :
  let f := mkFlags true "/srv/ens" ":9090" "" None "" in
  configured (run_config "/home/ada" "" f) = [TcpListener ":9090"] /\ DataDir (run_config "/home/ada" "" f) = "/srv/ens"%string /\
  main ["ensemble"; "keygen"; "--output"; "k"] = CmdKeygen ["--output"; "k"]%string.
Proof. vm_compute. done. Qed.

Definition sample_seed : bytes := replicate 32 Byte.x09.
Definition sample_printed : string := hex_encode (ed_pub_of_seed sample_seed).
Definition admin_flags : daemon_flags := mkFlags true "" "" "" (Some sample_printed) "".
Definition admin_cfg : Config := run_config "/home/ada" "" admin_flags.
Definition sample_keygen := runKeygen (Some sample_seed) "admin.key" WriteOk empty_fs.
Definition admin_start := Start no_send no_send no_file no_file 1 admin_cfg sample_start_env empty_fs (mkSockets ∅ ∅).
Definition debug_flags : client_flags := mkCFlags "" "" "admin.key" false false.

Lemma admin_start_ok : exists d fs' w', admin_start = Some (Ok tt, d, fs', w').
Proof.
  assert (match admin_start with Some (Ok tt, _, _, _) => true | _ => false end = true) as Hs by (vm_compute; reflexivity).
  destruct admin_start as [[[[[[]|] ?] ?] ?]|]; try done. by eexists _, _, _.
Qed.

Lemma admin_cfg_key : AdminKey admin_cfg = hex_encode (ed_pub_of_seed sample_seed).
Proof. vm_compute. reflexivity. Qed.

Lemma sample_keygen_ok : exists out fs', sample_keygen = (Exit0 out, fs').
Proof. by eexists _, _. Qed.

End samples.
