(* ===== verification/Screens.v ===== *)
(** * internal/ui/screens: the screens of the terminal interface

    The state of each screen and its reaction to a message; what they draw is in Views.  Of the
    conversation's viewport the model keeps what it was last given.  The text fields are a library's. *)

From Stdlib Require Import Ascii.
From S2P Require Import Contacts Prelude GoStd Sha256 Crypto Protocol Instances Identity Wire IPExchange Services Signaling Session Routing Events Chunker Keystore FilePath Connector Pending ApiEvents Node Api Backend.
Local Open Scope go_scope.

(** ** Messages and commands *)

(** src: internal/ui/screens/home.go 34-39 ContactItem *)
Record ContactItem := mkItem { it_Address : string; it_Alias : string; it_Online : bool; it_Status : string }.

(** The messages of the program, those of the framework first; [OtherMsg] is any message of
    a library.  [sl_]: the fields of [statusLoadedMsg]; an error of the backend is [None] where
    the code only looks at whether there is one. *)
(** src: internal/ui/app.go 35-89 identityLoadedMsg, statusLoadedMsg, debugLoadedMsg, contactsLoadedMsg, ... *)
Inductive Msg :=
| WindowSizeMsg (width height : Z)
| KeyMsg (key : string)
| OtherMsg
| identityLoadedMsg (address : string) (publicKey : bytes)
| statusLoadedMsg (torState : string) (peerCount : Z) (onionAddr : string) (rtSize : Z)
| debugLoadedMsg (info : option ui_DebugInfo)
| contactsLoadedMsg (contacts : list ContactItem)
| contactSavedMsg
| contactSaveErrMsg (e : backend_err)
| nodeSavedMsg (peersFound : Z)
| nodeSaveErrMsg (e : backend_err)
| nodeScreenDoneMsg
| connDecisionDoneMsg (err : option backend_err)
| chatSentMsg (messageID : result backend_err string)
| fileSendDoneMsg (transferID : result (option backend_err) string)
| fileDecisionDoneMsg (err : option backend_err)
| eventChanMsg
| eventMsg (e : Event payload)
| AddContactSavedMsg (address alias : string)
| AddNodeSavedMsg (onionAddr : string)
| ConnAcceptedMsg (address : string)
| ConnRejectedMsg (address : string)
| ChatSendMsg (address text : string)
| FileSelectedMsg (path address : string)
| FileAcceptedMsg (transferID : string)
| FileRejectedMsg (transferID : string)
| TransferCancelMsg (transferID : string)
| TorProgressMsg (percent : Z) (summary : string).

(** What the program is asked to do; the result comes back as a message.  [CmdWidget] is a
    command of a library (a blinking cursor), [CmdEmit] a message for the program itself,
    [CmdWait] waits for the next event, if the subscription has come. *)
Inductive Cmd :=
| CmdNone | CmdQuit | CmdWidget
| CmdEmit (m : Msg)
| CmdTick (m : Msg)
| CmdWait (subscribed : bool)
| CmdBatch (l : list Cmd)
| CmdLoadIdentity | CmdLoadStatus | CmdLoadContacts | CmdLoadDebugInfo | CmdSubscribe
| CmdSaveContact (addr alias : string)
| CmdSaveNode (onionAddr : string)
| CmdAcceptConn (addr : string)
| CmdRejectConn (addr : string)
| CmdSendChat (addr text : string)
| CmdSendFile (addr path : string)
| CmdAcceptFile (id : string)
| CmdRejectFile (id : string).

(** A text field of the library: its text, what a message does to it, focus. *)
Class TextField (W : Type) := {
  tf_new : string -> nat -> W;
  tf_Value : W -> string;
  tf_SetValue : W -> string -> W;
  tf_Update : W -> Msg -> W;
  tf_Focus : W -> W;
  tf_Blur : W -> W
}.

(** Clearing a field leaves it empty, and focus does not touch the text. *)
Class TextFieldOk (W : Type) `{TextField W} : Prop := {
  tf_cleared w : tf_Value (tf_SetValue w "") = ""%string;
  tf_focused w : tf_Value (tf_Focus w) = tf_Value w;
  tf_blurred w : tf_Value (tf_Blur w) = tf_Value w
}.

(** ** The cursor of a list *)

(** Cursor keys in a list of [n] entries. *)
Definition cursor_up (cursor : Z) : Z := if 0 <? cursor then cursor - 1 else cursor.
Definition cursor_down (cursor n : Z) : Z := if cursor <? n - 1 then cursor + 1 else cursor.

Definition is_key (k : string) (l : list string) : bool := bool_decide (k ∈ l).

(** The entry at an index; [None]: out of range, a panic. *)
Definition at_index {A} (l : list A) (i : Z) : option A := if i <? 0 then None else l !! Z.to_nat i.

(** ** home.go *)

(** src: internal/ui/screens/home.go 42-47 Home *)
Record Home := mkHome { hm_Contacts : list ContactItem; hm_Cursor : Z; hm_Width : Z; hm_Height : Z }.

(** src: internal/ui/screens/home.go 50-52 NewHome *)
Definition NewHome : Home := mkHome [] 0 0 0.

(** src: internal/ui/screens/home.go 60-74 Home.Update *)
Definition Home_Update (h : Home) (msg : Msg) : Home * Cmd :=
  match msg with
  | KeyMsg k =>
      if is_key k ["up"; "k"]%string then (mkHome (hm_Contacts h) (cursor_up (hm_Cursor h)) (hm_Width h) (hm_Height h), CmdNone)
      else if is_key k ["down"; "j"]%string then
        (mkHome (hm_Contacts h) (cursor_down (hm_Cursor h) (Z.of_nat (length (hm_Contacts h)))) (hm_Width h) (hm_Height h), CmdNone)
      else (h, CmdNone)
  | _ => (h, CmdNone)
  end.

(** ** splash.go *)

(** src: internal/ui/screens/splash.go 32-37 Splash *)
Record Splash := mkSplash { sp_Width : Z; sp_Height : Z; sp_Progress : Z; sp_Summary : string }.

(** src: internal/ui/screens/splash.go 50-57 Splash.Update *)
Definition Splash_Update (s : Splash) (msg : Msg) : Splash * Cmd :=
  match msg with
  | TorProgressMsg percent summary => (mkSplash (sp_Width s) (sp_Height s) percent summary, CmdNone)
  | _ => (s, CmdNone)
  end.

(** ** settings.go *)

(** src: internal/ui/screens/settings.go 29-34 Settings *)
Record Settings := mkSettings { st_Address : string; st_PublicKey : bytes; st_Width : Z; st_Height : Z }.

(** ** debug.go *)

(** src: internal/ui/screens/debug.go 41-48 Debug *)
Record Debug := mkDebugScreen {
  db_RTSize : Z; db_RTPeers : list (string * string * Z); db_Connections : list (string * string * string);
  db_OnionAddr : string; db_Width : Z; db_Height : Z }.

(** src: internal/ui/screens/debug.go 51-53 NewDebug *)
Definition NewDebug : Debug := mkDebugScreen 0 [] [] "" 0 0.

(** ** connprompt.go *)

(** src: internal/ui/screens/connprompt.go 44-48 ConnPrompt *)
Record ConnPrompt := mkConnPrompt { cp_Address : string; cp_Width : Z; cp_Height : Z }.

(** src: internal/ui/screens/connprompt.go 51-53 NewConnPrompt *)
Definition NewConnPrompt (addr : string) : ConnPrompt := mkConnPrompt addr 0 0.

(** src: internal/ui/screens/connprompt.go 61-77 ConnPrompt.Update *)
Definition ConnPrompt_Update (c : ConnPrompt) (msg : Msg) : ConnPrompt * Cmd :=
  match msg with
  | KeyMsg k =>
      if is_key k ["y"%string] then (c, CmdEmit (ConnAcceptedMsg (cp_Address c)))
      else if is_key k ["n"%string] then (c, CmdEmit (ConnRejectedMsg (cp_Address c)))
      else (c, CmdNone)
  | _ => (c, CmdNone)
  end.

(** ** fileoffer.go *)

(** src: internal/ui/screens/fileoffer.go 39-46 FileOfferPrompt *)
Record FileOfferPrompt := mkOfferPrompt {
  fo_TransferID : string; fo_Filename : string; fo_Size : Z; fo_FromAddr : string; fo_Width : Z; fo_Height : Z }.

(** src: internal/ui/screens/fileoffer.go 49-56 NewFileOfferPrompt *)
Definition NewFileOfferPrompt (transferID filename : string) (size : Z) (fromAddr : string) : FileOfferPrompt :=
  mkOfferPrompt transferID filename size fromAddr 0 0.

(** src: internal/ui/screens/fileoffer.go 64-80 FileOfferPrompt.Update *)
Definition FileOffer_Update (f : FileOfferPrompt) (msg : Msg) : FileOfferPrompt * Cmd :=
  match msg with
  | KeyMsg k =>
      if is_key k ["y"%string] then (f, CmdEmit (FileAcceptedMsg (fo_TransferID f)))
      else if is_key k ["n"%string] then (f, CmdEmit (FileRejectedMsg (fo_TransferID f)))
      else (f, CmdNone)
  | _ => (f, CmdNone)
  end.

(** ** transfer.go *)

(** [ti_Error]: [None] is the empty text; [ti_Percent] is 0 or 100 wherever the code sets it. *)
(** src: internal/ui/screens/transfer.go 48-58 TransferItem *)
Record TransferItem := mkTransfer {
  ti_TransferID : string; ti_Filename : string; ti_Direction : string; ti_PeerAddr : string; ti_Percent : Z;
  ti_Speed : string; ti_ETA : string; ti_Complete : bool; ti_Error : option (option backend_err) }.

(** src: internal/ui/screens/transfer.go 61-66 Transfer *)
Record TransferScreen := mkTransfers { tr_Items : list TransferItem; tr_Cursor : Z; tr_Width : Z; tr_Height : Z }.

(** The bound of the cursor is checked; [None] would be a negative cursor. *)
(** src: internal/ui/screens/transfer.go 79-104 Transfer.Update *)
Definition Transfer_Update (t : TransferScreen) (msg : Msg) : option (TransferScreen * Cmd) :=
  let n := Z.of_nat (length (tr_Items t)) in
  match msg with
  | KeyMsg k =>
      if is_key k ["up"; "k"]%string then Some (mkTransfers (tr_Items t) (cursor_up (tr_Cursor t)) (tr_Width t) (tr_Height t), CmdNone)
      else if is_key k ["down"; "j"]%string then
        Some (mkTransfers (tr_Items t) (cursor_down (tr_Cursor t) n) (tr_Width t) (tr_Height t), CmdNone)
      else if is_key k ["c"%string] then
        if (0 <? n) && (tr_Cursor t <? n) then
          item ← at_index (tr_Items t) (tr_Cursor t);
          if negb (ti_Complete item) && bool_decide (ti_Error item = None)
          then Some (t, CmdEmit (TransferCancelMsg (ti_TransferID item))) else Some (t, CmdNone)
        else Some (t, CmdNone)
      else Some (t, CmdNone)
  | _ => Some (t, CmdNone)
  end.

(** ** filepicker.go *)

(** src: internal/ui/screens/filepicker.go 49-53 fileEntry *)
Record fileEntry := mkEntry { fe_Name : string; fe_IsDir : bool; fe_Size : Z }.

(** An entry of a directory; [Info] of an entry may fail. *)
Record dir_entry := mkDirEntry { de_Name : string; de_IsDir : bool; de_Info : option Z }.

(** src: internal/ui/screens/filepicker.go 56-65 FilePicker *)
Record FilePicker := mkPicker {
  fk_PeerAddress : string; fk_PeerAlias : string; fk_Dir : string; fk_Entries : list fileEntry; fk_Cursor : Z;
  fk_Width : Z; fk_Height : Z; fk_err : bool }.

Section picker.
(** The directories of the disk, and the home directory. *)
Context (ReadDir : string -> option (list dir_entry)) (UserHomeDir : option string).

Definition by_name (a b : fileEntry) : bool := string_ltb (fe_Name a) (fe_Name b).

(** src: internal/ui/screens/filepicker.go 82-127 FilePicker.loadDir *)
Definition loadDir (fp : FilePicker) : FilePicker :=
  match ReadDir (fk_Dir fp) with
  | None => mkPicker (fk_PeerAddress fp) (fk_PeerAlias fp) (fk_Dir fp) [] (fk_Cursor fp) (fk_Width fp) (fk_Height fp) true
  | Some entries =>
      let visible := omap (fun e => if is_prefix "." (de_Name e) then None
                                    else size ← de_Info e; Some (mkEntry (de_Name e) (de_IsDir e) size)) entries in
      let parent := if bool_decide (fk_Dir fp = "/"%string) then [] else [mkEntry ".." true 0] in
      let dirs := sort_slice by_name (List.filter fe_IsDir visible) in
      let files := sort_slice by_name (List.filter (fun e => negb (fe_IsDir e)) visible) in
      mkPicker (fk_PeerAddress fp) (fk_PeerAlias fp) (fk_Dir fp) (parent ++ dirs ++ files) 0 (fk_Width fp) (fk_Height fp) false
  end.

(** src: internal/ui/screens/filepicker.go 68-80 NewFilePicker *)
Definition NewFilePicker (peerAddr peerAlias : string) : FilePicker :=
  loadDir (mkPicker peerAddr peerAlias (default "/"%string UserHomeDir) [] 0 0 0 false).

(** [None]: an index out of range. *)
(** src: internal/ui/screens/filepicker.go 135-169 FilePicker.Update *)
Definition FilePicker_Update (fp : FilePicker) (msg : Msg) : option (FilePicker * Cmd) :=
  let with_cursor c := mkPicker (fk_PeerAddress fp) (fk_PeerAlias fp) (fk_Dir fp) (fk_Entries fp) c (fk_Width fp)
                         (fk_Height fp) (fk_err fp) in
  let with_dir d := mkPicker (fk_PeerAddress fp) (fk_PeerAlias fp) d (fk_Entries fp) (fk_Cursor fp) (fk_Width fp)
                      (fk_Height fp) (fk_err fp) in
  match msg with
  | KeyMsg k =>
      if is_key k ["up"; "k"]%string then Some (with_cursor (cursor_up (fk_Cursor fp)), CmdNone)
      else if is_key k ["down"; "j"]%string then
        Some (with_cursor (cursor_down (fk_Cursor fp) (Z.of_nat (length (fk_Entries fp)))), CmdNone)
      else if is_key k ["enter"%string] then
        match fk_Entries fp with
        | [] => Some (fp, CmdNone)
        | _ =>
            entry ← at_index (fk_Entries fp) (fk_Cursor fp);
            if fe_IsDir entry then
              Some (loadDir (with_dir (if bool_decide (fe_Name entry = ".."%string) then DirOf (fk_Dir fp)
                                       else Join (fk_Dir fp) (fe_Name entry))), CmdNone)
            else Some (fp, CmdEmit (FileSelectedMsg (Join (fk_Dir fp) (fe_Name entry)) (fk_PeerAddress fp)))
        end
      else Some (fp, CmdNone)
  | _ => Some (fp, CmdNone)
  end.
End picker.

(** ** statusbar.go *)

(** src: internal/ui/components/statusbar.go 20-27 StatusBar *)
Record StatusBar := mkStatusBar {
  sb_Address : string; sb_TorState : string; sb_OnionAddr : string; sb_PeerCount : Z; sb_RTSize : Z; sb_Width : Z }.

Section fields.
Context {W : Type} `{TextField W}.

(** ** addcontact.go *)

(** src: internal/ui/screens/addcontact.go 36-41 AddContactField *)
Inductive AddContactField := FieldAddress | FieldAlias.

Inductive form_err := AddressRequired | AddressPrefix.

(** src: internal/ui/screens/addcontact.go 44-51 AddContact *)
Record AddContactScreen := mkAddContact {
  ac_addressInput : W; ac_aliasInput : W; ac_focused : AddContactField; ac_err : option form_err; ac_Width : Z; ac_Height : Z }.

(** src: internal/ui/screens/addcontact.go 54-69 NewAddContact *)
Definition NewAddContact : AddContactScreen :=
  mkAddContact (tf_Focus (tf_new "E..." 64)) (tf_new "(optional)" 32) FieldAddress None 0 0.

(** src: internal/ui/screens/addcontact.go 150-157 AddContact.Reset *)
Definition AddContact_Reset (a : AddContactScreen) : AddContactScreen :=
  mkAddContact (tf_Focus (tf_SetValue (ac_addressInput a) "")) (tf_Blur (tf_SetValue (ac_aliasInput a) "")) FieldAddress None
    (ac_Width a) (ac_Height a).

(** src: internal/ui/screens/addcontact.go 77-120 AddContact.Update *)
Definition AddContact_Update (a : AddContactScreen) (msg : Msg) : AddContactScreen * Cmd :=
  let with_err e := mkAddContact (ac_addressInput a) (ac_aliasInput a) (ac_focused a) e (ac_Width a) (ac_Height a) in
  let typed :=
    match ac_focused a with
    | FieldAddress => mkAddContact (tf_Update (ac_addressInput a) msg) (ac_aliasInput a) (ac_focused a) (ac_err a) (ac_Width a) (ac_Height a)
    | FieldAlias => mkAddContact (ac_addressInput a) (tf_Update (ac_aliasInput a) msg) (ac_focused a) (ac_err a) (ac_Width a) (ac_Height a)
    end in
  match msg with
  | KeyMsg k =>
      if is_key k ["tab"; "shift+tab"]%string then
        (match ac_focused a with
         | FieldAddress => mkAddContact (tf_Blur (ac_addressInput a)) (tf_Focus (ac_aliasInput a)) FieldAlias None (ac_Width a) (ac_Height a)
         | FieldAlias => mkAddContact (tf_Focus (ac_addressInput a)) (tf_Blur (ac_aliasInput a)) FieldAddress None (ac_Width a) (ac_Height a)
         end, CmdNone)
      else if is_key k ["enter"%string] then
        let addr := TrimSpace (tf_Value (ac_addressInput a)) in
        match addr with
        | EmptyString => (with_err (Some AddressRequired), CmdNone)
        | String c _ =>
            if negb (bool_decide (c = "E"%char)) then (with_err (Some AddressPrefix), CmdNone)
            else (a, CmdEmit (AddContactSavedMsg addr (TrimSpace (tf_Value (ac_aliasInput a)))))
        end
      else (typed, CmdWidget)
  | _ => (typed, CmdWidget)
  end.

(** ** addnode.go *)

Inductive node_form_err := OnionRequired | OnionSuffix | AddNodeFailed (e : backend_err).

(** The texts of the status line. *)
Inductive node_status := NoStatus | StatusConnecting | StatusDiscovered (peers : Z) | StatusNoPeers.

(** src: internal/ui/screens/addnode.go 18-25 AddNode *)
Record AddNodeScreen := mkAddNode {
  an_onionInput : W; an_err : option node_form_err; an_status : node_status; an_success : bool; an_Width : Z; an_Height : Z }.

(** src: internal/ui/screens/addnode.go 28-37 NewAddNode *)
Definition NewAddNode : AddNodeScreen := mkAddNode (tf_Focus (tf_new "xxxxx.onion" 128)) None NoStatus false 0 0.

(** src: internal/ui/screens/addnode.go 45-67 AddNode.Update *)
Definition AddNode_Update (a : AddNodeScreen) (msg : Msg) : AddNodeScreen * Cmd :=
  let with_err e := mkAddNode (an_onionInput a) e (an_status a) (an_success a) (an_Width a) (an_Height a) in
  let typed := (mkAddNode (tf_Update (an_onionInput a) msg) (an_err a) (an_status a) (an_success a) (an_Width a) (an_Height a), CmdWidget) in
  match msg with
  | KeyMsg k =>
      if is_key k ["enter"%string] then
        let addr := TrimSpace (tf_Value (an_onionInput a)) in
        if bool_decide (addr = ""%string) then (with_err (Some OnionRequired), CmdNone)
        else if negb (HasSuffix addr ".onion") then (with_err (Some OnionSuffix), CmdNone)
        else (a, CmdEmit (AddNodeSavedMsg addr))
      else typed
  | _ => typed
  end.

(** src: internal/ui/screens/addnode.go 116-120 AddNode.SetStatus *)
Definition AddNode_SetStatus (a : AddNodeScreen) (s : node_status) : AddNodeScreen :=
  mkAddNode (an_onionInput a) None s false (an_Width a) (an_Height a).
(** src: internal/ui/screens/addnode.go 123-128 AddNode.SetSuccess *)
Definition AddNode_SetSuccess (a : AddNodeScreen) (s : node_status) : AddNodeScreen :=
  mkAddNode (tf_Blur (an_onionInput a)) None s true (an_Width a) (an_Height a).
(** src: internal/ui/screens/addnode.go 131-135 AddNode.SetError *)
Definition AddNode_SetError (a : AddNodeScreen) (e : node_form_err) : AddNodeScreen :=
  mkAddNode (an_onionInput a) (Some e) NoStatus false (an_Width a) (an_Height a).
(** src: internal/ui/screens/addnode.go 138-144 AddNode.Reset *)
Definition AddNode_Reset (a : AddNodeScreen) : AddNodeScreen :=
  mkAddNode (tf_Focus (tf_SetValue (an_onionInput a) "")) None NoStatus false (an_Width a) (an_Height a).

(** ** chat.go *)

(** src: internal/ui/components/messagelist.go 31-37 ChatMessage *)
Record ChatMessage := mkChatMessage { cm_ID : string; cm_Text : string; cm_SentByMe : bool; cm_Timestamp : Z; cm_Acked : bool }.

(** [ch_viewport]: the messages the viewport was last given. *)
(** src: internal/ui/screens/chat.go 38-48 Chat *)
Record ChatScreen := mkChatScreen {
  ch_Address : string; ch_Alias : string; ch_Messages : list ChatMessage; ch_input : W; ch_viewport : list ChatMessage;
  ch_Width : Z; ch_Height : Z; ch_ready : bool }.

(** src: internal/ui/screens/chat.go 51-65 NewChat *)
Definition NewChat (address alias : string) : ChatScreen :=
  mkChatScreen address alias [] (tf_Focus (tf_new "Type a message..." 4096)) [] 0 0 false.

(** src: internal/ui/screens/chat.go 168-174 Chat.RefreshViewport *)
Definition RefreshViewport (c : ChatScreen) : ChatScreen :=
  if negb (ch_ready c) then c
  else mkChatScreen (ch_Address c) (ch_Alias c) (ch_Messages c) (ch_input c) (ch_Messages c) (ch_Width c) (ch_Height c) true.

Definition set_messages (c : ChatScreen) (ms : list ChatMessage) : ChatScreen :=
  mkChatScreen (ch_Address c) (ch_Alias c) ms (ch_input c) (ch_viewport c) (ch_Width c) (ch_Height c) (ch_ready c).
Definition set_input (c : ChatScreen) (w : W) : ChatScreen :=
  mkChatScreen (ch_Address c) (ch_Alias c) (ch_Messages c) w (ch_viewport c) (ch_Width c) (ch_Height c) (ch_ready c).

(** src: internal/ui/screens/chat.go 110-113 Chat.AddMessage *)
Definition AddMessage (c : ChatScreen) (m : ChatMessage) : ChatScreen := RefreshViewport (set_messages c (ch_Messages c ++ [m])).

(** src: internal/ui/screens/chat.go 154-165 Chat.initViewport *)
Definition initViewport (c : ChatScreen) : ChatScreen :=
  mkChatScreen (ch_Address c) (ch_Alias c) (ch_Messages c) (ch_input c) (ch_Messages c) (ch_Width c) (ch_Height c) true.

(** src: internal/ui/screens/chat.go 73-107 Chat.Update *)
Definition Chat_Update (c : ChatScreen) (msg : Msg) : ChatScreen * Cmd :=
  let rest (c : ChatScreen) := (set_input c (tf_Update (ch_input c) msg), CmdWidget) in
  match msg with
  | WindowSizeMsg w h =>
      rest (initViewport (mkChatScreen (ch_Address c) (ch_Alias c) (ch_Messages c) (ch_input c) (ch_viewport c) w h (ch_ready c)))
  | KeyMsg k =>
      if is_key k ["enter"%string] then
        let text := TrimSpace (tf_Value (ch_input c)) in
        if negb (bool_decide (text = ""%string))
        then (set_input c (tf_SetValue (ch_input c) ""), CmdEmit (ChatSendMsg (ch_Address c) text))
        else (c, CmdNone)
      else rest c
  | _ => rest c
  end.
End fields.
Arguments AddContactScreen : clear implicits.
Arguments AddNodeScreen : clear implicits.
Arguments ChatScreen : clear implicits.
