(* ===== verification/Views.v ===== *)
(** * internal/ui: what the screens draw

    The [View] of each screen, of the status bar and of the list of messages.  Colours and
    layout are lipgloss's, text fields and the viewport bubbles': both are parameters.  A result
    [None] is a panic. *)

From Stdlib Require Import Ascii QArith.
From S2P Require Import Contacts Prelude GoStd Sha256 Crypto Protocol Instances Identity ApiAuth Wire IPExchange Services Signaling Session Routing Events Chunker Keystore FilePath Connector Pending ApiEvents Node Api Float Backend Screens.
Local Open Scope go_scope.
Local Open Scope Z_scope.

(** ** Libraries *)

(** Styles and layout: [Place] puts a text in the middle of a width and a height, [WidthOf] is the
    number of cells a text takes. *)
Class Lipgloss := {
  Style : Type;
  NewStyle : Style;
  Bold : bool -> Style -> Style;
  Italic : bool -> Style -> Style;
  Foreground : string -> Style -> Style;
  Background : string -> Style -> Style;
  MarginBottom : Z -> Style -> Style;
  Padding : Z -> Z -> Style -> Style;
  Render : Style -> string -> string;
  Place : Z -> Z -> string -> string;
  WidthOf : string -> Z
}.

(** A text field, and the viewport of a conversation: of no size before it was made, then of a width and
    a height, with a text of which it shows the end. *)
Class Drawn (W : Type) := {
  tf_View : W -> string;
  viewport_View : option (Z * Z * string) -> string
}.

(** ** Strings *)

Abbreviation nl := (String (ascii_of_nat 10) EmptyString).

(** [s[i:j]] *)
Definition slice (s : string) (i j : Z) : option string :=
  if (0 <=? i) && (i <=? j) && (j <=? Z.of_nat (String.length s))
  then Some (String.substring (Z.to_nat i) (Z.to_nat (j - i)) s) else None.

(** [strings.Repeat] *)
Definition Repeat (s : string) (n : Z) : option string :=
  if n <? 0 then None else Some (String.concat "" (repeat s (Z.to_nat n))).

(** [Sprintf] of [%*s] and an empty text; a width beyond a million is refused. *)
Definition spaces (n : Z) : string :=
  if 1000000 <? n then "%!(BADWIDTH)" else String.concat "" (repeat " "%string (Z.to_nat n)).

Definition nonempty (s : string) : bool := negb (bool_decide (s = ""%string)).

(** Two digits. *)
Definition pad2 (n : Z) : string := (if (n <? 10)%Z then "0" +:+ FormatInt n else FormatInt n)%string.

(** [%.1f] of a number that is not negative, one of [float64]. *)
Definition Fmt1 (x : Q) : string := format1 x.

(** src: internal/ui/screens/chat.go 176-181 shortAddr *)
Definition shortAddr (addr : string) : option string :=
  let n := Z.of_nat (String.length addr) in
  if 16 <? n then a ← slice addr 0 10; b ← slice addr (n - 4) n; Some (a +:+ "..." +:+ b)%string else Some addr.

(** src: internal/ui/screens/debug.go 116-122 truncate *)
Definition truncate (s : string) (maxLen : Z) : option string :=
  let n := Z.of_nat (String.length s) in
  if n <=? maxLen then Some s
  else
    let half := Z.quot (maxLen - 3) 2 in
    a ← slice s 0 half; b ← slice s (n - half) n; Some (a +:+ "..." +:+ b)%string.

(** [d.Hours() / 24] is a division of numbers of 53 bits. *)
(** src: internal/ui/screens/debug.go 124-140 timeSince *)
Definition timeSince (now msTimestamp : Z) : string :=
  if msTimestamp =? 0 then "never"
  else
    let d := GoTime.Sub now (GoTime.of_UnixMilli msTimestamp) in
    (if (d <? GoTime.Minute)%Z then FormatInt (int64_of (in_units GoTime.Second d)) +:+ "s ago"
     else if (d <? GoTime.Hour)%Z then FormatInt (int64_of (in_units GoTime.Minute d)) +:+ "m ago"
     else if (d <? 24 * GoTime.Hour)%Z then FormatInt (int64_of (in_units GoTime.Hour d)) +:+ "h ago"
     else FormatInt (int64_of (f64 (in_units GoTime.Hour d / 24)%Q)) +:+ "d ago")%string.

(** src: internal/ui/screens/filepicker.go 235-246 formatSize *)
Definition formatSize (bytes : Z) : string :=
  (if (1024 * 1024 * 1024 <=? bytes)%Z then Fmt1 (f64 (float64 bytes / 1073741824)%Q) +:+ " GB"
   else if (1024 * 1024 <=? bytes)%Z then Fmt1 (f64 (float64 bytes / 1048576)%Q) +:+ " MB"
   else if (1024 <=? bytes)%Z then Fmt1 (f64 (float64 bytes / 1024)%Q) +:+ " KB"
   else FormatInt bytes +:+ " B")%string.

(** src: internal/ui/screens/splash.go 88-95 progressBar *)
Definition bar_cell (filled i : Z) : ascii := if i <? filled then "#"%char else "-"%char.

(** src: internal/ui/screens/splash.go 83-97 progressBar *)
Definition progressBar (pct width : Z) : option string :=
  let filled := Z.quot (pct * width) 100 in
  let filled := if width <? filled then width else filled in
  if width <? 0 then None
  else Some ("[" +:+ String.string_of_list_ascii (bar_cell filled <$> seqZ 0 width) +:+ "]")%string.

Section views.
Context {W : Type} `{TextField W} {G : Lipgloss} `{!Drawn W}.
(** The texts of errors, and how far the local clock is ahead of UTC, in seconds, at an instant. *)
Context (err_text : backend_err -> string) (ReadDir_err : string -> string) (zone : Z -> Z).

Definition fg (color : string) : Style := Foreground color NewStyle.
Definition bold_fg (color : string) : Style := Bold true (fg color).
Definition fg_bold (color : string) : Style := Foreground color (Bold true NewStyle).
Definition title_style (color : string) : Style := MarginBottom 1 (fg_bold color).

(** A key and what it does. *)
Definition hint (key desc : Style) (k d : string) : string := (Render key k +:+ " " +:+ Render desc d)%string.
Definition hints (key desc : Style) (l : list (string * string)) : string :=
  String.concat "  " ((fun '(k, d) => hint key desc k d) <$> l).

(** The mark of the entry under the cursor. *)
Definition mark (on : bool) : string := if on then "> " else "  ".

(** ** home.go *)

(** src: internal/ui/screens/home.go 12-15 homeTitle *)
Definition homeTitle : Style := title_style "#7C3AED".
(** src: internal/ui/screens/home.go 17-19 homeEmpty *)
Definition homeEmpty : Style := Italic true (fg "#6B7280").
(** src: internal/ui/screens/home.go 21-23 homeKey *)
Definition homeKey : Style := bold_fg "#22D3EE".
(** src: internal/ui/screens/home.go 25-26 homeKeyDesc *)
Definition homeKeyDesc : Style := fg "#6B7280".
(** src: internal/ui/screens/home.go 28-30 homeSelected *)
Definition homeSelected : Style := bold_fg "#7C3AED".

Definition contact_name (c : ContactItem) : string := if nonempty (it_Alias c) then it_Alias c else it_Address c.

Definition contact_status (c : ContactItem) : string :=
  if nonempty (it_Status c) then Render (fg "#FBBF24") (it_Status c)
  else if it_Online c then Render (fg "#34D399") "online" else Render homeKeyDesc "offline".

(** src: internal/ui/screens/home.go 85-102 Home.View *)
Definition home_row (here : bool) (c : ContactItem) : string :=
  let name := contact_name c in
  (mark here +:+ (if here then Render homeSelected name else name) +:+ "  " +:+ contact_status c +:+ nl)%string.

(** src: internal/ui/screens/home.go 84-103 Home.View *)
Definition home_rows (h : Home) : list string :=
  imap (fun i c => home_row (bool_decide (Z.of_nat i = hm_Cursor h)) c) (hm_Contacts h).

Definition home_keys : list (string * string) :=
  [("a", "add contact"); ("n", "add node"); ("t", "transfers"); ("d", "debug"); ("s", "settings"); ("q", "quit")]%string.

(** src: internal/ui/screens/home.go 77-123 Home.View *)
Definition Home_View (h : Home) : string :=
  let some_contact := match hm_Contacts h with [] => false | _ => true end in
  (Render homeTitle "Contacts" +:+ nl +:+
   (if some_contact then String.concat "" (home_rows h)
    else Render homeEmpty "No contacts yet. Press 'a' to add one." +:+ nl) +:+
   nl +:+
   (if some_contact then hints homeKey homeKeyDesc [("enter", "chat"); ("f", "send file")] +:+ "  " else "") +:+
   hints homeKey homeKeyDesc home_keys)%string.

(** ** splash.go *)

(** src: internal/ui/screens/splash.go 10-12 splashTitle *)
Definition splashTitle : Style := fg_bold "#7C3AED".
(** src: internal/ui/screens/splash.go 14-15 splashSubtle *)
Definition splashSubtle : Style := fg "#6B7280".
(** src: internal/ui/screens/splash.go 17-18 splashProgress *)
Definition splashProgress : Style := fg "#FBBF24".

(** src: internal/ui/screens/splash.go 60-80 Splash.View *)
Definition Splash_View (s : Splash) : option string :=
  status ← (if (0 <? sp_Progress s) && (sp_Progress s <? 100) then
              bar ← progressBar (sp_Progress s) 30;
              Some (Render splashProgress ("Starting Tor... " +:+ FormatInt (sp_Progress s) +:+ "%") +:+ nl +:+
                    Render splashSubtle bar +:+ nl +:+ Render splashSubtle (sp_Summary s))%string
            else Some (Render splashSubtle "Starting..."));
  Some (Place (sp_Width s) (sp_Height s)
          (nl +:+ nl +:+ nl +:+ Render splashTitle "ensemble" +:+ nl +:+
           Render splashSubtle "decentralized messaging" +:+ nl +:+ nl +:+ status)%string).

(** ** settings.go *)

(** src: internal/ui/screens/settings.go 12-15 settingsTitle *)
Definition settingsTitle : Style := title_style "#7C3AED".
(** src: internal/ui/screens/settings.go 17-19 settingsLabel *)
Definition settingsLabel : Style := bold_fg "#22D3EE".
(** src: internal/ui/screens/settings.go 21-22 settingsValue *)
Definition settingsValue : Style := fg "#E5E7EB".
(** src: internal/ui/screens/settings.go 24-25 settingsHint *)
Definition settingsHint : Style := fg "#6B7280".

(** src: internal/ui/screens/settings.go 52-68 Settings.View *)
Definition Settings_View (s : Settings) : string :=
  (Render settingsTitle "Settings" +:+ nl +:+ nl +:+
   Render settingsLabel "Address" +:+ nl +:+ Render settingsValue (st_Address s) +:+ nl +:+ nl +:+
   Render settingsLabel "Public Key" +:+ nl +:+ Render settingsValue (hex_encode (st_PublicKey s)) +:+ nl +:+ nl +:+
   hint (bold_fg "#22D3EE") settingsHint "esc" "back")%string.

(** ** debug.go *)

(** src: internal/ui/screens/debug.go 13-16 debugTitle *)
Definition debugTitle : Style := title_style "#7C3AED".
(** src: internal/ui/screens/debug.go 18-20 debugLabel *)
Definition debugLabel : Style := bold_fg "#22D3EE".
(** src: internal/ui/screens/debug.go 22-23 debugDim *)
Definition debugDim : Style := fg "#6B7280".

(** src: internal/ui/screens/debug.go 85-90 Debug.View *)
Definition peer_line (now : Z) (p : string * string * Z) : option string :=
  addr ← truncate p.1.1 13; onion ← truncate p.1.2 22;
  Some ("  " +:+ addr +:+ "  " +:+ Render debugDim onion +:+ "  " +:+ Render debugDim (timeSince now p.2) +:+ nl)%string.

(** src: internal/ui/screens/debug.go 100-107 Debug.View *)
Definition conn_line (c : string * string * string) : option string :=
  addr ← truncate c.1.1 13;
  Some ("  " +:+ addr +:+ "  " +:+ c.1.2 +:+
        (if nonempty c.2 then Render debugDim ("  err: " +:+ c.2) else "") +:+ nl)%string.

(** A heading and the lines of a list, or a text for the empty one. *)
Definition listing {A} (line : A -> option string) (l : list A) (none : string) : option string :=
  match l with [] => Some (Render debugDim none +:+ nl)%string | _ => String.concat "" <$> mapM line l end.

(** src: internal/ui/screens/debug.go 66-114 Debug.View *)
Definition Debug_View (now : Z) (d : Debug) : option string :=
  peers ← listing (peer_line now) (db_RTPeers d) "  (empty)";
  conns ← listing conn_line (db_Connections d) "  (none)";
  Some (Render debugTitle "Debug Info" +:+ nl +:+
        Render debugLabel "onion: " +:+ (if nonempty (db_OnionAddr d) then db_OnionAddr d else Render debugDim "not available") +:+ nl +:+
        nl +:+
        Render debugLabel ("Routing Table (" +:+ FormatInt (db_RTSize d) +:+ " peers)") +:+ nl +:+ peers +:+
        nl +:+
        Render debugLabel ("Connections (" +:+ FormatInt (Z.of_nat (length (db_Connections d))) +:+ ")") +:+ nl +:+ conns +:+
        nl +:+ Render debugDim "esc back" +:+ nl)%string.

(** ** connprompt.go *)

(** src: internal/ui/screens/connprompt.go 12-15 promptTitle *)
Definition promptTitle : Style := title_style "#FBBF24".
(** src: internal/ui/screens/connprompt.go 17-19 promptAddr *)
Definition promptAddr : Style := bold_fg "#22D3EE".
(** src: internal/ui/screens/connprompt.go 21-23 promptWarn *)
Definition promptWarn : Style := Italic true (fg "#6B7280").
(** src: internal/ui/screens/connprompt.go 25-27 promptKey *)
Definition promptKey : Style := bold_fg "#22D3EE".
(** src: internal/ui/screens/connprompt.go 29-30 promptKeyDesc *)
Definition promptKeyDesc : Style := fg "#6B7280".

(** The same abbreviation as [shortAddr]. *)
(** src: internal/ui/screens/connprompt.go 80-100 ConnPrompt.View *)
Definition ConnPrompt_View (c : ConnPrompt) : option string :=
  short ← shortAddr (cp_Address c);
  Some (Render promptTitle "Incoming Connection Request" +:+ nl +:+ nl +:+
        "Unknown peer " +:+ Render promptAddr short +:+ " wants to connect." +:+ nl +:+ nl +:+
        Render promptWarn "Accepting will reveal your public key to this peer." +:+ nl +:+ nl +:+
        hints promptKey promptKeyDesc [("y", "accept"); ("n", "reject")])%string.

(** ** fileoffer.go *)

(** src: internal/ui/screens/fileoffer.go 12-15 foTitle *)
Definition foTitle : Style := title_style "#F59E0B".
(** src: internal/ui/screens/fileoffer.go 17-18 foInfo *)
Definition foInfo : Style := fg "#D1D5DB".
(** src: internal/ui/screens/fileoffer.go 20-22 foKey *)
Definition foKey : Style := bold_fg "#22D3EE".
(** src: internal/ui/screens/fileoffer.go 24-25 foKeyDesc *)
Definition foKeyDesc : Style := fg "#6B7280".

(** The size is a [uint64] and is shown as an [int64]. *)
(** src: internal/ui/screens/fileoffer.go 83-98 FileOfferPrompt.View *)
Definition FileOffer_View (f : FileOfferPrompt) : option string :=
  from ← shortAddr (fo_FromAddr f);
  Some (Render foTitle "Incoming File" +:+ nl +:+ nl +:+
        Render foInfo (from +:+ " is sending " +:+ fo_Filename f +:+ " (" +:+ formatSize (i64 (fo_Size f)) +:+ ")") +:+ nl +:+ nl +:+
        "Accept? " +:+ hints foKey foKeyDesc [("y", "accept"); ("n", "reject")])%string.

(** ** addcontact.go *)

(** src: internal/ui/screens/addcontact.go 13-16 addContactTitle *)
Definition addContactTitle : Style := title_style "#7C3AED".
(** src: internal/ui/screens/addcontact.go 18-20 addContactLabel *)
Definition addContactLabel : Style := bold_fg "#22D3EE".
(** src: internal/ui/screens/addcontact.go 22-23 addContactHint *)
Definition addContactHint : Style := fg "#6B7280".
(** src: internal/ui/screens/addcontact.go 25-26 addContactErr *)
Definition addContactErr : Style := fg "#F87171".

(** The text of the error of the form, empty for none. *)
(** src: internal/ui/screens/addcontact.go 95-102 AddContact.Update *)
Definition form_text (e : option form_err) : string :=
  match e with
  | None => ""
  | Some AddressRequired => "Address is required"
  | Some AddressPrefix => "Address must start with 'E'"
  end.

Definition paragraph (st : Style) (text : string) : string := if nonempty text then (Render st text +:+ nl +:+ nl)%string else ""%string.

(** src: internal/ui/screens/addcontact.go 123-147 AddContact.View *)
Definition AddContact_View (a : AddContactScreen W) : string :=
  (Render addContactTitle "Add Contact" +:+ nl +:+ nl +:+
   Render addContactLabel "Address" +:+ nl +:+ tf_View (ac_addressInput a) +:+ nl +:+ nl +:+
   Render addContactLabel "Alias" +:+ nl +:+ tf_View (ac_aliasInput a) +:+ nl +:+ nl +:+
   paragraph addContactErr (form_text (ac_err a)) +:+
   hints (bold_fg "#22D3EE") addContactHint [("enter", "save"); ("tab", "next field"); ("esc", "cancel")])%string.

(** ** addnode.go *)

(** src: internal/ui/screens/addnode.go 50-57 AddNode.Update *)
Definition node_form_text (e : option node_form_err) : string :=
  match e with
  | None => ""
  | Some OnionRequired => "Onion address is required"
  | Some OnionSuffix => "Address must end with .onion"
  | Some (AddNodeFailed e) => err_text e
  end.

(** src: internal/ui/app.go 301-317 App.Update *)
Definition status_text (s : node_status) : string :=
  (match s with
   | NoStatus => ""
   | StatusConnecting => "Connecting..."
   | StatusDiscovered n => "Discovered " +:+ FormatInt n +:+ " peer(s). Returning home..."
   | StatusNoPeers => "Connected but no peers found yet. Returning home..."
   end)%string.

(** src: internal/ui/screens/addnode.go 70-113 AddNode.View *)
Definition AddNode_View (a : AddNodeScreen W) : string :=
  (Render (title_style "#7C3AED") "Add Bootstrap Node" +:+ nl +:+ nl +:+
   Render (bold_fg "#22D3EE") "Onion Address" +:+ nl +:+ tf_View (an_onionInput a) +:+ nl +:+ nl +:+
   paragraph (fg (if an_success a then "#34D399" else "#6B7280")) (status_text (an_status a)) +:+
   paragraph (fg "#F87171") (node_form_text (an_err a)) +:+
   hints (bold_fg "#22D3EE") (fg "#6B7280") [("enter", "connect"); ("esc", "cancel")])%string.

(** ** filepicker.go *)

(** src: internal/ui/screens/filepicker.go 15-18 fpTitle *)
Definition fpTitle : Style := title_style "#7C3AED".
(** src: internal/ui/screens/filepicker.go 20-22 fpDir *)
Definition fpDir : Style := bold_fg "#22D3EE".
(** src: internal/ui/screens/filepicker.go 24-25 fpFile *)
Definition fpFile : Style := fg "#D1D5DB".
(** src: internal/ui/screens/filepicker.go 27-29 fpSelected *)
Definition fpSelected : Style := bold_fg "#7C3AED".
(** src: internal/ui/screens/filepicker.go 31-33 fpPath *)
Definition fpPath : Style := Italic true (fg "#6B7280").
(** src: internal/ui/screens/filepicker.go 35-37 fpKey *)
Definition fpKey : Style := bold_fg "#22D3EE".
(** src: internal/ui/screens/filepicker.go 39-40 fpKeyDesc *)
Definition fpKeyDesc : Style := fg "#6B7280".

(** src: internal/ui/screens/filepicker.go 203-222 FilePicker.View *)
Definition picker_row (here : bool) (e : fileEntry) : string :=
  let name_style := if here then fpSelected else if fe_IsDir e then fpDir else fpFile in
  (mark here +:+
   (if fe_IsDir e then Render name_style (fe_Name e +:+ "/")
    else Render name_style (fe_Name e) +:+ "  " +:+ Render fpKeyDesc (formatSize (fe_Size e))) +:+ nl)%string.

(** The first entry shown, and the one after the last. *)
(** src: internal/ui/screens/filepicker.go 188-200 FilePicker.View *)
Definition visible_range (fp : FilePicker) : Z * Z :=
  let maxVisible := if fk_Height fp - 7 <? 1 then 1 else fk_Height fp - 7 in
  let start := if maxVisible <=? fk_Cursor fp then fk_Cursor fp - maxVisible + 1 else 0 in
  let n := Z.of_nat (length (fk_Entries fp)) in
  (start, if n <? start + maxVisible then n else start + maxVisible).

(** src: internal/ui/screens/filepicker.go 202-223 FilePicker.View *)
Definition picker_rows (fp : FilePicker) : option (list string) :=
  let '(start, stop) := visible_range fp in
  mapM (fun i => e ← at_index (fk_Entries fp) i; Some (picker_row (bool_decide (i = fk_Cursor fp)) e)) (seqZ start (stop - start)).

(** src: internal/ui/screens/filepicker.go 172-233 FilePicker.View *)
Definition FilePicker_View (fp : FilePicker) : option string :=
  name ← (if nonempty (fk_PeerAlias fp) then Some (fk_PeerAlias fp) else shortAddr (fk_PeerAddress fp));
  let head := (Render fpTitle ("Send file to " +:+ name) +:+ nl +:+ Render fpPath (fk_Dir fp) +:+ nl +:+ nl)%string in
  if fk_err fp then Some (head +:+ "Error: " +:+ ReadDir_err (fk_Dir fp) +:+ nl)%string
  else
    rows ← picker_rows fp;
    Some (head +:+ String.concat "" rows +:+ nl +:+
          hints fpKey fpKeyDesc [("enter", "select/open"); ("↑↓", "navigate"); ("esc", "cancel")])%string.

(** ** transfer.go *)

(** src: internal/ui/screens/transfer.go 12-15 xferTitle *)
Definition xferTitle : Style := title_style "#7C3AED".
(** src: internal/ui/screens/transfer.go 17-18 xferBar *)
Definition xferBar : Style := fg "#34D399".
(** src: internal/ui/screens/transfer.go 20-21 xferBarBg *)
Definition xferBarBg : Style := fg "#374151".
(** src: internal/ui/screens/transfer.go 23-24 xferInfo *)
Definition xferInfo : Style := fg "#D1D5DB".
(** src: internal/ui/screens/transfer.go 26-28 xferError *)
Definition xferError : Style := bold_fg "#EF4444".
(** src: internal/ui/screens/transfer.go 30-32 xferDone *)
Definition xferDone : Style := bold_fg "#34D399".
(** src: internal/ui/screens/transfer.go 34-36 xferKey *)
Definition xferKey : Style := bold_fg "#22D3EE".
(** src: internal/ui/screens/transfer.go 38-39 xferKeyDesc *)
Definition xferKeyDesc : Style := fg "#6B7280".

(** The error of a transfer; [None] within it is the stream that was closed. *)
Definition transfer_error (i : TransferItem) : string :=
  match ti_Error i with None => "" | Some None => "transfer stream closed" | Some (Some e) => err_text e end.

(** src: internal/ui/screens/transfer.go 120-126 Transfer.View *)
Definition bar_width (width : Z) : Z :=
  let w := if width - 30 <? 10 then 10 else width - 30 in if 40 <? w then 40 else w.

(** [int(float32(barWidth) * item.Percent / 100)] *)
(** src: internal/ui/screens/transfer.go 148-151 Transfer.View *)
Definition filled_cells (barWidth percent : Z) : Z :=
  let filled := int64_of (f32 (f32 (inject_Z barWidth * inject_Z percent) / 100)%Q) in
  if barWidth <? filled then barWidth else filled.

(** src: internal/ui/screens/transfer.go 140-165 Transfer.View *)
Definition status_line (barWidth : Z) (i : TransferItem) : option string :=
  if nonempty (transfer_error i) then Some (Render xferError ("Error: " +:+ transfer_error i))%string
  else if ti_Complete i then Some (Render xferDone "Complete ✓")
  else
    let filled := filled_cells barWidth (ti_Percent i) in
    done ← Repeat "█" filled; todo ← Repeat "░" (barWidth - filled);
    Some (Render xferBar done +:+ Render xferBarBg todo +:+ " " +:+ FormatInt (ti_Percent i) +:+ "%" +:+
          (if nonempty (ti_Speed i) then "  " +:+ ti_Speed i else "") +:+
          (if nonempty (ti_ETA i) then "  ~" +:+ ti_ETA i else ""))%string.

(** src: internal/ui/screens/transfer.go 128-169 Transfer.View *)
Definition transfer_rows (barWidth : Z) (here : bool) (i : TransferItem) : option string :=
  status ← status_line barWidth i; peer ← shortAddr (ti_PeerAddr i);
  Some (mark here +:+ (if bool_decide (ti_Direction i = "receive"%string) then "↓" else "↑") +:+ " " +:+
        Render xferInfo (ti_Filename i) +:+ "  " +:+ peer +:+ nl +:+
        "   " +:+ status +:+ nl)%string.

(** src: internal/ui/screens/transfer.go 107-177 Transfer.View *)
Definition Transfer_View (t : TransferScreen) : option string :=
  match tr_Items t with
  | [] => Some (Render xferTitle "File Transfers" +:+ nl +:+ Render xferKeyDesc "No active transfers." +:+ nl +:+
                nl +:+ hint xferKey xferKeyDesc "esc" "back")%string
  | items =>
      rows ← mapM id (imap (fun k i => transfer_rows (bar_width (tr_Width t)) (bool_decide (Z.of_nat k = tr_Cursor t)) i) items);
      Some (Render xferTitle "File Transfers" +:+ nl +:+ String.concat "" rows +:+
            nl +:+ hints xferKey xferKeyDesc [("c", "cancel"); ("esc", "back")])%string
  end.

(** ** messagelist.go *)

(** src: internal/ui/components/messagelist.go 12-13 msgTimestamp *)
Definition msgTimestamp : Style := fg "#6B7280".
(** src: internal/ui/components/messagelist.go 15-17 msgSenderMe *)
Definition msgSenderMe : Style := bold_fg "#7C3AED".
(** src: internal/ui/components/messagelist.go 19-21 msgSenderThem *)
Definition msgSenderThem : Style := bold_fg "#22D3EE".
(** src: internal/ui/components/messagelist.go 23-24 msgAcked *)
Definition msgAcked : Style := fg "#34D399".
(** src: internal/ui/components/messagelist.go 26-27 msgPending *)
Definition msgPending : Style := fg "#FBBF24".

(** [Format("15:04")] in the local zone. *)
Definition clock_text (t : Z) : string :=
  let s := (t / GoTime.Second + zone t) mod 86400 in (pad2 (s / 3600) +:+ ":" +:+ pad2 (s mod 3600 / 60))%string.

(** src: internal/ui/components/messagelist.go 50-68 RenderMessages *)
Definition message_line (m : ChatMessage) : string :=
  (Render msgTimestamp (clock_text (cm_Timestamp m)) +:+ " " +:+
   (if cm_SentByMe m then Render msgSenderMe "You" else Render msgSenderThem "Them") +:+ ": " +:+ cm_Text m +:+
   (if cm_SentByMe m then if cm_Acked m then " " +:+ Render msgAcked "✓" else " " +:+ Render msgPending "…" else ""))%string.

(** src: internal/ui/components/messagelist.go 40-74 RenderMessages *)
Definition RenderMessages (messages : list ChatMessage) : string :=
  match messages with
  | [] => Render (Italic true (fg "#6B7280")) "No messages yet. Type a message below."
  | _ => String.concat nl (message_line <$> messages)
  end.

(** ** chat.go *)

(** src: internal/ui/screens/chat.go 16-18 chatTitle *)
Definition chatTitle : Style := fg_bold "#7C3AED".
(** src: internal/ui/screens/chat.go 20-21 chatDivider *)
Definition chatDivider : Style := fg "#6B7280".
(** src: internal/ui/screens/chat.go 23-25 chatKey *)
Definition chatKey : Style := bold_fg "#22D3EE".
(** src: internal/ui/screens/chat.go 27-28 chatKeyDesc *)
Definition chatKeyDesc : Style := fg "#6B7280".

(** What is in the viewport; its size is the conversation's, since the message that makes it sets both.
    Nothing sets the connection method. *)
(** src: internal/ui/screens/chat.go 154-165 Chat.initViewport *)
Definition viewport_text (c : ChatScreen W) : string :=
  viewport_View (W := W)
    (if ch_ready c then Some (ch_Width c, if ch_Height c - 8 <? 1 then 1 else ch_Height c - 8, RenderMessages (ch_viewport c)) else None).

(** src: internal/ui/screens/chat.go 116-151 Chat.View *)
Definition Chat_View (c : ChatScreen W) : option string :=
  if ch_Width c =? 0 then Some ""%string
  else
    name ← (if nonempty (ch_Alias c) then Some (ch_Alias c) else shortAddr (ch_Address c));
    rule ← Repeat "─" (Z.min (ch_Width c) 60);
    let divider := (Render chatDivider rule +:+ nl)%string in
    Some (Render chatTitle ("Chat with " +:+ name) +:+ " " +:+ nl +:+ divider +:+
          viewport_text c +:+ nl +:+ divider +:+ tf_View (ch_input c) +:+ nl +:+
          hints chatKey chatKeyDesc [("enter", "send"); ("esc", "back")])%string.

(** ** statusbar.go *)

(** src: internal/ui/components/statusbar.go 10-13 statusBarStyle *)
Definition statusBarStyle : Style := Padding 0 1 (Foreground "#E5E7EB" (Background "#1F2937" NewStyle)).
(** src: internal/ui/components/statusbar.go 15-17 torLabelStyle *)
Definition torLabelStyle : Style := Bold true (Background "#1F2937" NewStyle).

(** src: internal/ui/components/statusbar.go 48-56 StatusBar.View *)
Definition tor_color (state : string) : string :=
  if bool_decide (state = "ready"%string) then "#34D399"
  else if bool_decide (state = "bootstrapping"%string) then "#FBBF24" else "#F87171".

(** src: internal/ui/components/statusbar.go 42-70 StatusBar.View *)
Definition StatusBar_View (s : StatusBar) : option string :=
  let n := Z.of_nat (String.length (sb_Address s)) in
  addr ← (if 16 <? n then a ← slice (sb_Address s) 0 6; b ← slice (sb_Address s) (n - 4) n; Some (a +:+ "..." +:+ b)%string
          else Some (sb_Address s));
  let tor := Render (Foreground (tor_color (sb_TorState s)) torLabelStyle) ("tor:" +:+ sb_TorState s)%string in
  let left := Render statusBarStyle (" " +:+ addr +:+ "  " +:+ tor +:+ "  peers:" +:+ FormatInt (sb_PeerCount s) +:+
                                     "  dht:" +:+ FormatInt (sb_RTSize s))%string in
  let right := Render statusBarStyle "ensemble" in
  let gap := Z.max (sb_Width s - WidthOf left - WidthOf right) 0 in
  Some (left +:+ Render statusBarStyle (spaces gap) +:+ right)%string.
End views.

(** ** Nothing is out of range *)

Lemma slice_Some s i j : 0 <= i <= j -> j <= Z.of_nat (String.length s) ->
  slice s i j = Some (String.substring (Z.to_nat i) (Z.to_nat (j - i)) s).
Proof. intros [Hi Hij] Hj. unfold slice. by rewrite !(proj2 (Z.leb_le _ _)) by lia. Qed.

Lemma shortAddr_Some s : is_Some (shortAddr s).
Proof.
  unfold shortAddr. destruct (Z.ltb_spec 16 (Z.of_nat (String.length s))); [|by eexists]. rewrite !slice_Some by lia. by eexists.
Qed.

Lemma truncate_Some s n : 3 <= n -> is_Some (truncate s n).
Proof.
  intros Hn. unfold truncate. destruct (Z.leb_spec (Z.of_nat (String.length s)) n); [by eexists|].
  pose proof (Z.quot_div_nonneg (n - 3) 2 ltac:(lia) ltac:(lia)) as Hq. pose proof (Z.div_mod (n - 3) 2 ltac:(lia)).
  pose proof (Z.mod_pos_bound (n - 3) 2 ltac:(lia)). rewrite !slice_Some by lia. by eexists.
Qed.

Lemma Repeat_Some s n : 0 <= n -> is_Some (Repeat s n).
Proof. intros Hn. unfold Repeat. rewrite (proj2 (Z.ltb_ge n 0)) by done. by eexists. Qed.

Lemma mapM_total {A B} (f : A -> option B) l : (forall x, x ∈ l -> is_Some (f x)) -> is_Some (mapM f l).
Proof. intros Hf. apply mapM_is_Some_2, Forall_forall, Hf. Qed.

(** Both sides computed for every width and percentage. *)
Lemma filled_cells_exact w p : 10 <= w <= 40 -> 0 <= p <= 100 -> filled_cells w p = w * p / 100.
Proof.
  intros Hw Hp.
  assert (forallb (fun w => forallb (fun p => filled_cells w p =? w * p / 100) (seqZ 0 101)) (seqZ 10 31) = true) as Hall
    by (vm_compute; reflexivity).
  rewrite forallb_forall in Hall. specialize (Hall w). rewrite forallb_forall in Hall.
  apply Z.eqb_eq, Hall; apply list_elem_of_In, elem_of_seqZ; lia.
Qed.

Lemma bar_width_range w : 10 <= bar_width w <= 40.
Proof. unfold bar_width. destruct (Z.ltb_spec (w - 30) 10), (Z.ltb_spec 40 (w - 30)); cbn; lia. Qed.

Lemma progressBar_Some pct width : 0 <= width -> exists cells, progressBar pct width = Some ("[" +:+ cells +:+ "]")%string.
Proof. intros Hw. unfold progressBar. rewrite (proj2 (Z.ltb_ge width 0)) by done. by eexists. Qed.

(** The window of the picker stays within the entries. *)
Lemma visible_range_bounds fp : 0 <= fk_Cursor fp ->
  0 <= (visible_range fp).1 /\ (visible_range fp).2 <= Z.of_nat (length (fk_Entries fp)).
Proof.
  intros Hc. unfold visible_range. set (m := if fk_Height fp - 7 <? 1 then _ else _). set (n := Z.of_nat _). cbn [fst snd].
  destruct (Z.leb_spec m (fk_Cursor fp)); [destruct (Z.ltb_spec n (fk_Cursor fp - m + 1 + m))|destruct (Z.ltb_spec n (0 + m))]; lia.
Qed.

(** It is full, and the cursor is in it. *)
Lemma visible_range_cursor fp : 0 <= fk_Cursor fp < Z.of_nat (length (fk_Entries fp)) ->
  (visible_range fp).1 <= fk_Cursor fp < (visible_range fp).2 /\
  (visible_range fp).2 - (visible_range fp).1 = Z.min (Z.of_nat (length (fk_Entries fp))) (Z.max 1 (fk_Height fp - 7)).
Proof.
  intros Hc. unfold visible_range. set (m := if fk_Height fp - 7 <? 1 then _ else _).
  assert (m = Z.max 1 (fk_Height fp - 7)) as <- by (unfold m; destruct (Z.ltb_spec (fk_Height fp - 7) 1); lia).
  assert (1 <= m) by (unfold m; destruct (Z.ltb_spec (fk_Height fp - 7) 1); lia).
  set (n := Z.of_nat _) in *. cbn [fst snd].
  destruct (Z.leb_spec m (fk_Cursor fp)); [destruct (Z.ltb_spec n (fk_Cursor fp - m + 1 + m))|destruct (Z.ltb_spec n (0 + m))]; lia.
Qed.

Section drawn.
Context {W : Type} `{TextField W} {G : Lipgloss} `{!Drawn W}.
Context (err_text : backend_err -> string) (ReadDir_err : string -> string) (zone : Z -> Z).

Lemma picker_rows_eq fp : picker_rows fp =
  mapM (fun i => e ← at_index (fk_Entries fp) i; Some (picker_row (bool_decide (i = fk_Cursor fp)) e))
    (seqZ (visible_range fp).1 ((visible_range fp).2 - (visible_range fp).1)).
Proof. unfold picker_rows. by destruct (visible_range fp). Qed.

Lemma at_index_Some {A} (l : list A) i : 0 <= i < Z.of_nat (length l) -> is_Some (at_index l i).
Proof. intros Hi. unfold at_index. rewrite (proj2 (Z.ltb_ge i 0)) by lia. apply lookup_lt_is_Some_2. lia. Qed.

Lemma picker_rows_Some fp : 0 <= fk_Cursor fp -> is_Some (picker_rows fp).
Proof.
  intros Hc. rewrite picker_rows_eq. apply mapM_total. intros i Hi%elem_of_seqZ.
  pose proof (visible_range_bounds fp Hc). destruct (at_index_Some (fk_Entries fp) i) as [e ->]; [lia|]. by eexists.
Qed.

Lemma FilePicker_View_Some fp : 0 <= fk_Cursor fp -> is_Some (FilePicker_View ReadDir_err fp).
Proof.
  intros Hc. unfold FilePicker_View.
  destruct (shortAddr_Some (fk_PeerAddress fp)) as [s ->], (picker_rows_Some fp Hc) as [rows ->].
  destruct (nonempty _), (fk_err fp); by eexists.
Qed.

Lemma Splash_View_Some s : is_Some (Splash_View s).
Proof.
  unfold Splash_View. destruct (progressBar_Some (sp_Progress s) 30) as [c ->]; [lia|]. destruct (_ && _); by eexists.
Qed.

Lemma listing_Some {A} (line : A -> option string) l none : (forall x, is_Some (line x)) -> is_Some (listing line l none).
Proof. intros Hl. destruct l; [by eexists|]. unfold listing. destruct (mapM_total line (a :: l)) as [rows ->]; [done|]. by eexists. Qed.

Lemma Debug_View_Some now d : is_Some (Debug_View now d).
Proof.
  unfold Debug_View. destruct (listing_Some (peer_line now) (db_RTPeers d) "  (empty)") as [p ->].
  { intros [[a o] t]. unfold peer_line. cbn [fst snd]. destruct (truncate_Some a 13), (truncate_Some o 22); [lia..|]. simplify_option_eq. by eexists. }
  destruct (listing_Some conn_line (db_Connections d) "  (none)") as [c ->]; [|by eexists].
  intros [[a s] e]. unfold conn_line. cbn [fst snd]. destruct (truncate_Some a 13) as [x ->]; [lia|]. by eexists.
Qed.

Lemma prompts_Some c f : is_Some (ConnPrompt_View c) /\ is_Some (FileOffer_View f).
Proof.
  unfold ConnPrompt_View, FileOffer_View.
  destruct (shortAddr_Some (cp_Address c)) as [s ->], (shortAddr_Some (fo_FromAddr f)) as [s' ->]. by split; eexists.
Qed.

Lemma transfer_rows_Some w here i : 10 <= w <= 40 -> 0 <= ti_Percent i <= 100 -> is_Some (transfer_rows err_text w here i).
Proof.
  intros Hw Hp. unfold transfer_rows. destruct (shortAddr_Some (ti_PeerAddr i)) as [peer ->].
  assert (is_Some (status_line err_text w i)) as [s ->]; [|by eexists].
  unfold status_line. destruct (nonempty _); [by eexists|]. destruct (ti_Complete i); [by eexists|].
  cbv zeta. rewrite (filled_cells_exact w) by done.
  assert (0 <= w * ti_Percent i / 100 <= w) as Hf.
  { split; [apply Z.div_pos; nia|]. apply Z.div_le_upper_bound; nia. }
  destruct (Repeat_Some "█" (w * ti_Percent i / 100)) as [x ->]; [lia|].
  destruct (Repeat_Some "░" (w - w * ti_Percent i / 100)) as [y ->]; [lia|]. by eexists.
Qed.

Lemma Transfer_View_Some t : Forall (fun i => 0 <= ti_Percent i <= 100) (tr_Items t) -> is_Some (Transfer_View err_text t).
Proof.
  intros Ht. unfold Transfer_View. destruct (tr_Items t) as [|i0 l] eqn:Hl; [by eexists|].
  match goal with |- context [mapM id ?rows] => destruct (mapM_total id rows) as [r ->] end; [|by eexists].
  intros x (k & i & -> & Hi)%elem_of_lookup_imap. apply transfer_rows_Some; [apply bar_width_range|].
  rewrite Forall_lookup in Ht. by apply (Ht k).
Qed.

Lemma Chat_View_Some (c : ChatScreen W) : 0 <= ch_Width c -> is_Some (Chat_View zone c).
Proof.
  intros Hw. unfold Chat_View. destruct (_ =? _); [by eexists|]. destruct (shortAddr_Some (ch_Address c)) as [s ->].
  destruct (Repeat_Some "─" (Z.min (ch_Width c) 60)) as [r ->]; [lia|]. destruct (nonempty _); by eexists.
Qed.

Lemma StatusBar_View_Some s : is_Some (StatusBar_View s).
Proof.
  unfold StatusBar_View. destruct (Z.ltb_spec 16 (Z.of_nat (String.length (sb_Address s)))); [|by eexists].
  rewrite !slice_Some by lia. by eexists.
Qed.
End drawn.

(** ** The mark *)

(** One row of a list of entries is marked, that of [x], and the others are not. *)
Definition marked {A} (row : bool -> A -> string) (l : list A) (x : A) (rows : list string) : Prop :=
  exists above below, rows = above ++ row true x :: below /\ forall r, r ∈ above ++ below -> exists y, y ∈ l /\ r = row false y.

(** A text contains another. *)
Definition shows (view sub : string) : Prop := exists before after, view = (before +:+ sub +:+ after)%string.

Lemma str_assoc s t u : ((s +:+ t) +:+ u = s +:+ (t +:+ u))%string.
Proof. induction s as [|a s IH]; [done|]. exact (f_equal (String a) IH). Qed.

Lemma marked_imap {A} (row : bool -> A -> string) (l : list A) (start c : Z) x :
  start <= c -> l !! Z.to_nat (c - start) = Some x ->
  marked row l x (imap (fun i y => row (bool_decide (start + Z.of_nat i = c)) y) l).
Proof.
  intros Hs Hx. set (k := Z.to_nat (c - start)) in *. pose proof (lookup_lt_Some _ _ _ Hx) as Hk.
  assert (forall i y, l !! i = Some y -> i <> k -> row (bool_decide (start + Z.of_nat i = c)) y = row false y) as Hother.
  { intros i y _ Hi. rewrite bool_decide_eq_false_2; [done|]. unfold k in Hi. lia. }
  rewrite <- (take_drop_middle l k x Hx) at 2. rewrite imap_app. cbn [imap]. rewrite length_take, Nat.min_l by lia.
  rewrite Nat.add_0_r, bool_decide_eq_true_2 by (unfold k; lia). eexists _, _. split; [done|].
  intros r [Hr|Hr]%elem_of_app.
  - apply elem_of_lookup_imap in Hr as (i & y & -> & Hy). pose proof (lookup_lt_Some _ _ _ Hy) as Hi. rewrite length_take in Hi.
    rewrite lookup_take_lt in Hy by lia. exists y. split; [by apply list_elem_of_lookup_2 in Hy|]. apply (Hother i); [done|lia].
  - apply elem_of_lookup_imap in Hr as (i & y & -> & Hy). rewrite lookup_drop in Hy. exists y.
    split; [by apply list_elem_of_lookup_2 in Hy|]. unfold compose. replace (k + S i)%nat with (S k + i)%nat by lia. by rewrite (Hother _ _ Hy) by lia.
Qed.

(** The entries of a range, one after the other. *)
Lemma mapM_range {A B} (f : Z -> A -> B) (l : list A) (start len : Z) : 0 <= start -> 0 <= len -> start + len <= Z.of_nat (length l) ->
  mapM (fun i => e ← at_index l i; Some (f i e)) (seqZ start len) =
  Some (imap (fun i e => f (start + Z.of_nat i) e) (firstn (Z.to_nat len) (skipn (Z.to_nat start) l))).
Proof.
  intros Hs Hl Hn. apply mapM_Some. apply Forall2_same_length_lookup. split.
  { rewrite length_seqZ, length_imap, length_take, length_drop. lia. }
  intros i z b Hz Hb. apply lookup_seqZ in Hz as [-> Hi]. rewrite list_lookup_imap, lookup_take_lt, lookup_drop in Hb by lia.
  unfold at_index. rewrite (proj2 (Z.ltb_ge _ 0)) by lia. replace (Z.to_nat (start + Z.of_nat i)) with (Z.to_nat start + i)%nat by lia.
  destruct (l !! _); [|done]. cbn in Hb |- *. congruence.
Qed.

Lemma shows_third a b sub rest : shows (a +:+ (b +:+ (sub +:+ rest))) sub.
Proof. exists (a +:+ b)%string, rest. by rewrite str_assoc. Qed.

Section marks.
Context {W : Type} `{TextField W} {G : Lipgloss} `{!Drawn W}.
Context (ReadDir_err : string -> string).

Lemma home_marked h c : at_index (hm_Contacts h) (hm_Cursor h) = Some c ->
  marked home_row (hm_Contacts h) c (home_rows h) /\ length (home_rows h) = length (hm_Contacts h) /\
  shows (Home_View h) (String.concat "" (home_rows h)).
Proof.
  unfold at_index. destruct (Z.ltb_spec (hm_Cursor h) 0); [done|]. intros Hc. split; [|split].
  - apply (marked_imap home_row (hm_Contacts h) 0 (hm_Cursor h) c); [lia|]. by rewrite Z.sub_0_r.
  - apply length_imap.
  - unfold Home_View. destruct (hm_Contacts h) eqn:He; [done|]. apply shows_third.
Qed.

Lemma picker_marked fp e : at_index (fk_Entries fp) (fk_Cursor fp) = Some e ->
  exists rows window, picker_rows fp = Some rows /\ (exists k, window = firstn (length rows) (skipn k (fk_Entries fp))) /\ marked picker_row window e rows /\
  Z.of_nat (length rows) = Z.min (Z.of_nat (length (fk_Entries fp))) (Z.max 1 (fk_Height fp - 7)) /\
  (fk_err fp = false -> exists view, FilePicker_View ReadDir_err fp = Some view /\ shows view (String.concat "" rows)).
Proof.
  intros He. assert (0 <= fk_Cursor fp < Z.of_nat (length (fk_Entries fp))) as Hc.
  { unfold at_index in He. destruct (Z.ltb_spec (fk_Cursor fp) 0); [done|]. apply lookup_lt_Some in He. lia. }
  destruct (visible_range_bounds fp) as [Hb0 Hb1]; [lia|]. destruct (visible_range_cursor fp Hc) as [Hin Hlen].
  set (start := (visible_range fp).1) in *. set (len := (visible_range fp).2 - start) in *.
  set (window := firstn (Z.to_nat len) (skipn (Z.to_nat start) (fk_Entries fp))).
  assert (picker_rows fp = Some (imap (fun i e => picker_row (bool_decide (start + Z.of_nat i = fk_Cursor fp)) e) window)) as Hrows.
  { rewrite picker_rows_eq. fold start len.
    apply (mapM_range (fun i e => picker_row (bool_decide (i = fk_Cursor fp)) e)); lia. }
  eexists _, window. split; [exact Hrows|]. split; [|split; [|split]].
  - exists (Z.to_nat start). rewrite length_imap. unfold window. f_equal. rewrite length_take, length_drop. lia.
  - apply marked_imap; [lia|]. unfold window. rewrite lookup_take_lt, lookup_drop by lia.
    unfold at_index in He. rewrite (proj2 (Z.ltb_ge _ 0)) in He by lia. rewrite <- He. f_equal. lia.
  - rewrite length_imap. unfold window. rewrite length_take, length_drop. lia.
  - intros Herr. unfold FilePicker_View. rewrite Herr, Hrows. destruct (shortAddr_Some (fk_PeerAddress fp)) as [s ->].
    destruct (nonempty _); (eexists; split; [done|]); eexists _, _; reflexivity.
Qed.
End marks.

(** ** Messages *)

Lemma str_app_nil s : (s +:+ "" = s)%string.
Proof. induction s as [|a s IH]; [done|]. exact (f_equal (String a) IH). Qed.

(** The text of a message is drawn as it is.  One message of the peer, with a line break in it, is drawn as
    two, the second of them by the user and acknowledged, whatever the styles are. *)
Lemma forged_line `{!Lipgloss} zone id text t acked id' words t' : exists forged,
  RenderMessages zone [mkChatMessage id forged false t acked] =
  RenderMessages zone [mkChatMessage id text false t acked; mkChatMessage id' words true t' true].
Proof.
  exists (text +:+ nl +:+ message_line zone (mkChatMessage id' words true t' true))%string.
  unfold RenderMessages. cbn [fmap list_fmap String.concat]. set (own := message_line zone (mkChatMessage id' words true t' true)).
  unfold message_line at 1 2. cbn [cm_Timestamp cm_SentByMe cm_Text]. by rewrite !str_app_nil, !str_assoc.
Qed.

Lemma shows_right s u sub : shows u sub -> shows (s +:+ u)%string sub.
Proof. intros (x & y & ->). exists (s +:+ x)%string, y. by rewrite str_assoc. Qed.

(** The text of the last message is on the screen. *)
Lemma last_message_shown `{!Lipgloss} zone ms m : shows (RenderMessages zone (ms ++ [m])) (cm_Text m).
Proof.
  assert (shows (message_line zone m) (cm_Text m)) as Hm.
  { unfold message_line. do 4 apply shows_right. eexists ""%string, _. reflexivity. }
  assert (shows (String.concat nl (message_line zone <$> ms ++ [m])) (cm_Text m)) as Hc.
  { induction ms as [|m0 ms IH]; [done|]. rewrite <- app_comm_cons, fmap_cons. cbn [String.concat].
    destruct (message_line zone <$> ms ++ [m]) eqn:He; [by destruct ms|]. by apply shows_right, shows_right. }
  unfold RenderMessages. destruct (ms ++ [m]) eqn:He; [by destruct ms|exact Hc].
Qed.

(** ** The texts on samples *)

(** A terminal without colours. *)
Definition plain : Lipgloss := {|
  Style := unit; NewStyle := tt;
  Bold _ s := s; Italic _ s := s; Foreground _ s := s; Background _ s := s; MarginBottom _ s := s; Padding _ _ s := s;
  Render _ t := t; Place _ _ t := t; WidthOf t := Z.of_nat (String.length t) |}.

Section samples.
#[local] Instance plain_terminal : Lipgloss := plain.

Example home_sample :
  home_rows (mkHome [mkItem "Eada" "Ada" true ""; mkItem "Ebob" "" false "signaling..."] 1 80 24) =
  [("  Ada  online" +:+ nl)%string; ("> Ebob  signaling..." +:+ nl)%string].
Proof. reflexivity. Qed.

(** Three rows of five, the cursor in the last of them. *)
Example picker_sample :
  picker_rows (mkPicker "Eada" "Ada" "/tmp" [mkEntry ".." true 0; mkEntry "a" true 0; mkEntry "b" false 1536; mkEntry "c" false 9; mkEntry "d" false 0]
    3 80 10 false) =
  Some [("  a/" +:+ nl)%string; ("  b  1.5 KB" +:+ nl)%string; ("> c  9 B" +:+ nl)%string].
Proof. vm_compute. reflexivity. Qed.

(** Sizes: rounding reaches the next unit, and an offer of 2^64 - 1 bytes is shown as a negative size. *)
Example sizes :
  (formatSize 1023, formatSize 1048575, formatSize (3 * 1073741824)) = ("1023 B", "1024.0 KB", "3.0 GB")%string /\
  FileOffer_View (mkOfferPrompt "1" "big" (2 ^ 64 - 1) "Eada" 80 24) =
    Some ("Incoming File" +:+ nl +:+ nl +:+ "Eada is sending big (-1 B)" +:+ nl +:+ nl +:+ "Accept? y accept  n reject")%string.
Proof. split; vm_compute; reflexivity. Qed.

Example ages :
  (timeSince (100 * GoTime.Hour) 1, timeSince (GoTime.Minute + 1) 1, timeSince 0 0, timeSince 0 5000) = ("4d ago", "59s ago", "never", "-5s ago")%string.
Proof. vm_compute. reflexivity. Qed.

Example abbreviations :
  (shortAddr "EabcdefghijklmnopqrstuvwXYZ", truncate "EabcdefghijklmnopqrstuvwXYZ" 13) = (Some "Eabcdefghi...wXYZ", Some "Eabcd...vwXYZ")%string.
Proof. vm_compute. reflexivity. Qed.

Example bar_sample : progressBar 50 6 = Some "[###---]"%string.
Proof. reflexivity. Qed.
End samples.
