(* ===== verification/App.v ===== *)
(** * internal/ui/app.go: the terminal interface

    The model of the program: its screens, its reaction to each message and key, and the
    commands it runs against a backend.  The framework delivers messages one at a time. *)

From Stdlib Require Import Ascii.
From S2P Require Import Contacts Prelude GoStd Sha256 Crypto Protocol Instances Identity Wire IPExchange Services Signaling Session Routing Dht Events Chunker Keystore FilePath Chat Sender Receiver Connector Peers Presence Tor Pending ApiEvents Node Api Backend Screens Views.
Local Open Scope go_scope.

(** ** The model *)

(** src: internal/ui/app.go 20-34 Screen *)
Inductive Screen :=
| ScreenSplash | ScreenHome | ScreenSettings | ScreenAddContact | ScreenConnPrompt | ScreenChat | ScreenFilePicker
| ScreenFileOffer | ScreenTransfer | ScreenAddNode | ScreenDebug.
#[export] Instance Screen_eq_dec : EqDecision Screen.
Proof. solve_decision. Defined.

(** ** Numbers of JSON *)

(** The nearest [float64] of an integer, ties to even. *)
Definition float64_of (z : Z) : Z :=
  let a := Z.abs z in
  let e := Z.log2 a - 52 in
  if e <=? 0 then z
  else
    let q := a / 2 ^ e in
    let r := a mod 2 ^ e in
    let q := if (2 ^ (e - 1) <? r) || ((r =? 2 ^ (e - 1)) && Z.odd q) then q + 1 else q in
    Z.sgn z * (q * 2 ^ e).

(** [int] of such a number; out of range Go leaves the result to the machine, and amd64 gives
    the smallest [int]. *)
Definition int_of_float (z : Z) : Z := if (- 2 ^ 63 <=? z) && (z <? 2 ^ 63) then z else - 2 ^ 63.

Definition json_field (fields : list (string * json)) (k : string) : option json :=
  match List.find (fun e => bool_decide (e.1 = k)) fields with Some e => Some e.2 | None => None end.

Section app.
Context {W : Type} `{TextField W}.
Context (ReadDir : string -> option (list dir_entry)) (UserHomeDir : option string).

(** [a_eventChan]: the subscription has come. *)
(** src: internal/ui/app.go 97-119 App *)
Record App := mkApp {
  a_screen : Screen; a_prevScreen : Screen; a_splash : Splash; a_home : Home; a_settings : Settings;
  a_addContact : AddContactScreen W; a_addNode : AddNodeScreen W; a_connPrompt : ConnPrompt; a_chat : ChatScreen W;
  a_filePicker : FilePicker; a_fileOffer : FileOfferPrompt; a_transfer : TransferScreen; a_debug : Debug;
  a_status : StatusBar; a_width : Z; a_height : Z; a_identityReady : bool; a_torReady : bool; a_eventChan : bool }.

Definition set_screen (a : App) (x : Screen) : App :=
  mkApp x (a_prevScreen a) (a_splash a) (a_home a) (a_settings a) (a_addContact a) (a_addNode a) (a_connPrompt a)
    (a_chat a) (a_filePicker a) (a_fileOffer a) (a_transfer a) (a_debug a) (a_status a) (a_width a) (a_height a)
    (a_identityReady a) (a_torReady a) (a_eventChan a).
Definition set_prevScreen (a : App) (x : Screen) : App :=
  mkApp (a_screen a) x (a_splash a) (a_home a) (a_settings a) (a_addContact a) (a_addNode a) (a_connPrompt a)
    (a_chat a) (a_filePicker a) (a_fileOffer a) (a_transfer a) (a_debug a) (a_status a) (a_width a) (a_height a)
    (a_identityReady a) (a_torReady a) (a_eventChan a).
Definition set_splash (a : App) (x : Splash) : App :=
  mkApp (a_screen a) (a_prevScreen a) x (a_home a) (a_settings a) (a_addContact a) (a_addNode a) (a_connPrompt a)
    (a_chat a) (a_filePicker a) (a_fileOffer a) (a_transfer a) (a_debug a) (a_status a) (a_width a) (a_height a)
    (a_identityReady a) (a_torReady a) (a_eventChan a).
Definition set_home (a : App) (x : Home) : App :=
  mkApp (a_screen a) (a_prevScreen a) (a_splash a) x (a_settings a) (a_addContact a) (a_addNode a) (a_connPrompt a)
    (a_chat a) (a_filePicker a) (a_fileOffer a) (a_transfer a) (a_debug a) (a_status a) (a_width a) (a_height a)
    (a_identityReady a) (a_torReady a) (a_eventChan a).
Definition set_settings (a : App) (x : Settings) : App :=
  mkApp (a_screen a) (a_prevScreen a) (a_splash a) (a_home a) x (a_addContact a) (a_addNode a) (a_connPrompt a)
    (a_chat a) (a_filePicker a) (a_fileOffer a) (a_transfer a) (a_debug a) (a_status a) (a_width a) (a_height a)
    (a_identityReady a) (a_torReady a) (a_eventChan a).
Definition set_addContact (a : App) (x : AddContactScreen W) : App :=
  mkApp (a_screen a) (a_prevScreen a) (a_splash a) (a_home a) (a_settings a) x (a_addNode a) (a_connPrompt a)
    (a_chat a) (a_filePicker a) (a_fileOffer a) (a_transfer a) (a_debug a) (a_status a) (a_width a) (a_height a)
    (a_identityReady a) (a_torReady a) (a_eventChan a).
Definition set_addNode (a : App) (x : AddNodeScreen W) : App :=
  mkApp (a_screen a) (a_prevScreen a) (a_splash a) (a_home a) (a_settings a) (a_addContact a) x (a_connPrompt a)
    (a_chat a) (a_filePicker a) (a_fileOffer a) (a_transfer a) (a_debug a) (a_status a) (a_width a) (a_height a)
    (a_identityReady a) (a_torReady a) (a_eventChan a).
Definition set_connPrompt (a : App) (x : ConnPrompt) : App :=
  mkApp (a_screen a) (a_prevScreen a) (a_splash a) (a_home a) (a_settings a) (a_addContact a) (a_addNode a) x
    (a_chat a) (a_filePicker a) (a_fileOffer a) (a_transfer a) (a_debug a) (a_status a) (a_width a) (a_height a)
    (a_identityReady a) (a_torReady a) (a_eventChan a).
Definition set_chat (a : App) (x : ChatScreen W) : App :=
  mkApp (a_screen a) (a_prevScreen a) (a_splash a) (a_home a) (a_settings a) (a_addContact a) (a_addNode a)
    (a_connPrompt a) x (a_filePicker a) (a_fileOffer a) (a_transfer a) (a_debug a) (a_status a) (a_width a)
    (a_height a) (a_identityReady a) (a_torReady a) (a_eventChan a).
Definition set_filePicker (a : App) (x : FilePicker) : App :=
  mkApp (a_screen a) (a_prevScreen a) (a_splash a) (a_home a) (a_settings a) (a_addContact a) (a_addNode a)
    (a_connPrompt a) (a_chat a) x (a_fileOffer a) (a_transfer a) (a_debug a) (a_status a) (a_width a) (a_height a)
    (a_identityReady a) (a_torReady a) (a_eventChan a).
Definition set_fileOffer (a : App) (x : FileOfferPrompt) : App :=
  mkApp (a_screen a) (a_prevScreen a) (a_splash a) (a_home a) (a_settings a) (a_addContact a) (a_addNode a)
    (a_connPrompt a) (a_chat a) (a_filePicker a) x (a_transfer a) (a_debug a) (a_status a) (a_width a) (a_height a)
    (a_identityReady a) (a_torReady a) (a_eventChan a).
Definition set_transfer (a : App) (x : TransferScreen) : App :=
  mkApp (a_screen a) (a_prevScreen a) (a_splash a) (a_home a) (a_settings a) (a_addContact a) (a_addNode a)
    (a_connPrompt a) (a_chat a) (a_filePicker a) (a_fileOffer a) x (a_debug a) (a_status a) (a_width a) (a_height a)
    (a_identityReady a) (a_torReady a) (a_eventChan a).
Definition set_debug (a : App) (x : Debug) : App :=
  mkApp (a_screen a) (a_prevScreen a) (a_splash a) (a_home a) (a_settings a) (a_addContact a) (a_addNode a)
    (a_connPrompt a) (a_chat a) (a_filePicker a) (a_fileOffer a) (a_transfer a) x (a_status a) (a_width a)
    (a_height a) (a_identityReady a) (a_torReady a) (a_eventChan a).
Definition set_status (a : App) (x : StatusBar) : App :=
  mkApp (a_screen a) (a_prevScreen a) (a_splash a) (a_home a) (a_settings a) (a_addContact a) (a_addNode a)
    (a_connPrompt a) (a_chat a) (a_filePicker a) (a_fileOffer a) (a_transfer a) (a_debug a) x (a_width a) (a_height a)
    (a_identityReady a) (a_torReady a) (a_eventChan a).
Definition set_eventChan (a : App) (x : bool) : App :=
  mkApp (a_screen a) (a_prevScreen a) (a_splash a) (a_home a) (a_settings a) (a_addContact a) (a_addNode a)
    (a_connPrompt a) (a_chat a) (a_filePicker a) (a_fileOffer a) (a_transfer a) (a_debug a) (a_status a) (a_width a)
    (a_height a) (a_identityReady a) (a_torReady a) x.
Definition set_size (a : App) (w h : Z) : App :=
  mkApp (a_screen a) (a_prevScreen a) (a_splash a) (a_home a) (a_settings a) (a_addContact a) (a_addNode a)
    (a_connPrompt a) (a_chat a) (a_filePicker a) (a_fileOffer a) (a_transfer a) (a_debug a) (a_status a) w h
    (a_identityReady a) (a_torReady a) (a_eventChan a).
Definition set_ready (a : App) (identity tor : bool) : App :=
  mkApp (a_screen a) (a_prevScreen a) (a_splash a) (a_home a) (a_settings a) (a_addContact a) (a_addNode a)
    (a_connPrompt a) (a_chat a) (a_filePicker a) (a_fileOffer a) (a_transfer a) (a_debug a) (a_status a) (a_width a)
    (a_height a) identity tor (a_eventChan a).

(** src: internal/ui/app.go 122-134 NewApp *)
Definition NewApp : App :=
  mkApp ScreenSplash ScreenSplash (mkSplash 0 0 0 "") NewHome (mkSettings "" [] 0 0) NewAddContact NewAddNode
    (mkConnPrompt "" 0 0) (mkChatScreen "" "" [] (tf_new "" 0) [] 0 0 false) (mkPicker "" "" "" [] 0 0 0 false)
    (mkOfferPrompt "" "" 0 "" 0 0) (mkTransfers [] 0 0 0) (mkDebugScreen 0 [] [] "" 0 0)
    (mkStatusBar "" "disabled" "" 0 0 0) 0 0 false false false.

(** src: internal/ui/app.go 137-143 App.Init *)
Definition App_Init : Cmd := CmdBatch [CmdLoadIdentity; CmdLoadStatus; CmdSubscribe].

(** src: internal/ui/app.go 584-590 App.maybeTransition *)
Definition maybeTransition (a : App) : bool * App :=
  if a_identityReady a && a_torReady a && bool_decide (a_screen a = ScreenSplash) then (true, set_screen a ScreenHome) else (false, a).

(** ** Events *)

(** [waitForEvent] on the channel of the subscription. *)
(** src: internal/ui/app.go 205-213 waitForEvent *)
Definition waitForEvent (a : App) : Cmd := CmdWait (a_eventChan a).

(** The first contact of the address. *)
Fixpoint update_contact (addr : string) (f : ContactItem -> ContactItem) (l : list ContactItem) : list ContactItem :=
  match l with
  | [] => []
  | c :: l => if bool_decide (it_Address c = addr) then f c :: l else c :: update_contact addr f l
  end.

Definition set_contacts (a : App) (l : list ContactItem) : App :=
  set_home a (mkHome l (hm_Cursor (a_home a)) (hm_Width (a_home a)) (hm_Height (a_home a))).

Definition set_torState (a : App) (s : string) : App :=
  let sb := a_status a in
  set_status a (mkStatusBar (sb_Address sb) s (sb_OnionAddr sb) (sb_PeerCount sb) (sb_RTSize sb) (sb_Width sb)).

(** Each type of event looks at payloads of one Go type and ignores others. *)
(** src: internal/ui/app.go 502-580 App.handleEvent *)
Definition handleEvent (a : App) (evt : Event payload) : App * Cmd :=
  let next := waitForEvent a in
  let t := ev_Type evt in
  if t =? EventTorBootstrap then
    match ev_Payload evt with
    | PJson (JObject be) =>
        let pct := match json_field be "percent" with Some (JNumber z) => float64_of z | _ => 0 end in
        let summary := match json_field be "summary" with Some (JString s) => s | _ => ""%string end in
        (set_torState (set_splash a (mkSplash (sp_Width (a_splash a)) (sp_Height (a_splash a)) (int_of_float pct) summary))
           "bootstrapping", next)
    | _ => (a, next)
    end
  else if t =? EventTorReady then
    let a := set_torState a "ready" in
    let a := match ev_Payload evt with
      | PString addr =>
          if bool_decide (addr = ""%string) then a
          else let sb := a_status a in
               set_status a (mkStatusBar (sb_Address sb) (sb_TorState sb) addr (sb_PeerCount sb) (sb_RTSize sb) (sb_Width sb))
      | _ => a
      end in
    let '(moved, a) := maybeTransition (set_ready a (a_identityReady a) true) in
    (a, if moved then CmdBatch [next; CmdLoadStatus; CmdLoadContacts] else CmdBatch [next; CmdLoadStatus])
  else if t =? EventConnectionReq then
    match ev_Payload evt with
    | PString addr =>
        (set_connPrompt (set_screen (set_prevScreen a (a_screen a)) ScreenConnPrompt)
           (mkConnPrompt addr (a_width a) (a_height a - 1)), next)
    | _ => (a, next)
    end
  else if t =? EventChatMessage then
    match ev_Payload evt with
    | PMessage msg =>
        if bool_decide (a_screen a = ScreenChat) && bool_decide (ch_Address (a_chat a) = msg_From msg) then
          (set_chat a (AddMessage (a_chat a) (mkChatMessage (msg_ID msg) (msg_Text msg) false (msg_SentAt msg) true)), next)
        else (a, next)
    | _ => (a, next)
    end
  else if t =? EventFileOffer then
    match ev_Payload evt with
    | PFileOffer offer =>
        (set_fileOffer (set_screen (set_prevScreen a (a_screen a)) ScreenFileOffer)
           (mkOfferPrompt (of_TransferID offer) (of_Filename offer) (of_Size offer) (of_FromAddr offer) (a_width a) (a_height a - 1)),
         next)
    | _ => (a, next)
    end
  else if t =? EventConnectionState then
    match ev_Payload evt with
    | PState se =>
        (set_contacts a (update_contact (se_PeerAddr se)
           (fun c => mkItem (it_Address c) (it_Alias c) (it_Online c) (ConnState_String (se_State se))) (hm_Contacts (a_home a))), next)
    | _ => (a, next)
    end
  else if t =? EventPeerOnline then
    match ev_Payload evt with
    | POnline s =>
        (set_contacts a (update_contact (os_Address s)
           (fun c => mkItem (it_Address c) (it_Alias c) (os_Online s) (it_Status c)) (hm_Contacts (a_home a))), next)
    | _ => (a, next)
    end
  else (a, next).

(** ** Keys *)

(** The key goes to the current screen.  [None]: an index out of range. *)
(** src: internal/ui/app.go 678-700 App.handleKey *)
Definition delegate_key (a : App) (msg : Msg) : option (App * Cmd) :=
  match a_screen a with
  | ScreenHome => let '(s, c) := Home_Update (a_home a) msg in Some (set_home a s, c)
  | ScreenSettings => Some (a, CmdNone)
  | ScreenAddContact => let '(s, c) := AddContact_Update (a_addContact a) msg in Some (set_addContact a s, c)
  | ScreenAddNode => let '(s, c) := AddNode_Update (a_addNode a) msg in Some (set_addNode a s, c)
  | ScreenConnPrompt => let '(s, c) := ConnPrompt_Update (a_connPrompt a) msg in Some (set_connPrompt a s, c)
  | ScreenChat => let '(s, c) := Chat_Update (a_chat a) msg in Some (set_chat a s, c)
  | ScreenFilePicker => '(s, c) ← FilePicker_Update ReadDir (a_filePicker a) msg; Some (set_filePicker a s, c)
  | ScreenFileOffer => let '(s, c) := FileOffer_Update (a_fileOffer a) msg in Some (set_fileOffer a s, c)
  | ScreenTransfer => '(s, c) ← Transfer_Update (a_transfer a) msg; Some (set_transfer a s, c)
  | ScreenSplash | ScreenDebug => Some (a, CmdNone)
  end.

(** The contact under the cursor. *)
Definition selected (a : App) : option ContactItem := at_index (hm_Contacts (a_home a)) (hm_Cursor (a_home a)).

(** The keys outside the screens that take text or ask a question. *)
(** src: internal/ui/app.go 595-652 App.handleKey *)
Definition global_key (a : App) (k : string) : option (App * Cmd) :=
  let home := bool_decide (a_screen a = ScreenHome) in
  let some_contact := match hm_Contacts (a_home a) with [] => false | _ => true end in
  if is_key k ["q"; "ctrl+c"]%string then Some (a, CmdQuit)
  else if is_key k ["esc"%string] then
    Some (if home || bool_decide (a_screen a = ScreenSplash) then a else set_screen a ScreenHome, CmdNone)
  else if is_key k ["a"%string] && home then
    Some (set_screen (set_addContact a (AddContact_Reset (a_addContact a))) ScreenAddContact, CmdWidget)
  else if is_key k ["n"%string] && home then
    Some (set_screen (set_addNode a (AddNode_Reset (a_addNode a))) ScreenAddNode, CmdWidget)
  else if is_key k ["d"%string] && home then
    Some (set_screen (set_debug a (mkDebugScreen 0 [] [] "" (a_width a) (a_height a - 1))) ScreenDebug, CmdLoadDebugInfo)
  else if is_key k ["s"%string] && home then Some (set_screen a ScreenSettings, CmdNone)
  else if is_key k ["f"%string] && home && some_contact then
    c ← selected a;
    let fp := NewFilePicker ReadDir UserHomeDir (it_Address c) (it_Alias c) in
    Some (set_screen (set_filePicker a (mkPicker (fk_PeerAddress fp) (fk_PeerAlias fp) (fk_Dir fp) (fk_Entries fp) (fk_Cursor fp)
                                          (a_width a) (a_height a - 1) (fk_err fp))) ScreenFilePicker, CmdNone)
  else if is_key k ["t"%string] && home then Some (set_screen a ScreenTransfer, CmdNone)
  else if is_key k ["enter"%string] && home && some_contact then
    c ← selected a;
    let ch := NewChat (it_Address c) (it_Alias c) in
    Some (set_screen (set_chat a (mkChatScreen (ch_Address ch) (ch_Alias ch) (ch_Messages ch) (ch_input ch) (ch_viewport ch)
                                    (a_width a) (a_height a - 1) (ch_ready ch))) ScreenChat, CmdWidget)
  else delegate_key a (KeyMsg k).

(** src: internal/ui/app.go 592-701 App.handleKey *)
Definition handleKey (a : App) (k : string) : option (App * Cmd) :=
  match a_screen a with
  | ScreenChat | ScreenAddContact | ScreenAddNode =>
      if is_key k ["esc"%string] then Some (set_screen a ScreenHome, CmdNone)
      else if is_key k ["ctrl+c"%string] then Some (a, CmdQuit)
      else delegate_key a (KeyMsg k)
  | ScreenConnPrompt | ScreenFileOffer =>
      if is_key k ["ctrl+c"%string] then Some (a, CmdQuit) else delegate_key a (KeyMsg k)
  | _ => global_key a k
  end.

(** ** Messages *)

(** Other messages go to the active screen. *)
(** src: internal/ui/app.go 407-425 App.Update *)
Definition delegate (a : App) (msg : Msg) : App * Cmd :=
  match a_screen a with
  | ScreenSplash => let '(s, c) := Splash_Update (a_splash a) msg in (set_splash a s, c)
  | ScreenHome => let '(s, c) := Home_Update (a_home a) msg in (set_home a s, c)
  | ScreenAddContact => let '(s, c) := AddContact_Update (a_addContact a) msg in (set_addContact a s, c)
  | ScreenAddNode => let '(s, c) := AddNode_Update (a_addNode a) msg in (set_addNode a s, c)
  | ScreenConnPrompt => let '(s, c) := ConnPrompt_Update (a_connPrompt a) msg in (set_connPrompt a s, c)
  | ScreenChat => let '(s, c) := Chat_Update (a_chat a) msg in (set_chat a s, c)
  | _ => (a, CmdNone)
  end.

(** src: internal/ui/app.go 218-238 App.Update *)
Definition resize (a : App) (w h : Z) : App :=
  let ht := h - 1 in
  let sb := a_status a in let s := a_splash a in let hm := a_home a in let st := a_settings a in
  let ac := a_addContact a in let an := a_addNode a in let cp := a_connPrompt a in let ch := a_chat a in
  let a := set_size a w h in
  let a := set_status a (mkStatusBar (sb_Address sb) (sb_TorState sb) (sb_OnionAddr sb) (sb_PeerCount sb) (sb_RTSize sb) w) in
  let a := set_splash a (mkSplash w ht (sp_Progress s) (sp_Summary s)) in
  let a := set_home a (mkHome (hm_Contacts hm) (hm_Cursor hm) w ht) in
  let a := set_settings a (mkSettings (st_Address st) (st_PublicKey st) w ht) in
  let a := set_addContact a (mkAddContact (ac_addressInput ac) (ac_aliasInput ac) (ac_focused ac) (ac_err ac) w ht) in
  let a := set_addNode a (mkAddNode (an_onionInput an) (an_err an) (an_status an) (an_success an) w ht) in
  let a := set_connPrompt a (mkConnPrompt (cp_Address cp) w ht) in
  if bool_decide (a_screen a = ScreenChat) then
    set_chat a (mkChatScreen (ch_Address ch) (ch_Alias ch) (ch_Messages ch) (ch_input ch) (ch_viewport ch) w ht (ch_ready ch))
  else a.

(** The last message of ours that is not acknowledged gets the identifier. *)
(** src: internal/ui/app.go 342-348 App.Update *)
Definition ack_last (id : string) (ms : list ChatMessage) : list ChatMessage :=
  let fix go (l : list ChatMessage) : list ChatMessage :=
    match l with
    | [] => []
    | m :: l => if cm_SentByMe m && negb (cm_Acked m) then mkChatMessage id (cm_Text m) (cm_SentByMe m) (cm_Timestamp m) true :: l
                else m :: go l
    end in
  reverse (go (reverse ms)).

(** The first transfer of ours the result can belong to. *)
(** src: internal/ui/app.go 365-379 App.Update *)
Fixpoint finish_transfer (r : result (option backend_err) string) (l : list TransferItem) : list TransferItem :=
  match l with
  | [] => []
  | i :: l =>
      let sending := bool_decide (ti_Direction i = "send"%string) && negb (ti_Complete i) in
      match r with
      | Err e => if sending && bool_decide (ti_Error i = None)
                 then mkTransfer (ti_TransferID i) (ti_Filename i) (ti_Direction i) (ti_PeerAddr i) (ti_Percent i) (ti_Speed i)
                        (ti_ETA i) (ti_Complete i) (Some e) :: l
                 else i :: finish_transfer r l
      | Ok id => if sending
                 then mkTransfer id (ti_Filename i) (ti_Direction i) (ti_PeerAddr i) 100 (ti_Speed i) (ti_ETA i) true (ti_Error i) :: l
                 else i :: finish_transfer r l
      end
  end.

Definition set_items (a : App) (l : list TransferItem) : App :=
  set_transfer a (mkTransfers l (tr_Cursor (a_transfer a)) (tr_Width (a_transfer a)) (tr_Height (a_transfer a))).

Definition show_debug (a : App) (i : ui_DebugInfo) : App :=
  set_debug a (mkDebugScreen (ud_RTSize i) (ud_RTPeers i) (ud_Connections i) (ud_OnionAddr i) (db_Width (a_debug a)) (db_Height (a_debug a))).

(** [None]: an index out of range. *)
(** src: internal/ui/app.go 216-426 App.Update *)
Definition Update (now : Z) (a : App) (msg : Msg) : option (App * Cmd) :=
  match msg with
  | WindowSizeMsg w h => Some (delegate (resize a w h) msg)
  | identityLoadedMsg address publicKey =>
      let sb := a_status a in let st := a_settings a in
      let a := set_status a (mkStatusBar address (sb_TorState sb) (sb_OnionAddr sb) (sb_PeerCount sb) (sb_RTSize sb) (sb_Width sb)) in
      let a := set_settings a (mkSettings address publicKey (st_Width st) (st_Height st)) in
      let '(moved, a) := maybeTransition (set_ready a true (a_torReady a)) in
      Some (if moved then (a, CmdLoadContacts) else delegate a msg)
  | statusLoadedMsg torState peerCount _ rtSize =>
      let sb := a_status a in
      let a := set_status a (mkStatusBar (sb_Address sb) torState (sb_OnionAddr sb) peerCount rtSize (sb_Width sb)) in
      if is_key torState ["ready"; "disabled"]%string then
        let '(moved, a) := maybeTransition (set_ready a (a_identityReady a) true) in
        Some (if moved then (a, CmdLoadContacts) else delegate a msg)
      else Some (delegate a msg)
  | contactsLoadedMsg contacts => Some (set_contacts a contacts, CmdNone)
  | debugLoadedMsg info => Some (match info with None => a | Some i => show_debug a i end, CmdNone)
  | contactSavedMsg => Some (set_screen a ScreenHome, CmdLoadContacts)
  | contactSaveErrMsg _ => Some (a, CmdNone)
  | connDecisionDoneMsg _ => Some (set_screen a (a_prevScreen a), CmdNone)
  | AddContactSavedMsg address alias => Some (a, CmdSaveContact address alias)
  | AddNodeSavedMsg onionAddr => Some (set_addNode a (AddNode_SetStatus (a_addNode a) StatusConnecting), CmdSaveNode onionAddr)
  | nodeSavedMsg peersFound =>
      Some (set_addNode a (AddNode_SetSuccess (a_addNode a) (if 0 <? peersFound then StatusDiscovered peersFound else StatusNoPeers)),
            CmdTick nodeScreenDoneMsg)
  | nodeSaveErrMsg e => Some (set_addNode a (AddNode_SetError (a_addNode a) (AddNodeFailed e)), CmdNone)
  | nodeScreenDoneMsg => Some (set_screen a ScreenHome, CmdNone)
  | ConnAcceptedMsg address => Some (a, CmdAcceptConn address)
  | ConnRejectedMsg address => Some (a, CmdRejectConn address)
  | ChatSendMsg address text =>
      Some (set_chat a (AddMessage (a_chat a) (mkChatMessage "" text true now false)), CmdSendChat address text)
  | chatSentMsg r =>
      Some (match r with
            | Ok id => set_chat a (RefreshViewport (set_messages (a_chat a) (ack_last id (ch_Messages (a_chat a)))))
            | Err _ => a
            end, CmdNone)
  | FileSelectedMsg path address =>
      Some (set_screen (set_items a (tr_Items (a_transfer a) ++ [mkTransfer "" (Base path) "send" address 0 "" "" false None]))
              ScreenTransfer, CmdSendFile address path)
  | fileSendDoneMsg r => Some (set_items a (finish_transfer r (tr_Items (a_transfer a))), CmdNone)
  | FileAcceptedMsg id => Some (a, CmdAcceptFile id)
  | FileRejectedMsg id => Some (a, CmdRejectFile id)
  | fileDecisionDoneMsg _ => Some (set_screen a (a_prevScreen a), CmdNone)
  | TransferCancelMsg _ => Some (a, CmdNone)
  | eventChanMsg => let a := set_eventChan a true in Some (a, waitForEvent a)
  | eventMsg e => Some (handleEvent a e)
  | KeyMsg k => handleKey a k
  | OtherMsg | TorProgressMsg _ _ => Some (delegate a msg)
  end.

(** ** Drawing *)

Section view.
Context `{!Lipgloss} `{!Drawn W} (err_text : backend_err -> string) (ReadDir_err : string -> string) (zone : Z -> Z).

(** src: internal/ui/app.go 706-729 App.View *)
Definition screen_view (now : Z) (a : App) : option string :=
  match a_screen a with
  | ScreenSplash => Splash_View (a_splash a)
  | ScreenHome => Some (Home_View (a_home a))
  | ScreenSettings => Some (Settings_View (a_settings a))
  | ScreenAddContact => Some (AddContact_View (a_addContact a))
  | ScreenAddNode => Some (AddNode_View err_text (a_addNode a))
  | ScreenConnPrompt => ConnPrompt_View (a_connPrompt a)
  | ScreenChat => Chat_View zone (a_chat a)
  | ScreenFilePicker => FilePicker_View ReadDir_err (a_filePicker a)
  | ScreenFileOffer => FileOffer_View (a_fileOffer a)
  | ScreenTransfer => Transfer_View err_text (a_transfer a)
  | ScreenDebug => Debug_View now (a_debug a)
  end.

(** src: internal/ui/app.go 704-732 App.View *)
Definition App_View (now : Z) (a : App) : option string :=
  content ← screen_view now a; status ← StatusBar_View (a_status a);
  Some (content +:+ String (ascii_of_nat 10) EmptyString +:+ status)%string.
End view.

(** ** Commands *)

Section commands.
Context (B : Backend).

(** The loop of [sendFile] over the channel; [Err None]: the channel was closed first. *)
(** src: internal/ui/app.go 474-483 App.sendFile *)
Fixpoint transfer_result (ps : list FileProgress) : result (option backend_err) string :=
  match ps with
  | [] => Err None
  | p :: ps => match fp_Error p with
               | Some e => Err (Some e)
               | None => if fp_Complete p then Ok (fp_TransferID p) else transfer_result ps
               end
  end.

(** src: internal/ui/app.go 177-190 App.loadContacts *)
Definition loadContacts (n : DaemonNode) : Msg :=
  match be_ListContacts B n with
  | Err _ => contactsLoadedMsg []
  | Ok l => contactsLoadedMsg ((fun c => mkItem (ct_Address c) (ct_Alias c) false "") <$> l)
  end.

Definition err_of {A} (r : result backend_err A) : option backend_err := match r with Ok _ => None | Err e => Some e end.

(** A command that is not a batch: the message it gives, if it gives one, and the node.
    [None]: it never returns. *)
(** src: internal/ui/app.go 428-499 App.saveContact, saveNode, acceptConn, rejectConn, sendChatMessage, sendFile, acceptFile, rejectFile *)
Definition run_command (env : call_env) (n : DaemonNode) (c : Cmd) : option (option Msg * DaemonNode) :=
  match c with
  | CmdNone | CmdQuit | CmdWidget | CmdWait _ | CmdBatch _ => Some (None, n)
  | CmdEmit m | CmdTick m => Some (Some m, n)
  | CmdLoadIdentity =>
      Some (Some match be_GetIdentity B n with Ok i => identityLoadedMsg (ii_Address i) (ii_PublicKey i) | Err _ => identityLoadedMsg "" [] end, n)
  | CmdLoadStatus =>
      Some (Some match be_GetStatus B n with
                 | Ok s => statusLoadedMsg (si_TorState s) (si_PeerCount s) (si_OnionAddr s) (si_RTSize s)
                 | Err _ => statusLoadedMsg "" 0 "" 0
                 end, n)
  | CmdLoadContacts => Some (Some (loadContacts n), n)
  | CmdLoadDebugInfo => Some (Some (debugLoadedMsg match be_GetDebugInfo B n with Ok i => Some i | Err _ => None end), n)
  | CmdSubscribe => Some (match be_Subscribe B with Ok _ => Some eventChanMsg | Err _ => None end, n)
  | CmdSaveContact addr alias =>
      let '(r, n) := be_AddContact B n addr alias [] env in
      Some (Some match r with Ok _ => contactSavedMsg | Err e => contactSaveErrMsg e end, n)
  | CmdSaveNode onionAddr =>
      let '(r, n) := be_AddNode B n onionAddr env in
      Some (Some match r with Ok k => nodeSavedMsg k | Err e => nodeSaveErrMsg e end, n)
  | CmdAcceptConn addr => '(r, n) ← be_AcceptConnection B n addr; Some (Some (connDecisionDoneMsg (err_of r)), n)
  | CmdRejectConn addr => '(r, n) ← be_RejectConnection B n addr; Some (Some (connDecisionDoneMsg (err_of r)), n)
  | CmdSendChat addr text => Some (Some (chatSentMsg (be_SendMessage B n addr text)), n)
  | CmdSendFile addr path =>
      Some (Some (fileSendDoneMsg match be_SendFile B n addr path with Err e => Err (Some e) | Ok ps => transfer_result ps end), n)
  | CmdAcceptFile id => Some (Some (fileDecisionDoneMsg (err_of (be_AcceptFile B n id ""))), n)
  | CmdRejectFile id => Some (Some (fileDecisionDoneMsg (err_of (be_RejectFile B n id))), n)
  end.
End commands.
End app.
Arguments App : clear implicits.
