(* ===== verification/AppSpec.v ===== *)
(** * What the terminal interface does

    It does not crash unless its contact list shrinks; it leaves the splash screen; a request is
    put to the user and the decision reaches the peer; messages are shown and acknowledged;
    and what it makes of the daemon's events in the same process and attached. *)

From Stdlib Require Import Ascii.
From S2P Require Import Contacts Prelude GoStd Sha256 Crypto Protocol Instances Identity Wire IPExchange Services Signaling Session Routing Dht Events Chunker Keystore FilePath Chat Sender Receiver Connector Peers Presence Tor Pending ApiEvents Node Api Backend Screens Views App.
Local Open Scope go_scope.

Section claims.
Context {W : Type} `{TextField W}.
Context (ReadDir : string -> option (list dir_entry)) (UserHomeDir : option string).
Implicit Types a : App W.

Abbreviation update := (Update ReadDir UserHomeDir).

(** ** Cursors *)

(** A cursor in a list of [n] entries. *)
Definition cursor_ok (cursor n : Z) : Prop := 0 <= cursor /\ (cursor < n \/ cursor = 0).

(** An empty list shows no cursor. *)
Definition shown_ok {A} (cursor : Z) (l : list A) : Prop :=
  0 <= cursor /\ (cursor < Z.of_nat (length l) \/ cursor = 0 \/ l = []).

Definition picker_ok (fp : FilePicker) : Prop := shown_ok (fk_Cursor fp) (fk_Entries fp).
Definition home_ok (h : Home) : Prop := shown_ok (hm_Cursor h) (hm_Contacts h).

Record cursors_ok a : Prop := {
  co_home : home_ok (a_home a);
  co_picker : picker_ok (a_filePicker a);
  co_transfer : cursor_ok (tr_Cursor (a_transfer a)) (Z.of_nat (length (tr_Items (a_transfer a))))
}.

Lemma cursor_up_ok c n : cursor_ok c n -> cursor_ok (cursor_up c) n.
Proof. unfold cursor_ok, cursor_up. intros Hc. destruct (Z.ltb_spec 0 c); lia. Qed.

Lemma cursor_down_ok c n : cursor_ok c n -> cursor_ok (cursor_down c n) n.
Proof. unfold cursor_ok, cursor_down. intros Hc. destruct (Z.ltb_spec c (n - 1)); lia. Qed.

Lemma at_index_ok {A} (l : list A) i : 0 <= i < Z.of_nat (length l) -> is_Some (at_index l i).
Proof.
  intros Hi. unfold at_index. rewrite (proj2 (Z.ltb_ge i 0)) by lia. apply lookup_lt_is_Some_2. lia.
Qed.

Lemma shown_up {A} c (l : list A) : shown_ok c l -> shown_ok (cursor_up c) l.
Proof.
  unfold shown_ok, cursor_up. intros Hc. destruct (Z.ltb_spec 0 c); [|done].
  destruct Hc as [? [?|[?|?]]]; [lia|lia|split; [lia|tauto]].
Qed.

Lemma shown_down {A} c (l : list A) : shown_ok c l -> shown_ok (cursor_down c (Z.of_nat (length l))) l.
Proof. unfold shown_ok, cursor_down. intros Hc. destruct (Z.ltb_spec c (Z.of_nat (length l) - 1)); [lia|done]. Qed.

Lemma shown_index {A} c (l : list A) : shown_ok c l -> l <> [] -> is_Some (at_index l c).
Proof.
  intros [H0 Hc] Hn. apply at_index_ok. destruct l; [done|]. cbn [length] in *. destruct Hc as [?|[?|?]]; [lia|lia|done].
Qed.

Lemma Home_Update_ok h msg : home_ok h -> home_ok (Home_Update h msg).1.
Proof.
  unfold home_ok. intros Hh. destruct msg; try done. cbn [Home_Update].
  destruct (is_key _ _); [by apply shown_up|]. destruct (is_key _ _); [by apply shown_down|done].
Qed.

Lemma loadDir_ok fp : picker_ok fp -> picker_ok (loadDir ReadDir fp).
Proof.
  unfold picker_ok, shown_ok, loadDir. intros Hp. destruct (ReadDir (fk_Dir fp)); cbn [fk_Cursor fk_Entries]; [lia|tauto].
Qed.

Lemma FilePicker_Update_ok fp msg : picker_ok fp ->
  exists fp' c, FilePicker_Update ReadDir fp msg = Some (fp', c) /\ picker_ok fp'.
Proof.
  intros Hp. destruct msg; try by eexists _, _. cbn [FilePicker_Update].
  destruct (is_key key ["up"; "k"]%string); [eexists _, _; split; [done|]; by apply shown_up|].
  destruct (is_key key ["down"; "j"]%string); [eexists _, _; split; [done|]; by apply shown_down|].
  destruct (is_key key ["enter"%string]); [|by eexists _, _].
  destruct (fk_Entries fp) as [|e es] eqn:He; [by eexists _, _|].
  destruct (shown_index _ _ Hp) as [entry Hi]; [by rewrite He|]. rewrite He in Hi. rewrite Hi.
  cbn [mbind option_bind]. destruct (fe_IsDir entry); eexists _, _; (split; [done|]); [|done].
  apply loadDir_ok. unfold picker_ok in *. cbn [fk_Cursor fk_Entries]. by rewrite He in Hp.
Qed.

Lemma Transfer_Update_ok t msg : cursor_ok (tr_Cursor t) (Z.of_nat (length (tr_Items t))) ->
  exists t' c, Transfer_Update t msg = Some (t', c) /\ cursor_ok (tr_Cursor t') (Z.of_nat (length (tr_Items t'))).
Proof.
  intros Hc. destruct msg; try by eexists _, _. cbn [Transfer_Update].
  destruct (is_key _ _); [eexists _, _; split; [done|]; by apply cursor_up_ok|].
  destruct (is_key _ _); [eexists _, _; split; [done|]; by apply cursor_down_ok|].
  destruct (is_key _ _); [|by eexists _, _].
  destruct (Z.ltb_spec 0 (Z.of_nat (length (tr_Items t)))); cbn [andb]; [|by eexists _, _].
  destruct (Z.ltb_spec (tr_Cursor t) (Z.of_nat (length (tr_Items t)))); [|by eexists _, _].
  destruct (at_index_ok (tr_Items t) (tr_Cursor t)) as [i ->]; [unfold cursor_ok in Hc; lia|].
  cbn [mbind option_bind]. destruct (_ && _); by eexists _, _.
Qed.

(** ** No crash *)

(** The parts with a cursor are untouched. *)
Definition same_lists a a' : Prop :=
  a_home a' = a_home a /\ a_filePicker a' = a_filePicker a /\ a_transfer a' = a_transfer a.

Lemma same_lists_ok a a' : same_lists a a' -> cursors_ok a -> cursors_ok a'.
Proof. intros (Hh & Hp & Ht) [Ch Cp Ct]. split; by rewrite ?Hh, ?Hp, ?Ht. Qed.

Lemma home_only_ok a h : home_ok h -> cursors_ok a -> cursors_ok (set_home a h).
Proof. intros Hh [_ Cp Ct]. by split. Qed.

Lemma maybeTransition_spec a :
  maybeTransition a = (true, set_screen a ScreenHome) \/ maybeTransition a = (false, a).
Proof. unfold maybeTransition. destruct (_ && _); tauto. Qed.

Lemma delegate_ok a msg : cursors_ok a -> cursors_ok (delegate a msg).1.
Proof.
  intros Ha. unfold delegate. destruct (a_screen a); try done.
  - by apply (same_lists_ok a); [destruct (Splash_Update _ _)|].
  - pose proof (Home_Update_ok (a_home a) msg (co_home a Ha)) as Hh. destruct (Home_Update _ _) as [h c]. by apply home_only_ok.
  - by apply (same_lists_ok a); [destruct (AddContact_Update _ _)|].
  - by apply (same_lists_ok a); [destruct (ConnPrompt_Update _ _)|].
  - by apply (same_lists_ok a); [destruct (Chat_Update _ _)|].
  - by apply (same_lists_ok a); [destruct (AddNode_Update _ _)|].
Qed.

Lemma delegate_key_ok a msg : cursors_ok a -> exists a' c, delegate_key ReadDir a msg = Some (a', c) /\ cursors_ok a'.
Proof.
  intros Ha. unfold delegate_key. destruct (a_screen a); try (by eexists _, _).
  - pose proof (Home_Update_ok (a_home a) msg (co_home a Ha)) as Hh. destruct (Home_Update _ _) as [h c].
    eexists _, _. split; [done|]. by apply home_only_ok.
  - destruct (AddContact_Update _ _). eexists _, _. split; [done|]. by apply (same_lists_ok a).
  - destruct (ConnPrompt_Update _ _). eexists _, _. split; [done|]. by apply (same_lists_ok a).
  - destruct (Chat_Update _ _). eexists _, _. split; [done|]. by apply (same_lists_ok a).
  - destruct (FilePicker_Update_ok (a_filePicker a) msg (co_picker a Ha)) as (fp & c & -> & Hp).
    eexists _, _. split; [done|]. destruct Ha as [Ch _ Ct]. by split.
  - destruct (FileOffer_Update _ _). eexists _, _. split; [done|]. by apply (same_lists_ok a).
  - destruct (Transfer_Update_ok (a_transfer a) msg (co_transfer a Ha)) as (t & c & -> & Ht).
    eexists _, _. split; [done|]. destruct Ha as [Ch Cp _]. by split.
  - destruct (AddNode_Update _ _). eexists _, _. split; [done|]. by apply (same_lists_ok a).
Qed.

Lemma selected_ok a : cursors_ok a -> hm_Contacts (a_home a) <> [] -> is_Some (selected a).
Proof. intros [Ch _ _] Hn. by apply shown_index. Qed.

Lemma NewFilePicker_ok peer alias : picker_ok (NewFilePicker ReadDir UserHomeDir peer alias).
Proof. apply loadDir_ok. unfold picker_ok, shown_ok. cbn. lia. Qed.

Lemma global_key_ok a k : cursors_ok a -> exists a' c, global_key ReadDir UserHomeDir a k = Some (a', c) /\ cursors_ok a'.
Proof.
  intros Ha. unfold global_key.
  destruct (is_key k ["q"; "ctrl+c"]%string); [by eexists _, _|].
  destruct (is_key k ["esc"%string]); [eexists _, _; split; [done|]; destruct (_ || _); [done|by apply (same_lists_ok a)]|].
  destruct (is_key k ["a"%string] && _); [eexists _, _; split; [done|]; by apply (same_lists_ok a)|].
  destruct (is_key k ["n"%string] && _); [eexists _, _; split; [done|]; by apply (same_lists_ok a)|].
  destruct (is_key k ["d"%string] && _); [eexists _, _; split; [done|]; by apply (same_lists_ok a)|].
  destruct (is_key k ["s"%string] && _); [eexists _, _; split; [done|]; by apply (same_lists_ok a)|].
  pose proof (selected_ok a Ha) as Hsel. destruct (hm_Contacts (a_home a)) as [|c0 cs] eqn:Hc.
  - rewrite !andb_false_r. destruct (is_key k ["t"%string] && _); [eexists _, _; split; [done|]; by apply (same_lists_ok a)|].
    by apply delegate_key_ok.
  - rewrite !andb_true_r. destruct Hsel as [c Hs]; [done|]. rewrite Hs. cbn [mbind option_bind].
    destruct (is_key k ["f"%string] && _).
    { eexists _, _. split; [done|]. destruct Ha as [Ch _ Ct]. split; [exact Ch| |exact Ct].
      exact (NewFilePicker_ok (it_Address c) (it_Alias c)). }
    destruct (is_key k ["t"%string] && _); [eexists _, _; split; [done|]; by apply (same_lists_ok a)|].
    destruct (is_key k ["enter"%string] && _); [eexists _, _; split; [done|]; by apply (same_lists_ok a)|].
    by apply delegate_key_ok.
Qed.

Lemma handleKey_ok a k : cursors_ok a -> exists a' c, handleKey ReadDir UserHomeDir a k = Some (a', c) /\ cursors_ok a'.
Proof.
  intros Ha. unfold handleKey. destruct (a_screen a); try (by apply global_key_ok);
    repeat (destruct (is_key k _); [eexists _, _; split; [done|]; by apply (same_lists_ok a)|]); by apply delegate_key_ok.
Qed.

Lemma update_contact_length addr f l : length (update_contact addr f l) = length l.
Proof. induction l as [|c l IH]; [done|]. cbn. destruct (bool_decide _); cbn; congruence. Qed.

Lemma update_contact_ok a addr f : cursors_ok a -> cursors_ok (set_contacts a (update_contact addr f (hm_Contacts (a_home a)))).
Proof.
  intros Ha. apply home_only_ok; [|done]. unfold home_ok, shown_ok. cbn [hm_Cursor hm_Contacts].
  rewrite update_contact_length. destruct (co_home a Ha) as [? [?|[?|Hn]]]; [tauto..|]. split; [done|]. right; right. by rewrite Hn.
Qed.

Lemma handleEvent_ok a e : cursors_ok a -> cursors_ok (handleEvent a e).1.
Proof.
  intros Ha. unfold handleEvent.
  destruct (_ =? EventTorBootstrap); [destruct (ev_Payload e) as [| | | | | | |[]]; by try apply (same_lists_ok a)|].
  destruct (_ =? EventTorReady).
  { match goal with |- context [maybeTransition ?b] =>
      assert (same_lists a b) as Hs by (destruct (ev_Payload e); [done| |done..]; by destruct (bool_decide _));
      destruct (maybeTransition_spec b) as [-> | ->] end; by apply (same_lists_ok a). }
  destruct (_ =? EventConnectionReq); [destruct (ev_Payload e); by try apply (same_lists_ok a)|].
  destruct (_ =? EventChatMessage); [destruct (ev_Payload e); try done; by destruct (_ && _); [apply (same_lists_ok a)|]|].
  destruct (_ =? EventFileOffer); [destruct (ev_Payload e); by try apply (same_lists_ok a)|].
  destruct (_ =? EventConnectionState); [destruct (ev_Payload e); by try apply update_contact_ok|].
  destruct (_ =? EventPeerOnline); [destruct (ev_Payload e); by try apply update_contact_ok|done].
Qed.

Lemma set_items_ok a l : cursors_ok a -> (length (tr_Items (a_transfer a)) <= length l)%nat -> cursors_ok (set_items a l).
Proof. intros [Ch Cp Ct] Hl. split; [done..|]. cbn. unfold cursor_ok in *. lia. Qed.

Lemma finish_transfer_length r l : length (finish_transfer r l) = length l.
Proof.
  induction l as [|i l IH]; [done|]. cbn. destruct r as [id|e]; destruct (_ && _); try destruct (bool_decide (ti_Error i = None));
    cbn; congruence.
Qed.

(** The list of contacts shrank below the cursor, and is not empty. *)
Definition shrinks a (msg : Msg) : Prop :=
  exists l, msg = contactsLoadedMsg l /\ l <> [] /\ Z.of_nat (length l) <= hm_Cursor (a_home a).

Lemma handled (Q : App W -> Prop) (p : App W * Cmd) : Q p.1 -> exists a' c, Some p = Some (a', c) /\ Q a'.
Proof. intros Hp. exists p.1, p.2. by destruct p. Qed.

Lemma resize_ok a w h : cursors_ok a -> cursors_ok (resize a w h).
Proof. intros [Ch Cp Ct]. unfold resize. destruct (bool_decide _); by split. Qed.

Lemma Update_ok now a msg : cursors_ok a -> (forall l, msg <> contactsLoadedMsg l) ->
  exists a' c, update now a msg = Some (a', c) /\ cursors_ok a'.
Proof.
  intros Ha Hn. destruct msg; cbn [Update]; try (eexists _, _; split; [done|by try apply (same_lists_ok a)]; fail).
  - apply (handled cursors_ok), delegate_ok, resize_ok, Ha.
  - by apply handleKey_ok.
  - by apply (handled cursors_ok), delegate_ok.
  - match goal with |- context [maybeTransition ?b] => assert (cursors_ok b) as Hb by (by apply (same_lists_ok a));
      destruct (maybeTransition_spec b) as [-> | ->] end; apply (handled cursors_ok); [by apply (same_lists_ok a)|by apply delegate_ok].
  - destruct (is_key _ _); [|apply (handled cursors_ok), delegate_ok; by apply (same_lists_ok a)].
    match goal with |- context [maybeTransition ?b] => assert (cursors_ok b) as Hb by (by apply (same_lists_ok a));
      destruct (maybeTransition_spec b) as [-> | ->] end; apply (handled cursors_ok); [by apply (same_lists_ok a)|by apply delegate_ok].
  - apply (handled cursors_ok). by destruct info; [apply (same_lists_ok a)|].
  - by destruct (Hn contacts).
  - apply (handled cursors_ok). by destruct messageID; [apply (same_lists_ok a)|].
  - apply (handled cursors_ok), set_items_ok; [done|]. by rewrite finish_transfer_length.
  - by apply (handled cursors_ok), handleEvent_ok.
  - apply (handled cursors_ok). cbn [fst]. apply (same_lists_ok (set_items a (tr_Items (a_transfer a) ++ [mkTransfer "" (Base path) "send" address 0 "" "" false None]))); [done|].
    apply set_items_ok; [done|]. rewrite length_app. lia.
  - by apply (handled cursors_ok), delegate_ok.
Qed.

Lemma Update_cases now a msg : cursors_ok a ->
  exists a' c, update now a msg = Some (a', c) /\ (cursors_ok a' \/ shrinks a msg) /\ 0 <= fk_Cursor (a_filePicker a').
Proof.
  intros Hok. destruct (match msg with contactsLoadedMsg l => Some l | _ => None end) as [l|] eqn:He.
  - destruct msg; try done. injection He as ->. eexists _, _. split; [done|]. split; [|apply (co_picker a Hok)].
    destruct (decide (l = [])) as [->|Hl].
    { left. apply home_only_ok; [|done]. split; [apply Hok|by right; right]. }
    destruct (Z.lt_ge_cases (hm_Cursor (a_home a)) (Z.of_nat (length l))); [|by right; exists l].
    left. apply home_only_ok; [|done]. split; [apply Hok|by left].
  - destruct (Update_ok now a msg Hok) as (a' & c & Hu & Ha'); [by intros l ->|]. exists a', c.
    split; [done|]. split; [tauto|apply (co_picker a' Ha')].
Qed.

Lemma shrunk_crash now a msg : a_screen a = ScreenHome -> shrinks a msg -> exists a', update now a msg = Some (a', CmdNone) /\
  update now a' (KeyMsg "enter") = None /\ update now a' (KeyMsg "f") = None.
Proof.
  intros Hs (l & -> & Hl & Hle). eexists. split; [done|].
  assert (selected (set_contacts a l) = None) as Hsel.
  { unfold selected, at_index. cbn. destruct (Z.ltb_spec (hm_Cursor (a_home a)) 0); [done|]. apply lookup_ge_None_2. lia. }
  cbn [Update]. unfold handleKey, global_key. change (a_screen (set_contacts a l)) with (a_screen a). rewrite Hs, Hsel.
  change (hm_Contacts (a_home (set_contacts a l))) with l. by destruct l.
Qed.

(** ** Drawing *)

(** The widths and the percentages are those a screen can be drawn with. *)
Record drawable a : Prop := {
  dr_width : 0 <= a_width a;
  dr_chat : 0 <= ch_Width (a_chat a);
  dr_percent : Forall (fun i => 0 <= ti_Percent i <= 100) (tr_Items (a_transfer a))
}.

Definition same_drawn a a' : Prop :=
  a_width a' = a_width a /\ ch_Width (a_chat a') = ch_Width (a_chat a) /\ tr_Items (a_transfer a') = tr_Items (a_transfer a).

Lemma same_drawn_ok a a' : same_drawn a a' -> drawable a -> drawable a'.
Proof. intros (Hw & Hc & Ht) [Dw Dc Dp]. split; by rewrite ?Hw, ?Hc, ?Ht. Qed.

Lemma chat_only_drawn a c : 0 <= ch_Width c -> drawable a -> drawable (set_chat a c).
Proof. intros Hc [Dw _ Dp]. by split. Qed.

Lemma items_drawn a l : Forall (fun i => 0 <= ti_Percent i <= 100) l -> drawable a -> drawable (set_items a l).
Proof. intros Hl [Dw Dc _]. by split. Qed.

(** The terminal is not of a negative width. *)
Definition sized (msg : Msg) : Prop := match msg with WindowSizeMsg w _ => 0 <= w | _ => True end.

Lemma AddMessage_width (c : ChatScreen W) m : ch_Width (AddMessage c m) = ch_Width c.
Proof. unfold AddMessage, RefreshViewport. by destruct (negb _). Qed.

Lemma Chat_Update_width (c : ChatScreen W) msg : sized msg -> 0 <= ch_Width c -> 0 <= ch_Width (Chat_Update c msg).1.
Proof.
  intros Hs Hc. destruct msg; try exact Hc; [exact Hs|]. cbn [Chat_Update]. destruct (is_key _ _); [|exact Hc]. by destruct (negb _).
Qed.

Lemma delegate_drawn a msg : sized msg -> drawable a -> drawable (delegate a msg).1.
Proof.
  intros Hs Ha. unfold delegate. destruct (a_screen a); try exact Ha.
  - by apply (same_drawn_ok a); [destruct (Splash_Update _ _)|].
  - by apply (same_drawn_ok a); [destruct (Home_Update _ _)|].
  - by apply (same_drawn_ok a); [destruct (AddContact_Update _ _)|].
  - by apply (same_drawn_ok a); [destruct (ConnPrompt_Update _ _)|].
  - pose proof (Chat_Update_width (a_chat a) msg Hs (dr_chat a Ha)) as Hw. destruct (Chat_Update _ _). by apply chat_only_drawn.
  - by apply (same_drawn_ok a); [destruct (AddNode_Update _ _)|].
Qed.

Lemma Transfer_Update_items t msg t' c : Transfer_Update t msg = Some (t', c) -> tr_Items t' = tr_Items t.
Proof.
  destruct msg; try (by intros [= <- _]). cbn [Transfer_Update]. destruct (is_key _ _); [by intros [= <- _]|].
  destruct (is_key _ _); [by intros [= <- _]|]. destruct (is_key _ _); [|by intros [= <- _]].
  destruct (_ && _); [|by intros [= <- _]]. destruct (at_index _ _); [|done]. cbn. destruct (_ && _); by intros [= <- _].
Qed.

Lemma delegate_key_drawn a k a' c : delegate_key ReadDir a (KeyMsg k) = Some (a', c) -> drawable a -> drawable a'.
Proof.
  unfold delegate_key. intros Hd Ha. destruct (a_screen a).
  - by injection Hd as <- _.
  - destruct (Home_Update _ _). injection Hd as <- _. by apply (same_drawn_ok a).
  - by injection Hd as <- _.
  - destruct (AddContact_Update _ _). injection Hd as <- _. by apply (same_drawn_ok a).
  - destruct (ConnPrompt_Update _ _). injection Hd as <- _. by apply (same_drawn_ok a).
  - pose proof (Chat_Update_width (a_chat a) (KeyMsg k) I (dr_chat a Ha)) as Hw. destruct (Chat_Update _ _). injection Hd as <- _.
    by apply chat_only_drawn.
  - destruct (FilePicker_Update _ _ _) as [[fp c']|]; [|done]. injection Hd as <- _. by apply (same_drawn_ok a).
  - destruct (FileOffer_Update _ _). injection Hd as <- _. by apply (same_drawn_ok a).
  - destruct (Transfer_Update _ _) as [[t c']|] eqn:Ht; [|done]. injection Hd as <- _. apply Transfer_Update_items in Ht.
    by apply (same_drawn_ok a).
  - destruct (AddNode_Update _ _). injection Hd as <- _. by apply (same_drawn_ok a).
  - by injection Hd as <- _.
Qed.

Lemma global_key_drawn a k a' c : global_key ReadDir UserHomeDir a k = Some (a', c) -> drawable a -> drawable a'.
Proof.
  unfold global_key. intros Hg Ha.
  destruct (is_key k ["q"; "ctrl+c"]%string); [by injection Hg as <- _|].
  destruct (is_key k ["esc"%string]); [injection Hg as <- _; destruct (_ || _); [done|by apply (same_drawn_ok a)]|].
  destruct (is_key k ["a"%string] && _); [injection Hg as <- _; by apply (same_drawn_ok a)|].
  destruct (is_key k ["n"%string] && _); [injection Hg as <- _; by apply (same_drawn_ok a)|].
  destruct (is_key k ["d"%string] && _); [injection Hg as <- _; by apply (same_drawn_ok a)|].
  destruct (is_key k ["s"%string] && _); [injection Hg as <- _; by apply (same_drawn_ok a)|].
  destruct (is_key k ["f"%string] && _ && _); [destruct (selected a); [|done]; injection Hg as <- _; by apply (same_drawn_ok a)|].
  destruct (is_key k ["t"%string] && _); [injection Hg as <- _; by apply (same_drawn_ok a)|].
  destruct (is_key k ["enter"%string] && _ && _); [|by apply (delegate_key_drawn a k a' c)].
  destruct (selected a); [|done]. injection Hg as <- _. destruct Ha as [Dw Dc Dp]. by split.
Qed.

Lemma handleKey_drawn a k a' c : handleKey ReadDir UserHomeDir a k = Some (a', c) -> drawable a -> drawable a'.
Proof.
  unfold handleKey. intros Hh Ha. destruct (a_screen a); try (by apply (global_key_drawn a k a' c));
    repeat (destruct (is_key k _); [injection Hh as <- _; by apply (same_drawn_ok a)|]); by apply (delegate_key_drawn a k a' c).
Qed.

Lemma maybeTransition_drawn b : same_drawn b (maybeTransition b).2.
Proof. destruct (maybeTransition_spec b) as [-> | ->]; done. Qed.

Lemma transition_drawn b c msg a' c' : sized msg -> drawable b ->
  (let '(moved, d) := maybeTransition b in Some (if moved : bool then (d, c) else delegate d msg)) = Some (a', c') -> drawable a'.
Proof.
  intros Hs Hb. pose proof (same_drawn_ok _ _ (maybeTransition_drawn b) Hb) as Hd. destruct (maybeTransition b) as [[] d].
  - by intros [= <- _].
  - intros Hu. pose proof (delegate_drawn d msg Hs Hd) as Hr. by injection Hu as Hu; rewrite Hu in Hr.
Qed.

Lemma handleEvent_drawn a e : drawable a -> drawable (handleEvent a e).1.
Proof.
  intros Ha. unfold handleEvent.
  destruct (_ =? EventTorBootstrap); [destruct (ev_Payload e) as [| | | | | | |[]]; by try apply (same_drawn_ok a)|].
  destruct (_ =? EventTorReady).
  { match goal with |- context [maybeTransition ?b] =>
      assert (same_drawn a b) as Hs by (destruct (ev_Payload e); [done| |done..]; by destruct (bool_decide _));
      destruct (maybeTransition_spec b) as [-> | ->] end; by apply (same_drawn_ok a). }
  destruct (_ =? EventConnectionReq); [destruct (ev_Payload e); by try apply (same_drawn_ok a)|].
  destruct (_ =? EventChatMessage).
  { destruct (ev_Payload e); try exact Ha. destruct (_ && _); [|exact Ha]. apply chat_only_drawn; [|done].
    rewrite AddMessage_width. apply (dr_chat a Ha). }
  destruct (_ =? EventFileOffer); [destruct (ev_Payload e); by try apply (same_drawn_ok a)|].
  destruct (_ =? EventConnectionState); [destruct (ev_Payload e); by try apply (same_drawn_ok a)|].
  destruct (_ =? EventPeerOnline); [destruct (ev_Payload e); by try apply (same_drawn_ok a)|exact Ha].
Qed.

Lemma finish_transfer_percent r l : Forall (fun i => 0 <= ti_Percent i <= 100) l ->
  Forall (fun i => 0 <= ti_Percent i <= 100) (finish_transfer r l).
Proof.
  induction 1 as [|i l Hi Hl IH]; [by constructor|]. cbn.
  destruct r; destruct (_ && _); try destruct (bool_decide (ti_Error i = None)); cbn; constructor; try done; cbn; lia.
Qed.

Lemma resize_drawn a w h : 0 <= w -> drawable a -> drawable (resize a w h).
Proof. intros Hw [Dw Dc Dp]. unfold resize. destruct (bool_decide _); by split. Qed.

Lemma result_drawn (p : App W * Cmd) a' c : Some p = Some (a', c) -> drawable p.1 -> drawable a'.
Proof. by intros [= ->]. Qed.

Lemma Update_drawn now a msg a' c : update now a msg = Some (a', c) -> sized msg -> drawable a -> drawable a'.
Proof.
  intros Hu Hs Ha. destruct msg; cbn [Update] in Hu; try (injection Hu as <- _; by apply (same_drawn_ok a)).
  - by apply (result_drawn _ _ _ Hu), delegate_drawn, resize_drawn.
  - by apply (handleKey_drawn a key a' c).
  - by apply (result_drawn _ _ _ Hu), delegate_drawn.
  - match type of Hu with context [maybeTransition ?b] => assert (drawable b) as Hb by (by apply (same_drawn_ok a)) end.
    by apply (transition_drawn _ _ _ _ _ Hs Hb Hu).
  - assert (forall sb, drawable (set_status a sb)) as Hsb by (intros sb; by apply (same_drawn_ok a)).
    destruct (is_key _ _); [|apply (result_drawn _ _ _ Hu); by apply delegate_drawn].
    match type of Hu with context [maybeTransition ?b] => assert (drawable b) as Hb by (by apply (same_drawn_ok a)) end.
    by apply (transition_drawn _ _ _ _ _ Hs Hb Hu).
  - apply (result_drawn _ _ _ Hu). destruct info; [by apply (same_drawn_ok a)|done].
  - apply (result_drawn _ _ _ Hu). destruct messageID; [|exact Ha]. apply chat_only_drawn; [|done].
    unfold RefreshViewport. destruct (negb _); apply (dr_chat a Ha).
  - apply (result_drawn _ _ _ Hu), items_drawn; [|done]. apply finish_transfer_percent, (dr_percent a Ha).
  - by apply (result_drawn _ _ _ Hu), handleEvent_drawn.
  - apply (result_drawn _ _ _ Hu), chat_only_drawn; [|done]. rewrite AddMessage_width. apply (dr_chat a Ha).
  - apply (result_drawn _ _ _ Hu). cbn [fst].
    apply (same_drawn_ok (set_items a (tr_Items (a_transfer a) ++ [mkTransfer "" (Base path) "send" address 0 "" "" false None]))); [done|].
    apply items_drawn; [|done]. apply Forall_app. split; [apply (dr_percent a Ha)|]. constructor; [cbn; lia|constructor].
  - by apply (result_drawn _ _ _ Hu), delegate_drawn.
Qed.

Section drawing.
Context {G : Lipgloss} `{!Drawn W} (err_text : backend_err -> string) (ReadDir_err : string -> string) (zone : Z -> Z).

Abbreviation app_view := (App_View err_text ReadDir_err zone).

Lemma screen_view_Some now a : drawable a -> 0 <= fk_Cursor (a_filePicker a) ->
  is_Some (screen_view err_text ReadDir_err zone now a).
Proof.
  intros [_ Dc Dp] Hp. unfold screen_view.
  destruct (prompts_Some (a_connPrompt a) (a_fileOffer a)). destruct (a_screen a); try done;
    auto using Splash_View_Some, Chat_View_Some, FilePicker_View_Some, Transfer_View_Some, Debug_View_Some.
Qed.

Lemma App_View_Some now a : drawable a -> 0 <= fk_Cursor (a_filePicker a) -> is_Some (app_view now a).
Proof.
  intros Ha Hp. unfold App_View. destruct (screen_view_Some now a Ha Hp) as [s ->]. destruct (StatusBar_View_Some (a_status a)) as [b ->].
  by eexists.
Qed.

Lemma cursors_picker a : cursors_ok a -> 0 <= fk_Cursor (a_filePicker a).
Proof. intros Ha. apply (co_picker a Ha). Qed.

(** C39. The interface does not crash.  With every cursor inside its list and the widths and
    percentages in range, as at the start, each message and each key is handled and the screen is drawn, before and
    after, whatever the directories, the backend, the daemon's events and the styles are; and the
    cursors, widths and percentages stay in range.  Except that a list of contacts shorter
    than the cursor leaves it outside: that screen is still drawn, but opening a conversation or the file picker
    from it is an index out of range. *)
Theorem Update_total now a msg (Hok : cursors_ok a) (Hdraw : drawable a) (Hsized : sized msg) :
  is_Some (app_view now a) /\
  (exists a' c, update now a msg = Some (a', c) /\ is_Some (app_view now a') /\ drawable a' /\ (cursors_ok a' \/ shrinks a msg)) /\
  (a_screen a = ScreenHome -> shrinks a msg -> exists a', update now a msg = Some (a', CmdNone) /\
     update now a' (KeyMsg "enter") = None /\ update now a' (KeyMsg "f") = None) /\
  cursors_ok (NewApp : App W) /\ drawable (NewApp : App W).
Proof.
  split; [by apply App_View_Some, cursors_picker|]. split; [|split; [|split]].
  - destruct (Update_cases now a msg Hok) as (a' & c & Hu & Hc & Hp). exists a', c.
    pose proof (Update_drawn now a msg a' c Hu Hsized Hdraw) as Hd. split; [done|]. split; [by apply App_View_Some|done].
  - apply shrunk_crash.
  - split; [|unfold picker_ok|unfold cursor_ok]; [unfold home_ok|..]; unfold shown_ok; cbn; lia.
  - split; cbn; [lia|lia|constructor].
Qed.
Lemma shows_app now a view sub : screen_view err_text ReadDir_err zone now a = Some view -> shows view sub ->
  exists all, app_view now a = Some all /\ shows all sub.
Proof.
  intros Hv (pre & post & ->). unfold App_View. rewrite Hv. destruct (StatusBar_View_Some (a_status a)) as [b ->].
  eexists. split; [done|]. exists pre, (post +:+ String (ascii_of_nat 10) EmptyString +:+ b)%string. by rewrite !str_assoc.
Qed.

Lemma loadDir_Dir fp : fk_Dir (loadDir ReadDir fp) = fk_Dir fp.
Proof. unfold loadDir. by destruct (ReadDir (fk_Dir fp)). Qed.

(** Enter and f on the home screen. *)
Lemma home_keys_chosen now a c : a_screen a = ScreenHome -> selected a = Some c -> exists a1 a2,
  update now a (KeyMsg "enter") = Some (a1, CmdWidget) /\ a_screen a1 = ScreenChat /\ ch_Address (a_chat a1) = it_Address c /\
  update now a (KeyMsg "f") = Some (a2, CmdNone) /\ a_screen a2 = ScreenFilePicker /\ fk_PeerAddress (a_filePicker a2) = it_Address c.
Proof.
  intros Hs Hsel. cbn [Update]. unfold handleKey. rewrite Hs. unfold global_key. rewrite Hs, Hsel.
  assert (hm_Contacts (a_home a) <> []) as Hn.
  { intros Hn. unfold selected, at_index in Hsel. rewrite Hn in Hsel. by destruct (_ <? 0). }
  destruct (hm_Contacts (a_home a)) as [|c0 cs]; [done|]. eexists _, _. split; [reflexivity|]. split; [done|]. split; [done|].
  split; [reflexivity|]. split; [done|]. cbn. unfold NewFilePicker, loadDir. by destruct (ReadDir _).
Qed.

(** Enter in the file picker. *)
Lemma picker_enter_chosen now a e : a_screen a = ScreenFilePicker ->
  at_index (fk_Entries (a_filePicker a)) (fk_Cursor (a_filePicker a)) = Some e -> exists a1 c,
  update now a (KeyMsg "enter") = Some (a1, c) /\
  (fe_IsDir e = true -> c = CmdNone /\ fk_Dir (a_filePicker a1) =
     if bool_decide (fe_Name e = ".."%string) then DirOf (fk_Dir (a_filePicker a)) else Join (fk_Dir (a_filePicker a)) (fe_Name e)) /\
  (fe_IsDir e = false -> exists m a2, c = CmdEmit m /\
     update now a1 m = Some (a2, CmdSendFile (fk_PeerAddress (a_filePicker a)) (Join (fk_Dir (a_filePicker a)) (fe_Name e)))).
Proof.
  intros Hs He. assert (update now a (KeyMsg "enter") = delegate_key ReadDir a (KeyMsg "enter")) as ->.
  { cbn [Update]. unfold handleKey. rewrite Hs. unfold global_key. rewrite Hs. reflexivity. }
  unfold delegate_key. rewrite Hs. cbn [FilePicker_Update].
  change (is_key "enter" ["up"; "k"]%string) with false. change (is_key "enter" ["down"; "j"]%string) with false.
  change (is_key "enter" ["enter"%string]) with true. cbv iota.
  destruct (fk_Entries (a_filePicker a)) as [|e0 es] eqn:Hes.
  { unfold at_index in He. by destruct (_ <? 0). }
  rewrite He. cbn [mbind option_bind]. destruct (fe_IsDir e); (eexists _, _; split; [reflexivity|]); (split; [|]); try done.
  - intros _. split; [done|]. cbn. by rewrite loadDir_Dir.
  - intros _. eexists _, _. split; [done|]. reflexivity.
Qed.

(** C40. What is marked is what is chosen.  On the home screen every contact has a row, in order, and
    exactly the row of one is marked; Enter opens the conversation with that contact and f the choice
    of a file for it.  In the file picker the rows are those of consecutive entries, as many as fit, the
    marked row is always one of them and the only one with the mark; Enter opens the directory of that
    row, or sends the file of that row to the contact the picker was opened for.  The rows are
    on the screen as they are, whatever the styles. *)
Theorem marked_is_chosen now a (Hok : cursors_ok a) :
  (a_screen a = ScreenHome -> hm_Contacts (a_home a) <> [] -> exists c view a1 a2,
     marked home_row (hm_Contacts (a_home a)) c (home_rows (a_home a)) /\
     length (home_rows (a_home a)) = length (hm_Contacts (a_home a)) /\
     (app_view now a = Some view /\ shows view (String.concat "" (home_rows (a_home a)))) /\
     update now a (KeyMsg "enter") = Some (a1, CmdWidget) /\ a_screen a1 = ScreenChat /\ ch_Address (a_chat a1) = it_Address c /\
     update now a (KeyMsg "f") = Some (a2, CmdNone) /\ a_screen a2 = ScreenFilePicker /\ fk_PeerAddress (a_filePicker a2) = it_Address c) /\
  (let fp := a_filePicker a in
   a_screen a = ScreenFilePicker -> fk_err fp = false -> fk_Entries fp <> [] -> exists e rows window view a1 c,
     picker_rows fp = Some rows /\ (exists k, window = firstn (length rows) (skipn k (fk_Entries fp))) /\ marked picker_row window e rows /\
     Z.of_nat (length rows) = Z.min (Z.of_nat (length (fk_Entries fp))) (Z.max 1 (fk_Height fp - 7)) /\
     (app_view now a = Some view /\ shows view (String.concat "" rows)) /\
     update now a (KeyMsg "enter") = Some (a1, c) /\
     (fe_IsDir e = true -> c = CmdNone /\ fk_Dir (a_filePicker a1) =
        if bool_decide (fe_Name e = ".."%string) then DirOf (fk_Dir fp) else Join (fk_Dir fp) (fe_Name e)) /\
     (fe_IsDir e = false -> exists m a2, c = CmdEmit m /\
        update now a1 m = Some (a2, CmdSendFile (fk_PeerAddress fp) (Join (fk_Dir fp) (fe_Name e))))).
Proof.
  split.
  - intros Hs Hn. destruct (selected_ok a Hok Hn) as [c Hc]. destruct (home_marked (a_home a) c Hc) as (Hm & Hl & Hv).
    destruct (home_keys_chosen now a c Hs Hc) as (a1 & a2 & Hkeys).
    destruct (shows_app now a (Home_View (a_home a)) (String.concat "" (home_rows (a_home a)))) as (view & Hview); [|done|].
    { unfold screen_view. by rewrite Hs. }
    exists c, view, a1, a2. tauto.
  - intros fp Hs Herr Hn. destruct (shown_index _ _ (co_picker a Hok) Hn) as [e He].
    destruct (picker_marked ReadDir_err fp e He) as (rows & window & Hr & Hsub & Hm & Hl & Hv).
    destruct (Hv Herr) as (pv & Hpv & Hshow). destruct (picker_enter_chosen now a e Hs He) as (a1 & c & Henter).
    destruct (shows_app now a pv (String.concat "" rows)) as (view & Hview); [|done|].
    { unfold screen_view. by rewrite Hs. }
    exists e, rows, window, view, a1, c. tauto.
Qed.
End drawing.

(** ** Startup *)

(** Messages one after the other; their commands are left to the caller. *)
Definition run (now : Z) (a : App W) (ms : list Msg) : option (App W) :=
  fold_left (fun r m => a ← r; fst <$> update now a m) ms (Some a).

Lemma run_cons now a m ms a' c : update now a m = Some (a', c) -> run now a (m :: ms) = run now a' ms.
Proof. intros Hu. unfold run. cbn [fold_left mbind option_bind]. by rewrite Hu. Qed.

Definition is_identity (m : Msg) : bool := match m with identityLoadedMsg _ _ => true | _ => false end.

Definition is_tor (m : Msg) : bool :=
  match m with
  | statusLoadedMsg s _ _ _ => is_key s ["ready"; "disabled"]%string
  | eventMsg e => ev_Type e =? EventTorReady
  | _ => false
  end.

(** What the program is told while it starts: no keys, and no request or offer of a peer. *)
Definition startup (m : Msg) : bool :=
  match m with
  | WindowSizeMsg _ _ | OtherMsg | TorProgressMsg _ _ | identityLoadedMsg _ _ | statusLoadedMsg _ _ _ _ | debugLoadedMsg _
  | contactsLoadedMsg _ | eventChanMsg => true
  | eventMsg e => negb (ev_Type e =? EventConnectionReq) && negb (ev_Type e =? EventFileOffer)
  | _ => false
  end.

(** The screen and the two flags. *)
Definition flags (a : App W) := (a_screen a, a_identityReady a, a_torReady a).

Lemma delegate_flags a msg : flags (delegate a msg).1 = flags a.
Proof.
  unfold delegate, flags. destruct (a_screen a) eqn:Hs; try (cbn [fst]; by rewrite Hs).
  - destruct (Splash_Update _ _). by rewrite <- Hs.
  - destruct (Home_Update _ _). by rewrite <- Hs.
  - destruct (AddContact_Update _ _). by rewrite <- Hs.
  - destruct (ConnPrompt_Update _ _). by rewrite <- Hs.
  - destruct (Chat_Update _ _). by rewrite <- Hs.
  - destruct (AddNode_Update _ _). by rewrite <- Hs.
Qed.

Definition moved_to (s : Screen) (both : bool) : Screen := if both && bool_decide (s = ScreenSplash) then ScreenHome else s.

Lemma maybeTransition_flags a :
  flags (maybeTransition a).2 = (moved_to (a_screen a) (a_identityReady a && a_torReady a), a_identityReady a, a_torReady a).
Proof.
  unfold maybeTransition, moved_to, flags.
  destruct (a_identityReady a) eqn:Hi, (a_torReady a) eqn:Ht, (bool_decide _); cbn; by rewrite ?Hi, ?Ht.
Qed.

Lemma transition_step b c msg : exists a' c',
  (let '(moved, d) := maybeTransition b in Some (if moved : bool then (d, c) else delegate d msg)) = Some (a', c') /\
  flags a' = (moved_to (a_screen b) (a_identityReady b && a_torReady b), a_identityReady b, a_torReady b).
Proof.
  rewrite <- maybeTransition_flags. destruct (maybeTransition_spec b) as [-> | ->].
  - eexists _, _. by split.
  - apply (handled (fun a' => flags a' = flags b)), delegate_flags.
Qed.

Lemma handleEvent_flags a e : startup (eventMsg e) = true ->
  flags (handleEvent a e).1 =
  if ev_Type e =? EventTorReady
  then (moved_to (a_screen a) (a_identityReady a), a_identityReady a, true) else flags a.
Proof.
  cbn [startup]. intros [Hc%negb_true_iff Hf%negb_true_iff]%andb_prop. unfold handleEvent. rewrite Hc, Hf.
  destruct (ev_Type e =? EventTorBootstrap) eqn:Hb.
  { assert ((ev_Type e =? EventTorReady) = false) as -> by (apply Z.eqb_eq in Hb; by rewrite Hb).
    by destruct (ev_Payload e) as [| | | | | | |[]]. }
  destruct (ev_Type e =? EventTorReady).
  { match goal with |- context [maybeTransition ?b] => pose proof (maybeTransition_flags b) as Hm;
      assert (a_screen b = a_screen a /\ a_identityReady b = a_identityReady a /\ a_torReady b = true) as (Hs & Hi & Ht)
        by (destruct (ev_Payload e); [done| |done..]; by destruct (bool_decide _)) end.
    rewrite Hs, Hi, Ht, andb_true_r in Hm. by destruct (maybeTransition _). }
  destruct (_ =? EventChatMessage); [destruct (ev_Payload e); try done; by destruct (_ && _)|].
  destruct (_ =? EventConnectionState); [by destruct (ev_Payload e)|].
  destruct (_ =? EventPeerOnline); [by destruct (ev_Payload e)|done].
Qed.

Lemma startup_step now a m : startup m = true ->
  exists a' c, update now a m = Some (a', c) /\
    flags a' = (if is_identity m || is_tor m
                then moved_to (a_screen a) ((a_identityReady a || is_identity m) && (a_torReady a || is_tor m)) else a_screen a,
                a_identityReady a || is_identity m, a_torReady a || is_tor m).
Proof.
  intros Hm. destruct m; cbn [startup] in Hm; try done; cbn [Update is_identity is_tor orb];
    rewrite ?orb_false_r, ?orb_true_r, ?andb_true_r; try (eexists _, _; done).
  - apply (handled (fun a' => flags a' = _)). rewrite delegate_flags. unfold resize. by destruct (bool_decide _).
  - apply (handled (fun a' => flags a' = _)), delegate_flags.
  - match goal with |- context [maybeTransition ?b] => exact (transition_step b _ _) end.
  - destruct (is_key torState _); rewrite ?orb_true_r, ?orb_false_r.
    + match goal with |- context [maybeTransition ?b] => exact (transition_step b _ _) end.
    + apply (handled (fun a' => flags a' = _)), delegate_flags.
  - by destruct info; eexists _, _.
  - apply (handled (fun a' => flags a' = _)). rewrite handleEvent_flags by done.
    destruct (ev_Type e =? EventTorReady); by rewrite ?orb_true_r, ?orb_false_r, ?andb_true_r.
  - apply (handled (fun a' => flags a' = _)), delegate_flags.
Qed.
Definition settled (i t : bool) := (if i && t then ScreenHome else ScreenSplash, i, t).

Lemma run_startup now ms a i t : forallb startup ms = true -> flags a = settled i t ->
  exists a', run now a ms = Some a' /\ flags a' = settled (i || existsb is_identity ms) (t || existsb is_tor ms).
Proof.
  revert a i t. induction ms as [|m ms IH]; intros a i t Hms Ha.
  { exists a. by rewrite !orb_false_r. }
  cbn in Hms. apply andb_prop in Hms as [Hm Hms]. destruct (startup_step now a m Hm) as (a1 & c & Hu & Hf).
  rewrite (run_cons _ _ _ _ _ _ Hu). cbn [existsb]. rewrite !orb_assoc. apply IH; [done|]. rewrite Hf.
  injection Ha as Hs Hi Ht. rewrite Hs, Hi, Ht. unfold settled, moved_to.
  by destruct i, t, (is_identity m), (is_tor m).
Qed.

Lemma splash_key now a k : a_screen a = ScreenSplash -> exists c, update now a (KeyMsg k) = Some (a, c).
Proof.
  intros Hs. cbn [Update]. unfold handleKey, global_key. rewrite Hs. cbn [bool_decide Screen_eq_dec]. unfold delegate_key. rewrite Hs.
  rewrite !(bool_decide_eq_false_2 (ScreenSplash = ScreenHome)), !andb_false_r by done. rewrite bool_decide_eq_true_2 by done.
  destruct (is_key k _); [by eexists|]. destruct (is_key k _); by eexists.
Qed.

(** A key, or a startup message that brings neither the identity nor the state of Tor. *)
Definition idle (m : Msg) : Prop :=
  (exists k, m = KeyMsg k) \/ (startup m = true /\ is_identity m = false /\ is_tor m = false).

Lemma run_idle now ms a : Forall idle ms -> a_screen a = ScreenSplash ->
  exists a', run now a ms = Some a' /\ a_screen a' = ScreenSplash.
Proof.
  revert a. induction ms as [|m ms IH]; intros a Hms Hs; [by exists a|].
  inversion Hms as [|? ? [[k ->]|(Hm & Hi & Ht)] Hms']; subst.
  - destruct (splash_key now a k Hs) as [c Hu]. rewrite (run_cons _ _ _ _ _ _ Hu). by apply IH.
  - destruct (startup_step now a m Hm) as (a1 & c & Hu & Hf). rewrite (run_cons _ _ _ _ _ _ Hu). apply IH; [done|].
    rewrite Hi, Ht in Hf. cbn [orb] in Hf. injection Hf as ->. done.
Qed.

(** Startup.  Whatever order the identity, the state of Tor and the other answers and events
    come in, the interface is handled to the end and shows the contacts exactly when it has the
    identity and Tor is ready or disabled, and the splash screen before.  But when a peer asks
    for a connection before that, the screen to come back to is the splash: once the user has
    decided, the program, which has everything it waits for, shows the splash screen and stays
    there, whatever keys are pressed. *)
Theorem startup_contract now ms (Hms : forallb startup ms = true) :
  (exists a, run now NewApp ms = Some a /\
     a_screen a = if existsb is_identity ms && existsb is_tor ms then ScreenHome else ScreenSplash) /\
  (forall addr key peer, exists a,
     run now NewApp [identityLoadedMsg addr key; eventMsg (mkEvent EventConnectionReq (PString peer));
                     eventMsg (mkEvent EventTorReady PNil)] = Some a /\
     a_screen a = ScreenConnPrompt /\ a_identityReady a = true /\ a_torReady a = true /\
     forall r later, Forall idle later -> exists a', run now a (connDecisionDoneMsg r :: later) = Some a' /\ a_screen a' = ScreenSplash).
Proof.
  split.
  - destruct (run_startup now ms NewApp false false Hms eq_refl) as (a & Hr & Hf). exists a. split; [done|].
    by injection Hf as ->.
  - intros addr key peer. eexists. split; [reflexivity|]. split; [done|]. split; [done|]. split; [done|].
    intros r later Hl. set (a := set_ready _ _ _). erewrite run_cons by reflexivity. by apply run_idle.
Qed.
End claims.

(** ** Requests of peers *)

Section requests.
Context {W : Type} `{TextField W}.
Context `{Proto DHTFindNode, Proto DHTNodeResponse, Proto DHTPutRecord, Base58}.
Context (ReadDir : string -> option (list dir_entry)) (UserHomeDir : option string) (utf8 : string -> string).
Implicit Types a : App W.

(** The program with its backend: a message, then the message its command gives, and so on. *)
Fixpoint drive (fuel : nat) (B : Backend) (now : Z) (env : call_env) (a : App W) (n : DaemonNode) (msg : Msg) :
    option (App W * DaemonNode) :=
  match fuel with
  | O => Some (a, n)
  | S fuel =>
      '(a, c) ← Update ReadDir UserHomeDir now a msg;
      '(m, n) ← run_command B env n c;
      match m with None => Some (a, n) | Some m => drive fuel B now env a n m end
  end.

(** In the daemon's process, or attached over a working connection. *)
Definition usable (B : Backend) (peer : string) : Prop :=
  B = DirectBackend utf8 \/ (B = GRPCBackend utf8 (mkLink true true) /\ utf8 peer = peer).

Lemma usable_decision B peer n : usable B peer ->
  match decide_peer n peer (mkConnDecision true "") with
  | None => be_AcceptConnection B n peer = None
  | Some (r, n') => exists r', be_AcceptConnection B n peer = Some (r', n') /\ (err_of r' = None <-> r = Ok tt)
  end /\
  match decide_peer n peer (mkConnDecision false "rejected by user") with
  | None => be_RejectConnection B n peer = None
  | Some (r, n') => exists r', be_RejectConnection B n peer = Some (r', n') /\ (err_of r' = None <-> r = Ok tt)
  end.
Proof.
  intros [->|[-> Hu]]; split.
  - cbn [be_AcceptConnection DirectBackend]. unfold AcceptConnection. destruct (decide_peer _ _ _) as [[r n']|]; [|done].
    destruct r as [[]|]; eexists; by split.
  - cbn [be_RejectConnection DirectBackend]. unfold RejectConnection. destruct (decide_peer _ _ _) as [[r n']|]; [|done].
    destruct r as [[]|]; eexists; by split.
  - cbn [be_AcceptConnection GRPCBackend]. unfold rpc_block, api_AcceptConnection, AcceptConnection. cbn [ln_there forallb].
    unfold valid. rewrite bool_decide_eq_true_2 by done. cbn [andb negb]. destruct (decide_peer _ _ _) as [[r n']|]; [|done].
    destruct r as [[]|]; eexists; by split.
  - cbn [be_RejectConnection GRPCBackend]. unfold rpc_block, api_RejectConnection, RejectConnection. cbn [ln_there forallb].
    unfold valid. rewrite bool_decide_eq_true_2 by done. cbn [andb negb]. destruct (decide_peer _ _ _) as [[r n']|]; [|done].
    destruct r as [[]|]; eexists; by split.
Qed.

Definition decision_of (accept : bool) : ConnectionDecision :=
  if accept then mkConnDecision true "" else mkConnDecision false "rejected by user".
Definition key_of (accept : bool) : string := if accept then "y" else "n".

Lemma prompt_drive B now env a n peer accept r n' :
  a_screen a = ScreenConnPrompt -> cp_Address (a_connPrompt a) = peer -> usable B peer ->
  decide_peer n peer (decision_of accept) = Some (r, n') ->
  exists a', drive 3 B now env a n (KeyMsg (key_of accept)) = Some (a', n') /\
    a_screen a' = a_prevScreen a /\ a_prevScreen a' = a_prevScreen a /\ a_connPrompt a' = a_connPrompt a.
Proof.
  intros Hs <- Hu Hd. destruct (usable_decision B _ n Hu) as [Hacc Hrej]. unfold drive.
  cbn [Update]. unfold handleKey, delegate_key. rewrite Hs.
  destruct accept; cbn [decision_of key_of] in *.
  - rewrite Hd in Hacc. destruct Hacc as (r' & Hb & _). cbn - [is_key].
    change (is_key "y" ["ctrl+c"%string]) with false. change (is_key "y" ["y"%string]) with true. cbn - [is_key].
    rewrite Hb. cbn. eexists. split; [reflexivity|]. done.
  - rewrite Hd in Hrej. destruct Hrej as (r' & Hb & _). cbn - [is_key].
    change (is_key "n" ["ctrl+c"%string]) with false. change (is_key "n" ["y"%string]) with false.
    change (is_key "n" ["n"%string]) with true. cbn - [is_key]. rewrite Hb. cbn. eexists. split; [reflexivity|]. done.
Qed.

Fixpoint drive_keys (B : Backend) (now : Z) (env : call_env) (a : App W) (n : DaemonNode) (keys : list string) :
    option (App W * DaemonNode) :=
  match keys with
  | [] => Some (a, n)
  | k :: keys => '(a, n) ← drive 3 B now env a n (KeyMsg k); drive_keys B now env a n keys
  end.

(** The prompt for [peer2] covers the one of the request that waits on [ch]. *)
Record covered (peer2 peer : string) (ch : nat) a (n : DaemonNode) : Prop := {
  cv_screen : a_screen a = ScreenConnPrompt;
  cv_prev : a_prevScreen a = ScreenConnPrompt;
  cv_prompt : cp_Address (a_connPrompt a) = peer2;
  cv_pending : p_table (n_pending n) !! peer = Some ch;
  cv_pok : pending_ok (n_pending n)
}.

Lemma covered_key B now env peer2 peer ch a n k : peer2 <> peer -> usable B peer2 -> covered peer2 peer ch a n ->
  exists a' n', drive 3 B now env a n (KeyMsg k) = Some (a', n') /\ covered peer2 peer ch a' n'.
Proof.
  intros Hne Hu [Hs Hp Hc Hch Hok].
  assert (forall accept, exists a' n', drive 3 B now env a n (KeyMsg (key_of accept)) = Some (a', n') /\ covered peer2 peer ch a' n') as Hdec.
  { intros accept. destruct (decide_peer_spec n peer2 (decision_of accept) Hok) as (r & n' & Hd & Hok' & _ & Hr).
    destruct (prompt_drive B now env a n peer2 accept r n' Hs Hc Hu Hd) as (a' & Hdr & Hs' & Hp' & Hc').
    exists a', n'. split; [done|]. rewrite Hp in Hs', Hp'. split; [done|done|by rewrite Hc'| |done].
    destruct (p_table (n_pending n) !! peer2) as [ch2|]; [|by destruct Hr as [_ ->]].
    destruct Hr as [_ ->]. cbn [p_table]. by rewrite lookup_delete_ne. }
  destruct (decide (k = "y"%string)) as [->|Hy]; [exact (Hdec true)|].
  destruct (decide (k = "n"%string)) as [->|Hn]; [exact (Hdec false)|]. clear Hdec.
  unfold drive. cbn [Update]. unfold handleKey, delegate_key. rewrite Hs.
  assert (is_key k ["y"%string] = false) as Ey by (apply bool_decide_eq_false; by intros ->%list_elem_of_singleton).
  assert (is_key k ["n"%string] = false) as En by (apply bool_decide_eq_false; by intros ->%list_elem_of_singleton).
  destruct (is_key k ["ctrl+c"%string]); [by exists a, n|].
  cbn [ConnPrompt_Update]. rewrite Ey, En. exists (set_connPrompt a (a_connPrompt a)), n. by split.
Qed.

Lemma covered_keys B now env peer2 peer ch keys a n : peer2 <> peer -> usable B peer2 -> covered peer2 peer ch a n ->
  exists a' n', drive_keys B now env a n keys = Some (a', n') /\ covered peer2 peer ch a' n'.
Proof.
  intros Hne Hu. revert a n. induction keys as [|k keys IH]; intros a n Hc; [by exists a, n|].
  destruct (covered_key B now env peer2 peer ch a n k Hne Hu Hc) as (a1 & n1 & Hd & Hc1). cbn [drive_keys]. rewrite Hd. by apply IH.
Qed.

(** C36. A peer that is not known asks for a connection.  The node publishes the request, the
    interface, in the daemon's process or attached, shows who asks, and the key the user presses
    decides: the handler of this request gets exactly that decision, and the interface
    returns to where it was.  But a request that arrives while another is on the screen covers it:
    its prompt returns to itself, so that no key closes it any more, and the first peer's
    request is never decided. *)
Theorem request_decided B now env n a peer accept
  (Hok : pending_ok (n_pending n)) (Husable : usable B peer) :
  let '(ch, n1) := ask_user PString n peer in
  let event := mkEvent EventConnectionReq (PString peer) in
  let a1 := (handleEvent a event).1 in
  n_bus n1 = Publish (n_bus n) event /\
  (a_screen a1 = ScreenConnPrompt /\ cp_Address (a_connPrompt a1) = peer /\
   exists a2 n2, drive 3 B now env a1 n1 (KeyMsg (key_of accept)) = Some (a2, n2) /\ a_screen a2 = a_screen a /\
     p_table (n_pending n2) !! peer = None /\ exists n3, await_user n2 ch false = Some (decision_of accept, n3)) /\
  (forall peer2 keys, peer2 <> peer -> usable B peer2 ->
     let n2 := (ask_user PString n1 peer2).2 in
     let a2 := (handleEvent a1 (mkEvent EventConnectionReq (PString peer2))).1 in
     exists a3 n3, drive_keys B now env a2 n2 keys = Some (a3, n3) /\ a_screen a3 = ScreenConnPrompt /\
       cp_Address (a_connPrompt a3) = peer2 /\ p_table (n_pending n3) !! peer = Some ch).
Proof.
  destruct (ask_user PString n peer) as [ch n1] eqn:Ha. unfold ask_user in Ha. cbn [alloc] in Ha. injection Ha as Hch Hn1.
  assert (n_pending n1 = put (alloc (n_pending n)).2 peer ch) as Hp1 by (by subst).
  assert (pending_ok (n_pending n1)) as Hok1 by (rewrite Hp1, <- Hch; apply put_alloc_ok, Hok).
  assert (p_table (n_pending n1) !! peer = Some ch) as Ht by (rewrite Hp1; apply lookup_insert_eq).
  split; [by subst n1|]. split.
  - split; [done|]. split; [done|].
    destruct (decide_peer_spec n1 peer (decision_of accept) Hok1) as (r & n2 & Hd & _ & _ & Hr). rewrite Ht in Hr.
    destruct Hr as [-> Hp2].
    destruct (prompt_drive B now env (handleEvent a (mkEvent EventConnectionReq (PString peer))).1 n1 peer accept _ n2
      eq_refl eq_refl Husable Hd) as (a2 & Hdr & Hs & _). exists a2, n2. split; [done|]. split; [done|].
    rewrite Hp2. split; [apply lookup_delete_eq|]. unfold await_user, receive. rewrite Hp2. cbn [p_chans].
    assert (ch < length (p_chans (n_pending n1)))%nat as Hlt.
    { destruct (po_fresh _ Hok1 peer ch Ht) as (c & Hc & _). by eapply lookup_lt_Some. }
    rewrite list_lookup_insert_eq by done. cbn. by eexists.
  - intros peer2 keys Hne Hu.
    assert (covered peer2 peer ch (handleEvent (handleEvent a (mkEvent EventConnectionReq (PString peer))).1
      (mkEvent EventConnectionReq (PString peer2))).1 (ask_user PString n1 peer2).2) as Hc.
    { split; try done.
      - cbn. by rewrite lookup_insert_ne.
      - exact (put_alloc_ok (n_pending n1) peer2 Hok1). }
    destruct (covered_keys B now env peer2 peer ch keys _ _ Hne Hu Hc) as (a3 & n3 & Hd & [Hs _ Hp Hpe _]). exists a3, n3. done.
Qed.
End requests.

(** ** Conversations *)

Section conversations.
Context {W : Type} `{TextFieldOk W}.
Context (ReadDir : string -> option (list dir_entry)) (UserHomeDir : option string).
Implicit Types (a : App W) (c : ChatScreen W).

(** A screen that is ready shows its messages, one that is not shows nothing. *)
Definition chat_ok c : Prop := ch_viewport c = if ch_ready c then ch_Messages c else [].

(** The screen stays right and does not become ready. *)
Definition chat_step c c' : Prop := (chat_ok c -> chat_ok c') /\ (ch_ready c' = true -> ch_ready c = true).

Lemma chat_step_refl c : chat_step c c.
Proof. done. Qed.

Lemma AddMessage_step c m : chat_step c (AddMessage c m).
Proof.
  unfold chat_step, chat_ok, AddMessage, RefreshViewport. destruct (ch_ready c) eqn:Hr; cbn [set_messages ch_ready negb]; rewrite ?Hr; cbn.
  - done.
  - by rewrite Hr.
Qed.

Lemma set_messages_step c ms : chat_step c (RefreshViewport (set_messages c ms)).
Proof.
  unfold chat_step, chat_ok, RefreshViewport. destruct (ch_ready c) eqn:Hr; cbn [set_messages ch_ready negb]; rewrite ?Hr; cbn.
  - done.
  - by rewrite Hr.
Qed.

Lemma Chat_Update_step c msg : (forall w h, msg <> WindowSizeMsg w h) -> chat_step c (Chat_Update c msg).1.
Proof.
  intros Hm. destruct msg; try done; cbn [Chat_Update].
  - by destruct (Hm width height).
  - destruct (is_key _ _); [|done]. by destruct (negb _).
Qed.

Lemma delegate_chat a msg : (forall w h, msg <> WindowSizeMsg w h) -> chat_step (a_chat a) (a_chat (delegate a msg).1).
Proof.
  intros Hm. unfold delegate. destruct (a_screen a); try done.
  - by destruct (Splash_Update _ _).
  - by destruct (Home_Update _ _).
  - by destruct (AddContact_Update _ _).
  - by destruct (ConnPrompt_Update _ _).
  - pose proof (Chat_Update_step (a_chat a) msg Hm). by destruct (Chat_Update _ _).
  - by destruct (AddNode_Update _ _).
Qed.

Lemma delegate_key_chat a k a' cmd : delegate_key ReadDir a (KeyMsg k) = Some (a', cmd) -> chat_step (a_chat a) (a_chat a').
Proof.
  unfold delegate_key. destruct (a_screen a); try (by intros [= <- _]).
  - destruct (Home_Update _ _). by intros [= <- _].
  - destruct (AddContact_Update _ _). by intros [= <- _].
  - destruct (ConnPrompt_Update _ _). by intros [= <- _].
  - pose proof (Chat_Update_step (a_chat a) (KeyMsg k) ltac:(done)). destruct (Chat_Update _ _). by intros [= <- _].
  - intros ([? ?] & _ & [= <- _])%bind_Some. done.
  - destruct (FileOffer_Update _ _). by intros [= <- _].
  - intros ([? ?] & _ & [= <- _])%bind_Some. done.
  - destruct (AddNode_Update _ _). by intros [= <- _].
Qed.

(** A key can also open a fresh conversation. *)
Lemma handleKey_chat a k a' cmd : handleKey ReadDir UserHomeDir a k = Some (a', cmd) ->
  chat_step (a_chat a) (a_chat a') \/ (ch_ready (a_chat a') = false /\ ch_viewport (a_chat a') = []).
Proof.
  assert (global_key ReadDir UserHomeDir a k = Some (a', cmd) -> chat_step (a_chat a) (a_chat a') \/
    (ch_ready (a_chat a') = false /\ ch_viewport (a_chat a') = [])) as Hglobal.
  { unfold global_key. destruct (is_key k _); [intros [= <- _]; by left|].
    destruct (is_key k _); [intros [= <- _]; left; by destruct (_ || _)|].
    do 4 (destruct (is_key k _ && _); [intros [= <- _]; by left|]).
    destruct (is_key k _ && _ && _); [intros (? & _ & [= <- _])%bind_Some; by left|].
    destruct (is_key k _ && _); [intros [= <- _]; by left|].
    destruct (is_key k _ && _ && _); [intros (? & _ & [= <- _])%bind_Some; by right|].
    intros Hd. left. by eapply delegate_key_chat. }
  unfold handleKey. destruct (a_screen a); try exact Hglobal;
    repeat (destruct (is_key k _); [intros [= <- _]; by left|]); intros Hd; left; by eapply delegate_key_chat.
Qed.

Lemma handleEvent_chat a e : chat_step (a_chat a) (a_chat (handleEvent a e).1).
Proof.
  unfold handleEvent. destruct (_ =? EventTorBootstrap); [by destruct (ev_Payload e) as [| | | | | | |[]]|].
  destruct (_ =? EventTorReady).
  { match goal with |- context [maybeTransition ?b] => assert (a_chat b = a_chat a) as Hb
      by (destruct (ev_Payload e); [done| |done..]; by destruct (bool_decide _));
      destruct (maybeTransition_spec b) as [-> | ->] end; cbn [fst]; [change (a_chat (set_screen ?x _)) with (a_chat x)|]; by rewrite Hb. }
  destruct (_ =? EventConnectionReq); [by destruct (ev_Payload e)|].
  destruct (_ =? EventChatMessage); [destruct (ev_Payload e); try done; destruct (_ && _); [apply AddMessage_step|done]|].
  destruct (_ =? EventFileOffer); [by destruct (ev_Payload e)|].
  destruct (_ =? EventConnectionState); [by destruct (ev_Payload e)|].
  destruct (_ =? EventPeerOnline); [by destruct (ev_Payload e)|done].
Qed.

(** The conversation shows its messages, and is one that shows none until a resize. *)
Definition blank c : Prop := ch_ready c = false /\ ch_viewport c = [].

Lemma blank_ok c : blank c -> chat_ok c.
Proof. unfold chat_ok. by intros [-> ->]. Qed.

Lemma blank_step c c' : chat_step c c' -> blank c -> blank c'.
Proof.
  intros [Hok Hr] Hb. pose proof (Hok (blank_ok _ Hb)) as Hc. destruct Hb as [Hf _]. unfold chat_ok in Hc.
  destruct (ch_ready c') eqn:He; [rewrite Hr in Hf by done; done|]. by split.
Qed.

Lemma Update_chat now a msg a' cmd : (forall w h, msg <> WindowSizeMsg w h) ->
  Update ReadDir UserHomeDir now a msg = Some (a', cmd) -> chat_step (a_chat a) (a_chat a') \/ blank (a_chat a').
Proof.
  intros Hm Hu. destruct msg; cbn [Update] in Hu; try (injection Hu as <- _; by left).
  - by destruct (Hm width height).
  - by eapply handleKey_chat.
  - injection Hu as Hu. left. rewrite <- (f_equal fst Hu : _ = a'). by apply delegate_chat.
  - left. revert Hu. match goal with |- context [maybeTransition ?b] => change (a_chat a) with (a_chat b);
      destruct (maybeTransition_spec b) as [-> | ->] end.
    + by intros [= <- _].
    + intros [= Hu]. rewrite <- (f_equal fst Hu : _ = a'). by apply delegate_chat.
  - left. destruct (is_key torState _).
    + revert Hu. match goal with |- context [maybeTransition ?b] => change (a_chat a) with (a_chat b);
        destruct (maybeTransition_spec b) as [-> | ->] end.
      * by intros [= <- _].
      * intros [= Hu]. rewrite <- (f_equal fst Hu : _ = a'). by apply delegate_chat.
    + injection Hu as Hu. rewrite <- (f_equal fst Hu : _ = a').
      match goal with |- context [delegate ?b _] => exact (delegate_chat b _ Hm) end.
  - injection Hu as <- _. left. by destruct info.
  - injection Hu as <- _. left. destruct messageID; [apply set_messages_step|done].
  - injection Hu as Hu. left. rewrite <- (f_equal fst Hu : _ = a'). by apply handleEvent_chat.
  - injection Hu as <- _. left. apply AddMessage_step.
  - injection Hu as Hu. left. rewrite <- (f_equal fst Hu : _ = a'). by apply delegate_chat.
Qed.

Lemma delegate_other a msg : a_screen a <> ScreenChat -> a_chat (delegate a msg).1 = a_chat a.
Proof.
  intros Hs. unfold delegate. destruct (a_screen a); try done.
  - by destruct (Splash_Update _ _).
  - by destruct (Home_Update _ _).
  - by destruct (AddContact_Update _ _).
  - by destruct (ConnPrompt_Update _ _).
  - by destruct (AddNode_Update _ _).
Qed.

Lemma resize_screen a w h : a_screen (resize a w h) = a_screen a.
Proof. unfold resize. by destruct (bool_decide _). Qed.

Lemma resize_other a w h : a_screen a <> ScreenChat -> a_chat (resize a w h) = a_chat a.
Proof. intros Hs. unfold resize. destruct (bool_decide _) eqn:Hb; [by apply bool_decide_eq_true in Hb|reflexivity]. Qed.

Lemma delegate_resized a w h : a_screen a = ScreenChat -> chat_ok (a_chat (delegate a (WindowSizeMsg w h)).1).
Proof. intros Hs. unfold delegate. rewrite Hs. reflexivity. Qed.

Lemma resize_chat a w h : chat_ok (a_chat a) -> chat_ok (a_chat (delegate (resize a w h) (WindowSizeMsg w h)).1).
Proof.
  intros Ha. pose proof (resize_screen a w h) as Hr. pose proof (resize_other a w h) as Ho. revert Hr Ho.
  generalize (resize a w h) as b. intros b Hr Ho. destruct (decide (a_screen a = ScreenChat)) as [Hs|Hs].
  - apply delegate_resized. by rewrite Hr.
  - rewrite delegate_other by (by rewrite Hr). by rewrite Ho.
Qed.

Abbreviation update := (Update ReadDir UserHomeDir).
Abbreviation run := (run ReadDir UserHomeDir).

Lemma run_invariant (P : App W -> Prop) (Q : Msg -> Prop) now ms a a' :
  (forall a msg a1 cmd, P a -> Q msg -> update now a msg = Some (a1, cmd) -> P a1) ->
  Forall Q ms -> P a -> run now a ms = Some a' -> P a'.
Proof.
  intros Hstep. revert a. induction ms as [|m ms IH]; intros a Hq Hp Hr; [by injection Hr as <-|].
  apply Forall_cons in Hq as [Hm Hq]. destruct (update now a m) as [[a1 cmd]|] eqn:Hu.
  - rewrite (run_cons _ _ _ _ _ _ _ _ Hu) in Hr. by eapply IH; [|eapply Hstep|].
  - exfalso. revert Hr. unfold AppSpec.run. cbn [fold_left mbind option_bind]. rewrite Hu. cbn [fmap option_fmap option_map].
    clear. induction ms as [|m' ms IH]; [done|exact IH].
Qed.

Lemma Update_chat_ok now a msg a' cmd : chat_ok (a_chat a) -> update now a msg = Some (a', cmd) -> chat_ok (a_chat a').
Proof.
  intros Ha Hu. destruct (match msg with WindowSizeMsg w h => Some (w, h) | _ => None end) as [[w h]|] eqn:Hm.
  - destruct msg; try done. change (Some (delegate (resize a width height) (WindowSizeMsg width height)) = Some (a', cmd)) in Hu.
    apply (inj Some) in Hu. pose proof (resize_chat a width height Ha) as Hr. rewrite Hu in Hr. exact Hr.
  - destruct (Update_chat now a msg a' cmd) as [[Hs _]|Hb]; [by intros w h ->|done|by apply Hs|by apply blank_ok].
Qed.

Definition no_resize (m : Msg) : Prop := forall w h, m <> WindowSizeMsg w h.

Lemma Update_blank now a msg a' cmd : blank (a_chat a) -> no_resize msg -> update now a msg = Some (a', cmd) -> blank (a_chat a').
Proof. intros Ha Hm Hu. destruct (Update_chat now a msg a' cmd Hm Hu) as [Hs|Hb]; [by eapply blank_step|done]. Qed.

(** A message of ours, waiting and acknowledged. *)
Definition mine (now : Z) (text : string) : ChatMessage := mkChatMessage "" text true now false.
Definition acked (id : string) (m : ChatMessage) : ChatMessage := mkChatMessage id (cm_Text m) (cm_SentByMe m) (cm_Timestamp m) true.

Lemma ack_last_snoc id ms m : cm_SentByMe m = true -> cm_Acked m = false -> ack_last id (ms ++ [m]) = ms ++ [acked id m].
Proof. intros Hm Ha. unfold ack_last, acked. rewrite reverse_snoc. cbn - [reverse]. rewrite Hm, Ha. cbn - [reverse]. by rewrite reverse_cons, reverse_involutive. Qed.

Lemma ch_Messages_refresh c : ch_Messages (RefreshViewport c) = ch_Messages c.
Proof. unfold RefreshViewport. by destruct (negb _). Qed.

Definition messages a : list ChatMessage := ch_Messages (a_chat a).

Lemma acknowledge now a ms m id : messages a = ms ++ [m] -> cm_SentByMe m = true -> cm_Acked m = false ->
  exists a', update now a (chatSentMsg (Ok id)) = Some (a', CmdNone) /\ messages a' = ms ++ [acked id m].
Proof.
  intros Hms Hm Ha. eexists. split; [reflexivity|]. unfold messages in *. cbn [a_chat set_chat].
  rewrite ch_Messages_refresh. cbn [set_messages ch_Messages]. by rewrite Hms, ack_last_snoc.
Qed.

Lemma send_text now a text : a_screen a = ScreenChat -> TrimSpace (tf_Value (ch_input (a_chat a))) = text -> text <> ""%string ->
  exists a1, update now a (KeyMsg "enter") = Some (a1, CmdEmit (ChatSendMsg (ch_Address (a_chat a)) text)) /\
    tf_Value (ch_input (a_chat a1)) = ""%string /\ messages a1 = messages a /\ a_screen a1 = ScreenChat.
Proof.
  intros Hs Ht Hne. eexists. split.
  - cbn [Update]. unfold handleKey, delegate_key. rewrite Hs. change (is_key "enter" ["esc"%string]) with false.
    change (is_key "enter" ["ctrl+c"%string]) with false. cbn [Chat_Update]. change (is_key "enter" ["enter"%string]) with true.
    rewrite Ht, bool_decide_eq_false_2 by done. reflexivity.
  - split; [apply tf_cleared|done].
Qed.

Lemma add_text now a addr text : exists a', update now a (ChatSendMsg addr text) = Some (a', CmdSendChat addr text) /\
  messages a' = messages a ++ [mine now text] /\ a_screen a' = a_screen a.
Proof.
  eexists. split; [reflexivity|]. split; [|done]. unfold messages. cbn [a_chat set_chat]. unfold AddMessage.
  by rewrite ch_Messages_refresh.
Qed.

Lemma open_chat now a item : a_screen a = ScreenHome -> selected a = Some item ->
  exists a', update now a (KeyMsg "enter") = Some (a', CmdWidget) /\ a_screen a' = ScreenChat /\ blank (a_chat a') /\
    messages a' = [] /\ ch_Address (a_chat a') = it_Address item.
Proof.
  intros Hs Hi. cbn [Update]. unfold handleKey, global_key. rewrite Hs, Hi.
  assert (hm_Contacts (a_home a) <> []) as Hn.
  { intros Hn. unfold selected, at_index in Hi. rewrite Hn in Hi. by destruct (_ <? _). }
  destruct (hm_Contacts (a_home a)); [done|]. by eexists.
Qed.

(** An incoming message of a peer. *)
Definition incoming (m : Chat.Message) : Msg := eventMsg (mkEvent EventChatMessage (PMessage m)).

Lemma incoming_shown now b m : exists b', update now b (incoming m) = Some (b', CmdWait (a_eventChan b)) /\
  messages b' = messages b ++ (if bool_decide (a_screen b = ScreenChat /\ ch_Address (a_chat b) = msg_From m)
                               then [mkChatMessage (msg_ID m) (msg_Text m) false (msg_SentAt m) true] else []) /\
  (chat_ok (a_chat b) -> chat_ok (a_chat b')) /\ ch_ready (a_chat b') = ch_ready (a_chat b).
Proof.
  unfold incoming. cbn [Update]. unfold handleEvent. cbn [ev_Type ev_Payload].
  change (EventChatMessage =? EventTorBootstrap) with false. change (EventChatMessage =? EventTorReady) with false.
  change (EventChatMessage =? EventConnectionReq) with false. rewrite Z.eqb_refl, bool_decide_and.
  destruct (_ && _); eexists; (split; [reflexivity|]); cbn [fst a_chat set_chat].
  - unfold messages. cbn [a_chat set_chat]. split; [unfold AddMessage; by rewrite ch_Messages_refresh|].
    split; [apply AddMessage_step|]. unfold AddMessage, RefreshViewport. cbn [set_messages ch_ready]. by destruct (ch_ready (a_chat b)) eqn:?.
  - by rewrite app_nil_r.
Qed.

(** C38. Conversations.  Enter sends what the field holds without the blanks around it and clears the field; the
    message is listed at once and asked to be sent to the peer of the conversation, and the
    acknowledgement of the peer marks it, an error leaves it waiting.  A message of the peer is listed
    when it comes, while the conversation is on the screen, and not at all otherwise.  What the
    conversation shows is its list, in all reachable states, once the size of the terminal has come
    to it; but it comes only when the terminal is resized, so that a conversation just opened shows
    nothing until then.  And of two messages waiting, the acknowledgement of the first marks the
    second. *)
Theorem conversation_contract now a text text2
  (Hscreen : a_screen a = ScreenChat) (Htext : TrimSpace (tf_Value (ch_input (a_chat a))) = text /\ text <> ""%string) :
  let peer := ch_Address (a_chat a) in
  (exists a1 a2, update now a (KeyMsg "enter") = Some (a1, CmdEmit (ChatSendMsg peer text)) /\
     tf_Value (ch_input (a_chat a1)) = ""%string /\
     update now a1 (ChatSendMsg peer text) = Some (a2, CmdSendChat peer text) /\
     messages a2 = messages a ++ [mine now text] /\
     (forall e, update now a2 (chatSentMsg (Err e)) = Some (a2, CmdNone)) /\
     (forall id, exists a3, update now a2 (chatSentMsg (Ok id)) = Some (a3, CmdNone) /\
        messages a3 = messages a ++ [acked id (mine now text)]) /\
     (forall id, exists a3 a4, update now a2 (ChatSendMsg peer text2) = Some (a3, CmdSendChat peer text2) /\
        update now a3 (chatSentMsg (Ok id)) = Some (a4, CmdNone) /\
        messages a4 = messages a ++ [mine now text; acked id (mine now text2)])) /\
  (forall b m, exists b', update now b (incoming m) = Some (b', CmdWait (a_eventChan b)) /\
     messages b' = messages b ++ if bool_decide (a_screen b = ScreenChat /\ ch_Address (a_chat b) = msg_From m)
                                 then [mkChatMessage (msg_ID m) (msg_Text m) false (msg_SentAt m) true] else []) /\
  (forall ms b, run now NewApp ms = Some b -> chat_ok (a_chat b)) /\
  (forall b item, a_screen b = ScreenHome -> selected b = Some item ->
     exists b', update now b (KeyMsg "enter") = Some (b', CmdWidget) /\ a_screen b' = ScreenChat /\ messages b' = [] /\
       forall ms b'', Forall no_resize ms -> run now b' ms = Some b'' -> ch_viewport (a_chat b'') = []).
Proof.
  cbn zeta. destruct Htext as [Ht Hne]. split; [|split; [|split]].
  - destruct (send_text now a text Hscreen Ht Hne) as (a1 & Hu1 & Hc & Hm1 & Hs1).
    destruct (add_text now a1 (ch_Address (a_chat a)) text) as (a2 & Hu2 & Hm2 & _). rewrite Hm1 in Hm2.
    exists a1, a2. do 4 (split; [done|]). split; [reflexivity|]. split.
    + intros id. by apply acknowledge.
    + intros id. destruct (add_text now a2 (ch_Address (a_chat a)) text2) as (a3 & Hu3 & Hm3 & _). rewrite Hm2 in Hm3.
      destruct (acknowledge now a3 _ (mine now text2) id Hm3) as (a4 & Hu4 & Hm4); [done..|].
      exists a3, a4. do 2 (split; [done|]). by rewrite Hm4, <- app_assoc.
  - intros b m. destruct (incoming_shown now b m) as (b' & Hu & Hm & _). by exists b'.
  - intros ms b. apply (run_invariant (fun a => chat_ok (a_chat a)) (fun _ => True)); [|by apply Forall_true|done].
    intros b1 msg b2 cmd Hb _. by apply Update_chat_ok.
  - intros b item Hs Hi. destruct (open_chat now b item Hs Hi) as (b' & Hu & Hs' & Hb & Hm & _). exists b'.
    do 3 (split; [done|]). intros ms b'' Hms Hr.
    eapply (run_invariant (fun a => blank (a_chat a)) no_resize now ms b') in Hr as [_ ?]; [done| |done|done].
    intros. by eapply Update_blank.
Qed.
End conversations.

(** ** In the daemon's process and attached *)

Section attached_interface.
Context {W : Type} `{TextField W}.
Context (utf8 : string -> string) (time_text : Z -> string) (error_text : conn_err -> string).
Implicit Types a : App W.

(** What an attached interface makes of an event of the daemon. *)
Definition attached_event a (e : Event payload) : App W :=
  match attached utf8 time_text error_text e with Some e' => (handleEvent a e').1 | None => a end.

(** The type of event the daemon publishes each payload under. *)
Definition published (e : Event payload) : Prop :=
  match ev_Payload e with
  | PNil | PString _ => ev_Type e = EventTorReady \/ ev_Type e = EventConnectionReq
  | PBootstrap _ => ev_Type e = EventTorBootstrap
  | PMessage _ => ev_Type e = EventChatMessage
  | PFileOffer _ => ev_Type e = EventFileOffer
  | PState _ => ev_Type e = EventConnectionState
  | POnline _ => ev_Type e = EventPeerOnline
  | PJson _ => False
  end.

(** The interface that a bootstrap event leaves. *)
Definition bootstrapping a (percent : Z) (summary : string) : App W :=
  set_torState (set_splash a (mkSplash (sp_Width (a_splash a)) (sp_Height (a_splash a)) percent summary)) "bootstrapping".

Lemma float64_exact z : Z.abs z < 2 ^ 53 -> int_of_float (float64_of z) = z.
Proof.
  intros Hz. unfold float64_of. assert (Z.log2 (Z.abs z) - 52 <= 0) as He%Z.leb_le.
  { destruct (Z.eq_dec (Z.abs z) 0) as [->|?]; [done|]. apply Z.le_sub_0, Z.lt_succ_r, Z.log2_lt_pow2; lia. }
  rewrite He. unfold int_of_float. rewrite (proj2 (Z.leb_le _ _)), (proj2 (Z.ltb_lt _ _)) by lia. done.
Qed.

Lemma published_known e : published e -> ev_Type e ∈ allEventTypes.
Proof.
  assert (forall t, bool_decide (t ∈ allEventTypes) = true -> t ∈ allEventTypes) as Hb by (by intros t ?%bool_decide_eq_true).
  unfold published. destruct (ev_Payload e); try done; [intros [-> | ->]|intros [-> | ->]|intros ->..]; by apply Hb.
Qed.

(** The interface attached to a daemon and the one in its process.  Requests of peers and Tor
    being ready have the same effect on both.  But chat messages, states of connections, file
    offers and the presence of peers, which the interface in the process shows, leave an attached
    one as it is; and the progress of Tor's bootstrap, which an attached one shows, as long as the
    number is below 2^53, leaves the one in the process as it is. *)
Theorem attached_interface a e (Hpub : published e) :
  match ev_Payload e with
  | PNil => attached_event a e = (handleEvent a e).1
  | PString s => utf8 s = s -> attached_event a e = (handleEvent a e).1
  | PBootstrap be => (handleEvent a e).1 = a /\
      (Z.abs (be_Percent be) < 2 ^ 53 -> attached_event a e = bootstrapping a (be_Percent be) (utf8 (be_Summary be)))
  | PMessage _ | PFileOffer _ | PState _ | POnline _ => attached_event a e = a
  | PJson _ => True
  end.
Proof.
  pose proof (published_known e Hpub) as Ht. unfold attached_event. rewrite (attached_spec _ _ _ e Ht). unfold published in Hpub.
  destruct e as [t p]. cbn [ev_Type ev_Payload] in *. destruct p; try done.
  - by destruct Hpub as [-> | ->].
  - intros Hu. cbn [marshal_payload mbind option_bind]. unfold json_string. rewrite Hu. by destruct Hpub as [-> | ->].
  - subst t. split; [done|]. intros Hz. unfold bootstrapping. rewrite <- (float64_exact (be_Percent be)) by done. reflexivity.
  - subst t. change (EventChatMessage =? EventPeerOnline) with false. cbn [marshal_payload].
    destruct (json_time _ _) as [sent|]; [|done]. cbn [mbind option_bind]. by destruct (match msg_AckedAt m with None => _ | _ => _ end).
  - by subst t.
  - by subst t.
  - by subst t.
Qed.
End attached_interface.

(** ** Witnesses *)

Section samples.
Import Toy.

(** A text field that holds what is typed. *)
#[local] Instance typewriter : TextField string := {
  tf_new _ _ := ""%string;
  tf_Value w := w;
  tf_SetValue _ s := s;
  tf_Update w m := match m with KeyMsg k => (w +:+ k)%string | _ => w end;
  tf_Focus w := w;
  tf_Blur w := w
}.
#[local] Instance typewriter_ok : TextFieldOk string.
Proof. by split. Qed.

Definition no_dir (_ : string) : option (list dir_entry) := None.

Definition ada_item : ContactItem := mkItem "Eada" "Ada" true "".
Definition bob_item : ContactItem := mkItem "Ebob" "Bob" false "".

(** The home screen with the cursor on the second of two contacts. *)
Definition home_app : App string := set_screen (set_home NewApp (mkHome [ada_item; bob_item] 1 80 24)) ScreenHome.

Lemma home_app_ok : cursors_ok home_app.
Proof. split; [unfold home_ok|unfold picker_ok|unfold cursor_ok]; unfold shown_ok; cbn; lia. Qed.

Lemma home_app_drawable : drawable home_app.
Proof. split; cbn; [lia|lia|constructor]. Qed.

#[local] Instance terminal : Lipgloss := plain.
#[local] Instance typed : Drawn string := { tf_View w := w; viewport_View v := match v with Some (_, _, s) => s | None => ""%string end }.

(** The second contact is gone: the first is drawn, unmarked, and Enter is an index out of range. *)
Lemma Update_total_witness :
  is_Some (App_View (fun _ => "an error")%string id (fun _ => 0) 0 home_app) /\
  exists a, Update no_dir None 0 home_app (contactsLoadedMsg [ada_item]) = Some (a, CmdNone) /\
    Update no_dir None 0 a (KeyMsg "enter") = None.
Proof.
  destruct (Update_total no_dir None (fun _ => "an error")%string id (fun _ => 0) 0 home_app (contactsLoadedMsg [ada_item])
              home_app_ok home_app_drawable I) as (Hview & _ & Hcrash & _).
  split; [exact Hview|]. destruct Hcrash as (a & Hu & He & _); [reflexivity| |by exists a].
  exists [ada_item]. split; [reflexivity|]. split; [discriminate|]. cbn. lia.
Defined.

(** Bob is marked, and Enter opens the conversation with him. *)
Lemma marked_is_chosen_witness :
  exists c a1, marked home_row [ada_item; bob_item] c (home_rows (a_home home_app)) /\
    Update no_dir None 0 home_app (KeyMsg "enter") = Some (a1, CmdWidget) /\ ch_Address (a_chat a1) = it_Address c.
Proof.
  destruct (marked_is_chosen no_dir None (fun _ => "an error")%string id (fun _ => 0) 0 home_app home_app_ok) as [Hhome _].
  destruct Hhome as (c & _ & a1 & _ & Hm & _ & _ & Hu & _ & Hc & _); [reflexivity|discriminate|].
  exists c, a1. split; [exact Hm|]. split; [exact Hu|exact Hc].
Defined.

Definition sample_startup : list Msg :=
  [WindowSizeMsg 80 24; eventMsg (mkEvent EventTorReady (PString "abc.onion")); identityLoadedMsg "Eme" []; contactsLoadedMsg [ada_item]].

Lemma startup_contract_witness :
  exists a : App string, run no_dir None 0 NewApp sample_startup = Some a /\ a_screen a = ScreenHome.
Proof.
  destruct (startup_contract no_dir None 0 sample_startup eq_refl) as [(a & Hr & Hs) _]. exists a. split; [exact Hr|].
  rewrite Hs. vm_compute. reflexivity.
Defined.

(** Ada asks, the user presses y, and her handler is told to accept. *)
Lemma request_decided_witness :
  exists a n ch n', drive no_dir None 3 (DirectBackend id) 0 sample_call
      (handleEvent home_app (mkEvent EventConnectionReq (PString "Eada"))).1 (ask_user PString sample_daemon "Eada").2
      (KeyMsg "y") = Some (a, n) /\ a_screen a = ScreenHome /\
    await_user n ch false = Some (mkConnDecision true "", n').
Proof.
  pose proof (request_decided no_dir None id (DirectBackend id) 0 sample_call sample_daemon home_app "Eada" true
    no_pending_ok (or_introl eq_refl)) as Hd.
  destruct (ask_user PString sample_daemon "Eada") as [ch n1] eqn:Ha. cbn [snd].
  destruct Hd as (_ & (_ & _ & a & n & Hdr & Hs & _ & n' & Haw) & _).
  exists a, n, ch, n'. split; [exact Hdr|]. split; [exact Hs|exact Haw].
Defined.

(** In a conversation with Ada, with " hello " typed. *)
Definition chat_app : App string :=
  set_screen (set_chat NewApp (mkChatScreen "Eada" "Ada" [] " hello "%string [] 80 23 false)) ScreenChat.

Lemma conversation_contract_witness :
  exists a1 a2, Update no_dir None 7 chat_app (KeyMsg "enter") = Some (a1, CmdEmit (ChatSendMsg "Eada" "hello")) /\
    Update no_dir None 7 a1 (ChatSendMsg "Eada" "hello") = Some (a2, CmdSendChat "Eada" "hello") /\
    messages a2 = [mine 7 "hello"] /\ ch_viewport (a_chat a2) = [].
Proof.
  destruct (conversation_contract no_dir None 7 chat_app "hello" "again" eq_refl) as ((a1 & a2 & Hu1 & _ & Hu2 & Hm & _) & _).
  - split; [vm_compute; reflexivity|discriminate].
  - exists a1, a2. split; [exact Hu1|]. split; [exact Hu2|]. split; [exact Hm|].
    destruct (Update_blank no_dir None 7 chat_app (KeyMsg "enter") a1 _ (conj eq_refl eq_refl) ltac:(discriminate) Hu1) as [Hr Hv].
    exact (proj2 (Update_blank no_dir None 7 a1 (ChatSendMsg "Eada" "hello") a2 _ (conj Hr Hv) ltac:(discriminate) Hu2)).
Defined.
(** A message of Ada is shown in the process and lost when attached; the same request is shown by both. *)
Lemma attached_interface_witness :
  let m := mkMessage "1" "Eada" "Eme" "hello" 5 None Incoming in
  let e := mkEvent EventChatMessage (PMessage m) in
  let asks := mkEvent EventConnectionReq (PString "Eada") in
  messages (handleEvent chat_app e).1 = [mkChatMessage "1" "hello" false 5 true] /\
  attached_event id (fun _ => ""%string) (fun _ => ""%string) chat_app e = chat_app /\
  attached_event id (fun _ => ""%string) (fun _ => ""%string) chat_app asks = (handleEvent chat_app asks).1.
Proof.
  cbn zeta. split; [vm_compute; reflexivity|]. split.
  - exact (attached_interface id _ _ chat_app (mkEvent EventChatMessage (PMessage _)) eq_refl).
  - exact (attached_interface id _ _ chat_app (mkEvent EventConnectionReq (PString "Eada")) (or_intror eq_refl) eq_refl).
Defined.
End samples.
