(* ===== verification/Conversation.v ===== *)
(** * A conversation from one screen to the other

    The adapters through which daemon.go joins its parts, and what comes of them: a message
    typed in one interface passes its backend, node and chat service, the stream, and the
    other daemon's chat service and interface, and comes back as an acknowledgment. *)

From S2P Require Import Contacts Prelude GoStd Sha256 Crypto Protocol Instances Identity Wire IPExchange Services Signaling Session Routing Dht Events Chunker Keystore FilePath Chat Connector Peers Presence Tor Discovery Pending ApiEvents Node Api Backend Screens Views App AppSpec.
Local Open Scope go_scope.

(** ** daemon.go: adapters *)

Section adapters.
Context {K E D H : Type}.

(** [registryPtr] is [None] until Tor is ready; a missing daemon is no lookup at all. *)
(** src: internal/daemon/daemon.go 531-544 daemonServiceLookup.Get *)
Definition daemonServiceLookup_Get (registryPtr : option (Registry (K := K) (E := E) (D := D) (H := H))) (name : string) : option Service :=
  match registryPtr with None => None | Some r => Services.Get r name end.

(** src: internal/daemon/daemon.go 552-558 nodeChatDispatcher.Send *)
Definition nodeChatDispatcher_Send (n : DaemonNode) (fromService toAddr text : string) : result node_err string :=
  node_SendMessage n toAddr text.

(** src: internal/daemon/daemon.go 561-567 nodeConnectorLister.ActivePeers *)
Definition nodeConnectorLister_ActivePeers (n : DaemonNode) : list PeerConnection := ActiveConnections n.

(** src: internal/daemon/daemon.go 570-576 nodeResolver.GetPeer *)
Definition nodeResolver_GetPeer (n : DaemonNode) (addr : string) : option PeerConnection := ConnectionInfo n addr.

(** src: internal/daemon/daemon.go 590-603 discoveryFinderAdapter.FindPeer *)
Definition discoveryFinderAdapter_FindPeer (r : result find_err PeerInfo) : result find_err PeerLookupResult :=
  info <-? r; Ok (mkLookup (p_Address info) (p_OnionAddr info)).

(** src: internal/daemon/daemon.go 107-108 Daemon.Start *)
Definition daemon_chat (registryPtr : option (Registry (K := K) (E := E) (D := D) (H := H))) (history : History.t)
    (bus : gmap EventType (list (Chan.t (Event Chat.Message)))) : ChatService :=
  mkChat (Some (daemonServiceLookup_Get registryPtr)) NodeService (Some history) bus.
End adapters.

(** src: internal/daemon/daemon.go 110-116 Daemon.Start *)
Definition daemon_send (SendMessage : string -> string -> result chat_err Chat.Message) (addr text : string) : option string :=
  match SendMessage addr text with Ok msg => Some (msg_ID msg) | Err _ => None end.

(** ** Two daemons *)

(** What the two ends meet: the random bytes of the identifier, and the readings of their clocks, in
    milliseconds where the code reads them so. *)
Record talk_env := mkTalk { tk_rand : option bytes; tk_now : Z; tk_acked : Z; tk_received : Z; tk_ackNow : Z }.

Section talk.
Context `{Proto ChatText, Proto ChatAck, Ed25519, Ripemd160, Base58} `{Proto DHTFindNode, Proto DHTNodeResponse, Proto DHTPutRecord}.

(** [SendMessage] of the daemon of [n] over a reliable stream to the handler of [sB], to the end. *)
Definition talk (n : DaemonNode) (sA sB : ChatService) (env : talk_env) (addr text : string) :
    option (result chat_err Chat.Message * ChatService * ChatService) :=
  link 10 (Chat.SendMessage sA (match nodeResolver_GetPeer n addr with Some _ => true | None => false end) true addr text
             (tk_rand env) (tk_now env) (tk_acked env))
    (Chat.handleIncoming sB (tk_received env) (tk_ackNow env)) [] [].

(** The node of the daemon whose chat service is [sA].  A stream that did not end would be an error. *)
Definition chatting (n : DaemonNode) (sA sB : ChatService) (env : talk_env) : DaemonNode :=
  SetSendMessage n (daemon_send (fun addr text =>
    match talk n sA sB env addr text with Some (r, _, _) => r | None => Err ErrReadAck end)).
End talk.

Section claims.
Context {K E D H : Type}.
Context `{ProtoOk ChatText, ProtoOk ChatAck, Ed25519Ok, Ripemd160, Base58} `{Proto DHTFindNode, Proto DHTNodeResponse, Proto DHTPutRecord}.
Context {W : Type} `{TextFieldOk W}.
Context (ReadDir : string -> option (list dir_entry)) (UserHomeDir : option string) (utf8 : string -> string).
Implicit Types (a b : App W) (n : DaemonNode).

Abbreviation update := (App.Update ReadDir UserHomeDir).
Abbreviation registry := (Registry (K := K) (E := E) (D := D) (H := H)).

(** The two ends of the stream, with the registries the daemons have. *)
Lemma talk_ends (rA rB : registry) svcA svcB hA hB busA busB n pc env peer text p1 p2 :
  Services.Get rA NodeService = Some svcA -> Services.Get rB NodeService = Some svcB -> AsChat (Some svcB) = true ->
  genuine (s_Identity svcA) -> genuine (s_Identity svcB) -> ConnectionInfo n peer = Some pc ->
  marshal (mkChatText (generateID (tk_rand env)) text) = Some p1 -> marshal (mkChatAck (generateID (tk_rand env))) = Some p2 ->
  exists out sA' sB' inc,
    talk n (daemon_chat (Some rA) hA busA) (daemon_chat (Some rB) hB busB) env peer text = Some (Ok out, sA', sB') /\
    msg_ID out = generateID (tk_rand env) /\
    ch_bus sB' = Publish busB (mkEvent EventChatMessage inc) /\
    inc = mkMessage (generateID (tk_rand env)) (DeriveAddress (kp_pub (s_Identity svcA))) (s_Address svcB) text
            (GoTime.of_UnixMilli (tk_now env)) (Some (tk_received env)) Incoming.
Proof.
  intros HA HB Hchat HgA HgB Hpc Hm1 Hm2. unfold talk, nodeResolver_GetPeer. rewrite Hpc.
  rewrite (chat_delivery (daemon_chat (Some rA) hA busA) (daemon_chat (Some rB) hB busB) svcA svcB peer text (tk_rand env) (tk_now env)
    (tk_acked env) (tk_received env) (tk_ackNow env) p1 p2); try done.
  - eexists _, _, _, _. split; [reflexivity|]. split; [done|]. split; [|reflexivity]. done.
  - unfold resolveService. cbn [daemon_chat ch_lookup ch_serviceName daemonServiceLookup_Get]. by rewrite HA.
  - unfold resolveService. cbn [daemon_chat ch_lookup ch_serviceName daemonServiceLookup_Get]. by rewrite HB.
Qed.

(** The backend's call, in the process or attached. *)
Lemma sent_id B n sA sB env peer text out sA' sB' : usable utf8 B peer -> utf8 text = text -> utf8 (msg_ID out) = msg_ID out ->
  talk n sA sB env peer text = Some (Ok out, sA', sB') ->
  be_SendMessage B (chatting n sA sB env) peer text = Ok (msg_ID out).
Proof.
  intros HB Ht Hid Htalk. assert (node_SendMessage (chatting n sA sB env) peer text = Ok (msg_ID out)) as Hn.
  { unfold node_SendMessage, chatting. cbn [SetSendMessage n_sendMsg]. unfold daemon_send. rewrite Htalk. reflexivity. }
  destruct HB as [->|[-> Hp]].
  - cbn [be_SendMessage DirectBackend]. by rewrite Hn.
  - cbn [be_SendMessage GRPCBackend]. unfold rpc_read, rpc, api_SendMessage. rewrite Hn. cbn [with_code ln_there ln_back negb andb forallb].
    unfold valid. by rewrite !bool_decide_eq_true_2.
Qed.

(** C15. From one screen to the other.  Two daemons have their node service registered and are connected by a
    reliable stream; in the first interface, in its process or attached, a text is typed to the second.  Enter
    lists it and hands it to the backend, and the call ends with the identifier under which the second daemon
    announced it to its own interfaces; that answer marks the message as acknowledged.  The second interface,
    in its process and with the conversation with the first's address open, lists the same text under
    the same identifier with the time it was sent, and when its screen is ready the text is drawn. *)
Theorem message_shown (rA rB : registry) svcA svcB hA hB busA busB n pc env now B a b text p1 p2 :
  let peer := ch_Address (a_chat a) in let id := generateID (tk_rand env) in
  Services.Get rA NodeService = Some svcA -> Services.Get rB NodeService = Some svcB -> AsChat (Some svcB) = true ->
  genuine (s_Identity svcA) -> genuine (s_Identity svcB) -> ConnectionInfo n peer = Some pc ->
  marshal (mkChatText id text) = Some p1 -> marshal (mkChatAck id) = Some p2 ->
  usable utf8 B peer -> utf8 text = text -> utf8 id = id ->
  a_screen a = ScreenChat -> TrimSpace (tf_Value (ch_input (a_chat a))) = text -> text <> ""%string ->
  a_screen b = ScreenChat -> ch_Address (a_chat b) = DeriveAddress (kp_pub (s_Identity svcA)) -> chat_ok (a_chat b) ->
  exists a1 a2 a3 b1 out sA' sB' inc,
    update now a (KeyMsg "enter") = Some (a1, CmdEmit (ChatSendMsg peer text)) /\
    update now a1 (ChatSendMsg peer text) = Some (a2, CmdSendChat peer text) /\
    talk n (daemon_chat (Some rA) hA busA) (daemon_chat (Some rB) hB busB) env peer text = Some (Ok out, sA', sB') /\
    be_SendMessage B (chatting n (daemon_chat (Some rA) hA busA) (daemon_chat (Some rB) hB busB) env) peer text = Ok id /\
    update now a2 (chatSentMsg (Ok id)) = Some (a3, CmdNone) /\ messages a3 = messages a ++ [acked id (mine now text)] /\
    ch_bus sB' = Publish busB (mkEvent EventChatMessage inc) /\
    update now b (incoming inc) = Some (b1, CmdWait (a_eventChan b)) /\
    messages b1 = messages b ++ [mkChatMessage id text false (GoTime.of_UnixMilli (tk_now env)) true] /\
    (ch_ready (a_chat b) = true -> forall (G : Lipgloss) zone, shows (RenderMessages zone (ch_viewport (a_chat b1))) text).
Proof.
  cbn zeta. intros HA HB Hchat HgA HgB Hpc Hm1 Hm2 Hus Ht Hid Hsa Htext Hne Hsb Hfrom Hok.
  destruct (talk_ends rA rB svcA svcB hA hB busA busB n pc env _ text p1 p2 HA HB Hchat HgA HgB Hpc Hm1 Hm2)
    as (out & sA' & sB' & inc & Htalk & Hout & Hbus & Hinc).
  destruct (send_text ReadDir UserHomeDir now a text Hsa Htext Hne) as (a1 & Hu1 & _ & Hms1 & _).
  destruct (add_text ReadDir UserHomeDir now a1 (ch_Address (a_chat a)) text) as (a2 & Hu2 & Hms2 & _). rewrite Hms1 in Hms2.
  destruct (acknowledge ReadDir UserHomeDir now a2 _ (mine now text) (generateID (tk_rand env)) Hms2) as (a3 & Hu3 & Hms3); [done..|].
  destruct (incoming_shown ReadDir UserHomeDir now b inc) as (b1 & Hub & Hmb & Hokb & Hready).
  rewrite bool_decide_eq_true_2 in Hmb by (by rewrite Hinc). rewrite Hinc in Hmb. cbn [msg_ID msg_Text msg_SentAt] in Hmb.
  exists a1, a2, a3, b1, out, sA', sB', inc. do 3 (split; [done|]). split.
  { rewrite <- Hout in *. by apply (sent_id B n _ _ env _ text out sA' sB'). }
  do 5 (split; [done|]). intros Hr G zone. specialize (Hokb Hok). unfold chat_ok in Hokb. rewrite Hready, Hr in Hokb.
  rewrite Hokb. change (ch_Messages (a_chat b1)) with (messages b1). rewrite Hmb. apply last_message_shown.
Qed.
End claims.

Section samples.
Import Toy.
#[local] Existing Instances typewriter typewriter_ok.

(** A registry with the node service alone, and a node connected to Bob. *)
Definition registry_of (svc : Service) : Registry (K := unit) (E := unit) (D := unit) (H := unit) :=
  mkRegistry tt tt None tt {[ NodeService := svc ]} ∅ None None.

Definition bob : string := DeriveAddress (kp_pub (sample_keypair 2)).
Definition bob_connected : PeerConnection := mkPC bob StateConnected StrategyDirect 0 "12D3Bob" [] 0.

Definition ada_node : DaemonNode := set_connector sample_daemon (Connector.set_peers (NewConnector true 0 0) {[ bob := bob_connected ]}).

Definition ada_screen : App string :=
  set_screen (set_chat NewApp (mkChatScreen bob "Bob" [] " hello "%string [] 80 23 true)) ScreenChat.
Definition bob_screen : App string :=
  set_screen (set_chat NewApp (mkChatScreen (DeriveAddress (kp_pub (sample_keypair 1))) "Ada" [] "" [] 80 23 true)) ScreenChat.

(** Ada says hello to Bob. *)
Lemma message_shown_witness : exists a1 a2 a3 b1 inc,
  App.Update no_dir None 7 ada_screen (KeyMsg "enter") = Some (a1, CmdEmit (ChatSendMsg bob "hello")) /\
  App.Update no_dir None 7 a1 (ChatSendMsg bob "hello") = Some (a2, CmdSendChat bob "hello") /\
  App.Update no_dir None 7 a2 (chatSentMsg (Ok (generateID None))) = Some (a3, CmdNone) /\
  messages a3 = [acked (generateID None) (mine 7 "hello")] /\
  App.Update no_dir None 7 bob_screen (incoming inc) = Some (b1, CmdWait false) /\
  messages b1 = [mkChatMessage (generateID None) "hello" false 7000000 true].
Proof.
  destruct (message_shown no_dir None id (registry_of (chat_service_of 1 NodeService)) (registry_of (chat_service_of 2 NodeService))
    (chat_service_of 1 NodeService) (chat_service_of 2 NodeService) History.New History.New NewEventBus NewEventBus
    ada_node bob_connected (mkTalk None 7 9 8 8) 7 (DirectBackend id) ada_screen bob_screen "hello" text_payload ack_payload)
    as (a1 & a2 & a3 & b1 & out & sA' & sB' & inc & Hu1 & Hu2 & _ & _ & Hu3 & Hm3 & _ & Hub & Hmb & _).
  - apply lookup_singleton_eq.
  - apply lookup_singleton_eq.
  - reflexivity.
  - apply sample_keypair_genuine.
  - apply sample_keypair_genuine.
  - apply lookup_singleton_eq.
  - apply text_marshals.
  - apply ack_marshals.
  - by left.
  - reflexivity.
  - reflexivity.
  - reflexivity.
  - vm_compute. reflexivity.
  - discriminate.
  - reflexivity.
  - reflexivity.
  - reflexivity.
  - exists a1, a2, a3, b1, inc. split; [exact Hu1|]. split; [exact Hu2|]. split; [exact Hu3|]. split; [exact Hm3|]. split; [exact Hub|exact Hmb].
Defined.
End samples.
