(* ===== verification/Delivery.v ===== *)
(** * A file from one screen to the other

    [OfferFile] and the receiver's stream handler against each other, from the offer to the file on
    the receiver's disk, and around them the two interfaces: the file is chosen in the one,
    accepted in the other, and shown as complete in the first. *)

From S2P Require Import Contacts Prelude GoStd Sha256 Crypto Protocol Instances Identity Wire IPExchange Merkle Services Signaling Session Routing Dht Events Chunker Keystore FilePath Connector Peers Presence Tor Discovery Pending Sender Receiver Transfer ApiEvents Node Api Backend Screens Views App AppSpec Conversation Daemon.
Local Open Scope go_scope.

(** ** One offer over a reliable stream *)

(** Every file that is not empty and below a petabyte or so has a chunker and a tree. *)
Lemma NewChunker_total fs path content : fs !! path = Some (File content) -> 0 < Z.of_nat (length content) <= 2 ^ 50 - 2 ^ 18 ->
  exists c, NewChunker fs path = Ok c /\ chunker_ok fs c content.
Proof.
  intros Hf Hl. destruct (NewChunker fs path) as [c|e] eqn:Hc.
  - exists c. split; [done|]. apply (NewChunkerWithSize_ok fs path DefaultChunkSize c content Hf); [lia|done| |exact Hc].
    apply Z.div_lt_upper_bound; unfold DefaultChunkSize; lia.
  - exfalso. revert Hc. unfold NewChunker, NewChunkerWithSize. rewrite Hf. change (DefaultChunkSize <=? 0) with false.
    destruct (Z.eqb_spec (Z.of_nat (length content)) 0); [lia|done].
Qed.

Lemma prepare_total fs path content : fs !! path = Some (File content) -> 0 < Z.of_nat (length content) <= 2 ^ 50 - 2 ^ 18 ->
  exists c t, prepare fs path = Ok (c, t).
Proof.
  intros Hf Hl. destruct (NewChunker_total fs path content Hf Hl) as (c & Hc & Hok). exists c. unfold prepare. rewrite Hc.
  rewrite (AllChunkHashes_spec fs c content Hok). pose proof (chunker_total_pos fs c content Hok) as Hn. cbn zeta in Hn.
  destruct (Z.to_nat (ck_total c)) as [|m]; [lia|]. rewrite seq_S, fmap_app. unfold BuildMerkleTree. cbn [fmap list_fmap].
  rewrite last_snoc. by eexists.
Qed.

Section offer.
Context `{ProtoOk FileChunk, ProtoOk FileChunkAck, Proto FileComplete, ProtoOk PbFileOffer, Proto FileAccept, Proto FileReject,
  Ed25519Ok, Ripemd160, Base58}.

(** The sender's clock at the offer and at each later write, and the receiver's. *)
Record stream_times := mkTimes { st_offer : Z; st_sent : nat -> Z; st_accept : Z; st_acked : nat -> Z }.

(** What is offered: the sender's keys, its file system, the path, the chunker and the tree made of it, and
    the identifier. *)
Record offering := mkOffering {
  og_from : Service; og_to : Service; og_fs : filesystem; og_path : string; og_chunker : Chunker; og_tree : MerkleTree;
  og_content : bytes; og_id : string; og_peer : string; og_times : stream_times }.

Context (o : offering).
Let kpA := s_Identity (og_from o).
Let kpB := s_Identity (og_to o).
Let n := Z.to_nat (TotalChunks (og_chunker o)).

(** The transfer as the sender enters it, and as the receiver does. *)
Definition offered : Transfer :=
  Sender.mkTransfer (og_id o) (Base (og_path o)) (ck_fileSize (og_chunker o)) (ck_chunkSize (og_chunker o)) (TotalChunks (og_chunker o))
    (Root (og_tree o)) (og_peer o) "send" 0 false false.
Definition incoming_transfer : Transfer := transfer_of (offer_of offered) (DeriveAddress (kp_pub kpA)).

Definition offer_env_of : Envelope := WrapMessage FILE_OFFER (marshal_or_nil (offer_of offered)) kpA (st_offer (og_times o)).
Definition accept_env : Envelope := WrapMessage FILE_ACCEPT (marshal_or_nil (mkFileAccept (og_id o))) kpB (st_accept (og_times o)).
Definition chunk_envs : list Envelope :=
  chunk_env (og_chunker o) (og_tree o) kpA (st_sent (og_times o)) offered (og_content o) <$> seq 0 n.
Definition ack_envs : list Envelope := ack_env kpB (st_acked (og_times o)) offered <$> seq 0 n.
Definition done_env : Envelope := complete_env (og_chunker o) kpA (st_sent (og_times o)) offered.

(** What each end reads is what the other writes. *)
Definition sender_world : offer_env :=
  mkOfferEnv (og_id o) true (Some (st_offer (og_times o))) (Some accept_env) false false (fun m => Some (st_sent (og_times o) m))
    ((fun e => (Some e, false)) <$> ack_envs).
Definition receiver_world (decide : Receiver -> Receiver) : incoming_env :=
  mkIncoming (Some offer_env_of) decide false (Some (st_accept (og_times o))) (Some <$> (chunk_envs ++ [done_env]))
    (fun m => Some (st_acked (og_times o) m)) good_disk.

(** The offer as it is parked and published. *)
Definition parked : FileOffer :=
  mkFileOffer (og_id o) (Base (og_path o)) (u64 (ck_fileSize (og_chunker o))) (Root (og_tree o)) (u32 (ck_chunkSize (og_chunker o)))
    (TotalChunks (og_chunker o)) (DeriveAddress (kp_pub kpA)) (Chan.make 1).

(** The offered file is there and its chunks can be counted ([prepare_total]: then there are a chunker and a
    tree), and protobuf encodes the messages. *)
Record offerable : Prop := {
  ob_file : og_fs o !! og_path o = Some (File (og_content o));
  ob_prepared : prepare (og_fs o) (og_path o) = Ok (og_chunker o, og_tree o);
  ob_size : 0 < Z.of_nat (length (og_content o)) <= 2 ^ 50 - 2 ^ 18;
  ob_offer : is_Some (marshal (offer_of offered));
  ob_encodable : encodable (og_chunker o) (og_tree o) offered (og_content o);
  ob_genuine : genuine kpA
}.

Lemma ob_chunker : offerable -> chunker_ok (og_fs o) (og_chunker o) (og_content o).
Proof.
  intros Ho. destruct (NewChunker_total _ _ _ (ob_file Ho) (ob_size Ho)) as (c & Hc & Hok).
  pose proof (ob_prepared Ho) as Hp. unfold prepare in Hp. rewrite Hc in Hp. destruct (AllChunkHashes _ _); [|done].
  destruct (BuildMerkleTree _); [|done]. by injection Hp as <- _.
Qed.

Lemma offerable_tree : offerable ->
  exists hs, AllChunkHashes (og_fs o) (og_chunker o) = Ok hs /\ BuildMerkleTree hs = Ok (og_tree o).
Proof.
  intros Ho. pose proof (ob_prepared Ho) as Hp. unfold prepare in Hp.
  destruct (NewChunker _ _) as [c|]; [|done]. destruct (AllChunkHashes (og_fs o) c) as [hs|] eqn:Hh; [|done].
  destruct (BuildMerkleTree hs) as [t|] eqn:Ht; [|done]. injection Hp as -> ->. by exists hs.
Qed.

(** The sender: it writes the offer, the chunks and the completion, and the transfer succeeds. *)
Lemma OfferFile_honest s : offerable -> resolveService (sn_lookup s) (sn_serviceName s) = Ok (og_from o) ->
  sn_resolver s (og_peer o) = true -> exists x s',
  OfferFile (og_fs o) s (og_peer o) (og_path o) sender_world = (Ok x, s', offer_env_of :: chunk_envs ++ [done_env]) /\ x_ID x = og_id o.
Proof.
  intros Ho Hs Hpeer. unfold OfferFile, sender_world. rewrite Hs, Hpeer, (ob_prepared Ho).
  cbn [negb oe_stream_ok oe_transferID oe_offer_ts oe_cancelled_first oe_response oe_writes oe_ctxDone oe_reads].
  change (Sender.mkTransfer _ _ _ _ _ _ _ _ _ _ _) with offered. destruct (ob_offer Ho) as [p Hp]. rewrite Hp.
  cbn [oe_offer_ts oe_cancelled_first oe_response]. change (env_Type accept_env =? FILE_REJECT) with false.
  change (env_Type accept_env =? FILE_ACCEPT) with true. cbn [negb oe_writes oe_ctxDone oe_reads].
  pose proof (sendChunks_honest (og_fs o) (og_chunker o) (og_tree o) kpA kpB (sn_onProgress s) (st_sent (og_times o))
    (st_acked (og_times o)) offered (og_content o) (ob_chunker Ho) (offerable_tree Ho) (ob_encodable Ho) eq_refl) as Hsend.
  assert ((fun e => (Some e, false)) <$> ack_envs =
    (fun i => (Some (ack_env kpB (st_acked (og_times o)) offered i), false)) <$> seq 0 n) as Hreads
    by (unfold ack_envs; by rewrite <- list_fmap_compose).
  rewrite Hreads. change (sn_onProgress (put_transfer s (og_id o) offered)) with (sn_onProgress s). fold kpA. fold n in Hsend.
  rewrite Hsend.
  eexists _, _. split; [unfold offer_env_of, marshal_or_nil; rewrite Hp; reflexivity|reflexivity].
Qed.

(** The receiver's checks on the offer, and what it does when the user accepts. *)
Lemma offer_admitted r : offerable -> Receiver_resolveService r = Ok (og_to o) -> AsFile (Some (og_to o)) = true ->
  admit_offer r (Some offer_env_of) = Some (og_to o, offer_of offered, parked).
Proof.
  intros Ho Hr Hfile. destruct (ob_offer Ho) as [p Hp]. unfold admit_offer, offer_env_of, marshal_or_nil. rewrite Hp.
  cbn [default]. rewrite (VerifyEnvelope_WrapMessage _ _ _ _ (ob_genuine Ho)), Hr, Hfile.
  unfold WrapMessage. cbn [env_Type env_Payload env_PubKey negb].
  change (FILE_OFFER =? FILE_OFFER) with true. cbn [negb]. change (id p) with p. by rewrite (unmarshal_marshal _ _ Hp).
Qed.

(** The decision of the user reaches the handler that waits for it. *)
Lemma decision_reaches r id d : of_TransferID parked = id ->
  let '(p, r1) := park r parked in
  exists r2, decide_offer r1 id d = (Returns (Ok tt), r2) /\
    let '(d', r3) := await_decision r2 p id false in
    d' = d /\ rv_saveDir r3 = rv_saveDir r /\ rv_onProgress r3 = rv_onProgress r /\
    rv_published r3 = rv_published r ++ [length (rv_offers r)] /\
    of_Decision <$> rv_offers r3 !! length (rv_offers r) = Some (Chan.make 1) /\
    rv_pending r3 !! id = None.
Proof.
  intros Hid. unfold park, decide_offer. cbn [rv_pending rv_offers]. rewrite Hid, lookup_insert_eq.
  rewrite lookup_app_r, Nat.sub_diag by lia. cbn. eexists. split; [reflexivity|].
  unfold await_decision. cbn [set_offers rv_offers rv_pending rv_saveDir rv_onProgress rv_published].
  rewrite list_lookup_insert_eq by (rewrite length_app; cbn; lia). cbn.
  rewrite list_insert_insert_eq, list_lookup_insert_eq by (rewrite length_app; cbn; lia).
  rewrite lookup_delete_eq. done.
Qed.

(** The receiver whose user accepts with the default directory: it answers the offer and acknowledges
    every chunk, and the file is in its directory. *)
Lemma handleIncoming_honest r fs : offerable -> Receiver_resolveService r = Ok (og_to o) -> AsFile (Some (og_to o)) = true ->
  let target := Join (rv_saveDir r) (Base (og_path o)) in fs !! target <> Some Dir ->
  exists r' fs',
    handleIncoming (receiver_world (fun r => (AcceptFile r (og_id o) "").2)) r fs = (r', fs', accept_env :: ack_envs) /\
    fs' !! target = Some (File (og_content o)) /\ (forall p, p <> target -> fs' !! p = fs !! p) /\
    rv_published r' = rv_published r ++ [length (rv_offers r)] /\ rv_pending r' !! og_id o = None.
Proof.
  intros Ho Hr Hfile target Hdir.
  pose proof (decision_reaches r (og_id o) (mkDecision true "" "") eq_refl) as Hdec.
  unfold handleIncoming. change (ie_first (receiver_world _)) with (Some offer_env_of).
  rewrite (offer_admitted r Ho Hr Hfile). destruct (park r parked) as [p r1].
  destruct Hdec as (r2 & Hacc & Hwait). change (fo_TransferId (offer_of offered)) with (og_id o).
  cbn [receiver_world ie_meanwhile ie_timeout]. unfold AcceptFile. rewrite Hacc. cbn [snd].
  destruct (await_decision r2 p (og_id o) false) as [d r3]. destruct Hwait as (-> & Hsave & Hprog & Hpub & _ & Hpend).
  cbn [fd_Accept negb ie_reply_ts fd_SavePath receiver_world ie_writes ie_disk ie_reads].
  change (bool_decide (""%string = ""%string)) with true. cbv iota.
  change (of_FromAddr parked) with (DeriveAddress (kp_pub kpA)). fold incoming_transfer.
  assert (Some <$> (chunk_envs ++ [done_env]) =
    ((fun i => Some (chunk_env (og_chunker o) (og_tree o) kpA (st_sent (og_times o)) offered (og_content o) i)) <$> seq 0 n)
      ++ [Some done_env]) as -> by (rewrite fmap_app; unfold chunk_envs; by rewrite <- list_fmap_compose).
  change (rv_saveDir (store_transfer r3 (og_id o) incoming_transfer)) with (rv_saveDir r3).
  change (rv_onProgress (store_transfer r3 (og_id o) incoming_transfer)) with (rv_onProgress r3). rewrite Hsave, Hprog.
  destruct (receiveChunks_honest (og_fs o) (og_chunker o) (og_tree o) kpA kpB (rv_onProgress r) (st_sent (og_times o))
    (st_acked (og_times o)) (rv_saveDir r) offered incoming_transfer (og_content o) (ob_chunker Ho) (offerable_tree Ho) eq_refl eq_refl
    eq_refl (ob_encodable Ho) eq_refl fs Hdir) as (fs' & Hrecv & Hfs & Hframe).
  fold n in Hrecv. fold kpB. unfold done_env. rewrite Hrecv. eexists _, fs'. split; [reflexivity|]. split; [exact Hfs|].
  split; [exact Hframe|]. split; [exact Hpub|exact Hpend].
Qed.

(** ** The offer refused *)

Definition reject_env : Envelope :=
  WrapMessage FILE_REJECT (marshal_or_nil (mkFileReject (og_id o) "rejected by user")) kpB (st_accept (og_times o)).

Definition refused_sender : offer_env :=
  mkOfferEnv (og_id o) true (Some (st_offer (og_times o))) (Some reject_env) false false (fun m => Some (st_sent (og_times o) m)) [].
Definition refusing_receiver : incoming_env :=
  mkIncoming (Some offer_env_of) (fun r => (RejectFile r (og_id o) "rejected by user").2) false (Some (st_accept (og_times o))) []
    (fun m => Some (st_acked (og_times o) m)) good_disk.

Lemma OfferFile_refused s : offerable -> resolveService (sn_lookup s) (sn_serviceName s) = Ok (og_from o) ->
  sn_resolver s (og_peer o) = true -> exists s',
  OfferFile (og_fs o) s (og_peer o) (og_path o) refused_sender = (Err ErrRejectedByPeer, s', [offer_env_of]) /\
  x_cancelled <$> sn_transfers s' !! og_id o = Some true.
Proof.
  intros Ho Hs Hpeer. unfold OfferFile, refused_sender. rewrite Hs, Hpeer, (ob_prepared Ho).
  cbn [negb oe_stream_ok oe_transferID oe_offer_ts oe_cancelled_first oe_response oe_writes oe_ctxDone oe_reads].
  change (Sender.mkTransfer _ _ _ _ _ _ _ _ _ _ _) with offered. destruct (ob_offer Ho) as [p Hp]. rewrite Hp.
  cbn [oe_offer_ts oe_cancelled_first oe_response]. change (env_Type reject_env =? FILE_REJECT) with true.
  eexists. split; [unfold offer_env_of, marshal_or_nil; rewrite Hp; reflexivity|].
  cbn [put_transfer sn_transfers]. rewrite lookup_insert_eq. done.
Qed.

Lemma handleIncoming_refused r fs : offerable -> Receiver_resolveService r = Ok (og_to o) -> AsFile (Some (og_to o)) = true ->
  exists r', Receiver.handleIncoming refusing_receiver r fs = (r', fs, [reject_env]).
Proof.
  intros Ho Hr Hfile. pose proof (decision_reaches r (og_id o) (mkDecision false "" "rejected by user") eq_refl) as Hdec.
  unfold Receiver.handleIncoming. change (ie_first refusing_receiver) with (Some offer_env_of).
  rewrite (offer_admitted r Ho Hr Hfile). destruct (park r parked) as [p r1].
  destruct Hdec as (r2 & Hrej & Hwait). change (fo_TransferId (offer_of offered)) with (og_id o).
  cbn [refusing_receiver ie_meanwhile ie_timeout]. unfold RejectFile. rewrite Hrej. cbn [snd].
  destruct (await_decision r2 p (og_id o) false) as [d r3]. destruct Hwait as (-> & _). by eexists.
Qed.
End offer.

(** ** daemon.go: the file transfer of a daemon *)

Section adapters.
Context {K E D H : Type}.

(** src: internal/daemon/daemon.go 124-125 Daemon.Start *)
Definition daemon_sender (n : DaemonNode) (registryPtr : option (Registry (K := K) (E := E) (D := D) (H := H))) : Sender :=
  NewSender (fun addr => match nodeResolver_GetPeer n addr with Some _ => true | None => false end)
    (Some (daemonServiceLookup_Get registryPtr)) NodeService.

(** src: internal/daemon/daemon.go 123-126 Daemon.Start *)
Definition daemon_receiver (cfg : Config) (registryPtr : option (Registry (K := K) (E := E) (D := D) (H := H))) : Receiver :=
  NewReceiver (Join (DataDir cfg) "received") (Some (daemonServiceLookup_Get registryPtr)) NodeService.
End adapters.

(** src: internal/daemon/daemon.go 131-137 Daemon.Start *)
Definition daemon_send_file (OfferFile : string -> string -> result send_err Transfer) (peerAddr filePath : string) : option string :=
  match OfferFile peerAddr filePath with Ok xfer => Some (x_ID xfer) | Err _ => None end.

(** A call that blocks is an error here; [decision_reaches] says that the first one does not. *)
(** src: internal/daemon/daemon.go 138-140 Daemon.Start *)
Definition daemon_accept_file (AcceptFile : string -> string -> outcome recv_err unit) (transferID savePath : string) : bool :=
  match AcceptFile transferID savePath with Returns (Ok _) => true | _ => false end.

(** src: internal/daemon/daemon.go 141-143 Daemon.Start *)
Definition daemon_reject_file (RejectFile : string -> string -> outcome recv_err unit) (transferID reason : string) : bool :=
  match RejectFile transferID reason with Returns (Ok _) => true | _ => false end.

(** The node of a daemon whose [OfferFile] is given, and of one whose receiver is [r]. *)
Definition sending `{Proto DHTFindNode, Proto DHTNodeResponse, Proto DHTPutRecord, Base58} (n : DaemonNode)
    (OfferFile : string -> string -> result send_err Transfer) : DaemonNode :=
  SetSendFile n (daemon_send_file OfferFile).
Definition deciding `{Proto DHTFindNode, Proto DHTNodeResponse, Proto DHTPutRecord, Base58} (n : DaemonNode) (r : Receiver) : DaemonNode :=
  SetRejectFile (SetAcceptFile n (daemon_accept_file (fun id savePath => (AcceptFile r id savePath).1)))
    (daemon_reject_file (fun id reason => (RejectFile r id reason).1)).

(** ** The interfaces *)

Section screens.
Context {W : Type} `{TextField W}.
Context (ReadDir : string -> option (list dir_entry)) (UserHomeDir : option string).
Implicit Types (a b : App W).

Abbreviation update := (App.Update ReadDir UserHomeDir).

Definition items (a : App W) : list TransferItem := tr_Items (a_transfer a).

(** A transfer of ours that has not ended well. *)
Definition unfinished (i : TransferItem) : bool := bool_decide (ti_Direction i = "send"%string) && negb (ti_Complete i).

(** The row of a file to send, and the row of a file that was sent. *)
Definition pending_item (path peer : string) : TransferItem := Screens.mkTransfer "" (Base path) "send" peer 0 "" "" false None.
Definition sent_item (id path peer : string) : TransferItem := Screens.mkTransfer id (Base path) "send" peer 100 "" "" true None.
Definition failed_item (e : option backend_err) (path peer : string) : TransferItem :=
  Screens.mkTransfer "" (Base path) "send" peer 0 "" "" false (Some e).

(** Enter on a file of the picker. *)
Lemma choose_file now a e : a_screen a = ScreenFilePicker ->
  at_index (fk_Entries (a_filePicker a)) (fk_Cursor (a_filePicker a)) = Some e -> fe_IsDir e = false ->
  let path := Join (fk_Dir (a_filePicker a)) (fe_Name e) in let peer := fk_PeerAddress (a_filePicker a) in
  exists a1 a2, update now a (KeyMsg "enter") = Some (a1, CmdEmit (FileSelectedMsg path peer)) /\
    update now a1 (FileSelectedMsg path peer) = Some (a2, CmdSendFile peer path) /\
    items a2 = items a ++ [pending_item path peer] /\ a_screen a2 = ScreenTransfer.
Proof.
  intros Hs He Hdir path peer. assert (update now a (KeyMsg "enter") = delegate_key ReadDir a (KeyMsg "enter")) as ->.
  { cbn [Update]. unfold handleKey. rewrite Hs. unfold global_key. rewrite Hs. reflexivity. }
  unfold delegate_key. rewrite Hs. cbn [FilePicker_Update].
  change (is_key "enter" ["up"; "k"]%string) with false. change (is_key "enter" ["down"; "j"]%string) with false.
  change (is_key "enter" ["enter"%string]) with true. cbv iota.
  destruct (fk_Entries (a_filePicker a)) as [|e0 es] eqn:Hes; [unfold at_index in He; by destruct (_ <? 0)|].
  rewrite He. cbn [mbind option_bind]. rewrite Hdir. eexists _, _. split; [reflexivity|]. split; [reflexivity|]. done.
Qed.

(** The result of a transfer finds its row when the earlier ones have ended. *)
Definition ended_item (r : result (option backend_err) string) (path peer : string) : TransferItem :=
  match r with Ok id => sent_item id path peer | Err e => failed_item e path peer end.

Lemma finish_last r l path peer : Forall (fun i => unfinished i = false) l ->
  finish_transfer r (l ++ [pending_item path peer]) = l ++ [ended_item r path peer].
Proof.
  induction 1 as [|i l Hi _ IH]; [by destruct r|]. cbn [app finish_transfer]. unfold unfinished in Hi. rewrite Hi, IH. by destruct r.
Qed.

Lemma file_ended now a r l path peer : items a = l ++ [pending_item path peer] -> Forall (fun i => unfinished i = false) l ->
  exists a', update now a (fileSendDoneMsg r) = Some (a', CmdNone) /\ items a' = l ++ [ended_item r path peer].
Proof.
  intros Hi Hl. eexists. split; [reflexivity|]. unfold items in *. cbn. rewrite Hi. by apply finish_last.
Qed.

(** The offer is put to the user; after the answer the screen is the one before. *)
Lemma answer_offer now b (fo : FileOffer) : let id := of_TransferID fo in exists b1 b2,
  update now b (eventMsg (mkEvent EventFileOffer (PFileOffer fo))) = Some (b1, CmdWait (a_eventChan b)) /\
  a_screen b1 = ScreenFileOffer /\
  (update now b1 (KeyMsg "y") = Some (b1, CmdEmit (FileAcceptedMsg id)) /\ update now b1 (FileAcceptedMsg id) = Some (b1, CmdAcceptFile id)) /\
  (update now b1 (KeyMsg "n") = Some (b1, CmdEmit (FileRejectedMsg id)) /\ update now b1 (FileRejectedMsg id) = Some (b1, CmdRejectFile id)) /\
  update now b1 (fileDecisionDoneMsg None) = Some (b2, CmdNone) /\ a_screen b2 = a_screen b.
Proof. intros id. destruct b. eexists _, _. split; [reflexivity|]. split; [reflexivity|]. repeat split; reflexivity. Qed.
End screens.

(** ** From one screen to the other's disk *)

Section claims.
Context {K E D H : Type}.
Context `{ProtoOk FileChunk, ProtoOk FileChunkAck, Proto FileComplete, ProtoOk PbFileOffer, Proto FileAccept, Proto FileReject,
  Ed25519Ok, Ripemd160, Base58} `{Proto DHTFindNode, Proto DHTNodeResponse, Proto DHTPutRecord}.
Context {W : Type} `{TextField W}.
Context (ReadDir : string -> option (list dir_entry)) (UserHomeDir : option string) (utf8 : string -> string).
Implicit Types (a b : App W) (n : DaemonNode).

Abbreviation update := (App.Update ReadDir UserHomeDir).
Abbreviation registry := (Registry (K := K) (E := E) (D := D) (H := H)).

(** The command of the sender's interface over its daemon, whatever [OfferFile] does. *)
Definition done_with (r : result send_err Transfer) : Msg :=
  fileSendDoneMsg (match r with Ok x => Ok (x_ID x) | Err _ => Err (Some (BackendNode ErrInjected)) end).

Lemma send_command n offer cenv path peer :
  run_command (DirectBackend utf8) cenv (sending n offer) (CmdSendFile peer path) = Some (Some (done_with (offer peer path)), sending n offer).
Proof.
  cbn [run_command be_SendFile DirectBackend]. unfold direct_SendFile, node_SendFile, sending. cbn [SetSendFile n_sendFile].
  unfold daemon_send_file, done_with. by destruct (offer peer path).
Qed.

(** The sender of a daemon with its service registered and the peer connected. *)
Lemma daemon_sender_ready o (rA : registry) n pc : Services.Get rA NodeService = Some (og_from o) -> ConnectionInfo n (og_peer o) = Some pc ->
  let s := daemon_sender n (Some rA) in
  resolveService (sn_lookup s) (sn_serviceName s) = Ok (og_from o) /\ sn_resolver s (og_peer o) = true.
Proof.
  intros HA Hpc. cbn zeta. cbn [daemon_sender NewSender sn_lookup sn_serviceName sn_resolver].
  unfold resolveService, nodeResolver_GetPeer. cbn [daemonServiceLookup_Get]. by rewrite HA, Hpc.
Qed.

(** The commands of the receiver's interface over its daemon, with the offer parked. *)
Lemma decision_commands o n r cenv : let r1 := (park r (parked o)).2 in
  run_command (DirectBackend utf8) cenv (deciding n r1) (CmdAcceptFile (og_id o)) = Some (Some (fileDecisionDoneMsg None), deciding n r1) /\
  run_command (DirectBackend utf8) cenv (deciding n r1) (CmdRejectFile (og_id o)) = Some (Some (fileDecisionDoneMsg None), deciding n r1).
Proof.
  intros r1. pose proof (decision_reaches o r (og_id o) (mkDecision true "" "") eq_refl) as Hacc.
  pose proof (decision_reaches o r (og_id o) (mkDecision false "" "rejected by user") eq_refl) as Hrej. unfold r1.
  destruct (park r (parked o)) as [p r1']. destruct Hacc as (r2 & Hacc & _), Hrej as (r3 & Hrej & _).
  cbn [run_command be_AcceptFile be_RejectFile DirectBackend]. unfold node_AcceptFile, node_RejectFile, deciding.
  cbn [SetAcceptFile SetRejectFile n_acceptFile n_rejectFile snd]. unfold daemon_accept_file, daemon_reject_file, AcceptFile, RejectFile.
  rewrite Hacc, Hrej. by split.
Qed.

End claims.

Section samples.
Import Toy.
#[local] Existing Instances typewriter typewriter_ok.

Definition file_service_of (n : Z) : Service :=
  mkService NodeService (DeriveAddress (kp_pub (sample_keypair n))) "x.onion" (sample_keypair n) (mkManifest "" ACLContacts [])
    (Some (mkHandlers true true false)).

Definition ada_disk : filesystem := {[ "/home/ada/f.bin"%string := File sample_content ]}.
Definition ada_prepared : Chunker * MerkleTree :=
  match prepare ada_disk "/home/ada/f.bin" with Ok p => p | Err _ => (mkChunker "" 0 0 0, mkTree [] [] 0) end.
Definition ada_offering : offering :=
  mkOffering (file_service_of 1) (file_service_of 2) ada_disk "/home/ada/f.bin" ada_prepared.1 ada_prepared.2 sample_content "t1" bob
    (mkTimes 7 (fun n => 8 + Z.of_nat n) 7 (fun n => 9 + Z.of_nat n)).

Lemma ada_offerable : offerable ada_offering.
Proof.
  constructor.
  - apply lookup_singleton_eq.
  - vm_compute. reflexivity.
  - vm_compute. split; [reflexivity|discriminate].
  - vm_compute. eexists. reflexivity.
  - intros i Hi. assert (i < 1)%nat as Hi' by (vm_compute in Hi; vm_compute; exact Hi).
    destruct i as [|]; [|lia]. split; vm_compute; eexists; reflexivity.
  - apply sample_keypair_genuine.
Qed.

Definition ada_picker : App string :=
  set_screen (set_filePicker NewApp (mkPicker bob "Bob" "/home/ada" [mkEntry ".." true 0; mkEntry "f.bin" false 5] 1 80 23 false))
    ScreenFilePicker.
Definition bob_home : App string := set_screen NewApp ScreenHome.

End samples.
