(* ===== verification/Startup.v ===== *)
(** * internal/daemon: what the wiring hands to the node

    The part of [wireSubsystems] that concerns discovery and the connector: the routing table of the
    last run, the first announcement, the progress of Tor, and what the node then has. *)

From S2P Require Import Contacts Prelude GoStd Sha256 Crypto Protocol Instances Identity Wire Handshake IPExchange Chunker FilePath Services Signaling Session Routing Dht Events Keystore Connector Peers Presence ApiAuth RegisterService Tor Pending Discovery ApiEvents Node Api Daemon.
Local Open Scope go_scope.

Section startup.
Context `{Proto DHTFindNode, Proto DHTNodeResponse, Proto DHTPutRecord, Ripemd160, Base58}.
Context (utf8 : string -> string).

(** src: internal/daemon/daemon.go 340-344 Daemon.wireSubsystems *)
Definition local_peer (kp : Keypair) (addr onionAddr : string) : PeerInfo :=
  mkPeer (NodeIDFromPublicKey (PublicKey kp)) addr onionAddr GoTime.zero 0.

(** The manager before the eviction: [file] is what is at the path of the table. *)
(** src: internal/daemon/daemon.go 333-351 Daemon.wireSubsystems *)
Definition make_discovery (cfg : Config) (kp : Keypair) (addr onionAddr : string) (file : file_state) : Manager :=
  let rt := (Load_ (NewRoutingTable (NodeIDFromPublicKey (PublicKey kp))) file).2 in
  let m := NewManager (Some (NewDHTDiscovery rt (local_peer kp addr onionAddr))) true file in
  let m := SetRTPath m (Join (DataDir cfg) "routing_table.json") in
  if 0 <? RTMaxAge cfg then SetRTMaxAge m (RTMaxAge cfg) else m.

(** Stale peers go at once; the table is saved when any did. *)
(** src: internal/daemon/daemon.go 333-359 Daemon.wireSubsystems *)
Definition start_discovery (cfg : Config) (kp : Keypair) (addr onionAddr : string) (file : file_state) (now : Z) (disk_ok : bool) : Manager :=
  let '(n, m) := EvictStale (make_discovery cfg kp addr onionAddr file) now in
  if (0 <? n)%nat
  then match mg_dht m with Some d => set_file m (Save utf8 (d_rt d) disk_ok (mg_file m)).2 | None => m end
  else m.

(** The announcement at startup, when there is anyone to announce to. *)
(** src: internal/daemon/daemon.go 440-451 Daemon.wireSubsystems *)
Definition startup_announce (m : Manager) (now : Z) (net : nat -> dialed) (disk_ok : bool) : Manager :=
  match mg_dht m with
  | None => m
  | Some d =>
      if (0 <? Size_ (d_rt d))%nat
      then let '(_, d) := Announce d now net in set_file (set_dht m d) (Save utf8 (d_rt d) disk_ok (mg_file m)).2
      else m
  end.

(** An event of the engine's progress, published. *)
(** src: internal/daemon/daemon.go 214-221 Daemon.startTor *)
Definition bridge_progress (n : DaemonNode) (evt : BootstrapEvent) : DaemonNode :=
  set_node_pending n (Publish (n_bus n) (mkEvent EventTorBootstrap (PBootstrap evt))) (n_pending n).

(** A change of a connection, published. *)
(** src: internal/daemon/daemon.go 463-468 Daemon.wireSubsystems *)
Definition publish_state (n : DaemonNode) (e : StateEvent) : DaemonNode :=
  set_node_pending n (Publish (n_bus n) (mkEvent EventConnectionState (PState e))) (n_pending n).

(** A peer that comes or goes, published. *)
(** src: internal/daemon/daemon.go 151-156 Daemon.Start *)
Definition publish_online (n : DaemonNode) (s : OnlineStatus) : DaemonNode :=
  set_node_pending n (Publish (n_bus n) (mkEvent EventPeerOnline (POnline s))) (n_pending n).

(** The node's connector; [host]: libp2p is there. *)
(** src: internal/daemon/daemon.go 457-471 Daemon.wireSubsystems *)
Definition node_connector (n : DaemonNode) (host : bool) : DaemonNode := if host then set_connector n (NewConnector true 0 0) else n.

(** What the node has in the end. *)
Definition wire_clients (n : DaemonNode) (m : Manager) (client : Client) (host : bool) : DaemonNode :=
  node_connector (SetSignaling (set_discovery n m) client) host.

(** ** The table after a restart *)

(** The age beyond which a peer is stale. *)
Definition max_age (cfg : Config) : Z := if 0 <? RTMaxAge cfg then RTMaxAge cfg else DefaultRTMaxAge.

(** A peer as it is saved. *)
Definition cleared (p : PeerInfo) : PeerInfo := mkPeer (p_ID p) (p_Address p) (p_OnionAddr p) (p_LastSeen p) 0.
Definition fresh (cfg : Config) (now : Z) (p : PeerInfo) : bool := negb (stale (max_age cfg) now p).

(** What the program can write and read back. *)
Definition writable (rt : RoutingTable) : Prop :=
  forall p, p ∈ AllPeers rt -> utf8 (p_Address p) = p_Address p /\ utf8 (p_OnionAddr p) = p_OnionAddr p.

Lemma max_age_pos cfg : 0 < max_age cfg.
Proof. unfold max_age. destruct (Z.ltb_spec 0 (RTMaxAge cfg)); [done|]. by vm_compute. Qed.

Definition loaded (key : bytes) (file : file_state) : RoutingTable := (Load_ (NewRoutingTable (NodeIDFromPublicKey key)) file).2.

Lemma start_discovery_spec cfg kp addr onion file now disk_ok :
  let rt := loaded (PublicKey kp) file in let rt' := (Evict rt (max_age cfg) now).2 in
  let m := start_discovery cfg kp addr onion file now disk_ok in
  mg_dht m = Some (NewDHTDiscovery rt' (local_peer kp addr onion)) /\
  mg_file m = if (0 <? (Evict rt (max_age cfg) now).1)%nat then (Save utf8 rt' disk_ok file).2 else file.
Proof.
  cbn zeta. unfold start_discovery, EvictStale. pose proof (max_age_pos cfg) as Hpos.
  set (m0 := make_discovery cfg kp addr onion file).
  assert (mg_dht m0 = Some (NewDHTDiscovery (loaded (PublicKey kp) file) (local_peer kp addr onion)) /\ mg_rtMaxAge m0 = max_age cfg /\
    mg_file m0 = file) as (-> & -> & Hf) by (unfold m0, make_discovery, max_age; by destruct (0 <? RTMaxAge cfg)).
  destruct (Z.leb_spec (max_age cfg) 0); [lia|]. cbn [d_rt NewDHTDiscovery].
  destruct (Evict (loaded _ _) (max_age cfg) now) as [n rt'] eqn:He. cbn [fst snd mg_dht set_dht].
  destruct (0 <? n)%nat; cbn [set_file mg_dht mg_file set_dht]; by rewrite Hf.
Qed.

Lemma AllPeers_evict cfg rt now : AllPeers (Evict rt (max_age cfg) now).2 = List.filter (fresh cfg now) (AllPeers rt).
Proof.
  unfold AllPeers, Evict. cbn [snd rt_buckets set_buckets]. unfold drop_peers. induction (rt_buckets rt) as [|b bs IH]; [done|].
  cbn [fmap list_fmap concat]. rewrite List.filter_app, <- IH. done.
Qed.

Lemma concat_permuted (f : PeerInfo -> PeerInfo) bs bs' : Forall2 (fun b b' => b' ≡ₚ f <$> b) bs bs' -> concat bs' ≡ₚ f <$> concat bs.
Proof. induction 1 as [|b b' bs bs' Hb _ IH]; [done|]. cbn [concat]. by rewrite fmap_app, Hb, IH. Qed.

(** What is loaded of a table that was saved: its peers, in a table in order. *)
Lemma loaded_saved kp rt ok file file' : rt_ok rt -> writable rt -> rt_local rt = NodeIDFromPublicKey (PublicKey kp) ->
  Save utf8 rt ok file = (true, file') ->
  let rt' := loaded (PublicKey kp) file' in rt_ok rt' /\ AllPeers rt' ≡ₚ cleared <$> AllPeers rt /\ rt_local rt' = rt_local rt.
Proof.
  intros Hok Hw Hl Hs. cbn zeta. pose proof (save_load_roundtrip utf8 rt ok file Hok Hw) as Hr. rewrite Hs in Hr.
  destruct Hr as (_ & _ & Hr). destruct (Hr eq_refl) as (rt' & Hload & Hlen & Hb). unfold loaded. rewrite <- Hl, Hload. cbn [snd].
  assert (Forall2 (fun b b' => b' ≡ₚ cleared <$> b) (rt_buckets rt) (rt_buckets rt')) as Hall.
  { apply Forall2_same_length_lookup. split; [by rewrite Hlen, (ro_buckets _ Hok)|]. intros i b b' Hi Hi'.
    destruct (Hb i b Hi) as (b2 & Hi2 & Hp). by replace b' with b2 by congruence. }
  assert (rt_local rt' = rt_local rt) as Hl'.
  { change (rt_local rt) with (rt_local (NewRoutingTable (rt_local rt))). apply (f_equal snd) in Hload. cbn [snd] in Hload. rewrite <- Hload.
    unfold Load_. destruct file' as [| | |ps]; [done..|]. cbn [snd]. generalize (NewRoutingTable (rt_local rt)).
    induction (sort_slice _ ps) as [|p l IH]; intros r; [done|]. cbn [fold_left]. rewrite IH. unfold load_peer. by repeat case_match. }
  split; [|split; [by apply concat_permuted|done]]. constructor; [rewrite Hl'; apply Hok|done|].
  intros i b' Hi'. destruct (Forall2_lookup_r _ _ _ _ _ Hall Hi') as (b & Hi & Hp). rewrite Hl'.
  destruct (ro_bucket _ Hok i b Hi) as (Hlb & Hnd & Hf).
  assert (p_ID <$> b' ≡ₚ p_ID <$> b) as Hids by (rewrite Hp, <- list_fmap_compose; done).
  unfold bucket_ok. by rewrite Hids.
Qed.

Lemma filter_cleared cfg now l : List.filter (fresh cfg now) (cleared <$> l) = cleared <$> List.filter (fresh cfg now) l.
Proof.
  induction l as [|p l IH]; [done|]. cbn [fmap list_fmap List.filter]. change (fresh cfg now (cleared p)) with (fresh cfg now p).
  destruct (fresh cfg now p); cbn [fmap list_fmap]; by rewrite IH.
Qed.

Lemma filter_filter_fresh cfg now l : List.filter (fresh cfg now) (List.filter (fresh cfg now) l) = List.filter (fresh cfg now) l.
Proof. induction l as [|p l IH]; [done|]. cbn [List.filter]. destruct (fresh cfg now p) eqn:Hp; [|done]. cbn [List.filter]. by rewrite Hp, IH. Qed.

Lemma cleared_twice (l : list PeerInfo) : cleared <$> (cleared <$> l) = cleared <$> l.
Proof. by rewrite <- list_fmap_compose. Qed.

#[local] Instance filter_permuted : Proper (eq ==> (≡ₚ) ==> (≡ₚ)) (@List.filter PeerInfo).
Proof.
  intros f ? <- l l' Hl. induction Hl as [|x l l' _ IH|x y l|l1 l2 l3 _ IH1 _ IH2]; cbn [List.filter]; [done| | |by etrans].
  - destruct (f x); [by constructor|done].
  - destruct (f x), (f y); done || constructor.
Qed.

Lemma no_stale cfg now l : (forall p, p ∈ l -> fresh cfg now p = true) -> List.filter (stale (max_age cfg) now) l = [].
Proof.
  induction l as [|p l IH]; intros Hl; [done|]. cbn [List.filter]. assert (fresh cfg now p = true) as Hp by (apply Hl; by left).
  unfold fresh in Hp. apply negb_true_iff in Hp. rewrite Hp. apply IH. intros q Hq. apply Hl. by right.
Qed.

(** The peers a start finds. *)
Lemma started_peers cfg kp addr onion rt ok file file' now disk_ok :
  rt_ok rt -> writable rt -> rt_local rt = NodeIDFromPublicKey (PublicKey kp) -> Save utf8 rt ok file = (true, file') ->
  ListPeers (start_discovery cfg kp addr onion file' now disk_ok) ≡ₚ cleared <$> List.filter (fresh cfg now) (AllPeers rt).
Proof.
  intros Hok Hw Hl Hs. destruct (loaded_saved kp rt ok file file' Hok Hw Hl Hs) as (_ & Hp & _).
  unfold ListPeers. destruct (start_discovery_spec cfg kp addr onion file' now disk_ok) as [-> _]. cbn [d_rt NewDHTDiscovery].
  rewrite AllPeers_evict, Hp. by rewrite filter_cleared.
Qed.

End startup.

Section samples.
Import Toy.

Definition ada_id : NodeID := NodeIDFromPublicKey (PublicKey (sample_keypair 1)).
Definition seen_peer (n : Z) (days : Z) : PeerInfo := mkPeer (Routing.sample_id n) "Ea1" "abc.onion" (t0 - days * 24 * GoTime.Hour) 2.

(** Two peers, one of them last seen ten days ago. *)
Definition ada_table : RoutingTable :=
  fold_left rt_apply [OpAdd (seen_peer 1 1) (Routing.sample_id 9) t0 t0; OpAdd (seen_peer 2 10) (Routing.sample_id 9) t0 t0] (NewRoutingTable ada_id).

Lemma ada_table_ok : rt_ok ada_table.
Proof.
  unfold ada_table. cbn [fold_left]. apply rt_apply_ok; [apply rt_apply_ok; [|done]|done]. apply NewRoutingTable_ok. vm_compute. reflexivity.
Qed.

End samples.
