(* ===== verification/Shutdown.v ===== *)
(** * internal/daemon: stopping

    The parts a started daemon has, the goroutine that wires the last of them once Tor is ready, and
    [Stop], which closes them one after the other while that goroutine and the clients go on.  Of
    transport/streams.go, the handlers of protocols. *)

From S2P Require Import Prelude GoStd Sha256 Crypto Protocol Instances Identity Wire Handshake IPExchange Chunker FilePath Services Signaling Session Routing Dht Events Keystore ApiAuth Tor Pending ApiEvents Node Api Wiring Daemon.
Local Open Scope go_scope.

(** ** The protocols of a host *)

(** src: internal/protocol/ids.go 5-5 ProtocolChat *)
Definition ProtocolChat : string := "/ensemble/chat/1.0.0".
(** src: internal/protocol/ids.go 6-6 ProtocolFileTransfer *)
Definition ProtocolFileTransfer : string := "/ensemble/filetransfer/1.0.0".
(** src: internal/protocol/ids.go 7-7 ProtocolPresence *)
Definition ProtocolPresence : string := "/ensemble/presence/1.0.0".

(** A context that can be cancelled: [None] while there is none, then whether it was cancelled. *)
Definition context := option bool.
Definition cancel (c : context) : context := (fun _ => true) <$> c.

(** The parts that depend on libp2p.  [pp_host]: [None] without a host, then whether it is closed;
    [pp_presence], [pp_files] and [pp_chat]: the field of the daemon is not nil. *)
(** src: internal/daemon/daemon.go 40-61 Daemon *)
Record p2p_parts := mkP2P {
  pp_host : option bool; pp_handlers : gset string; pp_presence : bool; pp_files : bool; pp_chat : bool;
  pp_pinger : context; pp_reconnect : context }.

(** src: internal/transport/streams.go 34-36 Host.SetStreamHandler *)
Definition SetStreamHandler (p : p2p_parts) (proto : string) : p2p_parts :=
  mkP2P (pp_host p) ({[proto]} ∪ pp_handlers p) (pp_presence p) (pp_files p) (pp_chat p) (pp_pinger p) (pp_reconnect p).
(** src: internal/transport/streams.go 39-41 Host.RemoveStreamHandler *)
Definition RemoveStreamHandler (p : p2p_parts) (proto : string) : p2p_parts :=
  mkP2P (pp_host p) (pp_handlers p ∖ {[proto]}) (pp_presence p) (pp_files p) (pp_chat p) (pp_pinger p) (pp_reconnect p).

(** Chat, file transfer and the pinger, when there is a host. *)
(** src: internal/daemon/daemon.go 92-158 Daemon.Start *)
Definition start_p2p (host : bool) : p2p_parts :=
  if negb host then mkP2P None ∅ false false false None None
  else
    let p := mkP2P (Some false) ∅ false true true None None in
    let p := SetStreamHandler (SetStreamHandler p ProtocolChat) ProtocolFileTransfer in
    let p := SetStreamHandler p ProtocolPresence in
    mkP2P (pp_host p) (pp_handlers p) true (pp_files p) (pp_chat p) (Some false) (pp_reconnect p).

Section shutdown.
Context {T : Type} `{TorProcess T} `{Ed25519, Ripemd160, Base58}.

(** Where the goroutine of [startTor] is, after Tor is ready: [wireSubsystems] assigns the signaling server
    and then the connector, with the reconnection. *)
Inductive wiring_at := Waiting | Registering | Registered | Signaled | Returned.

(** The daemon while it stops.  The gRPC server with the open streams of its clients and its listeners, with
    the sockets of the machine; Tor's context, engine and signaling server; and where the goroutine is. *)
(** src: internal/daemon/daemon.go 40-61 Daemon *)
Record parts := mkParts {
  pt_p2p : p2p_parts;
  pt_grpc : option bool;          (* None: no server; then whether it refuses new streams *)
  pt_streams : nat; pt_listeners : list listener; pt_sockets : sockets;
  pt_torCtx : context; pt_engine : option (Engine (T := T)); pt_signaling : option Signaling.Server;
  pt_wiring : wiring_at }.

Definition set_p2p (p : parts) (x : p2p_parts) : parts :=
  mkParts x (pt_grpc p) (pt_streams p) (pt_listeners p) (pt_sockets p) (pt_torCtx p) (pt_engine p) (pt_signaling p) (pt_wiring p).
Definition set_streams (p : parts) (n : nat) : parts :=
  mkParts (pt_p2p p) (pt_grpc p) n (pt_listeners p) (pt_sockets p) (pt_torCtx p) (pt_engine p) (pt_signaling p) (pt_wiring p).
Definition set_grpc (p : parts) (g : option bool) (w : sockets) : parts :=
  mkParts (pt_p2p p) g (pt_streams p) (pt_listeners p) w (pt_torCtx p) (pt_engine p) (pt_signaling p) (pt_wiring p).
Definition set_onion (p : parts) (c : context) (e : option (Engine (T := T))) (s : option Signaling.Server) (w : wiring_at) : parts :=
  mkParts (pt_p2p p) (pt_grpc p) (pt_streams p) (pt_listeners p) (pt_sockets p) c e s w.
Definition set_wiring (p : parts) (w : wiring_at) : parts := set_onion p (pt_torCtx p) (pt_engine p) (pt_signaling p) w.

(** What [Start] leaves, [host] saying whether libp2p is there and [engine] the engine that was made for Tor,
    with [tor] whether it started. *)
(** src: internal/daemon/daemon.go 160-192 Daemon.Start *)
Definition started (host : bool) (engine : option (Engine (T := T))) (tor : bool) (ls : list listener) (w : sockets) : parts :=
  mkParts (start_p2p host) (Some false) 0 ls w ((fun _ => false) <$> engine) engine None
    (match engine with Some _ => if tor then Waiting else Returned | None => Returned end).

(** ** The goroutine of [startTor] *)

(** Registering the node's service starts its onion. *)
(** src: internal/daemon/daemon.go 242-258 Daemon.startTor *)
Definition register_onion (p : parts) (mk : option nat) (w : write_outcome) : parts :=
  match pt_engine p with
  | None => set_wiring p Returned
  | Some e =>
      let '(r, e) := Tor.AddOnion id e NodeService None mk w in
      set_onion p (pt_torCtx p) (Some e) (pt_signaling p) (if is_ok r then Registered else Returned)
  end.

(** src: internal/daemon/daemon.go 370-396 Daemon.wireSubsystems *)
Definition wire_signaling (p : parts) (cfg : ServiceConfig) : parts :=
  match Signaling.AddService (SetEnvelopeHandler NewServer true) cfg with
  | (Err _, _) => set_wiring p Returned
  | (Ok _, sig) =>
      match Signaling.Start sig with
      | (Err _, _) => set_wiring p Returned
      | (Ok _, sig) => set_onion p (pt_torCtx p) (pt_engine p) (Some sig) Signaled
      end
  end.

(** The connector, and the reconnection under a context of its own. *)
(** src: internal/daemon/daemon.go 457-481 Daemon.wireSubsystems *)
Definition wire_connector (p : parts) : parts :=
  let x := pt_p2p p in
  let p := match pp_host x with
           | Some _ => if pp_presence x
                       then set_p2p p (mkP2P (pp_host x) (pp_handlers x) (pp_presence x) (pp_files x) (pp_chat x) (pp_pinger x) (Some false))
                       else p
           | None => p
           end in
  set_wiring p Returned.

(** ** Stop *)

Definition close_presence (x : p2p_parts) : p2p_parts := if pp_presence x then RemoveStreamHandler x ProtocolPresence else x.
Definition close_files (x : p2p_parts) : p2p_parts := if pp_files x then RemoveStreamHandler x ProtocolFileTransfer else x.
Definition close_chat (x : p2p_parts) : p2p_parts := if pp_chat x then RemoveStreamHandler x ProtocolChat else x.
Definition cancel_reconnect (x : p2p_parts) : p2p_parts :=
  mkP2P (pp_host x) (pp_handlers x) (pp_presence x) (pp_files x) (pp_chat x) (pp_pinger x) (cancel (pp_reconnect x)).
Definition cancel_pinger (x : p2p_parts) : p2p_parts :=
  mkP2P (pp_host x) (pp_handlers x) (pp_presence x) (pp_files x) (pp_chat x) (cancel (pp_pinger x)) (pp_reconnect x).
Definition close_host (x : p2p_parts) : p2p_parts :=
  mkP2P ((fun _ => true) <$> pp_host x) (pp_handlers x) (pp_presence x) (pp_files x) (pp_chat x) (pp_pinger x) (pp_reconnect x).

(** The statements of [Stop] in their order.  [GracefulStop] closes the listeners and refuses new streams, and
    then waits for those that are open; [None]: it still waits.  [removable]: the socket file can be removed. *)
(** src: internal/daemon/daemon.go 275-313 Daemon.Stop *)
Definition stop_statements (cfg : Config) (removable : bool) : list (parts -> option parts) := [
  fun p => Some (set_p2p p (cancel_reconnect (pt_p2p p)));
  fun p => Some (set_p2p p (cancel_pinger (pt_p2p p)));
  fun p => Some (set_p2p p (close_presence (pt_p2p p)));
  fun p => Some (set_p2p p (close_files (pt_p2p p)));
  fun p => Some (set_p2p p (close_chat (pt_p2p p)));
  fun p => Some (set_onion p (pt_torCtx p) (pt_engine p) (Signaling.Stop <$> pt_signaling p) (pt_wiring p));
  fun p => Some (match pt_grpc p with
                 | Some _ => set_grpc p (Some true) (fold_left close_listener (pt_listeners p) (pt_sockets p))
                 | None => p
                 end);
  fun p => match pt_grpc p with Some _ => if (pt_streams p =? 0)%nat then Some p else None | None => Some p end;
  fun p => Some (set_grpc p (pt_grpc p) (fold_left close_listener (pt_listeners p) (pt_sockets p)));
  fun p => Some (set_p2p p (close_host (pt_p2p p)));
  fun p => Some (set_onion p (cancel (pt_torCtx p)) (pt_engine p) (pt_signaling p) (pt_wiring p));
  fun p => Some (set_onion p (pt_torCtx p) ((fun e => (Tor.Stop e true).2) <$> pt_engine p) (pt_signaling p) (pt_wiring p));
  fun p => Some (set_grpc p (pt_grpc p)
                  (if negb (bool_decide (SocketPath cfg = ""%string)) && removable
                   then unlink (pt_sockets p) (SocketPath cfg) else pt_sockets p))
].

(** What else happens: the goroutine, and the clients with what they register while their streams are open. *)
Inductive others (p : parts) : parts -> Prop :=
| ot_ready : pt_wiring p = Waiting -> others p (set_wiring p Registering)
| ot_cancelled : pt_wiring p = Waiting -> pt_torCtx p = Some true -> others p (set_wiring p Returned)
| ot_register mk w : pt_wiring p = Registering -> others p (register_onion p mk w)
| ot_early : pt_wiring p = Registered -> others p (set_wiring p Returned)
| ot_signaling cfg : pt_wiring p = Registered -> others p (wire_signaling p cfg)
| ot_connector : pt_wiring p = Signaled -> others p (wire_connector p)
| ot_open : pt_grpc p = Some false -> others p (set_streams p (S (pt_streams p)))
| ot_close n : pt_streams p = S n -> others p (set_streams p n)
| ot_serve e name mk w sig cfg : pt_streams p <> 0%nat -> pt_engine p = Some e -> pt_signaling p = Some sig ->
    others p (set_onion p (pt_torCtx p) (Some (Tor.AddOnion id e name None mk w).2) (Some (Signaling.AddService sig cfg).2) (pt_wiring p)).

(** [Stop] at its statement of that number. *)
Inductive stopping (cfg : Config) (removable : bool) : parts * nat -> parts * nat -> Prop :=
| st_stop p k f p' : stop_statements cfg removable !! k = Some f -> f p = Some p' -> stopping cfg removable (p, k) (p', S k)
| st_others p k p' : others p p' -> stopping cfg removable (p, k) (p', k).

(** ** What is closed, and when *)

Definition released (w : sockets) (l : listener) : Prop :=
  match l with TcpListener a => a ∉ sk_tcp w | UnixListener path => sk_unix w !! path = None end.

Lemma released_close w l l' : released w l -> released (close_listener w l') l.
Proof. destruct l as [a|q], l' as [a'|q']; cbn; [set_solver|done|done|]. intros Hl. by apply lookup_delete_None; right. Qed.

Lemma close_released w l : released (close_listener w l) l.
Proof. destruct l as [a|q]; cbn; [set_solver|apply lookup_delete_eq]. Qed.

Lemma fold_released ls w l : (l ∈ ls \/ released w l) -> released (fold_left close_listener ls w) l.
Proof.
  revert w. induction ls as [|l' ls IH]; intros w; cbn [fold_left]; [by intros [?%elem_of_nil|]|].
  rewrite elem_of_cons. intros [[->|Hl]|Hl]; apply IH; [right; apply close_released|by left|right; by apply released_close].
Qed.

(** The protocol whose handler the statement of that number removes. *)
Definition handler_of (k : nat) : option string :=
  match k with 2 => Some ProtocolPresence | 3 => Some ProtocolFileTransfer | 4 => Some ProtocolChat | _ => None end%nat.

(** The parts of libp2p with [k] statements done. *)
Record p2p_at (k : nat) (x : p2p_parts) : Prop := {
  pa_parts : pp_host x = None /\ pp_handlers x = ∅ /\ pp_pinger x = None /\ pp_presence x = false /\ pp_files x = false /\ pp_chat x = false \/
    pp_host x = Some (bool_decide (9 < k)%nat) /\ pp_presence x = true /\ pp_files x = true /\ pp_chat x = true;
  pa_protocols : pp_handlers x ⊆ {[ProtocolChat; ProtocolFileTransfer; ProtocolPresence]};
  pa_pinger : (1 < k)%nat -> pp_pinger x <> Some false;
  pa_handlers : forall j proto, handler_of j = Some proto -> (j < k)%nat -> not (proto ∈ pp_handlers x)
}.

(** The daemon with [k] statements done, wherever the goroutine is. *)
Record stopped_at (ls : list listener) (k : nat) (p : parts) : Prop := {
  sa_p2p : p2p_at k (pt_p2p p);
  sa_grpc : pt_grpc p = Some (bool_decide (6 < k)%nat);
  sa_streams : (7 < k)%nat -> pt_streams p = 0%nat;
  sa_listeners : pt_listeners p = ls;
  sa_sockets : (6 < k)%nat -> forall l, l ∈ ls -> released (pt_sockets p) l;
  sa_torCtx : (10 < k)%nat -> pt_torCtx p <> Some false;
  sa_engine : forall e, pt_engine p = Some e -> en_stopped e = bool_decide (11 < k)%nat;
  sa_signaling : forall sig, pt_signaling p = Some sig -> sv_stopped sig = true -> sv_services sig = ∅
}.

(** The accept loops of the signaling server keep their services after [Stop] and go on until their listeners,
    which are the engine's, are closed. *)
Definition accepting (p : parts) (name : string) : Prop := exists sig e,
  pt_signaling p = Some sig /\ name ∈ sv_loops sig /\ pt_engine p = Some e /\ is_Some (Tor.OnionListener e name).

(** And when the goroutine had returned. *)
Record all_stopped_at (k : nat) (p : parts) : Prop := {
  al_returned : pt_wiring p = Returned;
  al_reconnect : (0 < k)%nat -> pp_reconnect (pt_p2p p) <> Some false;
  al_signaling : (5 < k)%nat -> forall sig, pt_signaling p = Some sig -> sv_stopped sig = true /\ sv_services sig = ∅;
  al_onions : (11 < k)%nat -> forall e, pt_engine p = Some e -> en_onions e = ∅
}.

Lemma AddOnion_stopped e name mk w : en_stopped (Tor.AddOnion id e name None mk w).2 = en_stopped e.
Proof.
  assert (forall e id, en_stopped (close_svc e id).2 = en_stopped e) as Hc.
  { intros e0 i. unfold close_svc. destruct (en_tor e0); [|done]. by destruct (CloseOnion _ _). }
  unfold Tor.AddOnion. case_bool_decide; [done|]. destruct (en_tor e); [|done]. destruct (en_onions e !! name); [done|].
  assert (forall key t, en_stopped (publish e t name key mk w).2 = en_stopped e) as Hp.
  { intros key t0. unfold publish. destruct (Listen t0 key) as [[[i k]|] t1]; [|done].
    destruct (match key with None => _ | Some _ => _ end) as [[|err] fs].
    - cbn [en_onions set_fs set_tor]. destruct (en_onions e !! name); [|done].
      pose proof (Hc (set_fs (set_tor e t1) fs) i) as Hi. by destruct (close_svc _ _).
    - pose proof (Hc (set_fs (set_tor e t1) fs) i) as Hi. by destruct (close_svc _ _). }
  destruct (match loadOnionKey _ _ with Ok k => _ | Err _ => _ end) as [key|err]; [|done].
  unfold id. destruct (en_tor e); [|done]. apply Hp.
Qed.

Lemma AddService_empty sig cfg : (sv_stopped sig = true -> sv_services sig = ∅) ->
  sv_stopped (Signaling.AddService sig cfg).2 = sv_stopped sig /\
  (sv_stopped sig = true -> sv_services (Signaling.AddService sig cfg).2 = ∅).
Proof.
  intros Hs. unfold Signaling.AddService. case_bool_decide; [done|]. destruct (cfg_Keypair cfg); [|done]. case_bool_decide; [done|].
  destruct (negb _); [done|]. destruct (sv_stopped sig) eqn:Hst; [by split|].
  destruct (sv_services sig !! _); (split; [cbn [snd sv_stopped]; congruence|done]).
Qed.

Lemma Stop_engine e closed : en_stopped (Tor.Stop e closed).2 = true /\ (en_stopped e = false -> en_onions (Tor.Stop e closed).2 = ∅).
Proof.
  unfold Tor.Stop. destruct (en_stopped e) eqn:He; [done|]. cbn [snd]. set (e1 := mkEngine _ _ _ _ _ _ _ _).
  assert (forall l e, en_stopped (fold_left (fun e svc => (close_svc e (on_ID svc)).2) l e) = en_stopped e /\
    en_onions (fold_left (fun e svc => (close_svc e (on_ID svc)).2) l e) = en_onions e) as Hf.
  { induction l as [|svc l IH]; intros e0; [done|]. cbn [fold_left]. destruct (IH (close_svc e0 (on_ID svc)).2) as [-> ->].
    unfold close_svc. destruct (en_tor e0); [|done]. by destruct (CloseOnion _ _). }
  destruct (Hf ((map_to_list (en_onions e)).*2) e1) as [-> ->]. by split.
Qed.

(** ** Every statement does its part *)

Lemma started_ok host engine tor ls w : (forall e, engine = Some e -> en_stopped e = false) ->
  stopped_at ls 0 (started host engine tor ls w).
Proof.
  intros He. constructor; try (intros; lia); try done.
  destruct host; constructor; cbn; try (intros; lia); first [by right|by left|set_solver].
Qed.

(** A change of Tor's parts alone. *)
Lemma onion_ok ls k p e sig wi : stopped_at ls k p ->
  (forall e', e = Some e' -> en_stopped e' = bool_decide (11 < k)%nat) ->
  (forall sg, sig = Some sg -> sv_stopped sg = true -> sv_services sg = ∅) ->
  stopped_at ls k (set_onion p (pt_torCtx p) e sig wi).
Proof. intros [] He Hs. by constructor. Qed.

Lemma reconnect_ok k x r : p2p_at k x ->
  p2p_at k (mkP2P (pp_host x) (pp_handlers x) (pp_presence x) (pp_files x) (pp_chat x) (pp_pinger x) r).
Proof. intros []. by constructor. Qed.

Lemma wiring_ok ls k p wi : stopped_at ls k p -> stopped_at ls k (set_wiring p wi).
Proof. intros Hp. apply onion_ok; [done|apply Hp|apply Hp]. Qed.

Lemma others_ok ls k p p' : stopped_at ls k p -> others p p' -> stopped_at ls k p'.
Proof.
  intros Hp Ho. pose proof (sa_engine _ _ _ Hp) as He. pose proof (sa_signaling _ _ _ Hp) as Hs. destruct Ho as
    [Hw|Hw Hc|mk w Hw|Hw|cfg Hw|Hw|Hg|n Hn|e name mk w sig cfg Hn Hen Hsig].
  - by apply wiring_ok.
  - by apply wiring_ok.
  - unfold register_onion. destruct (pt_engine p) as [e|] eqn:Hen; [|by apply wiring_ok].
    pose proof (AddOnion_stopped e NodeService mk w) as Ha. destruct (Tor.AddOnion _ _ _ _ _ _) as [r e'].
    apply onion_ok; [done| |done]. intros e0 [= <-]. cbn [snd] in Ha. rewrite Ha. by apply He.
  - by apply wiring_ok.
  - unfold wire_signaling. destruct (Signaling.AddService _ cfg) as [[|err] sig] eqn:Ha; [|by apply wiring_ok].
    pose proof (AddService_empty (SetEnvelopeHandler NewServer true) cfg) as Hst. rewrite Ha in Hst.
    destruct Hst as [Hst _]; [done|]. cbn [snd SetEnvelopeHandler NewServer sv_stopped] in Hst.
    unfold Signaling.Start. destruct (sv_started sig) eqn:Hsd.
    + apply onion_ok; [done|done|]. intros sg [= <-]. by rewrite Hst.
    + rewrite Hst. apply onion_ok; [done|done|]. intros sg [= <-]. done.
  - unfold wire_connector. apply wiring_ok. destruct (pp_host (pt_p2p p)) eqn:Hh; [|done]. destruct (pp_presence (pt_p2p p)) eqn:Hpr; [|done].
    rewrite <- Hh, <- Hpr. destruct Hp. constructor; try done. by apply reconnect_ok.
  - destruct Hp as [? Hgr ? ? ? ? ? ?]. constructor; try done. intros Hk. rewrite Hgr, bool_decide_eq_true_2 in Hg by lia. done.
  - destruct Hp as [? ? Hst ? ? ? ? ?]. constructor; try done. intros Hk. specialize (Hst Hk). cbn in *. lia.
  - apply onion_ok; [done| |].
    + intros e0 [= <-]. rewrite AddOnion_stopped. by apply He.
    + intros sg [= <-] Hst. destruct (AddService_empty sig cfg) as [Hs1 Hs2]; [by apply Hs|]. apply Hs2. by rewrite <- Hs1.
Qed.

(** A statement on the parts of libp2p, and one that leaves them. *)
Lemma p2p_statement ls k p x : k <> 6%nat -> k <> 7%nat -> k <> 8%nat -> k <> 10%nat -> k <> 11%nat -> stopped_at ls k p -> p2p_at (S k) x ->
  stopped_at ls (S k) (set_p2p p x).
Proof.
  intros ? ? ? ? ? [_ Hg Hst Hl Hs Hc He Hsg] Hx. assert (forall j, j <> k -> bool_decide (j < S k)%nat = bool_decide (j < k)%nat) as Hb
    by (intros j Hj; apply bool_decide_ext; lia).
  constructor; try done; cbn.
  - rewrite Hg, Hb by done. done.
  - intros ?. apply Hst. lia.
  - intros ?. apply Hs. lia.
  - intros ?. apply Hc. lia.
  - intros e Hen. rewrite Hb by done. by apply He.
Qed.

(** A statement that is not about these parts. *)
Lemma p2p_kept k x : k <> 1%nat -> k <> 9%nat -> (handler_of k = None \/ pp_host x = None) -> p2p_at k x -> p2p_at (S k) x.
Proof.
  intros Hk1 Hk9 Hk [Hf Hp Hpi Hh]. constructor; try done.
  - destruct Hf as [?|[-> ?]]; [by left|right]. split; [|done]. f_equal. apply bool_decide_ext. lia.
  - intros ?. apply Hpi. lia.
  - intros j proto Hj Hlt. destruct (decide (j = k)) as [->|]; [|apply (Hh j); [done|lia]].
    destruct Hk as [Hk|Hk]; [by rewrite Hk in Hj|]. destruct Hf as [(_ & -> & _)|[Hf _]]; [set_solver|congruence].
Qed.

(** A statement that removes a handler. *)
Lemma p2p_removed k proto x : k <> 1%nat -> k <> 9%nat -> handler_of k = Some proto -> p2p_at k x -> p2p_at (S k) (RemoveStreamHandler x proto).
Proof.
  intros Hk1 Hk9 Hk [Hf Hp Hpi Hh].
  constructor; cbn [RemoveStreamHandler pp_handlers pp_host pp_pinger pp_presence pp_files pp_chat].
  - destruct Hf as [(? & -> & ?)|[-> ?]]; [left; split; [done|]; split; [set_solver|done]|right]. split; [|done]. f_equal.
    apply bool_decide_ext. lia.
  - set_solver.
  - intros ?. apply Hpi. lia.
  - intros j proto' Hj Hlt. destruct (decide (j = k)) as [->|]; [assert (proto' = proto) as -> by congruence; set_solver|].
    specialize (Hh j proto' Hj ltac:(lia)). set_solver.
Qed.

(** The three handlers, each removed by its owner when there is one. *)
Lemma close_owned k proto (owned : p2p_parts -> bool) x : k <> 1%nat -> k <> 9%nat -> handler_of k = Some proto ->
  (owned x = false -> pp_host x = None) -> p2p_at k x -> p2p_at (S k) (if owned x then RemoveStreamHandler x proto else x).
Proof.
  intros Hk1 Hk9 Hk Ho Hx. destruct (owned x); [by apply p2p_removed|]. apply p2p_kept; try done. right. by apply Ho.
Qed.

Lemma p2p_stop k x : p2p_at k x ->
  (k = 0%nat -> p2p_at 1 (cancel_reconnect x)) /\ (k = 1%nat -> p2p_at 2 (cancel_pinger x)) /\ (k = 2%nat -> p2p_at 3 (close_presence x)) /\
  (k = 3%nat -> p2p_at 4 (close_files x)) /\ (k = 4%nat -> p2p_at 5 (close_chat x)) /\ (k = 9%nat -> p2p_at 10 (close_host x)).
Proof.
  intros Hx. pose proof Hx as [Hf Hp Hpi Hh]. split_and!; intros ->.
  - apply reconnect_ok, p2p_kept; try done. by left.
  - constructor; cbn; try done; [|by destruct (pp_pinger x)|intros j proto Hj Hlt; apply (Hh j); [done|]].
    + destruct Hf as [(? & ? & -> & ?)|?]; [by left|by right].
    + destruct j as [|[|]]; [done..|lia].
  - apply (close_owned 2 ProtocolPresence pp_presence); try done. destruct Hf as [?|(_ & -> & _)]; [tauto|done].
  - apply (close_owned 3 ProtocolFileTransfer pp_files); try done. destruct Hf as [?|(_ & _ & -> & _)]; [tauto|done].
  - apply (close_owned 4 ProtocolChat pp_chat); try done. destruct Hf as [?|(_ & _ & _ & ->)]; [tauto|done].
  - constructor; cbn [close_host pp_handlers pp_host pp_pinger pp_presence pp_files pp_chat]; try done; [|intros _; apply Hpi; lia|].
    + destruct Hf as [(-> & ?)|[-> ?]]; [by left|by right].
    + intros j proto Hj Hlt. apply (Hh j); [done|]. destruct (decide (j = 9%nat)) as [->|]; [done|lia].
Qed.
(** The sockets once they are closed stay closed. *)
Lemma closed_sockets ls w : forall l, l ∈ ls -> released (fold_left close_listener ls w) l.
Proof. intros l Hl. apply fold_released. by left. Qed.

(** The statements on libp2p, and those on the rest. *)
Lemma stop_p2p cfg removable ls k f p p' : k ∈ [0; 1; 2; 3; 4; 9]%nat -> stop_statements cfg removable !! k = Some f -> f p = Some p' ->
  stopped_at ls k p -> stopped_at ls (S k) p'.
Proof.
  intros Hk Hf Hp Hs. pose proof (p2p_stop k (pt_p2p p) (sa_p2p _ _ _ Hs)) as (Hp0 & Hp1 & Hp2 & Hp3 & Hp4 & Hp9).
  rewrite !elem_of_cons, elem_of_nil in Hk. destruct Hk as [->|[->|[->|[->|[->|[->|[]]]]]]]; injection Hf as <-; injection Hp as <-;
    apply p2p_statement; auto.
Qed.

Lemma stop_rest cfg removable ls k f p p' : k ∈ [5; 6; 7; 8; 10; 11; 12]%nat -> stop_statements cfg removable !! k = Some f -> f p = Some p' ->
  stopped_at ls k p -> stopped_at ls (S k) p'.
Proof.
  intros Hk Hf Hp [Hx Hg Hst Hl Hso Hc He Hsg].
  assert (p2p_at (S k) (pt_p2p p)) as Hx'.
  { rewrite !elem_of_cons, elem_of_nil in Hk. destruct Hk as [->|[->|[->|[->|[->|[->|[->|[]]]]]]]]; apply p2p_kept; auto. }
  rewrite !elem_of_cons, elem_of_nil in Hk. destruct Hk as [->|[->|[->|[->|[->|[->|[->|[]]]]]]]]; injection Hf as <-.
  - injection Hp as <-. constructor; try done; try (cbn; intros; lia). cbn. destruct (pt_signaling p) as [sig|]; [|done].
    intros sg [= <-]. unfold Signaling.Stop. destruct (sv_stopped sig) eqn:Hsp; [by apply Hsg|done].
  - injection Hp as <-. rewrite Hg. constructor; try done; try (cbn; intros; lia). intros _. rewrite Hl. apply closed_sockets.
  - rewrite Hg in Hp. destruct (Nat.eqb_spec (pt_streams p) 0) as [Hz|]; [|done]. injection Hp as <-. constructor; try done; try (cbn; intros; lia). intros _. apply Hso. lia.
  - injection Hp as <-. constructor; try done; try (cbn; intros; lia). intros _. rewrite Hl. apply closed_sockets.
  - injection Hp as <-. constructor; try done; [by intros _; apply Hst; lia|by intros _; apply Hso; lia|]. intros _. cbn.
    by destruct (pt_torCtx p).
  - injection Hp as <-. constructor; try done; [by intros _; apply Hst; lia|by intros _; apply Hso; lia|by intros _; apply Hc; lia|].
    cbn. destruct (pt_engine p) as [e|]; [|done]. intros e' [= <-]. apply Stop_engine.
  - injection Hp as <-. constructor; try done; [by intros _; apply Hst; lia| |by intros _; apply Hc; lia]. intros _ l Hin. cbn.
    destruct (_ && _); [apply (released_close _ _ (UnixListener (SocketPath cfg)))|]; apply Hso; done || lia.
Qed.

Lemma stopping_ok cfg removable ls s s' : stopping cfg removable s s' -> stopped_at ls s.2 s.1 -> stopped_at ls s'.2 s'.1.
Proof.
  intros [p k f p' Hf Hp|p k p' Ho] Hs; cbn [fst snd] in *; [|by eapply others_ok].
  assert (k < 13)%nat as Hk by (by apply lookup_lt_Some in Hf).
  destruct (decide (k ∈ [0; 1; 2; 3; 4; 9]%nat)) as [Hin|Hin]; [by eapply stop_p2p|eapply stop_rest; [|done..]].
  revert Hin. rewrite !elem_of_cons, !elem_of_nil. lia.
Qed.
(** ** When the goroutine has returned *)

Lemma returned_others ls k p p' : stopped_at ls k p -> others p p' -> all_stopped_at k p -> all_stopped_at k p'.
Proof.
  intros Hs Ho [Hr Hrc Hsg Hon]. destruct Ho as [Hw|Hw Hc|mk w Hw|Hw|cfg Hw|Hw|Hg|n Hn|e name mk w sig cfg Hn Hen Hsig]; try congruence;
    constructor; try done.
  - intros Hk sg [= <-]. destruct (Hsg Hk sig Hsig) as [Hst Hem].
    destruct (AddService_empty sig cfg) as [Hs1 Hs2]; [done|]. split; [by rewrite Hs1|by apply Hs2].
  - intros Hk. exfalso. apply Hn, (sa_streams _ _ _ Hs). lia.
Qed.

(** The statement of a number [k] other than these three leaves what they closed. *)
Lemma returned_stop cfg removable ls k f p p' : stop_statements cfg removable !! k = Some f -> f p = Some p' -> stopped_at ls k p ->
  all_stopped_at k p -> all_stopped_at (S k) p'.
Proof.
  intros Hf Hp Hs [Hr Hrc Hsg Hon]. pose proof (sa_engine _ _ _ Hs) as He. pose proof (sa_signaling _ _ _ Hs) as Hem.
  assert (k < 13)%nat as Hk by (by apply lookup_lt_Some in Hf).
  pose proof (sa_grpc _ _ _ Hs) as Hg.
  destruct k as [|[|[|[|[|[|[|[|[|[|[|[|[|]]]]]]]]]]]]]; [..|lia]; injection Hf as <-; cbn beta in Hp; rewrite ?Hg in Hp;
    match type of Hp with context [if ?b then _ else None] => destruct b; [|done] | _ => idtac end; injection Hp as <-;
    constructor; try done; try (cbn; intros; lia); try (intros _; apply Hrc; lia); try (intros _; apply Hsg; lia); intros _.
  - cbn. by destruct (pp_reconnect _).
  - cbn. unfold close_presence. destruct (pp_presence _); apply Hrc; lia.
  - cbn. unfold close_files. destruct (pp_files _); apply Hrc; lia.
  - cbn. unfold close_chat. destruct (pp_chat _); apply Hrc; lia.
  - cbn. destruct (pt_signaling p) as [sig|]; [|done]. intros sg [= <-]. unfold Signaling.Stop.
    destruct (sv_stopped sig) eqn:Hsp; [split; [done|by apply Hem]|done].
  - cbn. destruct (pt_engine p) as [e|]; [|done]. intros e' [= <-]. apply Stop_engine. by apply He.
  - apply Hon. lia.
Qed.

(** ** Where [Stop] waits *)

Lemma stop_goes_on cfg removable ls k p : stopped_at ls k p -> (k < 13)%nat ->
  (exists p', stopping cfg removable (p, k) (p', S k)) \/ k = 7%nat /\ pt_streams p <> 0%nat.
Proof.
  intros Hs Hk. pose proof (sa_grpc _ _ _ Hs) as Hg. destruct (decide (k = 7%nat)) as [->|Hne].
  - destruct (pt_streams p) eqn:Hst; [left|by right]. exists p. eapply st_stop; [reflexivity|]. cbn beta. by rewrite Hg, Hst.
  - left. destruct k as [|[|[|[|[|[|[|[|[|[|[|[|[|]]]]]]]]]]]]]; try done; try lia; eexists; eapply st_stop; reflexivity.
Qed.

(** A wiring that the first statements miss. *)
Lemma wire_signaling_up p c : servable NodeService c -> exists sig, sv_stopped sig = false /\ is_Some (sv_services sig !! NodeService) /\
  wire_signaling p c = set_onion p (pt_torCtx p) (pt_engine p) (Some sig) Signaled.
Proof.
  intros (Hn & Hne & [kp Hk] & Ha & Hl). unfold wire_signaling, Signaling.AddService.
  rewrite bool_decide_eq_false_2, Hk, bool_decide_eq_false_2, Hl by congruence. cbn [negb SetEnvelopeHandler NewServer sv_stopped sv_services].
  rewrite lookup_empty. unfold Signaling.Start. cbn [sv_started sv_stopped]. eexists. split; [|split; [|reflexivity]]; [done|].
  cbn [sv_services]. rewrite lookup_fmap, Hn, lookup_insert_eq. by eexists.
Qed.
(** What a statement leaves. *)
Definition kept (late : bool) (p p' : parts) : Prop :=
  pt_wiring p' = pt_wiring p /\ pt_streams p' = pt_streams p /\ pp_presence (pt_p2p p') = pp_presence (pt_p2p p) /\
  (late = true -> pt_signaling p' = pt_signaling p /\ pp_reconnect (pt_p2p p') = pp_reconnect (pt_p2p p)).

Lemma statement_kept cfg removable k f p p' : stop_statements cfg removable !! k = Some f -> f p = Some p' -> kept (6 <=? k)%nat p p'.
Proof.
  intros Hf Hp. unfold kept. assert (k < 13)%nat as Hk by (by apply lookup_lt_Some in Hf).
  destruct k as [|[|[|[|[|[|[|[|[|[|[|[|[|]]]]]]]]]]]]]; [..|lia]; injection Hf as <-; cbn beta in Hp;
    try (injection Hp as <-); cbn; unfold close_presence, close_files, close_chat; go_cases; split_and!; done.
Qed.

(** With no stream open [Stop] runs from any statement to any later one. *)
Lemma run_statements cfg removable ls m k p : stopped_at ls k p -> pt_streams p = 0%nat -> (k <= m <= 13)%nat ->
  exists p', star (stopping cfg removable) (p, k) (p', m) /\ stopped_at ls m p' /\ kept (6 <=? k)%nat p p'.
Proof.
  intros Hs Hst [Hkm Hm]. remember (m - k)%nat as d eqn:Hd. revert k p Hs Hst Hkm Hd. induction d as [|d IH]; intros k p Hs Hst Hkm Hd.
  { assert (m = k) as -> by lia. exists p. split; [constructor|]. split; [done|]. by unfold kept. }
  destruct (stop_goes_on cfg removable ls k p Hs ltac:(lia)) as [[p1 Hstep]|[_ ?]]; [|done].
  pose proof (stopping_ok _ _ _ _ _ Hstep Hs) as Hs1. cbn [fst snd] in Hs1.
  assert (kept (6 <=? k)%nat p p1) as Hk.
  { inversion Hstep as [? ? f ? Hf Hp|]; subst; [by eapply statement_kept|lia]. }
  destruct (IH (S k) p1) as (p' & Hrun & Hs' & Hk'); [done|by destruct Hk as (_ & -> & _)|lia|lia|].
  exists p'. split; [by eapply star_step|]. split; [done|]. destruct Hk as (Hw & Hn & Hpr & Hl), Hk' as (Hw' & Hn' & Hpr' & Hl').
  split; [congruence|]. split; [congruence|]. split; [congruence|]. intros Hlate. destruct (Hl Hlate) as [? ?].
  apply Nat.leb_le in Hlate. destruct Hl' as [? ?]; [apply Nat.leb_le; lia|split; congruence].
Qed.

(** [Stop] reads the server and the reconnection before the goroutine assigns them. *)
Lemma overlap cfg removable p ls c : stopped_at ls 0 p -> pt_wiring p = Registered -> pt_streams p = 0%nat ->
  pp_presence (pt_p2p p) = true -> servable NodeService c -> exists p' sig,
    star (stopping cfg removable) (p, 0%nat) (p', 13%nat) /\ pt_signaling p' = Some sig /\ sv_stopped sig = false /\
    is_Some (sv_services sig !! NodeService) /\ pp_reconnect (pt_p2p p') = Some false.
Proof.
  intros Hs Hw Hst Hpr Hc. destruct (run_statements cfg removable ls 6 0 p Hs Hst) as (p1 & Hrun1 & Hs1 & (Hw1 & Hst1 & Hpr1 & _)); [lia|].
  destruct (wire_signaling_up p1 c Hc) as (sig & Hup & Hsv & Hsig).
  assert (others p1 (wire_signaling p1 c)) as Ho1 by (apply ot_signaling; congruence).
  pose proof (others_ok _ _ _ _ Hs1 Ho1) as Hs2. rewrite Hsig in Ho1, Hs2. set (p2 := set_onion _ _ _ _ _) in *.
  assert (others p2 (wire_connector p2)) as Ho2 by (by apply ot_connector).
  pose proof (others_ok _ _ _ _ Hs2 Ho2) as Hs3.
  assert (pp_presence (pt_p2p p2) = true) as Hpr2 by (cbn; congruence).
  assert (pt_signaling (wire_connector p2) = Some sig /\ pp_reconnect (pt_p2p (wire_connector p2)) = Some false /\
    pt_streams (wire_connector p2) = pt_streams p1) as (Hg3 & Hr3 & Hst3).
  { destruct (pa_parts _ _ (sa_p2p _ _ _ Hs2)) as [(_ & _ & _ & Hno & _)|[Hh _]]; [congruence|].
    unfold wire_connector. rewrite Hh, Hpr2. done. }
  destruct (run_statements cfg removable ls 13 6 _ Hs3) as (p3 & Hrun3 & _ & (_ & _ & _ & Hl)); [congruence|lia|].
  destruct (Hl eq_refl) as [Hg4 Hr4]. exists p3, sig. split; [|split; [congruence|split; [done|split; [done|congruence]]]].
  eapply star_trans; [exact Hrun1|]. eapply star_step; [by apply st_others|]. eapply star_step; [by apply st_others|]. exact Hrun3.
Qed.

(** A daemon on its way, with or without a host. *)
Definition on_the_way (ls : list listener) (host : bool) (s : parts * nat) : Prop :=
  stopped_at ls s.2 s.1 /\ pp_presence (pt_p2p s.1) = host.

Lemma others_presence p p' : others p p' -> pp_presence (pt_p2p p') = pp_presence (pt_p2p p).
Proof.
  intros Ho. destruct Ho; try done; unfold register_onion, wire_signaling, wire_connector; go_cases; done.
Qed.

Lemma on_the_way_stopping cfg removable ls host s s' : on_the_way ls host s -> stopping cfg removable s s' -> on_the_way ls host s'.
Proof.
  intros [Hs Hp] Hst. split; [by eapply stopping_ok|]. destruct Hst as [p k f p' Hf Hfp|p k p' Ho]; cbn [fst] in *.
  - destruct (statement_kept _ _ _ _ _ _ Hf Hfp) as (_ & _ & -> & _). done.
  - by rewrite (others_presence _ _ Ho).
Qed.

Lemma on_the_way_others ls host p p' : on_the_way ls host (p, 0%nat) -> others p p' -> on_the_way ls host (p', 0%nat).
Proof. intros [Hs Hp] Ho. split; [by eapply others_ok|]. cbn [fst] in *. by rewrite (others_presence _ _ Ho). Qed.

Lemma returned_stopping cfg removable ls s s' : stopped_at ls s.2 s.1 /\ all_stopped_at s.2 s.1 -> stopping cfg removable s s' ->
  stopped_at ls s'.2 s'.1 /\ all_stopped_at s'.2 s'.1.
Proof.
  intros [Hs Ha] Hst. split; [by eapply stopping_ok|].
  destruct Hst as [p k f p' Hf Hp|p k p' Ho]; cbn [fst snd] in *; [by eapply returned_stop|by eapply returned_others].
Qed.

(** C30. Shutdown.  A daemon stops at any moment of its wiring, with clients coming and going meanwhile.  At every
    moment, when the first [k] of the thirteen statements of [Stop] are done: the handlers of streams are
    removed before the API drains, new API streams are refused and the listeners closed from then on, libp2p is
    open until the last API stream has ended and closed after, and Tor stops last.  [Stop] can always go on,
    except while it waits for a stream of a client.  If the wiring had returned when [Stop] began, then the
    reconnection is cancelled, the signaling server is stopped without services, and in the end no onion is
    left and none of its accept loops has a listener.  If it had not, the signaling server and the
    reconnection can outlive [Stop]. *)
Theorem shutdown_contract cfg removable host engine tor ls w p1 p k :
  (forall e, engine = Some e -> en_stopped e = false) ->
  star others (started host engine tor ls w) p1 -> star (stopping cfg removable) (p1, 0%nat) (p, k) ->
  ((1 < k)%nat -> pp_pinger (pt_p2p p) <> Some false) /\
  ((4 < k)%nat -> pp_handlers (pt_p2p p) = ∅) /\
  ((6 < k)%nat -> pt_grpc p = Some true /\ forall l, l ∈ ls -> released (pt_sockets p) l) /\
  ((7 < k)%nat -> pt_streams p = 0%nat) /\
  pp_host (pt_p2p p) = (if host then Some (bool_decide (9 < k)%nat) else None) /\
  ((10 < k)%nat -> pt_torCtx p <> Some false) /\
  (forall e, pt_engine p = Some e -> en_stopped e = bool_decide (11 < k)%nat) /\
  ((k < 13)%nat -> (exists p', stopping cfg removable (p, k) (p', S k)) \/ k = 7%nat /\ pt_streams p <> 0%nat) /\
  (pt_wiring p1 = Returned ->
     ((0 < k)%nat -> pp_reconnect (pt_p2p p) <> Some false) /\
     ((5 < k)%nat -> forall sig, pt_signaling p = Some sig -> sv_stopped sig = true /\ sv_services sig = ∅) /\
     ((11 < k)%nat -> (forall e, pt_engine p = Some e -> en_onions e = ∅) /\ forall name, not (accepting p name))) /\
  (forall c, pt_wiring p1 = Registered -> pt_streams p1 = 0%nat -> host = true -> servable NodeService c -> exists p2 sig,
     star (stopping cfg removable) (p1, 0%nat) (p2, 13%nat) /\ pt_signaling p2 = Some sig /\ sv_stopped sig = false /\
     is_Some (sv_services sig !! NodeService) /\ pp_reconnect (pt_p2p p2) = Some false).
Proof.
  intros He Hbefore Hrun. assert (on_the_way ls host (p1, 0%nat)) as Hway.
  { apply (star_invariant others (fun p => on_the_way ls host (p, 0%nat)) (on_the_way_others ls host) _ _ Hbefore).
    split; [by apply started_ok|by destruct host]. }
  destruct (star_invariant _ _ (on_the_way_stopping cfg removable ls host) _ _ Hrun Hway) as [Hs Hp]. cbn [fst snd] in Hs, Hp.
  pose proof Hs as [Hx Hg Hst Hl Hso Hc Hen Hsg]. split; [apply Hx|]. split; [|split; [|split; [exact Hst|split; [|split; [exact Hc|split; [exact Hen|split; [|split]]]]]]].
  - intros Hk. apply set_eq. intros proto. split; [|set_solver]. intros Hin. pose proof (pa_protocols _ _ Hx proto Hin) as Hpr.
    rewrite !elem_of_union, !elem_of_singleton in Hpr.
    destruct Hpr as [[->| ->]| ->]; [destruct (pa_handlers _ _ Hx 4 ProtocolChat)|destruct (pa_handlers _ _ Hx 3 ProtocolFileTransfer)
      |destruct (pa_handlers _ _ Hx 2 ProtocolPresence)]; done || lia.
  - intros Hk. split; [by rewrite Hg, bool_decide_eq_true_2|by apply Hso].
  - destruct (pa_parts _ _ Hx) as [(-> & _ & _ & Hn & _)|(-> & Hy & _)]; rewrite <- Hp; [by rewrite Hn|by rewrite Hy].
  - intros Hk. by apply stop_goes_on with ls.
  - intros Hr. destruct (star_invariant _ _ (returned_stopping cfg removable ls) _ _ Hrun) as [_ [_ Hrc Hsp Hon]].
    2: { split; [done|]. split; [done|]. intros Hk. split; [by apply Hon|]. intros name (sig & e & _ & _ & Hpe & Hli).
      unfold Tor.OnionListener in Hli. rewrite (Hon Hk e Hpe), lookup_empty in Hli. by destruct Hli. }
    split; [apply Hway|]. constructor; [done|cbn; lia..].
  - intros c Hw Hz -> Hsv. apply (overlap cfg removable p1 ls c); [apply Hway|done|done|apply Hway|done].
Qed.
End shutdown.

Section samples.
Import Toy ToyTor.

Definition up_engine : Engine (T := process) := set_tor (NewEngine "/data" ∅) (1, ∅).
Definition up_listeners : list listener := [TcpListener "127.0.0.1:9090"].
Definition just_started : parts (T := process) :=
  started true (Some up_engine) true up_listeners (mkSockets {["127.0.0.1:9090"%string]} ∅).
Definition just_registered : parts (T := process) := register_onion (set_wiring just_started Registering) None WriteOk.
Definition node_service : ServiceConfig :=
  mkConfig NodeService (Some (sample_keypair 1)) (DeriveAddress (kp_pub (sample_keypair 1))) None None true None.

Lemma just_registered_reached : star others just_started just_registered.
Proof. eapply star_step; [by apply ot_ready|]. eapply star_step; [by apply ot_register|]. apply star_refl. Qed.

Lemma node_service_servable : servable NodeService node_service.
Proof. split; [done|]. split; [done|]. split; [by eexists|]. split; [vm_compute; discriminate|done]. Qed.

(** A daemon told to stop between its registration and its wiring: what [Stop] closes, and what it misses. *)
Lemma shutdown_contract_witness : exists p,
  star (stopping (DefaultConfig "/home/ada") true) (just_registered, 0%nat) (p, 13%nat) /\
  pp_host (pt_p2p p) = Some true /\ pp_handlers (pt_p2p p) = ∅ /\ released (pt_sockets p) (TcpListener "127.0.0.1:9090") /\
  pp_reconnect (pt_p2p p) = Some false.
Proof.
  assert (forall e, Some up_engine = Some e -> en_stopped e = false) as He by (intros e [= <-]; reflexivity).
  destruct (shutdown_contract (DefaultConfig "/home/ada") true true (Some up_engine) true up_listeners _ just_registered just_registered 0
    He just_registered_reached (star_refl _ _)) as (_ & _ & _ & _ & _ & _ & _ & _ & _ & Hrace).
  destruct (Hrace node_service) as (p & sig & Hrun & _ & _ & _ & Hre); [vm_compute; reflexivity|reflexivity|reflexivity|apply node_service_servable|].
  destruct (shutdown_contract (DefaultConfig "/home/ada") true true (Some up_engine) true up_listeners _ just_registered p 13
    He just_registered_reached Hrun) as (_ & Hh & Hg & _ & Hho & _).
  exists p. split; [exact Hrun|]. split; [rewrite Hho; reflexivity|]. split; [apply Hh; lia|].
  split; [apply Hg; [lia|by apply list_elem_of_singleton]|exact Hre].
Defined.
End samples.
